(* ===== verification/_CoqProject ===== *)
-Q . S2P
Prelude.v
CString.v
Terminal.v
RawMemory.v
Allocator.v
Heap.v
Kernel.v
Process.v
Invariant.v
Scheduler.v
Lifecycle.v
Signals.v
SchedulerSpec.v
Idt.v
Timer.v
Pipe.v
Keyboard.v
Paging.v
PagingSpec.v
Usermode.v
Syscall.v
SyscallBuffers.v
SyscallSpec.v
Disk.v
Filesystem.v
FilesystemSpec.v
DirectorySpec.v
Loader.v
LoaderSpec.v
Coreutils.v
CoreutilsSpec.v
Shell.v
ShellSpec.v
Boot.v
BootSpec.v
