(* ===== verification/Prelude.v ===== *)
(** * The curnel kernel: a verification library

    curnel is a small 64-bit kernel in C: a boot sequence (kernel.c), a heap
    (memory.c), frames and page tables (paging.c), descriptors, user pointers and
    a program loader (usermode.c), interrupts (idt.c), a timer (timer.c), a
    keyboard (keyboard.c), processes (process.c), signals (signals.c), pipes
    (pipe.c), system calls (syscall.c), a FAT32 file system (filesystem.c) and a
    shell with its commands (shell.c, coreutils.c).  This library translates
    those files into executable Rocq functions and proves what they do.  The
    names of the definitions are those of the source.

    ** How the code is modelled

    A C integer is a [Z] with its wrap-around written out ([u8] to [u64], [s32]
    below); a C string is the list of its bytes.  The statics of a file are a
    record that each operation takes and returns.  A pointer into a table is an
    index, [NULL] is [None]; a pointer into raw memory (heap, bitmap, page
    tables, user memory) is an address in a byte-addressed memory (RawMemory.v).
    The result [None] of a partial operation is undefined behaviour (an access
    outside a buffer, an overflow of [int], a division by zero) or a loop that
    has used up its fuel; error codes of the source are ordinary results.
    A message the source prints is written to the modelled screen.

    ** The files and what they model

    - [Prelude]: integers, loops, the hints and tactics all files share.
      [CString]: [strlen], [strcmp], [atoi] and the two [int_to_string]s of
      kernel.c, idt.c and coreutils.c.  [RawMemory]: loads, stores, [memset].
    - [Terminal]: the VGA terminal of kernel.c.
    - [Heap]: memory.c, with lists of blocks as its specification.  [Allocator]:
      the class that states what the heap promises: which pointers are in use,
      that the blocks behind them are disjoint and have the size asked for, and
      that a store into one leaves the others alone; processes, pipes, signals,
      system calls and the shell are proved against it, and Heap.v has the
      instance.
    - [Kernel]: the state of process.c, signals.c, timer.c and pipe.c.
      [Process]: process.c and the part of signals.c it is mutually recursive
      with; [Signals]: the rest of signals.c; [Timer], [Pipe]: timer.c, pipe.c.
      [Invariant] states [kernel_wf], which all of them keep; [Scheduler],
      [Lifecycle] and [SchedulerSpec] prove it and what scheduling, creation and
      exit of processes do.
    - [Idt], [Keyboard]: idt.c, keyboard.c.
    - [Paging]: paging.c, with the map [translate] from addresses to entries as
      the specification of the page tables under the invariant [paging_wf];
      [PagingSpec] has the theorems.
    - [Usermode]: the descriptors, the task state and the user pointers of
      usermode.c; [Loader], [LoaderSpec]: its [usermode_load_program].
    - [Syscall], [SyscallSpec]: syscall.c over the kernel, the user memory and
      the keyboard.  The kernel buffers of the calls are blocks of the heap: the
      bytes are stored there and read back, so that a buffer that is too small is
      overrun; [SyscallBuffers] has their lemmas and those of the user pointers.
    - [Disk]: the disk as a class with a RAM disk as instance.  [Filesystem]:
      filesystem.c; [FilesystemSpec]: the FAT as a function and a file as the
      bytes of its chain; [DirectorySpec]: the root directory as a list of entries.
    - [Coreutils], [CoreutilsSpec], [Shell], [ShellSpec]: coreutils.c and shell.c.
      A slot of the history is a pointer together with the string it points to;
      [strdup] stores the string in its block as well, and [history_in_heap]
      states that the heap holds the strings of the slots.
    - [Boot], [BootSpec]: [kernel_main] and [shell_process] of kernel.c, which
      compose the modules over one memory and one screen.

    The modules interact through calls: [kernel_main] initialises all of them; an
    interrupt goes through [isr_handler] to [timer_handler], [keyboard_handler]
    or [syscall_handler]; the timer calls [schedule], which delivers signals,
    which may exit a process and schedule again; [pipe_read] and [pipe_write]
    block through [schedule]; the system calls check user pointers against the
    page tables and copy through buffers of the heap; the shell runs commands,
    which use the file system, the process table and the screen.

    ** What the theorems show

    - The heap: [kmalloc] and [kfree] keep the list of blocks well formed, hand
      out disjoint live blocks, merge free neighbours and change no live byte.
    - Processes: [schedule] terminates, is round robin and fair; creation and
      exit change exactly what they should; a signal is delivered by its number,
      mask and handler.
    - Pipes are byte queues; a write and a read of two programs through them move
      the bytes from one address space to the other and give their kernel buffers
      back.  Every system call that has nothing to wait for ([SyscallSpec.at_once])
      keeps the invariant and writes no byte the program could not write.
    - Page tables refine the insertion and removal of pages of an address space;
      the pointer check of usermode.c answers exactly whether every byte of a
      range that does not wrap around is accessible; a loaded program starts at
      the entry point of its file and sees exactly the segments of the file with
      their rights and bytes, its stack and the kernel's half.
    - The FAT reads back what was written; [fs_open] looks a name up in the root
      directory; [fs_read] and [fs_write] read and overwrite the bytes of the file,
      and what was written is there when the file is opened again; allocation finds
      the first free cluster.
    - The command line is cut into words as a reference tokenizer does; [echo] and
      [cp] move text; the line and the history of the shell refine an abstract
      editor and a queue.
    - The timer, the keyboard, the terminal and the gates of the interrupt table
      do what their names say, with their overflows and limits.
    - The boot establishes the invariant on a well-formed heap.  The boot as it is
      written does not have one: the frame bitmap lies over the heap, so the
      shell's stack is cut out of the bitmap, and the shell is never dispatched.

    Several theorems state a behaviour that the code has and does not mean to
    have, as it is: [FilesystemSpec.readdir_misses_entry], the two on the boot,
    the line editor of [ShellSpec], which drops the text after the cursor, and
    the stack of [LoaderSpec.load_program_spec].

    ** Fuel and bounds

    - [schedule] needs [3 r + 1] levels of recursion for [r] processes that can
      run ([SchedulerSpec.schedule_terminates]): each level ends with one fewer.
    - The heap's loops get [HEAP_FUEL], the size of the arena over the size of a
      header plus two; a well-formed list is never that long.
    - The waits of pipes, [sleep] and the keyboard and the loops of the file
      system and of pointer checks take a number of turns as an argument; the
      theorems say how many are enough (the length of the chain, the pages of the
      range) or show that a wait goes on for any number of them.
    - The shell runs over the list of keyboard events it receives; [kernel_main]
      over the number of turns of its endless loop.

    ** Parameters

    What no file under src/ defines is a parameter or an interface: the disk
    driver ([Disk], with its laws); the file functions as coreutils.c declares
    them ([file_api]); [free], the keyboard functions and the key codes of
    shell.c; [fs_mkdir] and [fs_unlink] as syscall.c calls them; [boot_pml4]; the
    addresses the linker gives to the stubs and handlers ([symbols]); signal
    handlers and timer callbacks, which may do anything that keeps the invariant;
    what ends a [hlt]; the contents of uninitialised locals.

    ** Not modelled

    - boot.asm and isr.asm, and in usermode.c [usermode_jump], [gdt_flush] and
      [tss_flush]: assembly.  [switch_to_process] and [schedule] of the source
      change tables only and switch no stack, and so does the model.
    - [paging_flush_tlb], [paging_flush_tlb_all] and the loads of CR3: no effect
      on the modelled state; [inb] and [outb]: the values read are arguments, the
      values written a log.
    - [fs_mkdir], [fs_unlink] and [fs_stat] of filesystem.h have no body.
    - The second copies in signals.c of five system calls are the text of those in
      syscall.c, which are modelled; the two different [sys_kill]s both are.
    - [test_pipe], [test_signals], [test_process] and [test_process_groups] of
      kernel.c are called from nowhere, and their child branches run after a
      context switch the source does not have.
    - Interrupts arrive between operations, not inside them. *)
From Stdlib Require Export ZArith Lia Bool.
From stdpp Require Export base numbers option list gmap strings.

#[global] Open Scope Z_scope.

(** ** Machine integers

    A C integer is a [Z] kept in range by the conversions below: [wrap w] is
    the reduction of an unsigned [w]-bit type, [s32] the conversion to [int]
    of the two's complement target. *)

Definition wrap (w x : Z) : Z := x mod 2 ^ w.
Abbreviation u8 := (wrap 8).
Abbreviation u16 := (wrap 16).
Abbreviation u32 := (wrap 32).
Abbreviation u64 := (wrap 64).

Definition s32 (x : Z) : Z :=
  let y := u32 x in if y <? 2 ^ 31 then y else y - 2 ^ 32.

Definition in_u (w x : Z) : Prop := 0 <= x < 2 ^ w.
Definition in_s32 (x : Z) : Prop := - 2 ^ 31 <= x < 2 ^ 31.

#[export] Instance in_u_dec w x : Decision (in_u w x).
Proof. unfold in_u; apply _. Defined.

Lemma wrap_range w x : 0 <= w -> in_u w (wrap w x).
Proof. intros; unfold in_u, wrap; apply Z.mod_pos_bound; lia. Qed.

Lemma wrap_small w x : in_u w x -> wrap w x = x.
Proof. intros; unfold wrap; by apply Z.mod_small. Qed.

Lemma wrap_idemp w x : wrap w (wrap w x) = wrap w x.
Proof. unfold wrap. by rewrite Zmod_mod. Qed.

Lemma wrap_add_l w x y : wrap w (wrap w x + y) = wrap w (x + y).
Proof. unfold wrap. by rewrite Zplus_mod_idemp_l. Qed.

Lemma wrap_add_r w x y : wrap w (x + wrap w y) = wrap w (x + y).
Proof. unfold wrap. by rewrite Zplus_mod_idemp_r. Qed.

Lemma wrap_sub_l w x y : wrap w (wrap w x - y) = wrap w (x - y).
Proof. unfold wrap. by rewrite Zminus_mod_idemp_l. Qed.

Lemma s32_small x : in_s32 x -> s32 x = x.
Proof.
  unfold in_s32, s32, wrap; intros Hx.
  destruct (decide (0 <= x)).
  - rewrite Z.mod_small by lia. by rewrite (proj2 (Z.ltb_lt _ _)) by lia.
  - replace (x mod 2 ^ 32) with (x + 2 ^ 32).
    + rewrite (proj2 (Z.ltb_ge _ _)) by lia. lia.
    + apply Z.mod_unique with (-1); lia.
Qed.

Lemma s32_range x : in_s32 (s32 x).
Proof.
  unfold s32, in_s32. pose proof (wrap_range 32 x ltac:(lia)) as H.
  unfold in_u in H. destruct (Z.ltb_spec (u32 x) (2 ^ 31)); lia.
Qed.

(** [lnot64 x] is the C expression [~x] on [uint64_t]. *)
Definition lnot64 (x : Z) : Z := u64 (Z.lnot x).

(** ** Bits *)

Lemma testbit_wrap w x i : 0 <= w -> Z.testbit (wrap w x) i = (i <? w) && Z.testbit x i.
Proof.
  intros Hw. unfold wrap. destruct (Z.ltb_spec i w).
  - destruct (decide (0 <= i)).
    + by rewrite Z.mod_pow2_bits_low by lia.
    + by rewrite !Z.testbit_neg_r by lia.
  - by rewrite Z.mod_pow2_bits_high by lia.
Qed.

Lemma testbit_pow2 s i : 0 <= s -> Z.testbit (Z.shiftl 1 s) i = (i =? s).
Proof.
  intros Hs. rewrite Z.shiftl_1_l, Z.pow2_bits_eqb by lia. apply Z.eqb_sym.
Qed.

Lemma testbit_high w x i : in_u w x -> 0 <= w <= i -> Z.testbit x i = false.
Proof.
  intros Hx Hi. rewrite <- (wrap_small w x Hx), testbit_wrap by lia.
  by rewrite (proj2 (Z.ltb_ge _ _)) by lia.
Qed.

Lemma testbit_lnot64 x i :
  0 <= i -> Z.testbit (lnot64 x) i = (i <? 64) && negb (Z.testbit x i).
Proof. intros; unfold lnot64. by rewrite testbit_wrap, Z.lnot_spec by lia. Qed.

(** C's [x & (1 << s)] as a condition is bit [s] of [x]. *)
Lemma land_pow2_testbit x s :
  0 <= s -> negb (Z.land x (Z.shiftl 1 s) =? 0) = Z.testbit x s.
Proof.
  intros Hs. destruct (Z.testbit x s) eqn:E.
  - apply negb_true_iff, Z.eqb_neq. intros H0.
    pose proof (f_equal (fun z => Z.testbit z s) H0) as H.
    cbv beta in H.
    by rewrite Z.land_spec, testbit_pow2, Z.eqb_refl, E, Z.bits_0 in H by lia.
  - apply negb_false_iff, Z.eqb_eq, Z.bits_inj'; intros i Hi.
    rewrite Z.land_spec, testbit_pow2, Z.bits_0 by lia.
    destruct (Z.eqb_spec i s); [by subst; rewrite E|apply andb_false_r].
Qed.

Lemma in_u_bits w x :
  0 <= w -> 0 <= x -> (forall i, w <= i -> Z.testbit x i = false) -> in_u w x.
Proof.
  intros Hw Hx Hb. split; [done|].
  replace x with (wrap w x); [apply wrap_range; lia|].
  apply Z.bits_inj'; intros i Hi. rewrite testbit_wrap by lia.
  destruct (Z.ltb_spec i w); [done|]. by rewrite Hb by lia.
Qed.

Lemma in_u_land w x y : 0 <= w -> in_u w x -> 0 <= y -> in_u w (Z.land x y).
Proof.
  intros Hw Hx Hy. apply in_u_bits; [done|apply Z.land_nonneg; left; apply Hx|].
  intros i Hi. by rewrite Z.land_spec, (testbit_high w x) by (auto || lia).
Qed.

Lemma in_u_lor w x y : 0 <= w -> in_u w x -> in_u w y -> in_u w (Z.lor x y).
Proof.
  intros Hw Hx Hy. apply in_u_bits; [done|apply Z.lor_nonneg; split; [apply Hx|apply Hy]|].
  intros i Hi. by rewrite Z.lor_spec, !(testbit_high w) by (auto || lia).
Qed.

Lemma land_ones_mod x w : 0 <= w -> Z.land x (2 ^ w - 1) = wrap w x.
Proof.
  intros. unfold wrap. rewrite <- Z.land_ones by done. f_equal.
  rewrite Z.ones_equiv. lia.
Qed.

(** ** Arrays

    A C array is a list; [find_idx] is the loop
    [for (i = 0; i < n; i++) if (f(a[i])) break;] with the index it stops at. *)

Fixpoint find_idx {A} (f : A -> bool) (l : list A) : option nat :=
  match l with
  | [] => None
  | x :: l' => if f x then Some 0%nat else S <$> find_idx f l'
  end.

Lemma find_idx_Some {A} (f : A -> bool) (l : list A) i :
  find_idx f l = Some i <->
  (exists x, l !! i = Some x /\ f x = true) /\
  (forall j y, (j < i)%nat -> l !! j = Some y -> f y = false).
Proof.
  revert i; induction l as [|a l IH]; intros i; simpl.
  { split; [done|]. intros [(x & Hx & _) _]. by rewrite lookup_nil in Hx. }
  destruct (f a) eqn:Ha.
  - split.
    + intros [= <-]. split; [by exists a|]. intros; lia.
    + intros [_ Hlt]. destruct i as [|i]; [done|].
      specialize (Hlt 0%nat a ltac:(lia) eq_refl). congruence.
  - destruct i as [|i].
    + split; [by destruct (find_idx f l)|].
      intros [(x & [= <-] & Hx) _]. congruence.
    + transitivity (find_idx f l = Some i).
      { destruct (find_idx f l); simpl; split; congruence. }
      rewrite IH. split.
      * intros [Hx Hlt]. split; [done|]. intros [|j] y Hj; simpl; [congruence|].
        apply Hlt; lia.
      * intros [Hx Hlt]. split; [done|]. intros j y Hj Hy.
        apply (Hlt (S j) y); [lia|done].
Qed.

Lemma find_idx_None {A} (f : A -> bool) (l : list A) :
  find_idx f l = None <-> forall i x, l !! i = Some x -> f x = false.
Proof.
  induction l as [|a l IH]; simpl.
  { split; [|done]. intros _ i x Hx. by rewrite lookup_nil in Hx. }
  destruct (f a) eqn:Ha.
  - split; [done|]. intros H. specialize (H 0%nat a eq_refl). congruence.
  - rewrite fmap_None, IH. split.
    + intros H [|i] x; simpl; [congruence|apply H].
    + intros H i x Hx. by apply (H (S i)).
Qed.

Lemma find_idx_lt {A} (f : A -> bool) (l : list A) i :
  find_idx f l = Some i -> (i < length l)%nat.
Proof.
  intros [(x & Hx & _) _]%find_idx_Some. by apply lookup_lt_is_Some_1.
Qed.

Lemma find_idx_ext {A} (f g : A -> bool) (l : list A) :
  (forall x, x ∈ l -> f x = g x) -> find_idx f l = find_idx g l.
Proof.
  induction l as [|a l IH]; intros H; simpl; [done|].
  rewrite H by set_solver. rewrite IH by set_solver. done.
Qed.

(** Two states of an array that agree on what [f] sees stop at the same index. *)
Lemma find_idx_map {A} (f : A -> bool) (l l' : list A) :
  (f <$> l) = (f <$> l') -> find_idx f l = find_idx f l'.
Proof.
  revert l'; induction l as [|a l IH]; intros [|a' l'] H; try done.
  injection H as Ha Hl. simpl. rewrite Ha. by rewrite (IH l' Hl).
Qed.

(** A counting loop [for (i = lo; i < hi; i++) s = body(i, s)], by the number
    of its iterations. *)
Fixpoint for_loop {St} (n : nat) (i : Z) (body : Z -> St -> St) (s : St) : St :=
  match n with
  | O => s
  | S n' => for_loop n' (i + 1) body (body i s)
  end.

Lemma for_loop_inv {St} (P : Z -> St -> Prop) n i (body : Z -> St -> St) s :
  P i s ->
  (forall j s', i <= j < i + Z.of_nat n -> P j s' -> P (j + 1) (body j s')) ->
  P (i + Z.of_nat n) (for_loop n i body s).
Proof.
  revert i s; induction n as [|n IH]; intros i s H0 Hstep; simpl for_loop.
  { by replace (i + Z.of_nat 0) with i by lia. }
  replace (i + Z.of_nat (S n)) with (i + 1 + Z.of_nat n) by lia.
  apply IH; [apply Hstep; [lia|done]|]. intros j s' Hj. apply Hstep; lia.
Qed.

(** Characters of a string literal of the source, as bytes. *)
Fixpoint bytes_of (s : string) : list Z :=
  match s with
  | EmptyString => []
  | String a s' => Z.of_N (Ascii.N_of_ascii a) :: bytes_of s'
  end.

(** The escape [\n] of the source's string literals. *)
Definition nl : string := String (Ascii.ascii_of_nat 10) EmptyString.

(** ** Automation *)

Create HintDb curnel.
Create Rewrite HintDb curnel_rw.
#[export] Hint Resolve wrap_range s32_range in_u_land in_u_lor : curnel.
#[export] Hint Extern 1 (_ <= _) => lia : curnel.
#[export] Hint Extern 1 (_ <= _ < _) => lia : curnel.
#[export] Hint Rewrite wrap_idemp wrap_add_l wrap_add_r wrap_sub_l : curnel_rw.

(** Case analysis on the conditions of the code, arithmetic left to [lia]. *)
Ltac zify_bool :=
  repeat match goal with
  | H : negb _ = true |- _ => apply negb_true_iff in H
  | H : negb _ = false |- _ => apply negb_false_iff in H
  | H : (_ && _)%bool = true |- _ => apply andb_true_iff in H as [? ?]
  | H : (_ || _)%bool = false |- _ => apply orb_false_iff in H as [? ?]
  | H : (_ =? _) = true |- _ => apply Z.eqb_eq in H
  | H : (_ =? _) = false |- _ => apply Z.eqb_neq in H
  | H : (_ <? _) = true |- _ => apply Z.ltb_lt in H
  | H : (_ <? _) = false |- _ => apply Z.ltb_ge in H
  | H : (_ <=? _) = true |- _ => apply Z.leb_le in H
  | H : (_ <=? _) = false |- _ => apply Z.leb_gt in H
  end.

(** Split every [if] and [match] of the goal, or of [H], naming the equations. *)
Ltac split_if :=
  match goal with
  | |- context [if ?b then _ else _] => destruct b eqn:?
  end; zify_bool.

Ltac split_ifs := repeat split_if.

Ltac simp_bind :=
  repeat match goal with
  | H : (_ ≫= _) = Some _ |- _ => apply bind_Some in H as (? & ? & ?)
  | H : Some _ = Some _ |- _ => injection H as H
  | H : None = Some _ |- _ => discriminate H
  | H : Some _ = None |- _ => discriminate H
  | H : (_, _) = (_, _) |- _ => injection H as ? ?
  end.
