(* ===== verification/CString.v ===== *)
(** * The C string routines of the kernel

    [strlen] and [int_to_string] of kernel.c, the second [int_to_string] of
    idt.c, [strcmp] of filesystem.c and coreutils.c, and [atoi] of coreutils.c.
    A C string is the list of its bytes up to the terminating NUL; a [char*]
    argument is a list read with [nth _ _ 0], so the NUL is where it ends. *)
From S2P Require Import Prelude.

Definition NUL : Z := 0.

(** The byte at index [i] of a buffer that ends with its NUL. *)
Definition char_at (s : list Z) (i : nat) : Z := default NUL (s !! i).

Section Strlen.
(** [while (str[len]) len++;] from index [len], [fuel] bounds the scan by the
    size of the buffer. *)
Fixpoint strlen_from (fuel : nat) (str : list Z) (len : nat) : nat :=
  match fuel with
  | O => len
  | S fuel' => if char_at str len =? 0 then len else strlen_from fuel' str (S len)
  end.

Definition strlen (str : list Z) : nat := strlen_from (length str) str 0.
End Strlen.

(** The string a buffer starts with: its bytes before the first NUL. *)
Definition cstr (buf : list Z) : list Z := take (strlen buf) buf.

Section Int_to_string.
(** kernel.c: the digits, least significant first. [%] and [/] are C's. *)
Fixpoint digits_kernel (fuel : nat) (num : Z) : list Z :=
  match fuel with
  | O => []
  | S fuel' =>
    if num =? 0 then [] else
    let rem := Z.rem num 10 in
    (if 9 <? rem then (rem - 10) + 97 else rem + 48)
      :: digits_kernel fuel' (Z.quot num 10)
  end.

(** kernel.c: [while (start < end) { swap str[start], str[end]; start++; end--; }] *)
Fixpoint swap_ends (fuel : nat) (start end_ : Z) (str : list Z) : list Z :=
  match fuel with
  | O => str
  | S fuel' =>
    if start <? end_ then
      let temp := char_at str (Z.to_nat start) in
      let str := <[Z.to_nat start := char_at str (Z.to_nat end_)]> str in
      let str := <[Z.to_nat end_ := temp]> str in
      swap_ends fuel' (start + 1) (end_ - 1) str
    else str
  end.

(** Negating [INT_MIN] overflows [int]: [None], as C leaves it undefined. *)
Definition int_neg (num : Z) : option Z :=
  if num =? - 2 ^ 31 then None else Some (- num).

(** kernel.c [int_to_string]: the bytes written before the NUL. *)
Definition int_to_string (num : Z) : option (list Z) :=
  let is_negative := num <? 0 in
  num ← (if is_negative then int_neg num else Some num);
  if num =? 0 then Some [48] else
  let str := digits_kernel 10 num in
  let str := if is_negative then str ++ [45] else str in
  Some (swap_ends (length str) 0 (Z.of_nat (length str) - 1) str).
End Int_to_string.

Section Int_to_string_idt.
(** idt.c: [while (num > 0)]. *)
Fixpoint digits_idt (fuel : nat) (num : Z) : list Z :=
  match fuel with
  | O => []
  | S fuel' =>
    if 0 <? num then (Z.rem num 10 + 48) :: digits_idt fuel' (Z.quot num 10) else []
  end.

(** idt.c: [for (j = 0; j < len / 2; j++)] swap [str[j]], [str[len - j - 1]]. *)
Definition swap_half (str : list Z) : list Z :=
  let len := Z.of_nat (length str) in
  for_loop (Z.to_nat (Z.quot len 2)) 0 (fun j str =>
    let temp := char_at str (Z.to_nat j) in
    let str := <[Z.to_nat j := char_at str (Z.to_nat (len - j - 1))]> str in
    <[Z.to_nat (len - j - 1) := temp]> str) str.

(** idt.c [int_to_string]. *)
Definition int_to_string_idt (num : Z) : option (list Z) :=
  if num =? 0 then Some [48] else
  let sign := num <? 0 in
  num ← (if sign then int_neg num else Some num);
  let str := digits_idt 10 num in
  let str := if sign then str ++ [45] else str in
  Some (swap_half str).
End Int_to_string_idt.

Section Strcmp.
(** Advance while the bytes agree and are not NUL, then their difference. *)
Fixpoint strcmp (s1 s2 : list Z) : Z :=
  match s1, s2 with
  | c1 :: s1', c2 :: s2' =>
    if (negb (c1 =? 0)) && (c1 =? c2) then strcmp s1' s2' else c1 - c2
  | [], c2 :: _ => 0 - c2
  | c1 :: _, [] => c1 - 0
  | [], [] => 0
  end.
End Strcmp.

Section Atoi.
(** The index after the leading blanks. *)
Fixpoint skip_blanks (fuel : nat) (str : list Z) (i : nat) : nat :=
  match fuel with
  | O => i
  | S fuel' =>
    if (char_at str i =? 32) || (char_at str i =? 9)
    then skip_blanks fuel' str (S i) else i
  end.

Definition is_digit (c : Z) : bool := (48 <=? c) && (c <=? 57).

(** [while (isdigit(str[i])) { result = result * 10 + (str[i] - '0'); i++; }];
    a result outside [int] is undefined in C: [None]. *)
Fixpoint atoi_digits (fuel : nat) (str : list Z) (i : nat) (result : Z) : option Z :=
  match fuel with
  | O => Some result
  | S fuel' =>
    if is_digit (char_at str i) then
      let result := result * 10 + (char_at str i - 48) in
      if result <? 2 ^ 31 then atoi_digits fuel' str (S i) result else None
    else Some result
  end.

Definition atoi (str : list Z) : option Z :=
  let i := skip_blanks (length str) str 0 in
  let '(sign, i) :=
    if char_at str i =? 45 then (-1, S i)
    else if char_at str i =? 43 then (1, S i) else (1, i) in
  result ← atoi_digits (length str) str i 0;
  Some (sign * result).
End Atoi.

Example int_to_string_ex :
  int_to_string (-1203) = Some (bytes_of "-1203")
  /\ int_to_string_idt (-1203) = Some (bytes_of "-1203")
  /\ atoi (bytes_of "  -1203 x") = Some (-1203).
Proof. vm_compute. done. Qed.

(** ** The string of a buffer *)

Section Cstr_facts.
Lemma strlen_from_cons fuel c (l : list Z) len :
  strlen_from fuel (c :: l) (S len) = S (strlen_from fuel l len).
Proof.
  revert len. induction fuel as [|n IH]; intros len; [done|]. simpl.
  unfold char_at. simpl.
  destruct (default NUL (l !! len) =? 0); [done|]. apply IH.
Qed.

Lemma cstr_cons c (l : list Z) : cstr (c :: l) = if c =? 0 then [] else c :: cstr l.
Proof.
  unfold cstr, strlen. simpl. unfold char_at; simpl. destruct (c =? 0); [done|].
  by rewrite strlen_from_cons.
Qed.

Lemma cstr_nil : cstr [] = [].
Proof. done. Qed.

Lemma strlen_cstr (l : list Z) : length (cstr l) = strlen l.
Proof.
  unfold cstr. rewrite length_take. apply Nat.min_l.
  induction l as [|c l IH]; [done|]. unfold strlen in *. simpl. unfold char_at; simpl.
  destruct (c =? 0); [lia|]. rewrite strlen_from_cons. lia.
Qed.

Lemma cstr_nonzero (l : list Z) : Forall (fun c => c <> 0) (cstr l).
Proof.
  induction l as [|c l IH]; [constructor|]. rewrite cstr_cons.
  destruct (Z.eqb_spec c 0); by constructor.
Qed.

(** What follows the string is its NUL, or nothing. *)
Definition ended (rest : list Z) : Prop := rest = [] \/ hd 1 rest = 0.

Lemma cstr_ended rest : ended rest -> cstr rest = [].
Proof. intros [->|Hr]; [done|]. destruct rest as [|c l]; [done|]. simpl in Hr. subst. by rewrite cstr_cons. Qed.

Lemma cstr_split (l : list Z) : exists rest, l = cstr l ++ rest /\ ended rest.
Proof.
  induction l as [|c l (rest & IH & Hr)]; [exists []; split; [done|by left]|].
  rewrite cstr_cons. destruct (Z.eqb_spec c 0) as [->|Hc].
  - exists (0 :: l). split; [done|by right].
  - exists rest. split; [|done]. simpl. by f_equal.
Qed.

Lemma cstr_app (s rest : list Z) : Forall (fun c => c <> 0) s -> ended rest -> cstr (s ++ rest) = s.
Proof.
  induction 1 as [|c s Hc Hs IH]; intros Hr; simpl; [by apply cstr_ended|].
  rewrite cstr_cons, (proj2 (Z.eqb_neq _ _)) by done. by rewrite IH.
Qed.

Lemma cstr_string (s : list Z) : Forall (fun c => c <> 0) s -> cstr s = s.
Proof. intros Hs. rewrite <- (app_nil_r s) at 1. apply cstr_app; [done|by left]. Qed.

Lemma strcmp_refl (s : list Z) : strcmp s s = 0.
Proof.
  induction s as [|c s IH]; [done|]. simpl. destruct (c =? 0) eqn:E; simpl; [lia|].
  by rewrite Z.eqb_refl.
Qed.

(** [strcmp] is 0 on equal strings only. *)
Lemma strcmp_eq (s1 s2 : list Z) : strcmp s1 s2 = 0 <-> cstr s1 = cstr s2.
Proof.
  revert s2. induction s1 as [|c1 s1 IH]; intros [|c2 s2]; simpl; rewrite ?cstr_cons, ?cstr_nil.
  - done.
  - destruct (Z.eqb_spec c2 0); split; intros; try done; lia.
  - destruct (Z.eqb_spec c1 0); split; intros; try done; lia.
  - destruct (Z.eqb_spec c1 0) as [->|H1]; simpl.
    + destruct (Z.eqb_spec c2 0); split; intros; try done; lia.
    + destruct (Z.eqb_spec c1 c2) as [->|H12].
      * rewrite (proj2 (Z.eqb_neq _ _)) by done. rewrite IH. split; [by intros ->|].
        by intros [= ->].
      * split; [lia|]. destruct (Z.eqb_spec c2 0); [done|]. congruence.
Qed.
End Cstr_facts.

(** ** The reversals *)

Section Reversal.
Lemma char_at_middle (l1 l2 : list Z) x i :
  i = length l1 -> char_at (l1 ++ x :: l2) i = x.
Proof. intros ->. unfold char_at. by rewrite list_lookup_middle. Qed.

Lemma insert_at_middle (l1 l2 : list Z) x y i :
  i = length l1 -> <[i := y]> (l1 ++ x :: l2) = l1 ++ y :: l2.
Proof. intros ->. rewrite insert_app_r_alt by lia. by rewrite Nat.sub_diag. Qed.

(** Exchanging the two ends of a segment, as both loops do at each step. *)
Lemma exchange_ends (l1 l2 mid : list Z) x y i j :
  i = length l1 -> j = S (length l1 + length mid) ->
  let str := l1 ++ x :: mid ++ y :: l2 in
  <[j := char_at str i]> (<[i := char_at str j]> str) = l1 ++ y :: mid ++ x :: l2.
Proof.
  intros -> ->. cbv zeta.
  assert (Hf : forall x' (l : list Z), l1 ++ x' :: mid ++ l = (l1 ++ x' :: mid) ++ l).
  { intros. by rewrite <- app_assoc. }
  rewrite (char_at_middle l1 (mid ++ y :: l2) x) by done.
  rewrite (insert_at_middle l1 (mid ++ y :: l2) x) by done.
  rewrite (Hf x (y :: l2)), char_at_middle by (rewrite length_app; simpl; lia).
  rewrite (Hf y (y :: l2)), insert_at_middle by (rewrite length_app; simpl; lia).
  by rewrite <- Hf.
Qed.

(** A list of two elements or more, by its ends. *)
Lemma list_ends (l : list Z) :
  (length l <= 1)%nat \/ exists x mid y, l = x :: mid ++ [y].
Proof.
  destruct l as [|x l]; [simpl; lia|].
  destruct l as [|z l _] using rev_ind; [simpl; lia|]. right. by exists x, l, z.
Qed.

Lemma reverse_short (l : list Z) : (length l <= 1)%nat -> reverse l = l.
Proof. destruct l as [|x [|y l]]; simpl; intros; [done|done|lia]. Qed.

Lemma reverse_ends x (mid : list Z) y : reverse (x :: mid ++ [y]) = y :: reverse mid ++ [x].
Proof. by rewrite reverse_cons, reverse_app. Qed.

Lemma ends_app x (mid : list Z) y (l : list Z) : (x :: mid ++ [y]) ++ l = x :: mid ++ y :: l.
Proof. simpl. by rewrite <- app_assoc. Qed.

Lemma shift_left (l1 l2 : list Z) x : l1 ++ x :: l2 = (l1 ++ [x]) ++ l2.
Proof. by rewrite <- app_assoc. Qed.

Lemma swap_ends_segment fuel (l1 mid l2 : list Z) :
  (length mid <= fuel)%nat ->
  swap_ends fuel (Z.of_nat (length l1)) (Z.of_nat (length l1 + length mid) - 1)
    (l1 ++ mid ++ l2) = l1 ++ reverse mid ++ l2.
Proof.
  revert l1 mid l2; induction fuel as [|fuel IH]; intros l1 mid l2 Hf; simpl.
  { destruct mid; [done|simpl in Hf; lia]. }
  split_if.
  - destruct (list_ends mid) as [?|(x & m & y & ->)]; [lia|].
    cbn [length] in *. rewrite length_app in *. cbn [length] in *.
    rewrite reverse_ends, !ends_app, exchange_ends by lia.
    rewrite (shift_left l1).
    replace (Z.of_nat (length l1) + 1) with (Z.of_nat (length (l1 ++ [y])))
      by (rewrite length_app; simpl; lia).
    replace (Z.of_nat (length l1 + S (length m + 1)) - 1 - 1)
      with (Z.of_nat (length (l1 ++ [y]) + length m) - 1)
      by (rewrite length_app; simpl; lia).
    rewrite IH by lia. by rewrite <- shift_left.
  - rewrite reverse_short; [done|lia].
Qed.

Lemma swap_ends_reverse (str : list Z) :
  swap_ends (length str) 0 (Z.of_nat (length str) - 1) str = reverse str.
Proof.
  pose proof (swap_ends_segment (length str) [] str [] ltac:(done)) as H.
  simpl in H. by rewrite !app_nil_r in H.
Qed.

Lemma swap_half_segment n (l1 mid l2 : list Z) len :
  length l1 = length l2 -> len = Z.of_nat (length (l1 ++ mid ++ l2)) ->
  n = Z.to_nat (Z.quot (Z.of_nat (length mid)) 2) ->
  for_loop n (Z.of_nat (length l1)) (fun j str =>
    let temp := char_at str (Z.to_nat j) in
    let str := <[Z.to_nat j := char_at str (Z.to_nat (len - j - 1))]> str in
    <[Z.to_nat (len - j - 1) := temp]> str) (l1 ++ mid ++ l2)
  = l1 ++ reverse mid ++ l2.
Proof.
  revert l1 mid l2; induction n as [|n IH]; intros l1 mid l2 H12 Hlen Hn; simpl for_loop.
  - rewrite reverse_short; [done|].
    rewrite Z.quot_div_nonneg in Hn by lia. pose proof (Z.div_mod (Z.of_nat (length mid)) 2).
    pose proof (Z.mod_pos_bound (Z.of_nat (length mid)) 2). lia.
  - destruct (list_ends mid) as [?|(x & m & y & ->)].
    { by rewrite Z.quot_div_nonneg, Z.div_small in Hn by lia. }
    rewrite !length_app in *. cbn [length] in *. rewrite length_app in *. cbn [length] in *.
    rewrite reverse_ends, !ends_app, exchange_ends by lia.
    rewrite (shift_left l1).
    replace (Z.of_nat (length l1) + 1) with (Z.of_nat (length (l1 ++ [y])))
      by (rewrite length_app; simpl; lia).
    rewrite IH; rewrite ?length_app; cbn [length]; try lia.
    + by rewrite <- shift_left.
    + rewrite Z.quot_div_nonneg in * by lia.
      replace (Z.of_nat (S (length m + 1))) with (Z.of_nat (length m) + 1 * 2) in Hn by lia.
      rewrite Z.div_add in Hn by lia.
      pose proof (Z.div_pos (Z.of_nat (length m)) 2). lia.
Qed.

Lemma swap_half_reverse (str : list Z) : swap_half str = reverse str.
Proof.
  unfold swap_half.
  pose proof (swap_half_segment _ [] str [] _ eq_refl eq_refl eq_refl) as H.
  simpl in H. by rewrite !app_nil_r in H.
Qed.
End Reversal.

(** ** Decimal notation *)

Section Decimal.
(** The number a list of ASCII digits denotes. *)
Definition decimal_value_from (acc : Z) (ds : list Z) : Z :=
  foldl (fun acc c => acc * 10 + (c - 48)) acc ds.
Definition decimal_value := decimal_value_from 0.

(** The canonical decimal notation of an [int]: a sign for the negative
    numbers, then digits without a leading zero. *)
Definition decimal_of (num : Z) (s : list Z) : Prop :=
  exists ds, s = (if num <? 0 then [45] else []) ++ ds
    /\ Forall (fun c => is_digit c = true) ds
    /\ decimal_value ds = Z.abs num
    /\ (ds = [48] \/ exists d ds', ds = d :: ds' /\ d <> 48)
    /\ (length ds <= 10)%nat.

Lemma decimal_value_from_snoc acc ds c :
  decimal_value_from acc (ds ++ [c]) = decimal_value_from acc ds * 10 + (c - 48).
Proof. unfold decimal_value_from. by rewrite foldl_app. Qed.

Lemma decimal_value_from_ge acc ds :
  0 <= acc -> Forall (fun c => is_digit c = true) ds -> acc <= decimal_value_from acc ds.
Proof.
  intros Hacc Hds. revert acc Hacc. induction Hds as [|c ds Hc _ IH]; intros acc Hacc.
  { done. }
  unfold is_digit in Hc. zify_bool.
  unfold decimal_value_from in *. simpl. specialize (IH (acc * 10 + (c - 48))). lia.
Qed.

Lemma digits_kernel_idt fuel num : 0 <= num -> digits_kernel fuel num = digits_idt fuel num.
Proof.
  revert num; induction fuel as [|fuel IH]; intros num Hn; simpl; [done|].
  destruct (Z.eqb_spec num 0), (Z.ltb_spec 0 num); try lia; [done|].
  pose proof (Z.rem_bound_pos num 10 ltac:(lia) ltac:(lia)).
  rewrite (proj2 (Z.ltb_ge 9 _)) by lia. rewrite IH; [done|]. apply Z.quot_pos; lia.
Qed.

Lemma digits_idt_value fuel num :
  0 <= num < 10 ^ Z.of_nat fuel ->
  decimal_value (reverse (digits_idt fuel num)) = num
  /\ Forall (fun c => is_digit c = true) (digits_idt fuel num)
  /\ (0 < num -> exists d ds', reverse (digits_idt fuel num) = d :: ds' /\ d <> 48)
  /\ (length (digits_idt fuel num) <= fuel)%nat.
Proof.
  revert num; induction fuel as [|fuel IH]; intros num Hn.
  { simpl in *. repeat split; [unfold decimal_value; simpl; lia|constructor|lia|lia]. }
  rewrite Nat2Z.inj_succ, Z.pow_succ_r in Hn by lia.
  simpl. destruct (Z.ltb_spec 0 num); cycle 1.
  { repeat split; [unfold decimal_value; simpl; lia|constructor|lia|simpl; lia]. }
  rewrite Z.rem_mod_nonneg, Z.quot_div_nonneg by lia.
  pose proof (Z.mod_pos_bound num 10). pose proof (Z.div_mod num 10).
  destruct (IH (num / 10)) as (Hv & Hd & Hh & Hl).
  { split; [apply Z.div_pos; lia|]. apply Z.div_lt_upper_bound; lia. }
  rewrite reverse_cons. repeat split.
  - unfold decimal_value. rewrite decimal_value_from_snoc. unfold decimal_value in Hv. lia.
  - constructor; [|done]. unfold is_digit.
    rewrite (proj2 (Z.leb_le _ _)), (proj2 (Z.leb_le _ _)) by lia. done.
  - intros _. destruct (decide (0 < num / 10)) as [Hq|Hq].
    + destruct (Hh Hq) as (d & ds' & -> & Hne). by exists d, (ds' ++ [num mod 10 + 48]).
    + assert (num / 10 = 0) as -> by (pose proof (Z.div_pos num 10); lia).
      exists (num mod 10 + 48), []. split; [|pose proof (Z.div_mod num 10); lia].
      destruct fuel; reflexivity.
  - simpl. lia.
Qed.

Lemma int_to_string_idt_spec num :
  in_s32 num -> num <> - 2 ^ 31 ->
  exists s, int_to_string_idt num = Some s /\ decimal_of num s.
Proof.
  unfold in_s32, int_to_string_idt, int_neg; intros Hn Hmin.
  destruct (Z.eqb_spec num 0) as [->|Hz].
  { eexists; split; [done|]. exists [48]. repeat split; [by repeat constructor|by left|simpl; lia]. }
  destruct (digits_idt_value 10 (Z.abs num) ltac:(simpl; lia)) as (Hv & Hd & Hh & Hl).
  destruct (Z.ltb_spec num 0); rewrite ?(proj2 (Z.eqb_neq _ _) Hmin); cbn [mbind option_bind];
    rewrite swap_half_reverse; rewrite ?Z.abs_neq, ?Z.abs_eq in * by lia;
    (eexists; split; [done|]).
  1: rewrite reverse_app.
  all: exists (reverse (digits_idt 10 (Z.abs num))).
  all: rewrite ?Z.abs_neq, ?Z.abs_eq by lia.
  all: rewrite ?(proj2 (Z.ltb_lt _ _)), ?(proj2 (Z.ltb_ge _ _)) by lia.
  all: split_and!; [done|by apply Forall_reverse|done|right; apply Hh; lia|by rewrite length_reverse].
Qed.

Lemma int_to_string_kernel_idt num : int_to_string num = int_to_string_idt num.
Proof.
  unfold int_to_string, int_to_string_idt, int_neg.
  destruct (Z.eqb_spec num 0) as [->|Hz]; [done|].
  destruct (Z.ltb_spec num 0).
  - destruct (Z.eqb_spec num (- 2 ^ 31)); [done|]. cbn [mbind option_bind].
    rewrite (proj2 (Z.eqb_neq _ 0)) by lia.
    by rewrite swap_ends_reverse, swap_half_reverse, digits_kernel_idt by lia.
  - cbn [mbind option_bind]. rewrite (proj2 (Z.eqb_neq _ 0)) by lia.
    by rewrite swap_ends_reverse, swap_half_reverse, digits_kernel_idt by lia.
Qed.

Lemma int_to_string_spec num :
  in_s32 num -> num <> - 2 ^ 31 ->
  exists s, int_to_string num = Some s /\ decimal_of num s.
Proof. rewrite int_to_string_kernel_idt. apply int_to_string_idt_spec. Qed.

Lemma digits_idt_length fuel num k :
  0 <= num < 10 ^ Z.of_nat k -> (length (digits_idt fuel num) <= k)%nat.
Proof.
  revert num k; induction fuel as [|fuel IH]; intros num k Hn; simpl; [lia|].
  destruct (Z.ltb_spec 0 num); simpl; [|lia].
  destruct k as [|k]; [simpl in Hn; lia|].
  rewrite Nat2Z.inj_succ, Z.pow_succ_r in Hn by lia.
  rewrite Z.quot_div_nonneg by lia. apply le_n_S, IH.
  split; [apply Z.div_pos; lia|]. apply Z.div_lt_upper_bound; lia.
Qed.

(** [k] digits are a number below [10 ^ k]. *)
Lemma decimal_value_bound acc ds :
  Forall (fun c => is_digit c = true) ds -> 0 <= acc ->
  decimal_value_from acc ds < (acc + 1) * 10 ^ Z.of_nat (length ds).
Proof.
  intros Hd; revert acc; induction Hd as [|c ds Hc Hd IH]; intros acc Ha; [cbn; lia|].
  change (decimal_value_from acc (c :: ds)) with (decimal_value_from (acc * 10 + (c - 48)) ds).
  unfold is_digit in Hc. zify_bool. specialize (IH (acc * 10 + (c - 48)) ltac:(lia)).
  cbn [length]. rewrite Nat2Z.inj_succ, Z.pow_succ_r by lia.
  pose proof (Z.pow_pos_nonneg 10 (Z.of_nat (length ds)) ltac:(lia) ltac:(lia)). nia.
Qed.

(** How many bytes the notation takes: [k] digits, and a sign. *)
Lemma int_to_string_length num k :
  num <> - 2 ^ 31 -> (0 < k)%nat -> - 10 ^ (Z.of_nat k - 1) < num < 10 ^ Z.of_nat k ->
  exists s, int_to_string num = Some s /\ (length s <= k)%nat.
Proof.
  intros Hm Hk Hn. rewrite int_to_string_kernel_idt.
  unfold int_to_string_idt, int_neg. destruct (Z.eqb_spec num 0).
  { eexists; split; [done|]. simpl; lia. }
  destruct (Z.ltb_spec num 0).
  - rewrite (proj2 (Z.eqb_neq _ _)) by done.
    cbn [mbind option_bind]. eexists; split; [done|]. rewrite swap_half_reverse, length_reverse, length_app.
    pose proof (digits_idt_length 10 (- num) (k - 1)) as Hl.
    rewrite Nat2Z.inj_sub in Hl by lia. simpl in *. lia.
  - cbn [mbind option_bind]. eexists; split; [done|].
    rewrite swap_half_reverse, length_reverse. apply digits_idt_length. lia.
Qed.
End Decimal.

Section Atoi_facts.
Lemma char_at_app_r (l1 l2 : list Z) i :
  char_at (l1 ++ l2) (length l1 + i) = char_at l2 i.
Proof. unfold char_at. rewrite lookup_app_r by lia. do 2 f_equal. lia. Qed.

Lemma atoi_digits_value fuel (pre ds : list Z) acc :
  0 <= acc -> Forall (fun c => is_digit c = true) ds ->
  decimal_value_from acc ds < 2 ^ 31 -> (length ds <= fuel)%nat ->
  atoi_digits fuel (pre ++ ds) (length pre) acc = Some (decimal_value_from acc ds).
Proof.
  intros Hacc Hds. revert fuel pre acc Hacc.
  induction Hds as [|c ds Hc Hds IH]; intros fuel pre acc Hacc Hlt Hf.
  - destruct fuel; simpl; [done|]. rewrite app_nil_r.
    unfold char_at. by rewrite lookup_ge_None_2 by lia.
  - destruct fuel as [|fuel]; [simpl in Hf; lia|]. simpl.
    rewrite char_at_middle by done. rewrite Hc.
    unfold is_digit in Hc. zify_bool.
    change (decimal_value_from acc (c :: ds))
      with (decimal_value_from (acc * 10 + (c - 48)) ds) in *.
    pose proof (decimal_value_from_ge (acc * 10 + (c - 48)) ds ltac:(lia) Hds).
    rewrite (proj2 (Z.ltb_lt _ _)) by lia.
    rewrite shift_left. replace (S (length pre)) with (length (pre ++ [c]))
      by (rewrite length_app; simpl; lia).
    apply IH; [lia|done|simpl in Hf; lia].
Qed.

Lemma skip_blanks_none fuel s i :
  ((char_at s i =? 32) || (char_at s i =? 9))%bool = false -> skip_blanks fuel s i = i.
Proof. intros H. destruct fuel; simpl; [done|]. by rewrite H. Qed.

(** A canonical decimal string starts with no blank and no plus sign. *)
Lemma atoi_decimal num s : in_s32 num -> num <> - 2 ^ 31 -> decimal_of num s -> atoi s = Some num.
Proof.
  unfold in_s32; intros Hr Hmin (ds & -> & Hd & Hv & Hh & _).
  destruct ds as [|d ds].
  { exfalso. destruct Hh as [|(? & ? & ? & _)]; done. }
  pose proof (Forall_inv Hd) as Hd0. cbv beta in Hd0. unfold is_digit in Hd0. zify_bool.
  unfold decimal_value in Hv. unfold atoi. destruct (Z.ltb_spec num 0).
  - rewrite skip_blanks_none by done.
    change ([45] ++ d :: ds) with ([45] ++ (d :: ds)).
    change (char_at ([45] ++ (d :: ds)) 0 =? 45) with true. cbv iota zeta.
    rewrite (atoi_digits_value _ [45] (d :: ds)) by first [done | lia | simpl; lia].
    cbn [mbind option_bind]. f_equal. lia.
  - change ([] ++ d :: ds) with (d :: ds).
    assert (Hc : char_at (d :: ds) 0 = d) by done.
    rewrite skip_blanks_none, Hc by (rewrite Hc; apply orb_false_iff; lia).
    rewrite !(proj2 (Z.eqb_neq d _)) by lia. cbv iota zeta.
    rewrite (atoi_digits_value _ [] (d :: ds)) by first [done | lia | simpl; lia].
    cbn [mbind option_bind]. f_equal. lia.
Qed.
End Atoi_facts.

(** ** Properties *)

(** The two [int_to_string] of the kernel (kernel.c and idt.c), which
    reverse their digits with different loops, compute the same string. *)
Theorem int_to_string_equiv (num : Z) : int_to_string num = int_to_string_idt num.
Proof. apply int_to_string_kernel_idt. Qed.

(** For every [int] but [INT_MIN], [int_to_string] produces the canonical
    decimal notation (sign, then at most ten digits without a leading zero)
    and [atoi] reads it back to the same number. *)
Theorem atoi_int_to_string (num : Z) :
  in_s32 num -> num <> - 2 ^ 31 ->
  exists s, int_to_string num = Some s /\ decimal_of num s /\ atoi s = Some num.
Proof.
  intros Hr Hmin. destruct (int_to_string_spec num Hr Hmin) as (s & Hs & Hd).
  exists s. split_and!; [done..|]. by apply atoi_decimal.
Qed.

Lemma atoi_int_to_string_witness :
  in_s32 (-90210) /\ exists s, int_to_string (-90210) = Some s /\ decimal_of (-90210) s
                         /\ atoi s = Some (-90210).
Proof.
  assert (H : in_s32 (-90210)) by (unfold in_s32; lia).
  split; [exact H|]. exact (atoi_int_to_string (-90210) H ltac:(lia)).
Defined.
