(* ===== verification/Terminal.v ===== *)
(** * The VGA text terminal of kernel.c

    The four statics of kernel.c as a record; [terminal_buffer] is the VGA
    memory from [VGA_MEMORY] on, a map from cell indices to 16-bit entries, so
    that a write outside the screen would be visible. *)
From S2P Require Import Prelude CString.

Definition VGA_WIDTH : Z := 80.
Definition VGA_HEIGHT : Z := 25.

Inductive vga_color :=
  | VGA_COLOR_BLACK | VGA_COLOR_BLUE | VGA_COLOR_GREEN | VGA_COLOR_CYAN
  | VGA_COLOR_RED | VGA_COLOR_MAGENTA | VGA_COLOR_BROWN | VGA_COLOR_LIGHT_GREY
  | VGA_COLOR_DARK_GREY | VGA_COLOR_LIGHT_BLUE | VGA_COLOR_LIGHT_GREEN
  | VGA_COLOR_LIGHT_CYAN | VGA_COLOR_LIGHT_RED | VGA_COLOR_LIGHT_MAGENTA
  | VGA_COLOR_LIGHT_BROWN | VGA_COLOR_WHITE.

Definition vga_color_code (c : vga_color) : Z :=
  match c with
  | VGA_COLOR_BLACK => 0 | VGA_COLOR_BLUE => 1 | VGA_COLOR_GREEN => 2
  | VGA_COLOR_CYAN => 3 | VGA_COLOR_RED => 4 | VGA_COLOR_MAGENTA => 5
  | VGA_COLOR_BROWN => 6 | VGA_COLOR_LIGHT_GREY => 7 | VGA_COLOR_DARK_GREY => 8
  | VGA_COLOR_LIGHT_BLUE => 9 | VGA_COLOR_LIGHT_GREEN => 10
  | VGA_COLOR_LIGHT_CYAN => 11 | VGA_COLOR_LIGHT_RED => 12
  | VGA_COLOR_LIGHT_MAGENTA => 13 | VGA_COLOR_LIGHT_BROWN => 14
  | VGA_COLOR_WHITE => 15
  end.

Record terminal := Terminal {
  terminal_row : Z;
  terminal_column : Z;
  terminal_color : Z;
  terminal_buffer : gmap Z Z;
}.

Definition vga_entry_color (fg bg : vga_color) : Z :=
  u8 (Z.lor (vga_color_code fg) (Z.shiftl (vga_color_code bg) 4)).

(** [c] is passed as [unsigned char]. *)
Definition vga_entry (c color : Z) : Z :=
  Z.lor (u16 (u8 c)) (u16 (Z.shiftl (u16 color) 8)).

Definition terminal_putentryat (c color x y : Z) (t : terminal) : terminal :=
  let index := u64 (y * VGA_WIDTH + x) in
  Terminal (terminal_row t) (terminal_column t) (terminal_color t)
    (<[index := vga_entry c color]> (terminal_buffer t)).

Definition terminal_setcolor (color : Z) (t : terminal) : terminal :=
  Terminal (terminal_row t) (terminal_column t) color (terminal_buffer t).

Definition terminal_setpos (row column : Z) (t : terminal) : terminal :=
  Terminal row column (terminal_color t) (terminal_buffer t).

(** [if (++terminal_row == VGA_HEIGHT) terminal_row = 0;] *)
Definition next_row (row : Z) : Z :=
  let row := u64 (row + 1) in if row =? VGA_HEIGHT then 0 else row.

Definition terminal_putchar (c : Z) (t : terminal) : terminal :=
  if c =? 10 then terminal_setpos (next_row (terminal_row t)) 0 t
  else
    let t := terminal_putentryat c (terminal_color t) (terminal_column t) (terminal_row t) t in
    let column := u64 (terminal_column t + 1) in
    if column =? VGA_WIDTH then terminal_setpos (next_row (terminal_row t)) 0 t
    else terminal_setpos (terminal_row t) column t.

(** [size] is the length of [data]: all callers pass the whole string. *)
Definition terminal_write (data : list Z) (t : terminal) : terminal :=
  foldl (fun t c => terminal_putchar c t) t data.

(** A string literal or a C string of the kernel, written up to its NUL. *)
Definition terminal_writestring (data : list Z) (t : terminal) : terminal :=
  terminal_write (cstr data) t.

(** The nested loops over [y] and [x] of [terminal_initialize]. *)
Definition terminal_clear (t : terminal) : terminal :=
  for_loop (Z.to_nat VGA_HEIGHT) 0 (fun y t =>
    for_loop (Z.to_nat VGA_WIDTH) 0 (fun x t =>
      Terminal (terminal_row t) (terminal_column t) (terminal_color t)
        (<[y * VGA_WIDTH + x := vga_entry 32 (terminal_color t)]> (terminal_buffer t))) t) t.

Definition terminal_initialize (t : terminal) : terminal :=
  terminal_clear (Terminal 0 0 (vga_entry_color VGA_COLOR_LIGHT_GREY VGA_COLOR_BLACK)
                    (terminal_buffer t)).

(** [char buf[size]; int_to_string(num, buf); terminal_writestring(buf);]: the
    decimal notation of an [int]; [None] when it does not fit the buffer with
    its NUL, or for the undefined negation of [INT_MIN]. *)
Definition terminal_writeint (size num : Z) (t : terminal) : option terminal :=
  s ← int_to_string (s32 num);
  if Z.of_nat (length s) <? size then Some (terminal_writestring s t) else None.

(** A number with too many digits for its buffer. *)
Lemma writeint_overflow size num t :
  0 < size -> 10 ^ (size - 1) <= num < 2 ^ 31 -> terminal_writeint size num t = None.
Proof.
  intros Hs Hn. unfold terminal_writeint. pose proof (Z.pow_pos_nonneg 10 (size - 1) ltac:(lia) ltac:(lia)).
  rewrite s32_small by (unfold in_s32; lia).
  destruct (int_to_string_spec num) as (s & -> & ds & Heq & Hd & Hv & _); [unfold in_s32; lia|lia|].
  cbn [mbind option_bind]. rewrite (proj2 (Z.ltb_ge num 0)) in Heq by lia. cbn [app] in Heq. subst ds.
  pose proof (decimal_value_bound 0 s Hd ltac:(lia)) as Hb. unfold decimal_value in Hv. rewrite Hv in Hb.
  destruct (Z.ltb_spec (Z.of_nat (length s)) size) as [Hl|]; [|done]. exfalso.
  assert (10 ^ Z.of_nat (length s) <= 10 ^ (size - 1)) by (apply Z.pow_le_mono_r; lia). lia.
Qed.

(** ** The abstract screen

    The cursor is the linear position of the next cell, the contents the cells
    of the screen. *)

Definition SCREEN_SIZE : Z := VGA_WIDTH * VGA_HEIGHT.

Definition cursor (t : terminal) : Z := terminal_row t * VGA_WIDTH + terminal_column t.

Definition terminal_inv (t : terminal) : Prop :=
  0 <= terminal_row t < VGA_HEIGHT /\ 0 <= terminal_column t < VGA_WIDTH.

(** What writing the character [c] does to an abstract screen. *)
Definition screen_put (color : Z) (s : Z * gmap Z Z) (c : Z) : Z * gmap Z Z :=
  let '(pos, cells) := s in
  if c =? 10 then (((pos / VGA_WIDTH + 1) mod VGA_HEIGHT) * VGA_WIDTH, cells)
  else ((pos + 1) mod SCREEN_SIZE, <[pos := vga_entry c color]> cells).

Section Terminal_facts.
Lemma next_row_mod row : 0 <= row < VGA_HEIGHT -> next_row row = (row + 1) mod VGA_HEIGHT.
Proof.
  unfold next_row, VGA_HEIGHT; intros H. rewrite wrap_small by (unfold in_u; lia). split_if.
  - by replace (row + 1) with 25 by lia.
  - by rewrite Z.mod_small by lia.
Qed.

Lemma next_row_range row : 0 <= row < VGA_HEIGHT -> 0 <= next_row row < VGA_HEIGHT.
Proof. intros. rewrite next_row_mod by done. by apply Z.mod_pos_bound. Qed.

Lemma next_column column :
  0 <= column < VGA_WIDTH -> u64 (column + 1) = column + 1.
Proof. unfold VGA_WIDTH; intros. apply wrap_small. unfold in_u; lia. Qed.

Lemma terminal_inv_putchar c t : terminal_inv t -> terminal_inv (terminal_putchar c t).
Proof.
  intros [Hr Hc]. unfold terminal_putchar, terminal_inv. pose proof (next_row_range _ Hr).
  split_if; [by split|]. cbn [terminal_column terminal_putentryat terminal_row].
  rewrite next_column by done. split_if; simpl; unfold VGA_WIDTH in *; lia.
Qed.

Lemma terminal_inv_write data t : terminal_inv t -> terminal_inv (terminal_write data t).
Proof.
  unfold terminal_write. revert t; induction data as [|c data IH]; intros t H; simpl; [done|].
  by apply IH, terminal_inv_putchar.
Qed.

Lemma terminal_putchar_color c t : terminal_color (terminal_putchar c t) = terminal_color t.
Proof. unfold terminal_putchar. by repeat split_if. Qed.

Lemma terminal_write_color data t : terminal_color (terminal_write data t) = terminal_color t.
Proof.
  unfold terminal_write. revert t; induction data as [|c data IH]; intros t; simpl; [done|].
  by rewrite IH, terminal_putchar_color.
Qed.

Lemma terminal_putchar_refines c t :
  terminal_inv t ->
  (cursor (terminal_putchar c t), terminal_buffer (terminal_putchar c t))
  = screen_put (terminal_color t) (cursor t, terminal_buffer t) c.
Proof.
  intros Ht. destruct Ht as [Hr Hc]. unfold terminal_putchar, screen_put.
  assert (Hd : cursor t / VGA_WIDTH = terminal_row t).
  { symmetry; apply Z.div_unique with (terminal_column t); [by left|unfold cursor; ring]. }
  rewrite Hd. split_if.
  { unfold cursor; simpl. rewrite next_row_mod by done. f_equal. lia. }
  cbn [terminal_column terminal_row terminal_color terminal_putentryat terminal_setpos].
  rewrite next_column by done.
  assert (Hi : u64 (terminal_row t * VGA_WIDTH + terminal_column t) = cursor t).
  { apply wrap_small. unfold in_u, cursor, VGA_HEIGHT, VGA_WIDTH in *. lia. }
  unfold terminal_putentryat. rewrite Hi. unfold cursor in *.
  split_if; simpl; f_equal.
  - rewrite next_row_mod by done. unfold SCREEN_SIZE.
    replace (terminal_row t * VGA_WIDTH + terminal_column t + 1)
      with ((terminal_row t + 1) * VGA_WIDTH) by lia.
    rewrite (Z.mul_comm VGA_WIDTH), Z.mul_mod_distr_r; unfold VGA_WIDTH, VGA_HEIGHT in *; lia.
  - rewrite Z.mod_small; [lia|]. unfold SCREEN_SIZE, VGA_WIDTH, VGA_HEIGHT in *; lia.
Qed.

Lemma terminal_write_screen data t :
  terminal_inv t ->
  (cursor (terminal_write data t), terminal_buffer (terminal_write data t))
  = foldl (screen_put (terminal_color t)) (cursor t, terminal_buffer t) data.
Proof.
  unfold terminal_write. revert t; induction data as [|c data IH]; intros t H; [done|]. cbn [foldl].
  rewrite IH by by apply terminal_inv_putchar.
  by rewrite terminal_putchar_color, <- terminal_putchar_refines by done.
Qed.

Lemma cursor_range t : terminal_inv t -> 0 <= cursor t < SCREEN_SIZE.
Proof. unfold cursor, terminal_inv, SCREEN_SIZE, VGA_HEIGHT, VGA_WIDTH; lia. Qed.
End Terminal_facts.

Lemma screen_put_dom color s c :
  0 <= s.1 < SCREEN_SIZE ->
  0 <= (screen_put color s c).1 < SCREEN_SIZE /\
  forall i, ~ (0 <= i < SCREEN_SIZE) -> (screen_put color s c).2 !! i = s.2 !! i.
Proof.
  destruct s as [pos cells]. intros Hp. unfold screen_put. split_if; simpl.
  - pose proof (Z.mod_pos_bound (pos / VGA_WIDTH + 1) VGA_HEIGHT ltac:(done)).
    unfold SCREEN_SIZE, VGA_WIDTH, VGA_HEIGHT in *. split; [lia|done].
  - split; [by apply Z.mod_pos_bound|]. intros i Hi. rewrite lookup_insert_ne; [done|].
    simpl in Hp. lia.
Qed.

Lemma screen_write_dom color data s :
  0 <= s.1 < SCREEN_SIZE ->
  forall i, ~ (0 <= i < SCREEN_SIZE) -> (foldl (screen_put color) s data).2 !! i = s.2 !! i.
Proof.
  revert s; induction data as [|c data IH]; intros s Hs i Hi; [done|]. cbn [foldl].
  destruct (screen_put_dom color s c Hs) as [H1 H2]. rewrite IH by done. by apply H2.
Qed.

(** Writing printable characters fills consecutive cells, wrapping at the end. *)
Lemma screen_write_cells color data pos cells :
  0 <= pos < SCREEN_SIZE -> Forall (fun c => c <> 10) data ->
  Z.of_nat (length data) <= SCREEN_SIZE ->
  let s := foldl (screen_put color) (pos, cells) data in
  s.1 = (pos + Z.of_nat (length data)) mod SCREEN_SIZE /\
  (forall i c, data !! i = Some c ->
    s.2 !! ((pos + Z.of_nat i) mod SCREEN_SIZE) = Some (vga_entry c color)) /\
  forall j, (forall i, (i < length data)%nat -> j <> (pos + Z.of_nat i) mod SCREEN_SIZE) ->
    s.2 !! j = cells !! j.
Proof.
  assert (HS : 0 < SCREEN_SIZE) by done.
  induction data as [|c data IH] using rev_ind; intros Hp Hd Hl; cbv zeta.
  { simpl. rewrite Z.add_0_r, Z.mod_small by done. split_and!; [done| |done].
    intros i c Hi. by rewrite lookup_nil in Hi. }
  apply Forall_app in Hd as [Hd Hc]. apply Forall_cons in Hc as [Hc _].
  rewrite length_app in *. cbn [length] in *.
  destruct IH as (H1 & H2 & H3); [done|done|lia|].
  rewrite foldl_app. cbn [foldl].
  destruct (foldl (screen_put color) (pos, cells) data) as [p2 cells2]. simpl in *.
  rewrite (proj2 (Z.eqb_neq c 10)) by done. simpl. subst p2. split_and!.
  - rewrite Zplus_mod_idemp_l. f_equal. lia.
  - intros i d Hi. destruct (decide (i = length data)) as [->|Hne].
    + rewrite list_lookup_middle in Hi by done. injection Hi as <-. apply lookup_insert_eq.
    + assert (i < length data)%nat.
      { apply lookup_lt_Some in Hi. rewrite length_app in Hi. simpl in Hi. lia. }
      rewrite lookup_app_l in Hi by done. rewrite lookup_insert_ne; [by apply H2|].
      intros Heq. assert (Z.of_nat (length data) - Z.of_nat i = 0); [|lia].
      assert (Hm : (Z.of_nat (length data) - Z.of_nat i) mod SCREEN_SIZE = 0).
      { replace (Z.of_nat (length data) - Z.of_nat i)
          with ((pos + Z.of_nat (length data)) - (pos + Z.of_nat i)) by lia.
        rewrite Zminus_mod, Heq, Z.sub_diag. done. }
      rewrite Z.mod_small in Hm; lia.
  - intros j Hj. rewrite lookup_insert_ne by (intros <-; apply (Hj (length data)); [lia|done]).
    apply H3. intros i Hi. apply Hj. lia.
Qed.

(** ** Properties *)

(** C40. Writing keeps the cursor on the 80x25 screen, refines the abstract screen
    (a linear cursor that wraps at 2000 and jumps to the next row at a newline)
    character by character, and writes no memory cell outside the screen. *)
Theorem terminal_write_refines (data : list Z) (t : terminal) :
  terminal_inv t ->
  terminal_inv (terminal_write data t) /\
  (cursor (terminal_write data t), terminal_buffer (terminal_write data t))
    = foldl (screen_put (terminal_color t)) (cursor t, terminal_buffer t) data /\
  forall i, ~ (0 <= i < SCREEN_SIZE) ->
    terminal_buffer (terminal_write data t) !! i = terminal_buffer t !! i.
Proof.
  intros Ht. pose proof (terminal_write_screen data t Ht) as Hs.
  split_and!; [by apply terminal_inv_write|exact Hs|]. intros i Hi.
  rewrite <- (screen_write_dom (terminal_color t) data (cursor t, terminal_buffer t))
    by (done || by apply cursor_range).
  by rewrite <- Hs.
Qed.

Lemma terminal_write_refines_witness :
  let t := Terminal 24 78 7 ∅ in
  terminal_inv t /\ cursor (terminal_write (bytes_of "ab") t) = 0 /\
  (terminal_inv (terminal_write (bytes_of "ab") t) /\
   (cursor (terminal_write (bytes_of "ab") t), terminal_buffer (terminal_write (bytes_of "ab") t))
    = foldl (screen_put 7) (cursor t, ∅) (bytes_of "ab") /\
   forall i, ~ (0 <= i < SCREEN_SIZE) ->
    terminal_buffer (terminal_write (bytes_of "ab") t) !! i = (∅ : gmap Z Z) !! i).
Proof.
  intros t. assert (Ht : terminal_inv t) by (unfold terminal_inv, VGA_HEIGHT, VGA_WIDTH; simpl; lia).
  split; [exact Ht|]. split; [reflexivity|]. exact (terminal_write_refines (bytes_of "ab") t Ht).
Defined.

(** A line of at most 2000 printable characters appears in order in the
    cells that follow the cursor (wrapping to the top), in the current colour,
    and every other cell keeps its contents. *)
Theorem terminal_write_cells (data : list Z) (t : terminal) :
  terminal_inv t -> Forall (fun c => c <> 10) data -> Z.of_nat (length data) <= SCREEN_SIZE ->
  let t' := terminal_write data t in
  cursor t' = (cursor t + Z.of_nat (length data)) mod SCREEN_SIZE /\
  (forall i c, data !! i = Some c ->
    terminal_buffer t' !! ((cursor t + Z.of_nat i) mod SCREEN_SIZE)
      = Some (vga_entry c (terminal_color t))) /\
  forall j, (forall i, (i < length data)%nat -> j <> (cursor t + Z.of_nat i) mod SCREEN_SIZE) ->
    terminal_buffer t' !! j = terminal_buffer t !! j.
Proof.
  intros Ht Hd Hl. pose proof (terminal_write_screen data t Ht) as Hs.
  pose proof (screen_write_cells (terminal_color t) data (cursor t) (terminal_buffer t)
    (cursor_range t Ht) Hd Hl) as H.
  cbv zeta in *. by rewrite <- Hs in H.
Qed.

Lemma terminal_write_cells_witness :
  let t := Terminal 0 0 7 ∅ in
  terminal_inv t /\
  terminal_buffer (terminal_write (bytes_of "ok") t) !! ((cursor t + 1) mod SCREEN_SIZE)
    = Some (vga_entry 107 7).
Proof.
  intros t. assert (Ht : terminal_inv t) by (unfold terminal_inv, VGA_HEIGHT, VGA_WIDTH; simpl; lia).
  split; [exact Ht|].
  apply (proj1 (proj2 (terminal_write_cells (bytes_of "ok") t Ht
    ltac:(repeat constructor; done) ltac:(done))) 1%nat 107). reflexivity.
Defined.

(** The terminal has no backspace: ['\b'] is drawn as a glyph and moves the
    cursor forward, while keyboard.c and shell.c write ["\b \b"] to erase. *)
Theorem terminal_backspace_advances (t : terminal) :
  terminal_inv t ->
  cursor (terminal_putchar 8 t) = (cursor t + 1) mod SCREEN_SIZE /\
  terminal_buffer (terminal_putchar 8 t) !! cursor t = Some (vga_entry 8 (terminal_color t)).
Proof.
  intros Ht. pose proof (terminal_putchar_refines 8 t Ht) as H. simpl in H.
  injection H as H1 H2. split; [exact H1|]. rewrite H2. apply lookup_insert_eq.
Qed.

Lemma terminal_backspace_advances_witness :
  let t := Terminal 0 5 7 ∅ in
  terminal_inv t /\ cursor (terminal_putchar 8 t) = (cursor t + 1) mod SCREEN_SIZE.
Proof.
  intros t. assert (Ht : terminal_inv t) by (unfold terminal_inv, VGA_HEIGHT, VGA_WIDTH; simpl; lia).
  split; [exact Ht|]. exact (proj1 (terminal_backspace_advances t Ht)).
Defined.
