(* ===== verification/RawMemory.v ===== *)
(** * Byte-addressed memory

    The kernel runs on identity-mapped memory and keeps the heap headers, the
    physical bitmap and the page tables at fixed addresses in it.  A memory maps
    addresses to bytes; a C access of [n] bytes is little-endian ([load_le],
    [store_le]), [memset] is the routine of idt.c and [memcpy] the one kernel.h
    declares.  An address never written reads as zero: every theorem holds for
    any initial memory. *)
From S2P Require Import Prelude.

Abbreviation mem := (gmap Z Z).

Definition load8 (m : mem) (a : Z) : Z := u8 (default 0 (m !! a)).
Definition store8 (m : mem) (a v : Z) : mem := <[a := u8 v]> m.

Fixpoint load_le (n : nat) (m : mem) (a : Z) : Z :=
  match n with
  | O => 0
  | S n' => load8 m a + 256 * load_le n' m (a + 1)
  end.

Fixpoint store_le (n : nat) (m : mem) (a v : Z) : mem :=
  match n with
  | O => m
  | S n' => store_le n' (store8 m a v) (a + 1) (v / 256)
  end.

Abbreviation load16 := (load_le 2).
Abbreviation load32 := (load_le 4).
Abbreviation load64 := (load_le 8).
Abbreviation store32 := (store_le 4).
Abbreviation store64 := (store_le 8).

(** [while (len-- > 0) *ptr++ = val;] of idt.c. *)
Fixpoint memset (len : nat) (m : mem) (dest val : Z) : mem :=
  match len with
  | O => m
  | S len' => memset len' (store8 m dest val) (dest + 1) val
  end.

(** Byte by byte, in increasing addresses. *)
Fixpoint memcpy (n : nat) (m : mem) (dest src : Z) : mem :=
  match n with
  | O => m
  | S n' => memcpy n' (store8 m dest (load8 m src)) (dest + 1) (src + 1)
  end.

(** A buffer of [n] bytes at [a], and a buffer stored at [a]. *)
Fixpoint read_bytes (n : nat) (m : mem) (a : Z) : list Z :=
  match n with
  | O => []
  | S n' => load8 m a :: read_bytes n' m (a + 1)
  end.

Fixpoint write_bytes (bs : list Z) (m : mem) (a : Z) : mem :=
  match bs with
  | [] => m
  | b :: bs' => write_bytes bs' (store8 m a b) (a + 1)
  end.

(** The little-endian bytes of an integer of [n] bytes, and back. *)
Fixpoint le_bytes (n : nat) (v : Z) : list Z :=
  match n with
  | O => []
  | S n' => u8 v :: le_bytes n' (v / 256)
  end.

Fixpoint le_value (bs : list Z) : Z :=
  match bs with
  | [] => 0
  | b :: bs' => b + 256 * le_value bs'
  end.

(** The ranges [[a, a+n)] and [[b, b+k)] do not meet. *)
Definition disjoint_ranges (a n b k : Z) : Prop := a + n <= b \/ b + k <= a.

Section Memory_facts.
Implicit Types m : mem.

Lemma load8_range m a : in_u 8 (load8 m a).
Proof. apply wrap_range; lia. Qed.

Lemma load8_store8_eq m a v : load8 (store8 m a v) a = u8 v.
Proof. unfold load8, store8. rewrite lookup_insert_eq. simpl. apply wrap_idemp. Qed.

Lemma load8_store8_ne m a b v : a <> b -> load8 (store8 m b v) a = load8 m a.
Proof. intros. unfold load8, store8. by rewrite lookup_insert_ne. Qed.

Lemma load_le_range n m a : 0 <= load_le n m a < 2 ^ (8 * Z.of_nat n).
Proof.
  revert a; induction n as [|n IH]; intros a; [simpl; lia|].
  cbn [load_le]. pose proof (load8_range m a) as H. specialize (IH (a + 1)).
  replace (8 * Z.of_nat (S n)) with (8 + 8 * Z.of_nat n) by lia.
  rewrite Z.pow_add_r by lia. unfold in_u in H. lia.
Qed.

Lemma testbit_load_le n m a j :
  0 <= j < 8 * Z.of_nat n -> Z.testbit (load_le n m a) j = Z.testbit (load8 m (a + j / 8)) (j mod 8).
Proof.
  revert a j; induction n as [|n IH]; intros a j Hj; [lia|]. cbn [load_le].
  change 256 with (2 ^ 8). rewrite Z.add_comm, Z.mul_comm. destruct (Z.ltb_spec j 8).
  - rewrite (Z.div_small j), (Z.mod_small j), Z.add_0_r by lia.
    rewrite <- (Z.mod_pow2_bits_low _ 8 j), Z.add_comm, Z_mod_plus_full by lia.
    by rewrite Z.mod_small by apply load8_range.
  - replace j with ((j - 8) + 8) at 1 by lia. rewrite <- Z.div_pow2_bits by lia.
    rewrite Z.div_add_l, (Z.div_small (load8 m a)), Z.add_0_r by (lia || apply load8_range).
    rewrite IH by lia. replace (j / 8) with ((j - 8) / 8 + 1).
    + rewrite <- (Z_mod_plus_full (j - 8) 1 8). f_equal; [f_equal; lia|f_equal; lia].
    + rewrite <- Z.div_add by lia. f_equal. lia.
Qed.

Lemma load64_range m a : in_u 64 (load64 m a).
Proof. exact (load_le_range 8 m a). Qed.

Lemma load8_store_le_ne n m a b v :
  disjoint_ranges a 1 b (Z.of_nat n) -> load8 (store_le n m b v) a = load8 m a.
Proof.
  unfold disjoint_ranges.
  revert m b v; induction n as [|n IH]; intros m b v H; [done|].
  cbn [store_le]. rewrite IH by lia. by rewrite load8_store8_ne by lia.
Qed.

Lemma load_le_ext n m m' a :
  (forall b, a <= b < a + Z.of_nat n -> load8 m b = load8 m' b) ->
  load_le n m a = load_le n m' a.
Proof.
  revert a; induction n as [|n IH]; intros a H; [done|].
  cbn [load_le]. rewrite H by lia. rewrite (IH (a + 1)); [done|].
  intros b Hb. apply H. lia.
Qed.

Lemma load_store_le_ne n k m a b v :
  disjoint_ranges a (Z.of_nat n) b (Z.of_nat k) ->
  load_le n (store_le k m b v) a = load_le n m a.
Proof.
  intros H. apply load_le_ext. intros c Hc. apply load8_store_le_ne.
  unfold disjoint_ranges in *; lia.
Qed.

Lemma load_store8_ne n m a b v :
  disjoint_ranges a (Z.of_nat n) b 1 -> load_le n (store8 m b v) a = load_le n m a.
Proof.
  intros H. apply load_le_ext. intros c Hc. apply load8_store8_ne.
  unfold disjoint_ranges in *; lia.
Qed.

Lemma load_store_le_eq n m a v :
  load_le n (store_le n m a v) a = v mod 2 ^ (8 * Z.of_nat n).
Proof.
  revert m a v; induction n as [|n IH]; intros m a v.
  { simpl. by rewrite Z.mod_1_r. }
  cbn [load_le store_le].
  rewrite load8_store_le_ne by (unfold disjoint_ranges; lia).
  rewrite load8_store8_eq, IH.
  replace (8 * Z.of_nat (S n)) with (8 + 8 * Z.of_nat n) by lia.
  unfold wrap. rewrite Z.pow_add_r by lia. change (2 ^ 8) with 256.
  rewrite Z.rem_mul_r by lia. lia.
Qed.

Lemma load64_store64_eq m a v : in_u 64 v -> load64 (store64 m a v) a = v.
Proof. intros H. rewrite load_store_le_eq. by apply Z.mod_small. Qed.

Lemma load8_memset len m dest val a :
  load8 (memset len m dest val) a
  = if decide (dest <= a < dest + Z.of_nat len) then u8 val else load8 m a.
Proof.
  revert m dest; induction len as [|len IH]; intros m dest; cbn [memset].
  { case_decide; [lia|done]. }
  rewrite IH. destruct (decide (a = dest)) as [->|Hne].
  - rewrite load8_store8_eq. repeat case_decide; lia || done.
  - rewrite load8_store8_ne by done. repeat case_decide; lia || done.
Qed.

Lemma load_memset_ne n len m dest val a :
  disjoint_ranges a (Z.of_nat n) dest (Z.of_nat len) ->
  load_le n (memset len m dest val) a = load_le n m a.
Proof.
  intros H. apply load_le_ext. intros b Hb. rewrite load8_memset.
  unfold disjoint_ranges in H. case_decide; lia || done.
Qed.

Lemma load_le_zero n m a :
  (forall b, a <= b < a + Z.of_nat n -> load8 m b = 0) -> load_le n m a = 0.
Proof.
  revert a; induction n as [|n IH]; intros a H; [done|].
  cbn [load_le]. rewrite H by lia. rewrite (IH (a + 1)); [done|].
  intros b Hb; apply H; lia.
Qed.

Lemma load_le_ones n m a :
  (forall b, a <= b < a + Z.of_nat n -> load8 m b = 255) -> load_le n m a = 2 ^ (8 * Z.of_nat n) - 1.
Proof.
  revert a; induction n as [|n IH]; intros a H; cbn [load_le]; [done|].
  rewrite H by lia. rewrite IH by (intros; apply H; lia).
  replace (8 * Z.of_nat (S n)) with (8 + 8 * Z.of_nat n) by lia. rewrite Z.pow_add_r by lia. lia.
Qed.

Lemma load_memset_zero n len m dest a :
  dest <= a -> a + Z.of_nat n <= dest + Z.of_nat len ->
  load_le n (memset len m dest 0) a = 0.
Proof.
  intros. apply load_le_zero. intros b Hb. rewrite load8_memset.
  case_decide; [done|lia].
Qed.

Lemma load8_memcpy_disjoint n m dest src a :
  disjoint_ranges dest (Z.of_nat n) src (Z.of_nat n) ->
  load8 (memcpy n m dest src) a
  = if decide (dest <= a < dest + Z.of_nat n) then load8 m (src + (a - dest)) else load8 m a.
Proof.
  unfold disjoint_ranges.
  revert m dest src; induction n as [|n IH]; intros m dest src H; cbn [memcpy].
  { case_decide; [lia|done]. }
  rewrite IH by lia. destruct (decide (a = dest)) as [->|Hne].
  - rewrite load8_store8_eq. replace (src + (dest - dest)) with src by lia.
    rewrite (wrap_small 8) by apply load8_range.
    repeat case_decide; lia || done.
  - destruct (decide (dest <= a < dest + Z.of_nat (S n))).
    + rewrite decide_True by lia. rewrite load8_store8_ne by lia. f_equal. lia.
    + rewrite decide_False by lia. by rewrite load8_store8_ne by lia.
Qed.

Lemma length_read_bytes n m a : length (read_bytes n m a) = n.
Proof. revert a; induction n; intros a; simpl; [done|by f_equal]. Qed.

Lemma length_le_bytes n v : length (le_bytes n v) = n.
Proof. revert v; induction n; intros v; simpl; [done|by f_equal]. Qed.

Lemma le_value_le_bytes n v : le_value (le_bytes n v) = v mod 2 ^ (8 * Z.of_nat n).
Proof.
  revert v; induction n as [|n IH]; intros v; cbn [le_bytes le_value].
  { by rewrite Z.mod_1_r. }
  rewrite IH. replace (8 * Z.of_nat (S n)) with (8 + 8 * Z.of_nat n) by lia.
  unfold wrap. rewrite Z.pow_add_r by lia. change (2 ^ 8) with 256.
  rewrite Z.rem_mul_r by lia. lia.
Qed.

Lemma load8_write_bytes_ne bs m a b :
  disjoint_ranges b 1 a (Z.of_nat (length bs)) -> load8 (write_bytes bs m a) b = load8 m b.
Proof.
  unfold disjoint_ranges. revert m a; induction bs as [|c bs IH]; intros m a H; [done|].
  cbn [write_bytes length] in *. rewrite IH by lia. by rewrite load8_store8_ne by lia.
Qed.

Lemma read_write_bytes bs m a :
  Forall (in_u 8) bs -> read_bytes (length bs) (write_bytes bs m a) a = bs.
Proof.
  intros Hbs; revert m a; induction Hbs as [|b bs Hb Hbs IH]; intros m a; [done|].
  cbn [length read_bytes write_bytes]. rewrite IH. f_equal.
  rewrite load8_write_bytes_ne by (unfold disjoint_ranges; lia).
  by rewrite load8_store8_eq, wrap_small.
Qed.
End Memory_facts.

#[global] Arguments load_le : simpl never.
#[global] Arguments store_le : simpl never.
#[global] Arguments load8 : simpl never.
#[global] Arguments store8 : simpl never.

#[export] Hint Resolve load8_range load64_range : curnel.
