(* ===== verification/Allocator.v ===== *)
(** * What the kernel promises its clients about memory allocation

    process.c, syscall.c and shell.c call [kmalloc] and [kfree] and store into
    the blocks they get without looking at the heap.  [Allocator] is the contract
    they rely on; Heap.v discharges it.  A store through a pointer is a store to
    the memory the headers of the heap lie in as well: only one that stays inside
    a block is known to keep the heap well formed. *)
From S2P Require Import Prelude RawMemory.

Class Allocator (H : Type) := {
  alloc : Z -> H -> option (Z * H);
  free : Z -> H -> option H;
  (** One byte of memory, and a buffer stored at an address. *)
  peek : Z -> H -> Z;
  poke : list Z -> Z -> H -> H;
  (** The invariant of the allocator, the pointers it has handed out, and how
      many bytes lie behind each of them. *)
  alloc_wf : H -> Prop;
  alloc_live : H -> Z -> Prop;
  alloc_room : H -> Z -> Z;

  alloc_live_nonnull : forall h p, alloc_live h p -> p <> 0;
  alloc_spec : forall n h, alloc_wf h -> in_u 64 n ->
    exists p h', alloc n h = Some (p, h') /\ alloc_wf h' /\
      ((p = 0 /\ h' = h) \/
       (p <> 0 /\ in_u 64 p /\ ~ alloc_live h p /\ forall q, alloc_live h' q <-> alloc_live h q \/ q = p));
  free_null : forall h, free 0 h = Some h;
  free_spec : forall p h, alloc_wf h -> alloc_live h p ->
    exists h', free p h = Some h' /\ alloc_wf h' /\
      forall q, alloc_live h' q <-> alloc_live h q /\ q <> p;

  (** The other blocks keep their place and their bytes; a new block has the
      room asked for, unless the rounding of the size overflows. *)
  alloc_room_spec : forall n h p h', alloc_wf h -> in_u 64 n -> alloc n h = Some (p, h') -> p <> 0 ->
    (n <= 2 ^ 64 - 8 -> n <= alloc_room h' p) /\
    forall q, alloc_live h q -> alloc_room h' q = alloc_room h q /\
      forall a, q <= a < q + alloc_room h q -> peek a h' = peek a h;
  free_room_spec : forall p h h', alloc_wf h -> alloc_live h p -> free p h = Some h' ->
    forall q, alloc_live h q -> q <> p -> alloc_room h' q = alloc_room h q /\
      forall a, q <= a < q + alloc_room h q -> peek a h' = peek a h;
  rooms_apart : forall h p q, alloc_wf h -> alloc_live h p -> alloc_live h q -> p <> q ->
    disjoint_ranges p (alloc_room h p) q (alloc_room h q);

  peek_poke : forall bs p a h, peek a (poke bs p h) =
    if decide (p <= a < p + Z.of_nat (length bs)) then u8 (default 0 (bs !! Z.to_nat (a - p))) else peek a h;
  poke_spec : forall bs a p h, alloc_wf h -> alloc_live h p ->
    p <= a -> a + Z.of_nat (length bs) <= p + alloc_room h p ->
    alloc_wf (poke bs a h) /\ (forall q, alloc_live (poke bs a h) q <-> alloc_live h q) /\
    forall q, alloc_live h q -> alloc_room (poke bs a h) q = alloc_room h q;
}.
#[global] Hint Mode Allocator ! : typeclass_instances.

Section Blocks.
Context `{!Allocator H}.
Implicit Types (h : H) (bs : list Z).

(** [n] bytes from the address [p]. *)
Definition read_block (n : nat) (p : Z) h : list Z := (fun j => peek (p + Z.of_nat j) h) <$> seq 0 n.

Lemma length_read_block n p h : length (read_block n p h) = n.
Proof. unfold read_block. by rewrite length_fmap, length_seq. Qed.

Lemma lookup_read_block n p h j : (j < n)%nat -> read_block n p h !! j = Some (peek (p + Z.of_nat j) h).
Proof. intros Hj. unfold read_block. by rewrite list_lookup_fmap, lookup_seq_lt. Qed.

Lemma read_block_ext n p h h' :
  (forall a, p <= a < p + Z.of_nat n -> peek a h' = peek a h) -> read_block n p h' = read_block n p h.
Proof.
  intros He. unfold read_block. apply list_fmap_ext. intros i j [-> Hj]%lookup_seq. apply He. lia.
Qed.

(** What is stored is what is read. *)
Lemma read_block_poke bs p h :
  Forall (in_u 8) bs -> read_block (length bs) p (poke bs p h) = bs.
Proof.
  intros Hb. apply list_eq. intros j. destruct (decide (j < length bs)%nat) as [Hj|Hj].
  - rewrite lookup_read_block, peek_poke, decide_True by lia.
    replace (Z.to_nat (p + Z.of_nat j - p)) with j by lia.
    destruct (lookup_lt_is_Some_2 bs j Hj) as [x Hx]. rewrite Hx. cbn [default]. f_equal.
    apply wrap_small. by apply (proj1 (Forall_lookup _ _) Hb j).
  - rewrite !lookup_ge_None_2; rewrite ?length_read_block; try done; lia.
Qed.

(** A block that is as it was. *)
Definition same_block h h' (q : Z) : Prop :=
  alloc_room h' q = alloc_room h q /\ forall a, q <= a < q + alloc_room h q -> peek a h' = peek a h.

Lemma same_block_refl h q : same_block h h q.
Proof. done. Qed.

Lemma same_block_trans h1 h2 h3 q : same_block h1 h2 q -> same_block h2 h3 q -> same_block h1 h3 q.
Proof. intros [R1 P1] [R2 P2]. split; [congruence|]. intros a Ha. rewrite P2, P1 by (rewrite ?R1; done). done. Qed.

Lemma same_block_read h h' q n :
  same_block h h' q -> Z.of_nat n <= alloc_room h q -> read_block n q h' = read_block n q h.
Proof. intros [_ Hp] Hn. apply read_block_ext. intros a Ha. apply Hp. lia. Qed.

(** A store inside a block leaves the others alone. *)
Lemma poke_same_block bs a p h q :
  alloc_wf h -> alloc_live h p -> alloc_live h q -> q <> p ->
  p <= a -> a + Z.of_nat (length bs) <= p + alloc_room h p -> same_block h (poke bs a h) q.
Proof.
  intros Hw Hp Hq Hne Ha Hl. destruct (poke_spec bs a p h Hw Hp Ha Hl) as (_ & _ & Hr).
  split; [by apply Hr|]. intros x Hx. rewrite peek_poke, decide_False; [done|].
  pose proof (rooms_apart h p q Hw Hp Hq ltac:(done)) as Hd. unfold disjoint_ranges in Hd. lia.
Qed.
End Blocks.
