(* ===== verification/Heap.v ===== *)
(** * The kernel heap of memory.c

    A first-fit allocator over one arena: [memory_start] points to a singly
    linked list of headers laid out in the arena itself.  The operations below
    walk and update the headers in byte-addressed memory, as the C code does;
    the section on block lists is their abstract specification, and the
    refinement lemmas relate the two. *)
From S2P Require Import Prelude RawMemory Allocator.

Definition MEMORY_START : Z := 0x100000.
Definition MEMORY_SIZE : Z := 0x100000.
Definition BLOCK_SIZE : Z := 4096.

(** [sizeof(memory_block_t)]: [size] at 0, [is_free] at 8, [next] at 16. *)
Definition sizeof_block : Z := 24.

Definition block_size (m : mem) (b : Z) : Z := load64 m b.
Definition block_is_free (m : mem) (b : Z) : Z := load8 m (b + 8).
Definition block_next (m : mem) (b : Z) : Z := load64 m (b + 16).
Definition set_block_size (m : mem) (b v : Z) : mem := store64 m b v.
Definition set_block_is_free (m : mem) (b v : Z) : mem := store8 m (b + 8) v.
Definition set_block_next (m : mem) (b v : Z) : mem := store64 m (b + 16) v.

(** The statics of memory.c and the memory they live in. *)
Record heap := Heap {
  memory_start : Z;
  memory_initialized : Z;
  heap_mem : mem;
}.

Definition memory_init (h : heap) : heap :=
  if negb (memory_initialized h =? 0) then h else
  let m := set_block_size (heap_mem h) MEMORY_START (MEMORY_SIZE - sizeof_block) in
  let m := set_block_is_free m MEMORY_START 1 in
  let m := set_block_next m MEMORY_START 0 in
  Heap MEMORY_START 1 m.

(** The body of the search once a block is chosen: split it when the rest is
    worth a block, mark it used. *)
Definition take_block (m : mem) (current size : Z) : mem :=
  let m :=
    if u64 (size + sizeof_block + BLOCK_SIZE) <? block_size m current then
      let new_block := u64 (current + sizeof_block + size) in
      let m := set_block_size m new_block
                 (u64 (block_size m current - size - sizeof_block)) in
      let m := set_block_is_free m new_block 1 in
      let m := set_block_next m new_block (block_next m current) in
      let m := set_block_size m current size in
      set_block_next m current new_block
    else m in
  set_block_is_free m current 0.

Fixpoint kmalloc_search (fuel : nat) (m : mem) (current size : Z) : option (Z * mem) :=
  match fuel with
  | O => None
  | S fuel' =>
    if current =? 0 then Some (0, m) else
    if negb (block_is_free m current =? 0) && (size <=? block_size m current) then
      Some (u64 (current + sizeof_block), take_block m current size)
    else kmalloc_search fuel' m (block_next m current) size
  end.

(** The list has at most one header per 24 bytes of the arena. *)
Definition HEAP_FUEL : nat := Z.to_nat (MEMORY_SIZE / sizeof_block + 2).

(** [size = size + (8 - (size % 8))] when [size] is not a multiple of 8. *)
Definition align8 (size : Z) : Z :=
  if negb (size mod 8 =? 0) then u64 (size + (8 - size mod 8)) else size.

Definition kmalloc (size : Z) (h : heap) : option (Z * heap) :=
  let h := if memory_initialized h =? 0 then memory_init h else h in
  if size =? 0 then Some (0, h) else
  '(p, m) ← kmalloc_search HEAP_FUEL (heap_mem h) (memory_start h) (align8 size);
  Some (p, Heap (memory_start h) (memory_initialized h) m).

Fixpoint kfree_merge (fuel : nat) (m : mem) (current : Z) : option mem :=
  match fuel with
  | O => None
  | S fuel' =>
    if (negb (current =? 0)) && negb (block_next m current =? 0) then
      if (negb (block_is_free m current =? 0))
         && negb (block_is_free m (block_next m current) =? 0) then
        let m := set_block_size m current
                   (u64 (block_size m current + sizeof_block
                         + block_size m (block_next m current))) in
        let m := set_block_next m current (block_next m (block_next m current)) in
        kfree_merge fuel' m current
      else kfree_merge fuel' m (block_next m current)
    else Some m
  end.

Definition kfree (ptr : Z) (h : heap) : option heap :=
  if (ptr =? 0) || (memory_initialized h =? 0) then Some h else
  let block := u64 (ptr - sizeof_block) in
  let m := set_block_is_free (heap_mem h) block 1 in
  m ← kfree_merge HEAP_FUEL m (memory_start h);
  Some (Heap (memory_start h) (memory_initialized h) m).

(** ** Block lists

    The abstract heap: the blocks of the arena in address order. *)

Record blk := Blk { b_size : Z; b_free : bool }.

#[export] Instance blk_eq_dec : EqDecision blk.
Proof. solve_decision. Defined.

Definition extent (b : blk) : Z := sizeof_block + b_size b.

Fixpoint total (bs : list blk) : Z :=
  match bs with [] => 0 | b :: bs' => extent b + total bs' end.

(** First fit from address [a]: the payload pointer and the new list. *)
Fixpoint alloc_blocks (size a : Z) (bs : list blk) : option (Z * list blk) :=
  match bs with
  | [] => None
  | b :: bs' =>
    if b_free b && (size <=? b_size b) then
      Some (a + sizeof_block,
        if size + sizeof_block + BLOCK_SIZE <? b_size b
        then Blk size false :: Blk (b_size b - size - sizeof_block) true :: bs'
        else Blk (b_size b) false :: bs')
    else
      '(p, bs'') ← alloc_blocks size (a + extent b) bs'; Some (p, b :: bs'')
  end.

Definition merge_blk (b b' : blk) : blk := Blk (b_size b + sizeof_block + b_size b') true.

(** One pass that merges every run of free blocks. *)
Fixpoint coalesce (b : blk) (bs : list blk) : list blk :=
  match bs with
  | [] => [b]
  | b' :: bs' =>
    if b_free b && b_free b' then coalesce (merge_blk b b') bs' else b :: coalesce b' bs'
  end.

Definition coalesce_all (bs : list blk) : list blk :=
  match bs with [] => [] | b :: bs' => coalesce b bs' end.

(** Mark the block with payload [p] free. *)
Fixpoint release (p a : Z) (bs : list blk) : list blk :=
  match bs with
  | [] => []
  | b :: bs' =>
    if p =? a + sizeof_block then Blk (b_size b) true :: bs'
    else b :: release p (a + extent b) bs'
  end.

(** The payloads in use: pointer and size. *)
Fixpoint live_blocks (a : Z) (bs : list blk) : list (Z * Z) :=
  match bs with
  | [] => []
  | b :: bs' =>
    (if b_free b then [] else [(a + sizeof_block, b_size b)]) ++ live_blocks (a + extent b) bs'
  end.

(** The addresses of the headers. *)
Fixpoint headers (a : Z) (bs : list blk) : list Z :=
  match bs with [] => [] | b :: bs' => a :: headers (a + extent b) bs' end.

Definition blocks_ok (bs : list blk) : Prop :=
  Forall (fun b => 0 <= b_size b /\ b_size b mod 8 = 0) bs.

(** No two neighbouring free blocks. *)
Fixpoint merged (bs : list blk) : Prop :=
  match bs with
  | b :: ((b' :: _) as bs') => (b_free b && b_free b')%bool = false /\ merged bs'
  | _ => True
  end.

(** ** The invariant: the memory holds the headers of a block list that tiles
    the arena. *)

Definition first_ptr (a : Z) (bs : list blk) : Z := match bs with [] => 0 | _ => a end.

Fixpoint repr (m : mem) (a : Z) (bs : list blk) : Prop :=
  match bs with
  | [] => True
  | b :: bs' =>
    block_size m a = b_size b
    /\ block_is_free m a = (if b_free b then 1 else 0)
    /\ block_next m a = first_ptr (a + extent b) bs'
    /\ repr m (a + extent b) bs'
  end.

Definition heap_wf (h : heap) (bs : list blk) : Prop :=
  memory_start h = MEMORY_START /\ memory_initialized h = 1
  /\ blocks_ok bs /\ total bs = MEMORY_SIZE /\ bs <> []
  /\ repr (heap_mem h) MEMORY_START bs.

Example kmalloc_ex :
  let h := memory_init (Heap 0 0 ∅) in
  (fst <$> kmalloc 100 h) = Some (MEMORY_START + 24)
  /\ (('(p, h) ← kmalloc 100 h; '(q, h) ← kmalloc 5 h; h ← kfree p h; fst <$> kmalloc 3 h)
      = Some (MEMORY_START + 24)).
Proof. vm_compute. done. Qed.

(** ** Refinement *)

Definition outside (c : Z) (hs : list Z) : Prop :=
  forall x, x ∈ hs -> c < x \/ x + sizeof_block <= c.

(** The bytes that are not in a header of [bs] are the same in both memories. *)
Definition payload_frame (m m' : mem) (a : Z) (bs : list blk) : Prop :=
  forall c, outside c (headers a bs) -> load8 m' c = load8 m c.

(** Reading one field of a header through writes to others. *)
Ltac header_rw :=
  unfold block_size, block_is_free, block_next, set_block_size, set_block_is_free,
    set_block_next, sizeof_block in *;
  repeat first
    [ rewrite load64_store64_eq by first [unfold in_u; lia | apply load64_range]
    | rewrite load8_store8_eq
    | rewrite load8_store_le_ne by (unfold disjoint_ranges; lia)
    | rewrite load8_store8_ne by lia
    | rewrite load_store_le_ne by (unfold disjoint_ranges; lia)
    | rewrite load_store8_ne by (unfold disjoint_ranges; lia) ].

Section Block_lists.
Lemma total_nonneg bs : blocks_ok bs -> 0 <= total bs.
Proof.
  induction 1 as [|b bs [Hb _] _ IH]; simpl; [lia|].
  unfold extent, sizeof_block in *; lia.
Qed.

Lemma headers_range a bs x :
  blocks_ok bs -> x ∈ headers a bs -> a <= x /\ x + sizeof_block <= a + total bs.
Proof.
  intros Hok. revert a. induction Hok as [|b bs [Hb _] Hok IH]; intros a Hx; simpl in *.
  { set_solver. }
  pose proof (total_nonneg _ Hok). unfold extent, sizeof_block in *.
  apply elem_of_cons in Hx as [->|Hx]; [lia|].
  specialize (IH _ Hx). lia.
Qed.

Lemma outside_below a bs c : blocks_ok bs -> c < a -> outside c (headers a bs).
Proof. intros Hok Hc x Hx. pose proof (headers_range _ _ _ Hok Hx). lia. Qed.

Lemma outside_cons c x hs :
  outside c (x :: hs) <-> (c < x \/ x + sizeof_block <= c) /\ outside c hs.
Proof.
  unfold outside. split.
  - intros H. split; [apply H; left|]. intros y Hy. apply H. by right.
  - intros [Hx H] y [->|Hy]%elem_of_cons; [done|by apply H].
Qed.

Lemma live_blocks_range a bs p s :
  blocks_ok bs -> (p, s) ∈ live_blocks a bs ->
  a + sizeof_block <= p /\ p + s <= a + total bs /\ 0 <= s.
Proof.
  intros Hok. revert a. induction Hok as [|b bs [Hb _] Hok IH]; intros a Hx; simpl in *.
  { set_solver. }
  pose proof (total_nonneg _ Hok). unfold extent, sizeof_block in *.
  apply elem_of_app in Hx as [Hx|Hx].
  - destruct (b_free b); [set_solver|]. apply list_elem_of_singleton in Hx.
    injection Hx as -> ->. lia.
  - specialize (IH _ Hx). lia.
Qed.

Lemma live_blocks_aligned a bs p s :
  blocks_ok bs -> a mod 8 = 0 -> (p, s) ∈ live_blocks a bs -> p mod 8 = 0 /\ s mod 8 = 0.
Proof.
  intros Hok. revert a. induction Hok as [|b bs [Hb Hm] Hok IH]; intros a Ha Hx; simpl in *.
  { set_solver. }
  apply elem_of_app in Hx as [Hx|Hx].
  - destruct (b_free b); [set_solver|]. apply list_elem_of_singleton in Hx.
    injection Hx as -> ->. unfold sizeof_block. split; [|done].
    by rewrite Zplus_mod, Ha.
  - apply (IH (a + extent b)); [|done]. unfold extent, sizeof_block.
    by rewrite Zplus_mod, Ha, (Zplus_mod 24), Hm.
Qed.

(** Live payloads of one list never overlap. *)
Lemma live_blocks_disjoint a bs :
  blocks_ok bs ->
  forall i j p s q t, i <> j -> live_blocks a bs !! i = Some (p, s) ->
    live_blocks a bs !! j = Some (q, t) -> disjoint_ranges p s q t.
Proof.
  intros Hok. revert a.
  induction Hok as [|b bs [Hb _] Hok IH]; intros a i j p s q t Hij Hi Hj; simpl in *.
  { by rewrite lookup_nil in Hi. }
  unfold disjoint_ranges, extent in *. destruct (b_free b); simpl in *.
  { by apply (IH (a + (sizeof_block + b_size b)) i j p s q t). }
  assert (Hrest : forall k q t, live_blocks (a + (sizeof_block + b_size b)) bs !! k = Some (q, t) ->
            a + sizeof_block + b_size b <= q).
  { intros k q' t' Hk. apply list_elem_of_lookup_2, live_blocks_range in Hk; [|done].
    unfold sizeof_block in *; lia. }
  destruct i as [|i], j as [|j]; simpl in *; simplify_eq.
  - left. by apply (Hrest j q t).
  - right. by apply (Hrest i p s).
  - apply (IH (a + (sizeof_block + b_size b)) i j p s q t); auto.
Qed.
End Block_lists.

Section Refinement.
Implicit Types m : mem.

Lemma repr_ext m m' a bs :
  blocks_ok bs ->
  (forall c, a <= c < a + total bs -> load8 m' c = load8 m c) ->
  repr m a bs -> repr m' a bs.
Proof.
  intros Hok. revert a. induction Hok as [|b bs [Hb _] Hok IH]; intros a Hs Hr; [done|].
  pose proof (total_nonneg _ Hok). simpl in *. unfold extent, sizeof_block in *.
  destruct Hr as (H1 & H2 & H3 & H4). unfold block_size, block_is_free, block_next in *.
  split_and!.
  - rewrite <- H1. apply load_le_ext. intros c Hc. apply Hs. lia.
  - rewrite <- H2. apply Hs. lia.
  - rewrite <- H3. apply load_le_ext. intros c Hc. apply Hs. lia.
  - apply IH; [|done]. intros c Hc. apply Hs. lia.
Qed.

(** The list a memory holds is unique: [next = NULL] marks its end. *)
Lemma repr_inj m a bs1 bs2 :
  0 < a -> blocks_ok bs1 -> blocks_ok bs2 -> (bs1 = [] <-> bs2 = []) ->
  repr m a bs1 -> repr m a bs2 -> bs1 = bs2.
Proof.
  intros Ha Hok. revert a bs2 Ha.
  induction Hok as [|b bs1 [Hb _] Hok IH]; intros a [|b2 bs2] Ha Hok2 Hnil H1 H2; try done.
  { by destruct Hnil as [Hnil _]; specialize (Hnil eq_refl). }
  { by destruct Hnil as [_ Hnil]; specialize (Hnil eq_refl). }
  destruct H1 as (S1 & F1 & N1 & R1), H2 as (S2 & F2 & N2 & R2).
  apply Forall_cons in Hok2 as [[Hb2 _] Hok2].
  assert (b = b2) as <-.
  { destruct b as [s f], b2 as [s2 f2]; simpl in *. f_equal; [congruence|].
    destruct f, f2; congruence. }
  f_equal. apply (IH (a + extent b)); auto.
  - unfold extent, sizeof_block. lia.
  - rewrite N1 in N2. unfold extent, sizeof_block in N2.
    destruct bs1, bs2; simpl in N2; split; intros; try done; lia.
Qed.

Lemma repr_head m a b bs :
  repr m a (b :: bs) -> negb (block_is_free m a =? 0) = b_free b.
Proof. intros (_ & H & _). rewrite H. by destruct (b_free b). Qed.
End Refinement.

Section Kmalloc_refinement.
Implicit Types m : mem.

Definition fit_block (size : Z) (b : blk) (bs : list blk) : list blk :=
  if size + sizeof_block + BLOCK_SIZE <? b_size b
  then Blk size false :: Blk (b_size b - size - sizeof_block) true :: bs
  else Blk (b_size b) false :: bs.

Lemma fit_block_ok size b bs :
  0 <= size -> size mod 8 = 0 -> blocks_ok (b :: bs) ->
  blocks_ok (fit_block size b bs) /\ total (fit_block size b bs) = total (b :: bs).
Proof.
  intros H0 H8 [[Hb Hm] Hok]%Forall_cons. unfold fit_block, blocks_ok.
  unfold extent, sizeof_block, BLOCK_SIZE. split_if; simpl; unfold extent, sizeof_block; simpl.
  - split; [|lia]. repeat constructor; simpl; try done; try lia.
    unfold sizeof_block. Z.div_mod_to_equations. lia.
  - split; [|lia]. by repeat constructor.
Qed.

Lemma take_block_spec m a b bs size :
  0 < a -> a + total (b :: bs) <= 2 ^ 63 -> blocks_ok (b :: bs) ->
  0 <= size <= b_size b -> size mod 8 = 0 -> repr m a (b :: bs) ->
  repr (take_block m a size) a (fit_block size b bs)
  /\ payload_frame m (take_block m a size) a (fit_block size b bs).
Proof.
  intros Ha Hbnd Hok Hs H8 (S1 & F1 & N1 & R1).
  apply Forall_cons in Hok as [[Hb Hm] Hok]. pose proof (total_nonneg _ Hok).
  simpl in Hbnd. unfold extent, sizeof_block in *.
  unfold take_block, fit_block, BLOCK_SIZE, sizeof_block.
  rewrite S1, !wrap_small by (unfold in_u; lia).
  
  split_if.
  - header_rw. rewrite !wrap_small by (unfold in_u; lia).
    unfold payload_frame; simpl; unfold extent, sizeof_block; simpl.
    replace (a + (24 + size)) with (a + 24 + size) by lia.
    replace (a + 24 + size + (24 + (b_size b - size - 24))) with (a + (24 + b_size b)) by lia.
    split_and!.
    1-6: header_rw.
    all: try (by rewrite ?wrap_small by (unfold in_u; lia)).
    1: { eapply repr_ext; [done| |done]. intros c Hc. simpl. header_rw. done. }
    intros c Hc. apply outside_cons in Hc as [Hc1 Hc]. apply outside_cons in Hc as [Hc2 Hc].
    unfold sizeof_block in *. header_rw. done.
  - unfold payload_frame; simpl; unfold extent, sizeof_block; simpl.
    header_rw. split_and!; try done.
    + eapply repr_ext; [done| |done]. intros c Hc. header_rw. done.
    + intros c Hc. apply outside_cons in Hc as [Hc1 Hc].
      unfold sizeof_block in *. header_rw. done.
Qed.

(** Work on the tail leaves the head as it was. *)
Lemma repr_tail m m' a b bs bs' :
  0 <= b_size b -> blocks_ok bs' -> repr m a (b :: bs) -> (bs = [] <-> bs' = []) ->
  repr m' (a + extent b) bs' -> payload_frame m m' (a + extent b) bs' ->
  repr m' a (b :: bs') /\ payload_frame m m' a (b :: bs').
Proof.
  intros Hb Hok (S1 & F1 & N1 & _) Hnil Hr Hfr.
  assert (Hlow : forall c, c < a + extent b -> load8 m' c = load8 m c).
  { intros c Hc. by apply Hfr, outside_below. }
  unfold extent, sizeof_block in Hlow. split.
  - cbn [repr]. split_and!; [| | |done].
    + rewrite <- S1. apply load_le_ext. intros c Hc. apply Hlow. lia.
    + rewrite <- F1. apply Hlow. lia.
    + transitivity (first_ptr (a + extent b) bs);
        [|destruct bs; [by rewrite (proj1 Hnil)|destruct bs'; [by destruct (proj2 Hnil)|done]]].
      rewrite <- N1. apply load_le_ext. intros c Hc. apply Hlow. lia.
  - intros c Hc. cbn [headers] in Hc. apply outside_cons in Hc as [_ Hc]. by apply Hfr.
Qed.

Lemma kmalloc_search_spec m a bs size fuel :
  0 < a -> a + total bs <= 2 ^ 63 -> blocks_ok bs -> 0 <= size -> size mod 8 = 0 ->
  repr m a bs -> (length bs < fuel)%nat ->
  match alloc_blocks size a bs with
  | Some (p, bs') =>
    exists m', kmalloc_search fuel m (first_ptr a bs) size = Some (p, m')
      /\ repr m' a bs' /\ blocks_ok bs' /\ total bs' = total bs /\ bs' <> []
      /\ payload_frame m m' a bs'
  | None => kmalloc_search fuel m (first_ptr a bs) size = Some (0, m)
  end.
Proof.
  revert m a fuel. induction bs as [|b bs IH]; intros m a fuel Ha Hbnd Hok Hs H8 Hr Hf.
  { destruct fuel; [simpl in Hf; lia|done]. }
  destruct fuel as [|fuel]; [simpl in Hf; lia|].
  pose proof (repr_head _ _ _ _ Hr) as Hfree.
  pose proof Hok as Hok'. apply Forall_cons in Hok' as [[Hb Hm] Hok'].
  pose proof (total_nonneg _ Hok').
  destruct Hr as (S1 & F1 & N1 & R1).
  cbn [alloc_blocks kmalloc_search first_ptr]. rewrite Hfree, S1.
  rewrite (proj2 (Z.eqb_neq a 0)) by lia.
  simpl in Hbnd. destruct (b_free b && (size <=? b_size b))%bool eqn:Hfit.
  - zify_bool.
    destruct (take_block_spec m a b bs size) as [Hr2 Hfr]; try done.
    destruct (fit_block_ok size b bs) as [Hok2 Htot]; try done.
    exists (take_block m a size). unfold extent in *.
    rewrite wrap_small by (unfold in_u, sizeof_block in *; lia).
    split_and!; try done. unfold fit_block. by split_if.
  - specialize (IH m (a + extent b) fuel). rewrite N1.
    unfold extent, sizeof_block in *.
    destruct (alloc_blocks size (a + (24 + b_size b)) bs) as [[p bs'']|]; cbn [mbind option_bind].
    + destruct IH as (m' & Hk & Hr' & Hok2 & Htot & Hne & Hfr); try done; [lia|lia|simpl in Hf; lia|].
      assert (Hnil : bs = [] <-> bs'' = []).
      { split; [intros ->|by intros ->]. destruct bs'' as [|b2 bs2]; [done|].
        apply Forall_cons in Hok2 as [[? ?] ?]. pose proof (total_nonneg bs2 ltac:(done)).
        simpl in Htot. unfold extent, sizeof_block in Htot. lia. }
      destruct (repr_tail m m' a b bs bs'') as [Hr2 Hfr2]; [done..|].
      exists m'. split_and!; try done; [by apply Forall_cons|].
      simpl. unfold extent, sizeof_block. lia.
    + apply IH; try done; [lia|lia|simpl in Hf; lia].
Qed.
End Kmalloc_refinement.

Section Kfree_lists.
Lemma coalesce_cons b bs : coalesce b bs <> [].
Proof. revert b; induction bs as [|b' bs IH]; intros b; simpl; [done|]. by split_if. Qed.

Lemma coalesce_ok b bs : blocks_ok (b :: bs) -> blocks_ok (coalesce b bs).
Proof.
  revert b; induction bs as [|b' bs IH]; intros b Hok; simpl; [done|].
  apply Forall_cons in Hok as [[Hb Hm] Hok]. split_if; [|apply Forall_cons; split; [by split|by apply IH]].
  apply Forall_cons in Hok as [[Hb' Hm'] Hok]. apply IH. apply Forall_cons; split; [|done].
  simpl. unfold sizeof_block. split; [lia|Z.div_mod_to_equations; lia].
Qed.

Lemma coalesce_total b bs : total (coalesce b bs) = total (b :: bs).
Proof.
  revert b; induction bs as [|b' bs IH]; intros b; [done|]. cbn [coalesce]. split_if.
  - rewrite IH. simpl. unfold extent, merge_blk; simpl. lia.
  - simpl. rewrite IH. done.
Qed.

Lemma coalesce_live a b bs : live_blocks a (coalesce b bs) = live_blocks a (b :: bs).
Proof.
  revert a b; induction bs as [|b' bs IH]; intros a b; [done|]. cbn [coalesce]. split_if.
  - rewrite IH. simpl. rewrite H, H0. simpl. f_equal. unfold extent, merge_blk; simpl. lia.
  - cbn [live_blocks]. by rewrite IH.
Qed.

(** The head block of the result is the first one, grown if it was free. *)
Lemma coalesce_head b bs :
  exists b1 bs1, coalesce b bs = b1 :: bs1 /\ b_free b1 = b_free b.
Proof.
  revert b; induction bs as [|b' bs IH]; intros b; [by eexists _, _|].
  simpl. split_if; [|by eexists _, _].
  destruct (IH (merge_blk b b')) as (b1 & bs1 & -> & Hf). exists b1, bs1.
  split; [done|]. by rewrite Hf.
Qed.

Lemma coalesce_merged b bs : merged (coalesce b bs).
Proof.
  revert b; induction bs as [|b' bs IH]; intros b; [done|]. simpl.
  destruct (b_free b && b_free b')%bool eqn:E; [apply IH|].
  specialize (IH b'). destruct (coalesce_head b' bs) as (b1 & bs1 & Heq & Hf).
  rewrite Heq in IH |- *. split; [by rewrite Hf|exact IH].
Qed.

Lemma release_ok p a bs : blocks_ok bs -> blocks_ok (release p a bs).
Proof.
  intros Hok. revert a. induction Hok as [|b bs Hb Hok IH]; intros a; simpl; [constructor|].
  split_if; apply Forall_cons; (split; [exact Hb|]); [exact Hok|apply IH].
Qed.

Lemma release_total p a bs : total (release p a bs) = total bs.
Proof.
  revert a; induction bs as [|b bs IH]; intros a; simpl; [done|]. split_if; simpl; [done|].
  by rewrite IH.
Qed.

Lemma release_nil p a bs : release p a bs = [] <-> bs = [].
Proof. destruct bs; simpl; [done|]. by split_if. Qed.

Lemma release_live p a bs :
  blocks_ok bs ->
  live_blocks a (release p a bs) = filter (fun x => x.1 <> p) (live_blocks a bs).
Proof.
  intros Hok. revert a. induction Hok as [|b bs [Hb Hm] Hok IH]; intros a; simpl; [done|].
  assert (Hrest : p = a + sizeof_block ->
    filter (fun x => x.1 <> p) (live_blocks (a + extent b) bs) = live_blocks (a + extent b) bs).
  { intros ->. clear IH.
    assert (HF : Forall (fun x : Z * Z => x.1 <> a + sizeof_block) (live_blocks (a + extent b) bs)).
    { apply Forall_forall. intros [q t] Hq%live_blocks_range; [|done].
      unfold extent, sizeof_block in *; simpl; lia. }
    induction HF as [|x l Hx _ IHl]; [done|]. rewrite filter_cons_True by done. by rewrite IHl. }
  rewrite filter_app. destruct (Z.eqb_spec p (a + sizeof_block)) as [->|Hne].
  - simpl. rewrite Hrest by done. destruct (b_free b); [done|].
    rewrite filter_cons_False by (simpl; tauto). done.
  - simpl. rewrite IH. f_equal. destruct (b_free b); [done|].
    rewrite filter_cons_True by (simpl; congruence). done.
Qed.
End Kfree_lists.

Section Kfree_refinement.
Implicit Types m : mem.

(** The headers after two neighbours have been joined. *)
Lemma repr_merge m a b b' bs :
  0 < a -> a + total (b :: b' :: bs) <= 2 ^ 63 -> blocks_ok (b :: b' :: bs) -> repr m a (b :: b' :: bs) ->
  b_free b = true ->
  let m1 := set_block_size m a (b_size b + sizeof_block + b_size b') in
  let m2 := set_block_next m1 a (block_next m1 (block_next m1 a)) in
  blocks_ok (merge_blk b b' :: bs) /\ repr m2 a (merge_blk b b' :: bs) /\
  forall c, (c < a \/ a + sizeof_block <= c) -> load8 m2 c = load8 m c.
Proof.
  intros Ha Hbnd Hok (S1 & F1 & N1 & S2 & F2 & N2 & R2) Hfree m1 m2.
  apply Forall_cons in Hok as [[Hb Hm] [[Hb' Hm'] Hok]%Forall_cons].
  pose proof (total_nonneg _ Hok). simpl in Hbnd. unfold extent in *. rewrite Hfree in F1. split; [|split].
  - apply Forall_cons; split; [|done]. simpl. unfold sizeof_block. split; [lia|Z.div_mod_to_equations; lia].
  - subst m1 m2. simpl in N1 |- *. unfold extent, merge_blk; simpl.
    replace (a + (sizeof_block + (b_size b + sizeof_block + b_size b')))
      with (a + (sizeof_block + b_size b) + (sizeof_block + b_size b')) by lia.
    header_rw. split_and!; [reflexivity|exact F1| |].
    { rewrite (load_store_le_ne 8 8 m (a + 16)), N1 by (unfold disjoint_ranges; lia). header_rw. exact N2. }
    eapply repr_ext; [done| |done]. intros c Hc. header_rw. done.
  - intros c Hc. subst m1 m2. header_rw. done.
Qed.

Lemma kfree_merge_spec m a b bs fuel :
  0 < a -> a + total (b :: bs) <= 2 ^ 63 -> blocks_ok (b :: bs) ->
  repr m a (b :: bs) -> (length bs < fuel)%nat ->
  exists m', kfree_merge fuel m a = Some m' /\ repr m' a (coalesce b bs)
    /\ payload_frame m m' a (coalesce b bs).
Proof.
  revert m a b fuel. induction bs as [|b' bs IH]; intros m a b fuel Ha Hbnd Hok Hr Hf.
  { destruct fuel as [|fuel]; [simpl in Hf; lia|]. exists m. simpl.
    destruct Hr as (S1 & F1 & N1 & _). rewrite N1, andb_false_r. by repeat split. }
  destruct fuel as [|fuel]; [simpl in Hf; lia|].
  pose proof Hok as Hok'. apply Forall_cons in Hok' as [[Hb Hm] Hok'].
  pose proof Hok' as Hok2. apply Forall_cons in Hok2 as [[Hb' Hm'] Hok2].
  pose proof (total_nonneg _ Hok2).
  pose proof (repr_head _ _ _ _ Hr) as Hf1.
  pose proof Hr as (S1 & F1 & N1 & R1).
  pose proof (repr_head _ _ _ _ R1) as Hf2.
  cbn [kfree_merge coalesce]. simpl in N1. simpl in Hbnd.
  rewrite N1, Hf1, Hf2.
  rewrite !(proj2 (Z.eqb_neq _ 0)) by (unfold extent, sizeof_block in *; lia).
  cbn [negb andb]. destruct R1 as (S2 & F2 & N2 & R2).
  unfold extent in *. destruct (b_free b && b_free b')%bool eqn:Hboth; zify_bool.
  - rewrite S1, S2, wrap_small by (unfold in_u, sizeof_block in *; lia).
    destruct (repr_merge m a b b' bs) as (Hok3 & Hr3 & Hfr3); [done| |done|exact Hr|done|].
    { simpl. unfold extent. lia. }
    cbv zeta in Hr3, Hfr3. set (m2 := set_block_next _ _ _) in *.
    destruct (IH m2 a (merge_blk b b') fuel) as (m' & Hk & Hr' & Hfr); try done; [|simpl in Hf; lia|].
    + simpl. unfold extent, merge_blk, sizeof_block in *; simpl. lia.
    + exists m'. split_and!; [done|done|]. intros c Hc. rewrite (Hfr c Hc).
      destruct (coalesce_head (merge_blk b b') bs) as (b1 & bs1 & Heq & _).
      rewrite Heq in Hc. simpl in Hc. apply outside_cons in Hc as [Hc _]. by apply Hfr3.
  - destruct (IH m (a + (sizeof_block + b_size b)) b' fuel) as (m' & Hk & Hr' & Hfr); try done.
    + unfold sizeof_block in *; lia.
    + simpl. unfold extent in *. lia.
    + simpl in Hf; lia.
    + exists m'. split; [done|]. apply (repr_tail m m' a b (b' :: bs)); try done.
      * by apply coalesce_ok.
      * split; [done|]. intros Hc. by destruct (coalesce_cons b' bs).
Qed.

Lemma release_repr m a bs p s :
  0 < a -> a + total bs <= 2 ^ 63 -> blocks_ok bs -> repr m a bs ->
  (p, s) ∈ live_blocks a bs ->
  repr (set_block_is_free m (p - sizeof_block) 1) a (release p a bs).
Proof.
  intros Ha Hbnd Hok. revert a Ha Hbnd.
  induction Hok as [|b bs [Hb Hm] Hok IH]; intros a Ha Hbnd Hr Hp; simpl in *; [set_solver|].
  pose proof (total_nonneg _ Hok). destruct Hr as (S1 & F1 & N1 & R1).
  unfold extent in *. destruct (Z.eqb_spec p (a + sizeof_block)) as [->|Hne].
  - replace (a + sizeof_block - sizeof_block) with a by lia. simpl. unfold extent.
    simpl. header_rw. split_and!; try done.
    eapply repr_ext; [done| |done]. intros c Hc. header_rw. done.
  - assert (Hp' : (p, s) ∈ live_blocks (a + (sizeof_block + b_size b)) bs).
    { apply elem_of_app in Hp as [Hp|Hp]; [|done]. destruct (b_free b); [set_solver|].
      apply list_elem_of_singleton in Hp. congruence. }
    pose proof (live_blocks_range _ _ _ _ Hok Hp') as Hrg. simpl. unfold extent.
    split_and!.
    + header_rw. done.
    + header_rw. done.
    + transitivity (first_ptr (a + (sizeof_block + b_size b)) bs); [header_rw; done|].
      destruct bs; simpl; [done|]. by split_if.
    + apply IH; [unfold sizeof_block in *; lia|lia|done|done].
Qed.
End Kfree_refinement.

Section Heap_facts.
Lemma align8_multiple size : align8 size mod 8 = 0.
Proof.
  unfold align8, wrap. split_if; [|done].
  change (2 ^ 64) with (8 * 2 ^ 61). Z.div_mod_to_equations. lia.
Qed.

Lemma align8_range size : in_u 64 size -> in_u 64 (align8 size).
Proof. intros. unfold align8. split_if; [apply wrap_range; lia|done]. Qed.

(** Rounding up adds less than 8 unless it overflows [size_t]. *)
Lemma align8_le size :
  0 <= size <= 2 ^ 64 - 8 -> size <= align8 size < size + 8.
Proof.
  intros H. unfold align8. split_if; [|lia].
  rewrite wrap_small; [pose proof (Z.mod_pos_bound size 8); lia|].
  unfold in_u. Z.div_mod_to_equations. lia.
Qed.

Lemma heap_wf_bound h bs : heap_wf h bs -> MEMORY_START + total bs <= 2 ^ 63.
Proof. intros (_ & _ & _ & -> & _). done. Qed.

Lemma total_length bs : blocks_ok bs -> sizeof_block * Z.of_nat (length bs) <= total bs.
Proof.
  induction 1 as [|b bs [Hb _] _ IH]; [done|]. cbn [length total]. unfold extent, sizeof_block in *.
  lia.
Qed.

Lemma heap_wf_fuel h bs : heap_wf h bs -> (S (length bs) < HEAP_FUEL)%nat.
Proof.
  intros (_ & _ & Hok & Ht & _). pose proof (total_length _ Hok) as Hl. rewrite Ht in Hl.
  unfold HEAP_FUEL, sizeof_block, MEMORY_SIZE in *.
  assert (Z.of_nat (length bs) <= 43690) by lia.
  apply Nat2Z.inj_lt. rewrite Z2Nat.id by done. change (0x100000 / 24 + 2) with 43692. lia.
Qed.

Lemma heap_wf_inj h bs1 bs2 : heap_wf h bs1 -> heap_wf h bs2 -> bs1 = bs2.
Proof.
  intros (_ & _ & O1 & _ & N1 & R1) (_ & _ & O2 & _ & N2 & R2).
  apply (repr_inj (heap_mem h) MEMORY_START); done.
Qed.

Lemma heap_wf_first h bs : heap_wf h bs -> memory_start h = first_ptr MEMORY_START bs.
Proof. intros (-> & _ & _ & _ & Hn & _). by destruct bs. Qed.

Lemma memory_init_wf h :
  memory_initialized h = 0 ->
  heap_wf (memory_init h) [Blk (MEMORY_SIZE - sizeof_block) true].
Proof.
  intros H. unfold memory_init. rewrite H. simpl.
  unfold heap_wf, MEMORY_SIZE, MEMORY_START; simpl.
  split_and!; try done.
  - by repeat constructor.
  - header_rw. done.
  - header_rw. done.
  - header_rw. done.
Qed.

Lemma alloc_blocks_live size a bs p bs' :
  blocks_ok bs -> 0 <= size -> alloc_blocks size a bs = Some (p, bs') ->
  exists s, size <= s /\ a + sizeof_block <= p /\ live_blocks a bs' ≡ₚ (p, s) :: live_blocks a bs.
Proof.
  intros Hok Hs. revert a p bs'.
  induction Hok as [|b bs [Hb _] Hok IH]; intros a p bs' H; simpl in H; [done|].
  destruct (b_free b && (size <=? b_size b))%bool eqn:Hfit.
  - injection H as <- <-. zify_bool. simpl. rewrite H. simpl. split_if; simpl.
    + exists size. split_and!; [lia|lia|].
      unfold extent; simpl. f_equiv. f_equiv. lia.
    + exists (b_size b). split_and!; [lia|lia|done].
  - apply bind_Some in H as ([p' bs''] & H & [= <- <-]).
    destruct (IH _ _ _ H) as (s & Hle & Hp & Hperm). exists s.
    split_and!; [done|unfold extent, sizeof_block in *; lia|]. simpl. rewrite Hperm.
    symmetry. apply Permutation_middle.
Qed.

Lemma alloc_blocks_None size a bs :
  alloc_blocks size a bs = None <-> Forall (fun b => b_free b = true -> b_size b < size) bs.
Proof.
  revert a; induction bs as [|b bs IH]; intros a; simpl; [done|].
  rewrite Forall_cons, <- (IH (a + extent b)).
  destruct (b_free b) eqn:Hf; simpl.
  - destruct (Z.leb_spec size (b_size b)); [split; [done|intros [? _]; lia]|].
    destruct (alloc_blocks size (a + extent b) bs) as [[p bs'']|]; simpl; [|tauto].
    split; [done|]. intros [_ ?]; done.
  - destruct (alloc_blocks size (a + extent b) bs) as [[p bs'']|]; simpl.
    + split; [done|]. intros [_ ?]; done.
    + split; [split; [by intros|done]|done].
Qed.

(** [kmalloc] is first fit on the block list, and touches headers only. *)
Lemma kmalloc_refines h bs size :
  heap_wf h bs -> size <> 0 -> in_u 64 size ->
  match alloc_blocks (align8 size) MEMORY_START bs with
  | Some (p, bs') =>
    exists h', kmalloc size h = Some (p, h') /\ heap_wf h' bs' /\
      payload_frame (heap_mem h) (heap_mem h') MEMORY_START bs'
  | None => kmalloc size h = Some (0, h)
  end.
Proof.
  intros Hwf Hz Hr. pose proof Hwf as (Hs & Hi & Hok & Ht & Hne & Hrep).
  pose proof (align8_range _ Hr) as Ha. pose proof (heap_wf_fuel _ _ Hwf) as Hfuel.
  unfold kmalloc. rewrite Hi. change (1 =? 0) with false. cbv iota zeta.
  rewrite (proj2 (Z.eqb_neq size 0)) by done. rewrite (heap_wf_first _ _ Hwf).
  pose proof (kmalloc_search_spec (heap_mem h) MEMORY_START bs (align8 size) HEAP_FUEL
    ltac:(done) (heap_wf_bound _ _ Hwf) Hok ltac:(apply Ha) (align8_multiple size) Hrep
    ltac:(lia)) as Hk.
  destruct (alloc_blocks (align8 size) MEMORY_START bs) as [[p bs']|].
  - destruct Hk as (m' & Hk & Hr' & Hok' & Ht' & Hne' & Hfr). rewrite Hk.
    eexists; split; [done|]. split; [|done].
    split_and!; try done; [by rewrite <- (heap_wf_first _ _ Hwf)|congruence].
  - rewrite Hk, <- (heap_wf_first _ _ Hwf). by destruct h.
Qed.

Lemma headers_subset_outside c a bs bs' :
  (forall x, x ∈ headers a bs' -> x ∈ headers a bs) ->
  outside c (headers a bs) -> outside c (headers a bs').
Proof. intros Hs Ho x Hx. by apply Ho, Hs. Qed.

Lemma headers_release p a bs : headers a (release p a bs) = headers a bs.
Proof.
  revert a; induction bs as [|b bs IH]; intros a; simpl; [done|]. split_if; simpl; [done|].
  f_equal. apply IH.
Qed.

Lemma headers_coalesce a b bs x :
  x ∈ headers a (coalesce b bs) -> x ∈ headers a (b :: bs).
Proof.
  revert a b; induction bs as [|b' bs IH]; intros a b; [done|]. cbn [coalesce]. split_if.
  - intros Hx%IH. simpl in *. unfold extent, merge_blk in *; simpl in *.
    replace (a + (sizeof_block + (b_size b + sizeof_block + b_size b')))
      with (a + (sizeof_block + b_size b) + (sizeof_block + b_size b')) in Hx by lia.
    apply elem_of_cons in Hx as [->|Hx]; [by left|right; by right].
  - simpl. intros Hx. apply elem_of_cons in Hx as [->|Hx]; [by left|right]. by apply IH.
Qed.

Lemma live_header p s a bs : (p, s) ∈ live_blocks a bs -> p - sizeof_block ∈ headers a bs.
Proof.
  revert a; induction bs as [|b bs IH]; intros a Hp; simpl in *; [set_solver|].
  apply elem_of_app in Hp as [Hp|Hp]; [|right; by apply IH].
  destruct (b_free b); [set_solver|]. apply list_elem_of_singleton in Hp.
  injection Hp as -> ->. apply elem_of_cons. left. lia.
Qed.

(** [kfree] releases one block and merges; it touches headers only. *)
Lemma kfree_refines h bs p s :
  heap_wf h bs -> (p, s) ∈ live_blocks MEMORY_START bs ->
  exists h', kfree p h = Some h'
    /\ heap_wf h' (coalesce_all (release p MEMORY_START bs))
    /\ payload_frame (heap_mem h) (heap_mem h') MEMORY_START bs.
Proof.
  intros Hwf Hp. pose proof Hwf as (Hs & Hi & Hok & Ht & Hne & Hrep).
  pose proof (live_blocks_range _ _ _ _ Hok Hp) as Hrg. rewrite Ht in Hrg.
  pose proof (heap_wf_fuel _ _ Hwf) as Hfuel.
  assert (Hblk : u64 (p - sizeof_block) = p - sizeof_block).
  { apply wrap_small. unfold in_u, MEMORY_START, MEMORY_SIZE, sizeof_block in *; lia. }
  assert (Hp0 : (p =? 0) = false).
  { apply Z.eqb_neq. unfold MEMORY_START, sizeof_block in *; lia. }
  unfold kfree. rewrite Hi, Hblk, Hp0. change (1 =? 0) with false. cbv iota zeta. simpl orb.
  pose proof (release_repr (heap_mem h) MEMORY_START bs p s ltac:(done)
    (heap_wf_bound _ _ Hwf) Hok Hrep Hp) as Hrel.
  pose proof (release_ok p MEMORY_START bs Hok) as Hok2.
  pose proof (release_total p MEMORY_START bs) as Htot.
  pose proof (headers_release p MEMORY_START bs) as Hhd.
  pose proof (live_header _ _ _ _ Hp) as Hlh.
  destruct (release p MEMORY_START bs) as [|b bs2] eqn:Erel.
  { by apply release_nil in Erel. }
  assert (Hlen : length bs = S (length bs2)).
  { assert (Hl : forall a l, length (headers a l) = length l).
    { intros a l; revert a; induction l as [|x l IH]; intros a; simpl; [done|]. by rewrite IH. }
    rewrite <- (Hl MEMORY_START bs), <- Hhd. simpl. by rewrite Hl. }
  destruct (kfree_merge_spec (set_block_is_free (heap_mem h) (p - sizeof_block) 1)
    MEMORY_START b bs2 HEAP_FUEL) as (m' & Hk & Hr' & Hfr); try done.
  { rewrite Htot. by apply (heap_wf_bound h). }
  { lia. }
  rewrite Hs, Hk. eexists; split; [done|]. split.
  - split_and!; try done; [by apply coalesce_ok|rewrite <- Ht, <- Htot; apply coalesce_total|].
    apply coalesce_cons.
  - intros c Hc. simpl. rewrite Hfr.
    + unfold set_block_is_free. specialize (Hc _ Hlh).
      rewrite load8_store8_ne; [done|]. unfold sizeof_block in *; lia.
    + eapply headers_subset_outside; [|by rewrite <- Hhd in Hc].
      intros x. apply headers_coalesce.
Qed.
End Heap_facts.

Section Live_facts.
Lemma live_blocks_nodup a bs : blocks_ok bs -> NoDup (live_blocks a bs).*1.
Proof.
  intros Hok. revert a. induction Hok as [|b bs [Hb _] Hok IH]; intros a; simpl; [constructor|].
  destruct (b_free b); simpl; [apply IH|]. constructor; [|apply IH].
  intros ([q t] & Heq & Hq%live_blocks_range)%list_elem_of_fmap; [|done].
  unfold extent, sizeof_block in *; simpl in *; lia.
Qed.

Lemma live_blocks_apart a bs p s q t :
  blocks_ok bs -> (p, s) ∈ live_blocks a bs -> (q, t) ∈ live_blocks a bs -> p <> q ->
  disjoint_ranges p s q t.
Proof.
  intros Hok [i Hi]%list_elem_of_lookup [j Hj]%list_elem_of_lookup Hne.
  apply (live_blocks_disjoint a bs Hok i j p s q t); try done. congruence.
Qed.

(** The bytes of a live payload are in no header. *)
Lemma live_outside a bs p s c :
  blocks_ok bs -> (p, s) ∈ live_blocks a bs -> p <= c < p + s -> outside c (headers a bs).
Proof.
  intros Hok. revert a. induction Hok as [|b bs [Hb _] Hok IH]; intros a Hp Hc; simpl in *.
  { set_solver. }
  apply outside_cons. apply elem_of_app in Hp as [Hp|Hp].
  - destruct (b_free b); [set_solver|]. apply list_elem_of_singleton in Hp.
    injection Hp as -> ->. split; [right; lia|]. apply outside_below; [done|].
    unfold extent. lia.
  - pose proof (live_blocks_range _ _ _ _ Hok Hp). split; [|by apply IH].
    right. unfold extent, sizeof_block in *; lia.
Qed.

Lemma live_elem p a bs : p ∈ (live_blocks a bs).*1 <-> exists s, (p, s) ∈ live_blocks a bs.
Proof.
  rewrite list_elem_of_fmap. split.
  - intros ([q s] & -> & H). by exists s.
  - intros [s H]. by exists (p, s).
Qed.

Lemma merge_release_live p h bs :
  heap_wf h bs ->
  live_blocks MEMORY_START (coalesce_all (release p MEMORY_START bs))
  = filter (fun x => x.1 <> p) (live_blocks MEMORY_START bs).
Proof.
  intros (_ & _ & Hok & _). rewrite <- release_live by done.
  destruct (release p MEMORY_START bs); [done|]. apply coalesce_live.
Qed.
End Live_facts.

(** ** The heap implements the allocator contract *)

Definition heap_live (h : heap) (p : Z) : Prop :=
  exists bs, heap_wf h bs /\ p ∈ (live_blocks MEMORY_START bs).*1.

Lemma heap_live_iff h bs p :
  heap_wf h bs -> heap_live h p <-> p ∈ (live_blocks MEMORY_START bs).*1.
Proof.
  intros Hwf. split; [|by exists bs].
  intros (bs' & Hwf' & Hp). by rewrite (heap_wf_inj _ _ _ Hwf Hwf').
Qed.

Lemma heap_live_range h p : heap_live h p -> MEMORY_START < p <= MEMORY_START + MEMORY_SIZE.
Proof.
  intros (bs & (_ & _ & Hok & Ht & _) & (s & Hp)%live_elem).
  apply live_blocks_range in Hp; [|done]. rewrite Ht in Hp. unfold sizeof_block in *. lia.
Qed.

Lemma heap_alloc_contract n h :
  (exists bs, heap_wf h bs) -> in_u 64 n ->
  exists p h', kmalloc n h = Some (p, h') /\ (exists bs, heap_wf h' bs) /\
    ((p = 0 /\ h' = h) \/
     (p <> 0 /\ in_u 64 p /\ ~ heap_live h p /\
      forall q, heap_live h' q <-> heap_live h q \/ q = p)).
Proof.
  intros [bs Hwf] Hn. pose proof Hwf as (_ & Hi & Hok & _).
  destruct (decide (n = 0)) as [->|Hz].
  { exists 0, h. split_and!; [|by exists bs|by left]. unfold kmalloc. by rewrite Hi. }
  pose proof (kmalloc_refines h bs n Hwf Hz Hn) as Hk.
  destruct (alloc_blocks (align8 n) MEMORY_START bs) as [[p bs']|] eqn:Ha.
  - destruct Hk as (h' & Hk & Hwf' & _). exists p, h'. split_and!; [done|by exists bs'|right].
    apply alloc_blocks_live in Ha as (s & _ & Hge & Hperm); [|done|apply align8_range, Hn].
    pose proof Hwf' as (_ & _ & Hok' & _).
    pose proof (live_blocks_nodup MEMORY_START bs' Hok') as Hnd. rewrite Hperm in Hnd.
    apply NoDup_cons in Hnd as [Hni _].
    assert (Hlive : heap_live h' p).
    { exists bs'. split; [done|]. rewrite Hperm. by left. }
    pose proof (heap_live_range _ _ Hlive).
    split_and!; [unfold MEMORY_START in *; lia|unfold in_u, MEMORY_START, MEMORY_SIZE in *; lia| |].
    + by rewrite (heap_live_iff h bs).
    + intros q. rewrite (heap_live_iff h' bs'), (heap_live_iff h bs), Hperm by done.
      rewrite fmap_cons, elem_of_cons. simpl. tauto.
  - exists 0, h. split_and!; [done|by exists bs|by left].
Qed.

Lemma heap_free_contract p h :
  (exists bs, heap_wf h bs) -> heap_live h p ->
  exists h', kfree p h = Some h' /\ (exists bs, heap_wf h' bs) /\
    forall q, heap_live h' q <-> heap_live h q /\ q <> p.
Proof.
  intros [bs Hwf] Hl. rewrite (heap_live_iff h bs), live_elem in Hl by done.
  destruct Hl as [s Hl]. destruct (kfree_refines h bs p s Hwf Hl) as (h' & Hk & Hwf' & _).
  exists h'. split_and!; [done|by eexists|]. intros q.
  rewrite (heap_live_iff _ _ _ Hwf'), (heap_live_iff h bs) by done.
  rewrite (merge_release_live p h bs), !list_elem_of_fmap by done. split.
  - intros ([q' t] & -> & [Hne Ht]%list_elem_of_filter). split; [by exists (q', t)|done].
  - intros [([q' t] & -> & Ht) Hne]. exists (q', t). split; [done|].
    by apply list_elem_of_filter.
Qed.

(** The memory of the heap seen from outside: one byte, a buffer stored, the room
    of the block behind a pointer. *)
Definition heap_peek (a : Z) (h : heap) : Z := load8 (heap_mem h) a.
Definition heap_poke (bytes : list Z) (a : Z) (h : heap) : heap :=
  Heap (memory_start h) (memory_initialized h) (write_bytes bytes (heap_mem h) a).
Definition heap_room (h : heap) (p : Z) : Z := block_size (heap_mem h) (p - sizeof_block).

Section Rooms.
Lemma live_size m a bs p s : repr m a bs -> (p, s) ∈ live_blocks a bs -> block_size m (p - sizeof_block) = s.
Proof.
  revert a; induction bs as [|b bs IH]; intros a Hr Hp; simpl in *; [set_solver|].
  destruct Hr as (Hs & _ & _ & Hr). apply elem_of_app in Hp as [Hp|Hp]; [|by apply (IH (a + extent b))].
  destruct (b_free b); [set_solver|]. apply list_elem_of_singleton in Hp. injection Hp as -> ->.
  by replace (a + sizeof_block - sizeof_block) with a by lia.
Qed.

Lemma room_live h bs p s : heap_wf h bs -> (p, s) ∈ live_blocks MEMORY_START bs -> heap_room h p = s.
Proof. intros (_ & _ & _ & _ & _ & Hr) Hp. by apply (live_size (heap_mem h) MEMORY_START bs). Qed.

Lemma heap_live_room h bs p :
  heap_wf h bs -> heap_live h p -> (p, heap_room h p) ∈ live_blocks MEMORY_START bs.
Proof.
  intros Hwf Hl. rewrite (heap_live_iff h bs), live_elem in Hl by done. destruct Hl as [s Hs].
  by rewrite (room_live h bs p s).
Qed.

(** Only the bytes of the headers matter. *)
Lemma repr_headers m m' a bs :
  (forall c, ~ outside c (headers a bs) -> load8 m' c = load8 m c) -> repr m a bs -> repr m' a bs.
Proof.
  revert a; induction bs as [|b bs IH]; intros a Hs Hr; [done|]. simpl in *.
  destruct Hr as (H1 & H2 & H3 & H4).
  assert (Hh : forall c, a <= c < a + sizeof_block -> load8 m' c = load8 m c).
  { intros c Hc. apply Hs. rewrite outside_cons. lia. }
  unfold block_size, block_is_free, block_next, sizeof_block in *. split_and!.
  - rewrite <- H1. apply load_le_ext. intros c Hc. apply Hh. lia.
  - rewrite <- H2. apply Hh. lia.
  - rewrite <- H3. apply load_le_ext. intros c Hc. apply Hh. lia.
  - apply IH; [|done]. intros c Hc. apply Hs. rewrite outside_cons. tauto.
Qed.

Lemma load8_write_bytes bytes m p a :
  load8 (write_bytes bytes m p) a =
    if decide (p <= a < p + Z.of_nat (length bytes)) then u8 (default 0 (bytes !! Z.to_nat (a - p))) else load8 m a.
Proof.
  revert m p; induction bytes as [|b bytes IH]; intros m p; cbn [write_bytes length].
  { by rewrite decide_False by lia. }
  rewrite IH. destruct (decide (a = p)) as [->|Hne].
  - rewrite decide_False, decide_True by lia. rewrite load8_store8_eq. by replace (Z.to_nat (p - p)) with O by lia.
  - rewrite load8_store8_ne by done. repeat case_decide; try lia.
    replace (Z.to_nat (a - p)) with (S (Z.to_nat (a - (p + 1)))) by lia. done.
Qed.

Lemma heap_poke_wf bytes a p h bs :
  heap_wf h bs -> heap_live h p -> p <= a -> a + Z.of_nat (length bytes) <= p + heap_room h p ->
  heap_wf (heap_poke bytes a h) bs.
Proof.
  intros Hwf Hl Ha Hb. pose proof (heap_live_room h bs p Hwf Hl) as Hp.
  pose proof Hwf as (Hs & Hi & Hok & Ht & Hne & Hr). split_and!; try done.
  apply (repr_headers (heap_mem h)); [|done]. intros c Hc. cbn [heap_mem heap_poke].
  rewrite load8_write_bytes, decide_False; [done|]. intros Hin. apply Hc.
  apply (live_outside _ _ p (heap_room h p)); [done..|lia].
Qed.

(** A step that keeps the live payloads [q] keeps their rooms. *)
Lemma room_kept h h' bs bs' q t :
  heap_wf h bs -> heap_wf h' bs' -> (q, t) ∈ live_blocks MEMORY_START bs -> (q, t) ∈ live_blocks MEMORY_START bs' ->
  heap_room h' q = heap_room h q.
Proof. intros Hw Hw' Hq Hq'. by rewrite (room_live h bs q t), (room_live h' bs' q t). Qed.

Lemma heap_alloc_room n h p h' :
  (exists bs, heap_wf h bs) -> in_u 64 n -> kmalloc n h = Some (p, h') -> p <> 0 ->
  (n <= 2 ^ 64 - 8 -> n <= heap_room h' p) /\
  forall q, heap_live h q -> heap_room h' q = heap_room h q /\
    forall a, q <= a < q + heap_room h q -> heap_peek a h' = heap_peek a h.
Proof.
  intros [bs Hwf] Hn Hk Hp. pose proof Hwf as (_ & Hi & Hok & _).
  assert (Hz : n <> 0).
  { intros ->. unfold kmalloc in Hk. rewrite Hi in Hk. simpl in Hk. by injection Hk as <- _. }
  pose proof (kmalloc_refines h bs n Hwf Hz Hn) as Hr.
  destruct (alloc_blocks (align8 n) MEMORY_START bs) as [[p' bs']|] eqn:Ha; [|congruence].
  destruct Hr as (h2 & Hk2 & Hwf' & Hfr). rewrite Hk2 in Hk. injection Hk as -> ->.
  apply alloc_blocks_live in Ha as (s & Hle & _ & Hperm); [|done|apply align8_range, Hn].
  split.
  - intros Hsz. rewrite (room_live h' bs' p s); [|done|rewrite Hperm; by left].
    intros; pose proof (align8_le n (conj (proj1 Hn) Hsz)). lia.
  - intros q Hq. pose proof (heap_live_room h bs q Hwf Hq) as Hlq. split.
    + apply (room_kept h h' bs bs' q (heap_room h q)); try done. rewrite Hperm. by right.
    + intros a Hin. unfold heap_peek. pose proof Hwf' as (_ & _ & Hok' & _).
      apply Hfr, (live_outside _ _ q (heap_room h q)); [done| |done]. rewrite Hperm. by right.
Qed.

Lemma heap_free_room p h h' :
  (exists bs, heap_wf h bs) -> heap_live h p -> kfree p h = Some h' ->
  forall q, heap_live h q -> q <> p -> heap_room h' q = heap_room h q /\
    forall a, q <= a < q + heap_room h q -> heap_peek a h' = heap_peek a h.
Proof.
  intros [bs Hwf] Hl Hf q Hq Hne. pose proof Hwf as (_ & _ & Hok & _).
  destruct (kfree_refines h bs p (heap_room h p) Hwf) as (h2 & Hf2 & Hwf' & Hfr); [by apply heap_live_room|].
  rewrite Hf2 in Hf. injection Hf as ->. pose proof (heap_live_room h bs q Hwf Hq) as Hlq. split.
  - apply (room_kept h h' bs _ q (heap_room h q) Hwf Hwf' Hlq).
    rewrite (merge_release_live p h bs) by done. by apply list_elem_of_filter.
  - intros a Hin. unfold heap_peek. by apply Hfr, (live_outside _ _ q (heap_room h q)).
Qed.

Lemma heap_rooms_apart h p q :
  (exists bs, heap_wf h bs) -> heap_live h p -> heap_live h q -> p <> q ->
  disjoint_ranges p (heap_room h p) q (heap_room h q).
Proof.
  intros [bs Hwf] Hp Hq Hne. pose proof Hwf as (_ & _ & Hok & _).
  by apply (live_blocks_apart MEMORY_START bs); [|apply heap_live_room..|].
Qed.

Lemma heap_poke_contract bytes a p h :
  (exists bs, heap_wf h bs) -> heap_live h p -> p <= a -> a + Z.of_nat (length bytes) <= p + heap_room h p ->
  (exists bs, heap_wf (heap_poke bytes a h) bs) /\ (forall q, heap_live (heap_poke bytes a h) q <-> heap_live h q) /\
  forall q, heap_live h q -> heap_room (heap_poke bytes a h) q = heap_room h q.
Proof.
  intros [bs Hwf] Hl Ha Hb. pose proof (heap_poke_wf bytes a p h bs Hwf Hl Ha Hb) as Hwf'.
  split_and!; [by exists bs| |].
  - intros q. by rewrite (heap_live_iff _ _ _ Hwf'), (heap_live_iff _ _ _ Hwf).
  - intros q Hq. pose proof (heap_live_room h bs q Hwf Hq) as Hlq.
    by apply (room_kept h _ bs bs q (heap_room h q)).
Qed.
End Rooms.

#[export, refine] Instance heap_allocator : Allocator heap := {|
  alloc := kmalloc;
  free := kfree;
  peek := heap_peek;
  poke := heap_poke;
  alloc_wf h := exists bs, heap_wf h bs;
  alloc_live := heap_live;
  alloc_room := heap_room;
  alloc_spec n h := heap_alloc_contract n h;
  free_spec p h := heap_free_contract p h;
  alloc_room_spec n h p h' := heap_alloc_room n h p h';
  free_room_spec p h h' := heap_free_room p h h';
  rooms_apart h p q := heap_rooms_apart h p q;
  poke_spec bytes a p h := heap_poke_contract bytes a p h;
|}.
Proof.
  - intros h p H%heap_live_range. unfold MEMORY_START in *. lia.
  - intros h. unfold kfree. done.
  - intros bytes p a h. apply load8_write_bytes.
Defined.

(** ** Properties *)

(** C1. [kmalloc] of a size from 1 to [2 ^ 64 - 8] on a well-formed heap never fails
    to return (above that the rounding of the size wraps around, see
    [kmalloc_size_overflow]).  Either no free block is large enough, and the result is NULL with the heap unchanged; or
    the result is 8-aligned, inside the arena, backed by at least [size] bytes
    disjoint from every live payload, and no byte of a live payload changes. *)
Theorem kmalloc_safe (h : heap) (bs : list blk) (size : Z) :
  heap_wf h bs -> 0 < size <= 2 ^ 64 - 8 ->
  exists p h', kmalloc size h = Some (p, h') /\
    ((p = 0 /\ h' = h /\
      Forall (fun b => b_free b = true -> b_size b < align8 size) bs) \/
     exists bs' s,
       heap_wf h' bs' /\ size <= s /\ p mod 8 = 0 /\
       MEMORY_START <= p /\ p + s <= MEMORY_START + MEMORY_SIZE /\
       live_blocks MEMORY_START bs' ≡ₚ (p, s) :: live_blocks MEMORY_START bs /\
       forall q t, (q, t) ∈ live_blocks MEMORY_START bs ->
         disjoint_ranges p s q t /\
         forall c, q <= c < q + t -> load8 (heap_mem h') c = load8 (heap_mem h) c).
Proof.
  intros Hwf Hs. pose proof (kmalloc_refines h bs size Hwf ltac:(lia) ltac:(unfold in_u; lia)) as Hk.
  pose proof Hwf as (_ & _ & Hok & _).
  destruct (alloc_blocks (align8 size) MEMORY_START bs) as [[p bs']|] eqn:Ha.
  2: { exists 0, h. split; [done|left]. by rewrite <- alloc_blocks_None with (a := MEMORY_START). }
  destruct Hk as (h' & Hk & Hwf' & Hfr). exists p, h'. split; [done|right].
  apply alloc_blocks_live in Ha as (s & Hle & _ & Hperm);
    [|done|apply align8_range; unfold in_u; lia].
  pose proof Hwf' as (_ & _ & Hok' & Ht' & _).
  pose proof (live_blocks_nodup MEMORY_START bs' Hok') as Hnd. rewrite Hperm in Hnd.
  apply NoDup_cons in Hnd as [Hni _].
  assert (Hp : (p, s) ∈ live_blocks MEMORY_START bs') by (rewrite Hperm; by left).
  pose proof (live_blocks_range _ _ _ _ Hok' Hp) as Hrg. rewrite Ht' in Hrg.
  pose proof (align8_le size ltac:(lia)).
  exists bs', s. split_and!; try done; try (unfold sizeof_block in *; lia).
  - by apply (live_blocks_aligned MEMORY_START bs' p s).
  - intros q t Hq. assert (Hq' : (q, t) ∈ live_blocks MEMORY_START bs') by (rewrite Hperm; by right).
    split.
    + apply (live_blocks_apart MEMORY_START bs'); try done.
      intros ->. apply Hni, live_elem. by exists t.
    + intros c Hc. by apply Hfr, (live_outside _ _ q t).
Qed.

Definition heap0 : heap := memory_init (Heap 0 0 ∅).
Definition blocks0 : list blk := [Blk (MEMORY_SIZE - sizeof_block) true].

Lemma heap0_wf : heap_wf heap0 blocks0.
Proof. by apply memory_init_wf. Qed.

Lemma kmalloc_safe_witness :
  0 < 100 <= 2 ^ 64 - 8 /\
  exists p h', kmalloc 100 heap0 = Some (p, h') /\
    ((p = 0 /\ h' = heap0 /\
      Forall (fun b => b_free b = true -> b_size b < align8 100) blocks0) \/
     exists bs' s,
       heap_wf h' bs' /\ 100 <= s /\ p mod 8 = 0 /\
       MEMORY_START <= p /\ p + s <= MEMORY_START + MEMORY_SIZE /\
       live_blocks MEMORY_START bs' ≡ₚ (p, s) :: live_blocks MEMORY_START blocks0 /\
       forall q t, (q, t) ∈ live_blocks MEMORY_START blocks0 ->
         disjoint_ranges p s q t /\
         forall c, q <= c < q + t -> load8 (heap_mem h') c = load8 (heap_mem heap0) c).
Proof. split; [lia|]. apply (kmalloc_safe heap0 blocks0 100 heap0_wf); lia. Defined.

(** C3. [kfree] of a live pointer returns, keeps the heap well formed, removes
    exactly that payload from the live ones, leaves no two neighbouring free
    blocks and changes no byte of a payload. *)
Theorem kfree_safe (h : heap) (bs : list blk) (p s : Z) :
  heap_wf h bs -> (p, s) ∈ live_blocks MEMORY_START bs ->
  exists h' bs', kfree p h = Some h' /\ heap_wf h' bs' /\ merged bs' /\
    live_blocks MEMORY_START bs'
      = filter (fun x => x.1 <> p) (live_blocks MEMORY_START bs) /\
    forall q t c, (q, t) ∈ live_blocks MEMORY_START bs -> q <= c < q + t ->
      load8 (heap_mem h') c = load8 (heap_mem h) c.
Proof.
  intros Hwf Hp. pose proof Hwf as (_ & _ & Hok & _).
  destruct (kfree_refines h bs p s Hwf Hp) as (h' & Hk & Hwf' & Hfr).
  eexists h', _. split_and!; [done|exact Hwf'| |by apply merge_release_live with h|].
  - destruct (release p MEMORY_START bs); [done|]. apply coalesce_merged.
  - intros q t c Hq Hc. by apply Hfr, (live_outside _ _ q t).
Qed.

(** The heap after [kmalloc(100)], with its blocks. *)
Definition heap1 : heap := default heap0 (snd <$> kmalloc 100 heap0).
Definition blocks1 : list blk :=
  [Blk 104 false; Blk (MEMORY_SIZE - sizeof_block - 104 - sizeof_block) true].

Lemma heap1_wf : heap_wf heap1 blocks1.
Proof.
  pose proof (kmalloc_refines heap0 blocks0 100 heap0_wf ltac:(lia) ltac:(done)) as H.
  vm_compute (alloc_blocks _ _ _) in H. destruct H as (h' & Hk & Hwf & _).
  unfold heap1. rewrite Hk. exact Hwf.
Qed.

Lemma kfree_safe_witness :
  (MEMORY_START + 24, 104) ∈ live_blocks MEMORY_START blocks1 /\
  exists h' bs', kfree (MEMORY_START + 24) heap1 = Some h' /\ heap_wf h' bs' /\ merged bs' /\
    live_blocks MEMORY_START bs'
      = filter (fun x => x.1 <> MEMORY_START + 24) (live_blocks MEMORY_START blocks1) /\
    forall q t c, (q, t) ∈ live_blocks MEMORY_START blocks1 -> q <= c < q + t ->
      load8 (heap_mem h') c = load8 (heap_mem heap1) c.
Proof.
  assert (Hl : (MEMORY_START + 24, 104) ∈ live_blocks MEMORY_START blocks1).
  { left. }
  split; [exact Hl|]. exact (kfree_safe heap1 blocks1 _ 104 heap1_wf Hl).
Defined.

Section Roundtrip.
Lemma coalesce_id b bs : merged (b :: bs) -> coalesce b bs = b :: bs.
Proof.
  revert b; induction bs as [|b' bs IH]; intros b; [done|]. intros [H Hm]. simpl.
  rewrite H. f_equal. by apply IH.
Qed.

Lemma merged_tail b bs : merged (b :: bs) -> merged bs.
Proof. destruct bs; [done|]. by intros [_ H]. Qed.

Lemma release_fit size a b bs :
  b_free b = true -> 0 <= size <= b_size b -> merged (b :: bs) ->
  coalesce_all (release (a + sizeof_block) a (fit_block size b bs)) = b :: bs.
Proof.
  intros Hf Hs Hm. unfold fit_block. split_if; simpl; rewrite Z.eqb_refl; simpl.
  - replace (merge_blk _ _) with b; [by apply coalesce_id|].
    destruct b as [n f]; simpl in *. subst f. unfold merge_blk; simpl. f_equal. lia.
  - replace (Blk (b_size b) true) with b; [by apply coalesce_id|].
    destruct b as [n f]; simpl in *. by subst f.
Qed.

Lemma release_alloc size a bs p bs' :
  blocks_ok bs -> 0 <= size -> merged bs -> alloc_blocks size a bs = Some (p, bs') ->
  coalesce_all (release p a bs') = bs.
Proof.
  intros Hok Hs. revert a p bs'.
  induction Hok as [|b bs [Hb _] Hok IH]; intros a p bs' Hm H; simpl in H; [done|].
  destruct (b_free b && (size <=? b_size b))%bool eqn:Hfit.
  - zify_bool. injection H as <- <-. by apply release_fit.
  - apply bind_Some in H as ([p' bs''] & H & [= <- <-]).
    pose proof (alloc_blocks_live size _ _ _ _ Hok Hs H) as (s & _ & Hp & _).
    specialize (IH _ _ _ (merged_tail _ _ Hm) H). simpl.
    rewrite (proj2 (Z.eqb_neq _ _)) by (unfold extent, sizeof_block in *; lia).
    destruct (release p' (a + extent b) bs'') as [|b' r] eqn:Er; simpl in IH.
    { by subst bs. }
    simpl. destruct (coalesce_head b' r) as (b1 & bs1 & Heq & Hf1).
    rewrite <- IH, Heq in Hm. destruct Hm as [Hfalse _]. rewrite Hf1 in Hfalse.
    by rewrite Hfalse, IH.
Qed.
End Roundtrip.

(** Freeing what [kmalloc] has just returned restores the blocks of a heap
    without neighbouring free blocks: no fragmentation is left behind. *)
Theorem kfree_kmalloc (h h' : heap) (bs : list blk) (size p : Z) :
  heap_wf h bs -> merged bs -> in_u 64 size -> kmalloc size h = Some (p, h') -> p <> 0 ->
  exists h'', kfree p h' = Some h'' /\ heap_wf h'' bs.
Proof.
  intros Hwf Hm Hs Hk Hp. pose proof Hwf as (_ & Hi & Hok & _).
  assert (Hz : size <> 0).
  { intros ->. unfold kmalloc in Hk. rewrite Hi in Hk. simpl in Hk. by injection Hk as <- _. }
  pose proof (kmalloc_refines h bs size Hwf Hz Hs) as H.
  destruct (alloc_blocks (align8 size) MEMORY_START bs) as [[q bs']|] eqn:Ha; [|congruence].
  destruct H as (h2 & Hk2 & Hwf' & _). rewrite Hk2 in Hk. injection Hk as -> ->.
  pose proof (align8_range _ Hs) as Har.
  destruct (alloc_blocks_live _ _ _ _ _ Hok (proj1 Har) Ha) as (s & _ & _ & Hperm).
  destruct (kfree_refines h' bs' p s Hwf') as (h'' & Hf & Hwf'' & _).
  { rewrite Hperm. by left. }
  exists h''. split; [done|].
  by rewrite (release_alloc _ _ _ _ _ Hok (proj1 Har) Hm Ha) in Hwf''.
Qed.

Lemma kfree_kmalloc_witness :
  merged blocks0 /\ exists h'', kfree (MEMORY_START + 24) heap1 = Some h'' /\ heap_wf h'' blocks0.
Proof.
  split; [done|].
  exact (kfree_kmalloc heap0 heap1 blocks0 100 (MEMORY_START + 24) heap0_wf
    I ltac:(unfold in_u; lia) ltac:(vm_compute; reflexivity) ltac:(discriminate)).
Defined.

(** The rounding of [kmalloc] overflows [size_t] in the last seven sizes:
    they are rounded to 0, so a request of almost 2^64 bytes is answered with a
    non-null block (the first free one) as if nothing had been asked. *)
Theorem kmalloc_size_overflow (h : heap) (bs : list blk) (size : Z) :
  heap_wf h bs -> 2 ^ 64 - 8 < size < 2 ^ 64 ->
  Exists (fun b => b_free b = true) bs ->
  exists p h', kmalloc size h = Some (p, h') /\ p <> 0.
Proof.
  intros Hwf Hs Hex. pose proof Hwf as (_ & _ & Hok & _).
  assert (Ha : align8 size = 0).
  { assert (Hm : size mod 8 = size - (2 ^ 64 - 8)).
    { symmetry; apply Z.mod_unique with (2 ^ 61 - 1); lia. }
    unfold align8. rewrite Hm. rewrite (proj2 (Z.eqb_neq _ 0)) by lia. cbn [negb].
    by replace (size + (8 - (size - (2 ^ 64 - 8)))) with (2 ^ 64) by lia. }
  pose proof (kmalloc_refines h bs size Hwf ltac:(lia) ltac:(unfold in_u; lia)) as Hk.
  rewrite Ha in Hk.
  destruct (alloc_blocks 0 MEMORY_START bs) as [[p bs']|] eqn:E.
  - destruct Hk as (h' & Hk & _). exists p, h'. split; [done|].
    apply alloc_blocks_live in E as (_ & _ & Hge & _); [|done|done].
    unfold MEMORY_START, sizeof_block in *. lia.
  - exfalso. apply alloc_blocks_None in E. apply Exists_exists in Hex as (b & Hb & Hf).
    rewrite Forall_forall in E. specialize (E b Hb Hf).
    unfold blocks_ok in Hok. rewrite Forall_forall in Hok. destruct (Hok b Hb). lia.
Qed.

Lemma kmalloc_size_overflow_witness :
  Exists (fun b => b_free b = true) blocks0 /\
  exists p h', kmalloc (2 ^ 64 - 1) heap0 = Some (p, h') /\ p <> 0.
Proof.
  assert (He : Exists (fun b => b_free b = true) blocks0) by (by constructor).
  split; [exact He|]. exact (kmalloc_size_overflow heap0 blocks0 (2 ^ 64 - 1) heap0_wf
    ltac:(lia) He).
Defined.
