(* ===== verification/Kernel.v ===== *)
(** * The state of the kernel

    The static variables of process.c, signals.c, timer.c and pipe.c, with the
    records they hold.  [Process.v], [Timer.v] and [Pipe.v] define the
    operations; each record has one setter per field the code assigns.  A
    [process_t *] or [pipe_t *] is an index into its table, [None] is [NULL];
    a function pointer is an address. *)
From S2P Require Import Prelude CString Terminal Allocator.

(** ** process.h *)

Inductive process_state :=
  | PROCESS_STATE_READY | PROCESS_STATE_RUNNING | PROCESS_STATE_BLOCKED
  | PROCESS_STATE_SLEEPING | PROCESS_STATE_ZOMBIE | PROCESS_STATE_STOPPED.

#[export] Instance process_state_eq_dec : EqDecision process_state.
Proof. solve_decision. Defined.

Definition MAX_PROCESSES : nat := 64.

Record registers := Registers {
  rax : Z; rbx : Z; rcx : Z; rdx : Z; rsi : Z; rdi : Z; rbp : Z; rsp : Z; r8 : Z;
  r9 : Z; r10 : Z; r11 : Z; r12 : Z; r13 : Z; r14 : Z; r15 : Z; rip : Z; rflags : Z;
  cs : Z; ss : Z; ds : Z; es : Z; fs : Z; gs : Z; cr3 : Z;
}.

(** [memset(&process->registers, 0, sizeof(registers_t))] *)
Definition registers0 : registers :=
  Registers 0 0 0 0 0 0 0 0 0 0 0 0 0 0 0 0 0 0 0 0 0 0 0 0 0.

Definition set_rax (v : Z) (r : registers) : registers :=
  Registers v (rbx r) (rcx r) (rdx r) (rsi r) (rdi r) (rbp r) (rsp r) (r8 r) (r9 r) (r10
  r) (r11 r) (r12 r) (r13 r) (r14 r) (r15 r) (rip r) (rflags r) (cs r) (ss r) (ds r) (es
  r) (fs r) (gs r) (cr3 r).
Definition set_rsp (v : Z) (r : registers) : registers :=
  Registers (rax r) (rbx r) (rcx r) (rdx r) (rsi r) (rdi r) (rbp r) v (r8 r) (r9 r) (r10
  r) (r11 r) (r12 r) (r13 r) (r14 r) (r15 r) (rip r) (rflags r) (cs r) (ss r) (ds r) (es
  r) (fs r) (gs r) (cr3 r).
Definition set_rip (v : Z) (r : registers) : registers :=
  Registers (rax r) (rbx r) (rcx r) (rdx r) (rsi r) (rdi r) (rbp r) (rsp r) (r8 r) (r9 r)
  (r10 r) (r11 r) (r12 r) (r13 r) (r14 r) (r15 r) v (rflags r) (cs r) (ss r) (ds r) (es r)
  (fs r) (gs r) (cr3 r).

Record signal_action := SignalAction { a_handler : Z; a_flags : Z; a_mask : Z }.

Record process := Process {
  p_pid : Z;
  p_parent_pid : Z;
  p_name : list Z;
  p_state : process_state;
  p_registers : registers;
  p_page_directory : Z;
  p_stack : Z;
  p_stack_size : Z;
  p_sleep_until : Z;
  p_start_time : Z;
  p_cpu_time : Z;
  p_pending_signals : Z;
  p_blocked_signals : Z;
  p_signal_actions : list signal_action;
  p_signal_stack : Z;
  p_handling_signal : Z;
  p_exit_signal : Z;
  p_file_descriptors : list Z;
  p_tty : Z;
  p_process_group : Z;
  p_session_id : Z;
}.

Definition signal_action0 : signal_action := SignalAction 0 0 0.

(** A zeroed entry of the table. *)
Definition process0 : process :=
  Process 0 0 (replicate 32 0) PROCESS_STATE_READY registers0 0 0 0 0 0 0 0 0
    (replicate 32 signal_action0) 0 0 0 (replicate 16 0) 0 0 0.

Definition set_p_parent_pid (v : Z) (p : process) : process :=
  Process (p_pid p) v (p_name p) (p_state p) (p_registers p) (p_page_directory p) (p_stack
  p) (p_stack_size p) (p_sleep_until p) (p_start_time p) (p_cpu_time p) (p_pending_signals
  p) (p_blocked_signals p) (p_signal_actions p) (p_signal_stack p) (p_handling_signal p)
  (p_exit_signal p) (p_file_descriptors p) (p_tty p) (p_process_group p) (p_session_id p).
Definition set_p_state (v : process_state) (p : process) : process :=
  Process (p_pid p) (p_parent_pid p) (p_name p) v (p_registers p) (p_page_directory p)
  (p_stack p) (p_stack_size p) (p_sleep_until p) (p_start_time p) (p_cpu_time p)
  (p_pending_signals p) (p_blocked_signals p) (p_signal_actions p) (p_signal_stack p)
  (p_handling_signal p) (p_exit_signal p) (p_file_descriptors p) (p_tty p)
  (p_process_group p) (p_session_id p).
Definition set_p_registers (v : registers) (p : process) : process :=
  Process (p_pid p) (p_parent_pid p) (p_name p) (p_state p) v (p_page_directory p)
  (p_stack p) (p_stack_size p) (p_sleep_until p) (p_start_time p) (p_cpu_time p)
  (p_pending_signals p) (p_blocked_signals p) (p_signal_actions p) (p_signal_stack p)
  (p_handling_signal p) (p_exit_signal p) (p_file_descriptors p) (p_tty p)
  (p_process_group p) (p_session_id p).
Definition set_p_page_directory (v : Z) (p : process) : process :=
  Process (p_pid p) (p_parent_pid p) (p_name p) (p_state p) (p_registers p) v
  (p_stack p) (p_stack_size p) (p_sleep_until p) (p_start_time p) (p_cpu_time p)
  (p_pending_signals p) (p_blocked_signals p) (p_signal_actions p) (p_signal_stack p)
  (p_handling_signal p) (p_exit_signal p) (p_file_descriptors p) (p_tty p)
  (p_process_group p) (p_session_id p).
Definition set_p_stack (v : Z) (p : process) : process :=
  Process (p_pid p) (p_parent_pid p) (p_name p) (p_state p) (p_registers p)
  (p_page_directory p) v (p_stack_size p) (p_sleep_until p) (p_start_time p) (p_cpu_time
  p) (p_pending_signals p) (p_blocked_signals p) (p_signal_actions p) (p_signal_stack p)
  (p_handling_signal p) (p_exit_signal p) (p_file_descriptors p) (p_tty p)
  (p_process_group p) (p_session_id p).
Definition set_p_sleep_until (v : Z) (p : process) : process :=
  Process (p_pid p) (p_parent_pid p) (p_name p) (p_state p) (p_registers p)
  (p_page_directory p) (p_stack p) (p_stack_size p) v (p_start_time p) (p_cpu_time p)
  (p_pending_signals p) (p_blocked_signals p) (p_signal_actions p) (p_signal_stack p)
  (p_handling_signal p) (p_exit_signal p) (p_file_descriptors p) (p_tty p)
  (p_process_group p) (p_session_id p).
Definition set_p_cpu_time (v : Z) (p : process) : process :=
  Process (p_pid p) (p_parent_pid p) (p_name p) (p_state p) (p_registers p)
  (p_page_directory p) (p_stack p) (p_stack_size p) (p_sleep_until p) (p_start_time p) v
  (p_pending_signals p) (p_blocked_signals p) (p_signal_actions p) (p_signal_stack p)
  (p_handling_signal p) (p_exit_signal p) (p_file_descriptors p) (p_tty p)
  (p_process_group p) (p_session_id p).
Definition set_p_pending_signals (v : Z) (p : process) : process :=
  Process (p_pid p) (p_parent_pid p) (p_name p) (p_state p) (p_registers p)
  (p_page_directory p) (p_stack p) (p_stack_size p) (p_sleep_until p) (p_start_time p)
  (p_cpu_time p) v (p_blocked_signals p) (p_signal_actions p) (p_signal_stack p)
  (p_handling_signal p) (p_exit_signal p) (p_file_descriptors p) (p_tty p)
  (p_process_group p) (p_session_id p).
Definition set_p_blocked_signals (v : Z) (p : process) : process :=
  Process (p_pid p) (p_parent_pid p) (p_name p) (p_state p) (p_registers p)
  (p_page_directory p) (p_stack p) (p_stack_size p) (p_sleep_until p) (p_start_time p)
  (p_cpu_time p) (p_pending_signals p) v (p_signal_actions p) (p_signal_stack p)
  (p_handling_signal p) (p_exit_signal p) (p_file_descriptors p) (p_tty p)
  (p_process_group p) (p_session_id p).
Definition set_p_signal_actions (v : list signal_action) (p : process) : process :=
  Process (p_pid p) (p_parent_pid p) (p_name p) (p_state p) (p_registers p)
  (p_page_directory p) (p_stack p) (p_stack_size p) (p_sleep_until p) (p_start_time p)
  (p_cpu_time p) (p_pending_signals p) (p_blocked_signals p) v (p_signal_stack p)
  (p_handling_signal p) (p_exit_signal p) (p_file_descriptors p) (p_tty p)
  (p_process_group p) (p_session_id p).
Definition set_p_signal_stack (v : Z) (p : process) : process :=
  Process (p_pid p) (p_parent_pid p) (p_name p) (p_state p) (p_registers p)
  (p_page_directory p) (p_stack p) (p_stack_size p) (p_sleep_until p) (p_start_time p)
  (p_cpu_time p) (p_pending_signals p) (p_blocked_signals p) (p_signal_actions p) v
  (p_handling_signal p) (p_exit_signal p) (p_file_descriptors p) (p_tty p)
  (p_process_group p) (p_session_id p).
Definition set_p_handling_signal (v : Z) (p : process) : process :=
  Process (p_pid p) (p_parent_pid p) (p_name p) (p_state p) (p_registers p)
  (p_page_directory p) (p_stack p) (p_stack_size p) (p_sleep_until p) (p_start_time p)
  (p_cpu_time p) (p_pending_signals p) (p_blocked_signals p) (p_signal_actions p)
  (p_signal_stack p) v (p_exit_signal p) (p_file_descriptors p) (p_tty p) (p_process_group
  p) (p_session_id p).
Definition set_p_process_group (v : Z) (p : process) : process :=
  Process (p_pid p) (p_parent_pid p) (p_name p) (p_state p) (p_registers p)
  (p_page_directory p) (p_stack p) (p_stack_size p) (p_sleep_until p) (p_start_time p)
  (p_cpu_time p) (p_pending_signals p) (p_blocked_signals p) (p_signal_actions p)
  (p_signal_stack p) (p_handling_signal p) (p_exit_signal p) (p_file_descriptors p) (p_tty
  p) v (p_session_id p).
Definition set_p_session_id (v : Z) (p : process) : process :=
  Process (p_pid p) (p_parent_pid p) (p_name p) (p_state p) (p_registers p)
  (p_page_directory p) (p_stack p) (p_stack_size p) (p_sleep_until p) (p_start_time p)
  (p_cpu_time p) (p_pending_signals p) (p_blocked_signals p) (p_signal_actions p)
  (p_signal_stack p) (p_handling_signal p) (p_exit_signal p) (p_file_descriptors p) (p_tty
  p) (p_process_group p) v.

(** ** pipe.h *)

Definition MAX_PIPES : nat := 64.
Definition PIPE_BUFFER_SIZE : Z := 4096.

Record pipe := Pipe {
  pi_id : Z;
  pi_buffer : list Z;
  pi_read_pos : Z;
  pi_write_pos : Z;
  pi_data_size : Z;
  pi_flags : Z;
  pi_reader_pid : Z;
  pi_writer_pid : Z;
  pi_reader_open : Z;
  pi_writer_open : Z;
}.

Definition pipe0 : pipe :=
  Pipe 0 (replicate (Z.to_nat PIPE_BUFFER_SIZE) 0) 0 0 0 0 0 0 0 0.

Definition set_pi_id (v : Z) (p : pipe) : pipe :=
  Pipe v (pi_buffer p) (pi_read_pos p) (pi_write_pos p) (pi_data_size p) (pi_flags p)
  (pi_reader_pid p) (pi_writer_pid p) (pi_reader_open p) (pi_writer_open p).
Definition set_pi_buffer (v : list Z) (p : pipe) : pipe :=
  Pipe (pi_id p) v (pi_read_pos p) (pi_write_pos p) (pi_data_size p) (pi_flags p)
  (pi_reader_pid p) (pi_writer_pid p) (pi_reader_open p) (pi_writer_open p).
Definition set_pi_read_pos (v : Z) (p : pipe) : pipe :=
  Pipe (pi_id p) (pi_buffer p) v (pi_write_pos p) (pi_data_size p) (pi_flags p)
  (pi_reader_pid p) (pi_writer_pid p) (pi_reader_open p) (pi_writer_open p).
Definition set_pi_write_pos (v : Z) (p : pipe) : pipe :=
  Pipe (pi_id p) (pi_buffer p) (pi_read_pos p) v (pi_data_size p) (pi_flags p)
  (pi_reader_pid p) (pi_writer_pid p) (pi_reader_open p) (pi_writer_open p).
Definition set_pi_data_size (v : Z) (p : pipe) : pipe :=
  Pipe (pi_id p) (pi_buffer p) (pi_read_pos p) (pi_write_pos p) v (pi_flags p)
  (pi_reader_pid p) (pi_writer_pid p) (pi_reader_open p) (pi_writer_open p).
Definition set_pi_flags (v : Z) (p : pipe) : pipe :=
  Pipe (pi_id p) (pi_buffer p) (pi_read_pos p) (pi_write_pos p) (pi_data_size p) v
  (pi_reader_pid p) (pi_writer_pid p) (pi_reader_open p) (pi_writer_open p).
Definition set_pi_reader_open (v : Z) (p : pipe) : pipe :=
  Pipe (pi_id p) (pi_buffer p) (pi_read_pos p) (pi_write_pos p) (pi_data_size p) (pi_flags
  p) (pi_reader_pid p) (pi_writer_pid p) v (pi_writer_open p).
Definition set_pi_writer_open (v : Z) (p : pipe) : pipe :=
  Pipe (pi_id p) (pi_buffer p) (pi_read_pos p) (pi_write_pos p) (pi_data_size p) (pi_flags
  p) (pi_reader_pid p) (pi_writer_pid p) (pi_reader_open p) v.

(** ** The static variables *)

Section Kernel_state.
Context {H : Type}.

Record kernel := Kernel {
  k_heap : H;
  k_term : terminal;
  processes : list process;
  current_process_index : nat;
  next_pid : Z;
  signal_handling_enabled : Z;
  timer_ticks : Z;
  timer_frequency : Z;
  timer_callback : Z;
  pipes : list pipe;
  next_pipe_id : Z;
}.

Definition set_k_heap (v : H) (k : kernel) : kernel :=
  Kernel v (k_term k) (processes k) (current_process_index k) (next_pid k)
  (signal_handling_enabled k) (timer_ticks k) (timer_frequency k) (timer_callback k)
  (pipes k) (next_pipe_id k).
Definition set_k_term (v : terminal) (k : kernel) : kernel :=
  Kernel (k_heap k) v (processes k) (current_process_index k) (next_pid k)
  (signal_handling_enabled k) (timer_ticks k) (timer_frequency k) (timer_callback k)
  (pipes k) (next_pipe_id k).
Definition set_processes (v : list process) (k : kernel) : kernel :=
  Kernel (k_heap k) (k_term k) v (current_process_index k) (next_pid k)
  (signal_handling_enabled k) (timer_ticks k) (timer_frequency k) (timer_callback k)
  (pipes k) (next_pipe_id k).
Definition set_current_process_index (v : nat) (k : kernel) : kernel :=
  Kernel (k_heap k) (k_term k) (processes k) v (next_pid k) (signal_handling_enabled k)
  (timer_ticks k) (timer_frequency k) (timer_callback k) (pipes k) (next_pipe_id k).
Definition set_next_pid (v : Z) (k : kernel) : kernel :=
  Kernel (k_heap k) (k_term k) (processes k) (current_process_index k) v
  (signal_handling_enabled k) (timer_ticks k) (timer_frequency k) (timer_callback k)
  (pipes k) (next_pipe_id k).
Definition set_signal_handling_enabled (v : Z) (k : kernel) : kernel :=
  Kernel (k_heap k) (k_term k) (processes k) (current_process_index k) (next_pid k) v
  (timer_ticks k) (timer_frequency k) (timer_callback k) (pipes k) (next_pipe_id k).
Definition set_timer_ticks (v : Z) (k : kernel) : kernel :=
  Kernel (k_heap k) (k_term k) (processes k) (current_process_index k) (next_pid k)
  (signal_handling_enabled k) v (timer_frequency k) (timer_callback k) (pipes k)
  (next_pipe_id k).
Definition set_timer_frequency (v : Z) (k : kernel) : kernel :=
  Kernel (k_heap k) (k_term k) (processes k) (current_process_index k) (next_pid k)
  (signal_handling_enabled k) (timer_ticks k) v (timer_callback k) (pipes k) (next_pipe_id
  k).
Definition set_timer_callback (v : Z) (k : kernel) : kernel :=
  Kernel (k_heap k) (k_term k) (processes k) (current_process_index k) (next_pid k)
  (signal_handling_enabled k) (timer_ticks k) (timer_frequency k) v (pipes k)
  (next_pipe_id k).
Definition set_pipes (v : list pipe) (k : kernel) : kernel :=
  Kernel (k_heap k) (k_term k) (processes k) (current_process_index k) (next_pid k)
  (signal_handling_enabled k) (timer_ticks k) (timer_frequency k) (timer_callback k) v
  (next_pipe_id k).
Definition set_next_pipe_id (v : Z) (k : kernel) : kernel :=
  Kernel (k_heap k) (k_term k) (processes k) (current_process_index k) (next_pid k)
  (signal_handling_enabled k) (timer_ticks k) (timer_frequency k) (timer_callback k)
  (pipes k) v.

(** [processes[i]] *)
Definition proc (k : kernel) (i : nat) : process := default process0 (processes k !! i).

(** [processes[i].f = ...] *)
Definition upd_proc (i : nat) (f : process -> process) (k : kernel) : kernel :=
  set_processes (alter f i (processes k)) k.

(** [terminal_writestring] and the print of an [int] through [char buf[size]]. *)
Definition kprint (s : string) (k : kernel) : kernel :=
  set_k_term (terminal_writestring (bytes_of s) (k_term k)) k.

Definition kprint_bytes (s : list Z) (k : kernel) : kernel :=
  set_k_term (terminal_writestring s (k_term k)) k.

Definition kprint_int (size num : Z) (k : kernel) : option kernel :=
  t ← terminal_writeint size num (k_term k); Some (set_k_term t k).
End Kernel_state.
Arguments kernel : clear implicits.
