(* ===== verification/Process.v ===== *)
(** * Processes and signals: process.c and signals.c

    The two files call each other ([schedule] delivers signals, a signal exits
    or stops a process, which schedules again), so their core is one mutual
    recursion; its fuel bounds the depth of that recursion.  [None] is an
    operation that runs out of fuel or overflows a buffer; the theorems below
    show that neither happens from a well-formed state. *)
From S2P Require Import Prelude CString Terminal Allocator Kernel.

Definition SIGKILL : Z := 9.
Definition SIGTERM : Z := 15.
Definition SIGCHLD : Z := 17.
Definition SIGCONT : Z := 18.
Definition SIGSTOP : Z := 19.
Definition MAX_SIGNALS : Z := 32.
Definition SIG_DFL : Z := 0.
Definition SIG_IGN : Z := 1.

Definition default_signal_actions : list Z :=
  [0; SIGTERM; SIGTERM; Z.lor SIGTERM 0x80; Z.lor SIGTERM 0x80; Z.lor SIGTERM 0x80;
   Z.lor SIGTERM 0x80; Z.lor SIGTERM 0x80; Z.lor SIGTERM 0x80; SIGTERM; SIGTERM;
   Z.lor SIGTERM 0x80; SIGTERM; SIGTERM; SIGTERM; SIGTERM; SIGTERM; 0; 1; 2; 2; 2; 2; 0;
   SIGTERM; SIGTERM; SIGTERM; SIGTERM; 0; SIGTERM; SIGTERM; Z.lor SIGTERM 0x80].

Definition default_signal_action (signum : Z) : Z :=
  default 0 (default_signal_actions !! Z.to_nat signum).

(** [1UL << signum] *)
Definition sigbit (signum : Z) : Z := Z.shiftl 1 signum.

(** The mask of the signals that may be blocked. *)
Definition blockable : Z := lnot64 (Z.lor (sigbit SIGKILL) (sigbit SIGSTOP)).

Section Processes.
Context `{!Allocator H}.
Implicit Types (k : kernel H) (i : nat).

(** A signal handler is user code at an address: a parameter. *)
Variable call_handler : Z -> Z -> kernel H -> option (kernel H).

(** ** process.c: the table *)

(** [memset(processes, 0, sizeof(processes))] *)
Definition init_processes k : kernel H :=
  kprint ("Surec yonetimi baslatildi." +:+ nl) (set_processes (replicate MAX_PROCESSES process0) k).

Definition timer_get_ticks k : Z := timer_ticks k.

(** The first entry with the given pid, as every function of process.c looks
    it up. *)
Definition get_process (pid : Z) k : option nat :=
  find_idx (fun p => p_pid p =? pid) (processes k).

Definition get_current_process k : option nat :=
  if negb (p_pid (proc k (current_process_index k)) =? 0)
  then Some (current_process_index k) else None.

(** [for (i = 0; i < 31 && name[i]; i++) dst[i] = name[i]; dst[i] = 0;] *)
Definition copy_name (name dst : list Z) : list Z :=
  let s := take 31 (take (strlen name) name) in s ++ [0] ++ drop (S (length s)) dst.

Definition create_process (name : list Z) (entry_point parent_pid : Z) k : option (Z * kernel H) :=
  match get_process 0 k with
  | None => Some (0, kprint ("Hata: Surec tablosu dolu!" +:+ nl) k)
  | Some i =>
    let pid := next_pid k in
    let k := set_next_pid (u64 (pid + 1)) k in
    '(stk, h) ← alloc 4096 (k_heap k);
    let k := set_k_heap h k in
    let k := upd_proc i (fun process =>
      Process pid parent_pid (copy_name name (p_name process)) PROCESS_STATE_READY
        (set_rsp (u64 (stk + 4096)) (set_rip entry_point registers0))
        (p_page_directory process) stk 4096 (p_sleep_until process) (timer_get_ticks k) 0
        0 0 (replicate 32 signal_action0) (p_signal_stack process) 0 0
        ([0; 1; 2] ++ replicate 13 0) 0 pid pid) k in
    k ← kprint_int 10 pid (kprint "Yeni surec olusturuldu: PID=" k);
    let k := kprint_bytes (p_name (proc k i)) (kprint ", Isim=" k) in
    Some (pid, kprint nl k)
  end.

Definition runnable (p : process) : bool :=
  negb (p_pid p =? 0) &&
  (bool_decide (p_state p = PROCESS_STATE_READY) || bool_decide (p_state p = PROCESS_STATE_RUNNING)).

(** The search loop of [schedule]: the index it stops at and [checked];
    [n] is [MAX_PROCESSES - checked]. *)
Fixpoint schedule_search (n : nat) (cur checked : nat) k : nat * nat :=
  match n with
  | O => (cur, checked)
  | S n' =>
    let cur := (S cur mod MAX_PROCESSES)%nat in
    if runnable (proc k cur) then (cur, S checked) else schedule_search n' cur (S checked) k
  end.

Definition switch_to_process (pid : Z) k : kernel H :=
  match get_process pid k with
  | None => k
  | Some i =>
    let k := upd_proc i (set_p_state PROCESS_STATE_RUNNING) k in
    let k := upd_proc i (fun p => set_p_cpu_time (u64 (p_cpu_time p + 1)) p) k in
    set_current_process_index i k
  end.

Definition block_process (pid : Z) k : kernel H :=
  match get_process pid k with
  | None => k
  | Some i => upd_proc i (set_p_state PROCESS_STATE_BLOCKED) k
  end.

Definition unblock_process (pid : Z) k : kernel H :=
  match get_process pid k with
  | None => k
  | Some i =>
    if decide (p_state (proc k i) = PROCESS_STATE_BLOCKED)
    then upd_proc i (set_p_state PROCESS_STATE_READY) k else k
  end.

Definition continue_process (pid : Z) k : option (kernel H) :=
  match get_process pid k with
  | None => Some k
  | Some i =>
    if decide (p_state (proc k i) = PROCESS_STATE_STOPPED) then
      let k := upd_proc i (set_p_state PROCESS_STATE_READY) k in
      k ← kprint_int 10 (p_pid (proc k i)) (kprint "Surec devam ettirildi: PID=" k);
      Some (kprint nl k)
    else Some k
  end.

(** [if (p) { kfree(p); p = NULL; }] for the two stacks of a process. *)
Definition release_stack (i : nat) k : option (kernel H) :=
  let stk := p_stack (proc k i) in
  if stk =? 0 then Some k else
  h ← free stk (k_heap k); Some (upd_proc i (set_p_stack 0) (set_k_heap h k)).

Definition release_signal_stack (i : nat) k : option (kernel H) :=
  let stk := p_signal_stack (proc k i) in
  if stk =? 0 then Some k else
  h ← free stk (k_heap k); Some (upd_proc i (set_p_signal_stack 0) (set_k_heap h k)).

(** The children of [pid] go to process 1. *)
Definition reparent (pid : Z) (p : process) : process :=
  if negb (p_pid p =? 0) && (p_parent_pid p =? pid) then set_p_parent_pid 1 p else p.

Definition reparent_children (pid : Z) k : kernel H :=
  set_processes (reparent pid <$> processes k) k.

(** ** signals.c: pending signals *)

Definition signal_add_pending (process : option nat) (signum : Z) k : Z * kernel H :=
  match process with
  | None => (-1, k)
  | Some i =>
    if (signum <=? 0) || (MAX_SIGNALS <=? signum) then (-1, k) else
    let set_bit p := set_p_pending_signals (Z.lor (p_pending_signals p) (sigbit signum)) p in
    if (signum =? SIGKILL) || (signum =? SIGSTOP) then (0, upd_proc i set_bit k) else
    if Z.land (p_blocked_signals (proc k i)) (sigbit signum) =? 0
    then (0, upd_proc i set_bit k) else (0, k)
  end.

Definition is_deliverable (p : process) (signum : Z) : bool :=
  negb (Z.land (p_pending_signals p) (sigbit signum) =? 0)
  && (Z.land (p_blocked_signals p) (sigbit signum) =? 0).

Definition clear_pending (signum : Z) (p : process) : process :=
  set_p_pending_signals (Z.land (p_pending_signals p) (lnot64 (sigbit signum))) p.

Definition handler_of (p : process) (signum : Z) : Z :=
  a_handler (default signal_action0 (p_signal_actions p !! Z.to_nat signum)).

(** The loop of [signal_handle_pending] from [signum], [n] iterations left. *)
Fixpoint pending_loop (exit_p : Z -> Z -> kernel H -> option (kernel H))
    (stop_p : Z -> kernel H -> option (kernel H))
    (n : nat) (signum : Z) (i : nat) k : option (Z * kernel H) :=
  match n with
  | O => Some (0, k)
  | S n' =>
    let next := pending_loop exit_p stop_p n' (signum + 1) i in
    if is_deliverable (proc k i) signum then
      let k := upd_proc i (clear_pending signum) k in
      let process := proc k i in
      let handler := handler_of process signum in
      if handler =? SIG_DFL then
        let action := default_signal_action signum in
        if negb (Z.land action SIGTERM =? 0) then
          k ← exit_p (p_pid process) (128 + signum) k; Some (1, k)
        else if action =? 0 then next k
        else if action =? 1 then
          k ← (if decide (p_state process = PROCESS_STATE_STOPPED)
               then continue_process (p_pid process) k else Some k);
          next k
        else if action =? 2 then k ← stop_p (p_pid process) k; Some (1, k)
        else next k
      else if handler =? SIG_IGN then next k
      else
        let k := upd_proc i (set_p_handling_signal 1) k in
        k ← call_handler handler signum k;
        Some (1, upd_proc i (set_p_handling_signal 0) k)
    else next k
  end.

(** ** The bodies of the mutually recursive functions

    Each takes the functions it calls as arguments; the recursion is tied
    below. *)

Definition schedule_body (handle_pending : option nat -> kernel H -> option (Z * kernel H)) k
  : option (kernel H) :=
  let prev_process_index := current_process_index k in
  let '(cur, checked) := schedule_search MAX_PROCESSES prev_process_index 0 k in
  if (checked =? MAX_PROCESSES)%nat then Some (set_current_process_index prev_process_index k)
  else
    let k := set_current_process_index cur k in
    if negb (p_pid (proc k cur) =? 0) then
      let k := upd_proc cur (set_p_state PROCESS_STATE_RUNNING) k in
      '(_, k) ← handle_pending (Some cur) k;
      Some (switch_to_process (p_pid (proc k (current_process_index k))) k)
    else Some k.

Definition signal_handle_pending_body (exit_p : Z -> Z -> kernel H -> option (kernel H))
    (stop_p : Z -> kernel H -> option (kernel H)) (process : option nat) k
  : option (Z * kernel H) :=
  match process with
  | None => Some (0, k)
  | Some i =>
    if signal_handling_enabled k =? 0 then Some (0, k) else
    if negb (p_handling_signal (proc k i) =? 0) then Some (0, k) else
    pending_loop exit_p stop_p (Z.to_nat (MAX_SIGNALS - 1)) 1 i k
  end.

Definition exit_process_body (send : option nat -> Z -> kernel H -> option (Z * kernel H))
    (sched : kernel H -> option (kernel H)) (pid exit_code : Z) k : option (kernel H) :=
  match get_process pid k with
  | None => Some k
  | Some i =>
    k ← (if negb (p_exit_signal (proc k i) =? 0) then
           match get_process (p_parent_pid (proc k i)) k with
           | None => Some k
           | Some parent => snd <$> send (Some parent) (p_exit_signal (proc k i)) k
           end
         else Some k);
    k ← (if negb (p_parent_pid (proc k i) =? 0) then
           match get_process (p_parent_pid (proc k i)) k with
           | None => Some k
           | Some parent => snd <$> send (Some parent) SIGCHLD k
           end
         else Some k);
    k ← release_stack i k;
    k ← release_signal_stack i k;
    let k := reparent_children pid k in
    k ← kprint_int 10 (p_pid (proc k i)) (kprint "Surec sonlandirildi: PID=" k);
    k ← kprint_int 10 exit_code (kprint ", Cikis kodu=" k);
    let k := kprint nl k in
    let k := upd_proc i (set_p_state PROCESS_STATE_ZOMBIE) k in
    sched k
  end.

Definition stop_process_body (sched : kernel H -> option (kernel H)) (pid : Z) k
  : option (kernel H) :=
  match get_process pid k with
  | None => Some k
  | Some i =>
    let k := upd_proc i (set_p_state PROCESS_STATE_STOPPED) k in
    k ← kprint_int 10 (p_pid (proc k i)) (kprint "Surec durduruldu: PID=" k);
    sched (kprint nl k)
  end.

Definition signal_send_body (exit_p : Z -> Z -> kernel H -> option (kernel H))
    (stop_p : Z -> kernel H -> option (kernel H)) (process : option nat) (signum : Z) k
  : option (Z * kernel H) :=
  match process with
  | None => Some (-1, k)
  | Some i =>
    if (signum <=? 0) || (MAX_SIGNALS <=? signum) then Some (-1, k) else
    if signum =? SIGKILL then k ← exit_p (p_pid (proc k i)) (128 + signum) k; Some (0, k)
    else if signum =? SIGSTOP then k ← stop_p (p_pid (proc k i)) k; Some (0, k)
    else if signum =? SIGCONT then
      k ← (if decide (p_state (proc k i) = PROCESS_STATE_STOPPED)
           then continue_process (p_pid (proc k i)) k else Some k);
      Some (0, k)
    else Some (signal_add_pending (Some i) signum k)
  end.

(** ** The mutual recursion *)

Fixpoint schedule (fuel : nat) k : option (kernel H) :=
  match fuel with
  | O => None
  | S fuel' => schedule_body (signal_handle_pending fuel') k
  end
with signal_handle_pending (fuel : nat) (process : option nat) k : option (Z * kernel H) :=
  match fuel with
  | O => None
  | S fuel' => signal_handle_pending_body (exit_process fuel') (stop_process fuel') process k
  end
with exit_process (fuel : nat) (pid exit_code : Z) k : option (kernel H) :=
  match fuel with
  | O => None
  | S fuel' => exit_process_body (signal_send fuel') (schedule fuel') pid exit_code k
  end
with stop_process (fuel : nat) (pid : Z) k : option (kernel H) :=
  match fuel with
  | O => None
  | S fuel' => stop_process_body (schedule fuel') pid k
  end
with signal_send (fuel : nat) (process : option nat) (signum : Z) k : option (Z * kernel H) :=
  match fuel with
  | O => None
  | S fuel' => signal_send_body (exit_process fuel') (stop_process fuel') process signum k
  end.

Lemma schedule_S f k : schedule (S f) k = schedule_body (signal_handle_pending f) k.
Proof. reflexivity. Qed.

Lemma signal_handle_pending_S f p k :
  signal_handle_pending (S f) p k = signal_handle_pending_body (exit_process f) (stop_process f) p k.
Proof. reflexivity. Qed.

Lemma exit_process_S f pid code k :
  exit_process (S f) pid code k = exit_process_body (signal_send f) (schedule f) pid code k.
Proof. reflexivity. Qed.

Lemma stop_process_S f pid k : stop_process (S f) pid k = stop_process_body (schedule f) pid k.
Proof. reflexivity. Qed.

Lemma signal_send_S f p s k :
  signal_send (S f) p s k = signal_send_body (exit_process f) (stop_process f) p s k.
Proof. reflexivity. Qed.

(** ** process.c: sleeping, groups and sessions *)

Definition sleep_process (fuel : nat) (pid ms : Z) k : option (kernel H) :=
  match get_process pid k with
  | None => Some k
  | Some i =>
    let k := upd_proc i (set_p_sleep_until (u64 (timer_get_ticks k + ms))) k in
    let k := upd_proc i (set_p_state PROCESS_STATE_SLEEPING) k in
    schedule fuel k
  end.

Definition set_process_group (pid pgid : Z) k : Z * kernel H :=
  match get_process pid k with
  | None => (-1, k)
  | Some i =>
    let pgid := if pgid =? 0 then pid else pgid in
    (0, upd_proc i (set_p_process_group pgid) k)
  end.

(** Returns the session id converted to [int]. *)
Definition create_session k : Z * kernel H :=
  match get_current_process k with
  | None => (-1, k)
  | Some i =>
    let current := proc k i in
    if p_pid current =? p_process_group current then (-1, k) else
    let k := upd_proc i (set_p_session_id (p_pid current)) k in
    let k := upd_proc i (set_p_process_group (p_pid current)) k in
    (s32 (p_session_id (proc k i)), k)
  end.

Definition is_orphaned_process_group (pgid : Z) k : Z :=
  let has_parent_in_session p :=
    negb (p_pid p =? 0) && (p_process_group p =? pgid) &&
    match get_process (p_parent_pid p) k with
    | None => false
    | Some parent => p_session_id (proc k parent) =? p_session_id p
    end in
  if existsb has_parent_in_session (processes k) then 0 else 1.

Definition is_process_group_member (pid pgid : Z) k : Z :=
  match get_process pid k with
  | None => 0
  | Some i => if p_process_group (proc k i) =? pgid then 1 else 0
  end.

(** The loop from entry [i], [n] entries left; every entry is read in the
    state the previous signals leave. *)
Fixpoint send_group_loop (fuel n i : nat) (pgid signum sent : Z) k : option (Z * kernel H) :=
  match n with
  | O => Some (sent, k)
  | S n' =>
    if negb (p_pid (proc k i) =? 0) && (p_process_group (proc k i) =? pgid) then
      '(r, k) ← signal_send fuel (Some i) signum k;
      send_group_loop fuel n' (S i) pgid signum (if r =? 0 then sent + 1 else sent) k
    else send_group_loop fuel n' (S i) pgid signum sent k
  end.

Definition send_signal_to_process_group (fuel : nat) (pgid signum : Z) k : option (Z * kernel H) :=
  send_group_loop fuel MAX_PROCESSES 0 pgid signum 0 k.

(** [status] is never used. *)
Definition wait_for_process_group (fuel : nat) (pgid : Z) k : option (Z * kernel H) :=
  match get_current_process k with
  | None => Some (-1, k)
  | Some c =>
    let active p :=
      negb (p_pid p =? 0) && (p_process_group p =? pgid)
      && (p_parent_pid p =? p_pid (proc k c))
      && negb (bool_decide (p_state p = PROCESS_STATE_ZOMBIE)) in
    if existsb active (processes k) then
      k ← schedule fuel (upd_proc c (set_p_state PROCESS_STATE_BLOCKED) k); Some (0, k)
    else Some (0, k)
  end.
End Processes.
