(* ===== verification/Invariant.v ===== *)
(** * The invariant of the kernel state

    [kernel_wf] is what every operation of process.c, signals.c, timer.c and
    pipe.c keeps: pids number the used entries of the process table, stacks
    are live and unshared, [SIGKILL] and [SIGSTOP] are never blocked, every
    pipe is a ring buffer.  The frame lemmas below let an operation's proof
    look only at the fields it assigns. *)
From S2P Require Import Prelude CString Terminal Allocator Kernel Process.

(** The pid of entry [i] when [next] is the next pid: entries are filled in
    order and never freed. *)
Definition slot_pid (next : Z) (i : nat) : Z :=
  if Z.of_nat i + 1 <? next then Z.of_nat i + 1 else 0.

Record proc_ok (p : process) : Prop := {
  ok_exit_signal : p_exit_signal p = 0;
  ok_signal_stack : p_signal_stack p = 0;
  ok_pending : in_u 64 (p_pending_signals p);
  ok_blocked : in_u 64 (p_blocked_signals p);
  ok_kill : Z.testbit (p_blocked_signals p) SIGKILL = false;
  ok_stop : Z.testbit (p_blocked_signals p) SIGSTOP = false;
  ok_actions : length (p_signal_actions p) = 32%nat;
  ok_parent : in_u 64 (p_parent_pid p);
}.

(** A ring buffer: [data_size] bytes from [read_pos], [write_pos] after them. *)
Record pipe_ok (p : pipe) : Prop := {
  pipe_ok_buffer : length (pi_buffer p) = Z.to_nat PIPE_BUFFER_SIZE;
  pipe_ok_read : 0 <= pi_read_pos p < PIPE_BUFFER_SIZE;
  pipe_ok_size : 0 <= pi_data_size p <= PIPE_BUFFER_SIZE;
  pipe_ok_write : pi_write_pos p = (pi_read_pos p + pi_data_size p) mod PIPE_BUFFER_SIZE;
  pipe_ok_reader : pi_reader_open p = 0 \/ pi_reader_open p = 1;
  pipe_ok_writer : pi_writer_open p = 0 \/ pi_writer_open p = 1;
  pipe_ok_flags : in_u 8 (pi_flags p);
}.

Definition pipe_in (ps : list pipe) (i : nat) : pipe := default pipe0 (ps !! i).

Record pipes_ok (next : Z) (ps : list pipe) : Prop := {
  pipes_ok_len : length ps = MAX_PIPES;
  pipes_ok_next : 1 <= next <= 2 ^ 61;
  pipes_ok_each : forall i, pipe_ok (pipe_in ps i);
  pipes_ok_id : forall i, 0 <= pi_id (pipe_in ps i) < next;
  pipes_ok_unique : forall i j, pi_id (pipe_in ps i) <> 0 ->
    pi_id (pipe_in ps i) = pi_id (pipe_in ps j) -> i = j;
  pipes_ok_free : forall i, pi_id (pipe_in ps i) = 0 ->
    pi_reader_open (pipe_in ps i) = 0 /\ pi_writer_open (pipe_in ps i) = 0;
}.

Section Invariant.
Context `{!Allocator H}.
Implicit Types (k : kernel H) (i j : nat).

Record kernel_wf k : Prop := {
  wf_len : length (processes k) = MAX_PROCESSES;
  wf_cur : (current_process_index k < MAX_PROCESSES)%nat;
  wf_next : 1 <= next_pid k <= 65;
  wf_heap : alloc_wf (k_heap k);
  wf_term : terminal_inv (k_term k);
  wf_pid : forall i, p_pid (proc k i) = slot_pid (next_pid k) i;
  wf_proc : forall i, proc_ok (proc k i);
  wf_stack : forall i, p_stack (proc k i) <> 0 -> alloc_live (k_heap k) (p_stack (proc k i));
  wf_stack_inj : forall i j, p_stack (proc k i) <> 0 ->
    p_stack (proc k i) = p_stack (proc k j) -> i = j;
  wf_pipes : pipes_ok (next_pipe_id k) (pipes k);
}.

(** The number of processes [schedule] can pick. *)
Definition runnables k : nat := length (filter (fun p => runnable p = true) (processes k)).

(** ** Updates of one process *)

Lemma proc_upd i f k j :
  proc (upd_proc i f k) j =
  if decide (i = j /\ (j < length (processes k))%nat) then f (proc k j) else proc k j.
Proof.
  unfold proc, upd_proc; cbn [processes set_processes].
  destruct (decide (i = j)) as [->|Hne].
  - rewrite list_lookup_alter_eq. destruct (processes k !! j) eqn:E; simpl.
    + rewrite decide_True; [done|]. split; [done|]. by eapply lookup_lt_Some.
    + rewrite decide_False; [done|]. intros [_ Hl]. apply lookup_ge_None in E. lia.
  - rewrite list_lookup_alter_ne by done. by rewrite decide_False by naive_solver.
Qed.

Lemma proc_upd_eq i f k : (i < length (processes k))%nat -> proc (upd_proc i f k) i = f (proc k i).
Proof. intros. by rewrite proc_upd, decide_True. Qed.

Lemma proc_upd_ne i j f k : i <> j -> proc (upd_proc i f k) j = proc k j.
Proof. intros. by rewrite proc_upd, decide_False by naive_solver. Qed.

(** Reading through an update that keeps the field read. *)
Lemma proc_upd_field {A} (g : process -> A) i f k j :
  g (f (proc k i)) = g (proc k i) -> g (proc (upd_proc i f k) j) = g (proc k j).
Proof. intros Hg. rewrite proc_upd. case_decide as Hd; [|done]. by destruct Hd as [<- _]. Qed.

Lemma length_upd_proc i f k : length (processes (upd_proc i f k)) = length (processes k).
Proof. apply length_alter. Qed.

Lemma proc_out k i : (length (processes k) <= i)%nat -> proc k i = process0.
Proof. intros Hl. unfold proc. by rewrite (proj2 (lookup_ge_None _ _) Hl). Qed.

Lemma process0_ok : proc_ok process0.
Proof. split; try done; vm_compute; split; congruence. Qed.

Lemma wf_upd_proc i f k :
  kernel_wf k ->
  p_pid (f (proc k i)) = p_pid (proc k i) -> p_stack (f (proc k i)) = p_stack (proc k i) ->
  (proc_ok (proc k i) -> proc_ok (f (proc k i))) ->
  kernel_wf (upd_proc i f k).
Proof.
  intros [] Hp Hs Hok. split; try done.
  - by rewrite length_upd_proc.
  - intros j. by rewrite (proc_upd_field p_pid).
  - intros j. rewrite proc_upd. case_decide as Hd; [destruct Hd as [<- _]|]; auto.
  - intros j. rewrite (proc_upd_field p_stack) by done. auto.
  - intros j j'. rewrite !(proc_upd_field p_stack) by done. auto.
Qed.

Lemma wf_set_term t k : kernel_wf k -> terminal_inv t -> kernel_wf (set_k_term t k).
Proof. intros [] ?. by split. Qed.

Lemma wf_set_cur i k :
  kernel_wf k -> (i < MAX_PROCESSES)%nat -> kernel_wf (set_current_process_index i k).
Proof. intros [] ?. by split. Qed.

Lemma wf_kprint_bytes s k : kernel_wf k -> kernel_wf (kprint_bytes s k).
Proof. intros Hk. apply wf_set_term; [done|]. apply terminal_inv_write, Hk. Qed.

Lemma wf_kprint s k : kernel_wf k -> kernel_wf (kprint s k).
Proof. apply wf_kprint_bytes. Qed.

Lemma wf_set_p_state s i k : kernel_wf k -> kernel_wf (upd_proc i (set_p_state s) k).
Proof. intros. apply wf_upd_proc; [done..|]. intros []; by split. Qed.

(** ** Numbers in messages *)

(** The values whose notation fits [char pid_str[10]]. *)
Definition fits10 (num : Z) : Prop := - 10 ^ 8 < s32 num < 10 ^ 9.

Definition decimal (num : Z) : list Z := default [] (int_to_string (s32 num)).

Lemma kprint_int_fits num k : fits10 num -> kprint_int 10 num k = Some (kprint_bytes (decimal num) k).
Proof.
  intros Hf. destruct (int_to_string_length (s32 num) 9) as (s & Hs & Hl).
  - unfold fits10 in Hf. intros Heq. rewrite Heq in Hf. lia.
  - lia.
  - unfold fits10 in Hf. simpl. lia.
  - unfold kprint_int, terminal_writeint, decimal. rewrite Hs. cbn [mbind option_bind].
    rewrite (proj2 (Z.ltb_lt _ _)) by lia. done.
Qed.

Lemma fits10_small num : 0 <= num < 10 ^ 9 -> fits10 num.
Proof. intros. unfold fits10. rewrite s32_small; unfold in_s32; lia. Qed.

Lemma slot_pid_range next i : 1 <= next <= 65 -> 0 <= slot_pid next i < 65.
Proof. unfold slot_pid. intros. split_if; lia. Qed.

Lemma fits10_pid k i : kernel_wf k -> fits10 (p_pid (proc k i)).
Proof.
  intros Hk. apply fits10_small. rewrite (wf_pid k) by done.
  pose proof (slot_pid_range (next_pid k) i (wf_next k Hk)). lia.
Qed.

(** ** The lookup by pid *)

Lemma get_process_Some pid k i :
  get_process pid k = Some i -> (i < length (processes k))%nat /\ p_pid (proc k i) = pid.
Proof.
  unfold get_process, proc. intros Hg. pose proof (find_idx_lt _ _ _ Hg).
  apply find_idx_Some in Hg as [(p & Hp & He) _]. split; [done|]. rewrite Hp. simpl.
  by apply Z.eqb_eq.
Qed.

Lemma get_process_lt pid k i : kernel_wf k -> get_process pid k = Some i -> (i < MAX_PROCESSES)%nat.
Proof. intros Hk Hg. apply get_process_Some in Hg as [Hl _]. by rewrite (wf_len k Hk) in Hl. Qed.

(** A nonzero pid designates one entry: the one of its number. *)
Lemma get_process_pid k i :
  kernel_wf k -> p_pid (proc k i) <> 0 -> get_process (p_pid (proc k i)) k = Some i.
Proof.
  intros Hk Hp. apply find_idx_Some. split.
  - destruct (processes k !! i) as [p|] eqn:E.
    + exists p. split; [done|]. apply Z.eqb_eq. unfold proc. by rewrite E.
    + exfalso. apply Hp. unfold proc. by rewrite E.
  - intros j p Hj Hl. apply Z.eqb_neq.
    assert (p_pid p = p_pid (proc k j)) as -> by (unfold proc; by rewrite Hl).
    rewrite !(wf_pid k) in * by done. unfold slot_pid in *.
    repeat split_if; lia.
Qed.

Lemma slot_pid_used next i : slot_pid next i <> 0 -> slot_pid next i = Z.of_nat i + 1.
Proof. unfold slot_pid. split_if; [done|lia]. Qed.

Lemma get_process_upd pid i f k :
  p_pid (f (proc k i)) = p_pid (proc k i) -> get_process pid (upd_proc i f k) = get_process pid k.
Proof.
  intros Hf. apply find_idx_map. apply list_eq; intros j. rewrite !list_lookup_fmap.
  destruct (decide (i = j)) as [->|Hne]; cbn [processes upd_proc set_processes].
  - rewrite list_lookup_alter_eq. unfold proc in Hf.
    destruct (processes k !! j); simpl in *; [|done]. by rewrite Hf.
  - by rewrite list_lookup_alter_ne.
Qed.

(** ** Counting the runnable processes *)

Lemma filter_alter_length {A} (P : A -> bool) (f : A -> A) (l : list A) i x :
  l !! i = Some x ->
  (length (filter (fun y => P y = true) (alter f i l)) + Nat.b2n (P x)
   = length (filter (fun y => P y = true) l) + Nat.b2n (P (f x)))%nat.
Proof.
  revert i; induction l as [|a l IH]; intros [|i] Hi; try done; simpl in Hi.
  - injection Hi as ->. change (alter f 0%nat (x :: l)) with (f x :: l). rewrite !filter_cons.
    destruct (P x), (P (f x)); repeat case_decide; cbn [length Nat.b2n]; congruence || lia.
  - change (alter f (S i) (a :: l)) with (a :: alter f i l). rewrite !filter_cons.
    specialize (IH i Hi). case_decide; cbn [length]; lia.
Qed.

Lemma alter_same {A} (f : A -> A) (l : list A) i :
  (forall x, l !! i = Some x -> f x = x) -> alter f i l = l.
Proof.
  intros Hf. apply list_eq; intros j. destruct (decide (i = j)) as [->|Hne].
  - rewrite list_lookup_alter_eq. destruct (l !! j) eqn:E; simpl; [|done]. by rewrite Hf.
  - by rewrite list_lookup_alter_ne.
Qed.

Lemma alter_twice {A} (f g : A -> A) (l : list A) i :
  alter f i (alter g i l) = alter (fun x => f (g x)) i l.
Proof.
  apply list_eq; intros j. destruct (decide (i = j)) as [->|Hne].
  - rewrite !list_lookup_alter_eq. by destruct (l !! j).
  - by rewrite !list_lookup_alter_ne.
Qed.

Lemma filter_fmap_length {A} (P : A -> bool) (g : A -> A) (l : list A) :
  (forall x, P (g x) = P x) ->
  length (filter (fun x => P x = true) (g <$> l)) = length (filter (fun x => P x = true) l).
Proof.
  intros Hg. induction l as [|x l IH]; [done|]. rewrite fmap_cons, !filter_cons.
  pose proof (Hg x). repeat case_decide; cbn [length]; congruence.
Qed.

Lemma runnables_upd i f k :
  (i < length (processes k))%nat ->
  (runnables (upd_proc i f k) + Nat.b2n (runnable (proc k i))
   = runnables k + Nat.b2n (runnable (f (proc k i))))%nat.
Proof.
  intros Hi. apply lookup_lt_is_Some in Hi as [p Hp]. unfold runnables, proc. rewrite Hp. simpl.
  by apply filter_alter_length.
Qed.

Lemma runnables_same i f k :
  runnable (f (proc k i)) = runnable (proc k i) -> runnables (upd_proc i f k) = runnables k.
Proof.
  intros Hf. destruct (decide (i < length (processes k))%nat) as [Hi|Hi].
  - pose proof (runnables_upd i f k Hi). rewrite Hf in *. lia.
  - unfold runnables, upd_proc; simpl. rewrite alter_same; [done|].
    intros x Hx. apply lookup_lt_Some in Hx. lia.
Qed.

Lemma runnables_pos k i : runnable (proc k i) = true -> (0 < runnables k)%nat.
Proof.
  intros Hr. unfold runnables. assert (proc k i ∈ filter (fun p => runnable p = true) (processes k)) as Hin.
  { apply list_elem_of_filter. split; [done|]. unfold proc in *.
    destruct (processes k !! i) eqn:E; [by eapply list_elem_of_lookup_2|done]. }
  destruct (filter _ _); [by apply not_elem_of_nil in Hin|simpl; lia].
Qed.
End Invariant.
