(* ===== verification/Scheduler.v ===== *)
(** * The scheduler: termination, invariant, round robin

    Facts about the mutual recursion of Process.v.  Each level of it ends with
    one process fewer that can be picked, so [3 * runnables + 1] levels of fuel
    are enough for [schedule]. *)
From S2P Require Import Prelude CString Terminal Allocator Kernel Process Invariant.

Lemma in_u_sigbit s : 0 <= s < 64 -> in_u 64 (sigbit s).
Proof.
  intros. unfold sigbit, in_u. rewrite Z.shiftl_1_l. split; [apply Z.pow_nonneg; lia|].
  apply Z.pow_lt_mono_r; lia.
Qed.

Lemma in_u_lnot64 x : in_u 64 (lnot64 x).
Proof. apply wrap_range. lia. Qed.
#[export] Hint Resolve in_u_lnot64 in_u_sigbit : curnel.

(** Clearing one bit of a mask. *)
Lemma testbit_clear m s b :
  in_u 64 m -> 0 <= s < 64 -> 0 <= b ->
  Z.testbit (Z.land m (lnot64 (sigbit s))) b = Z.testbit m b && negb (b =? s).
Proof.
  intros Hm Hs Hb. unfold sigbit. rewrite Z.land_spec, testbit_lnot64, testbit_pow2 by lia.
  destruct (Z.ltb_spec b 64); [done|].
  rewrite (testbit_high 64 m b Hm) by lia. done.
Qed.

Section Frames.
Context `{!Allocator H}.
Implicit Types (k : kernel H) (i j : nat).

Lemma wf_add_pending i s k :
  kernel_wf k -> kernel_wf (signal_add_pending (Some i) s k).2.
Proof.
  intros Hk. unfold signal_add_pending.
  destruct ((s <=? 0) || (MAX_SIGNALS <=? s))%bool eqn:Hs; [done|].
  assert (0 <= s < 64) as Hs' by (unfold MAX_SIGNALS in Hs; zify_bool; lia).
  repeat split_if; simpl; try done; (apply wf_upd_proc; [done..|]);
    intros []; split; simpl; auto with curnel.
Qed.

Lemma wf_clear_pending i s k : kernel_wf k -> kernel_wf (upd_proc i (clear_pending s) k).
Proof.
  intros Hk. apply wf_upd_proc; [done..|]. intros []; split; simpl; try done.
  apply in_u_land; [lia|done|]. apply in_u_lnot64.
Qed.

Lemma wf_handling b i k : kernel_wf k -> kernel_wf (upd_proc i (set_p_handling_signal b) k).
Proof. intros Hk. apply wf_upd_proc; [done..|]. intros []; by split. Qed.

Lemma set_p_stack_same p : p_stack p = 0 -> set_p_stack 0 p = p.
Proof. destruct p; simpl; intros ->; done. Qed.

Lemma release_stack_ok i k :
  kernel_wf k ->
  exists h, release_stack i k = Some (set_k_heap h (upd_proc i (set_p_stack 0) k)) /\
    alloc_wf h /\
    (forall q, alloc_live h q <-> alloc_live (k_heap k) q /\ q <> p_stack (proc k i)).
Proof.
  intros Hk. unfold release_stack. destruct (Z.eqb_spec (p_stack (proc k i)) 0) as [Hz|Hz].
  - exists (k_heap k). split_and!; [|apply Hk|].
    + unfold upd_proc. rewrite alter_same; [by destruct k|].
      intros p Hp. unfold proc in Hz. rewrite Hp in Hz. by apply set_p_stack_same.
    + intros q. rewrite Hz. split; [|by intros []]. intros Hq. split; [done|].
      by apply (alloc_live_nonnull (k_heap k)).
  - destruct (free_spec (p_stack (proc k i)) (k_heap k)) as (h & Hf & Hw & Hl).
    + apply Hk.
    + by apply (wf_stack k Hk).
    + exists h. rewrite Hf. cbn [mbind option_bind]. done.
Qed.
End Frames.

(** ** What [exit_process] has done when it calls the scheduler *)

Section Exit.
Context `{!Allocator H}.
Implicit Types (k : kernel H) (i j : nat).

(** [SIGCHLD] to the parent, when there is one. *)
Definition notify_parent i k : kernel H :=
  if negb (p_parent_pid (proc k i) =? 0) then
    match get_process (p_parent_pid (proc k i)) k with
    | None => k
    | Some parent => (signal_add_pending (Some parent) SIGCHLD k).2
    end
  else k.

(** The messages of [exit_process]. *)
Definition print_exit (pid code : Z) k : kernel H :=
  kprint nl (kprint_bytes (decimal code) (kprint ", Cikis kodu="
    (kprint_bytes (decimal pid) (kprint "Surec sonlandirildi: PID=" k)))).

(** The state handed to [schedule]; [h] is the heap without the stack. *)
Definition exit_state i (pid code : Z) (h : H) k : kernel H :=
  let k := set_k_heap h (upd_proc i (set_p_stack 0) (notify_parent i k)) in
  let k := reparent_children pid k in
  upd_proc i (set_p_state PROCESS_STATE_ZOMBIE) (print_exit (p_pid (proc k i)) code k).

Lemma proc_reparent pid k j : proc (reparent_children pid k) j = reparent pid (proc k j).
Proof.
  unfold proc, reparent_children. simpl. rewrite list_lookup_fmap.
  by destruct (processes k !! j).
Qed.

Lemma reparent_frame pid p :
  p_pid (reparent pid p) = p_pid p /\ p_stack (reparent pid p) = p_stack p /\
  p_state (reparent pid p) = p_state p /\ (proc_ok p -> proc_ok (reparent pid p)).
Proof.
  unfold reparent. split_if; split_and!; try done. intros []; by split.
Qed.

Lemma wf_reparent pid k : kernel_wf k -> kernel_wf (reparent_children pid k).
Proof.
  intros Hk. split; try by destruct Hk.
  - cbn [reparent_children processes set_processes]. rewrite length_fmap. by apply Hk.
  - intros j. rewrite proc_reparent. rewrite (proj1 (reparent_frame _ _)). by apply Hk.
  - intros j. rewrite proc_reparent. by apply reparent_frame, wf_proc.
  - intros j. rewrite proc_reparent. rewrite (proj1 (proj2 (reparent_frame _ _))). apply (wf_stack k Hk).
  - intros j j'. rewrite !proc_reparent. rewrite !(proj1 (proj2 (reparent_frame _ _))). apply (wf_stack_inj k Hk).
Qed.

Lemma wf_notify_parent i k : kernel_wf k -> kernel_wf (notify_parent i k).
Proof.
  intros Hk. unfold notify_parent. split_if; [|done].
  destruct (get_process _ k); [by apply wf_add_pending|done].
Qed.

Lemma wf_print_exit pid code k : kernel_wf k -> kernel_wf (print_exit pid code k).
Proof. intros. unfold print_exit. by repeat (apply wf_kprint || apply wf_kprint_bytes). Qed.

Lemma wf_set_heap_free h i k :
  kernel_wf k -> alloc_wf h ->
  (forall q, alloc_live h q <-> alloc_live (k_heap k) q /\ q <> p_stack (proc k i)) ->
  kernel_wf (set_k_heap h (upd_proc i (set_p_stack 0) k)).
Proof.
  intros Hk Hw Hl.
  assert (Hs : forall j, p_stack (proc (upd_proc i (set_p_stack 0) k) j) <> 0 ->
    j <> i /\ proc (upd_proc i (set_p_stack 0) k) j = proc k j).
  { intros j. rewrite proc_upd. case_decide as Hd; [by intros []|].
    intros Hne. split; [|done]. intros ->. apply Hd. split; [done|].
    destruct (decide (i < length (processes k))%nat); [done|].
    rewrite proc_out in Hne by lia. done. }
  split; try (by destruct Hk); cbn [set_k_heap k_heap next_pid].
  - change (length (processes (upd_proc i (set_p_stack 0) k)) = MAX_PROCESSES).
    rewrite length_upd_proc. by apply Hk.
  - intros j. change (p_pid (proc (upd_proc i (set_p_stack 0) k) j) = slot_pid (next_pid k) j).
    rewrite (proc_upd_field p_pid) by done. by apply Hk.
  - intros j. change (proc_ok (proc (upd_proc i (set_p_stack 0) k) j)).
    rewrite proc_upd. case_decide; [|by apply Hk]. destruct (wf_proc k Hk j). by split.
  - intros j. change (proc (set_k_heap h ?k') ?j') with (proc k' j').
    intros Hne. destruct (Hs j Hne) as [Hji Hp]. rewrite Hp in *. apply Hl. split; [by apply (wf_stack k Hk)|].
    intros Heq. apply Hji, (wf_stack_inj k Hk); done.
  - intros j j'. change (proc (set_k_heap h ?k') ?j'') with (proc k' j'').
    intros Hne Heq. destruct (Hs j Hne) as [_ Hp]. rewrite Heq in Hne.
    destruct (Hs j' Hne) as [_ Hp']. rewrite Hp in *. rewrite Hp' in *. apply (wf_stack_inj k Hk); congruence.
Qed.
End Exit.

(** ** One level of the recursion *)

Section Unfold.
Context `{!Allocator H}.
Variable call_handler : Z -> Z -> kernel H -> option (kernel H).
Implicit Types (k : kernel H) (i j : nat).
Abbreviation schedule := (schedule call_handler).
Abbreviation exit_process := (exit_process call_handler).
Abbreviation stop_process := (stop_process call_handler).

Lemma notify_parent_send f i k :
  proc_ok (proc k i) ->
  (if negb (p_parent_pid (proc k i) =? 0) then
     match get_process (p_parent_pid (proc k i)) k with
     | None => Some k
     | Some parent => snd <$> signal_send call_handler (S f) (Some parent) SIGCHLD k
     end
   else Some k) = Some (notify_parent i k).
Proof.
  intros _. unfold notify_parent. split_if; [|done]. by destruct (get_process _ k).
Qed.

Lemma notify_parent_frame i k j :
  let k' := notify_parent i k in
  k_heap k' = k_heap k /\ p_stack (proc k' j) = p_stack (proc k j) /\
  p_pid (proc k' j) = p_pid (proc k j) /\ p_state (proc k' j) = p_state (proc k j) /\
  length (processes k') = length (processes k) /\ runnables k' = runnables k /\
  current_process_index k' = current_process_index k.
Proof.
  cbv zeta. unfold notify_parent. split_if; [|done]. destruct (get_process _ k) as [p|]; [|done].
  unfold signal_add_pending. simpl. split_if; [|done].
  cbn [snd]. split_and!; try done.
  - by rewrite (proc_upd_field p_stack).
  - by rewrite (proc_upd_field p_pid).
  - by rewrite (proc_upd_field p_state).
  - apply length_upd_proc.
  - by apply runnables_same.
Qed.

Lemma exit_process_unfold pid code i k :
  kernel_wf k -> get_process pid k = Some i -> fits10 code ->
  exists h, alloc_wf h /\
    (forall q, alloc_live h q <-> alloc_live (k_heap k) q /\ q <> p_stack (proc k i)) /\
    forall f, exit_process (S (S f)) pid code k = schedule (S f) (exit_state i pid code h k).
Proof.
  intros Hk Hg Hc. pose proof (wf_notify_parent i k Hk) as Hk1.
  destruct (notify_parent_frame i k i) as (Hh & Hs & _).
  destruct (release_stack_ok i _ Hk1) as (h & Hr & Hw & Hl).
  rewrite Hh, Hs in Hl. exists h. split_and!; [done..|]. intros f.
  rewrite exit_process_S. unfold exit_process_body. rewrite Hg.
  rewrite (ok_exit_signal _ (wf_proc k Hk i)). cbn [negb Z.eqb mbind option_bind].
  rewrite notify_parent_send by apply (wf_proc k Hk). cbn [mbind option_bind].
  rewrite Hr. cbn [mbind option_bind].
  set (k2 := set_k_heap h _).
  assert (Hk2 : kernel_wf k2) by (apply wf_set_heap_free; [done..|]; rewrite Hs, Hh; done).
  unfold release_signal_stack. rewrite (ok_signal_stack _ (wf_proc k2 Hk2 i)).
  cbn [Z.eqb mbind option_bind].
  rewrite kprint_int_fits; cbn [mbind option_bind].
  2:{ apply (fits10_pid (kprint "Surec sonlandirildi: PID=" (reparent_children pid k2))).
      by apply wf_kprint, wf_reparent. }
  rewrite kprint_int_fits by done. reflexivity.
Qed.

Lemma stop_process_unfold f pid i k :
  kernel_wf k -> get_process pid k = Some i ->
  stop_process (S f) pid k = schedule f (kprint nl (kprint_bytes (decimal (p_pid (proc k i)))
    (kprint "Surec durduruldu: PID=" (upd_proc i (set_p_state PROCESS_STATE_STOPPED) k)))).
Proof.
  intros Hk Hg. rewrite stop_process_S. unfold stop_process_body. rewrite Hg.
  rewrite kprint_int_fits by by apply fits10_pid, wf_set_p_state.
  cbn [mbind option_bind].
  by rewrite (proc_upd_field p_pid).
Qed.

(** Ending a process leaves one process fewer to pick. *)
Lemma exit_state_runnables i pid code h k :
  (i < length (processes k))%nat ->
  (runnables (exit_state i pid code h k) + Nat.b2n (runnable (proc k i)) = runnables k)%nat.
Proof.
  intros Hi. unfold exit_state.
  destruct (notify_parent_frame i k i) as (_ & _ & Hp & Hst & Hlen & Hrun & _).
  set (k1 := notify_parent i k) in *.
  set (k2 := reparent_children pid _).
  assert (H2 : runnables k2 = runnables k).
  { rewrite <- Hrun. unfold k2, runnables. cbn [reparent_children processes set_processes set_k_heap].
    rewrite filter_fmap_length; [by apply (runnables_same i (set_p_stack 0) k1)|].
    intros p. unfold runnable. by destruct (reparent_frame pid p) as (-> & _ & -> & _). }
  assert (Hr2 : runnable (proc k2 i) = runnable (proc k i)).
  { unfold k2, runnable. rewrite proc_reparent.
    destruct (reparent_frame pid (proc (set_k_heap h (upd_proc i (set_p_stack 0) k1)) i))
      as (-> & _ & -> & _).
    change (proc (set_k_heap h ?k') ?j) with (proc k' j).
    rewrite (proc_upd_field p_pid), (proc_upd_field p_state) by done. by rewrite Hp, Hst. }
  set (k3 := print_exit _ code k2).
  assert (Hl3 : (i < length (processes k3))%nat).
  { unfold k3, k2. cbn -[length]. rewrite length_fmap, length_alter. lia. }
  pose proof (runnables_upd i (set_p_state PROCESS_STATE_ZOMBIE) k3 Hl3) as Hu.
  change (proc k3 i) with (proc k2 i) in Hu. change (runnables k3) with (runnables k2) in Hu.
  rewrite Hr2, H2 in Hu. unfold runnable in Hu at 2. simpl in Hu.
  rewrite andb_false_r in Hu. simpl in Hu. lia.
Qed.

Lemma wf_exit_state i pid code h k :
  kernel_wf k -> alloc_wf h ->
  (forall q, alloc_live h q <-> alloc_live (k_heap k) q /\ q <> p_stack (proc k i)) ->
  kernel_wf (exit_state i pid code h k).
Proof.
  intros Hk Hw Hl. destruct (notify_parent_frame i k i) as (Hh & Hs & _).
  unfold exit_state. apply wf_set_p_state, wf_print_exit, wf_reparent, wf_set_heap_free.
  - by apply wf_notify_parent.
  - done.
  - by rewrite Hh, Hs.
Qed.
End Unfold.

(** ** The search loop *)

Section Search.
Context `{!Allocator H}.
Implicit Types (k : kernel H).

(** The entry [d] steps after [c] in the circular order. *)
Definition after (c d : nat) : nat := ((c + d) mod MAX_PROCESSES)%nat.

Lemma after_lt c d : (after c d < MAX_PROCESSES)%nat.
Proof. apply Nat.mod_upper_bound. unfold MAX_PROCESSES; lia. Qed.

Lemma after_succ c d : after (after c 1) d = after c (S d).
Proof.
  unfold after. rewrite Nat.Div0.add_mod_idemp_l. f_equal. lia.
Qed.

Lemma schedule_search_spec n c checked k :
  let '(c', checked') := schedule_search n c checked k in
  (exists d, (1 <= d <= n)%nat /\ c' = after c d /\ checked' = (checked + d)%nat /\
     runnable (proc k c') = true /\
     forall d', (1 <= d' < d)%nat -> runnable (proc k (after c d')) = false) \/
  (checked' = (checked + n)%nat /\
     forall d', (1 <= d' <= n)%nat -> runnable (proc k (after c d')) = false).
Proof.
  revert c checked; induction n as [|n IH]; intros c checked; cbn [schedule_search].
  { right. split; [lia|]. intros; lia. }
  assert (Hs : (S c mod MAX_PROCESSES)%nat = after c 1) by (unfold after; f_equal; lia).
  rewrite Hs. destruct (runnable (proc k (after c 1))) eqn:Hr.
  { left. exists 1%nat. split_and!; [lia|lia|done|lia|done|]. intros; lia. }
  specialize (IH (after c 1) (S checked)).
  destruct (schedule_search n (after c 1) (S checked) k) as [c' checked'].
  assert (Hstep : forall d', (1 <= d')%nat -> d' <> 1%nat ->
    after c d' = after (after c 1) (d' - 1)) by (intros; rewrite after_succ; f_equal; lia).
  destruct IH as [(d & Hd & -> & -> & Hrun & Hno)|[-> Hno]].
  - left. exists (S d). rewrite <- (after_succ c d). split_and!; [lia|lia|done|lia|done|].
    intros d' Hd'. destruct (decide (d' = 1%nat)) as [->|Hne]; [done|].
    rewrite Hstep by lia. apply Hno; lia.
  - right. split; [lia|]. intros d' Hd'. destruct (decide (d' = 1%nat)) as [->|Hne]; [done|].
    rewrite Hstep by lia. apply Hno; lia.
Qed.

(** [schedule] finds the first process after the current one that can run. *)
Definition next_runnable k (d : nat) : Prop :=
  (1 <= d < MAX_PROCESSES)%nat /\ runnable (proc k (after (current_process_index k) d)) = true /\
  forall d', (1 <= d' < d)%nat -> runnable (proc k (after (current_process_index k) d')) = false.

Definition none_runnable k : Prop :=
  forall d, (1 <= d < MAX_PROCESSES)%nat -> runnable (proc k (after (current_process_index k) d)) = false.

Lemma next_runnable_unique k d d' : next_runnable k d -> next_runnable k d' -> d = d'.
Proof.
  intros (Hr & Hrun & Hno) (Hr' & Hrun' & Hno').
  destruct (lt_eq_lt_dec d d') as [[Hlt|?]|Hlt]; [|done|].
  - rewrite Hno' in Hrun by lia. done.
  - rewrite Hno in Hrun' by lia. done.
Qed.

Lemma schedule_body_cases hp k :
  (exists d, next_runnable k d /\
     let c := after (current_process_index k) d in
     schedule_body hp k =
       ('(_, k) ← hp (Some c) (upd_proc c (set_p_state PROCESS_STATE_RUNNING)
                                 (set_current_process_index c k));
        Some (switch_to_process (p_pid (proc k (current_process_index k))) k))) \/
  (none_runnable k /\ schedule_body hp k = Some k).
Proof.
  unfold schedule_body. pose proof (schedule_search_spec MAX_PROCESSES (current_process_index k) 0 k) as Hs.
  destruct (schedule_search _ _ _ k) as [c' n].
  assert (Hid : set_current_process_index (current_process_index k) k = k) by by destruct k.
  destruct Hs as [(d & Hd & -> & -> & Hrun & Hno)|[-> Hno]].
  - destruct (decide (d = MAX_PROCESSES)) as [->|Hne].
    + right. split; [|by rewrite Hid]. intros d' Hd'. apply Hno. lia.
    + left. exists d. rewrite (proj2 (Nat.eqb_neq _ _)) by done.
      assert (negb (p_pid (proc k (after (current_process_index k) d)) =? 0) = true) as Hp.
      { unfold runnable in Hrun. by apply andb_true_iff in Hrun as [? _]. }
      split; [split_and!; [lia|lia|done|exact Hno]|]. cbv zeta.
      change (proc (set_current_process_index ?c k) ?c') with (proc k c'). by rewrite Hp.
  - right. split; [|by rewrite Hid]. intros d' Hd'. apply Hno. lia.
Qed.
End Search.

(** ** Termination *)

(** Every default action that is not "ignore" has a bit of [SIGTERM]. *)
Lemma default_action_cases s :
  Z.land (default_signal_action s) SIGTERM = 0 -> default_signal_action s = 0.
Proof.
  unfold default_signal_action. generalize (Z.to_nat s); intros n.
  do 32 (destruct n as [|n]; [by vm_compute; intros|]). done.
Qed.

Section Totality.
Context `{!Allocator H}.
Variable call_handler : Z -> Z -> kernel H -> option (kernel H).
Implicit Types (k : kernel H) (i j : nat).

(** User handlers return and keep the kernel well formed. *)
Hypothesis handlers_return : forall h s k, kernel_wf k ->
  exists k', call_handler h s k = Some k' /\ kernel_wf k'.

(** Enough fuel when at most [m] processes can be picked. *)
Definition sched_fuel (m : nat) : nat := (3 * m + 1)%nat.

Lemma pending_loop_ok (P : kernel H -> Prop) exit_p stop_p n signum i k :
  (forall k, P k -> kernel_wf k) ->
  (forall s k, P k -> P (upd_proc i (clear_pending s) k)) ->
  (forall s k, 1 <= s < MAX_SIGNALS -> P k ->
    exists k', exit_p (p_pid (proc k i)) (128 + s) k = Some k' /\ kernel_wf k') ->
  1 <= signum -> signum + Z.of_nat n <= MAX_SIGNALS -> P k ->
  exists r k', pending_loop call_handler exit_p stop_p n signum i k = Some (r, k') /\ kernel_wf k'.
Proof.
  intros Hwf Hclear Hexit. revert signum k; induction n as [|n IH]; intros signum k Hs Hn HP; simpl.
  { exists 0, k. auto. }
  specialize (IH (signum + 1)). split_if; [|apply IH; auto; lia].
  pose proof (Hclear signum k HP) as HP'.
  set (k1 := upd_proc i (clear_pending signum) k) in *. split_if.
  - split_if.
    + destruct (Hexit signum k1) as (k' & He & Hk'); [lia|done|]. rewrite He. by exists 1, k'.
    + rewrite (default_action_cases signum) by done. simpl. apply IH; auto; lia.
  - split_if; [apply IH; auto; lia|].
    destruct (handlers_return (handler_of (proc k1 i) signum) signum
      (upd_proc i (set_p_handling_signal 1) k1)) as (k' & Hc & Hk').
    { apply wf_handling. auto. }
    rewrite Hc. cbn [mbind option_bind]. eexists _, _. split; [done|]. by apply wf_handling.
Qed.

Lemma wf_switch_to_process pid k : kernel_wf k -> kernel_wf (switch_to_process pid k).
Proof.
  intros Hk. unfold switch_to_process. destruct (get_process pid k) as [i|] eqn:Hg; [|done].
  apply wf_set_cur; [|by eapply get_process_lt].
  apply wf_upd_proc; [by apply wf_set_p_state|done..|]. intros []; by split.
Qed.

Lemma fits10_exit_code s : 0 <= s < MAX_SIGNALS -> fits10 (128 + s).
Proof. unfold MAX_SIGNALS. intros. apply fits10_small. lia. Qed.

Lemma runnable_pid (p : process) : runnable p = true -> p_pid p <> 0.
Proof. unfold runnable. intros [Hp _]%andb_true_iff. zify_bool. done. Qed.

(** A level of the recursion that ends process [i], from the totality of the
    next one. *)
Lemma exit_process_total fuel m pid code i k :
  (forall fuel k, (sched_fuel m <= fuel)%nat -> kernel_wf k -> (runnables k <= m)%nat ->
    exists k', schedule call_handler fuel k = Some k' /\ kernel_wf k') ->
  (sched_fuel m < fuel)%nat -> kernel_wf k -> get_process pid k = Some i -> fits10 code ->
  (runnables k <= m + Nat.b2n (runnable (proc k i)))%nat ->
  exists k', exit_process call_handler fuel pid code k = Some k' /\ kernel_wf k'.
Proof.
  intros Hsched Hf Hk Hg Hc Hr.
  destruct (exit_process_unfold call_handler pid code i k Hk Hg Hc) as (h & Hw & Hl & He).
  unfold sched_fuel in *. destruct fuel as [|[|fuel]]; [lia..|]. rewrite He.
  apply Hsched; [lia|by apply wf_exit_state|].
  pose proof (exit_state_runnables i pid code h k) as Hx.
  rewrite (wf_len k Hk) in Hx. specialize (Hx (get_process_lt _ _ _ Hk Hg)). lia.
Qed.

Lemma schedule_total m fuel k :
  (sched_fuel m <= fuel)%nat -> kernel_wf k -> (runnables k <= m)%nat ->
  exists k', schedule call_handler fuel k = Some k' /\ kernel_wf k'.
Proof.
  revert fuel k; induction m as [|m IH]; intros fuel k Hf Hk Hm; unfold sched_fuel in Hf;
    destruct fuel as [|fuel]; try lia; rewrite schedule_S;
    destruct (schedule_body_cases (signal_handle_pending call_handler fuel) k)
      as [(d & (_ & Hrun & _) & ->)|[_ ->]]; try by eauto.
  - pose proof (runnables_pos k _ Hrun). lia.
  - set (c := after _ d) in *.
    set (k1 := upd_proc c _ _).
    assert (Hc : (c < length (processes (set_current_process_index c k)))%nat).
    { cbn. rewrite (wf_len k Hk). apply after_lt. }
    assert (Hk1 : kernel_wf k1) by (apply wf_set_p_state, wf_set_cur; [done|apply after_lt]).
    assert (Hr1 : runnable (proc k1 c) = true).
    { unfold k1. rewrite proc_upd_eq by done.
      change (proc (set_current_process_index c k) c) with (proc k c).
      unfold runnable in *. apply andb_true_iff in Hrun as [Hp _]. simpl. by rewrite Hp. }
    assert (Hm1 : (runnables k1 <= S m)%nat).
    { unfold k1. rewrite runnables_same; [done|].
      rewrite <- (proc_upd_eq _ _ _ Hc). fold k1. by rewrite Hr1. }
    destruct fuel as [|fuel]; [lia|].
    assert (Hhp : exists r k', signal_handle_pending call_handler (S fuel) (Some c) k1 = Some (r, k')
                                /\ kernel_wf k').
    { rewrite signal_handle_pending_S. unfold signal_handle_pending_body.
      do 2 (split_if; [by eauto|]).
      apply (pending_loop_ok (fun k => kernel_wf k /\ (runnables k <= S m)%nat /\
                                runnable (proc k c) = true)).
      - by intros ? [].
      - intros s k' (Hw & Hn & Hr). split_and!; [by apply wf_clear_pending|by rewrite runnables_same|].
        by rewrite (proc_upd_field runnable).
      - intros s k' Hs (Hw & Hn & Hr).
        apply (exit_process_total fuel m _ _ c); [done|unfold sched_fuel; lia|done| | |rewrite Hr; simpl; lia].
        + apply get_process_pid; [done|]. by apply runnable_pid.
        + apply fits10_exit_code. lia.
      - lia.
      - vm_compute. done.
      - done. }
    destruct Hhp as (r & k' & -> & Hk'). cbn [mbind option_bind].
    eexists; split; [done|]. by apply wf_switch_to_process.
Qed.
End Totality.

(** ** More fuel changes nothing *)

(** [x] is at most as defined as [y]. *)
Definition ole {A} (x y : option A) : Prop := forall a, x = Some a -> y = Some a.

Lemma ole_refl {A} (x : option A) : ole x x.
Proof. by intros a. Qed.

Lemma ole_bind {A B} (x y : option A) (f g : A -> option B) :
  ole x y -> (forall a, ole (f a) (g a)) -> ole (x ≫= f) (y ≫= g).
Proof. intros Hx Hf b (a & Ha & Hb)%bind_Some. rewrite (Hx a Ha). simpl. by apply Hf. Qed.

Lemma ole_fmap {A B} (x y : option A) (f : A -> B) : ole x y -> ole (f <$> x) (f <$> y).
Proof. intros Hx b (a & Ha & ->)%fmap_Some. by rewrite (Hx a Ha). Qed.

(** Both sides branch on the same conditions. *)
Ltac ole_step :=
  match goal with
  | |- ole ?x ?x => apply ole_refl
  | |- ole (if ?b then _ else _) _ => destruct b
  | |- ole (match ?b with _ => _ end) _ => destruct b
  | |- ole (_ ≫= _) _ => apply ole_bind; [|intros]
  | |- ole (_ <$> _) _ => apply ole_fmap
  end.

Section Monotone.
Context `{!Allocator H}.
Variable call_handler : Z -> Z -> kernel H -> option (kernel H).
Implicit Types (k : kernel H).

Lemma pending_loop_mono exit_p exit_p' stop_p stop_p' n s i k :
  (forall pid c k, ole (exit_p pid c k) (exit_p' pid c k)) ->
  (forall pid k, ole (stop_p pid k) (stop_p' pid k)) ->
  ole (pending_loop call_handler exit_p stop_p n s i k)
      (pending_loop call_handler exit_p' stop_p' n s i k).
Proof.
  intros He Hs. revert s k; induction n as [|n IH]; intros s k; simpl; [apply ole_refl|].
  repeat (apply IH || apply He || apply Hs || ole_step).
Qed.

Lemma fuel_mono f :
  (forall k, ole (schedule call_handler f k) (schedule call_handler (S f) k)) /\
  (forall p k, ole (signal_handle_pending call_handler f p k)
                   (signal_handle_pending call_handler (S f) p k)) /\
  (forall p c k, ole (exit_process call_handler f p c k) (exit_process call_handler (S f) p c k)) /\
  (forall p k, ole (stop_process call_handler f p k) (stop_process call_handler (S f) p k)) /\
  (forall p s k, ole (signal_send call_handler f p s k) (signal_send call_handler (S f) p s k)).
Proof.
  induction f as [|f (H1 & H2 & H3 & H4 & H5)]; [by split_and!|]. split_and!; intros.
  - rewrite (schedule_S _ f), (schedule_S _ (S f)). unfold schedule_body. repeat (apply H2 || ole_step).
  - rewrite (signal_handle_pending_S _ f), (signal_handle_pending_S _ (S f)).
    unfold signal_handle_pending_body. repeat ((apply pending_loop_mono; [apply H3|apply H4]) || ole_step).
  - rewrite (exit_process_S _ f), (exit_process_S _ (S f)). unfold exit_process_body.
    repeat (apply H1 || apply H5 || ole_step).
  - rewrite (stop_process_S _ f), (stop_process_S _ (S f)). unfold stop_process_body.
    repeat (apply H1 || ole_step).
  - rewrite (signal_send_S _ f), (signal_send_S _ (S f)). unfold signal_send_body.
    repeat (apply H3 || apply H4 || ole_step).
Qed.

Lemma schedule_mono f f' k k' :
  (f <= f')%nat -> schedule call_handler f k = Some k' -> schedule call_handler f' k = Some k'.
Proof. induction 1; [done|]. intros. apply (proj1 (fuel_mono _)). auto. Qed.
End Monotone.

(** ** Round robin *)

Section Round_robin.
Context `{!Allocator H}.
Variable call_handler : Z -> Z -> kernel H -> option (kernel H).
Implicit Types (k : kernel H) (i j c : nat).

(** No signal is delivered to process [i] when it is scheduled. *)
Definition quiet k i : Prop :=
  signal_handling_enabled k = 0 \/ p_handling_signal (proc k i) <> 0 \/
  forall s, 1 <= s < MAX_SIGNALS -> is_deliverable (proc k i) s = false.

Definition dispatch (p : process) : process :=
  set_p_cpu_time (u64 (p_cpu_time p + 1)) (set_p_state PROCESS_STATE_RUNNING p).

(** The state after a plain switch to entry [c]. *)
Definition dispatched c k : kernel H := set_current_process_index c (upd_proc c dispatch k).

Lemma pending_loop_none exit_p stop_p n s i k :
  (forall t, s <= t < s + Z.of_nat n -> is_deliverable (proc k i) t = false) ->
  pending_loop call_handler exit_p stop_p n s i k = Some (0, k).
Proof.
  revert s; induction n as [|n IH]; intros s Hs; simpl; [done|].
  rewrite Hs by lia. apply IH. intros t Ht. apply Hs. lia.
Qed.

Lemma handle_pending_quiet f i k :
  quiet k i -> signal_handle_pending call_handler (S f) (Some i) k = Some (0, k).
Proof.
  intros Hq. rewrite signal_handle_pending_S. unfold signal_handle_pending_body.
  split_if; [done|]. split_if; [done|]. apply pending_loop_none.
  intros t Ht. destruct Hq as [?|[?|Hq]]; [done..|]. apply Hq.
  change (Z.of_nat (Z.to_nat (MAX_SIGNALS - 1))) with 31 in Ht. unfold MAX_SIGNALS. lia.
Qed.

Lemma upd_proc_twice i f g k : upd_proc i f (upd_proc i g k) = upd_proc i (fun p => f (g p)) k.
Proof.
  unfold upd_proc. cbn [processes set_processes].
  by rewrite alter_twice.
Qed.

Lemma schedule_dispatch f k d :
  kernel_wf k -> next_runnable k d ->
  let c := after (current_process_index k) d in
  quiet k c -> schedule call_handler (S (S f)) k = Some (dispatched c k).
Proof.
  intros Hk Hd c Hq. rewrite schedule_S.
  destruct (schedule_body_cases (signal_handle_pending call_handler (S f)) k)
    as [(d' & Hd' & ->)|[Hn _]].
  2:{ exfalso. destruct Hd as (Hr & Hrun & _). rewrite Hn in Hrun by done. done. }
  rewrite (next_runnable_unique k d' d Hd' Hd).
  fold c. assert (Hc : (c < length (processes k))%nat) by (rewrite (wf_len k Hk); apply after_lt).
  set (k0 := set_current_process_index c k). set (k1 := upd_proc c _ k0).
  assert (Hk0 : kernel_wf k0) by (apply wf_set_cur; [done|apply after_lt]).
  assert (Hk1 : kernel_wf k1) by by apply wf_set_p_state.
  assert (Hp1 : proc k1 c = set_p_state PROCESS_STATE_RUNNING (proc k c)).
  { unfold k1. by rewrite proc_upd_eq. }
  assert (Hq1 : quiet k1 c).
  { unfold quiet. change (signal_handling_enabled k1) with (signal_handling_enabled k).
    rewrite Hp1. exact Hq. }
  rewrite handle_pending_quiet by done. cbn [mbind option_bind].
  change (current_process_index k1) with c. unfold switch_to_process.
  rewrite get_process_pid; [|done|].
  - rewrite upd_proc_twice. unfold k1. rewrite upd_proc_twice. reflexivity.
  - rewrite Hp1. destruct Hd as (_ & Hrun & _). exact (runnable_pid _ Hrun).
Qed.

Lemma schedule_none f k : none_runnable k -> schedule call_handler (S f) k = Some k.
Proof.
  intros Hn. rewrite schedule_S.
  destruct (schedule_body_cases (signal_handle_pending call_handler f) k) as [(d & Hd & _)|[_ ->]]; [|done].
  exfalso. destruct Hd as (Hr & Hrun & _). by rewrite Hn in Hrun.
Qed.

Lemma runnable_dispatch p : runnable p = true -> runnable (dispatch p) = true.
Proof. unfold runnable. intros [Hp _]%andb_true_iff. simpl. by rewrite Hp. Qed.

Lemma wf_dispatched c k : kernel_wf k -> (c < MAX_PROCESSES)%nat -> kernel_wf (dispatched c k).
Proof.
  intros. apply wf_set_cur; [|done]. apply wf_upd_proc; [done..|]. intros []; by split.
Qed.

Lemma proc_dispatched c k j :
  (c < length (processes k))%nat ->
  proc (dispatched c k) j = if decide (c = j) then dispatch (proc k j) else proc k j.
Proof.
  intros Hc. change (proc (dispatched c k) j) with (proc (upd_proc c dispatch k) j). rewrite proc_upd.
  destruct (decide (c = j)) as [<-|Hne]; [by rewrite decide_True|].
  by rewrite decide_False by (intros []; done).
Qed.

(** A call of the scheduler that delivers no signal dispatches at most one
    process. *)
Lemma schedule_quiet f k :
  kernel_wf k -> (forall i, p_pid (proc k i) <> 0 -> quiet k i) ->
  exists k', schedule call_handler (S (S f)) k = Some k' /\ kernel_wf k' /\
    (forall i, p_pid (proc k' i) <> 0 -> quiet k' i) /\
    timer_callback k' = timer_callback k /\ timer_frequency k' = timer_frequency k /\
    timer_ticks k' = timer_ticks k /\ pipes k' = pipes k /\
    forall j, proc k' j = proc k j \/
      (runnable (proc k j) = true /\ proc k' j = dispatch (proc k j)).
Proof.
  intros Hk Hq.
  destruct (schedule_body_cases (fun p k => Some (0, k)) k) as [(d & Hd & _)|[Hn _]].
  2:{ exists k. rewrite schedule_none by done. split_and!; auto. }
  assert (Hrun := proj1 (proj2 Hd)). pose proof (schedule_dispatch f k d Hk Hd) as Hs.
  cbv zeta in Hs. set (c := after _ d) in *.
  exists (dispatched c k).
  assert (Hpr : forall j, proc (dispatched c k) j = if decide (c = j) then dispatch (proc k j) else proc k j).
  { intros j. apply proc_dispatched. rewrite (wf_len k Hk). apply after_lt. }
  split_and!; try done.
  - apply Hs. by apply Hq, runnable_pid.
  - apply wf_dispatched; [done|apply after_lt].
  - intros i. unfold quiet. rewrite Hpr. case_decide; [subst i|]; apply Hq.
  - intros j. rewrite Hpr. case_decide as Hcj; [subst j; by right|by left].
Qed.

(** [n] calls of the scheduler, as the main loop makes them. *)
Fixpoint schedules (fuel n : nat) k : option (kernel H) :=
  match n with
  | O => Some k
  | S n' => k ← schedule call_handler fuel k; schedules fuel n' k
  end.

Lemma fair_within f D : forall k j,
  kernel_wf k -> (forall i, runnable (proc k i) = true -> quiet k i) ->
  (1 <= D < MAX_PROCESSES)%nat -> after (current_process_index k) D = j ->
  runnable (proc k j) = true ->
  exists n k', (1 <= n <= D)%nat /\ schedules (S (S f)) n k = Some k' /\
    current_process_index k' = j /\ p_state (proc k' j) = PROCESS_STATE_RUNNING /\
    p_cpu_time (proc k' j) = u64 (p_cpu_time (proc k j) + 1).
Proof.
  induction D as [D IH] using lt_wf_ind. intros k j Hk Hq HD Hj Hr.
  destruct (schedule_body_cases (fun p k => Some (0, k)) k) as [(d & Hd & _)|[Hn _]].
  2:{ exfalso. rewrite <- Hj, Hn in Hr by done. done. }
  pose proof Hd as (Hd1 & Hrun & Hno).
  assert (d <= D)%nat.
  { destruct (decide (d <= D)%nat); [done|]. rewrite <- Hj, Hno in Hr by lia. done. }
  pose proof (schedule_dispatch f k d Hk Hd) as Hs. cbv zeta in Hs.
  set (c := after (current_process_index k) d) in *.
  specialize (Hs (Hq c Hrun)).
  assert (Hc : (c < length (processes k))%nat) by (rewrite (wf_len k Hk); apply after_lt).
  assert (Hpr : forall i, proc (dispatched c k) i = if decide (c = i) then dispatch (proc k i) else proc k i).
  { intros i. by apply proc_dispatched. }
  destruct (decide (d = D)) as [->|Hne].
  { exists 1%nat, (dispatched c k). cbn [schedules]. rewrite Hs. simpl. rewrite Hpr.
    rewrite decide_True by exact Hj. split_and!; [lia|lia|done|exact Hj|done|done]. }
  destruct (IH (D - d)%nat ltac:(lia) (dispatched c k) j) as (n & k' & Hn' & Hs' & Hc' & Hst & Hcpu).
  - apply wf_dispatched; [done|apply after_lt].
  - intros i. unfold quiet. rewrite Hpr. case_decide as Hci; [subst i|by apply Hq].
    intros _. exact (Hq c Hrun).
  - lia.
  - simpl. unfold c. rewrite <- Hj. unfold after. rewrite Nat.Div0.add_mod_idemp_l. f_equal. lia.
  - rewrite Hpr. case_decide; [by apply runnable_dispatch|done].
  - exists (S n), k'. split; [lia|]. cbn [schedules]. rewrite Hs. cbn [mbind option_bind].
    split_and!; [done..|]. rewrite Hcpu, Hpr. rewrite decide_False; [done|].
    intros Heq. rewrite <- Heq in Hj. unfold c, after in Hj. apply Hne.
    pose proof (wf_cur k Hk). unfold MAX_PROCESSES in *.
    apply (f_equal Z.of_nat) in Hj. rewrite !Nat2Z.inj_mod in Hj.
    Z.div_mod_to_equations. lia.
Qed.
End Round_robin.
