(* ===== verification/Lifecycle.v ===== *)
(** * The life of a process: creation and exit

    What [create_process] and [exit_process] do to the process table and the
    heap, and a concrete kernel (the state at boot with the heap of memory.c)
    on which the theorems about processes are evaluated. *)
From S2P Require Import Prelude CString Terminal Allocator RawMemory Heap.
From S2P Require Import Kernel Process Invariant Scheduler.

(** ** The kernel at boot *)

Definition boot_kernel : kernel heap :=
  Kernel heap0 (Terminal 0 0 7 ∅) (replicate MAX_PROCESSES process0) 0 1 0 0 100 0
    (replicate MAX_PIPES pipe0) 1.

Lemma default_replicate {A} n (x : A) i : default x (replicate n x !! i) = x.
Proof.
  destruct (replicate n x !! i) as [y|] eqn:E; [|done]. simpl.
  by apply lookup_replicate in E as [-> _].
Qed.

Lemma pipe0_ok : pipe_ok pipe0.
Proof.
  split; [apply length_replicate|..]; unfold PIPE_BUFFER_SIZE; cbn -[Z.pow]; [lia|lia|done|by left|by left|].
  unfold in_u; lia.
Qed.

(** The tables as the C start-up and the init functions leave them. *)
Lemma cleared_wf `{!Allocator H} (k : kernel H) :
  processes k = replicate MAX_PROCESSES process0 -> current_process_index k = 0%nat -> next_pid k = 1 ->
  alloc_wf (k_heap k) -> terminal_inv (k_term k) -> pipes k = replicate MAX_PIPES pipe0 ->
  next_pipe_id k = 1 -> kernel_wf k.
Proof.
  intros Hps Hc Hn Hh Ht Hpi Hni.
  assert (Hp : forall i, proc k i = process0) by (intros; unfold proc; rewrite Hps; apply default_replicate).
  assert (Hq : forall i, pipe_in (pipes k) i = pipe0) by (intros; rewrite Hpi; apply default_replicate).
  split; try (intros i; rewrite Hp).
  - rewrite Hps. apply length_replicate.
  - rewrite Hc. unfold MAX_PROCESSES. lia.
  - lia.
  - exact Hh.
  - exact Ht.
  - unfold slot_pid. rewrite Hn. split_if; [lia|done].
  - apply process0_ok.
  - done.
  - intros j. rewrite Hp. done.
  - rewrite Hni. split; [rewrite Hpi; apply length_replicate|lia|intros i; rewrite Hq..].
    + apply pipe0_ok.
    + simpl; lia.
    + intros j. done.
    + done.
Qed.

Lemma boot_wf : kernel_wf boot_kernel.
Proof.
  apply cleared_wf; try reflexivity.
  - exists blocks0. apply heap0_wf.
  - unfold terminal_inv, VGA_HEIGHT, VGA_WIDTH; simpl; lia.
Qed.

Section Create.
Context `{!Allocator H}.
Implicit Types (k : kernel H).

(** The entry [create_process] takes. *)
Lemma get_process_free k :
  kernel_wf k ->
  get_process 0 k = if next_pid k <=? 64 then Some (Z.to_nat (next_pid k - 1)) else None.
Proof.
  intros Hk. pose proof (wf_next k Hk). pose proof (wf_pid k Hk) as Hp. split_if.
  - apply find_idx_Some. split.
    + assert (Hl : (Z.to_nat (next_pid k - 1) < length (processes k))%nat).
      { rewrite (wf_len k Hk). unfold MAX_PROCESSES. lia. }
      apply lookup_lt_is_Some in Hl as [p Hl]. exists p. split; [done|]. apply Z.eqb_eq.
      specialize (Hp (Z.to_nat (next_pid k - 1))). unfold proc in Hp. rewrite Hl in Hp. simpl in Hp.
      rewrite Hp. unfold slot_pid. split_if; lia.
    + intros j p Hj Hl. apply Z.eqb_neq. specialize (Hp j). unfold proc in Hp. rewrite Hl in Hp.
      simpl in Hp. rewrite Hp. unfold slot_pid. split_if; lia.
  - apply find_idx_None. intros j p Hl. apply Z.eqb_neq. pose proof (lookup_lt_Some _ _ _ Hl) as Hj.
    rewrite (wf_len k Hk) in Hj. unfold MAX_PROCESSES in Hj.
    specialize (Hp j). unfold proc in Hp. rewrite Hl in Hp. simpl in Hp.
    rewrite Hp. unfold slot_pid. split_if; lia.
Qed.

(** What a fresh entry holds, with the stack at [stk] (null when the heap is
    full). *)
Definition fresh_process (name : list Z) (entry parent pid stk now : Z) (old : process) : process :=
  Process pid parent (copy_name name (p_name old)) PROCESS_STATE_READY
    (set_rsp (u64 (stk + 4096)) (set_rip entry registers0))
    (p_page_directory old) stk 4096 (p_sleep_until old) now 0
    0 0 (replicate 32 signal_action0) (p_signal_stack old) 0 0
    ([0; 1; 2] ++ replicate 13 0) 0 pid pid.

Lemma wf_create k name entry parent stk h i :
  kernel_wf k -> in_u 64 parent -> next_pid k <= 64 -> i = Z.to_nat (next_pid k - 1) ->
  alloc_wf h -> (forall q, alloc_live (k_heap k) q -> alloc_live h q) ->
  (stk <> 0 -> alloc_live h stk /\ ~ alloc_live (k_heap k) stk) ->
  kernel_wf (upd_proc i (fresh_process name entry parent (next_pid k) stk (timer_ticks k))
    (set_k_heap h (set_next_pid (next_pid k + 1) k))).
Proof.
  intros Hk Hpar Hn -> Hw Hmono Hstk. pose proof (wf_next k Hk) as Hn1.
  set (i := Z.to_nat (next_pid k - 1)). set (k0 := set_k_heap h _). set (f := fresh_process _ _ _ _ _ _).
  assert (Hi : (i < length (processes k0))%nat).
  { change (processes k0) with (processes k). rewrite (wf_len k Hk). unfold MAX_PROCESSES, i. lia. }
  assert (Hp : forall j, proc (upd_proc i f k0) j = if decide (i = j) then f (proc k j) else proc k j).
  { intros j. change (proc k j) with (proc k0 j). rewrite proc_upd.
    destruct (decide (i = j)) as [<-|Hne]; [by rewrite decide_True|].
    by rewrite decide_False by (intros []; done). }
  split; try (intros j; rewrite Hp).
  - rewrite length_upd_proc. by apply Hk.
  - by apply Hk.
  - simpl. lia.
  - done.
  - by apply Hk.
  - cbn [next_pid upd_proc set_processes k0 set_k_heap set_next_pid].
    case_decide as Hd.
    + subst j. simpl. unfold slot_pid, i. split_if; lia.
    + rewrite (wf_pid k Hk). unfold slot_pid, i in *. repeat split_if; lia.
  - case_decide as Hd; [|by apply Hk]. destruct (wf_proc k Hk j).
    split; simpl; try done.
  - change (k_heap (upd_proc i f k0)) with h.
    case_decide as Hd; [by intros Hs; apply Hstk|]. intros Hs. apply Hmono. by apply (wf_stack k Hk).
  - intros j'. rewrite Hp. repeat case_decide; subst; try done.
    + simpl. intros Hs Heq. exfalso. apply (proj2 (Hstk Hs)). rewrite Heq in *.
      apply (wf_stack k Hk). done.
    + simpl. intros Hs Heq. exfalso. rewrite Heq in Hs. apply (proj2 (Hstk Hs)). rewrite <- Heq in *.
      by apply (wf_stack k Hk).
    + apply (wf_stack_inj k Hk).
  - by apply Hk.
Qed.
End Create.

Section Lifecycle.
Context `{!Allocator H}.
Implicit Types (k : kernel H) (i j : nat).

Lemma create_process_state k name entry parent :
  kernel_wf k -> in_u 64 parent -> next_pid k <= 64 ->
  let i := Z.to_nat (next_pid k - 1) in
  exists stk h t,
    create_process name entry parent k = Some (next_pid k,
      set_k_term t (upd_proc i (fresh_process name entry parent (next_pid k) stk (timer_ticks k))
        (set_k_heap h (set_next_pid (next_pid k + 1) k)))) /\
    terminal_inv t /\ alloc_wf h /\
    ((stk = 0 /\ h = k_heap k) \/
     (stk <> 0 /\ ~ alloc_live (k_heap k) stk /\
      forall q, alloc_live h q <-> alloc_live (k_heap k) q \/ q = stk)).
Proof.
  intros Hk Hpar Hn i. pose proof (wf_next k Hk).
  unfold create_process. rewrite get_process_free by done.
  rewrite (proj2 (Z.leb_le _ _)) by done. fold i.
  replace (u64 (next_pid k + 1)) with (next_pid k + 1) by (rewrite wrap_small; unfold in_u; lia).
  destruct (alloc_spec 4096 (k_heap k)) as (stk & h & Ha & Hw & Hcase); [apply Hk|unfold in_u; lia|].
  change (k_heap (set_next_pid (next_pid k + 1) k)) with (k_heap k). rewrite Ha.
  cbn [mbind option_bind].
  rewrite kprint_int_fits by (apply fits10_small; lia). cbn [mbind option_bind].
  exists stk, h. eexists. split; [reflexivity|]. split.
  { repeat (apply terminal_inv_write). apply Hk. }
  split; [done|]. destruct Hcase as [?|(? & ? & ? & ?)]; [by left|by right].
Qed.

Lemma wf_create_process k name entry parent :
  kernel_wf k -> in_u 64 parent ->
  exists pid k', create_process name entry parent k = Some (pid, k') /\ kernel_wf k'.
Proof.
  intros Hk Hpar. destruct (decide (next_pid k <= 64)) as [Hn|Hn].
  - destruct (create_process_state k name entry parent Hk Hpar Hn) as (stk & h & t & -> & Ht & Hw & Hc).
    eexists _, _; split; [done|]. apply wf_set_term; [|done].
    apply wf_create; try done.
    + destruct Hc as [[_ ->]|(_ & _ & Hl)]; [done|]. intros q Hq. apply Hl. by left.
    + intros Hs. destruct Hc as [[? _]|(_ & Hnl & Hl)]; [done|]. split; [|done]. apply Hl. by right.
  - unfold create_process. rewrite get_process_free by done.
    rewrite (proj2 (Z.leb_gt _ _)) by lia.
    eexists _, _; split; [done|]. by apply wf_kprint.
Qed.

(** The parent's entry with [SIGCHLD] pending, unless it blocks it. *)
Definition add_sigchld (p : process) : process :=
  if Z.land (p_blocked_signals p) (sigbit SIGCHLD) =? 0
  then set_p_pending_signals (Z.lor (p_pending_signals p) (sigbit SIGCHLD)) p else p.

Definition is_parent k i j : Prop :=
  p_parent_pid (proc k i) <> 0 /\ get_process (p_parent_pid (proc k i)) k = Some j.

#[export] Instance is_parent_dec k i j : Decision (is_parent k i j).
Proof. unfold is_parent. apply _. Defined.

Lemma proc_notify_parent i k j :
  proc (notify_parent i k) j = if decide (is_parent k i j) then add_sigchld (proc k j) else proc k j.
Proof.
  unfold notify_parent. destruct (Z.eqb_spec (p_parent_pid (proc k i)) 0) as [Hz|Hz]; simpl.
  { rewrite decide_False; [done|]. intros [? _]. done. }
  destruct (get_process _ k) as [q|] eqn:Hg.
  2:{ rewrite decide_False; [done|]. unfold is_parent. rewrite Hg. naive_solver. }
  pose proof (get_process_Some _ _ _ Hg) as [Hl _].
  unfold signal_add_pending. cbn [Z.leb orb]. change (SIGCHLD =? SIGKILL) with false.
  change (SIGCHLD =? SIGSTOP) with false. change ((SIGCHLD <=? 0) || (MAX_SIGNALS <=? SIGCHLD)) with false.
  cbn [orb]. unfold add_sigchld.
  destruct (decide (is_parent k i j)) as [[_ Hj]|Hj].
  - rewrite Hg in Hj. injection Hj as ->. case_match; [|done]. cbn [snd]. by rewrite proc_upd_eq.
  - assert (q <> j) by (intros ->; by apply Hj). case_match; [|done]. cbn [snd]. by rewrite proc_upd_ne.
Qed.

(** Entry [j] when process [i], of pid [pid], has exited. *)
Definition exited_entry k i pid j : process :=
  let p := if decide (is_parent k i j) then add_sigchld (proc k j) else proc k j in
  if decide (i = j) then set_p_state PROCESS_STATE_ZOMBIE (reparent pid (set_p_stack 0 p))
  else reparent pid p.

Lemma proc_exit_state i pid code h k j :
  (i < length (processes k))%nat -> proc (exit_state i pid code h k) j = exited_entry k i pid j.
Proof.
  intros Hi. unfold exit_state, exited_entry. rewrite <- proc_notify_parent.
  destruct (notify_parent_frame i k i) as (_ & _ & _ & _ & Hlen & _).
  set (k1 := notify_parent i k) in *. set (k2 := reparent_children pid _).
  assert (Hp2 : forall j, proc k2 j = reparent pid (proc (upd_proc i (set_p_stack 0) k1) j))
    by (intros; unfold k2; by rewrite proc_reparent).
  assert (Hl2 : length (processes k2) = length (processes k)).
  { rewrite <- Hlen, <- (length_upd_proc i (set_p_stack 0) k1). apply length_fmap. }
  rewrite proc_upd. change (proc (print_exit ?a ?b k2) ?j) with (proc k2 j).
  change (length (processes (print_exit _ _ k2))) with (length (processes k2)). rewrite Hl2, Hp2, proc_upd, Hlen.
  destruct (decide (i = j)) as [<-|Hne]; [by rewrite decide_True, decide_True|].
  by rewrite !decide_False by (intros []; done).
Qed.
End Lifecycle.

(** ** Properties *)

(** C17. [create_process] fills the first free entry with a ready process of a
    fresh pid, a stack of its own (a null one when the heap has no memory for it)
    and default signal dispositions, and touches no other entry; with the table full it returns 0 and changes no process. *)
Theorem create_process_spec `{!Allocator H} (k : kernel H) name entry parent :
  kernel_wf k -> in_u 64 parent ->
  exists pid k', create_process name entry parent k = Some (pid, k') /\ kernel_wf k' /\
  if next_pid k <=? 64 then
    pid = next_pid k /\ next_pid k' = next_pid k + 1 /\ exists stk,
      (forall j, proc k' j =
         if decide (Z.of_nat j = pid - 1)
         then fresh_process name entry parent pid stk (timer_ticks k) (proc k j) else proc k j) /\
      ((stk = 0 /\ k_heap k' = k_heap k) \/
       (stk <> 0 /\ ~ alloc_live (k_heap k) stk /\
        forall q, alloc_live (k_heap k') q <-> alloc_live (k_heap k) q \/ q = stk))
  else pid = 0 /\ processes k' = processes k /\ k_heap k' = k_heap k.
Proof.
  intros Hk Hpar. destruct (wf_create_process k name entry parent Hk Hpar) as (pid & k' & Hc & Hk').
  exists pid, k'. split_and!; [done..|]. pose proof (wf_next k Hk). split_if.
  - destruct (create_process_state k name entry parent Hk Hpar) as (stk & h & t & Hc' & _ & _ & Hl); [done|].
    rewrite Hc' in Hc. injection Hc as <- <-. split_and!; [done..|]. exists stk. split; [|exact Hl].
    intros j. change (proc (set_k_term t ?x) j) with (proc x j). rewrite proc_upd.
    cbn [processes set_k_heap set_next_pid]. rewrite (wf_len k Hk).
    change (proc (set_k_heap h ?x) j) with (proc k j). unfold MAX_PROCESSES.
    repeat case_decide; try done; lia.
  - unfold create_process in Hc. rewrite get_process_free in Hc by done.
    rewrite (proj2 (Z.leb_gt _ _)) in Hc by lia. injection Hc as <- <-. done.
Qed.

Lemma create_process_spec_witness :
  kernel_wf boot_kernel /\
  exists pid k', create_process (bytes_of "shell") 0x1000 0 boot_kernel = Some (pid, k') /\
    kernel_wf k' /\ pid = 1.
Proof.
  split; [exact boot_wf|].
  destruct (create_process_spec boot_kernel (bytes_of "shell") 0x1000 0 boot_wf ltac:(done))
    as (pid & k' & Hc & Hk' & Hp & _).
  exists pid, k'. exact (conj Hc (conj Hk' Hp)).
Defined.

(** C4. Exiting a process notifies its parent with [SIGCHLD] (unless blocked),
    frees exactly its stack, hands its children to process 1, makes it a
    zombie and calls the scheduler on a well-formed state with that many fewer
    runnable processes.  The exit code must have at most nine characters: the
    message about it is built in [pid_str[10]], which a longer one overflows. *)
Theorem exit_process_spec `{!Allocator H} call_handler (k : kernel H) pid code i :
  kernel_wf k -> get_process pid k = Some i -> fits10 code ->
  exists k1, kernel_wf k1 /\
    (forall f, exit_process call_handler (S (S f)) pid code k = schedule call_handler (S f) k1) /\
    (forall j, proc k1 j = exited_entry k i pid j) /\
    (forall q, alloc_live (k_heap k1) q <-> alloc_live (k_heap k) q /\ q <> p_stack (proc k i)) /\
    (runnables k1 + Nat.b2n (runnable (proc k i)) = runnables k)%nat /\
    current_process_index k1 = current_process_index k.
Proof.
  intros Hk Hg Hc. pose proof (get_process_Some _ _ _ Hg) as [Hi _].
  destruct (exit_process_unfold call_handler pid code i k Hk Hg Hc) as (h & Hw & Hl & He).
  exists (exit_state i pid code h k). split_and!.
  - by apply wf_exit_state.
  - exact He.
  - intros j. by apply proc_exit_state.
  - exact Hl.
  - by apply exit_state_runnables.
  - by destruct (notify_parent_frame i k i) as (_ & _ & _ & _ & _ & _ & <-).
Qed.

(** Exit codes of ten digits overflow the buffer of the message, whatever the
    state of the kernel. *)
Lemma exit_code_overflows `{!Allocator H} call_handler fuel (k : kernel H) pid code i :
  get_process pid k = Some i -> 10 ^ 9 <= code < 2 ^ 31 -> exit_process call_handler fuel pid code k = None.
Proof.
  intros Hg Hc. destruct fuel as [|f]; [done|]. rewrite exit_process_S. unfold exit_process_body. rewrite Hg.
  assert (Hp : forall k' : kernel H, kprint_int 10 code k' = None).
  { intros k'. unfold kprint_int. by rewrite writeint_overflow by lia. }
  match goal with |- ?m = None => destruct m as [k'|] eqn:E; [exfalso|done] end.
  apply bind_Some in E as (k1 & _ & E). apply bind_Some in E as (k2 & _ & E).
  apply bind_Some in E as (k3 & _ & E). apply bind_Some in E as (k4 & _ & E). cbv zeta in E.
  apply bind_Some in E as (k5 & _ & E). by rewrite Hp in E.
Qed.

(** The shell and a child of it, on the kernel at boot. *)
Definition kernel2 : kernel heap :=
  default boot_kernel (k ← snd <$> create_process (bytes_of "shell") 0x1000 0 boot_kernel;
                       snd <$> create_process (bytes_of "job") 0x2000 1 k).

Lemma kernel2_wf : kernel_wf kernel2.
Proof.
  unfold kernel2.
  destruct (wf_create_process boot_kernel (bytes_of "shell") 0x1000 0 boot_wf ltac:(done))
    as (p1 & k1 & -> & Hk1). cbn [fmap option_fmap option_map mbind option_bind snd].
  destruct (wf_create_process k1 (bytes_of "job") 0x2000 1 Hk1 ltac:(done)) as (p2 & k2 & -> & Hk2).
  exact Hk2.
Qed.

Lemma exit_process_spec_witness :
  kernel_wf kernel2 /\ get_process 2 kernel2 = Some 1%nat /\
  exists k1 : kernel heap, kernel_wf k1 /\
    p_state (proc k1 1) = PROCESS_STATE_ZOMBIE /\
    p_pending_signals (proc k1 0) = 2 ^ 17.
Proof.
  assert (Hg : get_process 2 kernel2 = Some 1%nat) by (vm_compute; reflexivity).
  split; [exact kernel2_wf|]. split; [exact Hg|].
  destruct (exit_process_spec (fun _ _ k => Some k) kernel2 2 7 1 kernel2_wf Hg
    ltac:(apply fits10_small; lia)) as (k1 & Hk1 & _ & Hp & _).
  exists k1. split; [exact Hk1|]. rewrite !Hp. split; vm_compute; reflexivity.
Defined.
