(* ===== verification/Signals.v ===== *)
(** * Signal dispositions and masks: the rest of signals.c *)
From S2P Require Import Prelude CString Terminal Allocator Heap.
From S2P Require Import Kernel Process Invariant Scheduler Lifecycle.

Section Signals.
Context `{!Allocator H}.
Implicit Types (k : kernel H).

Definition signal_init k : Z * kernel H :=
  (0, kprint ("Sinyal sistemi baslatildi." +:+ nl) (set_signal_handling_enabled 1 k)).

Definition action_at (p : process) (signum : Z) : signal_action :=
  default signal_action0 (p_signal_actions p !! Z.to_nat signum).

(** [signal_actions[signum] = a] *)
Definition set_action_at (signum : Z) (a : signal_action) (p : process) : process :=
  set_p_signal_actions (<[Z.to_nat signum := a]> (p_signal_actions p)) p.

(** The guards shared by the two functions that set a disposition. *)
Definition bad_signum (signum : Z) : bool := (signum <=? 0) || (MAX_SIGNALS <=? signum).

(** The previous handler is returned converted to [int]. *)
Definition signal_set_handler (signum handler : Z) k : Z * kernel H :=
  if bad_signum signum then (-1, k) else
  match get_current_process k with
  | None => (-1, k)
  | Some c =>
    if (signum =? SIGKILL) || (signum =? SIGSTOP) then (-1, k) else
    let old := action_at (proc k c) signum in
    (s32 (a_handler old),
     upd_proc c (set_action_at signum (SignalAction handler (a_flags old) (a_mask old))) k)
  end.

(** [act] is [None] for a null pointer; the second component is what is
    written to [*oldact] when it is not null. *)
Definition signal_set_action (signum : Z) (act : option signal_action) (oldact : bool) k
  : Z * option signal_action * kernel H :=
  if bad_signum signum then (-1, None, k) else
  match get_current_process k with
  | None => (-1, None, k)
  | Some c =>
    if (signum =? SIGKILL) || (signum =? SIGSTOP) then (-1, None, k) else
    let old := if oldact then Some (action_at (proc k c) signum) else None in
    match act with
    | None => (0, old, k)
    | Some a => (0, old, upd_proc c (set_action_at signum a) k)
    end
  end.

(** The old mask is returned converted to [int]. *)
Definition signal_block (mask : Z) k : Z * kernel H :=
  match get_current_process k with
  | None => (-1, k)
  | Some c =>
    let mask := Z.land mask blockable in
    let old_mask := p_blocked_signals (proc k c) in
    (s32 old_mask, upd_proc c (set_p_blocked_signals (Z.lor old_mask mask)) k)
  end.

Definition signal_unblock (mask : Z) k : Z * kernel H :=
  match get_current_process k with
  | None => (-1, k)
  | Some c =>
    let old_mask := p_blocked_signals (proc k c) in
    (s32 old_mask, upd_proc c (set_p_blocked_signals (Z.land old_mask (lnot64 mask))) k)
  end.

Definition signal_set_mask (mask : Z) (oldmask : bool) k : Z * option Z * kernel H :=
  match get_current_process k with
  | None => (-1, None, k)
  | Some c =>
    let mask := Z.land mask blockable in
    let old := if oldmask then Some (p_blocked_signals (proc k c)) else None in
    (0, old, upd_proc c (set_p_blocked_signals mask) k)
  end.

Definition signal_proc_mask (how : Z) (set : option Z) (oldset : bool) k
  : Z * option Z * kernel H :=
  match get_current_process k with
  | None => (-1, None, k)
  | Some c =>
    let current := p_blocked_signals (proc k c) in
    let old := if oldset then Some current else None in
    match set with
    | None => (0, old, k)
    | Some mask =>
      let mask := Z.land mask blockable in
      if how =? 0 then (0, old, upd_proc c (set_p_blocked_signals (Z.lor current mask)) k)
      else if how =? 1 then
        (0, old, upd_proc c (set_p_blocked_signals (Z.land current (lnot64 mask))) k)
      else if how =? 2 then (0, old, upd_proc c (set_p_blocked_signals mask) k)
      else (-1, old, k)
    end
  end.
End Signals.

(** ** Masks *)

Section Masks.
Context `{!Allocator H}.
Implicit Types (k : kernel H).

Lemma testbit_blockable s : 0 <= s < 64 ->
  Z.testbit blockable s = negb ((s =? SIGKILL) || (s =? SIGSTOP)).
Proof.
  intros. unfold blockable. rewrite testbit_lnot64 by lia. rewrite (proj2 (Z.ltb_lt _ _)) by lia.
  rewrite Z.lor_spec. unfold sigbit. by rewrite !testbit_pow2.
Qed.

(** The masks a process may have. *)
Definition mask_ok (m : Z) : Prop :=
  in_u 64 m /\ Z.testbit m SIGKILL = false /\ Z.testbit m SIGSTOP = false.

Lemma mask_ok_blockable m : in_u 64 m -> mask_ok (Z.land m blockable).
Proof.
  intros Hm. split_and!; [apply in_u_land; [lia|done|apply wrap_range; lia]|..];
    rewrite Z.land_spec, testbit_blockable by (vm_compute; done); apply andb_false_r.
Qed.

Lemma mask_ok_lor m m' : mask_ok m -> mask_ok m' -> mask_ok (Z.lor m m').
Proof.
  intros (? & Hk & Hs) (? & Hk' & Hs'). split_and!; [by apply in_u_lor|..].
  - by rewrite Z.lor_spec, Hk, Hk'.
  - by rewrite Z.lor_spec, Hs, Hs'.
Qed.

Lemma mask_ok_clear m x : mask_ok m -> mask_ok (Z.land m (lnot64 x)).
Proof.
  intros (? & Hk & Hs). split_and!; [apply in_u_land; [lia|done|apply in_u_lnot64]|..].
  - by rewrite Z.land_spec, Hk.
  - by rewrite Z.land_spec, Hs.
Qed.

Lemma mask_ok_process k i : kernel_wf k -> mask_ok (p_blocked_signals (proc k i)).
Proof. intros Hk. by destruct (wf_proc k Hk i). Qed.

Lemma wf_set_blocked c m k : kernel_wf k -> mask_ok m -> kernel_wf (upd_proc c (set_p_blocked_signals m) k).
Proof. intros Hk (? & ? & ?). apply wf_upd_proc; [done..|]. intros []; by split. Qed.

Lemma wf_set_action_at c s a k : kernel_wf k -> kernel_wf (upd_proc c (set_action_at s a) k).
Proof.
  intros Hk. apply wf_upd_proc; [done..|]. intros []; split; simpl; try done. by rewrite length_insert.
Qed.

Lemma wf_signal_set_handler s h k : kernel_wf k -> kernel_wf (signal_set_handler s h k).2.
Proof.
  intros Hk. unfold signal_set_handler. split_if; [done|]. case_match; [|done].
  split_if; [done|]. by apply wf_set_action_at.
Qed.

Lemma wf_signal_set_action s a o k : kernel_wf k -> kernel_wf (signal_set_action s a o k).2.
Proof.
  intros Hk. unfold signal_set_action. split_if; [done|]. case_match; [|done].
  split_if; [done|]. destruct a; [by apply wf_set_action_at|done].
Qed.

Lemma wf_signal_block m k : kernel_wf k -> in_u 64 m -> kernel_wf (signal_block m k).2.
Proof.
  intros Hk Hm. unfold signal_block. case_match; [|done].
  apply wf_set_blocked; [done|]. apply mask_ok_lor; [by apply mask_ok_process|by apply mask_ok_blockable].
Qed.

Lemma wf_signal_unblock m k : kernel_wf k -> kernel_wf (signal_unblock m k).2.
Proof.
  intros Hk. unfold signal_unblock. case_match; [|done].
  apply wf_set_blocked; [done|]. by apply mask_ok_clear, mask_ok_process.
Qed.

Lemma wf_signal_set_mask m o k : kernel_wf k -> in_u 64 m -> kernel_wf (signal_set_mask m o k).2.
Proof.
  intros Hk Hm. unfold signal_set_mask. case_match; [|done].
  apply wf_set_blocked; [done|]. by apply mask_ok_blockable.
Qed.

Lemma wf_signal_proc_mask how set o k :
  kernel_wf k -> (forall m, set = Some m -> in_u 64 m) -> kernel_wf (signal_proc_mask how set o k).2.
Proof.
  intros Hk Hm. unfold signal_proc_mask. case_match; [|done]. destruct set as [m|]; [|done].
  specialize (Hm m eq_refl).
  destruct (how =? 0); [|destruct (how =? 1); [|destruct (how =? 2); [|done]]];
    (apply wf_set_blocked; [done|]).
  - apply mask_ok_lor; [by apply mask_ok_process|by apply mask_ok_blockable].
  - by apply mask_ok_clear, mask_ok_process.
  - by apply mask_ok_blockable.
Qed.
End Masks.

(** ** Delivery *)

Lemma is_deliverable_bits p s :
  0 <= s -> is_deliverable p s = Z.testbit (p_pending_signals p) s && negb (Z.testbit (p_blocked_signals p) s).
Proof.
  intros Hs. unfold is_deliverable, sigbit. rewrite <- !land_pow2_testbit by done.
  by rewrite negb_involutive.
Qed.

(** A signal whose delivery has no effect. *)
Definition ignored (p : process) (s : Z) : bool :=
  (handler_of p s =? SIG_IGN) || ((handler_of p s =? SIG_DFL) && (default_signal_action s =? 0)).

Section Delivery.
Context `{!Allocator H}.
Variable call_handler : Z -> Z -> kernel H -> option (kernel H).
Variable exit_p : Z -> Z -> kernel H -> option (kernel H).
Variable stop_p : Z -> kernel H -> option (kernel H).
Implicit Types (k : kernel H).
Abbreviation pending_loop := (pending_loop call_handler exit_p stop_p).

(** [m] is the pending mask of [p] without the deliverable signals in [s, e). *)
Definition discards (p : process) (s e m : Z) : Prop :=
  forall b, 0 <= b -> Z.testbit m b =
    Z.testbit (p_pending_signals p) b && negb ((s <=? b) && (b <? e) && is_deliverable p b).

Lemma pending_loop_discard d n s i k :
  kernel_wf k -> (i < MAX_PROCESSES)%nat -> 1 <= s -> s + Z.of_nat d <= MAX_SIGNALS ->
  (forall t, s <= t < s + Z.of_nat d -> is_deliverable (proc k i) t = true -> ignored (proc k i) t = true) ->
  exists m, discards (proc k i) s (s + Z.of_nat d) m /\
    pending_loop (d + n) s i k
    = pending_loop n (s + Z.of_nat d) i (upd_proc i (set_p_pending_signals m) k).
Proof.
  intros Hk Hi. revert s k Hk; induction d as [|d IH]; intros s k Hk Hs Hmax Hign.
  { exists (p_pending_signals (proc k i)). split.
    - intros b Hb. destruct ((s <=? b) && (b <? s + Z.of_nat 0)) eqn:E; [zify_bool; lia|].
      by rewrite andb_true_r.
    - rewrite Z.add_0_r. f_equal. unfold upd_proc. rewrite alter_same; [by destruct k|].
      intros p Hp. unfold proc. rewrite Hp. by destruct p. }
  unfold MAX_SIGNALS in *. rewrite Nat.add_succ_l. cbn [Process.pending_loop].
  replace (s + Z.of_nat (S d)) with (s + 1 + Z.of_nat d) in * by lia.
  assert (Hlen : (i < length (processes k))%nat) by by rewrite (wf_len k Hk).
  destruct (is_deliverable (proc k i) s) eqn:Hd; cycle 1.
  { destruct (IH (s + 1) k Hk) as (m & Hm & Heq); [lia|lia|intros; apply Hign; [lia|done]|].
    exists m. split; [|exact Heq]. intros b Hb. rewrite (Hm b Hb).
    destruct (decide (b = s)) as [->|Hne]; [by rewrite Hd, !andb_false_r|].
    replace (s <=? b) with (s + 1 <=? b); [done|].
    destruct (Z.leb_spec (s + 1) b), (Z.leb_spec s b); lia. }
  set (k1 := upd_proc i (clear_pending s) k).
  assert (Hk1 : kernel_wf k1) by by apply wf_clear_pending.
  assert (Hp1 : proc k1 i = clear_pending s (proc k i)) by (unfold k1; by rewrite proc_upd_eq).
  assert (Hbit : forall b, 0 <= b ->
    Z.testbit (p_pending_signals (proc k1 i)) b = Z.testbit (p_pending_signals (proc k i)) b && negb (b =? s)).
  { intros b Hb. rewrite Hp1. apply testbit_clear; [by destruct (wf_proc k Hk i)|lia|done]. }
  assert (Hdel : forall b, 0 <= b -> is_deliverable (proc k1 i) b = is_deliverable (proc k i) b && negb (b =? s)).
  { intros b Hb. rewrite !is_deliverable_bits, Hbit by done. rewrite Hp1. simpl.
    destruct (Z.testbit (p_pending_signals (proc k i)) b), (b =? s); simpl; rewrite ?andb_false_r, ?andb_true_r; done. }
  assert (Hhandler : forall t, handler_of (proc k1 i) t = handler_of (proc k i) t) by (intros; by rewrite Hp1).
  destruct (IH (s + 1) k1 Hk1) as (m & Hm & Heq); [lia|lia| |].
  { intros t Ht. rewrite Hdel by lia. intros [Hdt _]%andb_true_iff. unfold ignored. rewrite Hhandler.
    apply Hign; [lia|done]. }
  exists m. split.
  - intros b Hb. rewrite (Hm b Hb), (Hbit b Hb), (Hdel b Hb).
    destruct (Z.eqb_spec b s) as [->|Hne]; simpl.
    + rewrite Hd, Z.leb_refl. simpl. rewrite andb_false_r. symmetry. apply andb_false_iff. right.
      apply negb_false_iff. rewrite andb_true_r. apply Z.ltb_lt. lia.
    + rewrite !andb_true_r. replace (s <=? b) with (s + 1 <=? b); [done|].
      destruct (Z.leb_spec (s + 1) b), (Z.leb_spec s b); lia.
  - specialize (Hign s ltac:(lia) Hd). unfold ignored in Hign. rewrite <- Hhandler in Hign.
    transitivity (pending_loop (d + n) (s + 1) i k1).
    + destruct (Z.eqb_spec (handler_of (proc k1 i) s) SIG_DFL) as [E|E].
      * rewrite E in Hign. simpl in Hign. rewrite Hign. apply Z.eqb_eq in Hign. by rewrite Hign.
      * rewrite andb_false_l, orb_false_r in Hign. by rewrite Hign.
    + rewrite Heq. unfold k1. by rewrite upd_proc_twice.
Qed.
End Delivery.

Lemma discards_in_u p s e m : in_u 64 (p_pending_signals p) -> discards p s e m -> in_u 64 m.
Proof.
  intros Hp Hm. assert (Hhigh : forall b, 64 <= b -> Z.testbit m b = false).
  { intros b Hb. rewrite (Hm b) by lia. by rewrite (testbit_high 64) by (done || lia). }
  apply in_u_bits; [lia| |done]. apply Z.bits_iff_nonneg_ex. exists 64. intros b Hb. apply Hhigh. lia.
Qed.

(** Clearing [s] as well extends what is discarded up to [s]. *)
Lemma discards_step p s m :
  in_u 64 (p_pending_signals p) -> 1 <= s < 64 -> is_deliverable p s = true ->
  discards p 1 s m -> discards p 1 (s + 1) (Z.land m (lnot64 (sigbit s))).
Proof.
  intros Hp Hs Hd Hm b Hb. rewrite testbit_clear by (done || lia || by eapply discards_in_u).
  rewrite (Hm b Hb). destruct (Z.eqb_spec b s) as [->|Hne].
  - rewrite Hd, (proj2 (Z.leb_le 1 s)), (proj2 (Z.ltb_lt s (s + 1))) by lia. simpl. by rewrite !andb_false_r.
  - rewrite andb_true_r. replace (b <? s + 1) with (b <? s); [done|].
    destruct (Z.ltb_spec b (s + 1)), (Z.ltb_spec b s); lia.
Qed.

(** ** Properties *)

(** C5. When a process with deliverable signals is scheduled, the lowest signal
    whose disposition is not "ignore" is delivered: lower ones are discarded,
    higher ones stay pending; by default it ends the process with code
    [128 + s] (also for the stop signals 20 to 22, whose default action shares
    a bit with [SIGTERM]), otherwise the user handler runs with
    [handling_signal] set around the call. *)
Theorem signal_delivery `{!Allocator H} call_handler (f : nat) (k : kernel H) (i : nat) (s : Z) :
  kernel_wf k -> (i < MAX_PROCESSES)%nat ->
  signal_handling_enabled k <> 0 -> p_handling_signal (proc k i) = 0 ->
  1 <= s < MAX_SIGNALS -> is_deliverable (proc k i) s = true -> ignored (proc k i) s = false ->
  (forall t, 1 <= t < s -> is_deliverable (proc k i) t = true -> ignored (proc k i) t = true) ->
  exists m, discards (proc k i) 1 (s + 1) m /\
    let k1 := upd_proc i (set_p_pending_signals m) k in
    let handler := handler_of (proc k i) s in
    signal_handle_pending call_handler (S f) (Some i) k =
      if handler =? SIG_DFL then
        k ← exit_process call_handler f (p_pid (proc k i)) (128 + s) k1; Some (1, k)
      else
        k ← call_handler handler s (upd_proc i (set_p_handling_signal 1) k1);
        Some (1, upd_proc i (set_p_handling_signal 0) k).
Proof.
  intros Hk Hi Hen Hh Hs Hd Hig Hlow. unfold MAX_SIGNALS in Hs.
  assert (Hlen : (i < length (processes k))%nat) by by rewrite (wf_len k Hk).
  set (d := Z.to_nat (s - 1)).
  destruct (pending_loop_discard call_handler (exit_process call_handler f) (stop_process call_handler f)
    d (S (31 - S d)) 1 i k Hk Hi) as (m & Hm & Heq); [lia|unfold MAX_SIGNALS; lia| |].
  { intros t Ht. apply Hlow. lia. }
  replace (1 + Z.of_nat d) with s in * by lia.
  set (k0 := upd_proc i (set_p_pending_signals m) k) in *.
  assert (Hp0 : proc k0 i = set_p_pending_signals m (proc k i)) by (unfold k0; by rewrite proc_upd_eq).
  assert (Hpend : in_u 64 (p_pending_signals (proc k i))) by by destruct (wf_proc k Hk i).
  exists (Z.land m (lnot64 (sigbit s))). split; [apply discards_step; (done || lia)|].
  cbv zeta. rewrite signal_handle_pending_S. unfold signal_handle_pending_body.
  rewrite (proj2 (Z.eqb_neq _ _) Hen), Hh. cbn [negb Z.eqb].
  change (Z.to_nat (MAX_SIGNALS - 1)) with 31%nat.
  replace 31%nat with (d + S (31 - S d))%nat at 1 by lia. rewrite Heq. cbn [pending_loop].
  assert (Hd0 : is_deliverable (proc k0 i) s = true).
  { rewrite is_deliverable_bits in * by lia. rewrite Hp0. simpl. apply andb_true_iff in Hd as [Hd ->].
    rewrite (Hm s), Hd, Z.ltb_irrefl by lia. simpl. by rewrite andb_false_r. }
  rewrite Hd0. unfold k0. rewrite upd_proc_twice.
  set (k1 := upd_proc i _ k).
  assert (Hp1 : proc k1 i = set_p_pending_signals (Z.land m (lnot64 (sigbit s))) (proc k i))
    by (unfold k1; by rewrite proc_upd_eq).
  rewrite Hp1. change (upd_proc i (set_p_pending_signals (Z.land m (lnot64 (sigbit s)))) k) with k1.
  change (handler_of (set_p_pending_signals ?x ?p) s) with (handler_of p s).
  unfold ignored in Hig. apply orb_false_iff in Hig as [Hign Hdfl]. rewrite Hign.
  destruct (handler_of (proc k i) s =? SIG_DFL); [|done]. simpl in Hdfl.
  rewrite (proj2 (negb_true_iff _)); [done|].
  apply Z.eqb_neq. intros Hz. apply default_action_cases in Hz. by rewrite Hz in Hdfl.
Qed.

Section Totals.
Context `{!Allocator H}.
Variable call_handler : Z -> Z -> kernel H -> option (kernel H).
Implicit Types (k : kernel H).
Hypothesis handlers_return : forall h s k, kernel_wf k ->
  exists k', call_handler h s k = Some k' /\ kernel_wf k'.

Lemma wf_signal_init k : kernel_wf k -> kernel_wf (signal_init k).2.
Proof. intros []; by split; try apply terminal_inv_write. Qed.

Lemma exit_process_ok fuel pid code k :
  (sched_fuel (runnables k) < fuel)%nat -> kernel_wf k -> fits10 code ->
  exists k', exit_process call_handler fuel pid code k = Some k' /\ kernel_wf k'.
Proof.
  intros Hf Hk Hc. destruct (get_process pid k) as [i|] eqn:Hg.
  - apply (exit_process_total call_handler fuel (runnables k) pid code i); try done; [|lia].
    intros fuel' k' Hf' Hk' Hr. by apply (schedule_total call_handler handlers_return (runnables k)).
  - destruct fuel as [|fuel]; [lia|]. rewrite exit_process_S. unfold exit_process_body. rewrite Hg. by eauto.
Qed.

Lemma runnables_stop s i k :
  runnable (set_p_state s (proc k i)) = false ->
  (runnables (upd_proc i (set_p_state s) k) <= runnables k)%nat.
Proof.
  intros Hr. destruct (decide (i < length (processes k))%nat) as [Hi|Hi].
  - pose proof (runnables_upd i (set_p_state s) k Hi) as Hu. rewrite Hr in Hu. simpl in Hu. lia.
  - rewrite runnables_same; [done|]. by rewrite proc_out in * by lia.
Qed.

Lemma stop_process_ok fuel pid k :
  (sched_fuel (runnables k) < fuel)%nat -> kernel_wf k ->
  exists k', stop_process call_handler fuel pid k = Some k' /\ kernel_wf k'.
Proof.
  intros Hf Hk. destruct fuel as [|fuel]; [lia|]. destruct (get_process pid k) as [i|] eqn:Hg.
  - rewrite (stop_process_unfold call_handler fuel pid i k Hk Hg).
    apply (schedule_total call_handler handlers_return (runnables k)); [lia| |].
    + apply wf_kprint, wf_kprint_bytes, wf_kprint. by apply wf_set_p_state.
    + apply (runnables_stop PROCESS_STATE_STOPPED i k). unfold runnable. simpl. by rewrite andb_false_r.
  - rewrite stop_process_S. unfold stop_process_body. rewrite Hg. by eauto.
Qed.

Lemma continue_process_ok pid k :
  kernel_wf k -> exists k', continue_process pid k = Some k' /\ kernel_wf k'.
Proof.
  intros Hk. unfold continue_process. destruct (get_process pid k) as [i|]; [|by eauto].
  case_decide; [|by eauto]. assert (Hk1 := wf_set_p_state PROCESS_STATE_READY i k Hk).
  rewrite kprint_int_fits by (apply (fits10_pid (kprint "Surec devam ettirildi: PID=" _)); by apply wf_kprint).
  eexists; split; [reflexivity|]. by apply wf_kprint, wf_kprint_bytes, wf_kprint.
Qed.

Lemma signal_send_ok fuel p s k :
  (sched_fuel (runnables k) + 1 < fuel)%nat -> kernel_wf k ->
  exists r k', signal_send call_handler fuel p s k = Some (r, k') /\ kernel_wf k'.
Proof.
  intros Hf Hk. destruct fuel as [|fuel]; [lia|]. rewrite signal_send_S. unfold signal_send_body.
  destruct p as [i|]; [|by eauto]. split_if; [by eauto|].
  assert (1 <= s < 32) by (unfold MAX_SIGNALS in *; zify_bool; lia).
  split_if.
  { destruct (exit_process_ok fuel (p_pid (proc k i)) (128 + s) k) as (k' & -> & ?); [lia|done| |by eauto].
    apply fits10_small. lia. }
  split_if.
  { destruct (stop_process_ok fuel (p_pid (proc k i)) k) as (k' & -> & ?); [lia|done|by eauto]. }
  split_if.
  { case_decide; [|by eauto]. destruct (continue_process_ok (p_pid (proc k i)) k Hk) as (k' & -> & ?). by eauto. }
  destruct (signal_add_pending (Some i) s k) as [r k'] eqn:E. exists r, k'. split; [done|].
  change k' with (r, k').2. rewrite <- E. by apply wf_add_pending.
Qed.

Lemma signal_handle_pending_ok fuel p k :
  (sched_fuel (runnables k) + 1 < fuel)%nat -> kernel_wf k ->
  (forall i, p = Some i -> p_pid (proc k i) <> 0) ->
  exists r k', signal_handle_pending call_handler fuel p k = Some (r, k') /\ kernel_wf k'.
Proof.
  intros Hf Hk Hp. destruct fuel as [|fuel]; [lia|]. rewrite signal_handle_pending_S.
  unfold signal_handle_pending_body. destruct p as [i|]; [|by eauto].
  split_if; [by eauto|]. split_if; [by eauto|].
  apply (pending_loop_ok call_handler handlers_return
    (fun k' => kernel_wf k' /\ runnables k' = runnables k)); [by intros ? []| | |lia|vm_compute; done|done].
  - intros s k' [Hk' Hr]. split; [by apply wf_clear_pending|]. by rewrite runnables_same.
  - intros s k' Hs [Hk' Hr]. apply exit_process_ok; [rewrite Hr; lia|done|].
    apply fits10_exit_code. lia.
Qed.

Lemma sleep_process_ok fuel pid ms k :
  (sched_fuel (runnables k) <= fuel)%nat -> kernel_wf k ->
  exists k', sleep_process call_handler fuel pid ms k = Some k' /\ kernel_wf k'.
Proof.
  intros Hf Hk. unfold sleep_process. destruct (get_process pid k) as [i|]; [|by eauto].
  set (k0 := upd_proc i (set_p_sleep_until _) k).
  assert (Hk0 : kernel_wf k0) by (apply wf_upd_proc; [done..|]; intros []; by split).
  apply (schedule_total call_handler handlers_return (runnables k)); [done|by apply wf_set_p_state|].
  transitivity (runnables k0); [|by unfold k0; rewrite runnables_same].
  apply runnables_stop. unfold runnable. simpl. by rewrite andb_false_r.
Qed.
End Totals.

(** [signal_proc_mask] (the sigprocmask call) blocks, unblocks or replaces
    the mask of the current process signal by signal; [SIGKILL] and [SIGSTOP]
    are never in the result, whatever the set. *)
Theorem signal_proc_mask_bits `{!Allocator H} (k : kernel H) how set c s :
  kernel_wf k -> in_u 64 set -> get_current_process k = Some c -> 0 <= how <= 2 -> 0 <= s < 64 ->
  let '(r, old, k') := signal_proc_mask how (Some set) true k in
  let before := p_blocked_signals (proc k c) in
  let req := Z.testbit set s && negb ((s =? SIGKILL) || (s =? SIGSTOP)) in
  r = 0 /\ old = Some before /\ kernel_wf k' /\
  Z.testbit (p_blocked_signals (proc k' c)) s =
    (if how =? 0 then Z.testbit before s || req
     else if how =? 1 then Z.testbit before s && negb req else req).
Proof.
  intros Hk Hset Hc Hhow Hs.
  pose proof (wf_signal_proc_mask how (Some set) true k Hk ltac:(intros m [= <-]; done)) as Hwf.
  assert (Hl : (c < length (processes k))%nat).
  { rewrite (wf_len k Hk). unfold get_current_process in Hc. revert Hc. split_if; [|done].
    intros [= <-]. apply Hk. }
  unfold signal_proc_mask in *. rewrite Hc in *.
  assert (Hr : Z.testbit (Z.land set blockable) s = Z.testbit set s && negb ((s =? SIGKILL) || (s =? SIGSTOP)))
    by by rewrite Z.land_spec, testbit_blockable by done.
  assert (how = 0 \/ how = 1 \/ how = 2) as [-> | [-> | ->]] by lia; simpl in Hwf |- *;
    rewrite proc_upd_eq by done; cbn [p_blocked_signals set_p_blocked_signals]; split_and!; try done.
  - by rewrite Z.lor_spec, Hr.
  - rewrite Z.land_spec, testbit_lnot64, Hr, (proj2 (Z.ltb_lt s 64)) by lia. done.
Qed.

(** Signals enabled, a stop signal and a broken pipe pending at process 2. *)
Definition kernel3 : kernel heap :=
  (signal_add_pending (Some 1%nat) 13 (signal_add_pending (Some 1%nat) 20 (signal_init kernel2).2).2).2.

Lemma kernel3_wf : kernel_wf kernel3.
Proof. apply wf_add_pending, wf_add_pending, wf_signal_init, kernel2_wf. Qed.

Lemma signal_proc_mask_bits_witness :
  get_current_process kernel3 = Some 0%nat /\
  let '(r, old, k') := signal_proc_mask 2 (Some (2 ^ 64 - 1)) true kernel3 in
  r = 0 /\ Z.testbit (p_blocked_signals (proc k' 0)) SIGKILL = false.
Proof.
  assert (Hc : get_current_process kernel3 = Some 0%nat) by (vm_compute; reflexivity).
  split; [exact Hc|].
  pose proof (signal_proc_mask_bits kernel3 2 (2 ^ 64 - 1) 0 SIGKILL kernel3_wf
    ltac:(unfold in_u; lia) Hc ltac:(lia) ltac:(unfold SIGKILL; lia)) as Hm.
  destruct (signal_proc_mask 2 (Some (2 ^ 64 - 1)) true kernel3) as [[r old] k'].
  destruct Hm as (Hr & _ & _ & Hb). split; [exact Hr|]. exact Hb.
Defined.

(** The broken pipe of [kernel3] is delivered before its stop signal. *)
Lemma signal_delivery_witness :
  signal_handling_enabled kernel3 <> 0 /\ is_deliverable (proc kernel3 1) 13 = true /\
  exists m, discards (proc kernel3 1) 1 14 m /\
    signal_handle_pending (fun _ _ k => Some k) 4 (Some 1%nat) kernel3
    = (k ← exit_process (fun _ _ k => Some k) 3 2 141
             (upd_proc 1 (set_p_pending_signals m) kernel3); Some (1, k)).
Proof.
  assert (Hen : signal_handling_enabled kernel3 <> 0) by (vm_compute; congruence).
  assert (Hd : is_deliverable (proc kernel3 1) 13 = true) by (vm_compute; reflexivity).
  split; [exact Hen|]. split; [exact Hd|].
  assert (Hlow : forall t, 1 <= t < 13 -> is_deliverable (proc kernel3 1) t = true ->
                 ignored (proc kernel3 1) t = true).
  { intros t Ht. rewrite is_deliverable_bits by lia.
    replace (p_pending_signals (proc kernel3 1)) with (2 ^ 20 + 2 ^ 13) by (vm_compute; reflexivity).
    assert (t = 1 \/ t = 2 \/ t = 3 \/ t = 4 \/ t = 5 \/ t = 6 \/ t = 7 \/ t = 8 \/ t = 9 \/ t = 10
            \/ t = 11 \/ t = 12) as Hcases by lia.
    repeat destruct Hcases as [-> | Hcases]; try (subst t); simpl; discriminate. }
  destruct (signal_delivery (fun _ _ k => Some k) 3 kernel3 1 13 kernel3_wf
    ltac:(unfold MAX_PROCESSES; lia) Hen ltac:(vm_compute; reflexivity) ltac:(unfold MAX_SIGNALS; lia)
    Hd ltac:(vm_compute; reflexivity) Hlow) as (m & Hm & Heq).
  exists m. split; [exact Hm|]. cbv zeta in Heq. rewrite Heq.
  replace (handler_of (proc kernel3 1) 13 =? SIG_DFL) with true by (vm_compute; reflexivity).
  replace (p_pid (proc kernel3 1)) with 2 by (vm_compute; reflexivity). reflexivity.
Defined.
