(* ===== verification/SchedulerSpec.v ===== *)
(** * What the scheduler promises

    Termination with the fuel that is enough, round robin, fairness, and the
    case where a process killed by a signal is made running again. *)
From S2P Require Import Prelude CString Terminal Allocator Heap.
From S2P Require Import Kernel Process Invariant Scheduler Lifecycle Signals.

(** C2. With handlers that return and keep the invariant, a call of [schedule] from
    outside the mutual recursion terminates from every well-formed state and
    leaves one, with [3 r + 1] levels of recursion for [r] runnable
    processes; more fuel gives the same result. *)
Theorem schedule_terminates `{!Allocator H} call_handler (k : kernel H) (fuel : nat) :
  (forall h s k, kernel_wf k -> exists k', call_handler h s k = Some k' /\ kernel_wf k') ->
  kernel_wf k -> (sched_fuel (runnables k) <= fuel)%nat ->
  exists k', schedule call_handler (sched_fuel (runnables k)) k = Some k' /\
    schedule call_handler fuel k = Some k' /\ kernel_wf k'.
Proof.
  intros Hh Hk Hf.
  destruct (schedule_total call_handler Hh (runnables k) (sched_fuel (runnables k)) k)
    as (k' & Hs & Hk'); [done..|].
  exists k'. split_and!; [done| |done]. by eapply schedule_mono.
Qed.

Lemma schedule_terminates_witness :
  exists k' : kernel heap, schedule (fun _ _ k => Some k) 200 kernel3 = Some k' /\ kernel_wf k'.
Proof.
  destruct (schedule_terminates (fun _ _ k => Some k) kernel3 200) as (k' & _ & Hs & Hk').
  - intros _ _ k Hk. exists k. split; [reflexivity|exact Hk].
  - exact kernel3_wf.
  - replace (runnables kernel3) with 2%nat by (vm_compute; reflexivity). unfold sched_fuel. lia.
  - exists k'. exact (conj Hs Hk').
Defined.

(** C16. Round robin: the first runnable entry after the current one, in circular
    order, becomes the current running process with one more tick of CPU time,
    and nothing else changes (when it has no signal to deliver); with no other
    runnable entry the state is unchanged, even if the current process is
    runnable and has signals pending. *)
Theorem schedule_round_robin `{!Allocator H} call_handler (k : kernel H) (f : nat) :
  kernel_wf k ->
  (forall d, next_runnable k d -> quiet k (after (current_process_index k) d) ->
     schedule call_handler (S (S f)) k = Some (dispatched (after (current_process_index k) d) k)) /\
  (none_runnable k -> schedule call_handler (S f) k = Some k).
Proof.
  intros Hk. split; [intros d Hd Hq; by apply schedule_dispatch|apply schedule_none].
Qed.

Lemma schedule_round_robin_witness :
  kernel_wf kernel2 /\ next_runnable kernel2 1 /\
  schedule (fun _ _ k => Some k) 2 kernel2 = Some (dispatched 1 kernel2).
Proof.
  assert (Hd : next_runnable kernel2 1).
  { split_and!; [lia|unfold MAX_PROCESSES; lia|vm_compute; reflexivity|intros; lia]. }
  split; [exact kernel2_wf|]. split; [exact Hd|].
  apply (proj1 (schedule_round_robin (fun _ _ k => Some k) kernel2 0 kernel2_wf) 1%nat Hd).
  left. vm_compute. reflexivity.
Defined.

(** C15. Fairness: while no runnable process has a signal to deliver, a runnable
    process at distance [D] of the current one is dispatched within [D] (at
    most 63) calls of [schedule]. *)
Theorem schedule_fair `{!Allocator H} call_handler (k : kernel H) (f D : nat) :
  let j := after (current_process_index k) D in
  kernel_wf k -> (1 <= D < MAX_PROCESSES)%nat -> runnable (proc k j) = true ->
  (forall i, runnable (proc k i) = true -> quiet k i) ->
  exists n k', (1 <= n <= D)%nat /\ schedules call_handler (S (S f)) n k = Some k' /\
    current_process_index k' = j /\ p_state (proc k' j) = PROCESS_STATE_RUNNING /\
    p_cpu_time (proc k' j) = u64 (p_cpu_time (proc k j) + 1).
Proof. intros j Hk HD Hr Hq. by apply fair_within. Qed.

Lemma schedule_fair_witness :
  runnable (proc kernel2 1) = true /\
  exists n k', (1 <= n <= 1)%nat /\ schedules (fun _ _ k => Some k) 2 n kernel2 = Some k' /\
    current_process_index k' = 1%nat.
Proof.
  assert (Hr : runnable (proc kernel2 1) = true) by (vm_compute; reflexivity).
  split; [exact Hr|].
  destruct (schedule_fair (fun _ _ k => Some k) kernel2 0 1 kernel2_wf
    ltac:(unfold MAX_PROCESSES; lia) Hr) as (n & k' & Hn & Hs & Hc & _).
  - intros i _. left. vm_compute. reflexivity.
  - exists n, k'. exact (conj Hn (conj Hs Hc)).
Defined.

Section Revival.
Context `{!Allocator H}.
Implicit Types (k : kernel H).

Lemma none_runnable_zero k : runnables k = 0%nat -> none_runnable k.
Proof.
  intros Hz d _. destruct (runnable (proc k _)) eqn:E; [|done].
  pose proof (runnables_pos k _ E). lia.
Qed.
End Revival.

(** When the only runnable process [c] is killed by a pending signal while
    it is being scheduled, the scheduler makes the zombie running again: it
    ends as the current, running process, with its stack freed. *)
Theorem schedule_revives_zombie `{!Allocator H} call_handler (k : kernel H) (f d : nat) (s : Z) :
  let c := after (current_process_index k) d in
  kernel_wf k -> next_runnable k d -> runnables k = 1%nat ->
  signal_handling_enabled k <> 0 -> p_handling_signal (proc k c) = 0 ->
  1 <= s < MAX_SIGNALS -> is_deliverable (proc k c) s = true ->
  handler_of (proc k c) s = SIG_DFL -> default_signal_action s <> 0 ->
  (forall t, 1 <= t < s -> is_deliverable (proc k c) t = true -> ignored (proc k c) t = true) ->
  exists k', schedule call_handler (S (S (S (S f)))) k = Some k' /\
    current_process_index k' = c /\ p_state (proc k' c) = PROCESS_STATE_RUNNING /\
    p_pid (proc k' c) = p_pid (proc k c) /\ p_stack (proc k' c) = 0.
Proof.
  intros c Hk Hd Hone Hen Hh Hs Hdel Hdfl Hact Hlow. rewrite schedule_S.
  destruct (schedule_body_cases (signal_handle_pending call_handler (S (S (S f)))) k)
    as [(d' & Hd' & ->)|[Hn _]].
  2:{ exfalso. destruct Hd as (Hr & Hrun & _). by rewrite Hn in Hrun. }
  rewrite (next_runnable_unique k d' d Hd' Hd). fold c.
  set (k1 := upd_proc c _ _).
  assert (Hcl : (c < MAX_PROCESSES)%nat) by apply after_lt.
  assert (Hk1 : kernel_wf k1) by (apply wf_set_p_state, wf_set_cur; done).
  assert (Hp1 : proc k1 c = set_p_state PROCESS_STATE_RUNNING (proc k c)).
  { unfold k1. rewrite proc_upd_eq; [done|]. cbn. by rewrite (wf_len k Hk). }
  assert (Hrun : runnable (proc k c) = true) by apply Hd.
  assert (Hpid : p_pid (proc k c) <> 0) by by apply runnable_pid.
  destruct (signal_delivery call_handler (S (S f)) k1 c s Hk1 Hcl Hen) as (m & Hm & Heq);
    [by rewrite Hp1|done|by rewrite Hp1| |by rewrite Hp1|].
  { rewrite Hp1. unfold ignored. change (handler_of (set_p_state ?x ?p) s) with (handler_of p s).
    rewrite Hdfl. simpl. by apply Z.eqb_neq. }
  cbv zeta in Heq. rewrite Heq, Hp1. clear Heq.
  change (handler_of (set_p_state ?x ?p) s) with (handler_of p s). rewrite Hdfl. cbn [Z.eqb SIG_DFL].
  set (k2 := upd_proc c (set_p_pending_signals m) k1).
  assert (Hp2 : proc k2 c = set_p_pending_signals m (proc k1 c)).
  { unfold k2. rewrite proc_upd_eq; [done|]. by rewrite (wf_len k1 Hk1). }
  assert (Hk2 : kernel_wf k2).
  { apply wf_upd_proc; [done..|]. intros Hok. pose proof Hok as []. split; try done.
    by apply (discards_in_u _ _ _ m ok_pending) in Hm. }
  assert (Hg : get_process (p_pid (set_p_state PROCESS_STATE_RUNNING (proc k c))) k2 = Some c).
  { simpl. replace (p_pid (proc k c)) with (p_pid (proc k2 c)) by (by rewrite Hp2, Hp1).
    apply get_process_pid; [done|]. by rewrite Hp2, Hp1. }
  destruct (exit_process_spec call_handler k2 _ (128 + s) c Hk2 Hg) as (k3 & Hk3 & He & Hp3 & _ & Hr3 & Hc3).
  { apply fits10_exit_code. lia. }
  rewrite He. clear He.
  assert (Hr2 : runnables k2 = 1%nat /\ runnable (proc k2 c) = true).
  { assert (Hrp : runnable (proc k2 c) = true).
    { rewrite Hp2, Hp1. unfold runnable. simpl. by rewrite (proj2 (Z.eqb_neq _ _) Hpid). }
    split; [|done]. unfold k2. rewrite runnables_same by done. unfold k1. rewrite runnables_same; [done|].
    change (proc (set_current_process_index c k) c) with (proc k c). rewrite Hrun.
    unfold runnable. simpl. by rewrite (proj2 (Z.eqb_neq _ _) Hpid). }
  destruct Hr2 as [Hr2 Hr2']. rewrite Hr2, Hr2' in Hr3. simpl in Hr3.
  rewrite schedule_none by (apply none_runnable_zero; lia).
  cbn [mbind option_bind]. rewrite Hc3. change (current_process_index k2) with c.
  assert (Hf3 : p_pid (proc k3 c) = p_pid (proc k c) /\ p_stack (proc k3 c) = 0).
  { rewrite Hp3. unfold exited_entry. rewrite decide_True by done. cbn [p_pid p_stack set_p_state].
    destruct (reparent_frame (p_pid (proc k c))
      (set_p_stack 0 (if decide (is_parent k2 c c) then add_sigchld (proc k2 c) else proc k2 c)))
      as (-> & -> & _). split; [|done].
    rewrite Hp2, Hp1. case_decide; [|done]. unfold add_sigchld. by split_if. }
  destruct Hf3 as [Hpid3 Hst3].
  exists (switch_to_process (p_pid (proc k3 c)) k3). split; [done|].
  unfold switch_to_process. rewrite get_process_pid by (done || by rewrite Hpid3).
  split; [done|]. rewrite upd_proc_twice.
  change (proc (set_current_process_index c ?x) c) with (proc x c).
  rewrite proc_upd_eq by by rewrite (wf_len k3 Hk3). simpl. by rewrite Hpid3.
Qed.

(** [kernel3] with the shell blocked. *)
Definition kernel4 : kernel heap := block_process 1 kernel3.

Lemma kernel4_wf : kernel_wf kernel4.
Proof.
  unfold kernel4, block_process. case_match; [|exact kernel3_wf].
  apply wf_set_p_state, kernel3_wf.
Qed.

Lemma schedule_revives_zombie_witness :
  runnables kernel4 = 1%nat /\ is_deliverable (proc kernel4 1) 13 = true /\
  exists k', schedule (fun _ _ k => Some k) 4 kernel4 = Some k' /\
    current_process_index k' = 1%nat /\ p_state (proc k' 1) = PROCESS_STATE_RUNNING /\
    p_pid (proc k' 1) = 2 /\ p_stack (proc k' 1) = 0.
Proof.
  assert (Hr : runnables kernel4 = 1%nat) by (vm_compute; reflexivity).
  assert (Hd : is_deliverable (proc kernel4 1) 13 = true) by (vm_compute; reflexivity).
  split; [exact Hr|]. split; [exact Hd|].
  assert (Hc : after (current_process_index kernel4) 1 = 1%nat) by (vm_compute; reflexivity).
  assert (Hpid : p_pid (proc kernel4 1) = 2) by (vm_compute; reflexivity).
  assert (Hpend : p_pending_signals (proc kernel4 1) = 2 ^ 20 + 2 ^ 13) by (vm_compute; reflexivity).
  pose proof (schedule_revives_zombie (fun _ _ k => Some k) kernel4 0 1 13 kernel4_wf) as Ht.
  cbv zeta in Ht. rewrite Hc, Hpid in Ht. apply Ht.
  - unfold next_runnable. rewrite Hc.
    split_and!; [lia|unfold MAX_PROCESSES; lia|vm_compute; reflexivity|intros; lia].
  - exact Hr.
  - vm_compute. discriminate.
  - vm_compute. reflexivity.
  - unfold MAX_SIGNALS. lia.
  - exact Hd.
  - vm_compute. reflexivity.
  - vm_compute. discriminate.
  - intros t Ht13. rewrite is_deliverable_bits, Hpend by lia.
    assert (t = 1 \/ t = 2 \/ t = 3 \/ t = 4 \/ t = 5 \/ t = 6 \/ t = 7 \/ t = 8 \/ t = 9 \/ t = 10
            \/ t = 11 \/ t = 12) as Hcases by lia.
    repeat destruct Hcases as [-> | Hcases]; try (subst t); simpl; discriminate.
Defined.
