(* ===== verification/Idt.v ===== *)
(** * The interrupt descriptor table of idt.c

    The 256 gate descriptors and the table of C handlers.  The addresses of
    the assembly stubs [isr0] to [isr31] of isr.asm and what a handler does are
    parameters. *)
From S2P Require Import Prelude CString Terminal.
From S2P Require Import Kernel.

Record idt_entry := IdtEntry {
  base_low : Z;
  selector : Z;
  always0 : Z;
  ie_flags : Z;
  base_middle : Z;
  base_high : Z;
  ie_reserved : Z;
}.

(** A cleared descriptor. *)
Definition idt_entry0 : idt_entry := IdtEntry 0 0 0 0 0 0 0.

(** [sizeof(idt_entry_t)] *)
Definition sizeof_idt_entry : Z := 16.

Record idt := Idt {
  idt_entries : list idt_entry;
  idt_ptr_limit : Z;
  idt_ptr_base : Z;
  interrupt_handlers : list Z;
}.

Definition IRQ0 : Z := 32.
Definition IRQ1 : Z := 33.

Definition idt_gate (base selector flags : Z) : idt_entry :=
  IdtEntry (Z.land base 0xFFFF) selector 0 flags (Z.land (Z.shiftr base 16) 0xFFFF)
    (Z.land (Z.shiftr base 32) 0xFFFFFFFF) 0.

(** [num] is a [uint8_t], always inside the table. *)
Definition idt_set_gate (num base selector flags : Z) (d : idt) : idt :=
  Idt (<[Z.to_nat (u8 num) := idt_gate base selector flags]> (idt_entries d))
    (idt_ptr_limit d) (idt_ptr_base d) (interrupt_handlers d).

Section Init.
(** The addresses of the stubs and of the table itself. *)
Variables (isr : Z -> Z) (idt_address : Z).

(** The 32 calls [idt_set_gate(n, (uint64_t)isrn, 0x08, 0x8E)]. *)
Definition set_isr_gates (d : idt) : idt :=
  for_loop 32 0 (fun n d => idt_set_gate n (isr n) 0x08 0x8E d) d.

(** The table is cleared, filled and loaded, the handlers are cleared. *)
Definition init_idt (d : idt) : idt :=
  let d := Idt (replicate 256 idt_entry0) (sizeof_idt_entry * 256 - 1) idt_address
             (interrupt_handlers d) in
  let d := set_isr_gates d in
  Idt (idt_entries d) (idt_ptr_limit d) (idt_ptr_base d) (replicate 256 0).
End Init.

Definition register_interrupt_handler (n handler : Z) (d : idt) : idt :=
  Idt (idt_entries d) (idt_ptr_limit d) (idt_ptr_base d)
    (<[Z.to_nat (u8 n) := handler]> (interrupt_handlers d)).

Section Dispatch.
Context {H : Type}.
Variable call_isr : Z -> Z -> kernel H -> option (kernel H).

(** [None] outside the table, and when [char s[3]] is too small. *)
Definition isr_handler (int_no : Z) (d : idt) (k : kernel H) : option (kernel H) :=
  handler ← interrupt_handlers d !! Z.to_nat int_no;
  if negb (handler =? 0) then call_isr handler int_no k
  else
    k ← kprint_int 3 int_no (kprint "Işlenmeyen kesme: " k);
    Some (kprint nl k).
End Dispatch.

(** ** Facts *)

(** The address a descriptor points to. *)
Definition gate_offset (e : idt_entry) : Z :=
  Z.lor (base_low e) (Z.lor (Z.shiftl (base_middle e) 16) (Z.shiftl (base_high e) 32)).

(** Bit 7 of the flags: the CPU accepts the vector. *)
Definition gate_present (e : idt_entry) : bool := Z.testbit (ie_flags e) 7.

Definition gate_at (d : idt) (n : Z) : idt_entry := default idt_entry0 (idt_entries d !! Z.to_nat n).

Lemma gate_offset_gate base sel fl : in_u 64 base -> gate_offset (idt_gate base sel fl) = base.
Proof.
  intros Hb. apply Z.bits_inj'; intros n Hn. unfold gate_offset, idt_gate.
  cbn [base_low base_middle base_high].
  change 0xFFFF with (2 ^ 16 - 1). change 0xFFFFFFFF with (2 ^ 32 - 1).
  rewrite !land_ones_mod, !Z.lor_spec, !Z.shiftl_spec, !testbit_wrap by lia.
  destruct (decide (n < 64)).
  - destruct (decide (n < 16)); [|destruct (decide (n < 32))].
    + rewrite !(Z.testbit_neg_r _ (n - _)) by lia. rewrite (proj2 (Z.ltb_lt n 16)) by lia.
      rewrite !andb_false_r. by rewrite !orb_false_r.
    + rewrite (Z.testbit_neg_r _ (n - 32)) by lia. rewrite Z.shiftr_spec by lia.
      rewrite (proj2 (Z.ltb_ge n 16)), (proj2 (Z.ltb_lt (n - 16) 16)) by lia.
      rewrite andb_false_r, orb_false_r. simpl. f_equal. lia.
    + rewrite !Z.shiftr_spec by lia.
      rewrite (proj2 (Z.ltb_ge n 16)), (proj2 (Z.ltb_ge (n - 16) 16)), (proj2 (Z.ltb_lt (n - 32) 32)) by lia.
      simpl. f_equal. lia.
  - rewrite (testbit_high 64 base n) by (done || lia).
    rewrite (proj2 (Z.ltb_ge n 16)), (proj2 (Z.ltb_ge (n - 16) 16)), (proj2 (Z.ltb_ge (n - 32) 32)) by lia.
    done.
Qed.

Lemma set_isr_gates_spec isr d m :
  length (idt_entries d) = 256%nat -> 0 <= m < 256 ->
  gate_at (set_isr_gates isr d) m = if m <? 32 then idt_gate (isr m) 0x08 0x8E else gate_at d m.
Proof.
  intros Hlen Hm. unfold set_isr_gates.
  pose (P := fun i d' => length (idt_entries d') = 256%nat /\
    gate_at d' m = if m <? i then idt_gate (isr m) 0x08 0x8E else gate_at d m).
  assert (HP : P (0 + Z.of_nat 32) (for_loop 32 0 (fun n d => idt_set_gate n (isr n) 0x08 0x8E d) d));
    [|exact (proj2 HP)].
  apply for_loop_inv; unfold P.
  - split; [done|]. by rewrite (proj2 (Z.ltb_ge m 0)) by lia.
  - intros i d' Hi [Hl Hd']. split; [unfold idt_set_gate; cbn [idt_entries]; by rewrite length_insert|].
    unfold gate_at, idt_set_gate in *. cbn [idt_entries]. rewrite wrap_small by (unfold in_u; lia).
    destruct (decide (m = i)) as [->|Hne].
    + rewrite list_lookup_insert_eq by lia. by rewrite (proj2 (Z.ltb_lt i (i + 1))) by lia.
    + rewrite list_lookup_insert_ne by lia. rewrite Hd'.
      replace (m <? i + 1) with (m <? i); [done|]. destruct (Z.ltb_spec m i), (Z.ltb_spec m (i + 1)); lia.
Qed.

Lemma init_idt_gates isr addr d n :
  0 <= n < 256 ->
  gate_at (init_idt isr addr d) n = if n <? 32 then idt_gate (isr n) 0x08 0x8E else idt_entry0.
Proof.
  intros Hn. unfold init_idt.
  set (d0 := Idt _ _ addr _).
  assert (H0 : gate_at d0 n = idt_entry0).
  { change (default idt_entry0 (replicate 256 idt_entry0 !! Z.to_nat n) = idt_entry0).
    by rewrite lookup_replicate_2 by lia. }
  rewrite <- H0. rewrite <- set_isr_gates_spec by (done || apply length_replicate). reflexivity.
Qed.

(** ** Properties *)

(** [idt_set_gate] splits a 64-bit address over the three fields of a
    descriptor so that it reads back exactly; [init_idt] installs the stub of
    every vector below 32 as a present gate and leaves all others not present,
    so the handlers registered for the timer (32), the keyboard (33) and the
    system call (0x80) have no gate. *)
Theorem init_idt_spec (isr : Z -> Z) (addr : Z) (d : idt) (n : Z) :
  (forall m, in_u 64 (isr m)) -> 0 <= n < 256 ->
  let e := gate_at (init_idt isr addr d) n in
  gate_present e = (n <? 32) /\
  (n < 32 -> gate_offset e = isr n /\ selector e = 0x08) /\
  (forall h m, gate_at (register_interrupt_handler m h (init_idt isr addr d)) n = e).
Proof.
  intros Hisr Hn. cbv zeta. rewrite init_idt_gates by done. split_and!.
  - destruct (n <? 32); [|done]. reflexivity.
  - intros Hlt. rewrite (proj2 (Z.ltb_lt n 32)) by done. split; [by apply gate_offset_gate|done].
  - intros h m. unfold gate_at, register_interrupt_handler. cbn [idt_entries].
    by apply (init_idt_gates isr addr d n).
Qed.

Lemma init_idt_spec_witness :
  let e := gate_at (init_idt (fun n => 0x101000 + u8 n * 16) 0x200000 (Idt [] 0 0 [])) in
  gate_present (e 14) = true /\ gate_offset (e 14) = 0x1010E0 /\ gate_present (e 0x80) = false.
Proof.
  intros e.
  assert (Hisr : forall m, in_u 64 (0x101000 + u8 m * 16)).
  { intros m. pose proof (wrap_range 8 m ltac:(lia)). unfold in_u in *. lia. }
  destruct (init_idt_spec (fun n => 0x101000 + u8 n * 16) 0x200000 (Idt [] 0 0 []) 14 Hisr ltac:(lia))
    as (H1 & H2 & _).
  destruct (init_idt_spec (fun n => 0x101000 + u8 n * 16) 0x200000 (Idt [] 0 0 []) 0x80 Hisr ltac:(lia))
    as (H3 & _ & _).
  split; [exact H1|]. split; [exact (proj1 (H2 ltac:(lia)))|exact H3].
Defined.

(** An interrupt with a registered handler calls exactly that handler with
    its vector; without one it prints the vector, which fits the three-byte
    buffer up to 99 and overflows it from 100 on. *)
Theorem isr_handler_spec {H} (call_isr : Z -> Z -> kernel H -> option (kernel H))
    (n h : Z) (d : idt) (k : kernel H) :
  length (interrupt_handlers d) = 256%nat -> 0 <= n < 256 ->
  (h <> 0 -> isr_handler call_isr n (register_interrupt_handler n h d) k = call_isr h n k) /\
  (isr_handler call_isr n (register_interrupt_handler n 0 d) k <> None <-> n < 100) /\
  (forall m, 0 <= m < 256 -> m <> n ->
    isr_handler call_isr m (register_interrupt_handler n h d) k = isr_handler call_isr m d k).
Proof.
  intros Hlen Hn.
  assert (Hreg : forall h', interrupt_handlers (register_interrupt_handler n h' d) !! Z.to_nat n = Some h').
  { intros h'. unfold register_interrupt_handler. cbn [interrupt_handlers].
    rewrite wrap_small by (unfold in_u; lia). apply list_lookup_insert_eq. lia. }
  split_and!.
  - intros Hh. unfold isr_handler. rewrite Hreg. cbn [mbind option_bind].
    by rewrite (proj2 (Z.eqb_neq _ _) Hh).
  - unfold isr_handler. rewrite Hreg. cbn [mbind option_bind negb Z.eqb].
    unfold kprint_int. destruct (decide (n < 100)) as [Hlt|Hge].
    + unfold terminal_writeint. rewrite (s32_small n) by (unfold in_s32; lia).
      destruct (int_to_string_length n 2) as (s & -> & Hl); [lia|lia|simpl; lia|].
      cbn [mbind option_bind]. by rewrite (proj2 (Z.ltb_lt _ _)) by lia.
    + rewrite writeint_overflow by lia. split; [done|lia].
  - intros m Hm Hne. unfold isr_handler, register_interrupt_handler. cbn [interrupt_handlers].
    rewrite wrap_small by (unfold in_u; lia). by rewrite list_lookup_insert_ne by lia.
Qed.

Lemma isr_handler_spec_witness :
  let d := init_idt (fun _ => 0) 0 (Idt [] 0 0 []) in
  let k := Kernel tt (Terminal 0 0 7 ∅) [] 0 1 0 0 0 0 [] 1 in
  length (interrupt_handlers d) = 256%nat /\
  isr_handler (fun _ _ k => Some k) 128 (register_interrupt_handler 128 0 d) k = None.
Proof.
  intros d k. assert (Hl : length (interrupt_handlers d) = 256%nat) by (vm_compute; reflexivity).
  split; [exact Hl|].
  destruct (isr_handler_spec (fun _ _ k => Some k) 128 0 d k Hl ltac:(lia)) as (_ & H2 & _).
  destruct (isr_handler _ 128 _ k) eqn:E; [|reflexivity].
  exfalso. assert (Hn : Some k0 <> None) by discriminate. apply H2 in Hn. lia.
Defined.
