(* ===== verification/Timer.v ===== *)
(** * The interval timer of timer.c

    The port writes of the driver are returned as a log of (port, byte)
    pairs; a division by zero is [None]. *)
From S2P Require Import Prelude CString Terminal Allocator Heap.
From S2P Require Import Kernel Process Invariant Scheduler Lifecycle Signals SchedulerSpec Idt.

Definition PIT_DATA_PORT0 : Z := 0x40.
Definition PIT_COMMAND_PORT : Z := 0x43.
Definition PIT_CHANNEL0 : Z := 0x00.
Definition PIT_ACCESS_BOTH : Z := 0x30.
Definition PIT_MODE3 : Z := 0x06.
Definition PIT_BINARY : Z := 0x00.
Definition PIT_BASE_FREQ : Z := 1193182.

Definition clamp_frequency (frequency : Z) : Z :=
  let frequency := if frequency <? 1 then 1 else frequency in
  if 1193 <? frequency then 1193 else frequency.

(** The three [outb]s, each value converted to [uint8_t]. *)
Definition pit_program (divisor : Z) : list (Z * Z) :=
  [(PIT_COMMAND_PORT, u8 (Z.lor (Z.lor (Z.lor PIT_CHANNEL0 PIT_ACCESS_BOTH) PIT_MODE3) PIT_BINARY));
   (PIT_DATA_PORT0, u8 (Z.land divisor 0xFF));
   (PIT_DATA_PORT0, u8 (Z.land (Z.shiftr divisor 8) 0xFF))].

Section Timer.
Context `{!Allocator H}.
Variable call_handler : Z -> Z -> kernel H -> option (kernel H).
(** The registered timer callback, and the address of [timer_handler]. *)
Variable call_callback : Z -> Z -> kernel H -> option (kernel H).
Variable timer_handler_address : Z.
Implicit Types (k : kernel H).

Definition timer_init (frequency : Z) (d : idt) k : option (list (Z * Z) * idt * kernel H) :=
  let frequency := clamp_frequency frequency in
  let k := set_timer_frequency frequency k in
  let divisor := Z.quot PIT_BASE_FREQ frequency in
  let d := register_interrupt_handler IRQ0 timer_handler_address d in
  let k := set_timer_ticks 0 k in
  k ← kprint_int 10 frequency (kprint "PIT zamanlayicisi baslatildi: " k);
  Some (pit_program divisor, d, kprint (" Hz" +:+ nl) k).

(** The loop over [i]: [get_process(i)], a pid. *)
Definition wake_process (pid : Z) k : kernel H :=
  match get_process pid k with
  | None => k
  | Some i =>
    if decide (p_state (proc k i) = PROCESS_STATE_SLEEPING) then
      if p_sleep_until (proc k i) <=? timer_ticks k
      then upd_proc i (set_p_state PROCESS_STATE_READY) k else k
    else k
  end.

Definition wake_sleepers k : kernel H := for_loop MAX_PROCESSES 0 wake_process k.

Definition timer_handler (fuel : nat) k : option (kernel H) :=
  let k := set_timer_ticks (u64 (timer_ticks k + 1)) k in
  k ← (if negb (timer_callback k =? 0) then call_callback (timer_callback k) (timer_ticks k) k
       else Some k);
  let k := wake_sleepers k in
  let period := Z.quot (timer_frequency k) 100 in
  if period =? 0 then None else
  if timer_ticks k mod period =? 0 then schedule call_handler fuel k else Some k.

Definition timer_register_callback (callback : Z) k : kernel H := set_timer_callback callback k.

(** [(timer_frequency * ms) / 1000] in [uint32_t]. *)
Definition ms_to_ticks (frequency ms : Z) : Z := Z.quot (u32 (frequency * ms)) 1000.

(** The busy wait [while (timer_ticks < target) sti; hlt;]: each turn is ended
    by an interrupt. *)
Variable wait_interrupt : kernel H -> option (kernel H).

Fixpoint timer_wait (n : nat) (target : Z) k : option (kernel H) :=
  if target <=? timer_ticks k then Some k else
  match n with
  | O => None
  | S n' => k ← wait_interrupt k; timer_wait n' target k
  end.

Definition timer_sleep (n : nat) (ms : Z) k : option (kernel H) :=
  let ticks := ms_to_ticks (timer_frequency k) (u32 ms) in
  let ticks := if ticks =? 0 then 1 else ticks in
  timer_wait n (u64 (timer_ticks k + ticks)) k.

Definition process_sleep (fuel n : nat) (ms : Z) k : option (kernel H) :=
  match get_current_process k with
  | Some c =>
    if negb (p_pid (proc k c) =? 0) then
      let wake := u64 (timer_ticks k + ms_to_ticks (timer_frequency k) (u32 ms)) in
      let k := upd_proc c (set_p_sleep_until wake) k in
      let k := upd_proc c (set_p_state PROCESS_STATE_SLEEPING) k in
      schedule call_handler fuel k
    else timer_sleep n ms k
  | None => timer_sleep n ms k
  end.

End Timer.

(** ** Facts *)

Section Timer_facts.
Context `{!Allocator H}.
Implicit Types (k : kernel H).

Lemma wf_set_ticks t k : kernel_wf k -> kernel_wf (set_timer_ticks t k).
Proof. intros []; by split. Qed.

Lemma wf_wake_process pid k : kernel_wf k -> kernel_wf (wake_process pid k).
Proof.
  intros Hk. unfold wake_process. case_match; [|done]. case_decide; [|done].
  split_if; [by apply wf_set_p_state|done].
Qed.

(** What [timer_handler] does to a sleeping process whose time has come. *)
Definition woken (now : Z) (p : process) : process :=
  if decide (p_state p = PROCESS_STATE_SLEEPING /\ p_sleep_until p <= now)
  then set_p_state PROCESS_STATE_READY p else p.

Lemma woken_state now p : p_pid (woken now p) = p_pid p.
Proof. unfold woken. by case_decide. Qed.

Lemma wake_process_frame pid k :
  timer_ticks (wake_process pid k) = timer_ticks k /\
  current_process_index (wake_process pid k) = current_process_index k /\
  timer_frequency (wake_process pid k) = timer_frequency k /\
  next_pid (wake_process pid k) = next_pid k /\
  length (processes (wake_process pid k)) = length (processes k).
Proof.
  unfold wake_process. case_match; [|done]. case_decide; [|done]. split_if; [|done].
  split_and!; try done. apply length_upd_proc.
Qed.

Lemma proc_wake_process pid k j :
  proc (wake_process pid k) j =
  if decide (get_process pid k = Some j) then woken (timer_ticks k) (proc k j) else proc k j.
Proof.
  unfold wake_process, woken. destruct (get_process pid k) as [i|] eqn:Hg.
  2:{ by rewrite decide_False. }
  pose proof (get_process_Some _ _ _ Hg) as [Hl _].
  destruct (decide (i = j)) as [->|Hne].
  - rewrite (decide_True (P := Some j = Some j)) by done.
    destruct (decide (p_state (proc k j) = PROCESS_STATE_SLEEPING)).
    + split_if; [rewrite proc_upd_eq, decide_True by done; done|]. rewrite decide_False; [done|]. lia.
    + rewrite decide_False; [done|]. tauto.
  - rewrite (decide_False (P := Some i = Some j)) by congruence.
    repeat (case_decide || split_if); try done. by rewrite proc_upd_ne.
Qed.

(** The loop visits the pids 0 to 63. *)
Lemma wake_sleepers_spec k :
  kernel_wf k ->
  let k' := wake_sleepers k in
  kernel_wf k' /\ timer_ticks k' = timer_ticks k /\ timer_frequency k' = timer_frequency k /\
  current_process_index k' = current_process_index k /\
  forall j, p_pid (proc k j) <> 0 ->
    proc k' j = if p_pid (proc k j) <? 64 then woken (timer_ticks k) (proc k j) else proc k j.
Proof.
  intros Hk k'. unfold k', wake_sleepers.
  pose (P := fun i k' => kernel_wf k' /\ timer_ticks k' = timer_ticks k /\
    timer_frequency k' = timer_frequency k /\ current_process_index k' = current_process_index k /\
    forall j, p_pid (proc k j) <> 0 ->
      proc k' j = if p_pid (proc k j) <? i then woken (timer_ticks k) (proc k j) else proc k j).
  assert (HP : P (0 + Z.of_nat MAX_PROCESSES) (for_loop MAX_PROCESSES 0 wake_process k)); [|exact HP].
  apply for_loop_inv; unfold P.
  - split_and!; try done. intros j Hj. pose proof (wf_pid k Hk j) as Hp.
    pose proof (slot_pid_range (next_pid k) j (wf_next k Hk)). rewrite <- Hp in *.
    by rewrite (proj2 (Z.ltb_ge _ 0)) by lia.
  - intros i k1 Hi (Hk1 & Ht & Hf & Hc & Hpr). destruct (wake_process_frame i k1) as (-> & -> & -> & _ & _).
    split_and!; try done; [by apply wf_wake_process|]. intros j Hj. rewrite proc_wake_process.
    assert (Hpid : p_pid (proc k1 j) = p_pid (proc k j)).
    { rewrite Hpr by done. split_if; [apply woken_state|done]. }
    destruct (decide (get_process i k1 = Some j)) as [Hg|Hg].
    + apply get_process_Some in Hg as [_ Hg]. rewrite Hpr, Ht by done.
      rewrite (proj2 (Z.ltb_ge (p_pid (proc k j)) i)), (proj2 (Z.ltb_lt (p_pid (proc k j)) (i + 1))) by lia.
      done.
    + rewrite Hpr by done.
      assert (p_pid (proc k j) <> i).
      { intros Heq. apply Hg. rewrite <- Heq, <- Hpid. apply get_process_pid; [done|]. by rewrite Hpid. }
      replace (p_pid (proc k j) <? i + 1) with (p_pid (proc k j) <? i); [done|].
      destruct (Z.ltb_spec (p_pid (proc k j)) i), (Z.ltb_spec (p_pid (proc k j)) (i + 1)); lia.
Qed.
End Timer_facts.

Section Ticks.
Context `{!Allocator H}.
Variable call_handler : Z -> Z -> kernel H -> option (kernel H).
Variable call_callback : Z -> Z -> kernel H -> option (kernel H).
Implicit Types (k : kernel H).
Abbreviation tick := (timer_handler call_handler call_callback).

Lemma wake_loop_other n i k :
  let k' := for_loop n i wake_process k in
  timer_callback k' = timer_callback k /\
  signal_handling_enabled k' = signal_handling_enabled k /\ next_pid k' = next_pid k.
Proof.
  cbv zeta. revert i k; induction n as [|n IH]; intros i k; simpl; [done|].
  destruct (IH (i + 1) (wake_process i k)) as (-> & -> & ->).
  unfold wake_process. case_match; [|done]. case_decide; [|done]. by split_if.
Qed.

Lemma wake_sleepers_other k :
  let k' := wake_sleepers k in
  timer_callback k' = timer_callback k /\
  signal_handling_enabled k' = signal_handling_enabled k /\ next_pid k' = next_pid k.
Proof. apply wake_loop_other. Qed.

(** Entry [p] after the wake-up loop at time [now]. *)
Definition wake_entry (now : Z) (p : process) : process :=
  if p_pid p <? 64 then woken now p else p.

Lemma timer_handler_state fuel k :
  kernel_wf k -> timer_callback k = 0 -> timer_ticks k + 1 < 2 ^ 64 -> 0 <= timer_ticks k ->
  let k1 := wake_sleepers (set_timer_ticks (timer_ticks k + 1) k) in
  let period := Z.quot (timer_frequency k) 100 in
  tick fuel k =
    if period =? 0 then None
    else if (timer_ticks k + 1) mod period =? 0 then schedule call_handler fuel k1 else Some k1.
Proof.
  intros Hk Hcb Ht Ht0. cbv zeta. unfold timer_handler.
  rewrite (wrap_small 64) by (unfold in_u; lia).
  change (timer_callback (set_timer_ticks ?t k)) with (timer_callback k). rewrite Hcb.
  cbn [negb Z.eqb mbind option_bind].
  destruct (wake_sleepers_spec (set_timer_ticks (timer_ticks k + 1) k)) as (_ & -> & -> & _);
    [by apply wf_set_ticks|]. done.
Qed.

(** One tick when no signal is delivered. *)
Lemma timer_handler_quiet f k :
  kernel_wf k -> (forall i, p_pid (proc k i) <> 0 -> quiet k i) -> timer_callback k = 0 ->
  100 <= timer_frequency k -> 0 <= timer_ticks k -> timer_ticks k + 1 < 2 ^ 64 ->
  exists k', tick (S (S f)) k = Some k' /\ kernel_wf k' /\
    (forall i, p_pid (proc k' i) <> 0 -> quiet k' i) /\ timer_callback k' = 0 /\
    timer_frequency k' = timer_frequency k /\ timer_ticks k' = timer_ticks k + 1 /\
    forall j, p_pid (proc k j) <> 0 ->
      let p := wake_entry (timer_ticks k + 1) (proc k j) in
      proc k' j = p \/ (runnable p = true /\ proc k' j = dispatch p).
Proof.
  intros Hk Hq Hcb Hf Ht0 Ht.
  pose proof (timer_handler_state (S (S f)) k Hk Hcb Ht Ht0) as Hth. cbv zeta in Hth. rewrite Hth. set (k0 := set_timer_ticks (timer_ticks k + 1) k).
  assert (Hk0 : kernel_wf k0) by by apply wf_set_ticks.
  destruct (wake_sleepers_spec k0 Hk0) as (Hk1 & Htk1 & Hf1 & _ & Hp1).
  destruct (wake_sleepers_other k0) as (Hcb1 & Hen1 & Hnp1).
  set (k1 := wake_sleepers k0) in *. clearbody k1.
  assert (Hpid1 : forall i, p_pid (proc k1 i) = p_pid (proc k i)).
  { intros i. rewrite (wf_pid k1 Hk1), (wf_pid k Hk). by rewrite Hnp1. }
  assert (Hentry : forall j, p_pid (proc k j) <> 0 -> proc k1 j = wake_entry (timer_ticks k + 1) (proc k j)).
  { intros j Hj. rewrite (Hp1 j Hj). done. }
  assert (Hq1 : forall i, p_pid (proc k1 i) <> 0 -> quiet k1 i).
  { intros i Hi. rewrite Hpid1 in Hi. specialize (Hq i Hi). unfold quiet in *. rewrite Hen1, (Hentry i Hi).
    unfold wake_entry, woken. split_if; [|done]. by case_decide. }
  assert (Hper : (Z.quot (timer_frequency k) 100 =? 0) = false).
  { apply Z.eqb_neq. rewrite Z.quot_div_nonneg by lia. pose proof (Z.div_le_lower_bound (timer_frequency k) 100 1). lia. }
  rewrite Hper. split_if; [|exists k1; split_and!; try done; [by rewrite Hcb1|by left; apply Hentry]].
  destruct (schedule_quiet call_handler f k1 Hk1 Hq1) as (k' & -> & Hk' & Hq' & Hcb' & Hf' & Ht' & _ & Hp').
  exists k'. split_and!; try done; [by rewrite Hcb', Hcb1|by rewrite Hf', Hf1|by rewrite Ht', Htk1|].
  intros j Hj. rewrite <- Hentry by done. apply Hp'.
Qed.

(** [n] timer interrupts. *)
Fixpoint ticks (fuel n : nat) k : option (kernel H) :=
  match n with
  | O => Some k
  | S n' => k ← tick fuel k; ticks fuel n' k
  end.
End Ticks.

(** A sleeping process stays asleep until its tick and can run from it on. *)
Lemma sleeper_ticks `{!Allocator H} call_handler call_callback f n (k : kernel H) j :
  kernel_wf k -> (forall i, p_pid (proc k i) <> 0 -> quiet k i) -> timer_callback k = 0 ->
  100 <= timer_frequency k -> 0 <= timer_ticks k -> timer_ticks k + Z.of_nat n < 2 ^ 64 ->
  p_pid (proc k j) <> 0 -> p_pid (proc k j) < 64 ->
  p_state (proc k j) = PROCESS_STATE_SLEEPING -> timer_ticks k < p_sleep_until (proc k j) ->
  timer_ticks k + Z.of_nat n <= p_sleep_until (proc k j) ->
  exists k', ticks call_handler call_callback (S (S f)) n k = Some k' /\ kernel_wf k' /\
    timer_ticks k' = timer_ticks k + Z.of_nat n /\
    (if decide (timer_ticks k + Z.of_nat n = p_sleep_until (proc k j))
     then runnable (proc k' j) = true else proc k' j = proc k j).
Proof.
  revert k; induction n as [|n IH]; intros k Hk Hq Hcb Hf Ht0 Ht Hpid Hlt Hst Hw Hn.
  { exists k. cbn [ticks]. split_and!; [done|done|lia|]. by rewrite decide_False by lia. }
  destruct (timer_handler_quiet call_handler call_callback f k) as
    (k1 & Hs & Hk1 & Hq1 & Hcb1 & Hf1 & Ht1 & Hp1); try done; [lia|].
  cbn [ticks]. rewrite Hs. cbn [mbind option_bind].
  specialize (Hp1 j Hpid). cbv zeta in Hp1. unfold wake_entry in Hp1.
  rewrite (proj2 (Z.ltb_lt _ 64)) in Hp1 by done. unfold woken in Hp1.
  destruct (decide (timer_ticks k + 1 = p_sleep_until (proc k j))) as [Heq|Hne].
  - assert (n = 0%nat) as -> by lia. exists k1. cbn [ticks]. split_and!; [done|done|lia|].
    rewrite decide_True by lia. rewrite decide_True in Hp1 by (split; [done|lia]).
    assert (Hr : runnable (set_p_state PROCESS_STATE_READY (proc k j)) = true).
    { unfold runnable. simpl. by rewrite (proj2 (Z.eqb_neq _ _) Hpid). }
    destruct Hp1 as [->|[_ ->]]; [done|by apply runnable_dispatch].
  - rewrite decide_False in Hp1 by (intros []; lia).
    destruct Hp1 as [Hp1|[Hr _]].
    2:{ unfold runnable in Hr. rewrite Hst in Hr. by rewrite andb_false_r in Hr. }
    destruct (IH k1) as (k' & Hs' & Hk' & Ht' & Hp'); rewrite ?Hp1, ?Hf1, ?Ht1; try done; try lia.
    exists k'. split_and!; [done|done|lia|]. rewrite Hp1, Ht1 in Hp'.
    replace (timer_ticks k + 1 + Z.of_nat n) with (timer_ticks k + Z.of_nat (S n)) in Hp' by lia. done.
Qed.

(** ** Properties *)

(** C37. A timer interrupt counts a tick, makes ready exactly the sleeping
    processes of pid below 64 whose time has come, and calls the scheduler on
    every [frequency/100]-th tick; below 100 Hz it divides by zero. *)
Theorem timer_handler_spec `{!Allocator H} call_handler call_callback fuel (k : kernel H) :
  kernel_wf k -> timer_callback k = 0 -> timer_ticks k + 1 < 2 ^ 64 -> 0 <= timer_ticks k ->
  exists k1, kernel_wf k1 /\ timer_ticks k1 = timer_ticks k + 1 /\
    (forall j, p_pid (proc k j) <> 0 -> proc k1 j = wake_entry (timer_ticks k + 1) (proc k j)) /\
    let period := Z.quot (timer_frequency k) 100 in
    timer_handler call_handler call_callback fuel k =
      (if period =? 0 then None
       else if (timer_ticks k + 1) mod period =? 0 then schedule call_handler fuel k1 else Some k1).
Proof.
  intros Hk Hcb Ht Ht0.
  pose proof (timer_handler_state call_handler call_callback fuel k Hk Hcb Ht Ht0) as Hs.
  cbv zeta in Hs. pose proof (wf_set_ticks (timer_ticks k + 1) k Hk) as Hk0.
  destruct (wake_sleepers_spec _ Hk0) as (Hk1 & Ht1 & _ & _ & Hp1).
  exists (wake_sleepers (set_timer_ticks (timer_ticks k + 1) k)).
  split_and!; [exact Hk1|exact Ht1| |exact Hs]. intros j Hj. exact (Hp1 j Hj).
Qed.

(** C36. At 100 Hz or more, with no timer callback and no signal to deliver, a
    process of pid below 64 that is asleep until tick [T] is left alone by every
    timer interrupt before [T] and can be scheduled as soon as the [T]-th has been
    handled.  (Pid 64 is never woken and a lower frequency divides by zero: see
    the next theorem.) *)
Theorem sleeper_wakes `{!Allocator H} call_handler call_callback f (k : kernel H) j T :
  kernel_wf k -> (forall i, p_pid (proc k i) <> 0 -> quiet k i) -> timer_callback k = 0 ->
  100 <= timer_frequency k -> 0 <= timer_ticks k < T -> T < 2 ^ 64 ->
  p_pid (proc k j) <> 0 -> p_pid (proc k j) < 64 ->
  p_state (proc k j) = PROCESS_STATE_SLEEPING -> p_sleep_until (proc k j) = T ->
  forall n, Z.of_nat n <= T - timer_ticks k ->
  exists k', ticks call_handler call_callback (S (S f)) n k = Some k' /\
    (if decide (Z.of_nat n = T - timer_ticks k)
     then runnable (proc k' j) = true else proc k' j = proc k j).
Proof.
  intros Hk Hq Hcb Hf Ht HT Hpid Hlt Hst <- n Hn.
  destruct (sleeper_ticks call_handler call_callback f n k j) as (k' & Hs & _ & _ & Hp); try done; try lia.
  exists k'. split; [exact Hs|].
  destruct (decide (timer_ticks k + Z.of_nat n = p_sleep_until (proc k j))).
  - by rewrite decide_True by lia.
  - by rewrite decide_False by lia.
Qed.

(** The frequency of the reload value the driver programs, read back from its
    port writes. *)
Definition pit_reload (log : list (Z * Z)) : Z :=
  match map snd (filter (fun w => w.1 = PIT_DATA_PORT0) log) with
  | [lo; hi] => lo + 256 * hi
  | _ => 0
  end.

Lemma pit_reload_program q : 0 <= q -> pit_reload (pit_program q) = q mod 2 ^ 16.
Proof.
  intros Hq.
  assert (Hr : pit_reload (pit_program q) = u8 (Z.land q 0xFF) + 256 * u8 (Z.land (Z.shiftr q 8) 0xFF))
    by reflexivity.
  rewrite Hr. change 0xFF with (2 ^ 8 - 1). rewrite !land_ones_mod, !wrap_idemp by lia.
  rewrite Z.shiftr_div_pow2 by lia. unfold wrap. Z.div_mod_to_equations. lia.
Qed.

(** [timer_init] clamps the frequency to 1..1193, registers the handler of
    vector 32 and programs channel 0 with the divisor's two bytes; the reload
    value is the divisor exactly from 19 Hz on, below it the 16 bits overflow. *)
Theorem timer_init_spec `{!Allocator H} addr frequency d (k : kernel H) :
  0 <= frequency < 2 ^ 32 -> length (interrupt_handlers d) = 256%nat ->
  let f := Z.max 1 (Z.min 1193 frequency) in
  exists log d' k', timer_init addr frequency d k = Some (log, d', k') /\
    timer_frequency k' = f /\ timer_ticks k' = 0 /\ processes k' = processes k /\
    interrupt_handlers d' !! Z.to_nat IRQ0 = Some addr /\
    head log = Some (0x43, 0x36) /\
    pit_reload log = PIT_BASE_FREQ / f mod 2 ^ 16 /\
    (pit_reload log = PIT_BASE_FREQ / f <-> 19 <= f).
Proof.
  intros Hf Hlen f.
  assert (Hc : clamp_frequency frequency = f) 
    by (unfold clamp_frequency, f; destruct (Z.ltb_spec frequency 1); split_if; lia).
  assert (Hr : 1 <= f <= 1193) by (unfold f; lia). clearbody f.
  assert (Hq : Z.quot PIT_BASE_FREQ f = PIT_BASE_FREQ / f)
    by (apply Z.quot_div_nonneg; unfold PIT_BASE_FREQ; lia).
  assert (Hq0 : 0 <= PIT_BASE_FREQ / f) by (apply Z.div_pos; unfold PIT_BASE_FREQ; lia).
  unfold timer_init. rewrite Hc, Hq.
  rewrite kprint_int_fits by (apply fits10_small; lia). cbn [mbind option_bind].
  eexists _, _, _. split; [reflexivity|]. split_and!; try done.
  - unfold register_interrupt_handler. cbn [interrupt_handlers]. apply list_lookup_insert_eq.
    rewrite Hlen. unfold IRQ0. rewrite wrap_small by (unfold in_u; lia). lia.
  - by apply pit_reload_program.
  - rewrite pit_reload_program by done.
    pose proof (Z.mod_pos_bound (PIT_BASE_FREQ / f) (2 ^ 16) ltac:(lia)).
    unfold PIT_BASE_FREQ in *. split.
    + intros Heq. assert (1193182 / f < 65536) by lia.
      destruct (decide (19 <= f)); [done|]. exfalso.
      pose proof (Z.div_le_lower_bound 1193182 f 65536 ltac:(lia) ltac:(lia)). lia.
    + intros Hf19. apply Z.mod_small. split; [apply Z.div_pos; lia|].
      apply Z.div_lt_upper_bound; lia.
Qed.

(** [process_sleep] puts the current process to sleep for
    [frequency * ms / 1000] ticks, as long as the product fits 32 bits, and
    calls the scheduler. *)
Theorem process_sleep_deadline `{!Allocator H} call_handler wait fuel n (k : kernel H) c ms :
  kernel_wf k -> get_current_process k = Some c -> 0 <= ms -> 0 <= timer_frequency k ->
  timer_frequency k * ms < 2 ^ 32 -> ms < 2 ^ 32 ->
  0 <= timer_ticks k -> timer_ticks k + timer_frequency k * ms < 2 ^ 64 ->
  exists k1, kernel_wf k1 /\
    process_sleep call_handler wait fuel n ms k = schedule call_handler fuel k1 /\
    p_state (proc k1 c) = PROCESS_STATE_SLEEPING /\
    p_sleep_until (proc k1 c) = timer_ticks k + timer_frequency k * ms / 1000 /\
    forall j, j <> c -> proc k1 j = proc k j.
Proof.
  intros Hk Hc Hms Hf Hfm Hms32 Ht Htm. unfold process_sleep. rewrite Hc.
  assert (Hc' : (c < length (processes k))%nat /\ p_pid (proc k c) <> 0).
  { revert Hc. unfold get_current_process. split_if; [|done]. intros [= <-].
    rewrite (wf_len k Hk). split; [apply Hk|]. done. }
  destruct Hc' as [Hl Hp]. rewrite (proj2 (Z.eqb_neq _ _) Hp). cbn [negb].
  set (w := u64 _). exists (upd_proc c (set_p_state PROCESS_STATE_SLEEPING) (upd_proc c (set_p_sleep_until w) k)).
  split_and!; try done.
  - apply wf_set_p_state, wf_upd_proc; [done..|]. intros []; by split.
  - by rewrite proc_upd_eq by by rewrite length_upd_proc.
  - rewrite proc_upd_eq by by rewrite length_upd_proc. cbn [p_sleep_until set_p_state].
    rewrite proc_upd_eq by done. cbn [p_sleep_until set_p_sleep_until]. unfold w, ms_to_ticks.
    assert (0 <= timer_frequency k * ms) by (apply Z.mul_nonneg_nonneg; done).
    rewrite (wrap_small 32 ms) by (unfold in_u; lia).
    rewrite (wrap_small 32 (_ * _)) by (unfold in_u; lia).
    rewrite Z.quot_div_nonneg by lia. apply wrap_small. unfold in_u.
    pose proof (Z.div_pos (timer_frequency k * ms) 1000 ltac:(lia) ltac:(lia)).
    pose proof (Z.div_le_upper_bound (timer_frequency k * ms) 1000 (timer_frequency k * ms)
      ltac:(lia) ltac:(lia)). lia.
  - intros j Hj. by rewrite !proc_upd_ne by done.
Qed.

(** ** Concrete runs *)

(** [kernel2] with process 2 asleep until tick 3. *)
Definition kernel5 : kernel heap :=
  upd_proc 1 (set_p_state PROCESS_STATE_SLEEPING) (upd_proc 1 (set_p_sleep_until 3) kernel2).

Lemma wf_asleep `{!Allocator H} i w (k : kernel H) :
  kernel_wf k ->
  kernel_wf (upd_proc i (set_p_state PROCESS_STATE_SLEEPING) (upd_proc i (set_p_sleep_until w) k)).
Proof. intros Hk. apply wf_set_p_state, wf_upd_proc; [done..|]. intros []; by split. Qed.

Lemma kernel5_wf : kernel_wf kernel5.
Proof. exact (wf_asleep 1 3 kernel2 kernel2_wf). Qed.

Lemma timer_handler_spec_witness :
  timer_callback kernel5 = 0 /\ timer_ticks kernel5 = 0 /\
  exists k1 : kernel heap, kernel_wf k1 /\ p_state (proc k1 1) = PROCESS_STATE_SLEEPING /\
    timer_handler (fun _ _ k => Some k) (fun _ _ k => Some k) 9 kernel5
    = schedule (fun _ _ k => Some k) 9 k1.
Proof.
  assert (Hcb : timer_callback kernel5 = 0) by (vm_compute; reflexivity).
  assert (Ht : timer_ticks kernel5 = 0) by (vm_compute; reflexivity).
  assert (Hf : timer_frequency kernel5 = 100) by (vm_compute; reflexivity).
  split; [exact Hcb|]. split; [exact Ht|].
  destruct (timer_handler_spec (fun _ _ k => Some k) (fun _ _ k => Some k) 9 kernel5 kernel5_wf Hcb
    ltac:(rewrite Ht; lia) ltac:(rewrite Ht; lia)) as (k1 & Hk1 & _ & Hp & Hs).
  exists k1. split; [exact Hk1|]. split.
  - rewrite Hp by (vm_compute; discriminate). rewrite Ht. vm_compute. reflexivity.
  - cbv zeta in Hs. rewrite Hf, Ht in Hs. exact Hs.
Defined.

Lemma sleeper_wakes_witness :
  p_sleep_until (proc kernel5 1) = 3 /\
  exists k', ticks (fun _ _ k => Some k) (fun _ _ k => Some k) 2 3 kernel5 = Some k' /\
    runnable (proc k' 1) = true.
Proof.
  assert (Hw : p_sleep_until (proc kernel5 1) = 3) by (vm_compute; reflexivity).
  assert (Ht : timer_ticks kernel5 = 0) by (vm_compute; reflexivity).
  assert (Hf : timer_frequency kernel5 = 100) by (vm_compute; reflexivity).
  assert (Hp : p_pid (proc kernel5 1) = 2) by (vm_compute; reflexivity).
  split; [exact Hw|].
  destruct (sleeper_wakes (fun _ _ k => Some k) (fun _ _ k => Some k) 0 kernel5 1 3 kernel5_wf) with (n := 3%nat)
    as (k' & Hs & Hr); try (rewrite ?Ht, ?Hf, ?Hp; lia); try (vm_compute; reflexivity).
  - intros i _. left. vm_compute. reflexivity.
  - exists k'. split; [exact Hs|]. rewrite decide_True in Hr; [exact Hr|]. rewrite Ht. reflexivity.
Defined.

Lemma timer_init_spec_witness :
  exists log d' k', timer_init 0x4000 10 (init_idt (fun _ => 0) 0 (Idt [] 0 0 [])) kernel2
    = Some (log, d', k') /\ pit_reload log <> PIT_BASE_FREQ / 10.
Proof.
  destruct (timer_init_spec 0x4000 10 (init_idt (fun _ => 0) 0 (Idt [] 0 0 [])) kernel2
    ltac:(lia) ltac:(vm_compute; reflexivity)) as (log & d' & k' & Hi & _ & _ & _ & _ & _ & _ & Hr).
  exists log, d', k'. split; [exact Hi|]. intros Heq. apply Hr in Heq. lia.
Defined.

Lemma process_sleep_deadline_witness :
  get_current_process kernel2 = Some 0%nat /\
  exists k1 : kernel heap, kernel_wf k1 /\ p_sleep_until (proc k1 0) = 25.
Proof.
  assert (Hc : get_current_process kernel2 = Some 0%nat) by (vm_compute; reflexivity).
  assert (Ht : timer_ticks kernel2 = 0) by (vm_compute; reflexivity).
  assert (Hf : timer_frequency kernel2 = 100) by (vm_compute; reflexivity).
  split; [exact Hc|].
  destruct (process_sleep_deadline (fun _ _ k => Some k) (fun k => Some k) 9 0 kernel2 0 250 kernel2_wf Hc)
    as (k1 & Hk1 & _ & _ & Hw & _); try (rewrite ?Ht, ?Hf; lia).
  exists k1. split; [exact Hk1|]. rewrite Hw, Ht, Hf. reflexivity.
Defined.
