(* ===== verification/Pipe.v ===== *)
(** * Pipes: pipe.c

    A pipe is a ring buffer in a table of 64.  A blocked reader or writer loops
    around [block_process] and [schedule]; the fuel of that loop is separate
    from the scheduler's. *)
From S2P Require Import Prelude CString Terminal Allocator Heap.
From S2P Require Import Kernel Process Invariant Scheduler Lifecycle Signals SchedulerSpec.

Definition PIPE_FLAG_READABLE : Z := 0x01.
Definition PIPE_FLAG_WRITABLE : Z := 0x02.
Definition PIPE_FLAG_NONBLOCK : Z := 0x04.
Definition PIPE_SUCCESS : Z := 0.
Definition PIPE_ERROR_FULL : Z := -1.
Definition PIPE_ERROR_EMPTY : Z := -2.
Definition PIPE_ERROR_CLOSED : Z := -3.

(** [flags & flag] as a condition. *)
Definition has_flag (flags flag : Z) : bool := negb (Z.land flags flag =? 0).

(** [buffer[(pos]] for an index in range. *)
Definition byte_at (buffer : list Z) (pos : Z) : Z := default 0 (buffer !! Z.to_nat pos).

Definition next_pos (pos : Z) : Z := u64 (pos + 1) mod PIPE_BUFFER_SIZE.

(** The copy loop of [pipe_read]: [n] bytes from [read_pos]. *)
Fixpoint copy_out (n : nat) (p : pipe) : list Z * pipe :=
  match n with
  | O => ([], p)
  | S n' =>
    let b := byte_at (pi_buffer p) (pi_read_pos p) in
    let '(bs, p) := copy_out n' (set_pi_read_pos (next_pos (pi_read_pos p)) p) in
    (b :: bs, p)
  end.

(** The copy loop of [pipe_write]. *)
Fixpoint copy_in (bs : list Z) (p : pipe) : pipe :=
  match bs with
  | [] => p
  | b :: bs' =>
    let p := set_pi_buffer (<[Z.to_nat (pi_write_pos p) := b]> (pi_buffer p)) p in
    copy_in bs' (set_pi_write_pos (next_pos (pi_write_pos p)) p)
  end.

Section Pipes.
Context `{!Allocator H}.
Variable call_handler : Z -> Z -> kernel H -> option (kernel H).
Implicit Types (k : kernel H).

Definition pipe_at k (i : nat) : pipe := pipe_in (pipes k) i.

Definition upd_pipe (i : nat) (f : pipe -> pipe) k : kernel H :=
  set_pipes (alter f i (pipes k)) k.

(** [memset(pipes, 0, sizeof(pipes))] *)
Definition pipe_init k : Z * kernel H :=
  (PIPE_SUCCESS, kprint ("Pipe yonetimi baslatildi." +:+ nl) (set_pipes (replicate MAX_PIPES pipe0) k)).

(** The two descriptors of a pipe. *)
Definition read_fd_of (id : Z) : Z := Z.lor (u64 (Z.shiftl id 3)) PIPE_FLAG_READABLE.
Definition write_fd_of (id : Z) : Z := Z.lor (u64 (Z.shiftl id 3)) PIPE_FLAG_WRITABLE.

Definition pipe_create k : Z * option (Z * Z) * kernel H :=
  match find_idx (fun p => pi_id p =? 0) (pipes k) with
  | None => (PIPE_ERROR_FULL, None, k)
  | Some i =>
    let id := next_pipe_id k in
    let k := set_next_pipe_id (u64 (id + 1)) k in
    let current := get_current_process k in
    let k := upd_pipe i (fun pipe =>
      let pid := match current with Some c => Some (p_pid (proc k c)) | None => None end in
      Pipe id (pi_buffer pipe) 0 0 0 0 (default (pi_reader_pid pipe) pid)
        (default (pi_writer_pid pipe) pid) 1 1) k in
    (PIPE_SUCCESS, Some (read_fd_of id, write_fd_of id), k)
  end.

Definition pipe_get_by_fd (fd : Z) k : option nat :=
  find_idx (fun p => pi_id p =? Z.shiftr fd 3) (pipes k).

Definition pipe_close (fd : Z) k : Z * kernel H :=
  match pipe_get_by_fd fd k with
  | None => (PIPE_ERROR_CLOSED, k)
  | Some i =>
    let k := if has_flag fd PIPE_FLAG_READABLE then upd_pipe i (set_pi_reader_open 0) k else k in
    let k := if has_flag fd PIPE_FLAG_WRITABLE then upd_pipe i (set_pi_writer_open 0) k else k in
    let pipe := pipe_at k i in
    let k := if (pi_reader_open pipe =? 0) && (pi_writer_open pipe =? 0)
             then upd_pipe i (set_pi_id 0) k else k in
    (PIPE_SUCCESS, k)
  end.

(** [block_process(current->pid); schedule();]: [None] when [current] is
    null. *)
Definition block_and_schedule (fuel : nat) (current : option nat) k : option (kernel H) :=
  c ← current; schedule call_handler fuel (block_process (p_pid (proc k c)) k).

(** [while (pipe->data_size == 0 && pipe->writer_open) ...], at most [n]
    turns. *)
Fixpoint read_wait (n fuel : nat) (current : option nat) (i : nat) k : option (kernel H) :=
  if (pi_data_size (pipe_at k i) =? 0) && negb (pi_writer_open (pipe_at k i) =? 0) then
    match n with
    | O => None
    | S n' => k ← block_and_schedule fuel current k; read_wait n' fuel current i k
    end
  else Some k.

(** The part of [pipe_read] after the wait. *)
Definition read_data (i : nat) (count : Z) k : Z * list Z * kernel H :=
  let pipe := pipe_at k i in
  let bytes_to_read := if count <? pi_data_size pipe then count else pi_data_size pipe in
  let '(bs, pipe) := copy_out (Z.to_nat bytes_to_read) pipe in
  let pipe := set_pi_data_size (u64 (pi_data_size pipe - bytes_to_read)) pipe in
  let k := upd_pipe i (fun _ => pipe) k in
  let k := if negb (pi_writer_pid pipe =? 0) then unblock_process (pi_writer_pid pipe) k else k in
  (s32 bytes_to_read, bs, k).

(** The result, the bytes stored to the buffer, and the state. *)
Definition pipe_read (n fuel : nat) (fd count : Z) k : option (Z * list Z * kernel H) :=
  match pipe_get_by_fd fd k with
  | None => Some (PIPE_ERROR_CLOSED, [], k)
  | Some i =>
    let pipe := pipe_at k i in
    if (pi_reader_open pipe =? 0) || negb (has_flag fd PIPE_FLAG_READABLE)
    then Some (PIPE_ERROR_CLOSED, [], k)
    else if pi_data_size pipe =? 0 then
      if has_flag (pi_flags pipe) PIPE_FLAG_NONBLOCK then Some (PIPE_ERROR_EMPTY, [], k)
      else if pi_writer_open pipe =? 0 then Some (0, [], k)
      else
        k ← read_wait n fuel (get_current_process k) i k;
        if pi_data_size (pipe_at k i) =? 0 then Some (0, [], k)
        else Some (read_data i count k)
    else Some (read_data i count k)
  end.

(** One round of the copy in [pipe_write]: the number of bytes written. *)
Definition write_data (i : nat) (buf : list Z) (bytes_written : Z) k : Z * kernel H :=
  let pipe := pipe_at k i in
  let left := Z.of_nat (length buf) - bytes_written in
  let space_available := u64 (PIPE_BUFFER_SIZE - pi_data_size pipe) in
  let bytes_to_write := if left <? space_available then left else space_available in
  let pipe := copy_in (take (Z.to_nat bytes_to_write) (drop (Z.to_nat bytes_written) buf)) pipe in
  let pipe := set_pi_data_size (u64 (pi_data_size pipe + bytes_to_write)) pipe in
  let k := upd_pipe i (fun _ => pipe) k in
  let k := if negb (pi_reader_pid pipe =? 0) then unblock_process (pi_reader_pid pipe) k else k in
  (bytes_written + bytes_to_write, k).

(** The loop of [pipe_write], at most [n] rounds; [count] is the length of
    [buf]. *)
Fixpoint write_loop (n fuel : nat) (i : nat) (buf : list Z) (bytes_written : Z) k
  : option (Z * kernel H) :=
  if Z.of_nat (length buf) <=? bytes_written then Some (s32 bytes_written, k) else
  match n with
  | O => None
  | S n' =>
    if pi_data_size (pipe_at k i) =? PIPE_BUFFER_SIZE then
      if has_flag (pi_flags (pipe_at k i)) PIPE_FLAG_NONBLOCK then
        Some (if 0 <? bytes_written then s32 bytes_written else PIPE_ERROR_FULL, k)
      else
        k ← block_and_schedule fuel (get_current_process k) k;
        if pi_reader_open (pipe_at k i) =? 0 then Some (PIPE_ERROR_CLOSED, k)
        else
          let '(bytes_written, k) := write_data i buf bytes_written k in
          write_loop n' fuel i buf bytes_written k
    else
      let '(bytes_written, k) := write_data i buf bytes_written k in
      write_loop n' fuel i buf bytes_written k
  end.

Definition pipe_write (n fuel : nat) (fd : Z) (buf : list Z) k : option (Z * kernel H) :=
  match pipe_get_by_fd fd k with
  | None => Some (PIPE_ERROR_CLOSED, k)
  | Some i =>
    let pipe := pipe_at k i in
    if (pi_writer_open pipe =? 0) || negb (has_flag fd PIPE_FLAG_WRITABLE)
    then Some (PIPE_ERROR_CLOSED, k)
    else if pi_reader_open pipe =? 0 then Some (PIPE_ERROR_CLOSED, k)
    else write_loop n fuel i buf 0 k
  end.

Definition pipe_set_flags (fd flags : Z) k : Z * kernel H :=
  match pipe_get_by_fd fd k with
  | None => (PIPE_ERROR_CLOSED, k)
  | Some i =>
    (PIPE_SUCCESS, upd_pipe i (fun pipe =>
      set_pi_flags (u8 (Z.lor (Z.land (pi_flags pipe) (Z.lnot PIPE_FLAG_NONBLOCK))
                              (Z.land flags PIPE_FLAG_NONBLOCK))) pipe) k)
  end.
End Pipes.

(** ** The ring buffer as a queue *)

(** The bytes of the pipe, oldest first. *)
Definition contents (p : pipe) : list Z :=
  (fun j => byte_at (pi_buffer p) ((pi_read_pos p + Z.of_nat j) mod PIPE_BUFFER_SIZE))
    <$> seq 0 (Z.to_nat (pi_data_size p)).

Lemma length_contents p : length (contents p) = Z.to_nat (pi_data_size p).
Proof. unfold contents. by rewrite length_fmap, length_seq. Qed.

Lemma lookup_contents p j :
  (j < Z.to_nat (pi_data_size p))%nat ->
  contents p !! j
  = Some (byte_at (pi_buffer p) ((pi_read_pos p + Z.of_nat j) mod PIPE_BUFFER_SIZE)).
Proof. intros Hj. unfold contents. rewrite list_lookup_fmap, lookup_seq_lt by done. done. Qed.

Lemma next_pos_mod pos : 0 <= pos < PIPE_BUFFER_SIZE -> next_pos pos = (pos + 1) mod PIPE_BUFFER_SIZE.
Proof.
  unfold next_pos, PIPE_BUFFER_SIZE. intros. by rewrite wrap_small by (unfold in_u; lia).
Qed.

Lemma copy_out_spec n p :
  0 <= pi_read_pos p < PIPE_BUFFER_SIZE ->
  copy_out n p =
    ((fun j => byte_at (pi_buffer p) ((pi_read_pos p + Z.of_nat j) mod PIPE_BUFFER_SIZE)) <$> seq 0 n,
     set_pi_read_pos ((pi_read_pos p + Z.of_nat n) mod PIPE_BUFFER_SIZE) p).
Proof.
  revert p; induction n as [|n IH]; intros p Hp; cbn [copy_out].
  { cbn [fmap seq]. rewrite Z.add_0_r, Z.mod_small by done. by destruct p. }
  rewrite next_pos_mod by done. rewrite IH by (cbn; by apply Z.mod_pos_bound).
  cbn [pi_read_pos pi_buffer set_pi_read_pos]. rewrite Zplus_mod_idemp_l.
  replace (pi_read_pos p + 1 + Z.of_nat n) with (pi_read_pos p + Z.of_nat (S n)) by lia.
  f_equal.
  change (seq 0 (S n)) with (0%nat :: seq 1 n). rewrite fmap_cons. f_equal.
  { rewrite Z.add_0_r, Z.mod_small by done. done. }
  rewrite <- fmap_S_seq, <- list_fmap_compose. apply list_fmap_ext. intros i j _. simpl.
  rewrite Zplus_mod_idemp_l. do 2 f_equal. lia.
Qed.

(** The index of position [q] counted from [w] around the ring. *)
Definition ring_index (w q : Z) : Z := (q - w) mod PIPE_BUFFER_SIZE.

Lemma copy_in_spec bs p :
  0 <= pi_write_pos p < PIPE_BUFFER_SIZE -> length (pi_buffer p) = Z.to_nat PIPE_BUFFER_SIZE ->
  Z.of_nat (length bs) <= PIPE_BUFFER_SIZE ->
  let p' := copy_in bs p in
  p' = set_pi_write_pos ((pi_write_pos p + Z.of_nat (length bs)) mod PIPE_BUFFER_SIZE)
         (set_pi_buffer (pi_buffer p') p) /\
  length (pi_buffer p') = Z.to_nat PIPE_BUFFER_SIZE /\
  forall q, 0 <= q < PIPE_BUFFER_SIZE ->
    byte_at (pi_buffer p') q =
      if ring_index (pi_write_pos p) q <? Z.of_nat (length bs)
      then byte_at bs (ring_index (pi_write_pos p) q) else byte_at (pi_buffer p) q.
Proof.
  cbv zeta. revert p; induction bs as [|b bs IH]; intros p Hw Hl Hb; cbn [copy_in].
  { split_and!; [|done|].
    - cbn [length]. rewrite Z.add_0_r, Z.mod_small by done. by destruct p.
    - intros q Hq. unfold ring_index. pose proof (Z.mod_pos_bound (q - pi_write_pos p) PIPE_BUFFER_SIZE ltac:(done)).
      by rewrite (proj2 (Z.ltb_ge _ _)) by (cbn [length]; lia). }
  rewrite next_pos_mod by done.
  set (p1 := set_pi_write_pos _ _).
  assert (Hw1 : pi_write_pos p1 = (pi_write_pos p + 1) mod PIPE_BUFFER_SIZE) by done.
  assert (Hb1 : pi_buffer p1 = <[Z.to_nat (pi_write_pos p) := b]> (pi_buffer p)) by done.
  destruct (IH p1) as (Heq & Hlen & Hat).
  { rewrite Hw1. by apply Z.mod_pos_bound. }
  { rewrite Hb1. by rewrite length_insert. }
  { cbn [length] in Hb. lia. }
  split_and!.
  - rewrite Heq at 1. rewrite Hw1, Zplus_mod_idemp_l. cbn [length].
    replace (pi_write_pos p + 1 + Z.of_nat (length bs))
      with (pi_write_pos p + Z.of_nat (S (length bs))) by lia. done.
  - done.
  - intros q Hq. rewrite Hat by done. rewrite Hw1, Hb1. unfold ring_index. rewrite Zminus_mod_idemp_r.
    destruct (decide (q = pi_write_pos p)) as [->|Hne].
    + rewrite Z.sub_diag, Z.mod_0_l by done.
      replace (pi_write_pos p - (pi_write_pos p + 1)) with (-1) by lia.
      change ((-1) mod PIPE_BUFFER_SIZE) with 4095. cbn [length] in *. unfold PIPE_BUFFER_SIZE in *.
      rewrite (proj2 (Z.ltb_ge 4095 _)), (proj2 (Z.ltb_lt 0 _)) by lia.
      unfold byte_at. by rewrite list_lookup_insert_eq by lia.
    + assert (Hr : (q - pi_write_pos p) mod PIPE_BUFFER_SIZE
                   = (q - (pi_write_pos p + 1)) mod PIPE_BUFFER_SIZE + 1).
      { unfold PIPE_BUFFER_SIZE in *. Z.div_mod_to_equations. lia. }
      pose proof (Z.mod_pos_bound (q - (pi_write_pos p + 1)) PIPE_BUFFER_SIZE ltac:(done)).
      rewrite Hr. set (r := (q - (pi_write_pos p + 1)) mod PIPE_BUFFER_SIZE) in *.
      cbn [length]. replace (r + 1 <? Z.of_nat (S (length bs))) with (r <? Z.of_nat (length bs)).
      2:{ destruct (Z.ltb_spec r (Z.of_nat (length bs))), (Z.ltb_spec (r + 1) (Z.of_nat (S (length bs)))); lia. }
      destruct (r <? _).
      * unfold byte_at. replace (Z.to_nat (r + 1)) with (S (Z.to_nat r)) by lia. done.
      * unfold byte_at. rewrite list_lookup_insert_ne; [done|]. lia.
Qed.

(** Appending and removing, on one pipe. *)
Definition enqueue (bs : list Z) (p : pipe) : pipe :=
  set_pi_data_size (u64 (pi_data_size p + Z.of_nat (length bs))) (copy_in bs p).

Definition dequeue (n : Z) (p : pipe) : pipe :=
  set_pi_data_size (u64 (pi_data_size p - n))
    (set_pi_read_pos ((pi_read_pos p + n) mod PIPE_BUFFER_SIZE) p).

Lemma enqueue_spec bs p :
  pipe_ok p -> pi_data_size p + Z.of_nat (length bs) <= PIPE_BUFFER_SIZE ->
  pipe_ok (enqueue bs p) /\ contents (enqueue bs p) = contents p ++ bs /\
  pi_data_size (enqueue bs p) = pi_data_size p + Z.of_nat (length bs) /\
  enqueue bs p = Pipe (pi_id p) (pi_buffer (enqueue bs p)) (pi_read_pos p)
    (pi_write_pos (enqueue bs p)) (pi_data_size p + Z.of_nat (length bs)) (pi_flags p)
    (pi_reader_pid p) (pi_writer_pid p) (pi_reader_open p) (pi_writer_open p).
Proof.
  intros Hp Hfit. pose proof Hp as [Hbuf Hrd Hsz Hwr Hro Hwo Hfl].
  assert (Hw : 0 <= pi_write_pos p < PIPE_BUFFER_SIZE) by (rewrite Hwr; by apply Z.mod_pos_bound).
  destruct (copy_in_spec bs p Hw Hbuf ltac:(lia)) as (Heq & Hlen & Hat).
  assert (Hs : u64 (pi_data_size p + Z.of_nat (length bs)) = pi_data_size p + Z.of_nat (length bs)).
  { apply wrap_small. unfold in_u, PIPE_BUFFER_SIZE in *. lia. }
  unfold enqueue. rewrite Hs. set (b' := pi_buffer (copy_in bs p)) in *. rewrite Heq.
  split; [|split; [|done]].
  - split; cbn; try done; [lia|]. rewrite Hwr, Zplus_mod_idemp_l. f_equal. lia.
  - apply list_eq; intros j. destruct (decide (j < Z.to_nat (pi_data_size p) + length bs)%nat) as [Hj|Hj].
    + rewrite lookup_contents by (cbn; lia). cbn [pi_buffer pi_read_pos set_pi_data_size set_pi_write_pos set_pi_buffer].
      rewrite Hat by by apply Z.mod_pos_bound. unfold ring_index. rewrite Hwr, <- Zminus_mod.
      replace (pi_read_pos p + Z.of_nat j - (pi_read_pos p + pi_data_size p))
        with (Z.of_nat j - pi_data_size p) by lia.
      destruct (decide (j < Z.to_nat (pi_data_size p))%nat) as [Hj'|Hj'].
      * rewrite lookup_app_l by by rewrite length_contents. rewrite lookup_contents by done.
        assert ((Z.of_nat j - pi_data_size p) mod PIPE_BUFFER_SIZE
                = Z.of_nat j - pi_data_size p + PIPE_BUFFER_SIZE) as ->.
        { symmetry. apply Z.mod_unique with (-1); unfold PIPE_BUFFER_SIZE in *; lia. }
        by rewrite (proj2 (Z.ltb_ge _ _)) by lia.
      * rewrite lookup_app_r by (rewrite length_contents; lia). rewrite length_contents.
        rewrite Z.mod_small by (unfold PIPE_BUFFER_SIZE in *; lia).
        rewrite (proj2 (Z.ltb_lt _ _)) by lia. unfold byte_at.
        replace (Z.to_nat (Z.of_nat j - pi_data_size p)) with (j - Z.to_nat (pi_data_size p))%nat by lia.
        destruct (lookup_lt_is_Some_2 bs (j - Z.to_nat (pi_data_size p))) as [x ->]; [lia|done].
    + rewrite !(proj2 (lookup_ge_None _ _)); [done|rewrite length_app|]; rewrite length_contents; cbn; lia.
Qed.

Lemma dequeue_spec n p :
  pipe_ok p -> 0 <= n <= pi_data_size p ->
  pipe_ok (dequeue n p) /\ contents (dequeue n p) = drop (Z.to_nat n) (contents p) /\
  pi_data_size (dequeue n p) = pi_data_size p - n.
Proof.
  intros Hp Hn. pose proof Hp as [Hbuf Hrd Hsz Hwr Hro Hwo Hfl].
  assert (Hs : u64 (pi_data_size p - n) = pi_data_size p - n).
  { apply wrap_small. unfold in_u, PIPE_BUFFER_SIZE in *. lia. }
  unfold dequeue. rewrite Hs. split_and!; [|..|done].
  - split; cbn; try done; [by apply Z.mod_pos_bound|lia|].
    rewrite Hwr, Zplus_mod_idemp_l. f_equal. lia.
  - apply list_eq; intros j. rewrite lookup_drop.
    destruct (decide (j < Z.to_nat (pi_data_size p - n))%nat) as [Hj|Hj].
    + rewrite !lookup_contents by (cbn; lia). cbn [pi_buffer pi_read_pos set_pi_data_size set_pi_read_pos].
      rewrite Zplus_mod_idemp_l. do 3 f_equal. lia.
    + rewrite !(proj2 (lookup_ge_None _ _)); [done|..]; rewrite length_contents; cbn; lia.
Qed.

Lemma copy_out_contents n p :
  pipe_ok p -> 0 <= n <= pi_data_size p ->
  copy_out (Z.to_nat n) p =
    (take (Z.to_nat n) (contents p), set_pi_read_pos ((pi_read_pos p + n) mod PIPE_BUFFER_SIZE) p).
Proof.
  intros Hp Hn. rewrite copy_out_spec by apply Hp. rewrite Z2Nat.id by lia. f_equal.
  unfold contents. rewrite <- fmap_take. f_equal. rewrite take_seq. f_equal. lia.
Qed.

(** ** Pipes in the kernel state *)

Section Pipe_facts.
Context `{!Allocator H}.
Variable call_handler : Z -> Z -> kernel H -> option (kernel H).
Implicit Types (k : kernel H).

Lemma pipe_at_upd i f k j :
  pipe_at (upd_pipe i f k) j =
  if decide (i = j /\ (j < length (pipes k))%nat) then f (pipe_at k j) else pipe_at k j.
Proof.
  unfold pipe_at, pipe_in, upd_pipe. cbn [pipes set_pipes].
  destruct (decide (i = j)) as [->|Hne].
  - rewrite list_lookup_alter_eq. destruct (pipes k !! j) eqn:E; simpl.
    + rewrite decide_True; [done|]. split; [done|]. by eapply lookup_lt_Some.
    + rewrite decide_False; [done|]. intros [_ Hl]. apply lookup_ge_None in E. lia.
  - rewrite list_lookup_alter_ne by done. by rewrite decide_False by naive_solver.
Qed.

Lemma pipe_at_upd_eq i f k : (i < length (pipes k))%nat -> pipe_at (upd_pipe i f k) i = f (pipe_at k i).
Proof. intros. by rewrite pipe_at_upd, decide_True. Qed.

Lemma pipe_at_upd_ne i f k j : i <> j -> pipe_at (upd_pipe i f k) j = pipe_at k j.
Proof. intros. by rewrite pipe_at_upd, decide_False by naive_solver. Qed.

Lemma wf_set_pipes ps next k :
  kernel_wf k -> pipes_ok next ps -> kernel_wf (set_pipes ps (set_next_pipe_id next k)).
Proof. intros [] ?; by split. Qed.

(** An update that keeps the identity and the ends of a pipe. *)
Lemma wf_upd_pipe i f k :
  kernel_wf k -> pipe_ok (f (pipe_at k i)) -> pi_id (f (pipe_at k i)) = pi_id (pipe_at k i) ->
  pi_reader_open (f (pipe_at k i)) = pi_reader_open (pipe_at k i) ->
  pi_writer_open (f (pipe_at k i)) = pi_writer_open (pipe_at k i) ->
  kernel_wf (upd_pipe i f k).
Proof.
  intros Hk Hp Hid Hr Hw. pose proof (wf_pipes k Hk) as Hps.
  assert (Hg : forall j, pipe_ok (pipe_at (upd_pipe i f k) j) /\
    pi_id (pipe_at (upd_pipe i f k) j) = pi_id (pipe_at k j) /\
    pi_reader_open (pipe_at (upd_pipe i f k) j) = pi_reader_open (pipe_at k j) /\
    pi_writer_open (pipe_at (upd_pipe i f k) j) = pi_writer_open (pipe_at k j)).
  { intros j. rewrite pipe_at_upd. case_decide as Hd; [destruct Hd as [<- _]; done|].
    split_and!; try done. apply (pipes_ok_each _ _ Hps). }
  change (upd_pipe i f k) with (set_pipes (pipes (upd_pipe i f k)) (set_next_pipe_id (next_pipe_id k) k)).
  apply wf_set_pipes; [done|]. split.
  - cbn [pipes upd_pipe set_pipes]. rewrite length_alter. apply Hps.
  - apply Hps.
  - intros j. apply Hg.
  - intros j. fold (pipe_at (upd_pipe i f k) j). destruct (Hg j) as (_ & -> & _). apply (pipes_ok_id _ _ Hps).
  - intros j j'. fold (pipe_at (upd_pipe i f k) j) (pipe_at (upd_pipe i f k) j').
    destruct (Hg j) as (_ & -> & _), (Hg j') as (_ & -> & _). apply (pipes_ok_unique _ _ Hps).
  - intros j. fold (pipe_at (upd_pipe i f k) j). destruct (Hg j) as (_ & -> & -> & ->).
    apply (pipes_ok_free _ _ Hps).
Qed.

(** [if (pid != 0) unblock_process(pid)] *)
Definition wake_peer (pid : Z) k : kernel H := if negb (pid =? 0) then unblock_process pid k else k.

Definition unblocked (p : process) : process :=
  if decide (p_state p = PROCESS_STATE_BLOCKED) then set_p_state PROCESS_STATE_READY p else p.

Lemma wf_unblock pid k : kernel_wf k -> kernel_wf (unblock_process pid k).
Proof.
  intros. unfold unblock_process. case_match; [|done]. case_decide; [|done]. by apply wf_set_p_state.
Qed.

Lemma wake_peer_spec pid k :
  kernel_wf k ->
  kernel_wf (wake_peer pid k) /\ pipes (wake_peer pid k) = pipes k /\
  next_pipe_id (wake_peer pid k) = next_pipe_id k /\
  forall j, proc (wake_peer pid k) j =
    if decide (pid <> 0 /\ p_pid (proc k j) = pid) then unblocked (proc k j) else proc k j.
Proof.
  intros Hk. unfold wake_peer. destruct (Z.eqb_spec pid 0) as [->|Hp]; cbn [negb].
  { by split_and!. }
  unfold unblock_process. destruct (get_process pid k) as [i|] eqn:Hg.
  - pose proof (get_process_Some _ _ _ Hg) as [Hi Hpi].
    assert (Hj : forall j, p_pid (proc k j) = pid -> j = i).
    { intros j Hpj. pose proof (get_process_pid k j Hk) as Hgj. rewrite Hpj, Hg in Hgj.
      specialize (Hgj Hp). congruence. }
    split_and!.
    + apply (wf_unblock pid k) in Hk. unfold unblock_process in Hk. by rewrite Hg in Hk.
    + by case_decide.
    + by case_decide.
    + intros j. destruct (decide (pid <> 0 /\ p_pid (proc k j) = pid)) as [[_ Hpj]|Hn].
      * rewrite (Hj j Hpj). unfold unblocked. case_decide; [by rewrite proc_upd_eq|done].
      * case_decide; [|done]. rewrite proc_upd_ne; [done|]. intros ->. by apply Hn.
  - split_and!; try done. intros j. rewrite decide_False; [done|]. intros [_ Hpj].
    pose proof (get_process_pid k j Hk) as Hgj. rewrite Hpj, Hg in Hgj. by specialize (Hgj Hp).
Qed.

(** Reading is removing the first bytes of the queue. *)
Lemma read_data_spec i count k :
  kernel_wf k -> 0 <= count ->
  let p := pipe_at k i in
  let m := Z.min count (pi_data_size p) in
  read_data i count k =
    (m, take (Z.to_nat m) (contents p),
     wake_peer (pi_writer_pid p) (upd_pipe i (fun _ => dequeue m p) k)) /\
  pipe_ok (dequeue m p).
Proof.
  intros Hk Hc p m. unfold read_data. fold p.
  pose proof (pipes_ok_each _ _ (wf_pipes k Hk) i) as Hp. fold (pipe_at k i) in Hp. fold p in Hp.
  pose proof (pipe_ok_size p Hp).
  replace (if count <? pi_data_size p then count else pi_data_size p) with m by (unfold m; split_if; lia).
  rewrite copy_out_contents by (done || (unfold m; lia)).
  rewrite s32_small by (unfold in_s32, m, PIPE_BUFFER_SIZE in *; lia).
  split; [done|]. apply dequeue_spec; [done|]. unfold m; lia.
Qed.

(** One round of [pipe_write] appends what fits. *)
Lemma write_data_spec i buf w k :
  kernel_wf k -> 0 <= w <= Z.of_nat (length buf) -> Z.of_nat (length buf) < 2 ^ 31 ->
  let p := pipe_at k i in
  let m := Z.min (Z.of_nat (length buf) - w) (PIPE_BUFFER_SIZE - pi_data_size p) in
  let bs := take (Z.to_nat m) (drop (Z.to_nat w) buf) in
  write_data i buf w k =
    (w + m, wake_peer (pi_reader_pid p) (upd_pipe i (fun _ => enqueue bs p) k)) /\
  Z.of_nat (length bs) = m /\ pipe_ok (enqueue bs p) /\ contents (enqueue bs p) = contents p ++ bs /\
  pi_data_size (enqueue bs p) = pi_data_size p + m.
Proof.
  intros Hk Hw Hb p m bs. unfold write_data. fold p.
  pose proof (pipes_ok_each _ _ (wf_pipes k Hk) i) as Hp. fold (pipe_at k i) in Hp. fold p in Hp.
  pose proof (pipe_ok_size p Hp).
  rewrite (wrap_small 64) by (unfold in_u, PIPE_BUFFER_SIZE in *; lia).
  replace (if _ <? _ then _ else _) with m by (unfold m; split_if; lia).
  assert (Hlen : Z.of_nat (length bs) = m) by (unfold bs, m; rewrite length_take, length_drop; lia).
  fold bs. destruct (enqueue_spec bs p Hp) as (Hok & Hc & Hs & Heq); [rewrite Hlen; unfold m; lia|].
  split_and!; [|done..|lia]. f_equal. unfold wake_peer.
  assert (Hen : set_pi_data_size (u64 (pi_data_size (copy_in bs p) + m)) (copy_in bs p) = enqueue bs p).
  { unfold enqueue. rewrite Hlen. do 2 f_equal.
    assert (pi_data_size (copy_in bs p) = pi_data_size p) as ->; [|done].
    assert (Hwp : 0 <= pi_write_pos p < PIPE_BUFFER_SIZE)
      by (rewrite (pipe_ok_write p Hp); by apply Z.mod_pos_bound).
    destruct (copy_in_spec bs p Hwp (pipe_ok_buffer p Hp) ltac:(lia)) as (-> & _). done. }
  rewrite Hen. by rewrite Heq.
Qed.
End Pipe_facts.

(** ** Descriptors *)

Lemma fd_shift id m : 0 <= id < 2 ^ 61 -> 0 <= m < 8 -> Z.shiftr (Z.lor (u64 (Z.shiftl id 3)) m) 3 = id.
Proof.
  intros Hid Hm. apply Z.bits_inj'; intros n Hn.
  rewrite Z.shiftr_spec, Z.lor_spec, testbit_wrap, Z.shiftl_spec by lia.
  rewrite (testbit_high 3 m (n + 3)) by (unfold in_u; lia).
  rewrite orb_false_r. replace (n + 3 - 3) with n by lia.
  destruct (Z.ltb_spec (n + 3) 64); [done|]. simpl.
  symmetry. apply (testbit_high 61); [done|lia].
Qed.

Lemma fd_flag id m f :
  0 <= m < 8 -> 0 <= f < 8 -> has_flag (Z.lor (u64 (Z.shiftl id 3)) m) f = negb (Z.land m f =? 0).
Proof.
  intros Hm Hf. unfold has_flag. do 2 f_equal. rewrite Z.land_comm, Z.land_lor_distr_r.
  assert (Z.land f (u64 (Z.shiftl id 3)) = 0) as ->.
  { apply Z.bits_inj'; intros n Hn. rewrite Z.land_spec, testbit_wrap, Z.shiftl_spec, Z.bits_0 by lia.
    destruct (decide (n < 3)); [by rewrite (Z.testbit_neg_r id), !andb_false_r by lia|].
    by rewrite (testbit_high 3 f n) by (done || lia). }
  by rewrite Z.lor_0_l, Z.land_comm.
Qed.

Section Pipe_table.
Context `{!Allocator H}.
Implicit Types (k : kernel H).

Lemma pipe_get_by_fd_Some fd k i :
  pipe_get_by_fd fd k = Some i -> (i < length (pipes k))%nat /\ pi_id (pipe_at k i) = Z.shiftr fd 3.
Proof.
  unfold pipe_get_by_fd, pipe_at, pipe_in. intros Hg. pose proof (find_idx_lt _ _ _ Hg).
  apply find_idx_Some in Hg as [(p & Hp & He) _]. split; [done|]. rewrite Hp. simpl. by apply Z.eqb_eq.
Qed.

(** A nonzero id designates one pipe. *)
Lemma pipe_get_by_fd_id fd k i :
  kernel_wf k -> pi_id (pipe_at k i) = Z.shiftr fd 3 -> Z.shiftr fd 3 <> 0 -> pipe_get_by_fd fd k = Some i.
Proof.
  intros Hk Hi Hn. apply find_idx_Some. split.
  - unfold pipe_at, pipe_in in Hi. destruct (pipes k !! i) as [p|] eqn:E.
    + exists p. split; [done|]. by apply Z.eqb_eq.
    + exfalso. apply Hn. by rewrite <- Hi.
  - intros j p Hj Hl. apply Z.eqb_neq. intros Heq.
    assert (Hpj : pi_id (pipe_at k j) = Z.shiftr fd 3) by (unfold pipe_at, pipe_in; by rewrite Hl).
    assert (i = j); [|lia]. apply (pipes_ok_unique _ _ (wf_pipes k Hk)); [|].
    + fold (pipe_at k i). by rewrite Hi.
    + fold (pipe_at k i) (pipe_at k j). by rewrite Hi, Hpj.
Qed.

Lemma wf_pipe_create k : kernel_wf k -> next_pipe_id k < 2 ^ 61 -> kernel_wf (pipe_create k).2.
Proof.
  intros Hk Hn. unfold pipe_create. destruct (find_idx _ (pipes k)) as [i|] eqn:Hf; [|done].
  cbn [snd]. pose proof (wf_pipes k Hk) as Hps. pose proof (pipes_ok_next _ _ Hps).
  replace (u64 (next_pipe_id k + 1)) with (next_pipe_id k + 1) by (rewrite wrap_small; unfold in_u; lia).
  set (f := fun p => _). set (k1 := upd_pipe i f _).
  assert (Hi : (i < length (pipes k))%nat) by by eapply find_idx_lt.
  assert (Hat : forall j, pipe_at k1 j = if decide (i = j) then f (pipe_at k j) else pipe_at k j).
  { intros j. unfold k1. rewrite pipe_at_upd. change (pipe_at (set_next_pipe_id ?x k) j) with (pipe_at k j).
    change (pipes (set_next_pipe_id ?x k)) with (pipes k).
    destruct (decide (i = j)) as [<-|Hne]; [by rewrite decide_True|].
    by rewrite decide_False by (intros []; done). }
  change k1 with (set_pipes (pipes k1) (set_next_pipe_id (next_pipe_id k + 1) k)).
  apply wf_set_pipes; [done|]. split.
  - unfold k1. cbn [pipes upd_pipe set_pipes]. rewrite length_alter. apply Hps.
  - lia.
  - intros j. fold (pipe_at k1 j). rewrite Hat. case_decide as Hd; [|apply (pipes_ok_each _ _ Hps)].
    pose proof (pipes_ok_each _ _ Hps j) as [Hb _ _ _ _ _ _]. fold (pipe_at k j) in Hb.
    split; unfold PIPE_BUFFER_SIZE in *; cbn; try done; try lia; by right.
  - intros j. fold (pipe_at k1 j). rewrite Hat. pose proof (pipes_ok_id _ _ Hps j). fold (pipe_at k j) in *.
    case_decide; cbn; lia.
  - intros j j'. fold (pipe_at k1 j) (pipe_at k1 j'). rewrite !Hat.
    pose proof (pipes_ok_id _ _ Hps j). pose proof (pipes_ok_id _ _ Hps j').
    pose proof (pipes_ok_unique _ _ Hps j j').
    fold (pipe_at k j) in *. fold (pipe_at k j') in *. repeat case_decide; subst; cbn; try done; lia.
  - intros j. fold (pipe_at k1 j). rewrite Hat. pose proof (pipes_ok_free _ _ Hps j). fold (pipe_at k j) in *.
    case_decide; cbn; [lia|done].
Qed.

(** A conditional update is an update by a conditional function. *)
Lemma upd_pipe_cond (b : pipe -> bool) i f k :
  (i < length (pipes k))%nat ->
  (if b (pipe_at k i) then upd_pipe i f k else k) = upd_pipe i (fun p => if b p then f p else p) k.
Proof.
  intros Hi. apply lookup_lt_is_Some in Hi as [p Hp].
  assert (Hat : pipe_at k i = p) by (unfold pipe_at, pipe_in; by rewrite Hp).
  rewrite Hat. unfold upd_pipe.
  assert (Hext : forall g, g p = (if b p then f p else p) ->
    alter (fun p => if b p then f p else p) i (pipes k) = alter g i (pipes k)).
  { intros g Hgp. apply list_eq; intros j. destruct (decide (i = j)) as [<-|Hne].
    - rewrite !list_lookup_alter_eq, Hp. simpl. by rewrite Hgp.
    - by rewrite !list_lookup_alter_ne. }
  destruct (b p) eqn:E; [by rewrite (Hext f)|]. rewrite (Hext (fun p => p)) by done.
  rewrite alter_same by done. by destruct k.
Qed.

(** What [pipe_close] does to its pipe. *)
Definition close_end (fd : Z) (p : pipe) : pipe :=
  let p := if has_flag fd PIPE_FLAG_READABLE then set_pi_reader_open 0 p else p in
  let p := if has_flag fd PIPE_FLAG_WRITABLE then set_pi_writer_open 0 p else p in
  if (pi_reader_open p =? 0) && (pi_writer_open p =? 0) then set_pi_id 0 p else p.

Lemma upd_pipe_twice i f g k : upd_pipe i f (upd_pipe i g k) = upd_pipe i (fun p => f (g p)) k.
Proof. unfold upd_pipe. cbn [pipes set_pipes]. by rewrite alter_twice. Qed.

Lemma pipe_close_eq fd i k :
  pipe_get_by_fd fd k = Some i -> pipe_close fd k = (PIPE_SUCCESS, upd_pipe i (close_end fd) k).
Proof.
  intros Hg. unfold pipe_close. rewrite Hg. apply pipe_get_by_fd_Some in Hg as [Hi _]. cbv zeta.
  rewrite (upd_pipe_cond (fun _ => has_flag fd PIPE_FLAG_READABLE)) by done.
  set (k1 := upd_pipe i _ k).
  assert (Hi1 : (i < length (pipes k1))%nat) by (unfold k1; cbn; by rewrite length_alter).
  rewrite (upd_pipe_cond (fun _ => has_flag fd PIPE_FLAG_WRITABLE)) by done.
  set (k2 := upd_pipe i _ k1).
  assert (Hi2 : (i < length (pipes k2))%nat) by (unfold k2; cbn; by rewrite length_alter).
  rewrite (upd_pipe_cond (fun p => (pi_reader_open p =? 0) && (pi_writer_open p =? 0))) by done.
  unfold k2, k1. by rewrite !upd_pipe_twice.
Qed.

Lemma close_end_ok fd p : pipe_ok p -> pipe_ok (close_end fd p).
Proof.
  intros Hp. unfold close_end.
  assert (Hr : pipe_ok (set_pi_reader_open 0 p)) by (destruct Hp; split; cbn; auto).
  set (p1 := if has_flag fd PIPE_FLAG_READABLE then _ else _).
  assert (H1 : pipe_ok p1) by (unfold p1; by split_if).
  assert (Hw : pipe_ok (set_pi_writer_open 0 p1)) by (destruct H1; split; cbn; auto).
  cbv zeta. set (p2 := if has_flag fd PIPE_FLAG_WRITABLE then _ else _).
  assert (H2 : pipe_ok p2) by (unfold p2; by split_if).
  split_if; [destruct H2; split; cbn; auto|done].
Qed.

Lemma close_end_id fd p :
  (pi_id (close_end fd p) = pi_id p \/
   pi_id (close_end fd p) = 0 /\ pi_reader_open (close_end fd p) = 0 /\ pi_writer_open (close_end fd p) = 0) /\
  (pi_reader_open p = 0 -> pi_reader_open (close_end fd p) = 0) /\
  (pi_writer_open p = 0 -> pi_writer_open (close_end fd p) = 0).
Proof.
  unfold close_end. destruct (has_flag fd PIPE_FLAG_READABLE), (has_flag fd PIPE_FLAG_WRITABLE); cbn;
    repeat split_if; cbn; tauto || (zify_bool; tauto).
Qed.

Lemma wf_pipe_close fd k : kernel_wf k -> kernel_wf (pipe_close fd k).2.
Proof.
  intros Hk. destruct (pipe_get_by_fd fd k) as [i|] eqn:Hg.
  2:{ unfold pipe_close. by rewrite Hg. }
  rewrite (pipe_close_eq fd i k Hg). cbn [snd]. apply pipe_get_by_fd_Some in Hg as [Hi _].
  pose proof (wf_pipes k Hk) as Hps. set (k1 := upd_pipe i _ k).
  assert (Hat : forall j, pipe_at k1 j = if decide (i = j) then close_end fd (pipe_at k j) else pipe_at k j).
  { intros j. unfold k1. rewrite pipe_at_upd.
    destruct (decide (i = j)) as [<-|Hne]; [by rewrite decide_True|].
    by rewrite decide_False by (intros []; done). }
  change k1 with (set_pipes (pipes k1) (set_next_pipe_id (next_pipe_id k) k)).
  assert (Hid : forall j, pi_id (pipe_at k1 j) = pi_id (pipe_at k j) \/ pi_id (pipe_at k1 j) = 0).
  { intros j. rewrite Hat. case_decide; [|by left].
    destruct (close_end_id fd (pipe_at k j)) as ([->|[-> _]] & _); auto. }
  apply wf_set_pipes; [done|]. split.
  - unfold k1. cbn [pipes upd_pipe set_pipes]. rewrite length_alter. apply Hps.
  - apply Hps.
  - intros j. fold (pipe_at k1 j). rewrite Hat. pose proof (pipes_ok_each _ _ Hps j).
    case_decide; [by apply close_end_ok|done].
  - intros j. fold (pipe_at k1 j). pose proof (pipes_ok_id _ _ Hps j). pose proof (pipes_ok_next _ _ Hps).
    fold (pipe_at k j) in *. destruct (Hid j) as [-> | ->]; lia.
  - intros j j'. fold (pipe_at k1 j) (pipe_at k1 j'). intros Hn Heq.
    pose proof (pipes_ok_unique _ _ Hps j j') as Hu. fold (pipe_at k j) (pipe_at k j') in Hu.
    destruct (Hid j) as [Hj|Hj]; [|congruence]. destruct (Hid j') as [Hj'|Hj']; [|congruence].
    apply Hu; congruence.
  - intros j. fold (pipe_at k1 j). rewrite Hat. pose proof (pipes_ok_free _ _ Hps j) as Hfree.
    fold (pipe_at k j) in Hfree. case_decide; [|done].
    destruct (close_end_id fd (pipe_at k j)) as ([->|(-> & -> & ->)] & Hr & Hw); [|done].
    intros Hz. destruct (Hfree Hz). auto.
Qed.
End Pipe_table.

(** ** Properties *)

(** The entry of a process after the peer [pid] of a pipe has been woken. *)
Definition peer_woken (pid : Z) (p : process) : process :=
  if decide (pid <> 0 /\ p_pid p = pid) then unblocked p else p.

Section Transfer.
Context `{!Allocator H}.
Variable call_handler : Z -> Z -> kernel H -> option (kernel H).
Implicit Types (k : kernel H).

(** The id, the flags, the ends and their processes are those of [p]. *)
Definition same_ends (p p' : pipe) : Prop :=
  pi_id p' = pi_id p /\ pi_flags p' = pi_flags p /\
  pi_reader_pid p' = pi_reader_pid p /\ pi_writer_pid p' = pi_writer_pid p /\
  pi_reader_open p' = pi_reader_open p /\ pi_writer_open p' = pi_writer_open p.

(** Only the tables of pipes and of processes differ: the heap, the screen, the
    running process, the counters and the timer are those of [k]. *)
Definition same_but_tables k k' : Prop := k' = set_processes (processes k') (set_pipes (pipes k') k).

Lemma same_but_tables_refl k : same_but_tables k k.
Proof. by destruct k. Qed.

Lemma wake_peer_frame pid k : same_but_tables k (wake_peer pid k).
Proof.
  unfold wake_peer, unblock_process. split_if; [|apply same_but_tables_refl].
  case_match; [|apply same_but_tables_refl]. case_decide; [|apply same_but_tables_refl]. by destruct k.
Qed.

Lemma wake_peer_upd_frame pid i f k : same_but_tables k (wake_peer pid (upd_pipe i f k)).
Proof.
  pose proof (wake_peer_frame pid (upd_pipe i f k)) as Hf. unfold same_but_tables in *.
  rewrite Hf at 1. by destruct k.
Qed.

(** The state after [pipe_write] has appended [bs]. *)
Definition written i bs k : kernel H :=
  wake_peer (pi_reader_pid (pipe_at k i)) (upd_pipe i (fun _ => enqueue bs (pipe_at k i)) k).

(** The state after [pipe_read] has removed [m] bytes. *)
Definition consumed i m k : kernel H :=
  wake_peer (pi_writer_pid (pipe_at k i)) (upd_pipe i (fun _ => dequeue m (pipe_at k i)) k).

Lemma written_spec i bs k :
  kernel_wf k -> (i < length (pipes k))%nat ->
  pi_data_size (pipe_at k i) + Z.of_nat (length bs) <= PIPE_BUFFER_SIZE ->
  kernel_wf (written i bs k) /\ pipe_at (written i bs k) i = enqueue bs (pipe_at k i) /\
  (forall j, j <> i -> pipe_at (written i bs k) j = pipe_at k j) /\
  forall j, proc (written i bs k) j = peer_woken (pi_reader_pid (pipe_at k i)) (proc k j).
Proof.
  intros Hk Hi Hfit. pose proof (pipes_ok_each _ _ (wf_pipes k Hk) i) as Hp. fold (pipe_at k i) in Hp.
  destruct (enqueue_spec bs (pipe_at k i) Hp Hfit) as (Hok & _ & _ & Heq).
  set (k1 := upd_pipe i (fun _ => enqueue bs (pipe_at k i)) k).
  assert (Hk1 : kernel_wf k1) by (apply wf_upd_pipe; [done|done|..]; by rewrite Heq).
  destruct (wake_peer_spec (pi_reader_pid (pipe_at k i)) k1 Hk1) as (Hk2 & Hps2 & _ & Hp2).
  assert (Hat : forall j, pipe_at (written i bs k) j = pipe_at k1 j)
    by (intros; unfold pipe_at at 1; unfold written; fold k1; by rewrite Hps2).
  split_and!; [exact Hk2| | |exact Hp2].
  - rewrite Hat. unfold k1. by rewrite pipe_at_upd_eq.
  - intros j Hj. rewrite Hat. unfold k1. by rewrite pipe_at_upd_ne.
Qed.

Lemma consumed_spec i m k :
  kernel_wf k -> (i < length (pipes k))%nat -> 0 <= m <= pi_data_size (pipe_at k i) ->
  kernel_wf (consumed i m k) /\ pipe_at (consumed i m k) i = dequeue m (pipe_at k i) /\
  (forall j, j <> i -> pipe_at (consumed i m k) j = pipe_at k j) /\
  forall j, proc (consumed i m k) j = peer_woken (pi_writer_pid (pipe_at k i)) (proc k j).
Proof.
  intros Hk Hi Hm. pose proof (pipes_ok_each _ _ (wf_pipes k Hk) i) as Hp. fold (pipe_at k i) in Hp.
  destruct (dequeue_spec m (pipe_at k i) Hp Hm) as (Hok & _).
  set (k1 := upd_pipe i (fun _ => dequeue m (pipe_at k i)) k).
  assert (Hk1 : kernel_wf k1) by by apply wf_upd_pipe.
  destruct (wake_peer_spec (pi_writer_pid (pipe_at k i)) k1 Hk1) as (Hk2 & Hps2 & _ & Hp2).
  assert (Hat : forall j, pipe_at (consumed i m k) j = pipe_at k1 j)
    by (intros; unfold pipe_at at 1; unfold consumed; fold k1; by rewrite Hps2).
  split_and!; [exact Hk2| | |exact Hp2].
  - rewrite Hat. unfold k1. by rewrite pipe_at_upd_eq.
  - intros j Hj. rewrite Hat. unfold k1. by rewrite pipe_at_upd_ne.
Qed.

(** The room of pipe [i] for a buffer. *)
Definition room i (buf : list Z) k : Z :=
  Z.min (Z.of_nat (length buf)) (PIPE_BUFFER_SIZE - pi_data_size (pipe_at k i)).

(** The guards of [pipe_write]. *)
Definition can_write (fd : Z) i k : Prop :=
  pipe_get_by_fd fd k = Some i /\ pi_reader_open (pipe_at k i) = 1 /\
  pi_writer_open (pipe_at k i) = 1 /\ has_flag fd PIPE_FLAG_WRITABLE = true.

Lemma pipe_write_state n fuel fd buf k i :
  kernel_wf k -> can_write fd i k -> Z.of_nat (length buf) < 2 ^ 31 ->
  room i buf k = Z.of_nat (length buf) \/ has_flag (pi_flags (pipe_at k i)) PIPE_FLAG_NONBLOCK = true ->
  pipe_write call_handler (S (S n)) fuel fd buf k =
    if room i buf k =? 0 then Some (if 0 <? Z.of_nat (length buf) then PIPE_ERROR_FULL else 0, k)
    else Some (room i buf k, written i (take (Z.to_nat (room i buf k)) buf) k).
Proof.
  intros Hk (Hg & Hro & Hwo & Hfl) Hlen Hcase.
  pose proof (pipe_get_by_fd_Some _ _ _ Hg) as [Hi _].
  pose proof (pipes_ok_each _ _ (wf_pipes k Hk) i) as Hp. fold (pipe_at k i) in Hp.
  pose proof (pipe_ok_size _ Hp) as Hsz.
  unfold pipe_write. rewrite Hg, Hwo, Hfl, Hro. cbn [Z.eqb negb orb]. cbn [write_loop].
  set (len := Z.of_nat (length buf)) in *. unfold room in *. fold len in Hcase |- *.
  set (m := Z.min len _) in *.
  destruct (Z.leb_spec len 0) as [Hz|Hz].
  { assert (len = 0) as Hl0 by (unfold len in *; lia). assert (m = 0) as -> by (unfold m; lia).
    by rewrite Hl0. }
  rewrite (proj2 (Z.ltb_lt 0 len)) by done.
  destruct (Z.eqb_spec (pi_data_size (pipe_at k i)) PIPE_BUFFER_SIZE) as [Hfull|Hfull].
  { assert (m = 0) as Hm by (unfold m; lia). destruct Hcase as [Hc|Hnb]; [lia|].
    by rewrite Hnb, Hm. }
  destruct (write_data_spec i buf 0 k Hk ltac:(lia) Hlen) as (Hw & Hbs & Hok & Hc & Hs).
  rewrite Z.sub_0_r in *. change (Z.to_nat 0) with 0%nat in *. rewrite drop_0 in *.
  fold len in Hw, Hbs, Hok, Hc, Hs. fold m in Hw, Hbs, Hok, Hc, Hs.
  rewrite Hw, Z.add_0_l. rewrite (proj2 (Z.eqb_neq m 0)) by (unfold m; lia).
  set (bs := take (Z.to_nat m) buf) in *. change (wake_peer _ _) with (written i bs k).
  assert (Hfit : pi_data_size (pipe_at k i) + Z.of_nat (length bs) <= PIPE_BUFFER_SIZE)
    by (rewrite Hbs; unfold m; lia).
  destruct (written_spec i bs k Hk Hi Hfit) as (_ & Hati & _).
  cbn [write_loop]. fold len. destruct (Z.leb_spec len m) as [Hlm|Hlm].
  { assert (m = len) as -> by (unfold m in *; lia). rewrite s32_small; [done|]. unfold in_s32. lia. }
  destruct Hcase as [?|Hnb]; [lia|].
  rewrite Hati, Hs. rewrite (proj2 (Z.eqb_eq _ PIPE_BUFFER_SIZE)) by (unfold m in *; lia).
  destruct (enqueue_spec bs _ Hp Hfit) as (_ & _ & _ & ->). cbn [pi_flags].
  rewrite Hnb, (proj2 (Z.ltb_lt 0 m)) by (unfold m; lia).
  rewrite s32_small; [done|]. unfold in_s32, m, PIPE_BUFFER_SIZE in *. lia.
Qed.

Lemma pipe_read_state n fuel fd count k i :
  kernel_wf k -> pipe_get_by_fd fd k = Some i -> 0 <= count ->
  pi_reader_open (pipe_at k i) = 1 -> has_flag fd PIPE_FLAG_READABLE = true ->
  pi_data_size (pipe_at k i) <> 0 ->
  let m := Z.min count (pi_data_size (pipe_at k i)) in
  pipe_read call_handler n fuel fd count k =
    Some (m, take (Z.to_nat m) (contents (pipe_at k i)), consumed i m k).
Proof.
  intros Hk Hg Hcount Hro Hfl Hsize m. unfold pipe_read. rewrite Hg, Hro, Hfl. cbn [Z.eqb negb orb].
  rewrite (proj2 (Z.eqb_neq _ _) Hsize). by destruct (read_data_spec i count k Hk Hcount) as [-> _].
Qed.
End Transfer.

(** C6. Writing to an open pipe appends to its queue: the whole buffer when it
    fits, else, on a non-blocking pipe, the prefix that fits; the result is the
    number of bytes appended, or "full" when there is no room at all.  (A blocking
    write that does not fit waits, and is not covered.)  The pipe keeps its id,
    its flags and its ends, the reader is woken, and nothing else of the kernel
    changes: no other pipe or process, no counter, not the heap, the screen, the
    running process or the timer. *)
Theorem pipe_write_fifo `{!Allocator H} call_handler n fuel fd buf (k : kernel H) i :
  kernel_wf k -> can_write fd i k -> Z.of_nat (length buf) < 2 ^ 31 ->
  let p := pipe_at k i in
  let len := Z.of_nat (length buf) in
  let m := Z.min len (PIPE_BUFFER_SIZE - pi_data_size p) in
  m = len \/ has_flag (pi_flags p) PIPE_FLAG_NONBLOCK = true ->
  exists k', pipe_write call_handler (S (S n)) fuel fd buf k
      = Some (if (m =? 0) && (0 <? len) then PIPE_ERROR_FULL else m, k') /\
    kernel_wf k' /\ contents (pipe_at k' i) = contents p ++ take (Z.to_nat m) buf /\
    same_ends p (pipe_at k' i) /\ same_but_tables k k' /\
    (forall j, j <> i -> pipe_at k' j = pipe_at k j) /\
    forall j, proc k' j = if m =? 0 then proc k j else peer_woken (pi_reader_pid p) (proc k j).
Proof.
  intros Hk Hcan Hlen p len m Hcase. pose proof Hcan as (Hg & _).
  pose proof (pipe_get_by_fd_Some _ _ _ Hg) as [Hi _].
  pose proof (pipes_ok_each _ _ (wf_pipes k Hk) i) as Hp. fold (pipe_at k i) in Hp.
  pose proof (pipe_ok_size _ Hp) as Hsz.
  rewrite (pipe_write_state call_handler n fuel fd buf k i Hk Hcan Hlen Hcase).
  change (room i buf k) with m. fold len. destruct (Z.eqb_spec m 0) as [Hm|Hm]; cbn [andb].
  - exists k. rewrite Hm.
    split_and!; try done; solve [by destruct (0 <? len)|by rewrite app_nil_r|apply same_but_tables_refl].
  - assert (Hfit : pi_data_size p + Z.of_nat (length (take (Z.to_nat m) buf)) <= PIPE_BUFFER_SIZE).
    { rewrite length_take. unfold m, len, p in *. lia. }
    destruct (written_spec i _ k Hk Hi Hfit) as (Hk' & Hat & Hother & Hpr).
    destruct (enqueue_spec _ p Hp Hfit) as (_ & Hc & _ & Hends).
    exists (written i (take (Z.to_nat m) buf) k).
    split; [done|]. split; [done|]. split; [by rewrite Hat|]. split; [by rewrite Hat; fold p; rewrite Hends|].
    split; [apply wake_peer_upd_frame|done].
Qed.

(** C7. Reading from a pipe that holds data returns the oldest bytes, at most
    [count], and removes exactly them.  The pipe keeps its id, its flags and its
    ends, the writer is woken, and nothing else of the kernel changes: no other
    pipe or process, no counter, not the heap, the screen, the running process or
    the timer. *)
Theorem pipe_read_fifo `{!Allocator H} call_handler n fuel fd count (k : kernel H) i :
  kernel_wf k -> pipe_get_by_fd fd k = Some i -> 0 <= count ->
  pi_reader_open (pipe_at k i) = 1 -> has_flag fd PIPE_FLAG_READABLE = true ->
  pi_data_size (pipe_at k i) <> 0 ->
  let p := pipe_at k i in
  let m := Z.min count (pi_data_size p) in
  exists k', pipe_read call_handler n fuel fd count k
      = Some (m, take (Z.to_nat m) (contents p), k') /\
    kernel_wf k' /\ contents (pipe_at k' i) = drop (Z.to_nat m) (contents p) /\
    same_ends p (pipe_at k' i) /\ same_but_tables k k' /\
    (forall j, j <> i -> pipe_at k' j = pipe_at k j) /\
    forall j, proc k' j = peer_woken (pi_writer_pid p) (proc k j).
Proof.
  intros Hk Hg Hcount Hro Hfl Hsize p m. pose proof (pipe_get_by_fd_Some _ _ _ Hg) as [Hi _].
  pose proof (pipes_ok_each _ _ (wf_pipes k Hk) i) as Hp. fold (pipe_at k i) in Hp.
  pose proof (pipe_ok_size _ Hp) as Hsz.
  assert (Hm : 0 <= m <= pi_data_size p) by (unfold m, p in *; lia).
  destruct (consumed_spec i m k Hk Hi Hm) as (Hk' & Hat & Hother & Hpr).
  exists (consumed i m k).
  split; [by apply pipe_read_state|]. split; [done|].
  split; [rewrite Hat; by apply dequeue_spec|]. split; [by rewrite Hat|].
  split; [apply wake_peer_upd_frame|done].
Qed.

(** A fresh pipe carries up to 4096 bytes: what is written to the write
    descriptor [pipe_create] returns is what is read, in order, from its read
    descriptor. *)
Theorem pipe_roundtrip `{!Allocator H} call_handler n fuel buf (k : kernel H) i :
  kernel_wf k -> next_pipe_id k < 2 ^ 61 -> pipe_get_by_fd 0 k = Some i ->
  buf <> [] -> Z.of_nat (length buf) <= PIPE_BUFFER_SIZE ->
  exists r w k1 k2 k3, pipe_create k = (PIPE_SUCCESS, Some (r, w), k1) /\
    pipe_write call_handler (S (S n)) fuel w buf k1 = Some (Z.of_nat (length buf), k2) /\
    pipe_read call_handler n fuel r PIPE_BUFFER_SIZE k2 = Some (Z.of_nat (length buf), buf, k3) /\
    kernel_wf k3 /\ contents (pipe_at k3 i) = [].
Proof.
  intros Hk Hid Hfree Hne Hlen. pose proof (wf_pipe_create k Hk Hid) as Hk1.
  destruct (pipe_create k) as [[r0 fds] k1] eqn:Hc. cbn [snd] in Hk1.
  pose proof (pipes_ok_next _ _ (wf_pipes k Hk)) as Hnext.
  change (find_idx (fun p => pi_id p =? 0) (pipes k) = Some i) in Hfree.
  pose proof (find_idx_lt _ _ _ Hfree) as Hi.
  unfold pipe_create in Hc. rewrite Hfree in Hc. injection Hc as <- <- Hk1eq.
  set (id := next_pipe_id k) in *.
  assert (Hp1 : pi_id (pipe_at k1 i) = id /\ pi_reader_open (pipe_at k1 i) = 1 /\
    pi_writer_open (pipe_at k1 i) = 1 /\ pi_data_size (pipe_at k1 i) = 0).
  { rewrite <- Hk1eq. rewrite pipe_at_upd_eq by done. done. }
  destruct Hp1 as (Hpid & Hro & Hwo & Hsz).
  assert (Hsr : Z.shiftr (read_fd_of id) 3 = id) by (apply fd_shift; unfold id, PIPE_FLAG_READABLE, PIPE_FLAG_WRITABLE; lia).
  assert (Hsw : Z.shiftr (write_fd_of id) 3 = id) by (apply fd_shift; unfold id, PIPE_FLAG_READABLE, PIPE_FLAG_WRITABLE; lia).
  assert (Hgr : forall k' : kernel H, kernel_wf k' -> pi_id (pipe_at k' i) = id -> pipe_get_by_fd (read_fd_of id) k' = Some i).
  { intros k' Hk' Hi'. apply pipe_get_by_fd_id; [done|by rewrite Hsr|rewrite Hsr; unfold id; lia]. }
  assert (Hgw : pipe_get_by_fd (write_fd_of id) k1 = Some i).
  { apply pipe_get_by_fd_id; [done|by rewrite Hsw|rewrite Hsw; unfold id; lia]. }
  exists (read_fd_of id), (write_fd_of id), k1.
  assert (Hcan : can_write (write_fd_of id) i k1).
  { split_and!; try done. unfold write_fd_of. rewrite fd_flag by (unfold PIPE_FLAG_WRITABLE; lia). done. }
  assert (Hbp : 0 < Z.of_nat (length buf)) by (destruct buf; [done|cbn [length]; lia]).
  assert (Hroom : room i buf k1 = Z.of_nat (length buf)) by (unfold room; rewrite Hsz; lia).
  pose proof (pipe_write_state call_handler n fuel _ buf k1 i Hk1 Hcan
    ltac:(unfold PIPE_BUFFER_SIZE in *; lia) ltac:(by left)) as Hw.
  rewrite Hroom, (proj2 (Z.eqb_neq _ 0)), Nat2Z.id, firstn_all in Hw by lia.
  set (k2 := written i buf k1) in *.
  assert (Hi1 : (i < length (pipes k1))%nat) by by apply pipe_get_by_fd_Some in Hgw as [? _].
  destruct (written_spec i buf k1 Hk1 Hi1 ltac:(rewrite Hsz; lia)) as (Hk2 & Hat2 & _). fold k2 in Hk2, Hat2.
  pose proof (pipes_ok_each _ _ (wf_pipes k1 Hk1) i) as Hpok. fold (pipe_at k1 i) in Hpok.
  destruct (enqueue_spec buf (pipe_at k1 i) Hpok ltac:(rewrite Hsz; lia)) as (Hok2 & Hc2 & Hs2 & Heq2).
  rewrite <- Hat2 in Hok2, Hc2, Hs2. rewrite Hsz, Z.add_0_l in Hs2.
  assert (Hcont : contents (pipe_at k2 i) = buf).
  { rewrite Hc2. replace (contents (pipe_at k1 i)) with (@nil Z); [done|].
    symmetry. apply nil_length_inv. by rewrite length_contents, Hsz. }
  assert (Hr2 : pi_id (pipe_at k2 i) = id /\ pi_reader_open (pipe_at k2 i) = 1) by (rewrite Hat2, Heq2; done).
  destruct Hr2 as [Hid2 Hro2].
  pose proof (pipe_read_state call_handler n fuel (read_fd_of id) PIPE_BUFFER_SIZE k2 i Hk2
    (Hgr k2 Hk2 Hid2) ltac:(done) Hro2) as Hr. cbv zeta in Hr. rewrite Hs2, Hcont, Z.min_r in Hr by lia.
  destruct (consumed_spec i (Z.of_nat (length buf)) k2 Hk2) as (Hk3 & Hat3 & _);
    [by apply pipe_get_by_fd_Some with (read_fd_of id), Hgr|lia|].
  exists k2, (consumed i (Z.of_nat (length buf)) k2). split_and!; [done|done| |done|].
  - rewrite Hr, Nat2Z.id, firstn_all; [done| |lia].
    unfold read_fd_of. rewrite fd_flag by (unfold PIPE_FLAG_READABLE; lia). done.
  - rewrite Hat3. destruct (dequeue_spec (Z.of_nat (length buf)) (pipe_at k2 i) Hok2 ltac:(lia)) as (_ & -> & _).
    by rewrite Hcont, Nat2Z.id, drop_all.
Qed.

(** Closing an end of a pipe clears its flag; the slot is freed exactly when
    both ends are closed, and no other pipe changes. *)
Theorem pipe_close_spec `{!Allocator H} fd (k : kernel H) i :
  kernel_wf k -> pipe_get_by_fd fd k = Some i -> Z.shiftr fd 3 <> 0 ->
  let p := pipe_at k i in
  exists k', pipe_close fd k = (PIPE_SUCCESS, k') /\ kernel_wf k' /\
    pi_reader_open (pipe_at k' i) = (if has_flag fd PIPE_FLAG_READABLE then 0 else pi_reader_open p) /\
    pi_writer_open (pipe_at k' i) = (if has_flag fd PIPE_FLAG_WRITABLE then 0 else pi_writer_open p) /\
    (pi_id (pipe_at k' i) = 0 <->
       pi_reader_open (pipe_at k' i) = 0 /\ pi_writer_open (pipe_at k' i) = 0) /\
    contents (pipe_at k' i) = contents p /\
    forall j, j <> i -> pipe_at k' j = pipe_at k j.
Proof.
  intros Hk Hg Hn p. pose proof (wf_pipe_close fd k Hk) as Hk'.
  pose proof (pipe_get_by_fd_Some _ _ _ Hg) as [Hi Hid]. fold p in Hid.
  rewrite (pipe_close_eq fd i k Hg) in Hk' |- *. cbn [snd] in Hk'.
  exists (upd_pipe i (close_end fd) k). rewrite pipe_at_upd_eq by done. fold p.
  split_and!; [done|done|..].
  - unfold close_end. repeat split_if; done.
  - unfold close_end. repeat split_if; done.
  - unfold close_end. rewrite <- Hid in Hn.
    destruct (has_flag fd PIPE_FLAG_READABLE), (has_flag fd PIPE_FLAG_WRITABLE); cbn;
      repeat split_if; cbn; intuition lia.
  - unfold close_end. repeat split_if; done.
  - intros j Hj. by rewrite pipe_at_upd_ne.
Qed.

(** The descriptors 0 to 7, the standard ones among them, decode to pipe id
    0: while a slot of the table is free they designate that slot, so reading
    or writing them fails as "closed". *)
Theorem std_fd_is_free_pipe `{!Allocator H} call_handler n fuel fd count buf (k : kernel H) i :
  kernel_wf k -> 0 <= fd < 8 -> pi_id (pipe_at k i) = 0 -> (i < MAX_PIPES)%nat ->
  (exists j, pipe_get_by_fd fd k = Some j /\ pi_id (pipe_at k j) = 0) /\
  pipe_read call_handler n fuel fd count k = Some (PIPE_ERROR_CLOSED, [], k) /\
  pipe_write call_handler n fuel fd buf k = Some (PIPE_ERROR_CLOSED, k).
Proof.
  intros Hk Hfd Hi Hlt. pose proof (wf_pipes k Hk) as Hps.
  assert (Hsh : Z.shiftr fd 3 = 0) by (rewrite Z.shiftr_div_pow2 by lia; apply Z.div_small; lia).
  assert (Hg : exists j, pipe_get_by_fd fd k = Some j).
  { destruct (pipe_get_by_fd fd k) as [j|] eqn:E; [by exists j|]. exfalso.
    unfold pipe_get_by_fd in E. rewrite find_idx_None in E.
    rewrite <- (pipes_ok_len _ _ Hps) in Hlt. apply lookup_lt_is_Some in Hlt as [p Hp].
    specialize (E i p Hp). apply Z.eqb_neq in E. apply E. rewrite Hsh.
    unfold pipe_at, pipe_in in Hi. by rewrite Hp in Hi. }
  destruct Hg as [j Hg]. pose proof (pipe_get_by_fd_Some _ _ _ Hg) as [_ Hid]. rewrite Hsh in Hid.
  destruct (pipes_ok_free _ _ Hps j Hid) as [Hr Hw]. fold (pipe_at k j) in Hr, Hw.
  split; [by exists j|]. unfold pipe_read, pipe_write. rewrite Hg, Hr, Hw. done.
Qed.

Section Blocking.
Context `{!Allocator H}.
Variable call_handler : Z -> Z -> kernel H -> option (kernel H).
Implicit Types (k : kernel H).

Definition all_quiet k : Prop := forall i, p_pid (proc k i) <> 0 -> quiet k i.

(** Blocking and scheduling leave the pipes alone. *)
Lemma block_and_schedule_quiet f c k :
  kernel_wf k -> all_quiet k ->
  exists k', block_and_schedule call_handler (S (S f)) (Some c) k = Some k' /\
    kernel_wf k' /\ all_quiet k' /\ pipes k' = pipes k.
Proof.
  intros Hk Hq. unfold block_and_schedule. cbn [mbind option_bind].
  set (k1 := block_process (p_pid (proc k c)) k).
  assert (H1 : kernel_wf k1 /\ all_quiet k1 /\ pipes k1 = pipes k).
  { unfold k1, block_process. destruct (get_process _ k) as [i|]; [|done].
    split_and!; [by apply wf_set_p_state| |done]. intros j. unfold quiet, all_quiet in *.
    change (signal_handling_enabled (upd_proc i ?f k)) with (signal_handling_enabled k).
    rewrite proc_upd. case_decide as Hd; [destruct Hd as [<- _]|]; apply Hq. }
  destruct H1 as (Hk1 & Hq1 & Hps1).
  destruct (schedule_quiet call_handler f k1 Hk1 Hq1) as (k' & Hs & Hk' & Hq' & _ & _ & _ & Hps & _).
  exists k'. split_and!; [exact Hs|done|exact Hq'|congruence].
Qed.

Lemma read_wait_quiet n f c i k :
  kernel_wf k -> all_quiet k -> pi_data_size (pipe_at k i) = 0 -> pi_writer_open (pipe_at k i) <> 0 ->
  read_wait call_handler n (S (S f)) (Some c) i k = None.
Proof.
  revert k; induction n as [|n IH]; intros k Hk Hq Hs Hw; cbn [read_wait];
    rewrite Hs, (proj2 (Z.eqb_neq _ _) Hw); cbn [Z.eqb negb andb]; [done|].
  destruct (block_and_schedule_quiet f c k Hk Hq) as (k' & -> & Hk' & Hq' & Hps).
  cbn [mbind option_bind]. apply IH; [done|done|..]; unfold pipe_at; by rewrite Hps.
Qed.
End Blocking.

(** A blocking read of an empty pipe whose writer is open never returns
    when no signal handler runs: [schedule] does not transfer control, so the
    loop around it sees the same empty pipe for ever. *)
Theorem pipe_read_spins `{!Allocator H} call_handler n f fd count (k : kernel H) i c :
  kernel_wf k -> all_quiet k -> get_current_process k = Some c -> pipe_get_by_fd fd k = Some i ->
  has_flag fd PIPE_FLAG_READABLE = true -> pi_reader_open (pipe_at k i) = 1 ->
  pi_writer_open (pipe_at k i) = 1 -> pi_data_size (pipe_at k i) = 0 ->
  has_flag (pi_flags (pipe_at k i)) PIPE_FLAG_NONBLOCK = false ->
  pipe_read call_handler n (S (S f)) fd count k = None.
Proof.
  intros Hk Hq Hc Hg Hfl Hr Hw Hs Hnb. unfold pipe_read. rewrite Hg, Hr, Hfl, Hs, Hnb, Hw, Hc.
  cbn [Z.eqb negb orb]. rewrite read_wait_quiet; try done. by rewrite Hw.
Qed.

(** ** Concrete pipes *)

(** [kernel2] with a pipe of descriptors 9 and 10. *)
Definition kernel6 : kernel heap := (pipe_create kernel2).2.

Lemma kernel6_wf : kernel_wf kernel6.
Proof. apply wf_pipe_create; [exact kernel2_wf|]. vm_compute. reflexivity. Qed.

Lemma kernel6_can_write : can_write 10 0 kernel6.
Proof. split_and!; vm_compute; reflexivity. Qed.

Lemma pipe_write_fifo_witness :
  can_write 10 0 kernel6 /\
  exists k' : kernel heap, pipe_write (fun _ _ k => Some k) 2 9 10 [104; 105] kernel6 = Some (2, k') /\
    contents (pipe_at k' 0) = [104; 105].
Proof.
  split; [exact kernel6_can_write|].
  assert (Hs : pi_data_size (pipe_at kernel6 0) = 0) by (vm_compute; reflexivity).
  destruct (pipe_write_fifo (fun _ _ k => Some k) 0 9 10 [104; 105] kernel6 0 kernel6_wf kernel6_can_write)
    as (k' & Hw & _ & Hc & _).
  - reflexivity.
  - left. rewrite Hs. reflexivity.
  - exists k'. rewrite Hs in Hw, Hc. split; [exact Hw|]. rewrite Hc. unfold contents. rewrite Hs. reflexivity.
Defined.

(** [kernel6] with two bytes in the pipe. *)
Definition kernel7 : kernel heap := written 0 [104; 105] kernel6.

Lemma kernel7_wf : kernel_wf kernel7.
Proof.
  apply (written_spec 0 [104; 105] kernel6 kernel6_wf).
  - vm_compute. lia.
  - replace (pi_data_size (pipe_at kernel6 0)) with 0 by (vm_compute; reflexivity).
    unfold PIPE_BUFFER_SIZE. simpl. lia.
Qed.

Lemma pipe_read_fifo_witness :
  pi_data_size (pipe_at kernel7 0) = 2 /\
  exists k' : kernel heap, pipe_read (fun _ _ k => Some k) 0 9 9 1 kernel7 = Some (1, [104], k') /\
    kernel_wf k'.
Proof.
  assert (Hs : pi_data_size (pipe_at kernel7 0) = 2) by (vm_compute; reflexivity).
  assert (Hc : contents (pipe_at kernel7 0) = [104; 105]) by (vm_compute; reflexivity).
  split; [exact Hs|].
  destruct (pipe_read_fifo (fun _ _ k => Some k) 0 9 9 1 kernel7 0 kernel7_wf) as (k' & Hr & Hk' & _).
  - vm_compute. reflexivity.
  - lia.
  - vm_compute. reflexivity.
  - vm_compute. reflexivity.
  - rewrite Hs. discriminate.
  - exists k'. rewrite Hs, Hc in Hr. exact (conj Hr Hk').
Defined.

Lemma pipe_roundtrip_witness :
  pipe_get_by_fd 0 kernel2 = Some 0%nat /\
  exists r w k1 k2 k3, pipe_create kernel2 = (PIPE_SUCCESS, Some (r, w), k1) /\
    pipe_write (fun _ _ k => Some k) 2 9 w [1; 2; 3] k1 = Some (3, k2) /\
    pipe_read (fun _ _ k => Some k) 0 9 r PIPE_BUFFER_SIZE k2 = Some (3, [1; 2; 3], k3).
Proof.
  assert (Hg : pipe_get_by_fd 0 kernel2 = Some 0%nat) by (vm_compute; reflexivity).
  split; [exact Hg|].
  destruct (pipe_roundtrip (fun _ _ k => Some k) 0 9 [1; 2; 3] kernel2 0 kernel2_wf)
    as (r & w & k1 & k2 & k3 & H1 & H2 & H3 & _).
  - vm_compute. reflexivity.
  - exact Hg.
  - discriminate.
  - unfold PIPE_BUFFER_SIZE. simpl. lia.
  - exists r, w, k1, k2, k3. exact (conj H1 (conj H2 H3)).
Defined.

Lemma pipe_close_spec_witness :
  pipe_get_by_fd 9 kernel7 = Some 0%nat /\
  exists k', pipe_close 9 kernel7 = (PIPE_SUCCESS, k') /\ kernel_wf k' /\
    pi_reader_open (pipe_at k' 0) = 0 /\ pi_id (pipe_at k' 0) <> 0.
Proof.
  assert (Hg : pipe_get_by_fd 9 kernel7 = Some 0%nat) by (vm_compute; reflexivity).
  assert (Hw : pi_writer_open (pipe_at kernel7 0) = 1) by (vm_compute; reflexivity).
  split; [exact Hg|].
  destruct (pipe_close_spec 9 kernel7 0 kernel7_wf Hg ltac:(discriminate)) as (k' & Hc & Hk' & Hr & Hwo & Hi & _).
  exists k'. split; [exact Hc|]. split; [exact Hk'|]. split; [exact Hr|].
  intros Hz. apply Hi in Hz as [_ Hz]. rewrite Hz in Hwo.
  change (has_flag 9 PIPE_FLAG_WRITABLE) with false in Hwo. rewrite Hw in Hwo. discriminate.
Defined.

Lemma std_fd_is_free_pipe_witness :
  pi_id (pipe_at kernel6 5) = 0 /\
  pipe_write (fun _ _ k => Some k) 0 9 1 [104] kernel6 = Some (PIPE_ERROR_CLOSED, kernel6).
Proof.
  assert (Hi : pi_id (pipe_at kernel6 5) = 0) by (vm_compute; reflexivity).
  split; [exact Hi|].
  exact (proj2 (proj2 (std_fd_is_free_pipe (fun _ _ k => Some k) 0 9 1 0 [104] kernel6 5 kernel6_wf
    ltac:(lia) Hi ltac:(unfold MAX_PIPES; lia)))).
Defined.

Lemma pipe_read_spins_witness :
  pi_data_size (pipe_at kernel6 0) = 0 /\
  pipe_read (fun _ _ k => Some k) 1000 9 9 1 kernel6 = None.
Proof.
  assert (Hs : pi_data_size (pipe_at kernel6 0) = 0) by (vm_compute; reflexivity).
  split; [exact Hs|].
  apply (pipe_read_spins (fun _ _ k => Some k) 1000 7 9 1 kernel6 0 0 kernel6_wf).
  - intros i _. left. vm_compute. reflexivity.
  - vm_compute. reflexivity.
  - vm_compute. reflexivity.
  - vm_compute. reflexivity.
  - vm_compute. reflexivity.
  - vm_compute. reflexivity.
  - exact Hs.
  - vm_compute. reflexivity.
Defined.
