(* ===== verification/Keyboard.v ===== *)
(** * The keyboard driver of keyboard.c

    The statics are a record; the scancode the handler reads from the data
    port is its argument, the bytes it writes to ports are a log. *)
From S2P Require Import Prelude CString Terminal Idt.

Definition KEYBOARD_DATA_PORT : Z := 0x60.
Definition KEYBOARD_COMMAND_PORT : Z := 0x64.
Definition KEYBOARD_CMD_ENABLE : Z := 0xF4.
Definition KEYBOARD_CMD_SET_LEDS : Z := 0xED.
Definition KEY_LCTRL : Z := 0x1D.
Definition KEY_LSHIFT : Z := 0x2A.
Definition KEY_RSHIFT : Z := 0x36.
Definition KEY_LALT : Z := 0x38.
Definition KEY_CAPSLOCK : Z := 0x3A.
Definition KEY_NUMLOCK : Z := 0x45.
Definition KEY_SCROLLLOCK : Z := 0x46.
Definition KEY_KEYPADMINUS : Z := 0x4A.
Definition KEY_LEFT : Z := 0x4B.
Definition KEY_RELEASE : Z := 0x80.
Definition KEYMODE_NORMAL : Z := 0.
Definition KEYMODE_EXTENDED : Z := 1.

(** The initialisers of the two tables; the remaining entries are zero. *)
Definition kbd_us_lowercase : list Z :=
  [0; 0; 49; 50; 51; 52; 53; 54; 55; 56; 57; 48; 45; 61; 8; 9; 113; 119; 101; 114;
   116; 121; 117; 105; 111; 112; 91; 93; 10; 0; 97; 115; 100; 102; 103; 104; 106;
   107; 108; 59; 39; 96; 0; 92; 122; 120; 99; 118; 98; 110; 109; 44; 46; 47; 0; 42;
   0; 32; 0; 0; 0; 0; 0; 0; 0; 0; 0; 0; 0; 0; 0; 0; 0; 0; 0; 45; 0; 0; 0; 43; 0; 0;
   0; 0; 0; 0; 0; 0; 0; 0; 0].

Definition kbd_us_uppercase : list Z :=
  [0; 0; 33; 64; 35; 36; 37; 94; 38; 42; 40; 41; 95; 43; 8; 9; 81; 87; 69; 82; 84;
   89; 85; 73; 79; 80; 123; 125; 10; 0; 65; 83; 68; 70; 71; 72; 74; 75; 76; 58; 34;
   126; 0; 124; 90; 88; 67; 86; 66; 78; 77; 60; 62; 63; 0; 42; 0; 32; 0; 0; 0; 0; 0;
   0; 0; 0; 0; 0; 0; 0; 0; 0; 0; 0; 0; 45; 0; 0; 0; 43; 0; 0; 0; 0; 0; 0; 0; 0; 0;
   0; 0].

Definition kbd_table (upper : bool) (scancode : Z) : Z :=
  char_at (if upper then kbd_us_uppercase else kbd_us_lowercase) (Z.to_nat scancode).

Record keyboard_state := Keyboard {
  shift_pressed : Z;
  ctrl_pressed : Z;
  alt_pressed : Z;
  caps_lock : Z;
  num_lock : Z;
  scroll_lock : Z;
  kb_mode : Z;
  kb_buffer : list Z;
  buffer_start : Z;
  buffer_end : Z;
}.

Definition set_shift_pressed (v : Z) (s : keyboard_state) : keyboard_state :=
  Keyboard v (ctrl_pressed s) (alt_pressed s) (caps_lock s) (num_lock s) (scroll_lock s)
    (kb_mode s) (kb_buffer s) (buffer_start s) (buffer_end s).
Definition set_ctrl_pressed (v : Z) (s : keyboard_state) : keyboard_state :=
  Keyboard (shift_pressed s) v (alt_pressed s) (caps_lock s) (num_lock s) (scroll_lock s)
    (kb_mode s) (kb_buffer s) (buffer_start s) (buffer_end s).
Definition set_alt_pressed (v : Z) (s : keyboard_state) : keyboard_state :=
  Keyboard (shift_pressed s) (ctrl_pressed s) v (caps_lock s) (num_lock s) (scroll_lock s)
    (kb_mode s) (kb_buffer s) (buffer_start s) (buffer_end s).
Definition set_caps_lock (v : Z) (s : keyboard_state) : keyboard_state :=
  Keyboard (shift_pressed s) (ctrl_pressed s) (alt_pressed s) v (num_lock s) (scroll_lock
    s) (kb_mode s) (kb_buffer s) (buffer_start s) (buffer_end s).
Definition set_num_lock (v : Z) (s : keyboard_state) : keyboard_state :=
  Keyboard (shift_pressed s) (ctrl_pressed s) (alt_pressed s) (caps_lock s) v (scroll_lock
    s) (kb_mode s) (kb_buffer s) (buffer_start s) (buffer_end s).
Definition set_scroll_lock (v : Z) (s : keyboard_state) : keyboard_state :=
  Keyboard (shift_pressed s) (ctrl_pressed s) (alt_pressed s) (caps_lock s) (num_lock s) v
    (kb_mode s) (kb_buffer s) (buffer_start s) (buffer_end s).
Definition set_kb_mode (v : Z) (s : keyboard_state) : keyboard_state :=
  Keyboard (shift_pressed s) (ctrl_pressed s) (alt_pressed s) (caps_lock s) (num_lock s)
    (scroll_lock s) v (kb_buffer s) (buffer_start s) (buffer_end s).
Definition set_kb_buffer (v : list Z) (s : keyboard_state) : keyboard_state :=
  Keyboard (shift_pressed s) (ctrl_pressed s) (alt_pressed s) (caps_lock s) (num_lock s)
    (scroll_lock s) (kb_mode s) v (buffer_start s) (buffer_end s).
Definition set_buffer_start (v : Z) (s : keyboard_state) : keyboard_state :=
  Keyboard (shift_pressed s) (ctrl_pressed s) (alt_pressed s) (caps_lock s) (num_lock s)
    (scroll_lock s) (kb_mode s) (kb_buffer s) v (buffer_end s).
Definition set_buffer_end (v : Z) (s : keyboard_state) : keyboard_state :=
  Keyboard (shift_pressed s) (ctrl_pressed s) (alt_pressed s) (caps_lock s) (num_lock s)
    (scroll_lock s) (kb_mode s) (kb_buffer s) (buffer_start s) v.

(** ** The character buffer *)

Definition keyboard_buffer_empty (s : keyboard_state) : bool := buffer_start s =? buffer_end s.

Definition keyboard_buffer_full (s : keyboard_state) : bool :=
  Z.land (buffer_end s + 1) 0xFF =? buffer_start s.

Definition keyboard_buffer_put (c : Z) (s : keyboard_state) : keyboard_state :=
  if keyboard_buffer_full s then s else
  let s := set_kb_buffer (<[Z.to_nat (buffer_end s) := c]> (kb_buffer s)) s in
  set_buffer_end (Z.land (buffer_end s + 1) 0xFF) s.

Definition keyboard_buffer_get (s : keyboard_state) : Z * keyboard_state :=
  if keyboard_buffer_empty s then (0, s) else
  let c := char_at (kb_buffer s) (Z.to_nat (buffer_start s)) in
  (c, set_buffer_start (Z.land (buffer_start s + 1) 0xFF) s).

(** ** The interrupt handler *)

Definition led_status (s : keyboard_state) : Z :=
  let led := if negb (scroll_lock s =? 0) then Z.lor 0 1 else 0 in
  let led := if negb (num_lock s =? 0) then Z.lor led 2 else led in
  if negb (caps_lock s =? 0) then Z.lor led 4 else led.

Definition keyboard_update_leds (s : keyboard_state) : list (Z * Z) :=
  [(KEYBOARD_COMMAND_PORT, KEYBOARD_CMD_SET_LEDS); (KEYBOARD_DATA_PORT, led_status s)].

(** The cleared state, the port write, the registration and the message. *)
Definition keyboard_init (handler_address : Z) (d : idt) (t : terminal)
  : keyboard_state * list (Z * Z) * idt * terminal :=
  (Keyboard 0 0 0 0 0 0 0 (replicate 256 0) 0 0,
   [(KEYBOARD_COMMAND_PORT, KEYBOARD_CMD_ENABLE)],
   register_interrupt_handler IRQ1 handler_address d,
   terminal_writestring (bytes_of ("Klavye surucusu baslatildi." +:+ nl)) t).

(** [!x] *)
Definition lognot (x : Z) : Z := if x =? 0 then 1 else 0.

Definition key_release (scancode : Z) (s : keyboard_state) : keyboard_state :=
  let scancode := Z.land scancode (Z.lnot KEY_RELEASE) in
  let s :=
    if (scancode =? KEY_LSHIFT) || (scancode =? KEY_RSHIFT) then set_shift_pressed 0 s
    else if scancode =? KEY_LCTRL then set_ctrl_pressed 0 s
    else if scancode =? KEY_LALT then set_alt_pressed 0 s
    else s in
  set_kb_mode KEYMODE_NORMAL s.

(** The [default] case of a key press. *)
Definition key_character (scancode : Z) (s : keyboard_state) : keyboard_state :=
  if scancode <? 128 then
    let c := kbd_table (negb (Z.lxor (shift_pressed s) (caps_lock s) =? 0)) scancode in
    if negb (c =? 0) then
      let c := if negb (ctrl_pressed s =? 0) && (97 <=? c) && (c <=? 122) then c - 97 + 1 else c in
      keyboard_buffer_put c s
    else s
  else s.

Definition key_press (scancode : Z) (s : keyboard_state) : keyboard_state * list (Z * Z) :=
  let '(s, log) :=
    if (scancode =? KEY_LSHIFT) || (scancode =? KEY_RSHIFT) then (set_shift_pressed 1 s, [])
    else if scancode =? KEY_LCTRL then (set_ctrl_pressed 1 s, [])
    else if scancode =? KEY_LALT then (set_alt_pressed 1 s, [])
    else if scancode =? KEY_CAPSLOCK then
      let s := set_caps_lock (lognot (caps_lock s)) s in (s, keyboard_update_leds s)
    else if scancode =? KEY_NUMLOCK then
      let s := set_num_lock (lognot (num_lock s)) s in (s, keyboard_update_leds s)
    else if scancode =? KEY_SCROLLLOCK then
      let s := set_scroll_lock (lognot (scroll_lock s)) s in (s, keyboard_update_leds s)
    else (key_character scancode s, []) in
  (set_kb_mode KEYMODE_NORMAL s, log).

Definition keyboard_handler (scancode : Z) (s : keyboard_state) : keyboard_state * list (Z * Z) :=
  if scancode =? 0xE0 then (set_kb_mode KEYMODE_EXTENDED s, [])
  else if negb (Z.land scancode KEY_RELEASE =? 0) then (key_release scancode s, [])
  else key_press scancode s.

(** ** Reading *)

Section Reading.
(** What the interrupts that end a [hlt] do to the keyboard state. *)
Variable wait_interrupt : keyboard_state -> keyboard_state.

(** The wait is at most [n] interrupts long. *)
Fixpoint keyboard_getchar (n : nat) (s : keyboard_state) : option (Z * keyboard_state) :=
  if keyboard_buffer_empty s then
    match n with
    | O => None
    | S n' => keyboard_getchar n' (wait_interrupt s)
    end
  else Some (keyboard_buffer_get s).

Definition keyboard_getchar_nonblock (s : keyboard_state) : Z * keyboard_state :=
  if keyboard_buffer_empty s then (-1, s) else keyboard_buffer_get s.

(** The loop of [keyboard_read] at index [i] ([size_t]): the characters stored
    so far are in [buffer]; [m] bounds the number of turns.  [i - 1] at 0 wraps
    and the [i++] of the loop wraps it back. *)
Fixpoint read_loop (m n : nat) (count i : Z) (buffer : list Z) (s : keyboard_state) (t : terminal)
  : option (Z * list Z * keyboard_state * terminal) :=
  if count <=? i then Some (i, buffer, s, t) else
  match m with
  | O => None
  | S m' =>
    '(c, s) ← keyboard_getchar n s;
    if c =? 10 then Some (u64 (i + 1), <[Z.to_nat i := c]> buffer, s, t)
    else if c =? 8 then
      let '(i, t) :=
        if 0 <? i then
          (u64 (u64 (i - 1) - 1),
           terminal_putchar 8 (terminal_putchar 32 (terminal_putchar 8 t)))
        else (u64 (i - 1), t) in
      read_loop m' n count (u64 (i + 1)) buffer s t
    else read_loop m' n count (u64 (i + 1)) (<[Z.to_nat i := c]> buffer) s (terminal_putchar c t)
  end.

(** The result as [int], the buffer, and the states. *)
Definition keyboard_read (m n : nat) (buffer : list Z) (count : Z) (s : keyboard_state) (t : terminal)
  : option (Z * list Z * keyboard_state * terminal) :=
  '(i, buffer, s, t) ← read_loop m n count 0 buffer s t;
  Some (s32 i, buffer, s, t).
End Reading.

(** ** The buffer as a queue *)

Record keyboard_inv (s : keyboard_state) : Prop := {
  kb_len : length (kb_buffer s) = 256%nat;
  kb_start : 0 <= buffer_start s < 256;
  kb_end : 0 <= buffer_end s < 256;
  kb_shift : shift_pressed s = 0 \/ shift_pressed s = 1;
  kb_ctrl : ctrl_pressed s = 0 \/ ctrl_pressed s = 1;
  kb_alt : alt_pressed s = 0 \/ alt_pressed s = 1;
  kb_caps : caps_lock s = 0 \/ caps_lock s = 1;
  kb_num : num_lock s = 0 \/ num_lock s = 1;
  kb_scroll : scroll_lock s = 0 \/ scroll_lock s = 1;
}.

Definition kb_count (s : keyboard_state) : Z := (buffer_end s - buffer_start s) mod 256.

(** The characters waiting, oldest first. *)
Definition kb_queue (s : keyboard_state) : list Z :=
  (fun j => char_at (kb_buffer s) (Z.to_nat ((buffer_start s + Z.of_nat j) mod 256)))
    <$> seq 0 (Z.to_nat (kb_count s)).

Lemma land_ff x : Z.land x 0xFF = x mod 256.
Proof. change 0xFF with (2 ^ 8 - 1). by rewrite land_ones_mod. Qed.

Lemma length_kb_queue s : length (kb_queue s) = Z.to_nat (kb_count s).
Proof. unfold kb_queue. by rewrite length_fmap, length_seq. Qed.

Lemma kb_full_count s : keyboard_inv s -> keyboard_buffer_full s = (kb_count s =? 255).
Proof.
  intros []. unfold keyboard_buffer_full, kb_count. rewrite land_ff.
  apply eq_true_iff_eq. rewrite !Z.eqb_eq. Z.div_mod_to_equations. lia.
Qed.

Lemma kb_empty_count s : keyboard_inv s -> keyboard_buffer_empty s = (kb_count s =? 0).
Proof.
  intros []. unfold keyboard_buffer_empty, kb_count.
  apply eq_true_iff_eq. rewrite !Z.eqb_eq. Z.div_mod_to_equations. lia.
Qed.

Lemma kb_put_spec c s :
  keyboard_inv s ->
  keyboard_inv (keyboard_buffer_put c s) /\
  kb_queue (keyboard_buffer_put c s)
    = if decide (length (kb_queue s) < 255)%nat then kb_queue s ++ [c] else kb_queue s.
Proof.
  intros Hs. pose proof Hs as []. unfold keyboard_buffer_put. rewrite kb_full_count by done.
  pose proof (Z.mod_pos_bound (buffer_end s - buffer_start s) 256 ltac:(done)) as Hc.
  fold (kb_count s) in Hc. rewrite length_kb_queue. split_if.
  { split; [done|]. by rewrite decide_False by lia. }
  rewrite decide_True by lia. rewrite land_ff. split.
  { split; cbn; try done; [by rewrite length_insert|by apply Z.mod_pos_bound]. }
  cbn [set_kb_buffer buffer_end].
  set (s' := set_buffer_end _ _).
  assert (Hc' : kb_count s' = kb_count s + 1).
  { unfold kb_count, s' in *. cbn. rewrite Zminus_mod_idemp_l. Z.div_mod_to_equations. lia. }
  unfold kb_queue. rewrite Hc'. replace (Z.to_nat (kb_count s + 1)) with (S (Z.to_nat (kb_count s))) by lia.
  rewrite seq_S, fmap_app. f_equal.
  - apply list_fmap_ext. intros i j [-> Hj]%lookup_seq. cbn [buffer_start kb_buffer s' set_buffer_end set_kb_buffer].
    unfold char_at. rewrite list_lookup_insert_ne; [done|].
    unfold kb_count in *. Z.div_mod_to_equations. lia.
  - cbn [fmap list_fmap]. f_equal. cbn. unfold char_at.
    rewrite Z2Nat.id by lia.
    replace ((buffer_start s + kb_count s) mod 256) with (buffer_end s).
    + rewrite list_lookup_insert_eq by lia. done.
    + unfold kb_count. rewrite Zplus_mod_idemp_r. rewrite Z.mod_small; lia.
Qed.

Lemma kb_get_spec s :
  keyboard_inv s ->
  keyboard_inv (keyboard_buffer_get s).2 /\
  match kb_queue s with
  | [] => keyboard_buffer_empty s = true /\ keyboard_buffer_get s = (0, s)
  | c :: q => keyboard_buffer_empty s = false /\ (keyboard_buffer_get s).1 = c /\
              kb_queue (keyboard_buffer_get s).2 = q
  end.
Proof.
  intros Hs. pose proof Hs as []. unfold keyboard_buffer_get.
  pose proof (Z.mod_pos_bound (buffer_end s - buffer_start s) 256 ltac:(done)) as Hc.
  fold (kb_count s) in Hc. rewrite kb_empty_count by done.
  destruct (Z.eqb_spec (kb_count s) 0) as [Hz|Hz].
  { split; [done|]. unfold kb_queue. by rewrite Hz. }
  rewrite land_ff. cbn [fst snd]. split.
  { split; cbn; try done. by apply Z.mod_pos_bound. }
  assert (Hc' : kb_count (set_buffer_start ((buffer_start s + 1) mod 256) s) = kb_count s - 1).
  { unfold kb_count in *. cbn. rewrite Zminus_mod_idemp_r. Z.div_mod_to_equations. lia. }
  unfold kb_queue at 1. replace (Z.to_nat (kb_count s)) with (S (Z.to_nat (kb_count s - 1))) by lia.
  change (seq 0 (S ?n)) with (0%nat :: seq 1 n). rewrite fmap_cons. split_and!; [done| |].
  - by rewrite Z.add_0_r, Z.mod_small by done.
  - unfold kb_queue. rewrite Hc', <- fmap_S_seq, <- list_fmap_compose. apply list_fmap_ext.
    intros i j _. cbn. rewrite Zplus_mod_idemp_l. do 3 f_equal. lia.
Qed.

(** ** Properties *)

(** A decidable fact about all bytes, by evaluation. *)
Lemma byte_forall (P : Z -> bool) : forallb P (seqZ 0 256) = true -> forall x, 0 <= x < 256 -> P x = true.
Proof.
  intros HP x Hx. rewrite forallb_forall in HP. apply HP.
  apply list_elem_of_In, elem_of_seqZ. lia.
Qed.

(** The character a scancode types in a state, 0 for none. *)
Definition typed_char (scancode : Z) (s : keyboard_state) : Z :=
  if (128 <=? scancode) || existsb (Z.eqb scancode) ([KEY_LSHIFT; KEY_RSHIFT; KEY_LCTRL; KEY_LALT;
                                                    KEY_CAPSLOCK; KEY_NUMLOCK; KEY_SCROLLLOCK]) then 0
  else
    let c := kbd_table (negb (shift_pressed s =? caps_lock s)) scancode in
    if (ctrl_pressed s =? 1) && (97 <=? c) && (c <=? 122) then c - 96 else c.

(** A modifier after a scancode: set by its make codes, cleared by its break
    codes. *)
Definition modifier (makes : list Z) (scancode old : Z) : Z :=
  if existsb (Z.eqb scancode) makes then 1
  else if existsb (Z.eqb (scancode - 128)) makes then 0 else old.

Definition toggled (key scancode old : Z) : Z := if scancode =? key then 1 - old else old.

Lemma release_bit x : 0 <= x < 256 -> negb (Z.land x KEY_RELEASE =? 0) = (128 <=? x).
Proof.
  intros Hx. apply eqb_prop. revert x Hx.
  apply (byte_forall (fun x => Bool.eqb (negb (Z.land x KEY_RELEASE =? 0)) (128 <=? x))).
  vm_compute. reflexivity.
Qed.

Lemma release_code x : 128 <= x < 256 -> Z.land x (Z.lnot KEY_RELEASE) = x - 128.
Proof.
  intros Hx. assert (Hb : (x <? 128) || (Z.land x (Z.lnot KEY_RELEASE) =? x - 128) = true).
  { apply (byte_forall (fun x => (x <? 128) || (Z.land x (Z.lnot KEY_RELEASE) =? x - 128))); [|lia].
    vm_compute. reflexivity. }
  apply orb_true_iff in Hb as [Hb|Hb]; zify_bool; lia.
Qed.

Lemma key_release_spec x s :
  keyboard_inv s -> 128 <= x < 256 ->
  key_release x s =
    Keyboard (modifier [KEY_LSHIFT; KEY_RSHIFT] x (shift_pressed s))
      (modifier [KEY_LCTRL] x (ctrl_pressed s)) (modifier [KEY_LALT] x (alt_pressed s))
      (caps_lock s) (num_lock s) (scroll_lock s) KEYMODE_NORMAL (kb_buffer s) (buffer_start s) (buffer_end s).
Proof.
  intros _ Hx. unfold key_release, modifier. rewrite release_code by done.
  cbn [existsb]. rewrite !orb_false_r.
  unfold KEY_LSHIFT, KEY_RSHIFT, KEY_LCTRL, KEY_LALT.
  rewrite !(proj2 (Z.eqb_neq x _)) by lia. cbn [orb].
  destruct (Z.eqb_spec (x - 128) 42), (Z.eqb_spec (x - 128) 54),
    (Z.eqb_spec (x - 128) 29), (Z.eqb_spec (x - 128) 56); try lia; reflexivity.
Qed.

Lemma kb_put_frame c s :
  let s' := keyboard_buffer_put c s in
  shift_pressed s' = shift_pressed s /\ ctrl_pressed s' = ctrl_pressed s /\
  alt_pressed s' = alt_pressed s /\ caps_lock s' = caps_lock s /\ num_lock s' = num_lock s /\
  scroll_lock s' = scroll_lock s.
Proof. unfold keyboard_buffer_put. by split_if. Qed.

Lemma update_leds_spec s :
  caps_lock s = 0 \/ caps_lock s = 1 -> num_lock s = 0 \/ num_lock s = 1 ->
  scroll_lock s = 0 \/ scroll_lock s = 1 ->
  keyboard_update_leds s =
    [(KEYBOARD_COMMAND_PORT, KEYBOARD_CMD_SET_LEDS);
     (KEYBOARD_DATA_PORT, scroll_lock s + 2 * num_lock s + 4 * caps_lock s)].
Proof. unfold keyboard_update_leds, led_status. by intros [-> | ->] [-> | ->] [-> | ->]. Qed.

(** Appending a character when there is one and there is room. *)
Definition offer (c : Z) (q : list Z) : list Z :=
  if (c =? 0) || (255 <=? Z.of_nat (length q)) then q else q ++ [c].

Lemma key_character_spec x s :
  keyboard_inv s -> 0 <= x < 128 ->
  ~ existsb (Z.eqb x) [KEY_LSHIFT; KEY_RSHIFT; KEY_LCTRL; KEY_LALT; KEY_CAPSLOCK; KEY_NUMLOCK; KEY_SCROLLLOCK] ->
  keyboard_inv (key_character x s) /\ kb_queue (key_character x s) = offer (typed_char x s) (kb_queue s) /\
  shift_pressed (key_character x s) = shift_pressed s /\ ctrl_pressed (key_character x s) = ctrl_pressed s /\
  alt_pressed (key_character x s) = alt_pressed s /\ caps_lock (key_character x s) = caps_lock s /\
  num_lock (key_character x s) = num_lock s /\ scroll_lock (key_character x s) = scroll_lock s.
Proof.
  intros Hs Hx Hno. pose proof Hs as []. unfold key_character, typed_char.
  rewrite (proj2 (Z.ltb_lt x 128)), (proj2 (Z.leb_gt 128 x)) by lia.
  destruct (existsb _ _); [by destruct Hno|]. cbn [orb].
  assert (negb (Z.lxor (shift_pressed s) (caps_lock s) =? 0) = negb (shift_pressed s =? caps_lock s)) as ->.
  { destruct kb_shift0 as [-> | ->], kb_caps0 as [-> | ->]; reflexivity. }
  assert (negb (ctrl_pressed s =? 0) = (ctrl_pressed s =? 1)) as ->.
  { destruct kb_ctrl0 as [-> | ->]; reflexivity. }
  set (c := kbd_table _ x).
  destruct (Z.eqb_spec c 0) as [Hc|Hc]; cbn [negb].
  { rewrite Hc. cbn [Z.leb]. rewrite andb_false_r. cbn [andb]. split_and!; done. }
  set (c' := if _ && _ && _ then c - 97 + 1 else c).
  assert (Hc' : c' = if (ctrl_pressed s =? 1) && (97 <=? c) && (c <=? 122) then c - 96 else c)
    by (unfold c'; split_if; [lia|done]).
  rewrite <- Hc'. assert (c' <> 0).
  { rewrite Hc'. destruct (_ && _ && _)%bool eqn:E; [zify_bool; lia|done]. }
  destruct (kb_put_spec c' s Hs) as [Hi Hq]. destruct (kb_put_frame c' s) as (? & ? & ? & ? & ? & ?).
  split_and!; try done. rewrite Hq. unfold offer. rewrite (proj2 (Z.eqb_neq c' 0)) by done. cbn [orb].
  case_decide; split_if; try done; lia.
Qed.

(** C38. The handler turns a scancode into the change of modifiers, locks and LEDs
    of the key, or appends its character to the queue: the US layout chosen by
    shift exclusive-or caps lock, a control code for a lower-case letter under
    ctrl.  The 255-character queue drops what does not fit. *)
Theorem keyboard_handler_spec (x : Z) (s : keyboard_state) :
  keyboard_inv s -> 0 <= x < 256 ->
  let '(s', log) := keyboard_handler x s in
  keyboard_inv s' /\
  kb_queue s' = offer (typed_char x s) (kb_queue s) /\
  shift_pressed s' = modifier [KEY_LSHIFT; KEY_RSHIFT] x (shift_pressed s) /\
  ctrl_pressed s' = modifier [KEY_LCTRL] x (ctrl_pressed s) /\
  alt_pressed s' = modifier [KEY_LALT] x (alt_pressed s) /\
  caps_lock s' = toggled KEY_CAPSLOCK x (caps_lock s) /\
  num_lock s' = toggled KEY_NUMLOCK x (num_lock s) /\
  scroll_lock s' = toggled KEY_SCROLLLOCK x (scroll_lock s) /\
  log = if existsb (Z.eqb x) [KEY_CAPSLOCK; KEY_NUMLOCK; KEY_SCROLLLOCK]
        then [(KEYBOARD_COMMAND_PORT, KEYBOARD_CMD_SET_LEDS);
              (KEYBOARD_DATA_PORT, scroll_lock s' + 2 * num_lock s' + 4 * caps_lock s')] else [].
Proof.
  intros Hs Hx. pose proof Hs as [Hlen Hst Hen Hsh Hct Hal Hca Hnu Hsc]. unfold keyboard_handler.
  destruct (Z.eqb_spec x 0xE0) as [->|Hne].
  { split_and!; solve [done|by split]. }
  rewrite release_bit by done. destruct (Z.leb_spec 128 x) as [Hrel|Hrel].
  { rewrite key_release_spec by (done || lia).
    assert (Htc : typed_char x s = 0) by (unfold typed_char; by rewrite (proj2 (Z.leb_le 128 x))).
    rewrite Htc. unfold toggled, KEY_CAPSLOCK, KEY_NUMLOCK, KEY_SCROLLLOCK.
    cbn [existsb]. rewrite !(proj2 (Z.eqb_neq x _)) by lia.
    split_and!; try done. unfold modifier. split; cbn; try done; repeat split_if; auto. }
  unfold key_press, modifier, toggled. cbn [existsb]. rewrite !orb_false_r.
  unfold KEY_LSHIFT, KEY_RSHIFT, KEY_LCTRL, KEY_LALT, KEY_CAPSLOCK, KEY_NUMLOCK, KEY_SCROLLLOCK.
  rewrite !(proj2 (Z.eqb_neq (x - 128) _)) by lia. cbn [orb].
  assert (Hlock : forall v, v = 0 \/ v = 1 -> lognot v = 1 - v /\ (1 - v = 0 \/ 1 - v = 1)).
  { intros v [-> | ->]; by split; auto. }
  destruct (Hlock _ Hca) as [Hca1 Hca2], (Hlock _ Hnu) as [Hnu1 Hnu2], (Hlock _ Hsc) as [Hsc1 Hsc2].
  assert (Htyped : forall key, existsb (Z.eqb key)
      [KEY_LSHIFT; KEY_RSHIFT; KEY_LCTRL; KEY_LALT; KEY_CAPSLOCK; KEY_NUMLOCK; KEY_SCROLLLOCK] = true ->
    typed_char key s = 0).
  { intros key Hkey. unfold typed_char. rewrite Hkey. by rewrite orb_true_r. }
  destruct (Z.eqb_spec x 42) as [->|]; [|destruct (Z.eqb_spec x 54) as [->|]; [|
    destruct (Z.eqb_spec x 29) as [->|]; [|destruct (Z.eqb_spec x 56) as [->|]; [|
    destruct (Z.eqb_spec x 58) as [->|]; [|destruct (Z.eqb_spec x 69) as [->|]; [|
    destruct (Z.eqb_spec x 70) as [->|]]]]]]]; cbn [orb Z.eqb Pos.eqb];
    cbn [fst snd].
  all: try (rewrite Htyped by reflexivity; rewrite ?Hca1, ?Hnu1, ?Hsc1;
    split_and!; try done; try (by split; cbn; auto); by rewrite update_leds_spec by auto).
  destruct (key_character_spec x s Hs ltac:(lia)) as (Hi & Hq & H1 & H2 & H3 & H4 & H5 & H6).
  { cbn [existsb]. unfold KEY_LSHIFT, KEY_RSHIFT, KEY_LCTRL, KEY_LALT, KEY_CAPSLOCK, KEY_NUMLOCK, KEY_SCROLLLOCK.
    rewrite !(proj2 (Z.eqb_neq x _)) by lia. by intros []. }
  split_and!; solve [done|destruct Hi; by split].
Qed.

(** The line editor [keyboard_read] implements: the line, what is left of the
    input and the characters echoed; [None] when the input ends first. *)
Fixpoint edit (count : nat) (line input : list Z) : option (list Z * list Z * list Z) :=
  if (count <=? length line)%nat then Some (line, input, []) else
  match input with
  | [] => None
  | c :: input =>
    if c =? 10 then Some (line ++ [c], input, [])
    else if c =? 8 then
      '(l, rest, echo) ← edit count (take (pred (length line)) line) input;
      Some (l, rest, (match line with [] => [] | _ => [8; 32; 8] end) ++ echo)
    else
      '(l, rest, echo) ← edit count (line ++ [c]) input;
      Some (l, rest, c :: echo)
  end.

Section Reading_facts.
Variable wait_interrupt : keyboard_state -> keyboard_state.

Lemma take_insert_snoc (line buffer : list Z) c :
  take (length line) buffer = line -> (length line < length buffer)%nat ->
  take (length (line ++ [c])) (<[length line := c]> buffer) = line ++ [c].
Proof.
  intros Ht Hl. rewrite length_app. cbn [length]. rewrite Nat.add_1_r.
  rewrite (take_S_r _ _ c); [|by apply list_lookup_insert_eq].
  rewrite take_insert_ge by lia. by rewrite Ht.
Qed.

Lemma take_shorter (line buffer : list Z) n :
  take (length line) buffer = line -> (n <= length line)%nat ->
  take (length (take n line)) buffer = take n line.
Proof.
  intros Ht Hn. rewrite length_take, Nat.min_l by lia. rewrite <- Ht.
  by rewrite take_take, Nat.min_l by lia.
Qed.

Lemma read_loop_edit m n count input : forall line rest res echo buffer s t,
  keyboard_inv s -> kb_queue s = input -> (length input < m)%nat ->
  length buffer = count -> Z.of_nat count < 2 ^ 31 -> take (length line) buffer = line ->
  (length line <= count)%nat -> edit count line input = Some (res, rest, echo) ->
  exists buffer' s', read_loop wait_interrupt m n (Z.of_nat count) (Z.of_nat (length line)) buffer s t
      = Some (Z.of_nat (length res), buffer', s', terminal_write echo t) /\
    take (length res) buffer' = res /\ length buffer' = count /\ (length res <= count)%nat /\
    keyboard_inv s' /\ kb_queue s' = rest.
Proof.
  revert m. induction input as [|c input IH]; intros m line rest res echo buffer s t Hs Hq Hm Hb Hc Ht Hl He;
    (destruct m as [|m]; [cbn in Hm; lia|]); cbn [read_loop edit] in *.
  - destruct (Nat.leb_spec count (length line)) as [Hcl|]; [|done]. injection He as <- <- <-.
    rewrite (proj2 (Z.leb_le _ _)) by lia. exists buffer, s. by split_and!.
  - destruct (Nat.leb_spec count (length line)) as [Hcl|Hcl].
    { injection He as <- <- <-. rewrite (proj2 (Z.leb_le _ _)) by lia. exists buffer, s. by split_and!. }
    rewrite (proj2 (Z.leb_gt _ _)) by lia.
    destruct (kb_get_spec s Hs) as [Hi Hg]. rewrite Hq in Hg. destruct Hg as (Hemp & Hc1 & Hq').
    assert (Hgc : keyboard_getchar wait_interrupt n s = Some (keyboard_buffer_get s)).
    { destruct n; cbn [keyboard_getchar]; by rewrite Hemp. }
    rewrite Hgc. cbn [mbind option_bind].
    destruct (keyboard_buffer_get s) as [c' s1]. cbn [fst snd] in *. subst c'.
    assert (Hu : u64 (Z.of_nat (length line) + 1) = Z.of_nat (length line) + 1)
      by (apply wrap_small; unfold in_u; lia).
    cbn [length] in Hm.
    destruct (Z.eqb_spec c 10) as [->|Hc10].
    { injection He as <- <- <-. rewrite Hu, Nat2Z.id.
      exists (<[length line := 10]> buffer), s1. rewrite length_insert.
      split_and!; try done; [by rewrite length_app, Nat2Z.inj_add| |rewrite length_app; cbn; lia].
      apply take_insert_snoc; [done|lia]. }
    destruct (Z.eqb_spec c 8) as [->|Hc8].
    + apply bind_Some in He as ([[l r] e] & He & [= <- <- <-]).
      set (line' := take (pred (length line)) line) in *.
      assert (Hl' : length line' = pred (length line)) by (unfold line'; rewrite length_take; lia).
      pose proof (take_shorter line buffer (pred (length line)) Ht ltac:(lia)) as Ht'. fold line' in Ht'.
      destruct line as [|x line].
      * change (0 <? Z.of_nat (length (@nil Z))) with false. cbv iota beta zeta.
        change (u64 (u64 (Z.of_nat (length (@nil Z)) - 1) + 1)) with (Z.of_nat (length line')).
        destruct (IH m line' r l e buffer s1 t) as (b' & s' & Hr & ?); try done; lia || (exists b', s'; done).
      * set (n1 := length (x :: line)) in *. assert (Hn1 : (1 <= n1)%nat) by (unfold n1; cbn; lia).
        rewrite (proj2 (Z.ltb_lt 0 _)) by lia.
        rewrite wrap_sub_l, wrap_add_l.
        replace (Z.of_nat n1 - 1 - 1 + 1) with (Z.of_nat (length line')) by lia.
        rewrite wrap_small by (unfold in_u; lia).
        destruct (IH m line' r l e buffer s1 (terminal_putchar 8 (terminal_putchar 32 (terminal_putchar 8 t))))
          as (b' & s' & Hr & ?); try done; lia || (exists b', s'; done).
    + apply bind_Some in He as ([[l r] e] & He & [= <- <- <-]). rewrite Hu, Nat2Z.id.
      replace (Z.of_nat (length line) + 1) with (Z.of_nat (length (line ++ [c])))
        by (rewrite length_app; cbn; lia).
      destruct (IH m (line ++ [c]) r l e (<[length line := c]> buffer) s1 (terminal_putchar c t))
        as (b' & s' & Hr & Hrest); try done.
      * lia.
      * by rewrite length_insert.
      * apply take_insert_snoc; [done|lia].
      * rewrite length_app. cbn. lia.
      * by exists b', s'.
Qed.
End Reading_facts.

(** C39. [keyboard_read] is the line editor [edit] on the waiting characters:
    typed characters are stored and echoed, backspace removes the last one,
    enter ends the line and is stored without echo, and at most [count]
    characters are stored. *)
Theorem keyboard_read_edits wait n input res rest echo buffer (s : keyboard_state) (t : terminal) :
  keyboard_inv s -> kb_queue s = input -> Z.of_nat (length buffer) < 2 ^ 31 ->
  edit (length buffer) [] input = Some (res, rest, echo) ->
  exists buffer' s', keyboard_read wait (S (length input)) n buffer (Z.of_nat (length buffer)) s t
      = Some (Z.of_nat (length res), buffer', s', terminal_write echo t) /\
    take (length res) buffer' = res /\ length buffer' = length buffer /\
    keyboard_inv s' /\ kb_queue s' = rest.
Proof.
  intros Hs Hq Hb He.
  destruct (read_loop_edit wait (S (length input)) n (length buffer) input [] rest res echo buffer s t)
    as (b' & s' & Hr & Ht & Hl & Hle & Hi & Hq'); [done|done|lia|done|done|done|cbn; lia|done|].
  exists b', s'. unfold keyboard_read. change (Z.of_nat (length (@nil Z))) with 0 in Hr. rewrite Hr. cbn [mbind option_bind].
  rewrite s32_small by (unfold in_s32; lia). done.
Qed.

(** ** Concrete typing *)

Definition keyboard0 : keyboard_state := Keyboard 0 0 0 0 0 0 0 (replicate 256 0) 0 0.

Lemma keyboard0_inv : keyboard_inv keyboard0.
Proof. split; try (by left); [apply length_replicate|cbn; lia|cbn; lia]. Qed.

Lemma keyboard_handler_spec_witness :
  keyboard_inv keyboard0 /\
  kb_queue (keyboard_handler 0x1E (keyboard_handler KEY_LSHIFT keyboard0).1).1 = [65].
Proof.
  split; [exact keyboard0_inv|].
  pose proof (keyboard_handler_spec KEY_LSHIFT keyboard0 keyboard0_inv ltac:(unfold KEY_LSHIFT; lia)) as H1.
  destruct (keyboard_handler KEY_LSHIFT keyboard0) as [s1 log1].
  destruct H1 as (Hi1 & Hq1 & Hs1 & Hc1 & _ & Hca1 & _).
  pose proof (keyboard_handler_spec 0x1E s1 Hi1 ltac:(lia)) as H2.
  cbn [fst]. destruct (keyboard_handler 0x1E s1) as [s2 log2]. destruct H2 as (_ & Hq2 & _).
  cbn [fst]. rewrite Hq2, Hq1. unfold typed_char. rewrite Hs1, Hc1, Hca1. vm_compute. reflexivity.
Defined.

(** "ab", backspace, "c", enter. *)
Definition keyboard1 : keyboard_state :=
  fold_left (fun s c => keyboard_buffer_put c s) [97; 98; 8; 99; 10] keyboard0.

Lemma keyboard1_inv : keyboard_inv keyboard1.
Proof. unfold keyboard1. cbn [fold_left]. repeat apply kb_put_spec. apply keyboard0_inv. Qed.

Lemma keyboard_read_edits_witness :
  kb_queue keyboard1 = [97; 98; 8; 99; 10] /\
  exists buffer' s' t', keyboard_read (fun s => s) 6 0 (replicate 16 0) 16 keyboard1 (Terminal 0 0 7 ∅)
      = Some (3, buffer', s', t') /\ take 3 buffer' = [97; 99; 10].
Proof.
  assert (Hq : kb_queue keyboard1 = [97; 98; 8; 99; 10]) by (vm_compute; reflexivity).
  split; [exact Hq|].
  destruct (keyboard_read_edits (fun s => s) 0 [97; 98; 8; 99; 10] [97; 99; 10] [] [97; 98; 8; 32; 8; 99]
    (replicate 16 0) keyboard1 (Terminal 0 0 7 ∅) keyboard1_inv Hq) as (b & s & Hr & Ht & _).
  - vm_compute. reflexivity.
  - vm_compute. reflexivity.
  - eexists b, s, _. split; [exact Hr|exact Ht].
Defined.

(** The tables misplace the keypad: '-' and '+' are produced by the scancodes
    of Left (0x4B) and End (0x4F), while keypad minus and plus (0x4A, 0x4E)
    type nothing. *)
Theorem keypad_misplaced (s : keyboard_state) :
  keyboard_inv s -> ctrl_pressed s = 0 ->
  kb_queue (keyboard_handler KEY_LEFT s).1 = offer 45 (kb_queue s) /\
  kb_queue (keyboard_handler 0x4F s).1 = offer 43 (kb_queue s) /\
  kb_queue (keyboard_handler KEY_KEYPADMINUS s).1 = kb_queue s /\
  kb_queue (keyboard_handler 0x4E s).1 = kb_queue s.
Proof.
  intros Hs Hc.
  assert (Hkey : forall x c, 0 <= x < 128 ->
    existsb (Z.eqb x) [KEY_LSHIFT; KEY_RSHIFT; KEY_LCTRL; KEY_LALT; KEY_CAPSLOCK; KEY_NUMLOCK; KEY_SCROLLLOCK] = false ->
    kbd_table true x = c -> kbd_table false x = c ->
    kb_queue (key_character x s) = offer c (kb_queue s)).
  { intros x c Hx Hno Hu Hl. destruct (key_character_spec x s Hs Hx) as (_ & -> & _); [rewrite Hno; intros []|].
    f_equal. unfold typed_char. rewrite Hno, (proj2 (Z.leb_gt 128 x)), Hc by lia. cbn.
    by destruct (negb _). }
  assert (Hpress : forall x, 0 <= x < 128 ->
    existsb (Z.eqb x) [KEY_LSHIFT; KEY_RSHIFT; KEY_LCTRL; KEY_LALT; KEY_CAPSLOCK; KEY_NUMLOCK; KEY_SCROLLLOCK] = false ->
    kb_queue (keyboard_handler x s).1 = kb_queue (key_character x s)).
  { intros x Hx Hno. unfold keyboard_handler, key_press. cbn [existsb] in Hno.
    repeat (apply orb_false_iff in Hno as [-> Hno]).
    rewrite release_bit, (proj2 (Z.leb_gt 128 x)), (proj2 (Z.eqb_neq x 0xE0)) by lia. reflexivity. }
  split_and!; (rewrite Hpress by (unfold KEY_LEFT, KEY_KEYPADMINUS; lia || reflexivity)).
  - by apply Hkey; unfold KEY_LEFT; [lia|reflexivity..].
  - by apply Hkey; [lia|reflexivity..].
  - by apply (Hkey KEY_KEYPADMINUS 0); unfold KEY_KEYPADMINUS; [lia|reflexivity..].
  - by apply (Hkey 0x4E 0); [lia|reflexivity..].
Qed.

Lemma keypad_misplaced_witness :
  ctrl_pressed keyboard0 = 0 /\ kb_queue (keyboard_handler KEY_LEFT keyboard0).1 = [45].
Proof.
  split; [reflexivity|]. rewrite (proj1 (keypad_misplaced keyboard0 keyboard0_inv eq_refl)). reflexivity.
Defined.
