(* ===== verification/Paging.v ===== *)
(** * Physical frames and page tables: paging.c

    The frame bitmap and the four-level page tables live in byte-addressed
    memory, as in the source: a table entry is eight bytes, a frame the 4096
    bytes at its address.  [boot_pml4] is a symbol the source declares and does
    not define: an argument of [paging_init].  Flushing the TLB and loading CR3
    have no effect on this state. *)
From S2P Require Import Prelude CString Terminal RawMemory Allocator Heap.

Definition PAGE_SIZE : Z := 4096.
Definition PAGE_PRESENT : Z := 0x1.
Definition PAGE_WRITABLE : Z := 0x2.
Definition PAGE_USER : Z := 0x4.
Definition KERNEL_BASE : Z := 0xFFFFFFFF80000000.

(** The address bits of an entry, [0x000FFFFFFFFFF000] in the source. *)
Definition frame_of (entry : Z) : Z := Z.land entry 0x000FFFFFFFFFF000.

Record memory_map_entry := MemoryMapEntry { mm_start : Z; mm_size : Z; mm_type : Z }.

(** [pmm], [vmm], the static [kernel_heap] of [kmalloc_page], the memory and the
    terminal. *)
Record paging := Paging {
  pg_mem : mem;
  total_memory : Z;
  free_memory : Z;
  used_memory : Z;
  reserved_memory : Z;
  bitmap_size : Z;
  bitmap : Z;
  pml4 : Z;
  kernel_heap : Z;
  pg_term : terminal;
}.

Definition set_pg_mem (m : mem) (s : paging) : paging :=
  Paging m (total_memory s) (free_memory s) (used_memory s) (reserved_memory s)
    (bitmap_size s) (bitmap s) (pml4 s) (kernel_heap s) (pg_term s).
Definition set_memory_counts (free used : Z) (s : paging) : paging :=
  Paging (pg_mem s) (total_memory s) free used (reserved_memory s)
    (bitmap_size s) (bitmap s) (pml4 s) (kernel_heap s) (pg_term s).
Definition set_pml4 (t : Z) (s : paging) : paging :=
  Paging (pg_mem s) (total_memory s) (free_memory s) (used_memory s) (reserved_memory s)
    (bitmap_size s) (bitmap s) t (kernel_heap s) (pg_term s).
Definition set_kernel_heap (v : Z) (s : paging) : paging :=
  Paging (pg_mem s) (total_memory s) (free_memory s) (used_memory s) (reserved_memory s)
    (bitmap_size s) (bitmap s) (pml4 s) v (pg_term s).
Definition set_pg_term (t : terminal) (s : paging) : paging :=
  Paging (pg_mem s) (total_memory s) (free_memory s) (used_memory s) (reserved_memory s)
    (bitmap_size s) (bitmap s) (pml4 s) (kernel_heap s) t.

Definition pg_print (msg : string) (s : paging) : paging :=
  set_pg_term (terminal_writestring (bytes_of msg) (pg_term s)) s.

(** ** Frames *)

(** [pmm.bitmap[i / 8] & (1 << (i % 8))] as a condition. *)
Definition page_used (m : mem) (bm i : Z) : bool :=
  negb (Z.land (load8 m (bm + i / 8)) (Z.shiftl 1 (i mod 8)) =? 0).

(** [pmm.bitmap[i / 8] |= (1 << (i % 8))] *)
Definition mark_page (bm i : Z) (m : mem) : mem :=
  store8 m (bm + i / 8) (Z.lor (load8 m (bm + i / 8)) (Z.shiftl 1 (i mod 8))).

(** [pmm.bitmap[i / 8] &= ~(1 << (i % 8))] *)
Definition unmark_page (bm i : Z) (m : mem) : mem :=
  store8 m (bm + i / 8) (Z.land (load8 m (bm + i / 8)) (Z.lnot (Z.shiftl 1 (i mod 8)))).

(** The loop over the bitmap from [i], [n] bits left. *)
Fixpoint pmm_search (n : nat) (m : mem) (bm i : Z) : option Z :=
  match n with
  | O => None
  | S n' => if page_used m bm i then pmm_search n' m bm (i + 1) else Some i
  end.

(** Zero is the null pointer. *)
Definition pmm_alloc_page (s : paging) : Z * paging :=
  match pmm_search (Z.to_nat (u64 (bitmap_size s * 8))) (pg_mem s) (bitmap s) 0 with
  | None => (0, pg_print ("Hata: Fiziksel bellek doldu!" +:+ nl) s)
  | Some i =>
    let s := set_pg_mem (mark_page (bitmap s) i (pg_mem s)) s in
    let s := set_memory_counts (u64 (free_memory s - PAGE_SIZE))
                               (u64 (used_memory s + PAGE_SIZE)) s in
    let addr := u64 (i * PAGE_SIZE) in
    (addr, set_pg_mem (memset (Z.to_nat PAGE_SIZE) (pg_mem s) addr 0) s)
  end.

Definition pmm_free_page (addr : Z) (s : paging) : paging :=
  if negb (addr mod PAGE_SIZE =? 0) then
    pg_print ("Hata: Hizalanmamis adres serbest birakilmaya calisiliyor!" +:+ nl) s
  else
    let bit_index := addr / PAGE_SIZE in
    if negb (page_used (pg_mem s) (bitmap s) bit_index) then
      pg_print ("Hata: Zaten serbest olan sayfa serbest birakilmaya calisiliyor!" +:+ nl) s
    else
      let s := set_pg_mem (unmark_page (bitmap s) bit_index (pg_mem s)) s in
      set_memory_counts (u64 (free_memory s + PAGE_SIZE)) (u64 (used_memory s - PAGE_SIZE)) s.

Definition paging_alloc_page (s : paging) : Z * paging := pmm_alloc_page s.
Definition paging_free_page (addr : Z) (s : paging) : paging := pmm_free_page addr s.

(** ** Page tables *)

Definition paging_make_entry (phys_addr flags : Z) : Z :=
  Z.lor (Z.land phys_addr 0x000FFFFFFFFFF000) flags.

(** [&table->entries[i]] *)
Definition entry_addr (table i : Z) : Z := table + 8 * i.
Definition entry (m : mem) (table i : Z) : Z := load64 m (entry_addr table i).
Definition set_entry (m : mem) (table i v : Z) : mem := store64 m (entry_addr table i) v.

Definition is_present (e : Z) : bool := negb (Z.land e PAGE_PRESENT =? 0).

(** One of the three upper levels of [paging_walk]: the table below entry [i]
    of [table]; [None] when [paging_walk] returns [NULL]. *)
Definition walk_level (table i : Z) (alloc : bool) (flags : Z) (s : paging) : option Z * paging :=
  if is_present (entry (pg_mem s) table i) then (Some (frame_of (entry (pg_mem s) table i)), s)
  else if negb alloc then (None, s)
  else
    let '(phys, s) := pmm_alloc_page s in
    if phys =? 0 then (None, s)
    else
      let e := paging_make_entry phys (Z.lor (Z.lor PAGE_PRESENT PAGE_WRITABLE) flags) in
      let s := set_pg_mem (set_entry (pg_mem s) table i e) s in
      (Some (frame_of (entry (pg_mem s) table i)), s).

Definition pml4_index (addr : Z) : Z := Z.land (Z.shiftr addr 39) 0x1FF.
Definition pdpt_index (addr : Z) : Z := Z.land (Z.shiftr addr 30) 0x1FF.
Definition pd_index (addr : Z) : Z := Z.land (Z.shiftr addr 21) 0x1FF.
Definition pt_index (addr : Z) : Z := Z.land (Z.shiftr addr 12) 0x1FF.

Definition paging_walk (addr : Z) (alloc : bool) (flags : Z) (s : paging) : option Z * paging :=
  let '(pdpt, s) := walk_level (pml4 s) (pml4_index addr) alloc flags s in
  match pdpt with
  | None => (None, s)
  | Some pdpt =>
    let '(pd, s) := walk_level pdpt (pdpt_index addr) alloc flags s in
    match pd with
    | None => (None, s)
    | Some pd =>
      let '(pt, s) := walk_level pd (pd_index addr) alloc flags s in
      match pt with
      | None => (None, s)
      | Some pt => (Some (entry_addr pt (pt_index addr)), s)
      end
    end
  end.

(** [virt_addr & ~0xFFF] *)
Definition page_of (virt_addr : Z) : Z := Z.land virt_addr (lnot64 0xFFF).

Definition paging_map_page (phys_addr virt_addr flags : Z) (s : paging) : Z * paging :=
  let virt_addr := page_of virt_addr in
  let '(pt_entry, s) := paging_walk virt_addr true flags s in
  match pt_entry with
  | None => (0, s)
  | Some pte =>
    if is_present (load64 (pg_mem s) pte) then
      (0, pg_print ("Hata: Sayfa zaten eslemesi var!" +:+ nl) s)
    else
      (virt_addr, set_pg_mem (store64 (pg_mem s) pte
                    (paging_make_entry phys_addr (Z.lor PAGE_PRESENT flags))) s)
  end.

Definition paging_unmap_page (virt_addr : Z) (s : paging) : paging :=
  let '(pt_entry, s) := paging_walk virt_addr false 0 s in
  match pt_entry with
  | None => s
  | Some pte => set_pg_mem (store64 (pg_mem s) pte 0) s
  end.

Definition paging_get_physical_address (virt_addr : Z) (s : paging) : Z :=
  match fst (paging_walk virt_addr false 0 s) with
  | None => 0
  | Some pte => Z.lor (frame_of (load64 (pg_mem s) pte)) (Z.land virt_addr 0xFFF)
  end.

(** ** Initialisation *)

(** [for (addr = lo; addr < hi; addr += PAGE_SIZE)] marking each page. *)
Definition mark_range (bm lo hi : Z) (m : mem) : mem :=
  for_loop (Z.to_nat ((hi - lo + PAGE_SIZE - 1) / PAGE_SIZE)) 0
    (fun j m => mark_page bm ((lo + j * PAGE_SIZE) / PAGE_SIZE) m) m.

(** The scan of the memory map: total, free and reserved memory. *)
Definition scan_memory_map (mmap : list memory_map_entry) : Z * Z * Z :=
  foldl (fun '(total, free, reserved) e =>
           if mm_type e =? 1 then (u64 (total + mm_size e), u64 (free + mm_size e), reserved)
           else (total, free, u64 (reserved + mm_size e))) (0, 0, 0) mmap.

Definition bitmap_bytes (total : Z) : Z :=
  let size := total / PAGE_SIZE / 8 in
  if u64 (size * 8 * PAGE_SIZE) <? total then u64 (size + 1) else size.

Definition BITMAP_ADDR : Z := 0x100000.
Definition KERNEL_END : Z := 0x400000.

Definition paging_init (boot_pml4 : Z) (mmap : list memory_map_entry) (s : paging) : option paging :=
  let '(total, free, reserved) := scan_memory_map mmap in
  let size := bitmap_bytes total in
  let m := memset (Z.to_nat size) (pg_mem s) BITMAP_ADDR 0 in
  let bitmap_end := u64 (BITMAP_ADDR + size) in
  let m := mark_range BITMAP_ADDR 0 KERNEL_END m in
  let m := mark_range BITMAP_ADDR BITMAP_ADDR bitmap_end m in
  let reserved_pages := u64 (KERNEL_END - 0 + bitmap_end - BITMAP_ADDR) / PAGE_SIZE in
  t ← terminal_writeint 32 (total / 1024 / 1024)
        (terminal_writestring (bytes_of "Sayfalama baslatildi. Bellek: ") (pg_term s));
  Some (Paging m total (u64 (free - reserved_pages * PAGE_SIZE)) (u64 (reserved_pages * PAGE_SIZE))
          reserved size BITMAP_ADDR boot_pml4 (kernel_heap s)
          (terminal_writestring (bytes_of (" MB" +:+ nl)) t)).

(** ** Kernel and user pages *)

Definition kfree_page (addr : Z) (s : paging) : paging :=
  let phys_addr := paging_get_physical_address addr s in
  if phys_addr =? 0 then s else pmm_free_page phys_addr (paging_unmap_page addr s).

Definition kfree_pages (addr count : Z) (s : paging) : paging :=
  for_loop (Z.to_nat count) 0 (fun i s => kfree_page (u64 (addr + i * PAGE_SIZE)) s) s.

Definition kmalloc_page (s : paging) : Z * paging :=
  let '(phys_addr, s) := pmm_alloc_page s in
  if phys_addr =? 0 then (0, s) else
  let '(virt_addr, s) := paging_map_page phys_addr (kernel_heap s) PAGE_WRITABLE s in
  if virt_addr =? 0 then (0, pmm_free_page phys_addr s)
  else (virt_addr, set_kernel_heap (u64 (kernel_heap s + PAGE_SIZE)) s).

(** The loop of [kmalloc_pages] from [i], [n] turns left. *)
Fixpoint kmalloc_pages_loop (n : nat) (i first_page : Z) (s : paging) : Z * paging :=
  match n with
  | O => (first_page, s)
  | S n' =>
    let '(phys_addr, s) := pmm_alloc_page s in
    if phys_addr =? 0 then (0, kfree_pages first_page i s) else
    let '(r, s) := paging_map_page phys_addr (u64 (first_page + i * PAGE_SIZE)) PAGE_WRITABLE s in
    if r =? 0 then (0, kfree_pages first_page i (pmm_free_page phys_addr s))
    else kmalloc_pages_loop n' (i + 1) first_page s
  end.

Definition kmalloc_pages (count : Z) (s : paging) : Z * paging :=
  let '(first_page, s) := kmalloc_page s in
  if first_page =? 0 then (0, s)
  else kmalloc_pages_loop (Z.to_nat (count - 1)) 1 first_page s.

Definition paging_create_user_address_space (s : paging) : Z * paging :=
  let '(new_pml4, s) := pmm_alloc_page s in
  if new_pml4 =? 0 then (0, s) else
  let m := memset (Z.to_nat PAGE_SIZE) (pg_mem s) new_pml4 0 in
  let m := for_loop 256 256 (fun i m => set_entry m new_pml4 i (entry m (pml4 s) i)) m in
  (new_pml4, set_pg_mem m s).

Definition paging_alloc_user_page (user_pml4 virt_addr flags : Z) (s : paging) : Z * paging :=
  if KERNEL_BASE <=? virt_addr then
    (0, pg_print ("Hata: Kullanici sayfasi kernel adres alaninda!" +:+ nl) s)
  else
    let '(phys_addr, s) := pmm_alloc_page s in
    if phys_addr =? 0 then (0, s) else
    let original_pml4 := pml4 s in
    let '(mapped_addr, s) :=
      paging_map_page phys_addr virt_addr (Z.lor flags PAGE_USER) (set_pml4 user_pml4 s) in
    let s := set_pml4 original_pml4 s in
    if mapped_addr =? 0 then (0, pmm_free_page phys_addr s) else (mapped_addr, s).

Definition paging_free_user_page (user_pml4 virt_addr : Z) (s : paging) : paging :=
  let original_pml4 := pml4 s in
  let s := set_pml4 user_pml4 s in
  let phys_addr := paging_get_physical_address virt_addr s in
  let s := paging_unmap_page virt_addr s in
  let s := if phys_addr =? 0 then s else pmm_free_page phys_addr s in
  set_pml4 original_pml4 s.

(** ** Facts about entries and the bitmap *)

Section Entries.
Implicit Types m : mem.

Lemma frame_of_div e : 0 <= e -> frame_of e = (e / 4096) mod 2 ^ 40 * 4096.
Proof.
  intros He. unfold frame_of. apply Z.bits_inj'; intros i Hi.
  change 0x000FFFFFFFFFF000 with (Z.shiftl (Z.ones 40) 12). change 4096 with (2 ^ 12).
  rewrite <- Z.shiftr_div_pow2, <- Z.shiftl_mul_pow2, <- Z.land_ones by lia.
  rewrite Z.land_spec, !Z.shiftl_spec by lia. destruct (Z.leb_spec 12 i).
  - rewrite Z.land_spec, Z.shiftr_spec by lia. do 2 f_equal. lia.
  - rewrite !(Z.testbit_neg_r _ (i - 12)) by lia. apply andb_false_r.
Qed.

Lemma frame_of_page p : 0 <= p < 2 ^ 52 -> p mod PAGE_SIZE = 0 -> frame_of p = p.
Proof.
  unfold PAGE_SIZE. intros Hp Hm. rewrite frame_of_div by lia.
  rewrite Z.mod_small by (split; [apply Z.div_pos; lia|apply Z.div_lt_upper_bound; lia]).
  rewrite (Z.div_mod p 4096) at 2 by lia. lia.
Qed.

Lemma frame_of_range e : 0 <= e -> 0 <= frame_of e < 2 ^ 52 /\ frame_of e mod PAGE_SIZE = 0.
Proof.
  intros He. rewrite frame_of_div by done. pose proof (Z.mod_pos_bound (e / 4096) (2 ^ 40) ltac:(lia)).
  split; [lia|]. unfold PAGE_SIZE. apply Z_mod_mult.
Qed.

(** Flags touch no address bit. *)
Definition flags_ok (flags : Z) : Prop := in_u 64 flags /\ frame_of flags = 0.

Lemma flags_ok_lor f g : flags_ok f -> flags_ok g -> flags_ok (Z.lor f g).
Proof.
  intros [] []. split; [by apply in_u_lor|]. unfold frame_of in *. rewrite Z.land_lor_distr_l. 
  by rewrite H0, H2.
Qed.

Lemma flags_ok_const f : (f ∈ [0; PAGE_PRESENT; PAGE_WRITABLE; PAGE_USER]) -> flags_ok f.
Proof. set_unfold. intros [->|[->|[->|[->|[]]]]]; split; vm_compute; done. Qed.

(** The entry the source builds for frame [p] reads back as present, with [p]. *)
Lemma make_entry_spec p flags :
  0 <= p < 2 ^ 52 -> p mod PAGE_SIZE = 0 -> flags_ok flags ->
  let e := paging_make_entry p (Z.lor PAGE_PRESENT flags) in
  in_u 64 e /\ is_present e = true /\ frame_of e = p.
Proof.
  intros Hp Hm [Hf Hf0]. unfold paging_make_entry.
  pose proof (frame_of_page p Hp Hm) as Hfp. unfold frame_of in *. rewrite Hfp.
  split_and!.
  - apply in_u_lor; [lia|unfold in_u; lia|]. apply in_u_lor; [lia|done|done].
  - unfold is_present. change PAGE_PRESENT with (Z.shiftl 1 0).
    rewrite land_pow2_testbit by lia. rewrite !Z.lor_spec. simpl. by rewrite orb_true_r.
  - rewrite !Z.land_lor_distr_l, Hfp, Hf0. change (Z.land PAGE_PRESENT _) with 0.
    by rewrite Z.lor_0_l, Z.lor_0_r.
Qed.

Lemma page_used_testbit m bm i :
  page_used m bm i = Z.testbit (load8 m (bm + i / 8)) (i mod 8).
Proof. apply land_pow2_testbit. by apply Z.mod_pos_bound. Qed.

Lemma page_used_ext m m' bm i :
  load8 m' (bm + i / 8) = load8 m (bm + i / 8) -> page_used m' bm i = page_used m bm i.
Proof. intros H. unfold page_used. by rewrite H. Qed.

Lemma page_used_mark m bm i j :
  page_used (mark_page bm i m) bm j = (j =? i) || page_used m bm j.
Proof.
  rewrite !page_used_testbit. unfold mark_page.
  pose proof (Z.mod_pos_bound j 8 ltac:(lia)). pose proof (Z.mod_pos_bound i 8 ltac:(lia)).
  pose proof (Z.div_mod i 8). pose proof (Z.div_mod j 8).
  destruct (decide (j / 8 = i / 8)) as [E|E].
  - rewrite E, load8_store8_eq, testbit_wrap, (proj2 (Z.ltb_lt _ _)) by lia. simpl.
    rewrite Z.lor_spec, testbit_pow2, orb_comm by lia. f_equal.
    destruct (Z.eqb_spec (j mod 8) (i mod 8)), (Z.eqb_spec j i); lia.
  - rewrite load8_store8_ne by lia. rewrite (proj2 (Z.eqb_neq j i)); [done|congruence].
Qed.

Lemma page_used_unmark m bm i j :
  page_used (unmark_page bm i m) bm j = negb (j =? i) && page_used m bm j.
Proof.
  rewrite !page_used_testbit. unfold unmark_page.
  pose proof (Z.mod_pos_bound j 8 ltac:(lia)). pose proof (Z.mod_pos_bound i 8 ltac:(lia)).
  pose proof (Z.div_mod i 8). pose proof (Z.div_mod j 8).
  destruct (decide (j / 8 = i / 8)) as [E|E].
  - rewrite E, load8_store8_eq, testbit_wrap, (proj2 (Z.ltb_lt _ _)) by lia. simpl.
    rewrite Z.land_spec, Z.lnot_spec, testbit_pow2, andb_comm by lia. do 2 f_equal.
    destruct (Z.eqb_spec (j mod 8) (i mod 8)), (Z.eqb_spec j i); lia.
  - rewrite load8_store8_ne by lia. rewrite (proj2 (Z.eqb_neq j i)); [done|congruence].
Qed.

Lemma pmm_search_Some n m bm i k :
  pmm_search n m bm i = Some k ->
  i <= k < i + Z.of_nat n /\ page_used m bm k = false
  /\ forall j, i <= j < k -> page_used m bm j = true.
Proof.
  revert i; induction n as [|n IH]; intros i H; [done|]. cbn [pmm_search] in H.
  destruct (page_used m bm i) eqn:E.
  - apply IH in H as (Hk & Hf & Hu). split_and!; [lia|lia|done|].
    intros j Hj. destruct (decide (j = i)) as [->|]; [done|apply Hu; lia].
  - simplify_eq. split_and!; [lia|lia|done|intros; lia].
Qed.

Lemma pmm_search_None n m bm i :
  pmm_search n m bm i = None ->
  forall j, i <= j < i + Z.of_nat n -> page_used m bm j = true.
Proof.
  revert i; induction n as [|n IH]; intros i H j Hj; [lia|]. cbn [pmm_search] in H.
  destruct (page_used m bm i) eqn:E; [|done].
  destruct (decide (j = i)) as [->|]; [done|]. apply (IH (i + 1)); [done|lia].
Qed.

Lemma entry_range m t i : in_u 64 (entry m t i).
Proof. apply load64_range. Qed.

(** Entries of page-aligned tables are the same cell or do not meet. *)
Lemma entry_set_entry m t i v t' i' :
  t mod PAGE_SIZE = 0 -> t' mod PAGE_SIZE = 0 -> 0 <= i < 512 -> 0 <= i' < 512 -> in_u 64 v ->
  entry (set_entry m t i v) t' i' = if decide (t' = t /\ i' = i) then v else entry m t' i'.
Proof.
  unfold PAGE_SIZE, entry, set_entry, entry_addr. intros Ht Ht' Hi Hi' Hv. case_decide as E.
  - destruct E as [-> ->]. by apply load64_store64_eq.
  - rewrite load_store_le_ne; [done|]. unfold disjoint_ranges.
    pose proof (Z.div_mod t 4096). pose proof (Z.div_mod t' 4096). 
    destruct (decide (t' = t)); [subst; assert (i' <> i) by tauto; lia|].
    assert (t' / 4096 <> t / 4096) by lia. lia.
Qed.

Lemma entry_ext m m' t i :
  (forall a, t <= a < t + PAGE_SIZE -> load8 m' a = load8 m a) -> 0 <= i < 512 ->
  entry m' t i = entry m t i.
Proof.
  intros H Hi. unfold entry, entry_addr, PAGE_SIZE in *. apply load_le_ext.
  intros b Hb. apply H. lia.
Qed.
End Entries.

(** ** The invariant

    [ts] gives the level of every page table: 4 for the root, 1 for the tables
    whose entries map pages.  Tables are used frames outside the bitmap, a
    present entry of an upper table points to a table of the level below, and no
    two entries share one. *)

Definition nbits (s : paging) : Z := bitmap_size s * 8.

(** Frame [i] is marked used. *)
Definition frame_used (s : paging) (i : Z) : bool := page_used (pg_mem s) (bitmap s) i.

Record paging_wf (s : paging) (ts : gmap Z nat) : Prop := {
  pwf_bitmap : 0 <= bitmap s;
  pwf_size : 0 < bitmap_size s <= 2 ^ 37;
  pwf_zero : frame_used s 0 = true;
  pwf_bitmap_used i : 0 <= i < nbits s -> frame_used s i = false ->
    disjoint_ranges (i * PAGE_SIZE) PAGE_SIZE (bitmap s) (bitmap_size s);
  pwf_root : ts !! pml4 s = Some 4%nat;
  pwf_table t l : ts !! t = Some l ->
    (1 <= l <= 4)%nat /\ 0 <= t < 2 ^ 52 /\ t mod PAGE_SIZE = 0 /\
    disjoint_ranges t PAGE_SIZE (bitmap s) (bitmap_size s) /\
    (t / PAGE_SIZE < nbits s -> frame_used s (t / PAGE_SIZE) = true);
  pwf_entry t l i : ts !! t = Some (S (S l)) -> 0 <= i < 512 ->
    is_present (entry (pg_mem s) t i) = true ->
    ts !! frame_of (entry (pg_mem s) t i) = Some (S l);
  pwf_inj t l i t' l' i' :
    ts !! t = Some (S (S l)) -> ts !! t' = Some (S (S l')) ->
    0 <= i < 512 -> 0 <= i' < 512 ->
    is_present (entry (pg_mem s) t i) = true -> is_present (entry (pg_mem s) t' i') = true ->
    frame_of (entry (pg_mem s) t i) = frame_of (entry (pg_mem s) t' i') -> t = t' /\ i = i';
}.

(** The table reached from [t] by the entries [path]. *)
Fixpoint table_at (m : mem) (t : Z) (path : list Z) : option Z :=
  match path with
  | [] => Some t
  | i :: path' =>
    if is_present (entry m t i) then table_at m (frame_of (entry m t i)) path' else None
  end.

(** The present entry [i] of the table reached by [path]. *)
Definition entry_at (m : mem) (t : Z) (path : list Z) (i : Z) : option Z :=
  t' ← table_at m t path;
  if is_present (entry m t' i) then Some (entry m t' i) else None.

Definition upper_indices (va : Z) : list Z := [pml4_index va; pdpt_index va; pd_index va].

(** The abstract address space: the entry that maps the page of [va]. *)
Definition translate (s : paging) (va : Z) : option Z :=
  entry_at (pg_mem s) (pml4 s) (upper_indices va) (pt_index va).

Definition indices_ok (path : list Z) : Prop := Forall (fun i => 0 <= i < 512) path.

(** What growing the tables from [ts] to [ts'] may change: only frames that were
    free, the bitmap and entries that were not present. *)
Record grows (s : paging) (ts : gmap Z nat) (s' : paging) (ts' : gmap Z nat) : Prop := {
  gr_sub : ts ⊆ ts';
  gr_pml4 : pml4 s' = pml4 s;
  gr_bitmap : bitmap s' = bitmap s;
  gr_size : bitmap_size s' = bitmap_size s;
  gr_heap : kernel_heap s' = kernel_heap s;
  gr_used i : 0 <= i < nbits s -> frame_used s i = true -> frame_used s' i = true;
  gr_new t : is_Some (ts' !! t) -> ts !! t = None ->
    0 <= t / PAGE_SIZE < nbits s /\ frame_used s (t / PAGE_SIZE) = false;
  gr_present t l i : ts !! t = Some l -> 0 <= i < 512 ->
    is_present (entry (pg_mem s) t i) = true -> entry (pg_mem s') t i = entry (pg_mem s) t i;
  gr_entry_at t l path i : ts !! t = Some l -> length path = pred l -> indices_ok path -> 0 <= i < 512 ->
    entry_at (pg_mem s') t path i = entry_at (pg_mem s) t path i;
  gr_kept a : 0 <= a < nbits s * PAGE_SIZE -> frame_used s (a / PAGE_SIZE) = true ->
    ts !! (a / PAGE_SIZE * PAGE_SIZE) = None ->
    ~ (bitmap s <= a < bitmap s + bitmap_size s) -> load8 (pg_mem s') a = load8 (pg_mem s) a;
}.

Section Invariant.
Implicit Types (m : mem) (ts : gmap Z nat).

Lemma grows_refl s ts : grows s ts s ts.
Proof. split; try done. intros t [x Hx] Hn. congruence. Qed.

Lemma grows_trans s1 ts1 s2 ts2 s3 ts3 :
  grows s1 ts1 s2 ts2 -> grows s2 ts2 s3 ts3 -> grows s1 ts1 s3 ts3.
Proof.
  intros G1 G2. pose proof (gr_size _ _ _ _ G1) as Hsz.
  assert (Hnb : nbits s2 = nbits s1) by (unfold nbits; congruence).
  assert (Hsub : forall t l, ts1 !! t = Some l -> ts2 !! t = Some l).
  { intros t l Ht. eapply lookup_weaken; [done|apply G1]. }
  split.
  - etrans; [apply G1|apply G2].
  - rewrite (gr_pml4 _ _ _ _ G2). apply G1.
  - rewrite (gr_bitmap _ _ _ _ G2). apply G1.
  - rewrite (gr_size _ _ _ _ G2). apply G1.
  - rewrite (gr_heap _ _ _ _ G2). apply G1.
  - intros i Hi Hu. eapply (gr_used _ _ _ _ G2); [by rewrite Hnb|]. by eapply (gr_used _ _ _ _ G1).
  - intros t Ht Hn. destruct (ts2 !! t) eqn:E2; [by apply (gr_new _ _ _ _ G1)|].
    destruct (gr_new _ _ _ _ G2 t Ht E2) as [Hr Hu]. rewrite Hnb in Hr. split; [done|].
    destruct (frame_used s1 (t / PAGE_SIZE)) eqn:E; [|done].
    by rewrite (gr_used _ _ _ _ G1 _ Hr E) in Hu.
  - intros t l i Ht Hi Hp. rewrite (gr_present _ _ _ _ G2 t l i); [by eapply (gr_present _ _ _ _ G1)|by apply Hsub|done|].
    by rewrite (gr_present _ _ _ _ G1 t l i).
  - intros t l path i Ht Hl His Hi. rewrite (gr_entry_at _ _ _ _ G2 t l path i); [|by apply Hsub|done..].
    by apply (gr_entry_at _ _ _ _ G1 t l path i).
  - intros a Ha Hu Hn Hb. rewrite (gr_kept _ _ _ _ G2 a); [by apply (gr_kept _ _ _ _ G1)|by rewrite Hnb| | |].
    + apply (gr_used _ _ _ _ G1); [|done]. unfold PAGE_SIZE in *.
      split; [apply Z.div_pos; lia|apply Z.div_lt_upper_bound; lia].
    + destruct (ts2 !! (a / PAGE_SIZE * PAGE_SIZE)) eqn:E2; [|done].
      destruct (gr_new _ _ _ _ G1 (a / PAGE_SIZE * PAGE_SIZE)) as [_ Hf]; [by rewrite E2|done|].
      rewrite Z.div_mul in Hf by done. congruence.
    + by rewrite (gr_bitmap _ _ _ _ G1), (gr_size _ _ _ _ G1).
Qed.

(** Distinct frames do not meet. *)
Lemma frames_disjoint a b :
  a mod PAGE_SIZE = 0 -> b mod PAGE_SIZE = 0 -> a <> b -> disjoint_ranges a PAGE_SIZE b PAGE_SIZE.
Proof.
  unfold PAGE_SIZE, disjoint_ranges. intros. pose proof (Z.div_mod a 4096). pose proof (Z.div_mod b 4096).
  assert (a / 4096 <> b / 4096) by lia. lia.
Qed.

Lemma bitmap_byte s i : 0 <= i < nbits s -> bitmap s <= bitmap s + i / 8 < bitmap s + bitmap_size s.
Proof.
  unfold nbits. intros. pose proof (Z.div_pos i 8). pose proof (Z.div_lt_upper_bound i 8 (bitmap_size s)). lia.
Qed.

(** The invariant depends on the memory only through the tables, the used bits
    and the bitmap. *)
Lemma paging_wf_mono s s' ts :
  paging_wf s ts -> pml4 s' = pml4 s -> bitmap s' = bitmap s -> bitmap_size s' = bitmap_size s ->
  (forall i, 0 <= i < nbits s -> frame_used s i = true -> frame_used s' i = true) ->
  (forall t l i, ts !! t = Some (S (S l)) -> 0 <= i < 512 ->
     entry (pg_mem s') t i = entry (pg_mem s) t i) ->
  frame_used s' 0 = true ->
  paging_wf s' ts.
Proof.
  intros [] Hp Hb Hs Hu He Hz. assert (Hnb : nbits s' = nbits s) by (unfold nbits; congruence).
  split; rewrite ?Hb, ?Hs, ?Hp, ?Hnb; try done.
  - intros i Hi Hf. apply pwf_bitmap_used0; [done|]. destruct (frame_used s i) eqn:E; [|done].
    by rewrite Hu in Hf.
  - intros t l Ht. destruct (pwf_table0 t l Ht) as (?&?&?&?&Hus). split_and!; try done; try lia.
    intros Hlt. apply Hu; [|by apply Hus]. split; [apply Z.div_pos; unfold PAGE_SIZE; lia|done].
  - intros t l i Ht Hi. rewrite (He t l i) by done. by apply pwf_entry0.
  - intros t l i t' l' i' Ht Ht' Hi Hi'. rewrite (He t l i), (He t' l' i') by done.
    by apply (pwf_inj0 t l i t' l' i').
Qed.
End Invariant.

(** ** Allocating a frame *)

Section Alloc.
Implicit Types (m : mem) (ts : gmap Z nat).

(** The state after taking frame [k]. *)
Definition take_frame (k : Z) (s : paging) : paging :=
  set_pg_mem (memset (Z.to_nat PAGE_SIZE) (mark_page (bitmap s) k (pg_mem s)) (k * PAGE_SIZE) 0)
    (set_memory_counts (u64 (free_memory s - PAGE_SIZE)) (u64 (used_memory s + PAGE_SIZE)) s).

Definition all_used (s : paging) : Prop := forall i, 0 <= i < nbits s -> frame_used s i = true.

(** Frame [k] is the first free one. *)
Definition first_free (k : Z) (s : paging) : Prop :=
  0 < k < nbits s /\ frame_used s k = false /\ forall j, 0 <= j < k -> frame_used s j = true.

Lemma nbits_bound s ts : paging_wf s ts -> 0 < nbits s <= 2 ^ 40 /\ u64 (nbits s) = nbits s.
Proof.
  intros []. unfold nbits. split; [lia|]. apply wrap_small. unfold in_u. lia.
Qed.

Lemma pmm_alloc_cases s ts :
  paging_wf s ts ->
  (all_used s /\ pmm_alloc_page s = (0, pg_print ("Hata: Fiziksel bellek doldu!" +:+ nl) s))
  \/ exists k, first_free k s /\ pmm_alloc_page s = (k * PAGE_SIZE, take_frame k s).
Proof.
  intros Hwf. destruct (nbits_bound s ts Hwf) as [Hb Hw]. unfold pmm_alloc_page.
  fold (nbits s). rewrite Hw. destruct (pmm_search _ _ _ 0) as [k|] eqn:E.
  - right. apply pmm_search_Some in E as (Hk & Hf & Hu).
    assert (k <> 0) by (intros ->; pose proof (pwf_zero _ _ Hwf) as Hz; unfold frame_used in Hz; congruence).
    exists k. split; [split_and!; [lia|lia|done|intros; apply Hu; lia]|].
    rewrite wrap_small by (unfold in_u, PAGE_SIZE; lia). done.
  - left. split; [|done]. intros i Hi. apply (pmm_search_None _ _ _ _ E). lia.
Qed.

Lemma load8_take_frame k s a :
  load8 (pg_mem (take_frame k s)) a =
    if decide (k * PAGE_SIZE <= a < k * PAGE_SIZE + PAGE_SIZE) then 0
    else load8 (mark_page (bitmap s) k (pg_mem s)) a.
Proof. cbn [take_frame pg_mem set_pg_mem set_memory_counts]. rewrite load8_memset. done. Qed.

Lemma load8_mark_page_ne m bm k a : a <> bm + k / 8 -> load8 (mark_page bm k m) a = load8 m a.
Proof. intros. unfold mark_page. by rewrite load8_store8_ne. Qed.

Lemma frame_used_take_frame s ts k i :
  paging_wf s ts -> first_free k s -> 0 <= i < nbits s ->
  frame_used (take_frame k s) i = (i =? k) || frame_used s i.
Proof.
  intros Hwf (Hk & Hf & _) Hi. unfold frame_used at 1.
  rewrite (page_used_ext (mark_page (bitmap s) k (pg_mem s))); [apply page_used_mark|].
  pose proof (pwf_bitmap_used _ _ Hwf k ltac:(lia) Hf) as Hd. pose proof (bitmap_byte s i Hi).
  rewrite load8_take_frame. cbn [bitmap take_frame set_pg_mem set_memory_counts].
  unfold disjoint_ranges in Hd. by rewrite decide_False by lia.
Qed.

(** Outside the frame and the bitmap nothing changes. *)
Lemma take_frame_kept s k a :
  0 <= k < nbits s ->
  ~ (k * PAGE_SIZE <= a < k * PAGE_SIZE + PAGE_SIZE) ->
  ~ (bitmap s <= a < bitmap s + bitmap_size s) ->
  load8 (pg_mem (take_frame k s)) a = load8 (pg_mem s) a.
Proof.
  intros Hk Ha Hb. pose proof (bitmap_byte s k Hk). rewrite load8_take_frame, decide_False by done.
  apply load8_mark_page_ne. lia.
Qed.

Lemma table_not_free s ts t l k : paging_wf s ts -> ts !! t = Some l -> first_free k s -> t <> k * PAGE_SIZE.
Proof.
  intros Hwf Ht (Hk & Hf & _) ->. destruct (pwf_table _ _ Hwf _ _ Ht) as (_ & _ & _ & _ & Hu).
  rewrite Z.div_mul in Hu by done. rewrite Hu in Hf; [done|lia].
Qed.

Lemma entry_take_frame s ts t l k i :
  paging_wf s ts -> ts !! t = Some l -> first_free k s -> 0 <= i < 512 ->
  entry (pg_mem (take_frame k s)) t i = entry (pg_mem s) t i.
Proof.
  intros Hwf Ht Hk Hi. pose proof (table_not_free _ _ _ _ _ Hwf Ht Hk) as Hne.
  destruct (pwf_table _ _ Hwf _ _ Ht) as (_ & Hr & Hm & Hd & _). apply entry_ext; [|done].
  assert (Hkm : (k * PAGE_SIZE) mod PAGE_SIZE = 0) by apply Z_mod_mult.
  pose proof (frames_disjoint _ _ Hm Hkm Hne) as Hd2. destruct Hk as [Hk _].
  unfold disjoint_ranges in *. intros a Ha. apply take_frame_kept; lia.
Qed.

Lemma entry_at_ext m m' ts :
  (forall t l i, ts !! t = Some l -> 0 <= i < 512 -> entry m' t i = entry m t i) ->
  (forall t l i, ts !! t = Some (S (S l)) -> 0 <= i < 512 -> is_present (entry m t i) = true ->
     ts !! frame_of (entry m t i) = Some (S l)) ->
  forall path t l i, ts !! t = Some l -> length path = pred l -> indices_ok path -> 0 <= i < 512 ->
    entry_at m' t path i = entry_at m t path i.
Proof.
  intros He Hc path. induction path as [|j path IH]; intros t l i Ht Hl Hp Hi; unfold entry_at; cbn [table_at mbind option_bind].
  { by rewrite (He t l). }
  apply Forall_cons in Hp as [Hj Hp]. rewrite (He t l) by done.
  destruct l as [|[|l]]; [done..|]. destruct (is_present (entry m t j)) eqn:E; [|done].
  apply (IH _ (S l)); [by eapply Hc|by injection Hl|done..].
Qed.

Lemma take_frame_wf s ts k :
  paging_wf s ts -> first_free k s ->
  paging_wf (take_frame k s) ts /\ grows s ts (take_frame k s) ts.
Proof.
  intros Hwf Hk.
  assert (Hu : forall i, 0 <= i < nbits s -> frame_used s i = true -> frame_used (take_frame k s) i = true).
  { intros i Hi Hu. rewrite (frame_used_take_frame s ts) by done. by rewrite Hu, orb_true_r. }
  split.
  - apply (paging_wf_mono s); [done|reflexivity|reflexivity|reflexivity|exact Hu| |].
    + intros t l i Ht Hi. by apply (entry_take_frame s ts t (S (S l))).
    + apply Hu; [destruct Hk; lia|apply Hwf].
  - split; [done|reflexivity|reflexivity|reflexivity|reflexivity|exact Hu|..].
    + intros t [? Ht] Hn. congruence.
    + intros t l i Ht Hi _. by apply (entry_take_frame s ts t l).
    + intros t l path i. apply entry_at_ext.
      * intros t' l' i' Ht Hi. by apply (entry_take_frame s ts t' l').
      * apply Hwf.
    + intros a Ha Hus _ Hb. apply take_frame_kept; [destruct Hk; lia| |done].
      intros Hin. assert (Hak : a / PAGE_SIZE = k).
      { unfold PAGE_SIZE in *. symmetry. apply (Z.div_unique a 4096 k (a - k * 4096)); lia. }
      destruct Hk as (_ & Hf & _). congruence.
Qed.

(** The new frame is zero: as a table it has no present entry. *)
Lemma take_frame_zero s k i : 0 <= i < 512 -> entry (pg_mem (take_frame k s)) (k * PAGE_SIZE) i = 0.
Proof.
  intros Hi. unfold entry, entry_addr. apply load_le_zero. intros b Hb. rewrite load8_take_frame.
  unfold PAGE_SIZE in *. by rewrite decide_True by lia.
Qed.
End Alloc.

(** ** Growing and walking the tables *)

Section Walk.
Implicit Types (m : mem) (ts : gmap Z nat).

(** Storing an entry of a table touches no bitmap byte. *)
Lemma frame_used_set_entry s ts t l i v j :
  paging_wf s ts -> ts !! t = Some l -> 0 <= i < 512 -> 0 <= j < nbits s ->
  frame_used (set_pg_mem (set_entry (pg_mem s) t i v) s) j = frame_used s j.
Proof.
  intros Hwf Ht Hi Hj. destruct (pwf_table _ _ Hwf _ _ Ht) as (_ & _ & _ & Hd & _).
  pose proof (bitmap_byte s j Hj). unfold frame_used. apply page_used_ext. cbn.
  unfold set_entry, entry_addr, disjoint_ranges, PAGE_SIZE in *.
  apply load8_store_le_ne. unfold disjoint_ranges. lia.
Qed.

Lemma frame_used_zero_set_entry s ts t l i v :
  paging_wf s ts -> ts !! t = Some l -> 0 <= i < 512 -> 0 < nbits s ->
  frame_used (set_pg_mem (set_entry (pg_mem s) t i v) s) 0 = true.
Proof. intros. rewrite (frame_used_set_entry s ts t l) by (done || lia). by apply (pwf_zero _ ts). Qed.

Lemma entry_set_entry_table s ts t l i v t' l' i' :
  paging_wf s ts -> ts !! t = Some l -> ts !! t' = Some l' -> 0 <= i < 512 -> 0 <= i' < 512 ->
  in_u 64 v ->
  entry (set_entry (pg_mem s) t i v) t' i' =
    if decide (t' = t /\ i' = i) then v else entry (pg_mem s) t' i'.
Proof.
  intros Hwf Ht Ht' Hi Hi' Hv. apply entry_set_entry; try done.
  - by destruct (pwf_table _ _ Hwf _ _ Ht) as (_ & _ & ? & _).
  - by destruct (pwf_table _ _ Hwf _ _ Ht') as (_ & _ & ? & _).
Qed.

(** A table page [p]: frame [p / PAGE_SIZE] is used and holds no other table. *)
Definition fresh_table (s : paging) ts (p : Z) : Prop :=
  ts !! p = None /\ 0 < p < 2 ^ 52 /\ p mod PAGE_SIZE = 0 /\
  disjoint_ranges p PAGE_SIZE (bitmap s) (bitmap_size s) /\
  (p / PAGE_SIZE < nbits s -> frame_used s (p / PAGE_SIZE) = true) /\
  forall i, 0 <= i < 512 -> entry (pg_mem s) p i = 0.

Lemma take_frame_fresh s ts k :
  paging_wf s ts -> first_free k s -> fresh_table (take_frame k s) ts (k * PAGE_SIZE).
Proof.
  intros Hwf Hk. pose proof (nbits_bound s ts Hwf) as [Hb _]. pose proof Hk as (Hr & Hf & _).
  split_and!.
  - destruct (ts !! (k * PAGE_SIZE)) eqn:E; [|done].
    by destruct (table_not_free _ _ _ _ _ Hwf E Hk).
  - unfold PAGE_SIZE. lia.
  - unfold PAGE_SIZE. lia.
  - apply Z_mod_mult.
  - apply (pwf_bitmap_used _ _ Hwf); [lia|done].
  - rewrite Z.div_mul by done. intros _. rewrite (frame_used_take_frame s ts k k Hwf Hk) by lia.
    by rewrite Z.eqb_refl.
  - intros. by apply take_frame_zero.
Qed.

Lemma is_present_0 : is_present 0 = false.
Proof. done. Qed.

(** Linking a fresh table below a non-present entry. *)
Lemma link_wf s ts t l i p v :
  paging_wf s ts -> ts !! t = Some (S (S l)) -> 0 <= i < 512 -> 0 < nbits s ->
  is_present (entry (pg_mem s) t i) = false -> fresh_table s ts p ->
  in_u 64 v -> frame_of v = p ->
  paging_wf (set_pg_mem (set_entry (pg_mem s) t i v) s) (<[p := S l]> ts).
Proof.
  intros Hwf Ht Hi Hnb Hnp (Hn & Hp & Hpm & Hpd & Hpu & Hp0) Hv Hfv.
  assert (Htp : t <> p) by congruence.
  assert (Htm : t mod PAGE_SIZE = 0) by (by destruct (pwf_table _ _ Hwf _ _ Ht) as (_ & _ & ? & _)).
  assert (Hus : forall j, 0 <= j < nbits s ->
     frame_used (set_pg_mem (set_entry (pg_mem s) t i v) s) j = frame_used s j).
  { intros j Hj. by apply (frame_used_set_entry s ts t (S (S l))). }
  (* an entry of a table of the new map *)
  assert (Hent : forall t' l' i', <[p := S l]> ts !! t' = Some (S (S l')) -> 0 <= i' < 512 ->
     is_present (entry (set_entry (pg_mem s) t i v) t' i') = true ->
     (t' = t /\ i' = i /\ l' = l /\ entry (set_entry (pg_mem s) t i v) t' i' = v) \/
     (ts !! t' = Some (S (S l')) /\ ~ (t' = t /\ i' = i) /\
      entry (set_entry (pg_mem s) t i v) t' i' = entry (pg_mem s) t' i')).
  { intros t' l' i' Ht' Hi' Hpr. apply lookup_insert_Some in Ht' as [[<- [= ->]]|[Hne Ht']].
    - rewrite entry_set_entry in Hpr by done.
      rewrite decide_False in Hpr by (intros []; congruence). by rewrite Hp0 in Hpr.
    - rewrite (entry_set_entry_table s ts t (S (S l)) i v t' (S (S l'))) in * by done.
      case_decide as E; [left|by right]. destruct E as [-> ->]. split_and!; congruence. }
  split; cbn [bitmap bitmap_size pml4 set_pg_mem pg_mem]; change (nbits (set_pg_mem _ s)) with (nbits s).
  - apply Hwf.
  - apply Hwf.
  - rewrite Hus by lia. apply Hwf.
  - intros j Hj. rewrite Hus by done. by apply (pwf_bitmap_used _ _ Hwf).
  - rewrite lookup_insert_ne; [apply Hwf|]. intros ->. by rewrite (pwf_root _ _ Hwf) in Hn.
  - intros t' l' [[<- <-]|[Hne Ht']]%lookup_insert_Some.
    + destruct (pwf_table _ _ Hwf _ _ Ht) as (? & _). split_and!; try done; try lia.
      intros Hlt. rewrite Hus; [by apply Hpu|]. split; [apply Z.div_pos; unfold PAGE_SIZE; lia|done].
    + destruct (pwf_table _ _ Hwf _ _ Ht') as (? & ? & ? & ? & Hu). split_and!; try done; try lia.
      intros Hlt. rewrite Hus; [by apply Hu|]. split; [apply Z.div_pos; unfold PAGE_SIZE; lia|done].
  - intros t' l' i' Ht' Hi' Hpr. destruct (Hent t' l' i' Ht' Hi' Hpr) as [(-> & -> & -> & ->)|(Ht2 & _ & He)].
    + rewrite Hfv. apply lookup_insert_eq.
    + rewrite He in *. rewrite lookup_insert_ne; [by apply (pwf_entry _ _ Hwf t')|].
      intros Heq. pose proof (pwf_entry _ _ Hwf t' l' i' Ht2 Hi' Hpr). congruence.
  - assert (Hnew : forall t' l' i', ts !! t' = Some (S (S l')) -> 0 <= i' < 512 ->
      is_present (entry (pg_mem s) t' i') = true -> frame_of (entry (pg_mem s) t' i') <> p).
    { intros t' l' i' Ht2 Hi' Hpr Heq. pose proof (pwf_entry _ _ Hwf t' l' i' Ht2 Hi' Hpr). congruence. }
    intros t1 l1 i1 t2 l2 i2 H1 H2 Hi1 Hi2 Hp1 Hp2.
    destruct (Hent _ _ _ H1 Hi1 Hp1) as [(-> & -> & -> & E1)|(T1 & _ & E1)],
      (Hent _ _ _ H2 Hi2 Hp2) as [(-> & -> & -> & E2)|(T2 & _ & E2)];
      rewrite ?E1 in Hp1; rewrite ?E2 in Hp2; rewrite ?E1, ?E2; try done.
    + intros Heq. rewrite Hfv in Heq. by destruct (Hnew t2 l2 i2 T2 Hi2 Hp2).
    + intros Heq. rewrite Hfv in Heq. by destruct (Hnew t1 l1 i1 T1 Hi1 Hp1).
    + by apply (pwf_inj _ _ Hwf t1 l1 i1 t2 l2 i2).
Qed.

(** Nothing is reachable through a table without present entries. *)
Lemma entry_at_empty m t path i :
  (forall j, 0 <= j < 512 -> entry m t j = 0) -> indices_ok path -> 0 <= i < 512 ->
  entry_at m t path i = None.
Proof.
  intros H Hp Hi. unfold entry_at. destruct path as [|j path]; cbn [table_at mbind option_bind].
  - by rewrite H.
  - apply Forall_cons in Hp as [Hj _]. by rewrite H.
Qed.

Lemma link_entry_at s ts t l i p v :
  paging_wf s ts -> ts !! t = Some (S (S l)) -> 0 <= i < 512 ->
  is_present (entry (pg_mem s) t i) = false -> fresh_table s ts p ->
  in_u 64 v -> frame_of v = p ->
  forall path t' l' i', ts !! t' = Some l' -> length path = pred l' -> indices_ok path -> 0 <= i' < 512 ->
    entry_at (set_entry (pg_mem s) t i v) t' path i' = entry_at (pg_mem s) t' path i'.
Proof.
  intros Hwf Ht Hi Hnp (Hn & _ & Hpm & _ & _ & Hp0) Hv Hfv path.
  induction path as [|j path IH]; intros t' l' i' Ht' Hl Hpath Hi'; unfold entry_at; cbn [table_at mbind option_bind].
  - rewrite (entry_set_entry_table s ts t (S (S l)) i v t' l') by done. rewrite decide_False; [done|].
    intros [-> _]. rewrite Ht in Ht'. by simplify_eq.
  - apply Forall_cons in Hpath as [Hj Hpath].
    rewrite (entry_set_entry_table s ts t (S (S l)) i v t' l') by done. case_decide as E.
    + destruct E as [-> ->]. rewrite Hnp. cbn [mbind option_bind]. destruct (is_present v); [|done]. rewrite Hfv.
      apply (entry_at_empty _ p path i'); [|done..]. intros j' Hj'.
      rewrite entry_set_entry; [|by destruct (pwf_table _ _ Hwf _ _ Ht) as (_ & _ & ? & _)|done..].
      rewrite decide_False by (intros [-> _]; congruence). by apply Hp0.
    + destruct (is_present (entry (pg_mem s) t' j)) eqn:Epr; [|done].
      destruct l' as [|[|l']]; [done..|].
      apply (IH _ (S l')); [by apply (pwf_entry _ _ Hwf t')|by injection Hl|done..].
Qed.
End Walk.

Section Map.
Implicit Types (m : mem) (ts : gmap Z nat).

Lemma pg_print_wf msg s ts : paging_wf s ts -> paging_wf (pg_print msg s) ts.
Proof. intros []. by split. Qed.

Lemma grows_print msg s ts : grows s ts (pg_print msg s) ts.
Proof. destruct (grows_refl s ts). by split. Qed.

(** Storing an entry changes only bytes of its table. *)
Lemma set_entry_kept s ts t l i v a :
  paging_wf s ts -> ts !! t = Some l -> 0 <= i < 512 ->
  ts !! (a / PAGE_SIZE * PAGE_SIZE) = None ->
  load8 (set_entry (pg_mem s) t i v) a = load8 (pg_mem s) a.
Proof.
  intros Hwf Ht Hi Hn. unfold set_entry, entry_addr.
  apply load8_store_le_ne. unfold disjoint_ranges.
  destruct (pwf_table _ _ Hwf _ _ Ht) as (_ & _ & Hm & _). unfold PAGE_SIZE in *.
  destruct (decide (a / 4096 * 4096 = t)) as [E|E]; [congruence|].
  pose proof (Z.div_mod a 4096). pose proof (Z.div_mod t 4096).
  pose proof (Z.mod_pos_bound a 4096).
  assert (a / 4096 <> t / 4096) by lia. lia.
Qed.

(** One level of the walk, allocating. *)
Lemma walk_level_alloc s ts t l i flags :
  paging_wf s ts -> ts !! t = Some (S (S l)) -> 0 <= i < 512 -> flags_ok flags ->
  exists r s' ts', walk_level t i true flags s = (r, s') /\ paging_wf s' ts' /\ grows s ts s' ts' /\
    match r with
    | None => is_present (entry (pg_mem s) t i) = false /\ all_used s'
    | Some t' => ts' !! t' = Some (S l) /\ is_present (entry (pg_mem s') t i) = true /\
                 frame_of (entry (pg_mem s') t i) = t'
    end /\
    (is_present (entry (pg_mem s) t i) = true -> s' = s).
Proof.
  intros Hwf Ht Hi Hfl. unfold walk_level. destruct (is_present (entry (pg_mem s) t i)) eqn:Hpr.
  { exists (Some (frame_of (entry (pg_mem s) t i))), s, ts.
    split_and!; try done; [apply grows_refl|by eapply pwf_entry]. }
  cbn [negb]. destruct (pmm_alloc_cases s ts Hwf) as [[Hfull ->]|(k & Hk & ->)].
  { cbn [Z.eqb]. exists None, (pg_print ("Hata: Fiziksel bellek doldu!" +:+ nl) s), ts.
    split_and!; try done; [by apply pg_print_wf|by apply grows_print]. }
  pose proof (take_frame_wf s ts k Hwf Hk) as [Hwf1 Hg1].
  pose proof (take_frame_fresh s ts k Hwf Hk) as Hfr.
  assert (Hnb : 0 < nbits s) by (destruct Hk; lia).
  assert (Hk0 : k * PAGE_SIZE <> 0) by (destruct Hfr as (_ & ? & _); lia).
  rewrite (proj2 (Z.eqb_neq _ _) Hk0).
  destruct (make_entry_spec (k * PAGE_SIZE) (Z.lor PAGE_WRITABLE flags)) as (Hv & Hvp & Hvf);
    [destruct Hfr as (_ & ? & _); lia|apply Z_mod_mult| |].
  { apply flags_ok_lor; [apply flags_ok_const; by repeat constructor|done]. }
  rewrite Z.lor_assoc in Hv, Hvp, Hvf.
  set (v := paging_make_entry _ _) in *. clearbody v.
  assert (Hkf : 0 <= (k * PAGE_SIZE) / PAGE_SIZE < nbits s /\ frame_used s (k * PAGE_SIZE / PAGE_SIZE) = false).
  { rewrite Z.div_mul by done. destruct Hk as (? & ? & _). split; [lia|done]. }
  set (s1 := take_frame k s) in *. set (p := k * PAGE_SIZE) in *.
  assert (Hnp1 : is_present (entry (pg_mem s1) t i) = false).
  { subst s1. rewrite (entry_take_frame s ts t (S (S l))) by done. done. }
  assert (Hnb1 : nbits s1 = nbits s) by done. clearbody s1 p.
  assert (Hself : entry (set_entry (pg_mem s1) t i v) t i = v).
  { rewrite (entry_set_entry_table s1 ts t (S (S l)) i v t (S (S l))) by done. by rewrite decide_True. }
  exists (Some p), (set_pg_mem (set_entry (pg_mem s1) t i v) s1), (<[p := S l]> ts).
  cbn [pg_mem set_pg_mem]. rewrite Hself, Hvf. split_and!; try done.
  - apply (link_wf s1 ts t l i p v); try done. lia.
  - destruct Hfr as (Hn & Hp & Hpm & Hpd & Hpu & Hp0). destruct Hg1. split; cbn [set_pg_mem pml4 bitmap bitmap_size kernel_heap pg_mem]; try done.
    + by apply insert_subseteq.
    + intros j Hj Hus. rewrite (frame_used_set_entry s1 ts t (S (S l))); [by apply gr_used0|done..|].
      by rewrite Hnb1.
    + intros t' [l' [[<- _]|[_ Ht']]%lookup_insert_Some] Hnt; [by apply Hkf|congruence].
    + intros t' l' i' Ht' Hi' Hpr'.
      rewrite (entry_set_entry_table s1 ts t (S (S l)) i v t' l') by done.
      rewrite decide_False; [by apply (gr_present0 t' l')|]. intros [-> ->]. congruence.
    + intros t' l' path i' Ht' Hl' Hpath Hi'.
      rewrite (link_entry_at s1 ts t l i p v) with (l' := l') by done. by apply (gr_entry_at0 t' l').
    + intros a Ha Hus Hna Hb.
      rewrite (set_entry_kept s1 ts t (S (S l))) by done. by apply gr_kept0.
  - by rewrite lookup_insert_eq.
Qed.
End Map.

(** ** Indices of an address *)

Section Indices.
(** The walk looks at the low 36 bits of the page number only. *)
Definition same_page (va va' : Z) : Prop :=
  (va / PAGE_SIZE) mod 2 ^ 36 = (va' / PAGE_SIZE) mod 2 ^ 36.

#[export] Instance same_page_dec va va' : Decision (same_page va va').
Proof. unfold same_page. apply _. Defined.

Lemma index_div va k : 0 <= va -> 0 <= k ->
  Z.land (Z.shiftr va (12 + k)) 0x1FF = (va / PAGE_SIZE / 2 ^ k) mod 512.
Proof.
  intros. change 0x1FF with (2 ^ 9 - 1). rewrite land_ones_mod, Z.shiftr_div_pow2 by lia.
  rewrite Z.pow_add_r, <- Z.div_div by lia. done.
Qed.

Lemma indices_div va : 0 <= va -> let n := va / PAGE_SIZE in
  upper_indices va = [(n / 2 ^ 27) mod 512; (n / 2 ^ 18) mod 512; (n / 2 ^ 9) mod 512]
  /\ pt_index va = n mod 512.
Proof.
  intros Hva. cbv zeta. unfold upper_indices, pml4_index, pdpt_index, pd_index, pt_index.
  rewrite <- (index_div va 27), <- (index_div va 18), <- (index_div va 9) by lia.
  split; [done|]. pose proof (index_div va 0 Hva ltac:(lia)) as E.
  change (2 ^ 0) with 1 in E. by rewrite Z.div_1_r in E.
Qed.

Lemma indices_ok_upper va : 0 <= va -> indices_ok (upper_indices va) /\ 0 <= pt_index va < 512.
Proof.
  intros Hva. destruct (indices_div va Hva) as [-> ->].
  split; [repeat constructor|]; by apply Z.mod_pos_bound.
Qed.

Lemma page_number_mod n :
  n mod 2 ^ 36 = n mod 512 + 512 * ((n / 2 ^ 9) mod 512 + 512 * ((n / 2 ^ 18) mod 512
                   + 512 * ((n / 2 ^ 27) mod 512))).
Proof.
  change (2 ^ 36) with (512 * (512 * (512 * 512))).
  rewrite Z.rem_mul_r, (Z.rem_mul_r (n / 512)), (Z.rem_mul_r (n / 512 / 512)) by lia.
  rewrite !Z.div_div by lia. done.
Qed.

Lemma indices_inj va va' : 0 <= va -> 0 <= va' ->
  (upper_indices va = upper_indices va' /\ pt_index va = pt_index va') <-> same_page va va'.
Proof.
  intros H H'. unfold same_page. rewrite !page_number_mod.
  destruct (indices_div va H) as [-> ->], (indices_div va' H') as [-> ->].
  set (n := va / PAGE_SIZE). set (n' := va' / PAGE_SIZE).
  split; [intros [[= -> -> ->] ->]; done|]. intros E.
  assert (B : forall x, 0 <= x mod 512 < 512) by (intros; by apply Z.mod_pos_bound).
  pose proof (B n). pose proof (B n'). pose proof (B (n / 2 ^ 9)). pose proof (B (n' / 2 ^ 9)).
  pose proof (B (n / 2 ^ 18)). pose proof (B (n' / 2 ^ 18)).
  split; [|lia]. f_equal; [lia|f_equal; [lia|f_equal; lia]].
Qed.

Lemma page_of_div va : in_u 64 va -> page_of va = va / PAGE_SIZE * PAGE_SIZE.
Proof.
  intros Hva. unfold page_of, PAGE_SIZE. apply Z.bits_inj'; intros i Hi.
  rewrite Z.land_spec, testbit_lnot64 by lia. change 4096 with (2 ^ 12). change 0xFFF with (Z.ones 12).
  rewrite <- Z.shiftr_div_pow2, <- Z.shiftl_mul_pow2, Z.shiftl_spec by lia.
  rewrite Z.testbit_ones_nonneg by lia. destruct (Z.ltb_spec i 12).
  - rewrite (Z.testbit_neg_r _ (i - 12)) by lia. by rewrite !andb_false_r.
  - rewrite Z.shiftr_spec by lia. replace (i - 12 + 12) with i by lia.
    destruct (Z.ltb_spec i 64); cbn; [apply andb_true_r|].
    rewrite andb_false_r. symmetry. by apply (testbit_high 64).
Qed.

Lemma page_of_indices va : in_u 64 va ->
  upper_indices (page_of va) = upper_indices va /\ pt_index (page_of va) = pt_index va.
Proof.
  intros Hva. rewrite page_of_div by done. unfold in_u in Hva.
  assert (0 <= va / PAGE_SIZE) by (apply Z.div_pos; unfold PAGE_SIZE; lia).
  apply indices_inj; [unfold PAGE_SIZE in *; lia|lia|].
  unfold same_page. by rewrite Z.div_mul.
Qed.
End Indices.

(** ** The walk *)

Section Walks.
Implicit Types (m : mem) (ts : gmap Z nat).

Lemma table_at_level s ts path t l u :
  paging_wf s ts -> ts !! t = Some (length path + S l)%nat -> indices_ok path ->
  table_at (pg_mem s) t path = Some u -> ts !! u = Some (S l).
Proof.
  intros Hwf. revert t; induction path as [|i path IH]; intros t Ht Hp H; cbn [table_at] in H.
  { by simplify_eq. }
  apply Forall_cons in Hp as [Hi Hp]. destruct (is_present _) eqn:E; [|done].
  apply (IH (frame_of (entry (pg_mem s) t i))); [|done..].
  cbn [length] in Ht. rewrite Nat.add_succ_r in Ht. rewrite Nat.add_succ_r.
  apply (pwf_entry _ _ Hwf t); try done.
Qed.

(** No two paths of the same length meet. *)
Lemma table_at_inj s ts path path' t t' l u :
  paging_wf s ts -> ts !! t = Some (length path + S l)%nat -> ts !! t' = Some (length path + S l)%nat ->
  length path' = length path -> indices_ok path -> indices_ok path' ->
  table_at (pg_mem s) t path = Some u -> table_at (pg_mem s) t' path' = Some u ->
  t = t' /\ path = path'.
Proof.
  intros Hwf. revert path' t t'; induction path as [|i path IH]; intros [|i' path'] t t' Ht Ht' Hl Hp Hp' H H';
    try done; cbn [table_at] in H, H'.
  { by simplify_eq. }
  apply Forall_cons in Hp as [Hi Hp], Hp' as [Hi' Hp'].
  destruct (is_present (entry _ t i)) eqn:E; [|done].
  destruct (is_present (entry _ t' i')) eqn:E'; [|done].
  cbn [length] in *. rewrite Nat.add_succ_r in Ht, Ht'.
  destruct (IH path' (frame_of (entry (pg_mem s) t i)) (frame_of (entry (pg_mem s) t' i'))) as [Hf ->];
    try done; [| |by injection Hl|].
  - rewrite Nat.add_succ_r. by apply (pwf_entry _ _ Hwf t).
  - rewrite Nat.add_succ_r. by apply (pwf_entry _ _ Hwf t').
  - by destruct (pwf_inj _ _ Hwf t _ i t' _ i' Ht Ht' Hi Hi' E E' Hf) as [-> ->].
Qed.

(** Without allocation the walk reads the tables and changes nothing. *)
Lemma paging_walk_ro va flags s :
  paging_walk va false flags s =
    ((fun t => entry_addr t (pt_index va)) <$> table_at (pg_mem s) (pml4 s) (upper_indices va), s).
Proof.
  unfold paging_walk, walk_level, upper_indices. cbn [table_at negb].
  repeat (match goal with |- context [is_present ?e] => destruct (is_present e) end; [|done]). done.
Qed.

Lemma table_at_grows s ts s' ts' t l path u :
  paging_wf s ts -> grows s ts s' ts' -> ts !! t = Some (length path + S l)%nat -> indices_ok path ->
  table_at (pg_mem s) t path = Some u -> table_at (pg_mem s') t path = Some u.
Proof.
  intros Hwf Hg. revert t; induction path as [|i path IH]; intros t Ht Hp H; cbn [table_at] in *; [done|].
  apply Forall_cons in Hp as [Hi Hp]. cbn [length] in *. rewrite Nat.add_succ_r in Ht.
  destruct (is_present (entry _ t i)) eqn:E; [|done].
  rewrite (gr_present _ _ _ _ Hg _ _ _ Ht Hi E), E. apply IH; [|done..].
  rewrite Nat.add_succ_r. by apply (pwf_entry _ _ Hwf t).
Qed.

Lemma table_at_snoc m t path i u :
  table_at m t path = Some u -> is_present (entry m u i) = true ->
  table_at m t (path ++ [i]) = Some (frame_of (entry m u i)).
Proof.
  revert t; induction path as [|j path IH]; intros t H Hp; cbn [table_at app] in *.
  - simplify_eq. by rewrite Hp.
  - destruct (is_present (entry m t j)); [by apply IH|done].
Qed.

Lemma table_at_snoc_None m t path i u :
  table_at m t path = Some u -> is_present (entry m u i) = false ->
  table_at m t (path ++ [i]) = None.
Proof.
  revert t; induction path as [|j path IH]; intros t H Hp; cbn [table_at app] in *.
  - simplify_eq. by rewrite Hp.
  - destruct (is_present (entry m t j)); [by apply IH|done].
Qed.

Lemma table_at_app_None m t path path' :
  table_at m t path = None -> table_at m t (path ++ path') = None.
Proof.
  revert t; induction path as [|j path IH]; intros t H; cbn [table_at app] in *; [done|].
  destruct (is_present (entry m t j)); [by apply IH|done].
Qed.
End Walks.

Section Map_page.
Implicit Types (m : mem) (ts : gmap Z nat).

(** An allocating walk has come to [r] along [path]. *)
Definition walked (s : paging) ts (path : list Z) (r : option Z) (s' : paging) ts' : Prop :=
  paging_wf s' ts' /\ grows s ts s' ts' /\
  match r with
  | Some t => table_at (pg_mem s') (pml4 s) path = Some t
  | None => table_at (pg_mem s) (pml4 s) path = None /\ all_used s'
  end /\
  (table_at (pg_mem s) (pml4 s) path <> None -> s' = s).

Lemma walk_extend s ts path t s1 ts1 i flags :
  walked s ts path (Some t) s1 ts1 -> (length path < 3)%nat -> indices_ok path -> 0 <= i < 512 ->
  flags_ok flags ->
  exists r s' ts', walk_level t i true flags s1 = (r, s') /\ walked s ts (path ++ [i]) r s' ts'.
Proof.
  intros (Hwf & Hg & Ht & Hsame) Hlen Hp Hi Hfl.
  assert (Hroot : exists l, ts1 !! pml4 s = Some (length path + S (S l))%nat).
  { exists (2 - length path)%nat. rewrite <- (gr_pml4 _ _ _ _ Hg), (pwf_root _ _ Hwf). f_equal. lia. }
  destruct Hroot as [l Hroot].
  pose proof (table_at_level _ _ _ _ _ _ Hwf Hroot Hp Ht) as Htl.
  destruct (walk_level_alloc s1 ts1 t l i flags) as (r & s' & ts' & Hw & Hwf' & Hg' & Hr & Hs'); try done.
  exists r, s', ts'. split; [done|]. split_and!; [done|by eapply grows_trans| |].
  - destruct r as [t'|].
    + destruct Hr as (_ & Hpr & <-). apply table_at_snoc; [|done].
      by apply (table_at_grows s1 ts1 s' ts' _ (S l)).
    + destruct Hr as [Hnp Hfull]. split; [|done].
      destruct (table_at (pg_mem s) (pml4 s) path) as [u|] eqn:E; [|by apply table_at_app_None].
      rewrite (Hsame ltac:(done)) in *. rewrite E in Ht. simplify_eq. by apply (table_at_snoc_None _ _ _ _ t).
  - intros Hne. destruct (table_at (pg_mem s) (pml4 s) path) as [u|] eqn:E;
      [|by rewrite table_at_app_None in Hne].
    rewrite (Hsame ltac:(done)) in *. rewrite E in Ht. simplify_eq. apply Hs'.
    destruct (is_present (entry (pg_mem s) t i)) eqn:Epr; [done|].
    by rewrite (table_at_snoc_None _ _ _ _ t) in Hne.
Qed.

Lemma paging_walk_alloc s ts va flags :
  paging_wf s ts -> 0 <= va -> flags_ok flags ->
  exists r s' ts', paging_walk va true flags s = ((fun t => entry_addr t (pt_index va)) <$> r, s')
    /\ walked s ts (upper_indices va) r s' ts'.
Proof.
  intros Hwf Hva Hfl. destruct (indices_ok_upper va Hva) as [Hok _].
  unfold upper_indices in *. apply Forall_cons in Hok as [H4 Hok].
  apply Forall_cons in Hok as [H3 Hok]. apply Forall_cons in Hok as [H2 _].
  assert (W0 : walked s ts [] (Some (pml4 s)) s ts) by (split_and!; [done|apply grows_refl|done|done]).
  assert (Hnone : forall path path' s' ts', walked s ts path None s' ts' -> walked s ts (path ++ path') None s' ts').
  { intros path path' s' ts' (? & ? & [Hn ?] & _). split_and!; try done; [by apply table_at_app_None|].
    by rewrite table_at_app_None. }
  unfold paging_walk.
  destruct (walk_extend _ _ _ _ _ _ (pml4_index va) flags W0) as ([t1|] & s1 & ts1 & -> & W1);
    [cbn; lia|constructor|done|done| |exists None, s1, ts1; split; [done|by apply (Hnone [pml4_index va] [_; _])]].
  destruct (walk_extend _ _ _ _ _ _ (pdpt_index va) flags W1) as ([t2|] & s2 & ts2 & -> & W2);
    [cbn; lia|by repeat apply Forall_cons_2; try apply Forall_nil_2|done|done| |exists None, s2, ts2; split; [done|by apply (Hnone [pml4_index va; pdpt_index va] [_])]].
  destruct (walk_extend _ _ _ _ _ _ (pd_index va) flags W2) as (r & s3 & ts3 & -> & W3);
    [cbn; lia|by repeat apply Forall_cons_2; try apply Forall_nil_2|done|done|].
  exists r, s3, ts3. split; [by destruct r|done].
Qed.

(** Storing a leaf entry keeps the invariant. *)
Lemma set_leaf_wf s ts t i v :
  paging_wf s ts -> ts !! t = Some 1%nat -> 0 <= i < 512 -> in_u 64 v -> 0 < nbits s ->
  paging_wf (set_pg_mem (set_entry (pg_mem s) t i v) s) ts.
Proof.
  intros Hwf Ht Hi Hv Hnb. apply (paging_wf_mono s); try done.
  - intros j Hj Hu. by rewrite (frame_used_set_entry s ts t 1).
  - intros t' l i' Ht' Hi'. cbn [pg_mem set_pg_mem].
    rewrite (entry_set_entry_table s ts t 1 i v t' (S (S l))) by done.
    rewrite decide_False; [done|]. intros [-> _]. congruence.
  - by apply (frame_used_zero_set_entry s ts t 1).
Qed.

Lemma leaf_level s ts va t :
  paging_wf s ts -> 0 <= va -> table_at (pg_mem s) (pml4 s) (upper_indices va) = Some t ->
  ts !! t = Some 1%nat.
Proof.
  intros Hwf Hva. destruct (indices_ok_upper va Hva) as [Hok _].
  by apply (table_at_level s ts (upper_indices va) _ 0 _ Hwf (pwf_root _ _ Hwf)).
Qed.

(** A leaf entry is seen by the addresses of its page and no other. *)
Lemma set_leaf_translate s ts va t v va' :
  paging_wf s ts -> 0 <= va -> 0 <= va' -> in_u 64 v ->
  table_at (pg_mem s) (pml4 s) (upper_indices va) = Some t ->
  translate (set_pg_mem (set_entry (pg_mem s) t (pt_index va) v) s) va' =
    if decide (same_page va va') then (if is_present v then Some v else None) else translate s va'.
Proof.
  intros Hwf Hva Hva' Hv Ht. destruct (indices_ok_upper va Hva) as [Hok Hi].
  destruct (indices_ok_upper va' Hva') as [Hok' Hi'].
  pose proof (leaf_level s ts va t Hwf Hva Ht) as Htl.
  assert (Htab : forall path u l, ts !! u = Some (length path + S l)%nat -> indices_ok path ->
    table_at (set_entry (pg_mem s) t (pt_index va) v) u path = table_at (pg_mem s) u path).
  { intros path. induction path as [|j path IH]; intros u l Hu Hp; [done|]. cbn [table_at].
    apply Forall_cons in Hp as [Hj Hp]. cbn [length] in Hu. rewrite Nat.add_succ_r in Hu.
    rewrite (entry_set_entry_table s ts t 1 (pt_index va) v u (S (S (length path + l)))) by done.
    rewrite decide_False by (intros [-> _]; rewrite Htl in Hu; discriminate Hu).
    destruct (is_present (entry (pg_mem s) u j)) eqn:E; [|done].
    apply (IH _ l); [|done]. rewrite Nat.add_succ_r. by apply (pwf_entry _ _ Hwf u). }
  unfold translate, entry_at. cbn [pg_mem pml4 set_pg_mem].
  rewrite (Htab (upper_indices va') _ 0%nat (pwf_root _ _ Hwf) Hok').
  destruct (table_at (pg_mem s) (pml4 s) (upper_indices va')) as [t'|] eqn:E; cbn [mbind option_bind].
  - pose proof (leaf_level s ts va' t' Hwf Hva' E) as Htl'.
    rewrite (entry_set_entry_table s ts t 1 (pt_index va) v t' 1) by done.
    destruct (decide (same_page va va')) as [Hs|Hs].
    + apply indices_inj in Hs as [Hu Hp]; [|done..]. rewrite Hu, E in Ht. simplify_eq.
      by rewrite decide_True by done.
    + rewrite decide_False; [done|]. intros [-> Hp]. apply Hs, indices_inj; [done..|].
      destruct (table_at_inj s ts (upper_indices va) (upper_indices va') (pml4 s) (pml4 s) 0 t) as [_ Hu];
        try done; apply Hwf.
  - rewrite decide_False; [done|]. intros [Hu _]%indices_inj; [|done..]. congruence.
Qed.
End Map_page.

(** ** Mapping, unmapping and translating pages *)

Section Mapping.
Implicit Types (ts : gmap Z nat).

(** The bytes of used frames that are no tables are the same in both states. *)
Definition frames_kept (s : paging) ts (s' : paging) : Prop :=
  forall a, 0 <= a < nbits s * PAGE_SIZE -> frame_used s (a / PAGE_SIZE) = true ->
    ts !! (a / PAGE_SIZE * PAGE_SIZE) = None ->
    ~ (bitmap s <= a < bitmap s + bitmap_size s) -> load8 (pg_mem s') a = load8 (pg_mem s) a.

Lemma grows_kept s ts s' ts' : grows s ts s' ts' -> frames_kept s ts s'.
Proof. intros [] a. apply gr_kept0. Qed.

Lemma grows_translate s ts s' ts' va :
  paging_wf s ts -> grows s ts s' ts' -> 0 <= va -> translate s' va = translate s va.
Proof.
  intros Hwf Hg Hva. destruct (indices_ok_upper va Hva) as [Hok Hi]. unfold translate.
  rewrite (gr_pml4 _ _ _ _ Hg). by apply (gr_entry_at _ _ _ _ Hg _ 4); [apply Hwf|..].
Qed.

(** The tables after a mapping: those before and frames that were free. *)
Definition tables_grow (s : paging) ts ts' : Prop :=
  ts ⊆ ts' /\ forall t, is_Some (ts' !! t) -> ts !! t = None -> frame_used s (t / PAGE_SIZE) = false.

Lemma grows_tables s ts s' ts' : grows s ts s' ts' -> tables_grow s ts ts'.
Proof. intros []. split; [done|]. intros t Ht Hn. by apply gr_new0. Qed.

Definition msg_already_mapped : string := "Hata: Sayfa zaten eslemesi var!" +:+ nl.

Lemma map_page_cases s ts phys va flags :
  paging_wf s ts -> in_u 64 va -> 0 <= phys < 2 ^ 52 -> phys mod PAGE_SIZE = 0 -> flags_ok flags ->
  let e := paging_make_entry phys (Z.lor PAGE_PRESENT flags) in
  match translate s va with
  | Some _ => paging_map_page phys va flags s = (0, pg_print msg_already_mapped s)
  | None => exists s' ts',
      paging_wf s' ts' /\ frames_kept s ts s' /\ tables_grow s ts ts' /\
      pml4 s' = pml4 s /\ bitmap s' = bitmap s /\ bitmap_size s' = bitmap_size s /\
      kernel_heap s' = kernel_heap s /\
      (forall i, 0 <= i < nbits s -> frame_used s i = true -> frame_used s' i = true) /\
      ((paging_map_page phys va flags s = (0, s') /\ all_used s' /\
        forall va', 0 <= va' -> translate s' va' = translate s va')
       \/ (paging_map_page phys va flags s = (page_of va, s') /\
           forall va', 0 <= va' ->
             translate s' va' = if decide (same_page va va') then Some e else translate s va'))
  end.
Proof.
  intros Hwf Hva Hp Hpm Hfl e.
  pose proof (proj1 Hva) as Hva0. destruct (indices_ok_upper va Hva0) as [Hok Hi].
  destruct (page_of_indices va Hva) as [Eu Ep].
  assert (Hpo : 0 <= page_of va) by (rewrite page_of_div by done; pose proof (Z.div_pos va PAGE_SIZE); unfold PAGE_SIZE in *; lia).
  destruct (paging_walk_alloc s ts (page_of va) flags Hwf Hpo Hfl) as (r & s1 & ts1 & Hw & Hwf1 & Hg & Hr & Hsame).
  unfold paging_map_page. rewrite Hw, Ep. rewrite Eu in Hr, Hsame.
  destruct (make_entry_spec phys flags Hp Hpm Hfl) as (He & Hep & _). fold e in He, Hep.
  destruct r as [t|]; cbn [fmap option_fmap option_map].
  - assert (Hent : entry_at (pg_mem s1) (pml4 s1) (upper_indices va) (pt_index va) = translate s va).
    { rewrite (gr_pml4 _ _ _ _ Hg). apply (gr_entry_at _ _ _ _ Hg _ 4%nat); [apply Hwf|done..]. }
    unfold entry_at in Hent. rewrite (gr_pml4 _ _ _ _ Hg), Hr in Hent. cbn [mbind option_bind] in Hent.
    change (load64 (pg_mem s1) (entry_addr t (pt_index va))) with (entry (pg_mem s1) t (pt_index va)).
    rewrite <- (gr_pml4 _ _ _ _ Hg) in Hr. revert Hent.
    destruct (translate s va) as [e0|] eqn:Etr.
    + destruct (is_present (entry (pg_mem s1) t _)) eqn:Epr; [intros _|done]. rewrite Hsame; [done|].
      unfold translate, entry_at in Etr.
      intros Hn. by rewrite Hn in Etr.
    + destruct (is_present (entry (pg_mem s1) t _)) eqn:Epr; [done|intros _].
      pose proof (leaf_level s1 ts1 va t Hwf1 Hva0 Hr) as Htl.
      pose proof (nbits_bound s1 ts1 Hwf1) as [Hnb _].
      eexists _, ts1. split; [apply (set_leaf_wf s1 ts1 t (pt_index va) e); done || lia|].
      split; [|split; [by apply (grows_tables s ts s1 ts1)|split_and!]];
        cbn [pml4 bitmap bitmap_size kernel_heap set_pg_mem]; try apply Hg.
      * intros a Ha Hu Hn Hb. cbn [pg_mem set_pg_mem]. unfold set_entry.
        fold (set_entry (pg_mem s1) t (pt_index va) e).
        rewrite (set_entry_kept s1 ts1 t 1); [by apply (gr_kept _ _ _ _ Hg)|done..|].
        destruct (ts1 !! (a / PAGE_SIZE * PAGE_SIZE)) eqn:E1; [|done].
        destruct (gr_new _ _ _ _ Hg (a / PAGE_SIZE * PAGE_SIZE)) as [_ Hf]; [by rewrite E1|done|].
        rewrite Z.div_mul in Hf by done. congruence.
      * intros j Hj Hu. rewrite (frame_used_set_entry s1 ts1 t 1); [by apply (gr_used _ _ _ _ Hg)|done..|].
        unfold nbits in *. by rewrite (gr_size _ _ _ _ Hg).
      * right. split; [done|]. intros va' Hva'.
        rewrite (set_leaf_translate s1 ts1) by done. rewrite Hep.
        by rewrite (grows_translate s ts s1 ts1).
  - destruct Hr as [Hn Hfull].
    assert (Etr : translate s va = None) by (unfold translate, entry_at; by rewrite Hn).
    rewrite Etr. exists s1, ts1. split; [done|]. split; [by apply (grows_kept _ _ _ ts1)|].
    split; [by apply (grows_tables s ts s1 ts1)|]. split_and!; try done; try apply Hg.
    left. split_and!; try done. intros va' Hva'. by apply (grows_translate s ts s1 ts1).
Qed.
End Mapping.
