(* ===== verification/PagingSpec.v ===== *)
(** * Properties of paging.c

    The abstract address space is [translate]: the entry that maps the page of
    an address, if any.  The page tables refine it under [paging_wf]. *)
From S2P Require Import Prelude CString Terminal RawMemory Allocator Heap Paging.

Section Frames.
Implicit Types (ts : gmap Z nat).

Lemma grows_take_frame s ts k va :
  paging_wf s ts -> first_free k s -> 0 <= va -> translate (take_frame k s) va = translate s va.
Proof.
  intros Hwf Hk Hva. destruct (take_frame_wf s ts k Hwf Hk) as [_ Hg].
  by apply (grows_translate s ts (take_frame k s) ts).
Qed.

Lemma load8_unmark_page_ne m bm k a : a <> bm + k / 8 -> load8 (unmark_page bm k m) a = load8 m a.
Proof. intros. unfold unmark_page. by rewrite load8_store8_ne. Qed.

(** A used frame that is no table and not part of the bitmap. *)
Definition data_frame (s : paging) ts (k : Z) : Prop :=
  0 < k < nbits s /\ frame_used s k = true /\ ts !! (k * PAGE_SIZE) = None /\
  disjoint_ranges (k * PAGE_SIZE) PAGE_SIZE (bitmap s) (bitmap_size s).

Lemma take_frame_data s ts k :
  paging_wf s ts -> first_free k s -> data_frame (take_frame k s) ts k.
Proof.
  intros Hwf Hk. pose proof Hk as (Hr & Hf & _).
  split_and!; [apply Hr|apply Hr| | |].
  - rewrite (frame_used_take_frame s ts k k Hwf Hk) by lia. by rewrite Z.eqb_refl.
  - destruct (ts !! (k * PAGE_SIZE)) eqn:E; [|done]. by destruct (table_not_free _ _ _ _ _ Hwf E Hk).
  - apply (pwf_bitmap_used s ts Hwf); [lia|done].
Qed.

(** What [pmm_free_page] leaves of a used frame. *)
Definition release_frame (k : Z) (s : paging) : paging :=
  set_memory_counts (u64 (free_memory s + PAGE_SIZE)) (u64 (used_memory s - PAGE_SIZE))
    (set_pg_mem (unmark_page (bitmap s) k (pg_mem s)) s).

Lemma pmm_free_used s k :
  frame_used s k = true -> pmm_free_page (k * PAGE_SIZE) s = release_frame k s.
Proof.
  intros Hu. unfold pmm_free_page, frame_used in *. rewrite Z_mod_mult, Z.div_mul, Hu by done. done.
Qed.

Lemma entry_release_frame s ts t l k i :
  paging_wf s ts -> ts !! t = Some l -> 0 <= k < nbits s -> 0 <= i < 512 ->
  entry (pg_mem (release_frame k s)) t i = entry (pg_mem s) t i.
Proof.
  intros Hwf Ht Hk Hi. destruct (pwf_table _ _ Hwf _ _ Ht) as (_ & _ & _ & Hd & _).
  pose proof (bitmap_byte s k Hk). apply entry_ext; [|done].
  intros a Ha. apply load8_unmark_page_ne. unfold disjoint_ranges in Hd. lia.
Qed.

Lemma frame_used_release s k i :
  frame_used (release_frame k s) i = negb (i =? k) && frame_used s i.
Proof. apply page_used_unmark. Qed.

Lemma release_frame_wf s ts k :
  paging_wf s ts -> data_frame s ts k ->
  paging_wf (release_frame k s) ts /\
  forall va, 0 <= va -> translate (release_frame k s) va = translate s va.
Proof.
  intros Hwf (Hk & Hu & Hn & Hd). split.
  - pose proof Hwf as [].
    split; cbn [bitmap bitmap_size pml4 release_frame set_pg_mem set_memory_counts pg_mem];
      change (nbits (release_frame k s)) with (nbits s); try done.
    + rewrite frame_used_release, pwf_zero. by rewrite (proj2 (Z.eqb_neq 0 k)) by lia.
    + intros i Hi. rewrite frame_used_release. destruct (Z.eqb_spec i k) as [->|]; [done|]. cbn [negb andb].
      by apply pwf_bitmap_used.
    + intros t l Ht. destruct (pwf_table t l Ht) as (?&?&?&?&Htu). split_and!; try done; try lia.
      assert (t / PAGE_SIZE <> k).
      { intros <-. rewrite Z.mul_comm, <- Z_div_exact_full_2 in Hn by done. congruence. }
      intros Hlt. by rewrite frame_used_release, Htu, (proj2 (Z.eqb_neq _ k)).
    + intros t l i Ht Hi. pose proof (entry_release_frame s ts t _ k i Hwf Ht ltac:(lia) Hi) as E.
      cbn in E. rewrite E. by apply pwf_entry.
    + intros t l i t' l' i' Ht Ht' Hi Hi'.
      pose proof (entry_release_frame s ts t _ k i Hwf Ht ltac:(lia) Hi) as E.
      pose proof (entry_release_frame s ts t' _ k i' Hwf Ht' ltac:(lia) Hi') as E'.
      cbn in E, E'. rewrite E, E'. by apply (pwf_inj t l i t' l' i').
  - intros va Hva. destruct (indices_ok_upper va Hva) as [Hok Hi].
    apply (entry_at_ext (pg_mem s) (pg_mem (release_frame k s)) ts) with (l := 4%nat); try done.
    + intros t l i Ht Hi'. apply (entry_release_frame s ts t l); (done || lia).
    + apply Hwf.
    + apply Hwf.
Qed.
End Frames.

Section Translation.
Implicit Types (ts : gmap Z nat).

Lemma translate_range s va e : translate s va = Some e -> in_u 64 e.
Proof.
  unfold translate, entry_at. destruct (table_at _ _ _) as [t|]; [|done]. cbn.
  destruct (is_present _); [|done]. intros [= <-]. apply entry_range.
Qed.

Lemma lor_page_offset p o : p mod PAGE_SIZE = 0 -> 0 <= o < PAGE_SIZE -> Z.lor p o = p + o.
Proof.
  unfold PAGE_SIZE. intros Hp Ho.
  assert (Hd : Z.land p o = 0).
  { apply Z.bits_inj'; intros i Hi. rewrite Z.land_spec, Z.bits_0.
    destruct (Z.ltb_spec i 12).
    - rewrite (Z.div_mod p 4096), Hp, Z.add_0_r, Z.mul_comm by done. change 4096 with (2 ^ 12) at 2.
      rewrite <- Z.shiftl_mul_pow2, Z.shiftl_spec, Z.testbit_neg_r by lia. done.
    - rewrite (testbit_high 12 o) by (unfold in_u; lia). apply andb_false_r. }
  by rewrite Z.add_nocarry_lxor, Z.lxor_lor.
Qed.

Lemma get_physical_translate s va e :
  0 <= va -> translate s va = Some e ->
  paging_get_physical_address va s = frame_of e + va mod PAGE_SIZE.
Proof.
  intros Hva Ht. pose proof (translate_range _ _ _ Ht) as He.
  unfold paging_get_physical_address. rewrite paging_walk_ro.
  unfold translate, entry_at in Ht. destruct (table_at _ _ _) as [t|]; [|done].
  cbn in Ht |- *. fold (entry (pg_mem s) t (pt_index va)).
  destruct (is_present _); [|done]. injection Ht as ->.
  change 0xFFF with (2 ^ 12 - 1). rewrite land_ones_mod by lia.
  apply lor_page_offset; [apply frame_of_range, He|by apply Z.mod_pos_bound].
Qed.

Lemma unmap_translate s ts va :
  paging_wf s ts -> 0 <= va ->
  paging_wf (paging_unmap_page va s) ts /\
  forall va', 0 <= va' ->
    translate (paging_unmap_page va s) va' = if decide (same_page va va') then None else translate s va'.
Proof.
  intros Hwf Hva. destruct (indices_ok_upper va Hva) as [Hok Hi]. pose proof (nbits_bound s ts Hwf) as [Hnb _].
  unfold paging_unmap_page. rewrite paging_walk_ro.
  destruct (table_at _ _ _) as [t|] eqn:Et; cbn [fmap option_fmap option_map].
  - pose proof (leaf_level s ts va t Hwf Hva Et) as Htl. fold (set_entry (pg_mem s) t (pt_index va) 0).
    split; [apply (set_leaf_wf s ts t); try done; lia|].
    intros va' Hva'. by rewrite (set_leaf_translate s ts).
  - split; [done|]. intros va' Hva'. case_decide as Hs; [|done].
    apply indices_inj in Hs as [Hu Hp]; [|done..]. unfold translate, entry_at. by rewrite <- Hu, Et.
Qed.
End Translation.

(** ** Initialisation *)

Section Init.

Lemma mark_loop bm n j0 i0 m :
  let m' := for_loop n i0 (fun j m => mark_page bm ((j0 + j * PAGE_SIZE) / PAGE_SIZE) m) m in
  let first := j0 / PAGE_SIZE + i0 in
  (forall j, page_used m' bm j = ((first <=? j) && (j <? first + Z.of_nat n)) || page_used m bm j) /\
  (forall a hi, 0 <= first -> first + Z.of_nat n <= hi * 8 -> ~ (bm <= a < bm + hi) ->
     load8 m' a = load8 m a).
Proof.
  cbv zeta. revert i0 m; induction n as [|n IH]; intros i0 m; cbn [for_loop].
  { split; [|done]. intros j. destruct (Z.leb_spec (j0 / PAGE_SIZE + i0) j); cbn; [|done].
    by rewrite (proj2 (Z.ltb_ge _ _)) by lia. }
  rewrite Z.div_add by done. destruct (IH (i0 + 1) (mark_page bm (j0 / PAGE_SIZE + i0) m)) as [IHu IHl].
  split.
  - intros j. rewrite IHu, page_used_mark, orb_assoc. f_equal.
    destruct (Z.leb_spec (j0 / PAGE_SIZE + (i0 + 1)) j), (Z.leb_spec (j0 / PAGE_SIZE + i0) j),
      (Z.eqb_spec j (j0 / PAGE_SIZE + i0)); cbn; try lia; try done.
    + rewrite orb_false_r. destruct (Z.ltb_spec j (j0 / PAGE_SIZE + (i0 + 1) + Z.of_nat n)),
        (Z.ltb_spec j (j0 / PAGE_SIZE + i0 + Z.of_nat (S n))); lia.
    + symmetry. apply Z.ltb_lt. lia.
  - intros a hi H0 Hhi Ha. rewrite (IHl a hi) by lia. apply load8_mark_page_ne.
    pose proof (Z.div_pos (j0 / PAGE_SIZE + i0) 8). 
    pose proof (Z.div_lt_upper_bound (j0 / PAGE_SIZE + i0) 8 hi). lia.
Qed.

Definition pages_of (bytes : Z) : Z := (bytes + PAGE_SIZE - 1) / PAGE_SIZE.

Lemma mark_range_spec bm lo hi m :
  lo mod PAGE_SIZE = 0 -> 0 <= lo <= hi ->
  (forall j, page_used (mark_range bm lo hi m) bm j =
     ((lo / PAGE_SIZE <=? j) && (j <? lo / PAGE_SIZE + pages_of (hi - lo))) || page_used m bm j) /\
  (forall a sz, lo / PAGE_SIZE + pages_of (hi - lo) <= sz * 8 -> ~ (bm <= a < bm + sz) ->
     load8 (mark_range bm lo hi m) a = load8 m a).
Proof.
  intros Hlo Hhi. unfold mark_range, pages_of.
  assert (0 <= (hi - lo + PAGE_SIZE - 1) / PAGE_SIZE) by (apply Z.div_pos; unfold PAGE_SIZE; lia).
  assert (0 <= lo / PAGE_SIZE) by (apply Z.div_pos; unfold PAGE_SIZE; lia).
  destruct (mark_loop bm (Z.to_nat ((hi - lo + PAGE_SIZE - 1) / PAGE_SIZE)) lo 0 m) as [Hu Hl].
  rewrite Z2Nat.id, Z.add_0_r in * by done. split; [done|]. intros a sz Hsz Ha. by apply (Hl a sz).
Qed.

Lemma page_used_memset_zero n m bm j :
  0 <= j < Z.of_nat n * 8 -> page_used (memset n m bm 0) bm j = false.
Proof.
  intros Hj. unfold page_used. rewrite load8_memset, decide_True; [done|].
  pose proof (Z.div_pos j 8). pose proof (Z.div_lt_upper_bound j 8 (Z.of_nat n)). lia.
Qed.

(** The frames [paging_init] marks: the first 4 MiB and the bitmap. *)
Definition boot_used (size j : Z) : bool :=
  (j <? 1024) || ((256 <=? j) && (j <? 256 + pages_of size)).

Lemma paging_init_fields r mmap s s' :
  paging_init r mmap s = Some s' ->
  exists t, 
  s' = Paging
    (mark_range BITMAP_ADDR BITMAP_ADDR (u64 (BITMAP_ADDR + bitmap_size s'))
      (mark_range BITMAP_ADDR 0 KERNEL_END
        (memset (Z.to_nat (bitmap_size s')) (pg_mem s) BITMAP_ADDR 0)))
    (fst (fst (scan_memory_map mmap)))
    (u64 (snd (fst (scan_memory_map mmap)) - used_memory s'))
    (u64 (u64 (KERNEL_END - 0 + u64 (BITMAP_ADDR + bitmap_size s') - BITMAP_ADDR) / PAGE_SIZE * PAGE_SIZE))
    (snd (scan_memory_map mmap)) (bitmap_bytes (fst (fst (scan_memory_map mmap)))) BITMAP_ADDR r
    (kernel_heap s) t.
Proof.
  unfold paging_init. destruct (scan_memory_map mmap) as [[total free] reserved]. intros H.
  apply bind_Some in H as (t & _ & [= <-]). cbn [bitmap_size used_memory fst snd].
  eexists. f_equal. unfold wrap. by rewrite Zminus_mod_idemp_r.
Qed.

Lemma paging_init_frames r mmap s s' :
  paging_init r mmap s = Some s' -> 128 <= bitmap_size s' <= 2 ^ 37 ->
  bitmap s' = BITMAP_ADDR /\ pml4 s' = r /\ kernel_heap s' = kernel_heap s /\
  (forall j, 0 <= j < nbits s' -> frame_used s' j = boot_used (bitmap_size s') j) /\
  (forall a, ~ (BITMAP_ADDR <= a < BITMAP_ADDR + bitmap_size s') ->
     load8 (pg_mem s') a = load8 (pg_mem s) a).
Proof.
  intros H Hsz. destruct (paging_init_fields _ _ _ _ H) as [t E].
  assert (Hmem : pg_mem s' = mark_range BITMAP_ADDR BITMAP_ADDR (BITMAP_ADDR + bitmap_size s')
      (mark_range BITMAP_ADDR 0 KERNEL_END
        (memset (Z.to_nat (bitmap_size s')) (pg_mem s) BITMAP_ADDR 0))).
  { rewrite E at 1. cbn [pg_mem]. rewrite wrap_small; [done|]. unfold in_u, BITMAP_ADDR. lia. }
  assert (Hb : bitmap s' = BITMAP_ADDR) by by rewrite E.
  assert (Hpm : pml4 s' = r) by by rewrite E.
  assert (Hkh : kernel_heap s' = kernel_heap s) by by rewrite E.
  clear E t H. split_and!; [done..| |].
  all: destruct (mark_range_spec BITMAP_ADDR BITMAP_ADDR (BITMAP_ADDR + bitmap_size s')
      (mark_range BITMAP_ADDR 0 KERNEL_END
        (memset (Z.to_nat (bitmap_size s')) (pg_mem s) BITMAP_ADDR 0))) as [Hu1 Hl1];
    [done|unfold BITMAP_ADDR; lia|];
    destruct (mark_range_spec BITMAP_ADDR 0 KERNEL_END
        (memset (Z.to_nat (bitmap_size s')) (pg_mem s) BITMAP_ADDR 0)) as [Hu2 Hl2];
    [done|unfold KERNEL_END; lia|].
  - intros j Hj. unfold frame_used, nbits in *. rewrite Hb, Hmem, Hu1, Hu2, page_used_memset_zero by lia.
    unfold boot_used. rewrite orb_false_r, orb_comm. f_equal.
    + change (pages_of (KERNEL_END - 0)) with 1024. change (0 / PAGE_SIZE) with 0.
      destruct (Z.leb_spec 0 j); [done|lia].
    + change (BITMAP_ADDR / PAGE_SIZE) with 256. by rewrite Z.add_simpl_l.
  - intros a Ha. rewrite Hmem, (Hl1 a (bitmap_size s')), (Hl2 a (bitmap_size s')); try done.
    + rewrite load8_memset, decide_False; [done|]. by rewrite Z2Nat.id by lia.
    + change (0 / PAGE_SIZE + pages_of (KERNEL_END - 0)) with 1024. lia.
    + rewrite Z.add_simpl_l. change (BITMAP_ADDR / PAGE_SIZE) with 256. unfold pages_of, PAGE_SIZE.
      pose proof (Z.div_mod (bitmap_size s' + 4096 - 1) 4096). 
      pose proof (Z.mod_pos_bound (bitmap_size s' + 4096 - 1) 4096). lia.
Qed.

(** The boot page table, as the model of the assembly's empty root. *)
Definition boot_root (s : paging) (r size : Z) : Prop :=
  r mod PAGE_SIZE = 0 /\ 0 <= r < KERNEL_END /\ disjoint_ranges r PAGE_SIZE BITMAP_ADDR size /\
  forall i, 0 <= i < 512 -> is_present (entry (pg_mem s) r i) = false.

Lemma paging_init_wf r mmap s s' :
  paging_init r mmap s = Some s' -> 128 <= bitmap_size s' <= 2 ^ 37 ->
  boot_root s r (bitmap_size s') -> paging_wf s' {[r := 4%nat]}.
Proof.
  intros H Hsz (Hrm & Hr & Hrd & Hre).
  destruct (paging_init_frames _ _ _ _ H Hsz) as (Hb & Hp & _ & Hu & Hl).
  assert (Hent : forall i, 0 <= i < 512 -> is_present (entry (pg_mem s') r i) = false).
  { intros i Hi. rewrite (entry_ext (pg_mem s)); [by apply Hre| |done].
    intros a Ha. apply Hl. unfold disjoint_ranges in Hrd. lia. }
  split; rewrite ?Hb, ?Hp; try done.
  - lia.
  - rewrite Hu by (unfold nbits; lia). done.
  - intros i Hi. rewrite Hu by done. unfold boot_used. intros Hf. zify_bool.
    unfold disjoint_ranges, PAGE_SIZE, BITMAP_ADDR, pages_of, PAGE_SIZE in *.
    apply andb_false_iff in H1 as [?|?]; zify_bool; [lia|].
    pose proof (Z.div_mod (bitmap_size s' + 4096 - 1) 4096).
    pose proof (Z.mod_pos_bound (bitmap_size s' + 4096 - 1) 4096). lia.
  - apply lookup_insert_eq.
  - intros t l [<- <-]%lookup_singleton_Some. unfold KERNEL_END in Hr. split_and!; try done; try lia.
    intros Hlt. rewrite Hu by (split; [apply Z.div_pos; unfold PAGE_SIZE; lia|done]).
    unfold boot_used. apply orb_true_intro. left. apply Z.ltb_lt, Z.div_lt_upper_bound; unfold PAGE_SIZE; lia.
  - intros t l i [<- _]%lookup_singleton_Some Hi Hpr. by rewrite Hent in Hpr.
  - intros t l i t' l' i' [<- _]%lookup_singleton_Some _ Hi _ Hpr. by rewrite Hent in Hpr.
Qed.
End Init.

(** Releasing a used frame, and releasing it again. *)
Lemma pmm_free_twice s k :
  frame_used s k = true ->
  let s' := pmm_free_page (k * PAGE_SIZE) s in
  (forall i, frame_used s' i = negb (i =? k) && frame_used s i) /\
  free_memory s' = u64 (free_memory s + PAGE_SIZE) /\
  used_memory s' = u64 (used_memory s - PAGE_SIZE) /\
  frame_used (pmm_free_page (k * PAGE_SIZE) s') k = false /\
  free_memory (pmm_free_page (k * PAGE_SIZE) s') = free_memory s'.
Proof.
  intros Hu. cbv zeta. rewrite (pmm_free_used _ _ Hu).
  assert (Hrel : frame_used (release_frame k s) k = false) by by rewrite frame_used_release, Z.eqb_refl.
  assert (Hagain : pmm_free_page (k * PAGE_SIZE) (release_frame k s)
      = pg_print ("Hata: Zaten serbest olan sayfa serbest birakilmaya calisiliyor!" +:+ nl)
          (release_frame k s)).
  { revert Hrel. generalize (release_frame k s) as s1. intros s1 Hrel.
    unfold pmm_free_page, frame_used in *. by rewrite Z_mod_mult, Z.div_mul, Hrel. }
  rewrite Hagain. split_and!; try done. intros i. apply frame_used_release.
Qed.

Lemma free_memory_take_frame k s :
  free_memory (take_frame k s) = u64 (free_memory s - PAGE_SIZE) /\
  used_memory (take_frame k s) = u64 (used_memory s + PAGE_SIZE).
Proof. split; reflexivity. Qed.

(** With the root as the only table nothing is mapped. *)
Lemma root_only_unmapped s r va :
  paging_wf s {[r := 4%nat]} -> pml4 s = r -> 0 <= va -> translate s va = None.
Proof.
  intros Hwf Hp Hva. unfold translate, entry_at. rewrite Hp. cbn [table_at upper_indices].
  destruct (indices_ok_upper va Hva) as [[Hi _]%Forall_cons _].
  destruct (is_present _) eqn:E; [|done].
  assert (Hr : ({[r := 4%nat]} : gmap Z nat) !! r = Some 4%nat) by apply lookup_insert_eq.
  pose proof (pwf_entry _ _ Hwf r 2 (pml4_index va) Hr Hi E) as [_ [=]]%lookup_singleton_Some.
Qed.

(** ** A booted state for the witnesses: 128 MiB, as kernel_main asks for *)

Section Boot.
Definition boot_mmap : list memory_map_entry := [MemoryMapEntry 0x100000 (128 * 1024 * 1024) 1].
Definition paging_zero : paging :=
  Paging ∅ 0 0 0 0 0 0 0 KERNEL_BASE (terminal_initialize (Terminal 0 0 0 ∅)).
Definition paging_boot : paging := default paging_zero (paging_init 0x3000 boot_mmap paging_zero).

Lemma paging_boot_eq : paging_init 0x3000 boot_mmap paging_zero = Some paging_boot.
Proof.
  assert (H : bool_decide (is_Some (paging_init 0x3000 boot_mmap paging_zero)) = true) by by vm_compute.
  apply bool_decide_eq_true in H as [s E]. unfold paging_boot. by rewrite E.
Qed.

Lemma paging_boot_size : bitmap_size paging_boot = 4096.
Proof. by vm_compute. Qed.

Lemma boot_root_zero : boot_root paging_zero 0x3000 4096.
Proof.
  split_and!; [done|done|done|left; vm_compute; discriminate|].
  intros i _. unfold entry. rewrite load_le_zero; [done|]. intros b _.
  unfold load8. cbn. by rewrite lookup_empty.
Qed.

Lemma paging_boot_wf : paging_wf paging_boot {[0x3000 := 4%nat]}.
Proof.
  apply (paging_init_wf 0x3000 boot_mmap paging_zero); [apply paging_boot_eq| |].
  - rewrite paging_boot_size. lia.
  - rewrite paging_boot_size. apply boot_root_zero.
Qed.

Lemma paging_boot_unmapped va : 0 <= va -> translate paging_boot va = None.
Proof.
  intros Hva. apply (root_only_unmapped _ _ _ paging_boot_wf); [by vm_compute|done].
Qed.
End Boot.

(** ** Theorems *)

Section Theorems.
Implicit Types (ts : gmap Z nat).

(** [paging_init] establishes the invariant over an empty root: exactly the
    first 4 MiB and the bitmap's own frames are used, and no address is mapped.
    The bitmap is counted twice in [used_memory] when it lies in those 4 MiB. *)
Theorem paging_init_spec r mmap s s' :
  paging_init r mmap s = Some s' -> 128 <= bitmap_size s' <= 2 ^ 37 ->
  boot_root s r (bitmap_size s') ->
  paging_wf s' {[r := 4%nat]} /\
  (forall j, 0 <= j < nbits s' -> frame_used s' j = boot_used (bitmap_size s') j) /\
  (forall va, 0 <= va -> translate s' va = None) /\
  used_memory s' = (1024 + bitmap_size s' / PAGE_SIZE) * PAGE_SIZE.
Proof.
  intros H Hsz Hroot. pose proof (paging_init_wf _ _ _ _ H Hsz Hroot) as Hwf.
  destruct (paging_init_frames _ _ _ _ H Hsz) as (Hb & Hp & _ & Hu & Hl).
  split_and!; [done|done| |].
  - intros va Hva. by apply (root_only_unmapped s' r).
  - destruct (paging_init_fields _ _ _ _ H) as [t E]. rewrite E at 1. cbn [used_memory].
    rewrite (wrap_small 64 (BITMAP_ADDR + _)) by (unfold in_u, BITMAP_ADDR; lia).
    rewrite (wrap_small 64 (KERNEL_END - 0 + _ - _)) by (unfold in_u, BITMAP_ADDR, KERNEL_END; lia).
    replace (KERNEL_END - 0 + (BITMAP_ADDR + bitmap_size s') - BITMAP_ADDR)
      with (bitmap_size s' + 1024 * PAGE_SIZE) by (unfold KERNEL_END, BITMAP_ADDR, PAGE_SIZE; lia).
    rewrite Z.div_add, Z.add_comm by done. apply wrap_small. unfold in_u, PAGE_SIZE.
    pose proof (Z.div_pos (bitmap_size s') 4096). pose proof (Z.div_le_upper_bound (bitmap_size s') 4096 (2 ^ 37)).
    lia.
Qed.

Lemma paging_init_spec_witness : paging_wf paging_boot {[0x3000 := 4%nat]}.
Proof.
  destruct (paging_init_spec 0x3000 boot_mmap paging_zero paging_boot) as [H _];
    [apply paging_boot_eq|rewrite paging_boot_size; lia|rewrite paging_boot_size; apply boot_root_zero|].
  exact H.
Defined.

(** C19. [paging_map_page] refines the insertion of one page into the address
    space: an unmapped page gets exactly the new entry (or, when the frames run
    out on the way, nothing is mapped), a mapped one is an error that changes
    nothing; no other page and no byte of a used frame changes. *)
Theorem paging_map_page_spec s ts phys va flags :
  paging_wf s ts -> in_u 64 va -> 0 <= phys < 2 ^ 52 -> phys mod PAGE_SIZE = 0 -> flags_ok flags ->
  let e := paging_make_entry phys (Z.lor PAGE_PRESENT flags) in
  match translate s va with
  | Some _ => paging_map_page phys va flags s = (0, pg_print msg_already_mapped s)
  | None => exists s' ts',
      paging_wf s' ts' /\ frames_kept s ts s' /\ ts ⊆ ts' /\
      ((paging_map_page phys va flags s = (0, s') /\ all_used s' /\
        forall va', 0 <= va' -> translate s' va' = translate s va')
       \/ (paging_map_page phys va flags s = (page_of va, s') /\
           forall va', 0 <= va' ->
             translate s' va' = if decide (same_page va va') then Some e else translate s va'))
  end.
Proof.
  intros Hwf Hva Hp Hpm Hfl. pose proof (map_page_cases s ts phys va flags Hwf Hva Hp Hpm Hfl) as H.
  cbv zeta in H |- *. destruct (translate s va); [exact H|].
  destruct H as (s' & ts' & ? & ? & [? _] & _ & _ & _ & _ & _ & H). by exists s', ts'.
Qed.

Lemma paging_map_page_spec_witness :
  exists s', paging_map_page 0x800000 0x400123 PAGE_USER paging_boot = (0x400000, s') /\
    translate s' 0x400FFF = Some 0x800005 /\ translate s' 0x401000 = None.
Proof.
  pose proof (paging_map_page_spec paging_boot _ 0x800000 0x400123 PAGE_USER paging_boot_wf
    ltac:(unfold in_u; lia) ltac:(lia) eq_refl ltac:(split; vm_compute; done)) as H.
  assert (E : fst (paging_map_page 0x800000 0x400123 PAGE_USER paging_boot) = 0x400000) by by vm_compute.
  rewrite (paging_boot_unmapped 0x400123) in H by lia.
  destruct H as (s' & ts' & _ & _ & _ & [[Hm _]|[Hm Ht]]); rewrite Hm in E; [by vm_compute in E|].
  exists s'. split_and!; [exact Hm|rewrite Ht by lia; by vm_compute|].
  rewrite Ht by lia. by rewrite decide_False, paging_boot_unmapped by (lia || by vm_compute).
Defined.

(** C20. A page that [paging_map_page] maps translates to its frame, byte for
    byte, and [paging_unmap_page] restores the translation of every address. *)
Theorem map_unmap_roundtrip s ts phys va flags r s' :
  paging_wf s ts -> in_u 64 va -> 0 <= phys < 2 ^ 52 -> phys mod PAGE_SIZE = 0 -> flags_ok flags ->
  translate s va = None -> paging_map_page phys va flags s = (r, s') -> r <> 0 ->
  (forall va', 0 <= va' -> same_page va va' ->
     paging_get_physical_address va' s' = phys + va' mod PAGE_SIZE) /\
  (forall va', 0 <= va' -> translate (paging_unmap_page va s') va' = translate s va').
Proof.
  intros Hwf Hva Hp Hpm Hfl Htr Hmap Hr. pose proof (map_page_cases s ts phys va flags Hwf Hva Hp Hpm Hfl) as H.
  cbv zeta in H. rewrite Htr in H. destruct (make_entry_spec phys flags Hp Hpm Hfl) as (_ & _ & Hf).
  destruct H as (s1 & ts1 & Hwf1 & _ & _ & _ & _ & _ & _ & _ & [[E _]|[E Ht]]);
    rewrite Hmap in E; injection E as -> ->; [done|]. split.
  - intros va' Hva' Hs. rewrite (get_physical_translate s1 va' (paging_make_entry phys (Z.lor PAGE_PRESENT flags)) Hva').
    + by rewrite Hf.
    + by rewrite Ht, decide_True.
  - intros va' Hva'. destruct (unmap_translate s1 ts1 va Hwf1 (proj1 Hva)) as [_ ->]; [|done].
    rewrite Ht by done. case_decide as Hs; [|done].
    destruct Hva as [Hva _]. apply indices_inj in Hs as [Hu Hi]; [|done..].
    unfold translate in *. by rewrite <- Hu, <- Hi.
Qed.

Lemma map_unmap_roundtrip_witness :
  let s' := snd (paging_map_page 0x800000 0x400123 PAGE_USER paging_boot) in
  paging_get_physical_address 0x400ABC s' = 0x800ABC /\
  forall va', 0 <= va' -> translate (paging_unmap_page 0x400123 s') va' = translate paging_boot va'.
Proof.
  assert (Hfl : flags_ok PAGE_USER) by (split; vm_compute; done).
  cbv zeta. destruct (paging_map_page 0x800000 0x400123 PAGE_USER paging_boot) as [r s'] eqn:E.
  cbn [snd]. assert (Hr : r = 0x400000).
  { change r with (fst (r, s')). rewrite <- E. by vm_compute. }
  pose proof (map_unmap_roundtrip paging_boot _ 0x800000 0x400123 PAGE_USER r s' paging_boot_wf) as H.
  destruct (H ltac:(unfold in_u; lia) ltac:(lia) eq_refl Hfl (paging_boot_unmapped 0x400123 ltac:(lia)) E)
    as [Hg Hu]; [rewrite Hr; discriminate|].
  split; [rewrite (Hg 0x400ABC ltac:(lia) eq_refl); reflexivity|exact Hu].
Defined.

(** [pmm_alloc_page] takes the first free frame, marks it and fills it with
    zeros, keeping the tables, every translation and every byte outside the
    frame and the bitmap; with no free frame it returns [NULL].
    [pmm_free_page] gives it back, and rejects a second release or an
    unaligned address. *)
Theorem pmm_alloc_free s ts :
  paging_wf s ts ->
  (all_used s -> fst (pmm_alloc_page s) = 0) /\
  (forall k, first_free k s ->
    exists s', pmm_alloc_page s = (k * PAGE_SIZE, s') /\ paging_wf s' ts /\
      (forall i, 0 <= i < nbits s -> frame_used s' i = (i =? k) || frame_used s i) /\
      (forall a, k * PAGE_SIZE <= a < k * PAGE_SIZE + PAGE_SIZE -> load8 (pg_mem s') a = 0) /\
      (forall a, ~ (k * PAGE_SIZE <= a < k * PAGE_SIZE + PAGE_SIZE) ->
         ~ (bitmap s <= a < bitmap s + bitmap_size s) -> load8 (pg_mem s') a = load8 (pg_mem s) a) /\
      (forall va, 0 <= va -> translate s' va = translate s va) /\
      let s'' := pmm_free_page (k * PAGE_SIZE) s' in
      (forall i, 0 <= i < nbits s -> frame_used s'' i = frame_used s i) /\
      free_memory s'' = u64 (free_memory s) /\ used_memory s'' = u64 (used_memory s) /\
      frame_used (pmm_free_page (k * PAGE_SIZE) s'') k = false /\
      free_memory (pmm_free_page (k * PAGE_SIZE) s'') = free_memory s'') /\
  (forall addr, addr mod PAGE_SIZE <> 0 -> pg_mem (pmm_free_page addr s) = pg_mem s).
Proof.
  intros Hwf. split_and!.
  - intros Hall. destruct (pmm_alloc_cases s ts Hwf) as [[_ ->]|(k & (Hk & Hf & _) & _)]; [done|].
    rewrite Hall in Hf by lia. discriminate Hf.
  - intros k Hk. pose proof Hk as (Hr & Hf & Hlt).
    assert (E : pmm_alloc_page s = (k * PAGE_SIZE, take_frame k s)).
    { destruct (pmm_alloc_cases s ts Hwf) as [[Hall _]|(k' & (Hk' & Hf' & Hlt') & ->)].
      - rewrite Hall in Hf by lia. discriminate Hf.
      - destruct (Z.lt_trichotomy k k') as [?|[->|?]]; [|done|].
        + rewrite Hlt' in Hf by lia. discriminate Hf.
        + rewrite Hlt in Hf' by lia. discriminate Hf'. }
    destruct (take_frame_wf s ts k Hwf Hk) as [Hwf1 _].
    assert (Hu : forall i, 0 <= i < nbits s -> frame_used (take_frame k s) i = (i =? k) || frame_used s i)
      by (intros; by apply (frame_used_take_frame s ts)).
    assert (Huk : frame_used (take_frame k s) k = true) by (rewrite Hu, Z.eqb_refl by lia; done).
    destruct (free_memory_take_frame k s) as [Hfm Hum].
    exists (take_frame k s). split_and!; [exact E|exact Hwf1|exact Hu| | | |].
    + intros a Ha. by rewrite load8_take_frame, decide_True.
    + intros a Ha Hb. apply take_frame_kept; [lia|done|done].
    + intros va Hva. by apply (grows_take_frame s ts).
    + set (s1 := take_frame k s) in *. clearbody s1. cbv zeta.
      destruct (pmm_free_twice s1 k Huk) as (Hfu & Hfm1 & Hum1 & Hn & Hn2).
      split_and!; [|by rewrite Hfm1, Hfm, wrap_add_l, Z.sub_add|
        by rewrite Hum1, Hum, wrap_sub_l, Z.add_simpl_r|exact Hn|exact Hn2].
      intros i Hi. rewrite Hfu, Hu by done. destruct (Z.eqb_spec i k) as [->|]; [by rewrite Hf|done].
  - intros addr Ha. unfold pmm_free_page. by rewrite (proj2 (Z.eqb_neq _ _) Ha).
Qed.

Lemma pmm_alloc_free_witness :
  exists s', pmm_alloc_page paging_boot = (0x400000, s') /\ frame_used s' 1024 = true /\
    frame_used (pmm_free_page 0x400000 s') 1024 = false.
Proof.
  destruct (pmm_alloc_free paging_boot _ paging_boot_wf) as (_ & H & _).
  destruct (H 1024) as (s' & E & _ & Hu & _ & _ & _ & Hf & _).
  - split_and!; [done|by vm_compute|by vm_compute|].
    intros j Hj. destruct (paging_init_frames 0x3000 boot_mmap paging_zero paging_boot paging_boot_eq) as (_ & _ & _ & Hb & _).
    + rewrite paging_boot_size. lia.
    + rewrite Hb by (unfold nbits; rewrite paging_boot_size; lia). unfold boot_used.
      by rewrite (proj2 (Z.ltb_lt _ _)) by lia.
  - exists s'. split_and!; [exact E| |].
    + rewrite Hu by (unfold nbits; rewrite paging_boot_size; lia). done.
    + change 0x400000 with (1024 * PAGE_SIZE).
      rewrite Hf by (unfold nbits; rewrite paging_boot_size; lia). by vm_compute.
Defined.

(** [paging_init] and memory.c claim the same memory: the bitmap is at
    [MEMORY_START], where the first heap header is. *)
Lemma boot_byte s' a :
  bitmap s' = BITMAP_ADDR -> (forall j, 0 <= j < 1024 -> frame_used s' j = true) ->
  BITMAP_ADDR <= a < BITMAP_ADDR + 128 -> load8 (pg_mem s') a = 255.
Proof.
  intros Hb Hu Ha. apply Z.bits_inj'. intros i Hi.
  change 255 with (Z.ones 8). rewrite Z.testbit_ones_nonneg by lia.
  destruct (Z.ltb_spec i 8) as [H8|H8].
  - pose proof (Hu ((a - BITMAP_ADDR) * 8 + i)) as H. unfold frame_used in H.
    rewrite page_used_testbit, Hb in H.
    rewrite Z.div_add_l, (Z.div_small i), Z.add_0_r, Zplus_comm, Z_mod_plus_full, (Z.mod_small i) in H by lia.
    replace (BITMAP_ADDR + (a - BITMAP_ADDR)) with a in H by lia. apply H. lia.
  - apply (testbit_high 8); [apply load8_range|lia].
Qed.

(** A first header whose bytes are all ones serves every request. *)
Lemma kmalloc_ones size h :
  memory_start h = MEMORY_START -> memory_initialized h <> 0 ->
  (forall a, MEMORY_START <= a < MEMORY_START + sizeof_block -> load8 (heap_mem h) a = 255) ->
  0 < size <= 2 ^ 32 ->
  block_size (heap_mem h) MEMORY_START = 2 ^ 64 - 1 /\
  kmalloc size h = Some (MEMORY_START + sizeof_block,
    Heap (memory_start h) (memory_initialized h) (take_block (heap_mem h) MEMORY_START (align8 size))).
Proof.
  intros Hs Hi Hall Hsize.
  assert (Hsz : block_size (heap_mem h) MEMORY_START = 2 ^ 64 - 1).
  { apply (load_le_ones 8). intros b Hb. apply Hall. unfold sizeof_block. lia. }
  split; [done|]. unfold kmalloc. rewrite (proj2 (Z.eqb_neq _ _) Hi), (proj2 (Z.eqb_neq size 0)), Hs by lia.
  change HEAP_FUEL with (S (pred HEAP_FUEL)). cbn [kmalloc_search].
  assert (Hfree : block_is_free (heap_mem h) MEMORY_START = 255) by (apply Hall; unfold sizeof_block; lia).
  rewrite Hfree, Hsz. change (MEMORY_START =? 0) with false. cbn [Z.eqb negb andb].
  rewrite (proj2 (Z.leb_le (align8 size) _)); [reflexivity|].
  unfold align8. destruct (negb _); [|lia]. pose proof (Z.mod_pos_bound size 8).
  rewrite wrap_small by (unfold in_u; lia). lia.
Qed.

(** The frame bitmap is laid over the kernel heap: after [paging_init] the
    first heap header reads as one free block of [2^64 - 1] bytes, so the memory
    holds no well-formed heap, and [kmalloc] hands out memory of the bitmap. *)
Theorem paging_init_corrupts_heap r mmap h bs s s' :
  heap_wf h bs -> paging_init r mmap s = Some s' -> 128 <= bitmap_size s' <= 2 ^ 37 ->
  let h' := Heap (memory_start h) (memory_initialized h) (pg_mem s') in
  (forall bs', ~ heap_wf h' bs') /\
  forall size, 0 < size <= 2 ^ 32 ->
    exists h'', kmalloc size h' = Some (MEMORY_START + sizeof_block, h'') /\
      bitmap s' <= MEMORY_START + sizeof_block < bitmap s' + bitmap_size s'.
Proof.
  intros (Hs & Hi & _) H Hsz. destruct (paging_init_frames _ _ _ _ H Hsz) as (Hb & _ & _ & Hu & _).
  assert (Hall : forall a, BITMAP_ADDR <= a < BITMAP_ADDR + 128 -> load8 (pg_mem s') a = 255).
  { intros a. apply boot_byte; [done|]. intros j Hj. rewrite Hu by (unfold nbits; lia).
    unfold boot_used. by rewrite (proj2 (Z.ltb_lt _ _)) by lia. }
  set (h' := Heap (memory_start h) (memory_initialized h) (pg_mem s')).
  assert (Hones : forall size, 0 < size <= 2 ^ 32 ->
    block_size (pg_mem s') MEMORY_START = 2 ^ 64 - 1 /\
    exists h'', kmalloc size h' = Some (MEMORY_START + sizeof_block, h'')).
  { intros size Hsize. destruct (kmalloc_ones size h') as [? ?]; [done|by cbn; rewrite Hi| |done|].
    - intros a Ha. apply Hall. unfold BITMAP_ADDR, MEMORY_START, sizeof_block in *. lia.
    - split; [done|]. by eexists. }
  split.
  - intros [|b bs'] (_ & _ & Hok & Htot & Hne & Hr); [done|]. cbn [repr heap_mem h'] in Hr.
    destruct Hr as (Hr & _). destruct (Hones 8 ltac:(lia)) as [Hsize _]. rewrite Hsize in Hr.
    cbn [total] in Htot. unfold extent in Htot.
    apply Forall_cons in Hok as [_ Hok]. pose proof (total_nonneg _ Hok).
    unfold sizeof_block, MEMORY_SIZE in Htot. lia.
  - intros size Hsize. destruct (Hones size Hsize) as [_ [h'' Hh]]. exists h''. split; [exact Hh|].
    rewrite Hb. unfold MEMORY_START, BITMAP_ADDR, sizeof_block. lia.
Qed.

Lemma paging_init_corrupts_heap_witness :
  exists h'', kmalloc 4096 (Heap MEMORY_START 1 (pg_mem paging_boot)) = Some (0x100018, h'').
Proof.
  destruct (paging_init_corrupts_heap 0x3000 boot_mmap (memory_init (Heap 0 0 ∅))
    [Blk (MEMORY_SIZE - sizeof_block) true] paging_zero paging_boot) as [_ H].
  - split_and!; [done|done|by repeat constructor|done|done|by vm_compute].
  - apply paging_boot_eq.
  - rewrite paging_boot_size. lia.
  - destruct (H 4096 ltac:(lia)) as (h'' & E & _). exists h''. exact E.
Defined.

Lemma flags_ok_writable : flags_ok PAGE_WRITABLE.
Proof. split; vm_compute; done. Qed.

(** Mapping only ever adds translations. *)
Lemma map_extends s ts phys va flags r s' :
  paging_wf s ts -> in_u 64 va -> 0 <= phys < 2 ^ 52 -> phys mod PAGE_SIZE = 0 -> flags_ok flags ->
  paging_map_page phys va flags s = (r, s') ->
  exists ts', paging_wf s' ts' /\ kernel_heap s' = kernel_heap s /\
    (forall va', 0 <= va' -> translate s va' <> None -> translate s' va' <> None) /\
    (r <> 0 -> translate s' va <> None).
Proof.
  intros Hwf Hva Hp Hpm Hfl E. pose proof (map_page_cases s ts phys va flags Hwf Hva Hp Hpm Hfl) as H.
  cbv zeta in H. destruct (translate s va) eqn:Etr.
  - rewrite E in H. injection H as -> ->. exists ts. split_and!; try done. by apply pg_print_wf.
  - destruct H as (s1 & ts1 & Hwf1 & _ & _ & _ & _ & _ & Hk & _ & [[E1 [_ Ht]]|[E1 Ht]]);
      rewrite E in E1; injection E1 as -> ->; exists ts1; split_and!; try done.
    + intros va' Hva'. by rewrite Ht.
    + intros va' Hva'. rewrite Ht by done. by case_decide.
    + intros _. rewrite Ht by apply Hva. by rewrite decide_True.
Qed.

Lemma take_frame_phys s ts k :
  paging_wf s ts -> first_free k s -> 0 <= k * PAGE_SIZE < 2 ^ 52 /\ k * PAGE_SIZE <> 0.
Proof.
  intros Hwf (Hk & _). pose proof (nbits_bound s ts Hwf) as [Hb _]. unfold PAGE_SIZE. lia.
Qed.

Lemma translate_print msg s va : translate (pg_print msg s) va = translate s va.
Proof. reflexivity. Qed.

Lemma data_frame_print msg s ts k : data_frame s ts k -> data_frame (pg_print msg s) ts k.
Proof. intros H. exact H. Qed.

Lemma kernel_heap_print msg s : kernel_heap (pg_print msg s) = kernel_heap s.
Proof. reflexivity. Qed.

Lemma kernel_heap_release k s : kernel_heap (release_frame k s) = kernel_heap s.
Proof. reflexivity. Qed.

(** The page at [kernel_heap] is taken. *)
Definition heap_blocked (s : paging) : Prop :=
  (exists ts, paging_wf s ts) /\ in_u 64 (kernel_heap s) /\ translate s (kernel_heap s) <> None.

Lemma kmalloc_page_blocked s :
  heap_blocked s -> fst (kmalloc_page s) = 0 /\ heap_blocked (snd (kmalloc_page s)).
Proof.
  intros ([ts Hwf] & Hkh & Htr). unfold kmalloc_page.
  destruct (pmm_alloc_cases s ts Hwf) as [[_ ->]|(k & Hk & ->)].
  { split; [reflexivity|]. cbn [snd]. unfold heap_blocked. cbn [Z.eqb snd]. rewrite kernel_heap_print, translate_print.
    split_and!; [exists ts; by apply pg_print_wf|exact Hkh|exact Htr]. }
  destruct (take_frame_phys s ts k Hwf Hk) as [Hph Hne]. rewrite (proj2 (Z.eqb_neq _ _) Hne).
  destruct (take_frame_wf s ts k Hwf Hk) as [Hwf1 _].
  pose proof (take_frame_data s ts k Hwf Hk) as Hd.
  assert (Htr1 : forall va, 0 <= va -> translate (take_frame k s) va = translate s va)
    by (intros; by apply (grows_take_frame s ts)).
  assert (Hkh1 : kernel_heap (take_frame k s) = kernel_heap s) by reflexivity.
  set (s1 := take_frame k s) in *. clearbody s1.
  rewrite <- Hkh1, <- (Htr1 (kernel_heap s1)) in Htr by (rewrite Hkh1; apply Hkh).
  rewrite <- Hkh1 in Hkh. clear Hkh1 Htr1.
  pose proof (map_page_cases s1 ts (k * PAGE_SIZE) (kernel_heap s1) PAGE_WRITABLE Hwf1 Hkh Hph
    (Z_mod_mult _ _) flags_ok_writable) as Hm. cbv zeta in Hm.
  destruct (translate s1 (kernel_heap s1)) eqn:E; [|done]. rewrite Hm. cbn [Z.eqb fst snd].
  split; [reflexivity|].
  apply (data_frame_print msg_already_mapped) in Hd.
  assert (Hwf2 : paging_wf (pg_print msg_already_mapped s1) ts) by by apply pg_print_wf.
  rewrite <- (translate_print msg_already_mapped) in E.
  rewrite <- (kernel_heap_print msg_already_mapped s1) in Hkh, E.
  set (s2 := pg_print msg_already_mapped s1) in *. clearbody s2. clear Hm Htr Hwf1.
  rewrite (pmm_free_used s2 k) by apply Hd.
  destruct (release_frame_wf s2 ts k Hwf2 Hd) as [Hwf3 Htr3]. unfold heap_blocked.
  rewrite kernel_heap_release, Htr3, E by apply Hkh. split_and!; [by exists ts|exact Hkh|discriminate].
Qed.

Lemma paging_map_page_result phys va flags s :
  fst (paging_map_page phys va flags s) = 0 \/ fst (paging_map_page phys va flags s) = page_of va.
Proof.
  unfold paging_map_page. destruct (paging_walk _ true _ s) as [[pte|] s3]; [|by left].
  destruct (is_present _); [by left|by right].
Qed.

Lemma kmalloc_page_success s ts p s' :
  paging_wf s ts -> in_u 64 (kernel_heap s) -> kmalloc_page s = (p, s') -> p <> 0 ->
  p = page_of (kernel_heap s) /\ kernel_heap s' = u64 (kernel_heap s + PAGE_SIZE) /\
  exists ts', paging_wf s' ts'.
Proof.
  intros Hwf Hkh H Hp. unfold kmalloc_page in H.
  destruct (pmm_alloc_cases s ts Hwf) as [[_ E]|(k & Hk & E)]; rewrite E in H.
  { by injection H as <- <-. }
  destruct (take_frame_phys s ts k Hwf Hk) as [Hph Hne]. rewrite (proj2 (Z.eqb_neq _ _) Hne) in H.
  destruct (take_frame_wf s ts k Hwf Hk) as [Hwf1 _].
  assert (Hkh1 : kernel_heap (take_frame k s) = kernel_heap s) by reflexivity.
  set (s1 := take_frame k s) in *. clearbody s1. rewrite <- Hkh1 in *.
  destruct (paging_map_page (k * PAGE_SIZE) (kernel_heap s1) PAGE_WRITABLE s1) as [v s2] eqn:Em.
  destruct (map_extends s1 ts _ _ _ _ _ Hwf1 Hkh Hph (Z_mod_mult _ _) flags_ok_writable Em)
    as (ts2 & Hwf2 & Hk2 & _).
  destruct (Z.eqb_spec v 0) as [|Hv]; [by injection H as <- <-|]. injection H as <- <-.
  split_and!; [|cbn [kernel_heap set_kernel_heap]; by rewrite Hk2|exists ts2; by destruct Hwf2; split].
  pose proof (paging_map_page_result (k * PAGE_SIZE) (kernel_heap s1) PAGE_WRITABLE s1) as Hres.
  rewrite Em in Hres. by destruct Hres.
Qed.

Lemma kmalloc_pages_loop_maps n : forall i fp s ts p s',
  paging_wf s ts -> kmalloc_pages_loop n i fp s = (p, s') -> p <> 0 ->
  (exists ts', paging_wf s' ts') /\ kernel_heap s' = kernel_heap s /\
  (forall va, 0 <= va -> translate s va <> None -> translate s' va <> None) /\
  ((0 < n)%nat -> translate s' (u64 (fp + i * PAGE_SIZE)) <> None).
Proof.
  induction n as [|n IH]; intros i fp s ts p s' Hwf H Hp; cbn [kmalloc_pages_loop] in H.
  { injection H as <- <-. split_and!; [by exists ts|done|done|lia]. }
  destruct (pmm_alloc_cases s ts Hwf) as [[_ E]|(k & Hk & E)]; rewrite E in H.
  { by injection H as <- <-. }
  destruct (take_frame_phys s ts k Hwf Hk) as [Hph Hne]. rewrite (proj2 (Z.eqb_neq _ _) Hne) in H.
  destruct (take_frame_wf s ts k Hwf Hk) as [Hwf1 _].
  assert (Htr1 : forall va, 0 <= va -> translate (take_frame k s) va = translate s va)
    by (intros; by apply (grows_take_frame s ts)).
  assert (Hkh1 : kernel_heap (take_frame k s) = kernel_heap s) by reflexivity.
  set (s1 := take_frame k s) in *. clearbody s1.
  destruct (paging_map_page _ _ PAGE_WRITABLE s1) as [v s2] eqn:Em.
  assert (Hva : in_u 64 (u64 (fp + i * PAGE_SIZE))) by (apply wrap_range; lia).
  destruct (map_extends s1 ts _ _ _ _ _ Hwf1 Hva Hph (Z_mod_mult _ _) flags_ok_writable Em)
    as (ts2 & Hwf2 & Hk2 & Hext & Hnew).
  destruct (Z.eqb_spec v 0) as [|Hv]; [by injection H as <- <-|].
  destruct (IH _ _ _ _ _ _ Hwf2 H Hp) as (Hw & Hkh & Hext2 & _).
  split_and!; [done|congruence| |].
  - intros va Hva' Ht. apply Hext2, Hext; [done..|]. by rewrite Htr1.
  - intros _. apply Hext2; [apply Hva|by apply Hnew].
Qed.

(** [kmalloc_pages] maps the pages behind the first one without advancing
    [kernel_heap]: once it has returned two pages or more, every later
    [kmalloc_page] finds its address mapped and fails, for ever. *)
Theorem kmalloc_pages_blocks_kmalloc_page s ts count p s' n :
  paging_wf s ts -> in_u 64 (kernel_heap s) -> kernel_heap s mod PAGE_SIZE = 0 -> 2 <= count ->
  kmalloc_pages count s = (p, s') -> p <> 0 ->
  fst (kmalloc_page (Nat.iter n (fun s => snd (kmalloc_page s)) s')) = 0.
Proof.
  intros Hwf Hkh Hal Hc H Hp. unfold kmalloc_pages in H.
  destruct (kmalloc_page s) as [fp s1] eqn:E1. destruct (Z.eqb_spec fp 0) as [|Hfp]; [by injection H as <- <-|].
  destruct (kmalloc_page_success s ts fp s1 Hwf Hkh E1 Hfp) as (-> & Hk1 & ts1 & Hwf1).
  destruct (kmalloc_pages_loop_maps _ _ _ _ _ _ _ Hwf1 H Hp) as (Hw & Hk2 & _ & Hmap).
  assert (Hpo : page_of (kernel_heap s) = kernel_heap s).
  { rewrite page_of_div by done. pose proof (Z.div_mod (kernel_heap s) PAGE_SIZE ltac:(done)). lia. }
  assert (Hb : heap_blocked s').
  { split_and!; [done| |]; rewrite Hk2, Hk1; [apply wrap_range; lia|].
    rewrite Hpo, Z.mul_1_l in Hmap. apply Hmap. lia. }
  clear -Hb. revert s' Hb. induction n as [|n IH]; intros s' Hb.
  - by apply kmalloc_page_blocked.
  - rewrite Nat.iter_succ_r. apply IH. by apply kmalloc_page_blocked.
Qed.

Lemma kmalloc_pages_blocks_kmalloc_page_witness :
  fst (kmalloc_page (snd (kmalloc_pages 2 paging_boot))) = 0.
Proof.
  assert (Hp : fst (kmalloc_pages 2 paging_boot) = KERNEL_BASE) by by vm_compute.
  assert (Hkb : kernel_heap paging_boot = KERNEL_BASE) by by vm_compute.
  assert (Hk : in_u 64 (kernel_heap paging_boot)) by (rewrite Hkb; unfold in_u, KERNEL_BASE; lia).
  assert (Ha : kernel_heap paging_boot mod PAGE_SIZE = 0) by (rewrite Hkb; reflexivity).
  destruct (kmalloc_pages 2 paging_boot) as [p s'] eqn:E. cbn [fst snd] in *.
  apply (kmalloc_pages_blocks_kmalloc_page paging_boot _ 2 p s' 0 paging_boot_wf Hk Ha ltac:(lia) E).
  rewrite Hp. discriminate.
Defined.

End Theorems.
