(* ===== verification/Usermode.v ===== *)
(** * Descriptors, the task state and user memory: usermode.c

    [gdt_flush], [tss_flush] and [usermode_jump] are assembly: the last is
    modelled by the selectors and addresses it is given.  User memory is the
    memory as the running program addresses it. *)
From S2P Require Import Prelude CString Terminal RawMemory Allocator Heap.
From S2P Require Import Kernel Process Paging PagingSpec.

Definition GDT_KERNEL_CODE : Z := 0x08.
Definition GDT_KERNEL_DATA : Z := 0x10.
Definition GDT_USER_CODE : Z := 0x18.
Definition GDT_USER_DATA : Z := 0x20.
Definition GDT_TSS : Z := 0x28.
Definition GDT_PRESENT : Z := 0x80.
Definition GDT_DPL_RING0 : Z := 0x00.
Definition GDT_DPL_RING3 : Z := 0x60.
Definition GDT_TYPE_CODE : Z := 0x1A.
Definition GDT_TYPE_DATA : Z := 0x12.
Definition GDT_TYPE_TSS : Z := 0x09.
Definition GDT_LONG_MODE : Z := 0x20.
Definition USER_BASE : Z := 0x400000.
Definition USER_STACK_TOP : Z := 0x00007FFFFFFFFFFF.

(** ** Segment descriptors *)

Record gdt_entry := GdtEntry {
  limit_low : Z; base_low : Z; base_middle : Z; access : Z; granularity : Z; base_high : Z;
}.

Definition gdt_entry0 : gdt_entry := GdtEntry 0 0 0 0 0 0.

(** The entry that [gdt_set_gate] writes; each field converts to its type. *)
Definition gdt_gate (base limit acc gran : Z) : gdt_entry :=
  GdtEntry (u16 (Z.land limit 0xFFFF)) (u16 (Z.land base 0xFFFF))
    (u8 (Z.land (Z.shiftr base 16) 0xFF)) (u8 acc)
    (u8 (Z.lor (u8 (Z.land (Z.shiftr limit 16) 0x0F)) (Z.land gran 0xF0)))
    (u8 (Z.land (Z.shiftr base 24) 0xFF)).

Definition gdt_set_gate (num : nat) (base limit acc gran : Z) (g : list gdt_entry) : list gdt_entry :=
  <[num := gdt_gate (u32 base) (u32 limit) acc gran]> g.

Definition gdt_set_tss (num : nat) (base limit acc : Z) (g : list gdt_entry) : list gdt_entry :=
  gdt_set_gate num (u32 base) limit acc 0 g.

(** [sizeof(tss_t)], a packed structure. *)
Definition sizeof_tss : Z := 104.

Definition gdt_init (tss_address : Z) (g : list gdt_entry) (t : terminal) : list gdt_entry * terminal :=
  let g := gdt_set_gate 0 0 0 0 0 g in
  let g := gdt_set_gate 1 0 0xFFFFF
    (Z.lor (Z.lor (Z.lor GDT_PRESENT GDT_DPL_RING0) GDT_TYPE_CODE) GDT_LONG_MODE) 0xA0 g in
  let g := gdt_set_gate 2 0 0xFFFFF (Z.lor (Z.lor GDT_PRESENT GDT_DPL_RING0) GDT_TYPE_DATA) 0xC0 g in
  let g := gdt_set_gate 3 0 0xFFFFF
    (Z.lor (Z.lor (Z.lor GDT_PRESENT GDT_DPL_RING3) GDT_TYPE_CODE) GDT_LONG_MODE) 0xA0 g in
  let g := gdt_set_gate 4 0 0xFFFFF (Z.lor (Z.lor GDT_PRESENT GDT_DPL_RING3) GDT_TYPE_DATA) 0xC0 g in
  let g := gdt_set_tss 5 tss_address sizeof_tss (Z.lor GDT_PRESENT GDT_TYPE_TSS) g in
  (g, terminal_writestring (bytes_of ("GDT baslatildi." +:+ nl)) t).

(** What the processor reads from a descriptor. *)
Definition gdt_base (e : gdt_entry) : Z :=
  base_low e + 2 ^ 16 * base_middle e + 2 ^ 24 * base_high e.
Definition gdt_limit (e : gdt_entry) : Z := limit_low e + 2 ^ 16 * Z.land (granularity e) 0x0F.
Definition gdt_dpl (e : gdt_entry) : Z := Z.land (Z.shiftr (access e) 5) 3.

(** ** The task state *)

Record tss := Tss {
  tss_reserved1 : Z; rsp0 : Z; rsp1 : Z; rsp2 : Z; tss_reserved2 : Z; ist : list Z;
  tss_reserved3 : Z; tss_reserved4 : Z; iomap_base : Z;
}.

Definition tss_zero : tss := Tss 0 0 0 0 0 (replicate 7 0) 0 0 0.

Definition set_rsp0 (v : Z) (s : tss) : tss :=
  Tss (tss_reserved1 s) v (rsp1 s) (rsp2 s) (tss_reserved2 s) (ist s) (tss_reserved3 s)
    (tss_reserved4 s) (iomap_base s).

(** The state before is overwritten by [memset]. *)
Definition tss_init (kernel_stack : Z) (s : tss) (t : terminal) : tss * terminal :=
  (set_rsp0 kernel_stack tss_zero, terminal_writestring (bytes_of ("TSS baslatildi." +:+ nl)) t).

Definition tss_set_kernel_stack (stack : Z) (s : tss) : tss := set_rsp0 stack s.

Section Enter.
Context {H : Type}.
Implicit Types (k : kernel H).

(** [paging_switch_address_space]: the new value of the register CR3. *)
Definition paging_switch_address_space (pml4 : Z) (cr3 : Z) : Z := pml4.

(** The arguments of [usermode_jump], [None] when the function returns; CR3, the
    task state and the kernel after it. *)
Definition usermode_enter (entry_point user_stack : Z) (cr3 : Z) (s : tss) k
  : option (Z * Z * Z * Z) * Z * tss * kernel H :=
  match get_current_process k with
  | None =>
    (None, cr3, s, kprint ("Hata: Kullanici moduna gecerken gecerli islem yok!" +:+ nl) k)
  | Some c =>
    let current := proc k c in
    let s := tss_set_kernel_stack (u64 (p_stack current + p_stack_size current)) s in
    let cr3 := if negb (p_page_directory current =? 0)
               then paging_switch_address_space (p_page_directory current) cr3 else cr3 in
    (Some (Z.lor GDT_USER_CODE 3, Z.lor GDT_USER_DATA 3, entry_point, user_stack), cr3, s,
     kprint ("Kullanici moduna geciliyor..." +:+ nl) k)
  end.
End Enter.

(** ** User pointers *)

(** The body of the loop of [usermode_validate_pointer]. *)
Definition page_accessible (page access_flags : Z) (s : paging) : bool :=
  if paging_get_physical_address page s =? 0 then false else
  match fst (paging_walk page false 0 s) with
  | None => false
  | Some pt_entry =>
    let e := load64 (pg_mem s) pt_entry in
    if negb (is_present e) then false else
    if Z.land e PAGE_USER =? 0 then false else
    negb (negb (Z.land access_flags PAGE_WRITABLE =? 0) && (Z.land e PAGE_WRITABLE =? 0))
  end.

Fixpoint validate_pages (fuel : nat) (page end_page access_flags : Z) (s : paging) : option Z :=
  if page <=? end_page then
    match fuel with
    | O => None
    | S fuel' =>
      if page_accessible page access_flags s
      then validate_pages fuel' (u64 (page + PAGE_SIZE)) end_page access_flags s
      else Some 0
    end
  else Some 1.

Definition usermode_validate_pointer (fuel : nat) (ptr size access_flags : Z) (s : paging) : option Z :=
  if (ptr <? USER_BASE) || (USER_STACK_TOP <=? ptr) then Some 0 else
  let start_addr := ptr in
  let end_addr := u64 (start_addr + size - 1) in
  validate_pages fuel (page_of start_addr) (page_of end_addr) access_flags s.

(** The result and the bytes stored at [dst]. *)
Definition usermode_copy_from_user (fuel : nat) (src size : Z) (s : paging) (um : mem)
  : option (Z * list Z) :=
  valid ← usermode_validate_pointer fuel src size 0 s;
  if valid =? 0 then Some (0, []) else Some (1, read_bytes (Z.to_nat size) um src).

(** [bs] are the bytes at [src]; its length is [size]. *)
Definition usermode_copy_to_user (fuel : nat) (dst : Z) (bs : list Z) (s : paging) (um : mem)
  : option (Z * mem) :=
  valid ← usermode_validate_pointer fuel dst (Z.of_nat (length bs)) PAGE_WRITABLE s;
  if valid =? 0 then Some (0, um) else Some (1, write_bytes bs um dst).

(** ** Facts *)

Section Usermode_facts.
Implicit Types (s : paging).

(** An entry that lets the program read, and write if it asks to. *)
Definition entry_accessible (e access_flags : Z) : bool :=
  negb (frame_of e =? 0) && negb (Z.land e PAGE_USER =? 0)
  && negb (negb (Z.land access_flags PAGE_WRITABLE =? 0) && (Z.land e PAGE_WRITABLE =? 0)).

(** The byte at [a] is mapped for the program. *)
Definition user_accessible s (access_flags a : Z) : bool :=
  match translate s a with Some e => entry_accessible e access_flags | None => false end.

Lemma page_accessible_spec s page acc :
  0 <= page -> page mod PAGE_SIZE = 0 -> page_accessible page acc s = user_accessible s acc page.
Proof.
  intros H0 Hm. unfold page_accessible, user_accessible.
  destruct (translate s page) as [e|] eqn:E.
  - rewrite (get_physical_translate s page e H0 E), Hm, Z.add_0_r, paging_walk_ro.
    unfold translate, entry_at in E. destruct (table_at _ _ _) as [t|]; [|done]. cbn in E |- *.
    fold (entry (pg_mem s) t (pt_index page)). destruct (is_present (entry _ _ _)) eqn:Ep; [|done].
    injection E as ->. unfold entry_accessible.
    destruct (frame_of e =? 0), (Z.land e PAGE_USER =? 0); done.
  - rewrite paging_walk_ro. unfold translate, entry_at in E.
    destruct (paging_get_physical_address page s =? 0); [done|].
    destruct (table_at _ _ _) as [t|]; [|done]. cbn in E |- *.
    fold (entry (pg_mem s) t (pt_index page)). by destruct (is_present _).
Qed.

Lemma same_page_translate s a b : 0 <= a -> 0 <= b -> same_page a b -> translate s a = translate s b.
Proof.
  intros Ha Hb Hs. apply indices_inj in Hs as [Hu Hi]; [|done..].
  unfold translate. by rewrite Hu, Hi.
Qed.

Lemma user_accessible_page s acc a :
  0 <= a -> user_accessible s acc (a / PAGE_SIZE * PAGE_SIZE) = user_accessible s acc a.
Proof.
  intros Ha. unfold user_accessible. rewrite (same_page_translate s _ a); [done| |done|].
  - pose proof (Z.div_pos a PAGE_SIZE Ha ltac:(done)). unfold PAGE_SIZE in *. lia.
  - unfold same_page. by rewrite Z.div_mul.
Qed.

Lemma validate_pages_spec s acc n : forall fuel p,
  0 <= p -> (p + Z.of_nat n) * PAGE_SIZE < 2 ^ 64 -> (n <= fuel)%nat ->
  let r := validate_pages fuel (p * PAGE_SIZE) ((p + Z.of_nat n - 1) * PAGE_SIZE) acc s in
  (r = Some 1 /\ forall q, p <= q < p + Z.of_nat n -> user_accessible s acc (q * PAGE_SIZE) = true) \/
  (r = Some 0 /\ exists q, p <= q < p + Z.of_nat n /\ user_accessible s acc (q * PAGE_SIZE) = false).
Proof.
  cbv zeta. induction n as [|n IH]; intros fuel p Hp Hlt Hf.
  - left. split; [|lia]. destruct fuel; cbn [validate_pages];
      by rewrite (proj2 (Z.leb_gt _ _)) by (unfold PAGE_SIZE; lia).
  - destruct fuel as [|fuel]; [lia|]. cbn [validate_pages].
    rewrite (proj2 (Z.leb_le _ _)) by (unfold PAGE_SIZE; lia).
    rewrite page_accessible_spec by (apply Z_mod_mult || (unfold PAGE_SIZE; lia)).
    destruct (user_accessible s acc (p * PAGE_SIZE)) eqn:E; [|right; split; [done|exists p; split; [lia|done]]].
    replace (p * PAGE_SIZE + PAGE_SIZE) with ((p + 1) * PAGE_SIZE) by lia.
    rewrite wrap_small by (unfold in_u, PAGE_SIZE in *; lia).
    replace (p + Z.of_nat (S n) - 1) with (p + 1 + Z.of_nat n - 1) by lia.
    destruct (IH fuel (p + 1)) as [[-> H]|[-> (q & Hq & H)]]; try lia; [left|right]; split; try done.
    + intros q Hq. destruct (decide (q = p)) as [->|]; [done|apply H; lia].
    + exists q. split; [lia|done].
Qed.

(** The answer for a range that neither is empty nor wraps around. *)
Lemma validate_pointer_spec fuel ptr size acc s :
  USER_BASE <= ptr < USER_STACK_TOP -> 0 < size -> ptr + size <= 2 ^ 63 ->
  size / PAGE_SIZE + 2 <= Z.of_nat fuel ->
  let r := usermode_validate_pointer fuel ptr size acc s in
  (r = Some 1 /\ forall a, ptr <= a < ptr + size -> user_accessible s acc a = true) \/
  (r = Some 0 /\ exists a, ptr <= a < ptr + size /\ user_accessible s acc a = false).
Proof.
  unfold USER_BASE, USER_STACK_TOP. intros Hptr Hs Hlt Hf. cbv zeta. unfold usermode_validate_pointer.
  unfold USER_BASE, USER_STACK_TOP. rewrite (proj2 (Z.ltb_ge _ _)), (proj2 (Z.leb_gt _ _)) by lia. cbn [orb].
  rewrite (wrap_small 64) by (unfold in_u; lia). rewrite !page_of_div by (unfold in_u; lia).
  set (p := ptr / PAGE_SIZE). set (q := (ptr + size - 1) / PAGE_SIZE).
  assert (Hpq : p <= q) by (apply Z.div_le_mono; [done|lia]).
  assert (Hq : q < 2 ^ 51) by (apply Z.div_lt_upper_bound; unfold PAGE_SIZE; lia).
  assert (Hp : 0 <= p) by (apply Z.div_pos; [lia|done]).
  assert (Hn : q - p <= size / PAGE_SIZE + 1).
  { subst p q. unfold PAGE_SIZE in *. Z.div_mod_to_equations. lia. }
  replace q with (p + Z.of_nat (Z.to_nat (q - p + 1)) - 1) by lia.
  destruct (validate_pages_spec s acc (Z.to_nat (q - p + 1)) fuel p) as [[-> H]|[-> (r & Hr & H)]];
    [done|unfold PAGE_SIZE; lia|lia|left|right]; split; try done.
  - intros a Ha. rewrite <- user_accessible_page by lia. apply H.
    assert (p <= a / PAGE_SIZE) by (apply Z.div_le_mono; [done|lia]).
    assert (a / PAGE_SIZE <= q) by (apply Z.div_le_mono; [done|lia]). lia.
  - exists (Z.max ptr (r * PAGE_SIZE)).
    assert (Hb : p * PAGE_SIZE <= ptr < p * PAGE_SIZE + PAGE_SIZE) by (subst p; unfold PAGE_SIZE in *; Z.div_mod_to_equations; lia).
    assert (He : q * PAGE_SIZE <= ptr + size - 1) by (subst q; unfold PAGE_SIZE in *; Z.div_mod_to_equations; lia).
    assert (Hrq : r * PAGE_SIZE <= q * PAGE_SIZE) by (unfold PAGE_SIZE; lia).
    split; [lia|]. rewrite <- user_accessible_page by lia.
    replace (Z.max ptr (r * PAGE_SIZE) / PAGE_SIZE) with r; [done|].
    apply Z.div_unique with (Z.max ptr (r * PAGE_SIZE) - PAGE_SIZE * r);
      [unfold PAGE_SIZE in *; lia|lia].
Qed.
End Usermode_facts.

(** ** Theorems *)

Section Usermode_theorems.
Implicit Types (s : paging).

Lemma entry_accessible_read e acc : entry_accessible e acc = true -> entry_accessible e 0 = true.
Proof.
  unfold entry_accessible. rewrite !andb_true_iff. intros [[H1 H2] _]. by rewrite H1, H2.
Qed.

Lemma gdt_gate_decode base limit acc gran :
  in_u 32 base -> in_u 20 limit ->
  gdt_base (gdt_gate (u32 base) (u32 limit) acc gran) = base
  /\ gdt_limit (gdt_gate (u32 base) (u32 limit) acc gran) = limit.
Proof.
  intros Hb Hl. unfold gdt_base, gdt_limit, gdt_gate. cbn [base_low base_middle base_high limit_low granularity].
  rewrite (wrap_small 32 base), (wrap_small 32 limit) by (unfold in_u in *; lia).
  change 0xFFFF with (2 ^ 16 - 1). change 0xFF with (2 ^ 8 - 1). change 0x0F with (2 ^ 4 - 1).
  assert (Hlor : wrap 4 (u8 (Z.lor (u8 (wrap 4 (Z.shiftr limit 16))) (Z.land gran 0xF0)))
                 = wrap 4 (Z.shiftr limit 16)).
  { apply Z.bits_inj'. intros i Hi. rewrite !testbit_wrap, Z.lor_spec, !testbit_wrap, Z.land_spec by lia.
    destruct (Z.ltb_spec i 4); cbn [andb]; [|done]. rewrite (proj2 (Z.ltb_lt i 8)) by lia. cbn [andb].
    change 0xF0 with (Z.shiftl (Z.ones 4) 4). rewrite Z.shiftl_spec, (Z.testbit_neg_r _ (i - 4)) by lia.
    by rewrite andb_false_r, orb_false_r. }
  rewrite !land_ones_mod by lia. rewrite Hlor, !wrap_idemp, !Z.shiftr_div_pow2 by lia.
  unfold wrap, in_u in *. split; Z.div_mod_to_equations; lia.
Qed.

(** Descriptors are encoded exactly (a 32-bit base and a 20-bit limit read
    back), and [gdt_init] installs flat code and data segments; but the kernel
    code segment has privilege level 1, because [GDT_LONG_MODE] falls in the
    access byte, and the base of the task state is cut to 32 bits. *)
Theorem gdt_init_spec base limit acc gran tss_address g t :
  in_u 32 base -> in_u 20 limit -> length g = 6%nat ->
  gdt_base (gdt_gate (u32 base) (u32 limit) acc gran) = base /\
  gdt_limit (gdt_gate (u32 base) (u32 limit) acc gran) = limit /\
  let g' := (gdt_init tss_address g t).1 in
  ((fun e => (gdt_base e, gdt_limit e, gdt_dpl e)) <$> take 5 g') =
    [(0, 0, 0); (0, 0xFFFFF, 1); (0, 0xFFFFF, 0); (0, 0xFFFFF, 3); (0, 0xFFFFF, 3)] /\
  exists e, g' !! 5%nat = Some e /\ gdt_base e = u32 tss_address /\ gdt_limit e = sizeof_tss /\ gdt_dpl e = 0.
Proof.
  intros Hb Hl Hg. destruct (gdt_gate_decode base limit acc gran Hb Hl) as [-> ->].
  split_and!; [done..|]. cbv zeta.
  destruct g as [|g0 [|g1 [|g2 [|g3 [|g4 [|g5 [|]]]]]]]; try done. cbn [gdt_init fst].
  unfold gdt_set_tss, gdt_set_gate. split; [reflexivity|].
  eexists. split; [reflexivity|]. split; [|split; [|reflexivity]].
  - rewrite wrap_idemp. rewrite <- (wrap_idemp 32 tss_address) at 1.
    by apply gdt_gate_decode; [apply wrap_range; lia|vm_compute].
  - rewrite wrap_idemp. rewrite <- (wrap_idemp 32 tss_address).
    by apply gdt_gate_decode; [apply wrap_range; lia|vm_compute].
Qed.

Lemma gdt_init_spec_witness :
  gdt_base (gdt_gate (u32 0x12345678) (u32 0xABCDE) 0 0xF0) = 0x12345678 /\
  (gdt_dpl <$> take 5 (gdt_init 0x200000 (replicate 6 gdt_entry0) (Terminal 0 0 0 ∅)).1) = [0; 1; 0; 3; 3].
Proof.
  destruct (gdt_init_spec 0x12345678 0xABCDE 0 0xF0 0x200000 (replicate 6 gdt_entry0) (Terminal 0 0 0 ∅))
    as (Hb & _ & Hg & _); [unfold in_u; lia|unfold in_u; lia|done|].
  split; [exact Hb|]. apply (f_equal (fmap (fun x : Z * Z * Z => x.2))) in Hg. exact Hg.
Defined.

(** C34. [usermode_validate_pointer] terminates and answers, for a non-empty range
    that does not wrap around, whether it starts in user space and every byte of
    it is mapped for the program with the access asked for. *)
Theorem usermode_validate_pointer_spec fuel ptr size acc s :
  0 <= ptr -> 0 < size -> ptr + size <= 2 ^ 63 -> size / PAGE_SIZE + 2 <= Z.of_nat fuel ->
  exists r, usermode_validate_pointer fuel ptr size acc s = Some r /\ (r = 0 \/ r = 1) /\
    (r = 1 <-> USER_BASE <= ptr < USER_STACK_TOP /\
               forall a, ptr <= a < ptr + size -> user_accessible s acc a = true).
Proof.
  intros H0 Hs Hlt Hf.
  destruct (decide (USER_BASE <= ptr < USER_STACK_TOP)) as [Hr|Hr].
  - destruct (validate_pointer_spec fuel ptr size acc s Hr Hs Hlt Hf) as [[-> H]|[-> (a & Ha & H)]].
    + exists 1. split_and!; [done|by right|]. done.
    + exists 0. split_and!; [done|by left|]. split; [done|]. intros [_ Hall]. by rewrite Hall in H.
  - exists 0. unfold usermode_validate_pointer. rewrite (proj2 (orb_true_iff _ _)).
    + split_and!; [done|by left|]. split; [done|]. by intros [].
    + destruct (Z.ltb_spec ptr USER_BASE); [by left|right]. apply Z.leb_le. lia.
Qed.

(** The boot state with a page mapped for user programs. *)
Definition paging_user : paging :=
  (paging_map_page 0x800000 USER_BASE (Z.lor PAGE_USER PAGE_WRITABLE) paging_boot).2.

Lemma paging_user_accessible a : USER_BASE <= a < USER_BASE + PAGE_SIZE ->
  user_accessible paging_user PAGE_WRITABLE a = true.
Proof.
  intros Ha. rewrite <- user_accessible_page by (unfold USER_BASE in *; lia).
  replace (a / PAGE_SIZE) with 1024 by (apply Z.div_unique with (a - 1024 * PAGE_SIZE);
    unfold USER_BASE, PAGE_SIZE in *; lia).
  by vm_compute.
Qed.

Lemma usermode_validate_pointer_spec_witness :
  usermode_validate_pointer 3 (USER_BASE + 100) 3996 PAGE_WRITABLE paging_user = Some 1.
Proof.
  destruct (usermode_validate_pointer_spec 3 (USER_BASE + 100) 3996 PAGE_WRITABLE paging_user)
    as (r & E & _ & H); [unfold USER_BASE; lia|lia|unfold USER_BASE; lia|by vm_compute|].
  rewrite E. f_equal. apply H. split; [unfold USER_BASE, USER_STACK_TOP; lia|].
  intros a Ha. apply paging_user_accessible. unfold PAGE_SIZE. lia.
Defined.

(** The end of the range is computed modulo [2^64]: a size for which it falls
    below the first page passes the check with nothing mapped, whatever the page
    tables hold, and the copy functions then accept it. *)
Theorem usermode_validate_wraps fuel ptr size acc s um :
  USER_BASE <= ptr < USER_STACK_TOP -> in_u 64 size ->
  page_of (u64 (ptr + size - 1)) < page_of ptr ->
  usermode_validate_pointer fuel ptr size acc s = Some 1 /\
  usermode_copy_from_user fuel ptr size s um = Some (1, read_bytes (Z.to_nat size) um ptr).
Proof.
  intros Hp Hs Hlt.
  assert (Hv : forall acc, usermode_validate_pointer fuel ptr size acc s = Some 1).
  { intros acc'. unfold usermode_validate_pointer. rewrite (proj2 (Z.ltb_ge _ _)), (proj2 (Z.leb_gt _ _)) by lia.
    cbn [orb]. destruct fuel; cbn [validate_pages]; by rewrite (proj2 (Z.leb_gt _ _)). }
  split; [apply Hv|]. unfold usermode_copy_from_user. by rewrite Hv.
Qed.

Lemma usermode_validate_wraps_witness :
  usermode_validate_pointer 0 USER_BASE (2 ^ 64 - 1) PAGE_WRITABLE paging_boot = Some 1.
Proof.
  apply (usermode_validate_wraps 0 USER_BASE (2 ^ 64 - 1) PAGE_WRITABLE paging_boot ∅);
    [unfold USER_BASE, USER_STACK_TOP; lia|unfold in_u; lia|by vm_compute].
Defined.

(** What [usermode_copy_to_user] stores, [usermode_copy_from_user] reads back;
    nothing outside the buffer changes, and a refused copy changes nothing. *)
Theorem usermode_copy_roundtrip fuel dst bs s um :
  Forall (in_u 8) bs -> bs <> [] -> 0 <= dst -> dst + Z.of_nat (length bs) <= 2 ^ 63 ->
  Z.of_nat (length bs) / PAGE_SIZE + 2 <= Z.of_nat fuel ->
  (exists um', usermode_copy_to_user fuel dst bs s um = Some (1, um') /\
     usermode_copy_from_user fuel dst (Z.of_nat (length bs)) s um' = Some (1, bs) /\
     forall a, ~ (dst <= a < dst + Z.of_nat (length bs)) -> load8 um' a = load8 um a) \/
  usermode_copy_to_user fuel dst bs s um = Some (0, um).
Proof.
  intros Hbs Hne H0 Hlt Hf. unfold usermode_copy_to_user, usermode_copy_from_user.
  assert (Hlen : 0 < Z.of_nat (length bs)) by (destruct bs; [done|cbn [length]; lia]).
  destruct (decide (USER_BASE <= dst < USER_STACK_TOP)) as [Hr|Hr].
  - destruct (validate_pointer_spec fuel dst _ PAGE_WRITABLE s Hr Hlen Hlt Hf) as [[-> H]|[-> _]]; [|by right].
    left. cbn [mbind option_bind Z.eqb]. eexists. split; [done|].
    destruct (validate_pointer_spec fuel dst _ 0 s Hr Hlen Hlt Hf) as [[-> _]|[_ (a & Ha & H')]].
    + cbn [mbind option_bind Z.eqb]. rewrite Nat2Z.id, read_write_bytes by done. split; [done|].
      intros a Ha. apply load8_write_bytes_ne. unfold disjoint_ranges. lia.
    + specialize (H a Ha). unfold user_accessible in *. destruct (translate s a); [|done].
      apply entry_accessible_read in H. congruence.
  - right. unfold usermode_validate_pointer. rewrite (proj2 (orb_true_iff _ _)); [done|].
    destruct (Z.ltb_spec dst USER_BASE); [by left|right]. apply Z.leb_le. lia.
Qed.

Lemma usermode_copy_roundtrip_witness :
  exists um', usermode_copy_to_user 2 (USER_BASE + 8) [1; 2; 3] paging_user ∅ = Some (1, um') /\
    usermode_copy_from_user 2 (USER_BASE + 8) 3 paging_user um' = Some (1, [1; 2; 3]).
Proof.
  destruct (usermode_copy_roundtrip 2 (USER_BASE + 8) [1; 2; 3] paging_user ∅)
    as [(um' & H1 & H2 & _)|H]; [by repeat constructor|done|unfold USER_BASE; lia|unfold USER_BASE; cbn; lia|by vm_compute| |].
  - exists um'. split; [exact H1|exact H2].
  - assert (E : (fst <$> usermode_copy_to_user 2 (USER_BASE + 8) [1; 2; 3] paging_user ∅) = Some 1) by by vm_compute.
    rewrite H in E. discriminate E.
Defined.
End Usermode_theorems.
