(* ===== verification/Syscall.v ===== *)
(** * System calls: syscall.c

    A call reads and changes the kernel, the memory of the running program and,
    for standard input, the keyboard.  The page tables are only read.  The
    functions the file declares and the source does not contain ([fs_mkdir],
    [fs_unlink]) and what an uninitialised local variable holds are parameters.
    signals.c ends with a second definition of six of the calls; only its
    [sys_kill] differs. *)
From S2P Require Import Prelude CString Terminal RawMemory Allocator Heap.
From S2P Require Import Kernel Process Invariant Scheduler Lifecycle Signals SchedulerSpec Idt.
From S2P Require Import Timer Pipe Keyboard Paging PagingSpec Usermode.

Definition SIG_ERR : Z := -1.
Definition SIGINT : Z := 2.
Definition SIGHUP : Z := 1.

(** A failing call returns [-1] as [uint64_t]. *)
Definition ERR : Z := u64 (-1).

(** The entries of [syscall_table] with their numbers. *)
Inductive syscall :=
  | Sys_exit | Sys_fork | Sys_read | Sys_write | Sys_open | Sys_close | Sys_sleep
  | Sys_getpid | Sys_exec | Sys_getppid | Sys_pipe | Sys_dup | Sys_dup2 | Sys_mkdir
  | Sys_rmdir | Sys_wait | Sys_kill | Sys_signal | Sys_sigaction | Sys_sigprocmask
  | Sys_sigpending | Sys_sigsuspend | Sys_setpgid | Sys_getpgid | Sys_setsid | Sys_getsid.

Definition syscall_table : list (option syscall) :=
  [None; Some Sys_exit; Some Sys_fork; Some Sys_read; Some Sys_write; Some Sys_open;
   Some Sys_close; Some Sys_sleep; Some Sys_getpid; Some Sys_exec; Some Sys_getppid;
   Some Sys_pipe; Some Sys_dup; Some Sys_dup2; Some Sys_mkdir; Some Sys_rmdir; Some Sys_wait;
   Some Sys_kill; Some Sys_signal; Some Sys_sigaction; Some Sys_sigprocmask;
   Some Sys_sigpending; Some Sys_sigsuspend; Some Sys_setpgid; Some Sys_getpgid;
   Some Sys_setsid; Some Sys_getsid] ++ replicate 37 None.

(** [signal_action_t] in memory: the handler, the flags, four bytes of padding,
    the mask. *)
Definition sizeof_signal_action : Z := 24.

Definition action_of_bytes (bs : list Z) : signal_action :=
  SignalAction (le_value (take 8 bs)) (le_value (take 4 (drop 8 bs))) (le_value (drop 16 bs)).

Definition bytes_of_action (padding : Z) (a : signal_action) : list Z :=
  le_bytes 8 (a_handler a) ++ le_bytes 4 (a_flags a) ++ le_bytes 4 padding ++ le_bytes 8 (a_mask a).

(** The length of the string at [a], up to its NUL. *)
Fixpoint user_strlen (n : nat) (um : mem) (a : Z) : option Z :=
  if load8 um a =? 0 then Some 0 else
  match n with
  | O => None
  | S n' => len ← user_strlen n' um (a + 1); Some (u64 (len + 1))
  end.

Section Syscalls.
Context `{!Allocator H}.
Variable call_handler : Z -> Z -> kernel H -> option (kernel H).
(** Interrupts that end a [hlt] in the timer's and in the keyboard's wait. *)
Variable wait_timer : kernel H -> option (kernel H).
Variable wait_key : keyboard_state -> keyboard_state.
Variable fs_mkdir fs_unlink : list Z -> Z.
(** The contents of uninitialised locals of the kernel stack. *)
Variable stack_action : signal_action.
Variable stack_mask stack_padding : Z.
(** The page tables. *)
Variable pg : paging.
(** Bounds for the recursion of the scheduler, and for the loops of pipes,
    waits, pointer checks and strings. *)
Variable fuel turns : nat.
Implicit Types (k : kernel H) (um : mem).

Definition copy_to_user (dst : Z) (bs : list Z) um : option (Z * mem) :=
  usermode_copy_to_user turns dst bs pg um.
Definition copy_from_user (src size : Z) um : option (Z * list Z) :=
  usermode_copy_from_user turns src size pg um.
Definition validate (ptr size access_flags : Z) : option Z :=
  usermode_validate_pointer turns ptr size access_flags pg.

(** ** Processes *)

Definition sys_exit (status : Z) k : option (Z * kernel H) :=
  match get_current_process k with
  | None => Some (0, k)
  | Some c =>
    k ← exit_process call_handler fuel (p_pid (proc k c)) status k;
    k ← schedule call_handler fuel k;
    Some (0, k)
  end.

(** The child gets the registers, with [rax] 0, and the signal state. *)
Definition fork_child (parent child : process) : process :=
  set_p_signal_actions (p_signal_actions parent)
    (set_p_blocked_signals (p_blocked_signals parent)
      (set_p_pending_signals (p_pending_signals parent)
        (set_p_registers (set_rax 0 (p_registers parent)) child))).

Definition sys_fork k : option (Z * kernel H) :=
  match get_current_process k with
  | None => Some (ERR, k)
  | Some c =>
    '(child_pid, k) ← create_process (p_name (proc k c)) 0 (p_pid (proc k c)) k;
    if child_pid =? 0 then Some (ERR, k) else
    match get_process child_pid k with
    | None => Some (ERR, k)
    | Some child => Some (child_pid, upd_proc child (fork_child (proc k c)) k)
    end
  end.

Definition sys_sleep (milliseconds : Z) k : option (Z * kernel H) :=
  k ← process_sleep call_handler wait_timer fuel turns milliseconds k; Some (0, k).

Definition sys_getpid k : Z :=
  match get_current_process k with Some c => p_pid (proc k c) | None => 0 end.

Definition sys_getppid k : Z :=
  match get_current_process k with Some c => p_parent_pid (proc k c) | None => 0 end.

(** The loop of [sys_wait]: the first [i] that is the pid of a zombie child. *)
Fixpoint wait_search (n : nat) (i : Z) (parent : Z) k : option nat :=
  match n with
  | O => None
  | S n' =>
    match get_process i k with
    | Some j =>
      if (p_parent_pid (proc k j) =? parent) && bool_decide (p_state (proc k j) = PROCESS_STATE_ZOMBIE)
      then Some j else wait_search n' (i + 1) parent k
    | None => wait_search n' (i + 1) parent k
    end
  end.

Definition sys_wait (status : Z) k um : option (Z * kernel H * mem) :=
  match get_current_process k with
  | None => Some (ERR, k, um)
  | Some c =>
    match wait_search MAX_PROCESSES 0 (p_pid (proc k c)) k with
    | Some j =>
      let exit_code := 0 in
      if status =? 0 then Some (p_pid (proc k j), k, um) else
      valid ← validate status 8 PAGE_WRITABLE;
      if valid =? 0 then Some (ERR, k, um) else
      '(ok, um) ← copy_to_user status (le_bytes 8 exit_code) um;
      if ok =? 0 then Some (ERR, k, um) else Some (p_pid (proc k j), k, um)
    | None =>
      k ← schedule call_handler fuel (block_process (p_pid (proc k c)) k);
      Some (ERR, k, um)
    end
  end.

Definition sys_setpgid (pid pgid : Z) k : Z * kernel H :=
  if pid =? 0 then
    match get_current_process k with
    | None => (ERR, k)
    | Some c => let '(r, k) := set_process_group (p_pid (proc k c)) pgid k in (u64 r, k)
    end
  else let '(r, k) := set_process_group pid pgid k in (u64 r, k).

Definition sys_getpgid (pid : Z) k : Z :=
  if pid =? 0 then
    match get_current_process k with Some c => p_process_group (proc k c) | None => ERR end
  else match get_process pid k with Some i => p_process_group (proc k i) | None => ERR end.

Definition sys_setsid k : Z * kernel H := let '(r, k) := create_session k in (u64 r, k).

Definition sys_getsid (pid : Z) k : Z :=
  if pid =? 0 then
    match get_current_process k with Some c => p_session_id (proc k c) | None => ERR end
  else match get_process pid k with Some i => p_session_id (proc k i) | None => ERR end.

(** ** Signals *)

(** The loop of [kill(-1)] from [i], [n] turns left; [i] is taken as a pid. *)
Fixpoint kill_all_loop (n : nat) (i signum sent : Z) k : option (Z * kernel H) :=
  match n with
  | O => Some (sent, k)
  | S n' =>
    match get_process i k with
    | Some j =>
      if negb (p_pid (proc k j) =? 0) then
        '(r, k) ← signal_send call_handler fuel (Some j) signum k;
        kill_all_loop n' (i + 1) signum (if r =? 0 then sent + 1 else sent) k
      else kill_all_loop n' (i + 1) signum sent k
    | None => kill_all_loop n' (i + 1) signum sent k
    end
  end.

(** [pid] is unsigned: [pid < -1] compares with [2^64 - 1]. *)
Definition sys_kill (pid signum : Z) k : option (Z * kernel H) :=
  if MAX_SIGNALS <=? signum then Some (ERR, k) else
  if pid =? 0 then
    match get_current_process k with
    | None => Some (ERR, k)
    | Some c =>
      '(r, k) ← send_signal_to_process_group call_handler fuel (p_process_group (proc k c)) signum k;
      Some (u64 r, k)
    end
  else if pid <? u64 (-1) then
    '(r, k) ← send_signal_to_process_group call_handler fuel (u64 (- pid)) signum k;
    Some (u64 r, k)
  else if pid =? u64 (-1) then
    '(sent, k) ← kill_all_loop MAX_PROCESSES 0 signum 0 k; Some (u64 sent, k)
  else
    match get_process pid k with
    | None => Some (ERR, k)
    | Some i => '(r, k) ← signal_send call_handler fuel (Some i) signum k; Some (u64 r, k)
    end.

(** The [sys_kill] of signals.c. *)
Definition sys_kill_signals (pid signum : Z) k : option (Z * kernel H) :=
  if MAX_SIGNALS <=? signum then Some (ERR, k) else
  match get_process pid k with
  | None => Some (ERR, k)
  | Some i => '(r, k) ← signal_send call_handler fuel (Some i) signum k; Some (u64 r, k)
  end.

Definition sys_signal (signum handler : Z) k : Z * kernel H :=
  if MAX_SIGNALS <=? signum then (u64 SIG_ERR, k)
  else let '(r, k) := signal_set_handler signum handler k in (u64 r, k).

(** [*oldact] when it is not null: what [signal_set_action] stores, or the
    uninitialised local. *)
Definition sys_sigaction (signum act_ptr oldact_ptr : Z) k um : option (Z * kernel H * mem) :=
  if MAX_SIGNALS <=? signum then Some (ERR, k, um) else
  act ← (if act_ptr =? 0 then Some (Some None) else
         valid ← validate act_ptr sizeof_signal_action 0;
         if valid =? 0 then Some None else
         '(ok, bs) ← copy_from_user act_ptr sizeof_signal_action um;
         if ok =? 0 then Some None else Some (Some (Some (action_of_bytes bs))));
  match act with
  | None => Some (ERR, k, um)
  | Some act =>
    let '(result, old, k) := signal_set_action signum act (negb (oldact_ptr =? 0)) k in
    if oldact_ptr =? 0 then Some (u64 result, k, um) else
    valid ← validate oldact_ptr sizeof_signal_action PAGE_WRITABLE;
    if valid =? 0 then Some (ERR, k, um) else
    '(ok, um) ← copy_to_user oldact_ptr (bytes_of_action stack_padding (default stack_action old)) um;
    if ok =? 0 then Some (ERR, k, um) else Some (u64 result, k, um)
  end.

Definition sys_sigprocmask (how set_ptr oldset_ptr : Z) k um : option (Z * kernel H * mem) :=
  set ← (if set_ptr =? 0 then Some (Some None) else
         valid ← validate set_ptr 8 0;
         if valid =? 0 then Some None else
         '(ok, bs) ← copy_from_user set_ptr 8 um;
         if ok =? 0 then Some None else Some (Some (Some (le_value bs))));
  match set with
  | None => Some (ERR, k, um)
  | Some set =>
    let '(result, old, k) := signal_proc_mask (s32 how) set (negb (oldset_ptr =? 0)) k in
    if oldset_ptr =? 0 then Some (u64 result, k, um) else
    valid ← validate oldset_ptr 8 PAGE_WRITABLE;
    if valid =? 0 then Some (ERR, k, um) else
    '(ok, um) ← copy_to_user oldset_ptr (le_bytes 8 (default stack_mask old)) um;
    if ok =? 0 then Some (ERR, k, um) else Some (u64 result, k, um)
  end.

Definition sys_sigpending (set_ptr : Z) k um : option (Z * kernel H * mem) :=
  if set_ptr =? 0 then Some (ERR, k, um) else
  valid ← validate set_ptr 8 PAGE_WRITABLE;
  if valid =? 0 then Some (ERR, k, um) else
  match get_current_process k with
  | None => Some (ERR, k, um)
  | Some c =>
    '(ok, um) ← copy_to_user set_ptr (le_bytes 8 (p_pending_signals (proc k c))) um;
    if ok =? 0 then Some (ERR, k, um) else Some (0, k, um)
  end.

Definition sys_sigsuspend (mask_ptr : Z) k um : option (Z * kernel H * mem) :=
  if mask_ptr =? 0 then Some (ERR, k, um) else
  valid ← validate mask_ptr 8 0;
  if valid =? 0 then Some (ERR, k, um) else
  match get_current_process k with
  | None => Some (ERR, k, um)
  | Some c =>
    '(ok, bs) ← copy_from_user mask_ptr 8 um;
    if ok =? 0 then Some (ERR, k, um) else
    let old_mask := p_blocked_signals (proc k c) in
    let k := upd_proc c (set_p_blocked_signals (Z.land (le_value bs) blockable)) k in
    k ← schedule call_handler fuel (block_process (p_pid (proc k c)) k);
    Some (ERR, upd_proc c (set_p_blocked_signals old_mask) k, um)
  end.

(** ** Files and pipes

    The bytes of a copy pass through a buffer in the kernel's heap.  A buffer
    smaller than what is stored to it is overrun: the store reaches the header of
    the next block. *)

Definition store_buffer (bs : list Z) (a : Z) k : kernel H := set_k_heap (poke bs a (k_heap k)) k.
Definition buffer_bytes (n : Z) (kbuf : Z) k : list Z := read_block (Z.to_nat n) kbuf (k_heap k).

Definition release_buffer (kbuf : Z) k : option (kernel H) :=
  h ← free kbuf (k_heap k); Some (set_k_heap h k).

Definition sys_read (fd buf count : Z) k um (kb : keyboard_state)
  : option (Z * kernel H * mem * keyboard_state) :=
  match pipe_get_by_fd fd k with
  | Some _ =>
    valid ← validate buf count PAGE_WRITABLE;
    if valid =? 0 then Some (ERR, k, um, kb) else
    '(kbuf, h) ← alloc count (k_heap k);
    let k := set_k_heap h k in
    if kbuf =? 0 then Some (ERR, k, um, kb) else
    '(bytes_read, bs, k) ← pipe_read call_handler turns fuel fd count k;
    let k := store_buffer bs kbuf k in
    '(ok, um) ← (if 0 <? bytes_read then copy_to_user buf (buffer_bytes bytes_read kbuf k) um
                 else Some (1, um));
    k ← release_buffer kbuf k;
    if ok =? 0 then Some (ERR, k, um, kb) else Some (u64 bytes_read, k, um, kb)
  | None =>
    if fd =? 0 then
      '(r, bs, kb, t) ← keyboard_read wait_key turns turns (read_bytes (Z.to_nat count) um buf) count
                          kb (k_term k);
      Some (u64 r, set_k_term t k, write_bytes bs um buf, kb)
    else Some (ERR, k, um, kb)
  end.

Definition sys_write (fd buf count : Z) k um : option (Z * kernel H) :=
  match pipe_get_by_fd fd k with
  | Some _ =>
    valid ← validate buf count 0;
    if valid =? 0 then Some (ERR, k) else
    '(kbuf, h) ← alloc count (k_heap k);
    let k := set_k_heap h k in
    if kbuf =? 0 then Some (ERR, k) else
    '(ok, bs) ← copy_from_user buf count um;
    if ok =? 0 then k ← release_buffer kbuf k; Some (ERR, k) else
    let k := store_buffer bs kbuf k in
    '(bytes_written, k) ← pipe_write call_handler turns fuel fd (buffer_bytes count kbuf k) k;
    k ← release_buffer kbuf k;
    Some (u64 bytes_written, k)
  | None =>
    if (fd =? 1) || (fd =? 2) then
      valid ← validate buf count 0;
      if valid =? 0 then Some (ERR, k) else
      '(kbuf, h) ← alloc (u64 (count + 1)) (k_heap k);
      let k := set_k_heap h k in
      if kbuf =? 0 then Some (ERR, k) else
      '(ok, bs) ← copy_from_user buf count um;
      if ok =? 0 then k ← release_buffer kbuf k; Some (ERR, k) else
      let k := store_buffer [0] (kbuf + count) (store_buffer bs kbuf k) in
      k ← release_buffer kbuf (kprint_bytes (buffer_bytes (count + 1) kbuf k) k);
      Some (count, k)
    else Some (ERR, k)
  end.

Definition sys_close (fd : Z) k : Z * kernel H :=
  match pipe_get_by_fd fd k with
  | Some _ => let '(r, k) := pipe_close fd k in (u64 r, k)
  | None => (ERR, k)
  end.

Definition sys_pipe (fds : Z) k um : option (Z * kernel H * mem) :=
  valid ← validate fds 16 PAGE_WRITABLE;
  if valid =? 0 then Some (ERR, k, um) else
  let '(result, new_fds, k) := pipe_create k in
  match new_fds with
  | Some (read_fd, write_fd) =>
    '(ok, um) ← copy_to_user fds (le_bytes 8 read_fd) um;
    '(ok, um) ← (if ok =? 0 then Some (0, um) else copy_to_user (u64 (fds + 8)) (le_bytes 8 write_fd) um);
    if ok =? 0 then
      let '(_, k) := pipe_close read_fd k in
      let '(_, k) := pipe_close write_fd k in
      Some (ERR, k, um)
    else Some (0, k, um)
  | None => Some (ERR, k, um)
  end.

(** [sys_mkdir] and [sys_rmdir], by the function they call. *)
Definition sys_path (fs_op : list Z -> Z) (pathname : Z) k um : option (Z * kernel H) :=
  len ← user_strlen turns um pathname;
  valid ← validate pathname (u64 (len + 1)) 0;
  if valid =? 0 then Some (ERR, k) else
  '(kpath, h) ← alloc (u64 (len + 1)) (k_heap k);
  let k := set_k_heap h k in
  if kpath =? 0 then Some (ERR, k) else
  '(ok, bs) ← copy_from_user pathname (u64 (len + 1)) um;
  if ok =? 0 then k ← release_buffer kpath k; Some (ERR, k) else
  let k := store_buffer bs kpath k in
  let result := fs_op (buffer_bytes (u64 (len + 1)) kpath k) in
  k ← release_buffer kpath k; Some (u64 result, k).

Definition sys_mkdir (pathname : Z) k um : option (Z * kernel H) := sys_path fs_mkdir pathname k um.
Definition sys_rmdir (pathname : Z) k um : option (Z * kernel H) := sys_path fs_unlink pathname k um.

(** Not implemented in the source: they fail. *)
Definition sys_open (pathname flags : Z) : Z := ERR.
Definition sys_exec (path argv : Z) : Z := ERR.
Definition sys_dup (oldfd : Z) : Z := ERR.
Definition sys_dup2 (oldfd newfd : Z) : Z := ERR.

(** ** Dispatch *)

Record machine := Machine { m_kernel : kernel H; m_user : mem; m_keyboard : keyboard_state }.

(** The call of [func] with the six argument registers. *)
Definition do_syscall (func : syscall) (a1 a2 a3 : Z) (s : machine) : option (Z * machine) :=
  let k := m_kernel s in let um := m_user s in let kb := m_keyboard s in
  let pure r := Some (r, s) in
  let kern (x : Z * kernel H) := Some (x.1, Machine x.2 um kb) in
  let okern (x : option (Z * kernel H)) := '(r, k) ← x; Some (r, Machine k um kb) in
  let omem (x : option (Z * kernel H * mem)) := '(r, k, um) ← x; Some (r, Machine k um kb) in
  match func with
  | Sys_exit => okern (sys_exit a1 k)
  | Sys_fork => okern (sys_fork k)
  | Sys_read => '(r, k, um, kb) ← sys_read a1 a2 a3 k um kb; Some (r, Machine k um kb)
  | Sys_write => okern (sys_write a1 a2 a3 k um)
  | Sys_open => pure (sys_open a1 a2)
  | Sys_close => kern (sys_close a1 k)
  | Sys_sleep => okern (sys_sleep a1 k)
  | Sys_getpid => pure (sys_getpid k)
  | Sys_exec => pure (sys_exec a1 a2)
  | Sys_getppid => pure (sys_getppid k)
  | Sys_pipe => omem (sys_pipe a1 k um)
  | Sys_dup => pure (sys_dup a1)
  | Sys_dup2 => pure (sys_dup2 a1 a2)
  | Sys_mkdir => okern (sys_mkdir a1 k um)
  | Sys_rmdir => okern (sys_rmdir a1 k um)
  | Sys_wait => omem (sys_wait a1 k um)
  | Sys_kill => okern (sys_kill a1 a2 k)
  | Sys_signal => kern (sys_signal a1 a2 k)
  | Sys_sigaction => omem (sys_sigaction a1 a2 a3 k um)
  | Sys_sigprocmask => omem (sys_sigprocmask a1 a2 a3 k um)
  | Sys_sigpending => omem (sys_sigpending a1 k um)
  | Sys_sigsuspend => omem (sys_sigsuspend a1 k um)
  | Sys_setpgid => kern (sys_setpgid a1 a2 k)
  | Sys_getpgid => pure (sys_getpgid a1 k)
  | Sys_setsid => kern (sys_setsid k)
  | Sys_getsid => pure (sys_getsid a1 k)
  end.

(** Returns the registers; [char num_str[5]] for the number of a bad call. *)
Definition syscall_handler (regs : registers) (s : machine) : option (registers * machine) :=
  match (if 64 <=? rax regs then None else default None (syscall_table !! Z.to_nat (rax regs))) with
  | None =>
    k ← kprint_int 5 (rax regs)
          (kprint "Hata: Gecersiz sistem cagrisi numarasi: " (m_kernel s));
    Some (regs, Machine (kprint nl k) (m_user s) (m_keyboard s))
  | Some func =>
    '(result, s) ← do_syscall func (rdi regs) (rsi regs) (rdx regs) s;
    let regs := set_rax result regs in
    match get_current_process (m_kernel s) with
    | None => Some (regs, s)
    | Some current =>
      '(_, k) ← signal_handle_pending call_handler fuel (Some current) (m_kernel s);
      Some (regs, Machine k (m_user s) (m_keyboard s))
    end
  end.

(** The address of [syscall_handler] is a parameter. *)
Definition init_syscalls (handler_address : Z) (d : idt) k : idt * kernel H :=
  let d := register_interrupt_handler 0x80 handler_address d in
  let k := (pipe_init k).2 in
  let k := (signal_init k).2 in
  (d, kprint ("Sistem cagrilari baslatildi." +:+ nl) k).
End Syscalls.
