(* ===== verification/SyscallBuffers.v ===== *)
(** * The kernel buffers of the system calls

    What the copies of usermode.c do to the memory of a program, and a buffer in
    the kernel's heap from [kmalloc] to [kfree]: while it is held no store into it
    reaches another block, and when it is given back the live blocks are those
    from before.  [SyscallSpec] uses both for [sys_read], [sys_write], [sys_mkdir]
    and [sys_rmdir]. *)
From S2P Require Import Prelude CString Terminal RawMemory Allocator Heap.
From S2P Require Import Kernel Process Invariant Scheduler Lifecycle Signals SchedulerSpec Idt.
From S2P Require Import Timer Pipe Keyboard Paging PagingSpec Usermode Syscall.

(** ** Copies to and from the program *)

Section Copies.
Variable pg : paging.
Variable turns : nat.
Implicit Types (um : mem) (bs : list Z).
Hypothesis two_turns : (2 <= turns)%nat.

(** Only bytes the program can write differ. *)
Definition user_safe um um' : Prop :=
  forall a, user_accessible pg PAGE_WRITABLE a = false -> load8 um' a = load8 um a.

#[export] Instance user_safe_preorder : PreOrder user_safe.
Proof. split; unfold user_safe; [done|]. intros x y z Hxy Hyz a Ha. by rewrite Hyz, Hxy. Qed.

(** A size of less than two gigabytes for which [turns] turns are enough. *)
Definition short (size : Z) : Prop := size < 2 ^ 31 /\ size / PAGE_SIZE + 2 <= Z.of_nat turns.

(** A check that ends where it starts looks at one page at most. *)
Lemma validate_empty ptr acc :
  in_u 64 ptr -> exists r, validate pg turns ptr 0 acc = Some r /\ (r = 0 \/ r = 1).
Proof.
  intros Hp. unfold validate, usermode_validate_pointer. split_if; [by exists 0; auto|].
  assert (H8 : USER_BASE <= ptr < USER_STACK_TOP) by lia.
  rewrite (wrap_small 64), !page_of_div by (unfold USER_BASE, USER_STACK_TOP, in_u in *; lia).
  assert (Hle : (ptr + 0 - 1) / PAGE_SIZE <= ptr / PAGE_SIZE) by (apply Z.div_le_mono; [done|lia]).
  assert (Hlt : in_u 64 (ptr / PAGE_SIZE * PAGE_SIZE + PAGE_SIZE)).
  { unfold USER_BASE, USER_STACK_TOP, in_u, PAGE_SIZE in *. Z.div_mod_to_equations. lia. }
  destruct turns as [|[|n]]; [lia..|]. cbn [validate_pages].
  destruct (Z.leb_spec (ptr / PAGE_SIZE * PAGE_SIZE) ((ptr + 0 - 1) / PAGE_SIZE * PAGE_SIZE)); [|by exists 1; auto].
  destruct (page_accessible _ acc pg); [|by exists 0; auto]. rewrite wrap_small by done.
  rewrite (proj2 (Z.leb_gt _ _)) by (unfold PAGE_SIZE in *; lia). by exists 1; auto.
Qed.

(** A check of a short range never runs out of turns. *)
Lemma validate_short ptr size acc :
  in_u 64 ptr -> 0 <= size -> short size ->
  (validate pg turns ptr size acc = Some 1 /\
     forall a, ptr <= a < ptr + size -> user_accessible pg acc a = true) \/
  validate pg turns ptr size acc = Some 0.
Proof.
  intros Hp Hs [Hlt Ht]. destruct (decide (size = 0)) as [->|Hne].
  { destruct (validate_empty ptr acc Hp) as (r & E & [->| ->]); rewrite E; [by right|left]. split; [done|lia]. }
  unfold validate. destruct (decide (USER_BASE <= ptr < USER_STACK_TOP)) as [Hr|Hr].
  - destruct (validate_pointer_spec turns ptr size acc pg Hr) as [[-> H]|[-> _]]; try done; try lia.
    + unfold USER_STACK_TOP in *. lia.
    + by left.
    + by right.
  - right. unfold usermode_validate_pointer. rewrite (proj2 (orb_true_iff _ _)); [done|].
    destruct (Z.ltb_spec ptr USER_BASE); [by left|right]. apply Z.leb_le. lia.
Qed.

Lemma short_small size : size < PAGE_SIZE -> short size.
Proof.
  intros Hs. split; [unfold PAGE_SIZE in *; lia|].
  assert (size / PAGE_SIZE < 1) by (apply Z.div_lt_upper_bound; unfold PAGE_SIZE in *; lia). lia.
Qed.

Lemma short_le size size' : short size -> size' <= size -> short size'.
Proof.
  intros [H1 H2] Hl. split; [lia|]. assert (size' / PAGE_SIZE <= size / PAGE_SIZE) by (apply Z.div_le_mono; done). lia.
Qed.

Lemma validate_short_total ptr size acc :
  in_u 64 ptr -> 0 <= size -> short size -> exists r, validate pg turns ptr size acc = Some r.
Proof. intros Hp Hs Ht. destruct (validate_short ptr size acc Hp Hs Ht) as [[-> _]| ->]; by eauto. Qed.

Lemma validate_total ptr size acc :
  in_u 64 ptr -> 0 < size < PAGE_SIZE -> exists r, validate pg turns ptr size acc = Some r.
Proof. intros Hp Hs. apply validate_short_total; [done|lia|apply short_small; lia]. Qed.

Lemma copy_to_user_short dst bs um :
  in_u 64 dst -> short (Z.of_nat (length bs)) ->
  exists r um', copy_to_user pg turns dst bs um = Some (r, um') /\ user_safe um um'.
Proof.
  intros Hd Hl. unfold copy_to_user, usermode_copy_to_user.
  destruct (validate_short dst (Z.of_nat (length bs)) PAGE_WRITABLE Hd) as [(E & H)|E]; [lia|done|..];
    unfold validate in E; rewrite E; eexists _, _; (split; [reflexivity|]); [|reflexivity].
  intros a Ha. apply load8_write_bytes_ne. unfold disjoint_ranges.
  destruct (decide (dst <= a < dst + Z.of_nat (length bs))) as [Hin|]; [|lia].
  rewrite H in Ha by done. discriminate Ha.
Qed.

Lemma copy_to_user_total dst bs um :
  in_u 64 dst -> 0 < Z.of_nat (length bs) < PAGE_SIZE ->
  exists r um', copy_to_user pg turns dst bs um = Some (r, um') /\ user_safe um um'.
Proof. intros Hd Hl. apply copy_to_user_short; [done|]. apply short_small. lia. Qed.

Lemma copy_from_user_short src size um :
  in_u 64 src -> 0 <= size -> short size ->
  copy_from_user pg turns src size um = Some (0, []) \/
  copy_from_user pg turns src size um = Some (1, read_bytes (Z.to_nat size) um src).
Proof.
  intros Hs H0 Hl. unfold copy_from_user, usermode_copy_from_user.
  destruct (validate_short src size 0 Hs H0 Hl) as [(E & _)|E]; unfold validate in E; rewrite E; auto.
Qed.

Lemma copy_from_user_total src size um :
  in_u 64 src -> 0 < size < PAGE_SIZE ->
  exists r bs, copy_from_user pg turns src size um = Some (r, bs) /\
    (r <> 0 -> bs = read_bytes (Z.to_nat size) um src).
Proof.
  intros Hs Hl. destruct (copy_from_user_short src size um) as [-> | ->]; [done|lia|apply short_small; lia|..];
    eexists _, _; (split; [reflexivity|done]).
Qed.
End Copies.

(** ** A buffer in the kernel's heap *)

Section Buffers.
Context `{!Allocator H}.
Variable call_handler : Z -> Z -> kernel H -> option (kernel H).
Implicit Types (k : kernel H) (um : mem) (bs : list Z).

(** [p] is a block of at least [n] bytes in a well-formed kernel, and the stack of
    no process. *)
Definition buffer_at (p n : Z) k : Prop :=
  kernel_wf k /\ alloc_live (k_heap k) p /\ (forall i, p_stack (proc k i) <> p) /\
  n <= alloc_room (k_heap k) p.

(** The heap [h] with the blocks of the heap of [k] and, if [extra], the buffer [p]. *)
Lemma wf_set_heap k h :
  kernel_wf k -> alloc_wf h -> (forall i, p_stack (proc k i) <> 0 -> alloc_live h (p_stack (proc k i))) ->
  kernel_wf (set_k_heap h k).
Proof. intros Hk Hw Hs. destruct Hk. by split. Qed.

Lemma take_buffer n k p h :
  kernel_wf k -> 0 <= n <= 2 ^ 64 - 8 -> alloc n (k_heap k) = Some (p, h) -> p <> 0 ->
  buffer_at p n (set_k_heap h k) /\ ~ alloc_live (k_heap k) p /\
  forall q, alloc_live h q <-> alloc_live (k_heap k) q \/ q = p.
Proof.
  intros Hk Hn Ha Hp. pose proof (wf_heap k Hk) as Hw. assert (Hu : in_u 64 n) by (unfold in_u; lia).
  destruct (alloc_spec n (k_heap k) Hw Hu) as (p' & h' & Ha' & Hw' & Hc).
  rewrite Ha in Ha'. injection Ha' as <- <-. destruct Hc as [[? _]|(_ & _ & Hnew & Hl)]; [done|].
  destruct (alloc_room_spec n (k_heap k) p h Hw Hu Ha Hp) as [Hroom _].
  split; [|done]. split_and!; [| |intros i Hi|apply Hroom; lia].
  - apply wf_set_heap; [done..|]. intros i Hi. apply Hl. left. by apply wf_stack.
  - apply Hl. by right.
  - apply Hnew. cbn [k_heap set_k_heap]. rewrite <- Hi. change (proc (set_k_heap h k) i) with (proc k i).
    apply (wf_stack k Hk). change (proc (set_k_heap h k) i) with (proc k i) in Hi. by rewrite Hi.
Qed.

Lemma store_buffer_spec bs a p n k :
  buffer_at p n k -> p <= a -> a + Z.of_nat (length bs) <= p + n ->
  buffer_at p n (store_buffer bs a k) /\
  forall q, alloc_live (k_heap (store_buffer bs a k)) q <-> alloc_live (k_heap k) q.
Proof.
  intros (Hk & Hl & Hs & Hn) Ha Hb.
  destruct (poke_spec bs a p (k_heap k) (wf_heap k Hk) Hl Ha) as (Hw & Hlive & Hroom); [lia|].
  split; [|exact Hlive]. split_and!; [|by apply Hlive|exact Hs|].
  - apply wf_set_heap; [done..|]. intros i Hi. apply Hlive. by apply wf_stack.
  - cbn [k_heap store_buffer set_k_heap]. by rewrite Hroom.
Qed.

(** Another part of the kernel changes. *)
Lemma buffer_kept p n k k' :
  buffer_at p n k -> kernel_wf k' -> k_heap k' = k_heap k ->
  (forall i, p_stack (proc k' i) = p_stack (proc k i)) -> buffer_at p n k'.
Proof. intros (_ & Hl & Hs & Hn) Hk' Hh Hst. split_and!; [done|by rewrite Hh| |by rewrite Hh]. intros i. by rewrite Hst. Qed.

Lemma release_buffer_spec p n k :
  buffer_at p n k ->
  exists h, release_buffer p k = Some (set_k_heap h k) /\ kernel_wf (set_k_heap h k) /\
    forall q, alloc_live h q <-> alloc_live (k_heap k) q /\ q <> p.
Proof.
  intros (Hk & Hl & Hs & _). destruct (free_spec p (k_heap k) (wf_heap k Hk) Hl) as (h & Hf & Hw & Hl').
  exists h. unfold release_buffer. rewrite Hf. split_and!; [done| |done].
  apply wf_set_heap; [done..|]. intros i Hi. apply Hl'. split; [by apply wf_stack|apply Hs].
Qed.

(** ** Pipe operations that do not wait *)

Lemma wake_peer_heap pid k : k_heap (wake_peer pid k) = k_heap k.
Proof. unfold wake_peer, unblock_process. split_if; [|done]. case_match; [|done]. by case_decide. Qed.

Lemma peer_woken_stack pid p : p_stack (peer_woken pid p) = p_stack p.
Proof. unfold peer_woken, unblocked. repeat case_decide; done. Qed.

(** Neither the heap nor a stack changes. *)
Definition memory_kept k k' : Prop :=
  k_heap k' = k_heap k /\ forall i, p_stack (proc k' i) = p_stack (proc k i).

Lemma memory_kept_refl k : memory_kept k k.
Proof. done. Qed.

(** A pipe operation that finds an end closed, bytes or room, or may not block. *)
Definition read_ready (fd : Z) k : Prop :=
  match pipe_get_by_fd fd k with
  | Some i => let p := pipe_at k i in
    pi_data_size p <> 0 \/ pi_writer_open p = 0 \/ has_flag (pi_flags p) PIPE_FLAG_NONBLOCK = true \/
    pi_reader_open p = 0 \/ has_flag fd PIPE_FLAG_READABLE = false
  | None => fd <> 0
  end.

Definition write_ready (fd count : Z) k : Prop :=
  match pipe_get_by_fd fd k with
  | Some i => let p := pipe_at k i in
    count <= PIPE_BUFFER_SIZE - pi_data_size p \/ has_flag (pi_flags p) PIPE_FLAG_NONBLOCK = true \/
    pi_reader_open p = 0 \/ pi_writer_open p = 0 \/ has_flag fd PIPE_FLAG_WRITABLE = false
  | None => True
  end.

Lemma pipe_read_ready n fuel fd count k :
  kernel_wf k -> read_ready fd k -> 0 <= count ->
  exists r bs k', pipe_read call_handler n fuel fd count k = Some (r, bs, k') /\ kernel_wf k' /\ memory_kept k k' /\
    r <= count /\ Z.of_nat (length bs) <= count.
Proof.
  intros Hk Hr Hc. unfold read_ready in Hr. destruct (pipe_get_by_fd fd k) as [i|] eqn:Hg.
  2: { unfold pipe_read. rewrite Hg. eexists _, _, _. split_and!; [reflexivity|done..|unfold PIPE_ERROR_CLOSED; lia|simpl; lia]. }
  pose proof (pipes_ok_each _ _ (wf_pipes k Hk) i) as Hp. fold (pipe_at k i) in Hp.
  assert (Hself : forall r : Z, r <= 0 -> exists r' bs k', Some (r, @nil Z, k) = Some (r', bs, k') /\ kernel_wf k' /\
    memory_kept k k' /\ r' <= count /\ Z.of_nat (length bs) <= count).
  { intros r Hr0. eexists _, _, _. split_and!; [reflexivity|done..|lia|simpl; lia]. }
  destruct (Z.eqb_spec (pi_reader_open (pipe_at k i)) 0) as [Hro|Hro].
  { unfold pipe_read. rewrite Hg, Hro. by apply Hself. }
  destruct (has_flag fd PIPE_FLAG_READABLE) eqn:Hf; cycle 1.
  { unfold pipe_read. rewrite Hg, Hf, orb_true_r. by apply Hself. }
  destruct (Z.eqb_spec (pi_data_size (pipe_at k i)) 0) as [Hs|Hs].
  - unfold pipe_read. rewrite Hg, Hf, (proj2 (Z.eqb_neq _ _) Hro), Hs. cbn [Z.eqb negb orb].
    destruct (has_flag (pi_flags (pipe_at k i)) PIPE_FLAG_NONBLOCK); [by apply Hself|].
    destruct (Z.eqb_spec (pi_writer_open (pipe_at k i)) 0); [by apply Hself|]. exfalso.
    destruct Hr as [?|[?|[?|[?|?]]]]; done.
  - assert (Hro1 : pi_reader_open (pipe_at k i) = 1) by (destruct (pipe_ok_reader _ Hp); done).
    rewrite (pipe_read_state call_handler n fuel fd count k i Hk Hg Hc Hro1 Hf Hs).
    pose proof (pipe_get_by_fd_Some _ _ _ Hg) as [Hi _]. pose proof (pipe_ok_size _ Hp) as Hsz.
    set (m := Z.min count (pi_data_size (pipe_at k i))).
    destruct (consumed_spec i m k Hk Hi ltac:(unfold m; lia)) as (Hk' & _ & _ & Hpr).
    eexists _, _, _. split_and!; [reflexivity|exact Hk'| |unfold m; lia|].
    + split; [exact (wake_peer_heap _ (upd_pipe i _ k))|]. intros j. by rewrite Hpr, peer_woken_stack.
    + rewrite length_take, length_contents. unfold m. lia.
Qed.

Lemma pipe_write_ready n fuel fd buf k :
  kernel_wf k -> write_ready fd (Z.of_nat (length buf)) k -> Z.of_nat (length buf) < 2 ^ 31 ->
  exists r k', pipe_write call_handler (S (S n)) fuel fd buf k = Some (r, k') /\ kernel_wf k' /\ memory_kept k k'.
Proof.
  intros Hk Hr Hc. unfold write_ready in Hr. destruct (pipe_get_by_fd fd k) as [i|] eqn:Hg.
  2: { unfold pipe_write. rewrite Hg. by eexists _, _. }
  pose proof (pipes_ok_each _ _ (wf_pipes k Hk) i) as Hp. fold (pipe_at k i) in Hp.
  destruct (Z.eqb_spec (pi_writer_open (pipe_at k i)) 0) as [Hwo|Hwo].
  { unfold pipe_write. rewrite Hg, Hwo. by eexists _, _. }
  destruct (has_flag fd PIPE_FLAG_WRITABLE) eqn:Hf; cycle 1.
  { unfold pipe_write. rewrite Hg, Hf, orb_true_r. by eexists _, _. }
  destruct (Z.eqb_spec (pi_reader_open (pipe_at k i)) 0) as [Hro|Hro].
  { unfold pipe_write. rewrite Hg, Hf, (proj2 (Z.eqb_neq _ _) Hwo), Hro. by eexists _, _. }
  assert (Hcan : can_write fd i k).
  { split_and!; [done| | |done]; [by destruct (pipe_ok_reader _ Hp)|by destruct (pipe_ok_writer _ Hp)]. }
  rewrite (pipe_write_state call_handler n fuel fd buf k i Hk Hcan Hc).
  2: { unfold room. destruct Hr as [?|[?|[?|[?|?]]]]; [left; lia|by right|done..]. }
  split_if; [by eexists _, _|]. pose proof (pipe_get_by_fd_Some _ _ _ Hg) as [Hi _].
  pose proof (pipe_ok_size _ Hp) as Hsz.
  destruct (written_spec i (take (Z.to_nat (room i buf k)) buf) k Hk Hi) as (Hk' & _ & _ & Hpr).
  { rewrite length_take. unfold room. lia. }
  eexists _, _. split; [reflexivity|]. split; [exact Hk'|]. split; [exact (wake_peer_heap _ (upd_pipe i _ k))|].
  intros j. by rewrite Hpr, peer_woken_stack.
Qed.
End Buffers.

(** ** The calls that copy through a buffer *)

Section Copying_calls.
Context `{!Allocator H}.
Variable call_handler : Z -> Z -> kernel H -> option (kernel H).
Variable wait_key : keyboard_state -> keyboard_state.
Variable pg : paging.
Variable fuel turns : nat.
Implicit Types (k : kernel H) (um : mem).
Hypothesis two_turns : (2 <= turns)%nat.

Lemma buffer_case n k :
  kernel_wf k -> 0 <= n <= 2 ^ 64 - 8 ->
  exists p h, alloc n (k_heap k) = Some (p, h) /\ kernel_wf (set_k_heap h k) /\
    (p = 0 \/ p <> 0 /\ buffer_at p n (set_k_heap h k)).
Proof using Type.
  clear two_turns. intros Hk Hn. destruct (alloc_spec n (k_heap k) (wf_heap k Hk)) as (p & h & Ha & Hw & Hc); [unfold in_u; lia|].
  exists p, h. split; [done|]. destruct Hc as [[-> ->]|(Hp & _)].
  - split; [|by left]. apply wf_set_heap; [done..|]. apply (wf_stack k Hk).
  - destruct (take_buffer n k p h Hk Hn Ha Hp) as [Hb _]. split; [apply Hb|by right].
Qed.

Lemma release_returns r p n k :
  buffer_at p n k -> exists h : H, (k ← release_buffer p k; Some (r, k) : option (Z * kernel H)) = Some (r, set_k_heap h k) /\
    kernel_wf (set_k_heap h k).
Proof using Type. intros Hb. destruct (release_buffer_spec p n k Hb) as (h & -> & Hk & _). by exists h. Qed.

Lemma sys_read_ready fd buf count k um kb :
  kernel_wf k -> in_u 64 buf -> 0 <= count -> short turns count -> read_ready fd k ->
  exists r k' um', sys_read call_handler wait_key pg fuel turns fd buf count k um kb = Some (r, k', um', kb) /\
    kernel_wf k' /\ user_safe pg um um'.
Proof.
  intros Hk Hb H0 Hs Hr. unfold sys_read. pose proof Hr as Hr'. unfold read_ready in Hr'.
  destruct (pipe_get_by_fd fd k) as [i|] eqn:Hg; cycle 1.
  { rewrite (proj2 (Z.eqb_neq _ _) Hr'). by eexists _, _, _. }
  destruct (validate_short_total pg turns two_turns buf count PAGE_WRITABLE Hb H0 Hs) as (v & ->).
  cbn [mbind option_bind]. split_if; [by eexists _, _, _|].
  destruct (buffer_case count k Hk) as (p & h & -> & Hk0 & Hc); [destruct Hs; lia|]. cbn [mbind option_bind].
  destruct Hc as [->|[Hp Hbuf]]; [by eexists _, _, _|]. rewrite (proj2 (Z.eqb_neq _ _) Hp).
  set (k0 := set_k_heap h k) in *.
  destruct (pipe_read_ready call_handler turns fuel fd count k0 Hk0 Hr H0)
    as (r & bs & k1 & -> & Hk1 & [Hh1 Hst1] & Hrc & Hbc). cbn [mbind option_bind].
  pose proof (buffer_kept p count k0 k1 Hbuf Hk1 Hh1 Hst1) as Hbuf1.
  destruct (store_buffer_spec bs p p count k1 Hbuf1) as [Hbuf2 _]; [lia..|].
  set (k2 := store_buffer bs p k1) in *.
  assert (Hcopy : exists ok um', (if 0 <? r then copy_to_user pg turns buf (buffer_bytes r p k2) um else Some (1, um))
                    = Some (ok, um') /\ user_safe pg um um').
  { destruct (Z.ltb_spec 0 r); [|by eexists _, _]. apply copy_to_user_short; [done..|].
    unfold buffer_bytes. rewrite length_read_block. apply (short_le turns two_turns count); [done|lia]. }
  destruct Hcopy as (ok & um' & -> & Hu). cbn [mbind option_bind].
  destruct (release_buffer_spec p count k2 Hbuf2) as (h' & -> & Hk3 & _). cbn [mbind option_bind].
  split_if; by eexists _, _, _.
Qed.

Lemma sys_write_ready fd buf count k um :
  kernel_wf k -> in_u 64 buf -> 0 <= count -> short turns count -> write_ready fd count k ->
  exists r k', sys_write call_handler pg fuel turns fd buf count k um = Some (r, k') /\ kernel_wf k'.
Proof.
  intros Hk Hb H0 Hs Hr. unfold sys_write.
  destruct (validate_short_total pg turns two_turns buf count 0 Hb H0 Hs) as (v & Hv).
  destruct (pipe_get_by_fd fd k) as [i|] eqn:Hg.
  - rewrite Hv. cbn [mbind option_bind]. split_if; [by eexists _, _|].
    destruct (buffer_case count k Hk) as (p & h & -> & Hk0 & Hc); [destruct Hs; lia|]. cbn [mbind option_bind].
    destruct Hc as [->|[Hp Hbuf]]; [by eexists _, _|]. rewrite (proj2 (Z.eqb_neq _ _) Hp).
    set (k0 := set_k_heap h k) in *.
    destruct (copy_from_user_short pg turns two_turns buf count um Hb H0 Hs) as [-> | ->]; cbn [mbind option_bind Z.eqb].
    { destruct (release_returns ERR p count k0 Hbuf) as (h' & -> & ?). by eexists _, _. }
    destruct (store_buffer_spec (read_bytes (Z.to_nat count) um buf) p p count k0 Hbuf) as [Hbuf1 _];
      [lia|rewrite length_read_bytes; lia|].
    set (k1 := store_buffer _ p k0) in *. destruct turns as [|[|n]]; [lia..|].
    destruct (pipe_write_ready call_handler n fuel fd (buffer_bytes count p k1) k1)
      as (r & k2 & -> & Hk2 & Hh2 & Hst2).
    { apply Hbuf1. }
    { unfold buffer_bytes. by rewrite length_read_block, Z2Nat.id. }
    { unfold buffer_bytes. rewrite length_read_block, Z2Nat.id by done. apply Hs. }
    cbn [mbind option_bind]. pose proof (buffer_kept p count k1 k2 Hbuf1 Hk2 Hh2 Hst2) as Hbuf2.
    destruct (release_returns (u64 r) p count k2 Hbuf2) as (h' & -> & ?). by eexists _, _.
  - split_if; [|by eexists _, _]. rewrite Hv. cbn [mbind option_bind]. split_if; [by eexists _, _|].
    assert (Hu : u64 (count + 1) = count + 1) by (apply wrap_small; unfold in_u; destruct Hs; lia). rewrite Hu.
    destruct (buffer_case (count + 1) k Hk) as (p & h & -> & Hk0 & Hc); [destruct Hs; lia|]. cbn [mbind option_bind].
    destruct Hc as [->|[Hp Hbuf]]; [by eexists _, _|]. rewrite (proj2 (Z.eqb_neq _ _) Hp).
    set (k0 := set_k_heap h k) in *.
    destruct (copy_from_user_short pg turns two_turns buf count um Hb H0 Hs) as [-> | ->]; cbn [mbind option_bind Z.eqb].
    { destruct (release_returns ERR p (count + 1) k0 Hbuf) as (h' & -> & ?). by eexists _, _. }
    destruct (store_buffer_spec (read_bytes (Z.to_nat count) um buf) p p (count + 1) k0 Hbuf) as [Hbuf1 _];
      [lia|rewrite length_read_bytes; lia|].
    destruct (store_buffer_spec [0] (p + count) p (count + 1) _ Hbuf1) as [Hbuf2 _]; [lia|simpl; lia|].
    set (k2 := store_buffer [0] (p + count) _) in *.
    pose proof (buffer_kept p (count + 1) k2 (kprint_bytes (buffer_bytes (count + 1) p k2) k2) Hbuf2
      (wf_kprint_bytes _ _ (proj1 Hbuf2)) eq_refl (fun _ => eq_refl)) as Hbuf3.
    destruct (release_returns count p (count + 1) _ Hbuf3) as (h' & -> & ?). by eexists _, _.
Qed.

Lemma user_strlen_range n um a len : user_strlen n um a = Some len -> 0 <= len.
Proof using Type.
  clear two_turns. revert a len; induction n as [|n IH]; intros a len; cbn [user_strlen];
    (destruct (load8 um a =? 0); [by intros [= <-]|]); [done|].
  intros Hl. simp_bind. pose proof (wrap_range 64 (x + 1) ltac:(lia)) as Hw. unfold in_u in Hw. lia.
Qed.

Lemma sys_path_ready fs_op pathname k um len :
  kernel_wf k -> in_u 64 pathname -> user_strlen turns um pathname = Some len -> short turns (len + 1) ->
  exists r k', sys_path pg turns fs_op pathname k um = Some (r, k') /\ kernel_wf k'.
Proof.
  intros Hk Hb Hlen Hs. pose proof (user_strlen_range _ _ _ _ Hlen) as H0. unfold sys_path. rewrite Hlen.
  cbn [mbind option_bind]. assert (Hu : u64 (len + 1) = len + 1) by (apply wrap_small; unfold in_u; destruct Hs; lia).
  rewrite Hu. destruct (validate_short_total pg turns two_turns pathname (len + 1) 0 Hb) as (v & ->); [lia|done|].
  cbn [mbind option_bind]. split_if; [by eexists _, _|].
  destruct (buffer_case (len + 1) k Hk) as (p & h & -> & Hk0 & Hc); [destruct Hs; lia|]. cbn [mbind option_bind].
  destruct Hc as [->|[Hp Hbuf]]; [by eexists _, _|]. rewrite (proj2 (Z.eqb_neq _ _) Hp).
  set (k0 := set_k_heap h k) in *.
  destruct (copy_from_user_short pg turns two_turns pathname (len + 1) um Hb) as [-> | ->];
    [lia|done|..]; cbn [mbind option_bind Z.eqb].
  { destruct (release_returns ERR p (len + 1) k0 Hbuf) as (h' & -> & ?). by eexists _, _. }
  destruct (store_buffer_spec (read_bytes (Z.to_nat (len + 1)) um pathname) p p (len + 1) k0 Hbuf) as [Hbuf1 _];
    [lia|rewrite length_read_bytes; lia|].
  destruct (release_returns (u64 (fs_op (buffer_bytes (len + 1) p (store_buffer (read_bytes (Z.to_nat (len + 1)) um pathname) p k0))))
    p (len + 1) _ Hbuf1) as (h' & -> & ?). by eexists _, _.
Qed.
End Copying_calls.

(** ** A transfer through a pipe *)

Lemma Forall_read_bytes n (m : mem) a : Forall (in_u 8) (read_bytes n m a).
Proof. revert a; induction n as [|n IH]; intros a; constructor; [apply load8_range|apply IH]. Qed.

(** A checked range of at most a pipe's size. *)
Lemma validate_buffer (pg : paging) turns ptr size acc :
  USER_BASE <= ptr -> ptr + size < USER_STACK_TOP -> 0 < size <= PIPE_BUFFER_SIZE -> (3 <= turns)%nat ->
  (forall a, ptr <= a < ptr + size -> user_accessible pg acc a = true) ->
  usermode_validate_pointer turns ptr size acc pg = Some 1.
Proof.
  intros H1 H2 Hs Ht Hacc.
  destruct (validate_pointer_spec turns ptr size acc pg) as [[-> _]|[_ (a & Ha & Hf)]]; try done; try lia.
  - unfold USER_STACK_TOP in *. lia.
  - assert (size / PAGE_SIZE <= 1); [|lia]. unfold PIPE_BUFFER_SIZE, PAGE_SIZE in *. Z.div_mod_to_equations. lia.
  - rewrite Hacc in Hf by done. discriminate Hf.
Qed.

Section Halves.
Context `{!Allocator H}.
Variable call_handler : Z -> Z -> kernel H -> option (kernel H).
Variable wait_key : keyboard_state -> keyboard_state.
Variable pg : paging.
Variable fuel turns : nat.
Implicit Types (k : kernel H) (um : mem).

(** The same pointers are in use. *)
Definition same_live k k' : Prop := forall q, alloc_live (k_heap k') q <-> alloc_live (k_heap k) q.

Lemma buffer_bytes_stored bs p k :
  Forall (in_u 8) bs -> buffer_bytes (Z.of_nat (length bs)) p (store_buffer bs p k) = bs.
Proof. intros Hb. unfold buffer_bytes. rewrite Nat2Z.id. by apply read_block_poke. Qed.

(** Taken, filled, used for an operation on a pipe, given back. *)
Lemma buffer_cycle n k p h bs k' :
  kernel_wf k -> 0 <= n <= 2 ^ 64 - 8 -> alloc n (k_heap k) = Some (p, h) -> p <> 0 ->
  Z.of_nat (length bs) <= n ->
  let k0 := set_k_heap h k in
  kernel_wf k' -> memory_kept (store_buffer bs p k0) k' ->
  exists k1, release_buffer p k' = Some k1 /\ kernel_wf k1 /\ pipes k1 = pipes k' /\ same_live k k1.
Proof.
  intros Hk Hn Ha Hp Hl k0 Hk' [Hh Hst]. destruct (take_buffer n k p h Hk Hn Ha Hp) as (Hb & Hnew & Hlive).
  destruct (store_buffer_spec bs p p n k0 Hb) as [Hb1 Hl1]; [lia..|].
  pose proof (buffer_kept p n _ k' Hb1 Hk' Hh Hst) as Hb2.
  destruct (release_buffer_spec p n k' Hb2) as (h' & -> & Hk1 & Hl2). eexists. split; [reflexivity|].
  split; [done|]. split; [done|]. intros q. cbn [k_heap set_k_heap]. rewrite Hl2, Hh, Hl1.
  unfold k0. cbn [k_heap set_k_heap]. rewrite Hlive. split; [tauto|]. intros Hq. split; [tauto|congruence].
Qed.

Lemma sys_write_pipe wfd src n k um i p h :
  kernel_wf k -> can_write wfd i k -> 0 < Z.of_nat n <= PIPE_BUFFER_SIZE - pi_data_size (pipe_at k i) ->
  (3 <= turns)%nat -> USER_BASE <= src -> src + Z.of_nat n < USER_STACK_TOP ->
  (forall a, src <= a < src + Z.of_nat n -> user_accessible pg 0 a = true) ->
  alloc (Z.of_nat n) (k_heap k) = Some (p, h) -> p <> 0 ->
  exists k1, sys_write call_handler pg fuel turns wfd src (Z.of_nat n) k um = Some (Z.of_nat n, k1) /\
    kernel_wf k1 /\ pipe_at k1 i = enqueue (read_bytes n um src) (pipe_at k i) /\ same_live k k1.
Proof.
  intros Hk Hcan Hn Ht Hs1 Hs2 Hs3 Ha Hp0. set (bs := read_bytes n um src).
  assert (Hbs : length bs = n) by apply length_read_bytes.
  pose proof (pipe_ok_size _ (pipes_ok_each _ _ (wf_pipes k Hk) i)) as Hsz. fold (pipe_at k i) in Hsz.
  assert (Hnu : 0 <= Z.of_nat n <= 2 ^ 64 - 8) by (unfold PIPE_BUFFER_SIZE in *; lia).
  destruct turns as [|[|turns']] eqn:Eturns; [lia..|]. rewrite <- Eturns in *.
  destruct (take_buffer (Z.of_nat n) k p h Hk Hnu Ha Hp0) as (Hb0 & _).
  destruct (store_buffer_spec bs p p (Z.of_nat n) _ Hb0) as [Hb1 _]; [lia..|].
  set (k0 := store_buffer bs p (set_k_heap h k)) in *. pose proof (proj1 Hb1) as Hk0.
  pose proof Hcan as (Hg & _). pose proof (pipe_get_by_fd_Some _ _ _ Hg) as [Hi _].
  assert (Hroom : room i bs k0 = Z.of_nat n).
  { unfold room. change (pipe_at k0 i) with (pipe_at k i). rewrite Hbs. lia. }
  assert (Hw : pipe_write call_handler turns fuel wfd bs k0 = Some (Z.of_nat n, written i bs k0)).
  { rewrite Eturns, (pipe_write_state call_handler turns' fuel wfd bs k0 i Hk0 Hcan); rewrite ?Hroom, ?Hbs.
    - rewrite (proj2 (Z.eqb_neq _ 0)), Nat2Z.id by lia. by rewrite <- Hbs, firstn_all.
    - unfold PIPE_BUFFER_SIZE in *. lia.
    - by left. }
  destruct (written_spec i bs k0 Hk0 Hi) as (Hk1 & Hat & _ & Hproc).
  { change (pipe_at k0 i) with (pipe_at k i). rewrite Hbs. lia. }
  destruct (buffer_cycle (Z.of_nat n) k p h bs (written i bs k0) Hk Hnu Ha Hp0) as (k1 & Hrel & Hk2 & Hpipes & Hlive).
  { lia. } { done. }
  { split; [exact (wake_peer_heap _ (upd_pipe i _ k0))|]. intros j. by rewrite Hproc, peer_woken_stack. }
  assert (Hv : usermode_validate_pointer turns src (Z.of_nat n) 0 pg = Some 1)
    by (apply validate_buffer; unfold PIPE_BUFFER_SIZE in *; (done || lia)).
  assert (Hread : buffer_bytes (Z.of_nat n) p k0 = bs)
    by (rewrite <- Hbs at 1; apply buffer_bytes_stored, Forall_read_bytes).
  exists k1. split; [|split; [done|]].
  - unfold sys_write, validate, copy_from_user, usermode_copy_from_user. rewrite Hg, Hv, Ha. cbn [mbind option_bind Z.eqb].
    rewrite (proj2 (Z.eqb_neq p 0) Hp0), Nat2Z.id. cbn [Z.eqb]. fold bs. fold k0. rewrite Hread, Hw. cbn [mbind option_bind].
    rewrite Hrel. cbn [mbind option_bind]. rewrite wrap_small by (unfold in_u; lia). done.
  - split; [|done]. unfold pipe_at. rewrite Hpipes. exact Hat.
Qed.

Lemma sys_read_pipe rfd dst n k um kb i p h :
  kernel_wf k -> pipe_get_by_fd rfd k = Some i -> pi_reader_open (pipe_at k i) = 1 ->
  has_flag rfd PIPE_FLAG_READABLE = true -> 0 < Z.of_nat n <= pi_data_size (pipe_at k i) ->
  Forall (in_u 8) (contents (pipe_at k i)) ->
  (3 <= turns)%nat -> USER_BASE <= dst -> dst + Z.of_nat n < USER_STACK_TOP ->
  (forall a, dst <= a < dst + Z.of_nat n -> user_accessible pg PAGE_WRITABLE a = true) ->
  alloc (Z.of_nat n) (k_heap k) = Some (p, h) -> p <> 0 ->
  exists k1, sys_read call_handler wait_key pg fuel turns rfd dst (Z.of_nat n) k um kb
      = Some (Z.of_nat n, k1, write_bytes (take n (contents (pipe_at k i))) um dst, kb) /\
    kernel_wf k1 /\ pipe_at k1 i = dequeue (Z.of_nat n) (pipe_at k i) /\ same_live k k1.
Proof.
  intros Hk Hg Hro Hf Hn Hbytes Ht Hd1 Hd2 Hd3 Ha Hp0.
  pose proof (pipe_ok_size _ (pipes_ok_each _ _ (wf_pipes k Hk) i)) as Hsz. fold (pipe_at k i) in Hsz.
  assert (Hnu : 0 <= Z.of_nat n <= 2 ^ 64 - 8) by (unfold PIPE_BUFFER_SIZE in *; lia).
  destruct (take_buffer (Z.of_nat n) k p h Hk Hnu Ha Hp0) as (Hb0 & _). pose proof (proj1 Hb0) as Hk0.
  set (k0 := set_k_heap h k) in *. pose proof (pipe_get_by_fd_Some _ _ _ Hg) as [Hi _].
  set (bs := take n (contents (pipe_at k i))) in *.
  assert (Hlen : length bs = n) by (unfold bs; rewrite length_take, length_contents; lia).
  assert (Hr : pipe_read call_handler turns fuel rfd (Z.of_nat n) k0 = Some (Z.of_nat n, bs, consumed i (Z.of_nat n) k0)).
  { rewrite (pipe_read_state call_handler turns fuel rfd (Z.of_nat n) k0 i Hk0 Hg); try done; [|lia|].
    - change (pipe_at k0 i) with (pipe_at k i). by rewrite Z.min_l, Nat2Z.id by lia.
    - change (pipe_at k0 i) with (pipe_at k i). lia. }
  destruct (consumed_spec i (Z.of_nat n) k0 Hk0 Hi) as (Hk1 & Hat & _ & Hproc).
  { change (pipe_at k0 i) with (pipe_at k i). lia. }
  set (k1 := consumed i (Z.of_nat n) k0) in *.
  assert (Hb1 : buffer_at p (Z.of_nat n) k1).
  { apply (buffer_kept p (Z.of_nat n) k0); [done..|exact (wake_peer_heap _ (upd_pipe i _ k0))|].
    intros j. by rewrite Hproc, peer_woken_stack. }
  destruct (store_buffer_spec bs p p (Z.of_nat n) k1 Hb1) as [Hb2 _]; [lia..|].
  destruct (buffer_cycle (Z.of_nat n) k p h bs (store_buffer bs p k1) Hk Hnu Ha Hp0)
    as (k2 & Hrel & Hk2 & Hpipes & Hlive).
  { lia. } { apply Hb2. }
  { split; [|intros j; exact (eq_trans (f_equal p_stack (Hproc j)) (peer_woken_stack _ _))].
    unfold store_buffer. cbn [k_heap set_k_heap]. f_equal. unfold k1, consumed. by rewrite wake_peer_heap. }
  assert (Hv : usermode_validate_pointer turns dst (Z.of_nat n) PAGE_WRITABLE pg = Some 1)
    by (apply validate_buffer; unfold PIPE_BUFFER_SIZE in *; (done || lia)).
  assert (Hread : buffer_bytes (Z.of_nat n) p (store_buffer bs p k1) = bs).
  { rewrite <- Hlen at 1. apply buffer_bytes_stored. unfold bs. by apply Forall_take. }
  exists k2. split; [|split; [done|]].
  - unfold sys_read, validate, copy_to_user, usermode_copy_to_user. rewrite Hg, Hv, Ha. cbn [mbind option_bind Z.eqb].
    rewrite (proj2 (Z.eqb_neq p 0) Hp0). fold k0. rewrite Hr. cbn [mbind option_bind]. fold k1.
    rewrite (proj2 (Z.ltb_lt 0 _)), Hread, Hlen, Hv by lia. cbn [mbind option_bind Z.eqb]. rewrite Hrel.
    cbn [mbind option_bind]. rewrite wrap_small by (unfold in_u; lia). done.
  - split; [|done]. unfold pipe_at. rewrite Hpipes. exact Hat.
Qed.
End Halves.
