(* ===== verification/SyscallSpec.v ===== *)
(** * What the system calls promise

    A call that need not wait returns from a well-formed state to a well-formed
    state, and writes no byte of user memory the program could not write itself;
    what [fork] gives the child; bytes that travel between two programs; which
    process [kill] reaches. *)
From S2P Require Import Prelude CString Terminal RawMemory Allocator Heap.
From S2P Require Import Kernel Process Invariant Scheduler Lifecycle Signals SchedulerSpec Idt.
From S2P Require Import Timer Pipe Keyboard Paging PagingSpec Usermode Syscall SyscallBuffers.


Lemma get_current_pid `{!Allocator H} (k : kernel H) c :
  get_current_process k = Some c -> p_pid (proc k c) <> 0.
Proof.
  unfold get_current_process.
  destruct (Z.eqb_spec (p_pid (proc k (current_process_index k))) 0); [done|]. by intros [= <-].
Qed.

Lemma le_value_read_bytes n (m : mem) a : le_value (read_bytes n m a) = load_le n m a.
Proof. revert a; induction n as [|n IH]; intros a; [done|]. cbn [read_bytes le_value load_le]. by rewrite IH. Qed.

Section Calls.
Context `{!Allocator H}.
Variable call_handler : Z -> Z -> kernel H -> option (kernel H).
Variable wait_timer : kernel H -> option (kernel H).
Variable wait_key : keyboard_state -> keyboard_state.
Variable fs_mkdir fs_unlink : list Z -> Z.
Variable stack_action : signal_action.
Variable stack_mask stack_padding : Z.
Variable pg : paging.
Variable fuel turns : nat.
Implicit Types (k : kernel H) (um : mem).
Hypothesis handlers_return : forall h s k, kernel_wf k ->
  exists k', call_handler h s k = Some k' /\ kernel_wf k'.
Hypothesis enough_fuel : (sched_fuel MAX_PROCESSES + 1 < fuel)%nat.
Hypothesis two_turns : (2 <= turns)%nat.

Lemma runnables_le k : kernel_wf k -> (runnables k <= MAX_PROCESSES)%nat.
Proof using Type. intros Hk. rewrite <- (wf_len k Hk). apply length_filter. Qed.

Lemma fuel_enough k : kernel_wf k -> (sched_fuel (runnables k) + 1 < fuel)%nat.
Proof using enough_fuel. clear two_turns. intros Hk. pose proof (runnables_le k Hk). unfold sched_fuel in *. lia. Qed.

(** ** The kernel operations the calls use *)

Lemma schedule_ok k : kernel_wf k -> exists k', schedule call_handler fuel k = Some k' /\ kernel_wf k'.
Proof.
  intros Hk. pose proof (fuel_enough k Hk).
  apply (schedule_total call_handler handlers_return (runnables k)); [lia|done..].
Qed.

Lemma send_ok p s k :
  kernel_wf k -> exists r k', signal_send call_handler fuel p s k = Some (r, k') /\ kernel_wf k'.
Proof. intros Hk. apply (signal_send_ok call_handler handlers_return); [by apply fuel_enough|done]. Qed.

Lemma wf_block pid k : kernel_wf k -> kernel_wf (block_process pid k).
Proof using Type. intros Hk. unfold block_process. case_match; [by apply wf_set_p_state|done]. Qed.

Lemma block_schedule_ok pid k :
  kernel_wf k -> exists k', schedule call_handler fuel (block_process pid k) = Some k' /\ kernel_wf k'.
Proof. intros Hk. by apply schedule_ok, wf_block. Qed.

Lemma group_loop_ok n i pgid s sent k :
  kernel_wf k -> exists r k', send_group_loop call_handler fuel n i pgid s sent k = Some (r, k') /\ kernel_wf k'.
Proof.
  revert i sent k; induction n as [|n IH]; intros i sent k Hk; cbn [send_group_loop]; [by eauto|].
  split_if; [|by apply IH].
  destruct (send_ok (Some i) s k Hk) as (r & k' & -> & Hk'). by apply IH.
Qed.

Lemma kill_all_ok n i s sent k :
  kernel_wf k -> exists r k', kill_all_loop call_handler fuel n i s sent k = Some (r, k') /\ kernel_wf k'.
Proof.
  revert i sent k; induction n as [|n IH]; intros i sent k Hk; cbn [kill_all_loop]; [by eauto|].
  destruct (get_process i k) as [j|]; [|by apply IH]. split_if; [|by apply IH].
  destruct (send_ok (Some j) s k Hk) as (r & k' & -> & Hk'). by apply IH.
Qed.

Lemma wf_set_process_group pid pgid k : kernel_wf k -> kernel_wf (set_process_group pid pgid k).2.
Proof using Type.
  intros Hk. unfold set_process_group. case_match; [|done]. apply wf_upd_proc; [done..|]. intros []; by split.
Qed.

Lemma wf_create_session k : kernel_wf k -> kernel_wf (create_session k).2.
Proof using Type.
  intros Hk. unfold create_session. case_match; [|done]. split_if; [done|]. cbn [snd].
  apply wf_upd_proc; [|done..|]; [apply wf_upd_proc; [done..|]|]; intros []; by split.
Qed.

Lemma wf_fork_child parent child k :
  kernel_wf k -> proc_ok parent -> kernel_wf (upd_proc child (fork_child parent) k).
Proof using Type.
  intros Hk []. apply wf_upd_proc; [done..|]. intros []; split; assumption.
Qed.

(** ** Each call *)

(** A call on the kernel alone. *)
Definition kernel_ok (x : option (Z * kernel H)) : Prop :=
  exists r k', x = Some (r, k') /\ kernel_wf k'.

(** A call that also writes user memory. *)
Definition memory_ok um (x : option (Z * kernel H * mem)) : Prop :=
  exists r k' um', x = Some (r, k', um') /\ kernel_wf k' /\ user_safe pg um um'.

Lemma kernel_ok_Some r k : kernel_wf k -> kernel_ok (Some (r, k)).
Proof using Type. intros. by exists r, k. Qed.

Lemma memory_ok_Some r k um um' : kernel_wf k -> user_safe pg um um' -> memory_ok um (Some (r, k, um')).
Proof using Type. intros. by exists r, k, um'. Qed.

#[local] Hint Resolve kernel_ok_Some memory_ok_Some : curnel.
#[local] Hint Extern 0 (user_safe _ ?um ?um) => reflexivity : curnel.

Lemma sys_exit_ok status k : kernel_wf k -> fits10 status -> kernel_ok (sys_exit call_handler fuel status k).
Proof.
  intros Hk Hs. unfold sys_exit. destruct (get_current_process k) as [c|]; [|by auto with curnel].
  destruct (exit_process_ok call_handler handlers_return fuel (p_pid (proc k c)) status k) as (k' & -> & Hk').
  { pose proof (fuel_enough k Hk). lia. } { done. } { done. }
  destruct (schedule_ok k' Hk') as (k'' & E & ?). cbn. rewrite E. by apply kernel_ok_Some.
Qed.

Lemma get_current_ok k c : kernel_wf k -> get_current_process k = Some c -> in_u 64 (p_pid (proc k c)).
Proof using Type. clear enough_fuel two_turns.
  intros Hk _. rewrite (wf_pid k Hk). pose proof (slot_pid_range (next_pid k) c (wf_next k Hk)).
  unfold in_u. lia.
Qed.

Lemma sys_fork_ok k : kernel_wf k -> kernel_ok (sys_fork k).
Proof using Type.
  intros Hk. unfold sys_fork. destruct (get_current_process k) as [c|] eqn:Hc; [|by auto with curnel].
  destruct (wf_create_process k (p_name (proc k c)) 0 (p_pid (proc k c)) Hk) as (pid & k' & -> & Hk').
  { by eapply get_current_ok. }
  cbn [mbind option_bind]. destruct (pid =? 0); [by apply kernel_ok_Some|]. case_match; [|by apply kernel_ok_Some].
  apply kernel_ok_Some, wf_fork_child; [done|]. by apply wf_proc.
Qed.

Lemma sys_kill_ok pid s k : kernel_wf k -> kernel_ok (sys_kill call_handler fuel pid s k).
Proof.
  intros Hk. unfold sys_kill, send_signal_to_process_group. split_if; [by auto with curnel|].
  split_if.
  { destruct (get_current_process k) as [c|]; [|by auto with curnel].
    destruct (group_loop_ok MAX_PROCESSES 0 (p_process_group (proc k c)) s 0 k Hk) as (r & k' & -> & ?).
    by apply kernel_ok_Some. }
  split_if.
  { destruct (group_loop_ok MAX_PROCESSES 0 (u64 (- pid)) s 0 k Hk) as (r & k' & -> & ?).
    by apply kernel_ok_Some. }
  split_if.
  { destruct (kill_all_ok MAX_PROCESSES 0 s 0 k Hk) as (r & k' & -> & ?). by apply kernel_ok_Some. }
  destruct (get_process pid k) as [i|]; [|by auto with curnel].
  destruct (send_ok (Some i) s k Hk) as (r & k' & -> & ?). by apply kernel_ok_Some.
Qed.

(** The end of a call that stores [bs] at [dst]. *)
Lemma store_result_ok dst bs r k um :
  kernel_wf k -> in_u 64 dst -> 0 < Z.of_nat (length bs) < PAGE_SIZE ->
  memory_ok um
    ('(ok, um) ← copy_to_user pg turns dst bs um; if ok =? 0 then Some (ERR, k, um) else Some (r, k, um)).
Proof.
  intros Hk Hd Hl. destruct (copy_to_user_total pg turns two_turns dst bs um Hd Hl) as (ok & um' & -> & Hs).
  cbn [mbind option_bind]. split_if; by apply memory_ok_Some.
Qed.

Lemma sys_wait_ok status k um : kernel_wf k -> in_u 64 status -> memory_ok um (sys_wait call_handler pg fuel turns status k um).
Proof.
  intros Hk Hs. unfold sys_wait. destruct (get_current_process k) as [c|]; [|by auto with curnel].
  case_match.
  - split_if; [by auto with curnel|].
    destruct (validate_total pg turns two_turns status 8 PAGE_WRITABLE Hs) as (r & ->); [done|]. cbn [mbind option_bind].
    split_if; [by auto with curnel|]. by apply store_result_ok.
  - destruct (block_schedule_ok (p_pid (proc k c)) k Hk) as (k' & -> & ?). by apply memory_ok_Some.
Qed.

Lemma sys_sigpending_ok p k um : kernel_wf k -> in_u 64 p -> memory_ok um (sys_sigpending pg turns p k um).
Proof.
  intros Hk Hp. unfold sys_sigpending. split_if; [by auto with curnel|].
  destruct (validate_total pg turns two_turns p 8 PAGE_WRITABLE Hp) as (r & ->); [done|]. cbn [mbind option_bind].
  split_if; [by auto with curnel|]. case_match; [|by auto with curnel]. by apply store_result_ok.
Qed.

Lemma sys_sigsuspend_ok p k um :
  kernel_wf k -> in_u 64 p -> memory_ok um (sys_sigsuspend call_handler pg fuel turns p k um).
Proof.
  intros Hk Hp. unfold sys_sigsuspend. split_if; [by auto with curnel|].
  destruct (validate_total pg turns two_turns p 8 0 Hp) as (r & ->); [done|]. cbn [mbind option_bind].
  split_if; [by auto with curnel|]. destruct (get_current_process k) as [c|]; [|by auto with curnel].
  destruct (copy_from_user_total pg turns two_turns p 8 um Hp) as (ok & bs & -> & Hbs); [done|]. cbn [mbind option_bind].
  split_if; [by auto with curnel|]. rewrite Hbs by done. change (Z.to_nat 8) with 8%nat. rewrite le_value_read_bytes.
  set (k1 := upd_proc c (set_p_blocked_signals (Z.land (load64 um p) blockable)) k).
  assert (Hk1 : kernel_wf k1) by (apply wf_set_blocked; [done|]; apply mask_ok_blockable, load64_range).
  destruct (block_schedule_ok (p_pid (proc k1 c)) k1 Hk1) as (k' & -> & Hk').
  apply memory_ok_Some; [|reflexivity]. apply wf_set_blocked; [done|]. by apply mask_ok_process.
Qed.

Lemma length_bytes_of_action pad a : length (bytes_of_action pad a) = 24%nat.
Proof using Type. unfold bytes_of_action. by rewrite !length_app, !length_le_bytes. Qed.

Lemma sys_sigaction_ok s act old k um :
  kernel_wf k -> in_u 64 act -> in_u 64 old ->
  memory_ok um (sys_sigaction stack_action stack_padding pg turns s act old k um).
Proof.
  intros Hk Ha Ho. unfold sys_sigaction. split_if; [by auto with curnel|].
  assert (Hact : exists x, (if act =? 0 then Some (Some None) else
      valid ← validate pg turns act sizeof_signal_action 0;
      if valid =? 0 then Some None else
      '(ok, bs) ← copy_from_user pg turns act sizeof_signal_action um;
      if ok =? 0 then Some None else Some (Some (Some (action_of_bytes bs)))) = Some x).
  { split_if; [by eauto|]. destruct (validate_total pg turns two_turns act sizeof_signal_action 0 Ha) as (r & ->); [done|].
    cbn [mbind option_bind]. split_if; [by eauto|].
    destruct (copy_from_user_total pg turns two_turns act sizeof_signal_action um Ha) as (ok & bs & -> & _); [done|].
    cbn [mbind option_bind]. split_if; by eauto. }
  destruct Hact as [x ->]. cbn [mbind option_bind]. destruct x as [x|]; [|by auto with curnel].
  pose proof (wf_signal_set_action s x (negb (old =? 0)) k Hk) as Hk'.
  destruct (signal_set_action s x _ k) as [[r o] k']. cbn [snd] in Hk'. split_if; [by auto with curnel|].
  destruct (validate_total pg turns two_turns old sizeof_signal_action PAGE_WRITABLE Ho) as (r' & ->); [done|].
  cbn [mbind option_bind]. split_if; [by auto with curnel|].
  apply store_result_ok; [done..|]. by rewrite length_bytes_of_action.
Qed.

Lemma sys_sigprocmask_ok how set_ptr old k um :
  kernel_wf k -> in_u 64 set_ptr -> in_u 64 old ->
  memory_ok um (sys_sigprocmask stack_mask pg turns how set_ptr old k um).
Proof.
  intros Hk Ha Ho. unfold sys_sigprocmask.
  assert (Hset : exists x, (if set_ptr =? 0 then Some (Some None) else
      valid ← validate pg turns set_ptr 8 0;
      if valid =? 0 then Some None else
      '(ok, bs) ← copy_from_user pg turns set_ptr 8 um;
      if ok =? 0 then Some None else Some (Some (Some (le_value bs)))) = Some x /\
      forall y m, x = Some y -> y = Some m -> in_u 64 m).
  { split_if; [by eexists; split; [done|]; naive_solver|].
    destruct (validate_total pg turns two_turns set_ptr 8 0 Ha) as (r & ->); [done|].
    cbn [mbind option_bind]. split_if; [by eexists; split; [done|]; naive_solver|].
    destruct (copy_from_user_total pg turns two_turns set_ptr 8 um Ha) as (ok & bs & -> & Hbs); [done|].
    cbn [mbind option_bind]. split_if; [by eexists; split; [done|]; naive_solver|].
    eexists; split; [reflexivity|]. intros y m [= <-] [= <-]. rewrite Hbs by done.
    change (Z.to_nat 8) with 8%nat. rewrite le_value_read_bytes. apply load64_range. }
  destruct Hset as (x & -> & Hx). cbn [mbind option_bind]. destruct x as [x|]; [|by auto with curnel].
  pose proof (wf_signal_proc_mask (s32 how) x (negb (old =? 0)) k Hk (fun m => Hx x m eq_refl)) as Hk'.
  destruct (signal_proc_mask (s32 how) x _ k) as [[r o] k']. cbn [snd] in Hk'. split_if; [by auto with curnel|].
  destruct (validate_total pg turns two_turns old 8 PAGE_WRITABLE Ho) as (r' & ->); [done|].
  cbn [mbind option_bind]. split_if; [by auto with curnel|]. by apply store_result_ok.
Qed.

Lemma wf_sys_close fd k : kernel_wf k -> kernel_wf (sys_close fd k).2.
Proof using Type.
  intros Hk. unfold sys_close. case_match; [|done]. pose proof (wf_pipe_close fd k Hk) as Hc.
  by destruct (pipe_close fd k).
Qed.

Lemma sys_pipe_ok fds k um :
  kernel_wf k -> next_pipe_id k < 2 ^ 61 -> in_u 64 fds -> memory_ok um (sys_pipe pg turns fds k um).
Proof.
  intros Hk Hn Hf. unfold sys_pipe.
  destruct (validate_total pg turns two_turns fds 16 PAGE_WRITABLE Hf) as (r & ->); [done|]. cbn [mbind option_bind].
  split_if; [by auto with curnel|]. pose proof (wf_pipe_create k Hk Hn) as Hk'.
  destruct (pipe_create k) as [[r' new_fds] k']. cbn [snd] in Hk'.
  destruct new_fds as [[rfd wfd]|]; [|by auto with curnel].
  destruct (copy_to_user_total pg turns two_turns fds (le_bytes 8 rfd) um Hf) as (ok & um1 & -> & H1); [done|].
  cbn [mbind option_bind].
  assert (Hclose : forall um', user_safe pg um um' -> memory_ok um
    (let '(_, k0) := pipe_close rfd k' in let '(_, k1) := pipe_close wfd k0 in Some (ERR, k1, um'))).
  { intros um' Hu. pose proof (wf_pipe_close rfd k' Hk') as H2. destruct (pipe_close rfd k') as [? k2]. cbn in H2.
    pose proof (wf_pipe_close wfd k2 H2) as H3. destruct (pipe_close wfd k2) as [? k3]. by apply memory_ok_Some. }
  split_if; [by apply Hclose|].
  destruct (copy_to_user_total pg turns two_turns (u64 (fds + 8)) (le_bytes 8 wfd) um1)
    as (ok2 & um2 & -> & H2); [apply wrap_range; lia|done|]. cbn [mbind option_bind].
  split_if; [apply Hclose|apply memory_ok_Some; [done|]]; by transitivity um1.
Qed.
End Calls.

(** ** Properties *)

(** The entry of the table that the number in [rax] selects. *)
Definition selected (number : Z) : option syscall :=
  if 64 <=? number then None else default None (syscall_table !! Z.to_nat number).

(** The call has nothing to wait for and its arguments are in range.  [sleep]
    waits for the timer; a read or write of a pipe waits when the pipe is empty or
    too full, a read of the keyboard for a key; a transfer is short enough for the
    loop over its pages, a path ends within [turns] bytes.  The exit status has at
    most nine characters in decimal, as [exit_process] prints it through a buffer
    of ten bytes. *)
Definition at_once `{!Allocator H} (turns : nat) (func : syscall) (a1 a2 a3 : Z) (s : machine (H := H)) : Prop :=
  match func with
  | Sys_sleep => False
  | Sys_exit => fits10 a1
  | Sys_read => read_ready a1 (m_kernel s) /\ short turns a3
  | Sys_write => write_ready a1 a3 (m_kernel s) /\ short turns a3
  | Sys_mkdir | Sys_rmdir => exists len, user_strlen turns (m_user s) a1 = Some len /\ short turns (len + 1)
  | _ => True
  end.

Section Dispatch.
Context `{!Allocator H}.
Variable call_handler : Z -> Z -> kernel H -> option (kernel H).
Variable wait_timer : kernel H -> option (kernel H).
Variable wait_key : keyboard_state -> keyboard_state.
Variable fs_mkdir fs_unlink : list Z -> Z.
Variable stack_action : signal_action.
Variable stack_mask stack_padding : Z.
Variable pg : paging.
Variable fuel turns : nat.
Hypothesis handlers_return : forall h s k, kernel_wf k ->
  exists k', call_handler h s k = Some k' /\ kernel_wf k'.
Hypothesis enough_fuel : (sched_fuel MAX_PROCESSES + 1 < fuel)%nat.
Hypothesis two_turns : (2 <= turns)%nat.

Lemma do_syscall_ok func a1 a2 a3 (s : machine) :
  kernel_wf (m_kernel s) -> next_pipe_id (m_kernel s) < 2 ^ 61 ->
  in_u 64 a1 -> in_u 64 a2 -> in_u 64 a3 -> at_once turns func a1 a2 a3 s ->
  exists r s', do_syscall call_handler wait_timer wait_key fs_mkdir fs_unlink stack_action stack_mask
      stack_padding pg fuel turns func a1 a2 a3 s = Some (r, s') /\
    kernel_wf (m_kernel s') /\ user_safe pg (m_user s) (m_user s') /\ m_keyboard s' = m_keyboard s.
Proof.
  intros Hk Hn H1 H2 H3 Hw. destruct s as [k um kb]. cbn [m_kernel m_user m_keyboard at_once] in *.
  assert (Hpure : forall r : Z, exists r' s', Some (r, Machine k um kb) = Some (r', s') /\
    kernel_wf (m_kernel s') /\ user_safe pg um (m_user s') /\ m_keyboard s' = kb) by
    (intros r; eexists _, _; split_and!; [reflexivity|exact Hk|reflexivity|reflexivity]).
  assert (Hkern : forall x : Z * kernel H, kernel_wf x.2 ->
    exists r' s', Some (x.1, Machine x.2 um kb) = Some (r', s') /\
    kernel_wf (m_kernel s') /\ user_safe pg um (m_user s') /\ m_keyboard s' = kb) by
    (intros x Hwf; eexists _, _; split_and!; [reflexivity|exact Hwf|reflexivity|reflexivity]).
  assert (Hok : forall x : option (Z * kernel H), kernel_ok x ->
    exists r' s', ('(r, k) ← x; Some (r, Machine k um kb)) = Some (r', s') /\
    kernel_wf (m_kernel s') /\ user_safe pg um (m_user s') /\ m_keyboard s' = kb) by
    (intros x (r & k' & -> & Hwf); eexists _, _; split_and!; [reflexivity|exact Hwf|reflexivity|reflexivity]).
  assert (Hom : forall x : option (Z * kernel H * mem), memory_ok pg um x ->
    exists r' s', ('(r, k, um) ← x; Some (r, Machine k um kb)) = Some (r', s') /\
    kernel_wf (m_kernel s') /\ user_safe pg um (m_user s') /\ m_keyboard s' = kb) by
    (intros x (r & k' & um' & -> & Hwf & Hu); eexists _, _; split_and!; [reflexivity|exact Hwf|exact Hu|reflexivity]).
  destruct func; unfold do_syscall; cbn [m_kernel m_user m_keyboard at_once] in *;
    try apply Hpure; try apply Hkern; try apply Hok; try apply Hom.
  - eapply sys_exit_ok; eauto.
  - by apply sys_fork_ok.
  - destruct Hw as [Hr Hs].
    destruct (sys_read_ready call_handler wait_key pg fuel turns two_turns a1 a2 a3 k um kb Hk H2 (proj1 H3) Hs Hr)
      as (r & k' & um' & -> & Hk' & Hu). eexists _, _. split_and!; [reflexivity|exact Hk'|exact Hu|reflexivity].
  - destruct Hw as [Hr Hs].
    exact (sys_write_ready call_handler pg fuel turns two_turns a1 a2 a3 k um Hk H2 (proj1 H3) Hs Hr).
  - by apply wf_sys_close.
  - by destruct Hw.
  - eapply sys_pipe_ok; eassumption.
  - destruct Hw as (len & Hlen & Hs). exact (sys_path_ready pg turns two_turns fs_mkdir a1 k um len Hk H1 Hlen Hs).
  - destruct Hw as (len & Hlen & Hs). exact (sys_path_ready pg turns two_turns fs_unlink a1 k um len Hk H1 Hlen Hs).
  - eapply sys_wait_ok; eassumption.
  - eapply sys_kill_ok; eassumption.
  - unfold sys_signal. split_if; [done|]. pose proof (wf_signal_set_handler a1 a2 k Hk) as Hs.
    by destruct (signal_set_handler a1 a2 k).
  - eapply sys_sigaction_ok; eassumption.
  - eapply sys_sigprocmask_ok; eassumption.
  - eapply sys_sigpending_ok; eassumption.
  - eapply sys_sigsuspend_ok; eassumption.
  - unfold sys_setpgid. split_if.
    + case_match; [|done]. pose proof (wf_set_process_group (p_pid (proc k n)) a2 k Hk) as Hs.
      by destruct (set_process_group _ a2 k).
    + pose proof (wf_set_process_group a1 a2 k Hk) as Hs. by destruct (set_process_group a1 a2 k).
  - unfold sys_setsid. pose proof (wf_create_session k Hk) as Hs. by destruct (create_session k).
Qed.
End Dispatch.


(** [rax] = 4 is [write]: three bytes of the program to the pipe of [kernel6]. *)
Definition write_regs : registers :=
  Registers 4 0 0 3 USER_BASE 10 0 0 0 0 0 0 0 0 0 0 0 0 0 0 0 0 0 0 0.


(** [copy_name] keeps the first 31 characters of a name. *)
Lemma copy_name_string name dst : cstr (copy_name name dst) = take 31 (cstr name).
Proof.
  unfold copy_name. change (take (strlen name) name) with (cstr name). cbv zeta.
  apply cstr_app; [apply Forall_take, cstr_nonzero|by right].
Qed.

(** C33. [fork] fills the next entry of the table with a ready child that has the
    registers of its parent but 0 in [rax], the first 31 characters of its name
    (all of a name, as [create_process] stores it) and its signal state; the
    child has a stack of its own but its stack pointer is the parent's, so that
    it would run on the parent's stack.  With a full table it fails. *)
Theorem sys_fork_spec `{!Allocator H} (k : kernel H) c :
  kernel_wf k -> get_current_process k = Some c ->
  exists r k', sys_fork k = Some (r, k') /\ kernel_wf k' /\
  if next_pid k <=? 64 then
    r = next_pid k /\ exists child stk,
      (forall j, proc k' j = if decide (Z.of_nat j = r - 1) then child else proc k j) /\
      p_pid child = r /\ p_parent_pid child = p_pid (proc k c) /\ p_state child = PROCESS_STATE_READY /\
      cstr (p_name child) = take 31 (cstr (p_name (proc k c))) /\
      p_registers child = set_rax 0 (p_registers (proc k c)) /\
      p_pending_signals child = p_pending_signals (proc k c) /\
      p_blocked_signals child = p_blocked_signals (proc k c) /\
      p_signal_actions child = p_signal_actions (proc k c) /\
      p_stack child = stk /\ (stk <> 0 -> ~ alloc_live (k_heap k) stk) /\
      rsp (p_registers child) = rsp (p_registers (proc k c))
  else r = ERR /\ processes k' = processes k.
Proof.
  intros Hk Hc. pose proof (wf_next k Hk) as Hnext.
  assert (Hpar : in_u 64 (p_pid (proc k c))) by by eapply get_current_ok.
  destruct (sys_fork_ok k Hk) as (r & k' & E & Hk'). exists r, k'. split_and!; [done..|].
  unfold sys_fork in E. rewrite Hc in E. split_if.
  - destruct (create_process_state k (p_name (proc k c)) 0 (p_pid (proc k c)) Hk Hpar)
      as (stk & h & t & Ec & Ht & Hw & Hstk); [done|].
    destruct (wf_create_process k (p_name (proc k c)) 0 (p_pid (proc k c)) Hk Hpar) as (pid & k1 & Ec' & Hk1).
    rewrite Ec in Ec'. injection Ec' as <- Ek1. rewrite Ec, Ek1 in E. cbn [mbind option_bind] in E.
    rewrite (proj2 (Z.eqb_neq _ _)) in E by lia.
    assert (Hp : forall j, proc k1 j = if decide (Z.of_nat j = next_pid k - 1)
      then fresh_process (p_name (proc k c)) 0 (p_pid (proc k c)) (next_pid k) stk (timer_ticks k) (proc k j)
      else proc k j).
    { intros j. rewrite <- Ek1. change (proc (set_k_term t ?x) j) with (proc x j). rewrite proc_upd.
      cbn [processes set_k_heap set_next_pid]. rewrite (wf_len k Hk).
      change (proc (set_k_heap h ?x) j) with (proc k j). unfold MAX_PROCESSES. repeat case_decide; try done; lia. }
    assert (Hpc : proc k1 c = proc k c).
    { rewrite Hp, decide_False; [done|]. apply get_current_pid in Hc. rewrite (wf_pid k Hk) in Hc.
      unfold slot_pid in Hc. destruct (Z.ltb_spec (Z.of_nat c + 1) (next_pid k)); lia. }
    assert (Hi : p_pid (proc k1 (Z.to_nat (next_pid k - 1))) = next_pid k) by (rewrite Hp, decide_True by lia; done).
    pose proof (get_process_pid k1 (Z.to_nat (next_pid k - 1)) Hk1) as Hg. rewrite Hi in Hg.
    rewrite Hg, Hpc in E by lia. injection E as <- <-. split; [done|].
    exists (fork_child (proc k c) (fresh_process (p_name (proc k c)) 0 (p_pid (proc k c)) (next_pid k) stk
      (timer_ticks k) (proc k (Z.to_nat (next_pid k - 1))))), stk. split.
    + intros j. rewrite proc_upd, (wf_len k1 Hk1), Hp. unfold MAX_PROCESSES.
      repeat case_decide; try lia; [|done]. replace j with (Z.to_nat (next_pid k - 1)) by lia. done.
    + split_and!; try reflexivity; [by apply copy_name_string|]. intros Hs. destruct Hstk as [[? _]|(_ & ? & _)]; done.
  - unfold create_process in E. rewrite get_process_free in E by done.
    rewrite (proj2 (Z.leb_gt _ _)) in E by lia. by injection E as <- <-.
Qed.

Lemma sys_fork_spec_witness :
  kernel_wf kernel3 /\ exists r (k' : kernel heap), sys_fork kernel3 = Some (r, k') /\ r = 3.
Proof.
  split; [exact kernel3_wf|].
  destruct (sys_fork_spec kernel3 0 kernel3_wf) as (r & k' & E & _ & Hr); [vm_compute; reflexivity|].
  replace (next_pid kernel3) with 3 in Hr by (vm_compute; reflexivity).
  destruct Hr as [Hr _]. exists r, k'. exact (conj E Hr).
Defined.

(** ** A transfer between two programs *)

(** C13. Bytes travel between two programs, each with its own address space and
    memory ([pgw], [umw] and [pgr], [umr]): [write] of a readable buffer to an
    empty open pipe, then [read] of as many bytes into a writable buffer, leave in
    it the bytes of the first buffer and change no other byte of the reader.  Each
    call gives its kernel buffer back: the pointers in use are those before it.
    The kernel must have memory for the two buffers. *)
Theorem sys_write_read `{!Allocator H} call_handler wait_key pgw pgr fuel turns (k : kernel H) umw umr kb
    i wfd rfd src dst n p h :
  kernel_wf k -> can_write wfd i k -> pipe_get_by_fd rfd k = Some i -> Z.shiftr rfd 3 <> 0 ->
  has_flag rfd PIPE_FLAG_READABLE = true -> pi_data_size (pipe_at k i) = 0 ->
  0 < Z.of_nat n <= PIPE_BUFFER_SIZE -> (3 <= turns)%nat ->
  USER_BASE <= src -> src + Z.of_nat n < USER_STACK_TOP ->
  (forall a, src <= a < src + Z.of_nat n -> user_accessible pgw 0 a = true) ->
  USER_BASE <= dst -> dst + Z.of_nat n < USER_STACK_TOP ->
  (forall a, dst <= a < dst + Z.of_nat n -> user_accessible pgr PAGE_WRITABLE a = true) ->
  alloc (Z.of_nat n) (k_heap k) = Some (p, h) -> p <> 0 ->
  exists k1, sys_write call_handler pgw fuel turns wfd src (Z.of_nat n) k umw = Some (Z.of_nat n, k1) /\
    kernel_wf k1 /\ contents (pipe_at k1 i) = read_bytes n umw src /\ same_live k k1 /\
    forall p' h', alloc (Z.of_nat n) (k_heap k1) = Some (p', h') -> p' <> 0 ->
    exists k2 um', sys_read call_handler wait_key pgr fuel turns rfd dst (Z.of_nat n) k1 umr kb
        = Some (Z.of_nat n, k2, um', kb) /\
      kernel_wf k2 /\ contents (pipe_at k2 i) = [] /\ same_live k k2 /\
      read_bytes n um' dst = read_bytes n umw src /\
      forall a, ~ (dst <= a < dst + Z.of_nat n) -> load8 um' a = load8 umr a.
Proof.
  intros Hk Hcan Hrfd Hr0 Hrf Hemp Hn Ht Hs1 Hs2 Hs3 Hd1 Hd2 Hd3 Ha Hp0. pose proof Hcan as (_ & Hro & _).
  destruct (sys_write_pipe call_handler pgw fuel turns wfd src n k umw i p h Hk Hcan) as (k1 & Hw & Hk1 & Hat1 & Hl1);
    [lia|done..|].
  set (bs := read_bytes n umw src) in *. assert (Hbs : length bs = n) by apply length_read_bytes.
  pose proof (pipes_ok_each _ _ (wf_pipes k Hk) i) as Hpok. fold (pipe_at k i) in Hpok.
  destruct (enqueue_spec bs (pipe_at k i) Hpok) as (Hok1 & Hc1 & Hsz1 & Heq1); [lia|].
  assert (Hcont : contents (pipe_at k1 i) = bs).
  { rewrite Hat1, Hc1. replace (contents (pipe_at k i)) with (@nil Z); [done|].
    symmetry. apply nil_length_inv. by rewrite length_contents, Hemp. }
  exists k1. split_and!; [done..|]. intros p' h' Ha' Hp'. rewrite Hemp, Hbs in Hsz1.
  pose proof (pipe_get_by_fd_Some _ _ _ Hrfd) as [_ Hid].
  assert (Hro1 : pi_reader_open (pipe_at k1 i) = 1) by (rewrite Hat1, Heq1; exact Hro).
  assert (Hid1 : pi_id (pipe_at k1 i) = Z.shiftr rfd 3) by (rewrite Hat1, Heq1; exact Hid).
  assert (Hg1 : pipe_get_by_fd rfd k1 = Some i) by by apply pipe_get_by_fd_id.
  assert (Hn1 : pi_data_size (pipe_at k1 i) = Z.of_nat n) by (rewrite Hat1; lia).
  clear Hat1 Heq1 Hc1 Hsz1 Hw.
  destruct (sys_read_pipe call_handler wait_key pgr fuel turns rfd dst n k1 umr kb i p' h' Hk1 Hg1 Hro1 Hrf)
    as (k2 & Hr & Hk2 & Hat2 & Hl2); [lia|rewrite Hcont; apply Forall_read_bytes|assumption..|].
  rewrite Hcont, <- Hbs, firstn_all, Hbs in Hr. eexists k2, _. split; [exact Hr|]. split; [done|].
  split; [|split; [|split]].
  - rewrite Hat2. destruct (dequeue_spec (Z.of_nat n) (pipe_at k1 i)) as (_ & -> & _).
    + apply (pipes_ok_each _ _ (wf_pipes k1 Hk1)).
    + lia.
    + rewrite Hcont, Nat2Z.id, <- Hbs. apply drop_all.
  - intros q. by rewrite (Hl2 q), (Hl1 q).
  - rewrite <- Hbs at 1. apply read_write_bytes, Forall_read_bytes.
  - intros a Hna. apply load8_write_bytes_ne. unfold disjoint_ranges. rewrite Hbs. lia.
Qed.

Lemma user_readable s acc a : user_accessible s acc a = true -> user_accessible s 0 a = true.
Proof. unfold user_accessible. destruct (translate s a); [apply entry_accessible_read|done]. Qed.

Definition hey : mem := {[ USER_BASE := 104; USER_BASE + 1 := 101; USER_BASE + 2 := 121 ]}.

(** The kernel after the write, and the block the read gets. *)
Definition written_kernel : kernel heap :=
  default kernel6 (snd <$> sys_write (fun _ _ k => Some k) paging_user 9 3 10 USER_BASE 3 kernel6 hey).

Lemma sys_write_read_witness :
  sys_write (fun _ _ k => Some k) paging_user 9 3 10 USER_BASE 3 kernel6 hey = Some (3, written_kernel) /\
  contents (pipe_at written_kernel 0) = [104; 101; 121] /\
  exists k2 um', sys_read (fun _ _ k => Some k) id paging_user 9 3 9 (USER_BASE + 100) 3 written_kernel ∅
      (Keyboard 0 0 0 0 0 0 0 [] 0 0) = Some (3, k2, um', Keyboard 0 0 0 0 0 0 0 [] 0 0) /\
    kernel_wf k2 /\ same_live kernel6 k2 /\ read_bytes 3 um' (USER_BASE + 100) = [104; 101; 121].
Proof.
  assert (Hbytes : read_bytes 3 hey USER_BASE = [104; 101; 121]) by (vm_compute; reflexivity).
  destruct (alloc_spec 3 (k_heap kernel6)) as (p & h & Ha & _ & _); [apply kernel6_wf|unfold in_u; lia|].
  assert (Hp : (fst <$> alloc 3 (k_heap kernel6)) = Some p) by (rewrite Ha; reflexivity).
  destruct (sys_write_read (fun _ _ k => Some k) id paging_user paging_user 9 3 kernel6 hey ∅
    (Keyboard 0 0 0 0 0 0 0 [] 0 0) 0 10 9 USER_BASE (USER_BASE + 100) 3 p h) as (k1 & Hw & Hk1 & Hc & _ & Hread).
  - exact kernel6_wf.
  - split; [vm_compute; reflexivity|]. split; [vm_compute; reflexivity|].
    split; vm_compute; reflexivity.
  - vm_compute. reflexivity.
  - vm_compute. discriminate.
  - vm_compute. reflexivity.
  - vm_compute. reflexivity.
  - unfold PIPE_BUFFER_SIZE. lia.
  - lia.
  - lia.
  - unfold USER_BASE, USER_STACK_TOP. lia.
  - intros a Ha'. apply (user_readable _ PAGE_WRITABLE), paging_user_accessible. unfold PAGE_SIZE. lia.
  - lia.
  - unfold USER_BASE, USER_STACK_TOP. lia.
  - intros a Ha'. apply paging_user_accessible. unfold PAGE_SIZE. lia.
  - exact Ha.
  - intros ->. vm_compute in Hp. discriminate Hp.
  - change (Z.of_nat 3) with 3 in Hw. assert (E : written_kernel = k1) by (unfold written_kernel; rewrite Hw; reflexivity).
    rewrite <- E in *. split; [exact Hw|]. split; [rewrite Hc; exact Hbytes|].
    destruct (alloc_spec 3 (k_heap written_kernel)) as (p' & h' & Ha' & _ & _); [apply Hk1|unfold in_u; lia|].
    assert (Hp' : (fst <$> alloc 3 (k_heap written_kernel)) = Some p') by (rewrite Ha'; reflexivity).
    destruct (Hread p' h' Ha') as (k2 & um' & Hr & Hk2 & _ & Hl & Hb & _).
    + intros ->. vm_compute in Hp'. discriminate Hp'.
    + rewrite Hbytes in Hb. exists k2, um'. exact (conj Hr (conj Hk2 (conj Hl Hb))).
Defined.

(** A number that selects no call is reported on the screen and nothing else
    happens: [rax] still holds the number, so the program sees no error.  From
    10000 on the report itself overflows its buffer of five bytes. *)
Theorem syscall_bad_number `{!Allocator H} call_handler wait_timer wait_key fs_mkdir fs_unlink
    stack_action stack_mask stack_padding pg fuel turns regs (s : machine (H := H)) :
  selected (rax regs) = None -> 0 <= rax regs < 2 ^ 31 ->
  syscall_handler call_handler wait_timer wait_key fs_mkdir fs_unlink stack_action stack_mask
      stack_padding pg fuel turns regs s =
    if rax regs <? 10000 then
      Some (regs, Machine (kprint nl (kprint_bytes (decimal (rax regs))
        (kprint "Hata: Gecersiz sistem cagrisi numarasi: " (m_kernel s)))) (m_user s) (m_keyboard s))
    else None.
Proof.
  intros Hsel Hr. unfold syscall_handler. fold (selected (rax regs)). rewrite Hsel. unfold kprint_int.
  destruct (Z.ltb_spec (rax regs) 10000) as [Hlt|Hge].
  - unfold terminal_writeint, decimal. rewrite s32_small by (unfold in_s32; lia).
    destruct (int_to_string_length (rax regs) 4) as (t & -> & Hl); [lia|lia|lia|].
    cbn [mbind option_bind default]. by rewrite (proj2 (Z.ltb_lt _ _)) by lia.
  - rewrite (writeint_overflow 5 (rax regs)) by lia. done.
Qed.

Lemma syscall_bad_number_witness :
  syscall_handler (fun _ _ k => Some k) Some id (fun _ => 0) (fun _ => 0) signal_action0 0 0
    paging_user 200 2 (set_rax 10000 registers0) (Machine kernel3 ∅ (Keyboard 0 0 0 0 0 0 0 [] 0 0)) = None.
Proof.
  rewrite (syscall_bad_number (fun _ _ k => Some k) Some id (fun _ => 0) (fun _ => 0) signal_action0 0 0
    paging_user 200 2 (set_rax 10000 registers0) (Machine kernel3 ∅ (Keyboard 0 0 0 0 0 0 0 [] 0 0)));
    [reflexivity|vm_compute; reflexivity|cbn; lia].
Defined.

Lemma group_loop_none `{!Allocator H} call_handler fuel n i pgid s sent (k : kernel H) :
  (forall j, p_pid (proc k j) <> 0 -> p_process_group (proc k j) <> pgid) ->
  send_group_loop call_handler fuel n i pgid s sent k = Some (sent, k).
Proof.
  intros Hn. revert i; induction n as [|n IH]; intros i; [done|]. cbn [send_group_loop].
  destruct (Z.eqb_spec (p_pid (proc k i)) 0); cbn [negb andb]; [apply IH|].
  rewrite (proj2 (Z.eqb_neq _ _)) by auto. apply IH.
Qed.

(** [kill] compares its unsigned argument with [-1]: every pid but the largest
    number is taken for a group, so killing process [pid] sends nothing, changes
    nothing and reports success unless some group has the number [2^64 - pid]. *)
Theorem sys_kill_pid `{!Allocator H} call_handler fuel (k : kernel H) pid signum :
  1 <= pid < 2 ^ 64 - 1 -> 0 <= signum < MAX_SIGNALS ->
  sys_kill call_handler fuel pid signum k =
    ('(r, k) ← send_signal_to_process_group call_handler fuel (2 ^ 64 - pid) signum k; Some (u64 r, k)) /\
  ((forall j, p_pid (proc k j) <> 0 -> p_process_group (proc k j) <> 2 ^ 64 - pid) ->
   sys_kill call_handler fuel pid signum k = Some (0, k)).
Proof.
  intros Hp Hs.
  assert (E : sys_kill call_handler fuel pid signum k =
    ('(r, k) ← send_signal_to_process_group call_handler fuel (2 ^ 64 - pid) signum k; Some (u64 r, k))).
  { unfold sys_kill. rewrite (proj2 (Z.leb_gt _ _)), (proj2 (Z.eqb_neq pid 0)) by lia.
    change (u64 (-1)) with (2 ^ 64 - 1). rewrite (proj2 (Z.ltb_lt pid _)) by lia.
    replace (u64 (- pid)) with (2 ^ 64 - pid); [done|].
    unfold wrap. apply Z.mod_unique with (-1); lia. }
  split; [exact E|]. intros Hn. rewrite E. unfold send_signal_to_process_group. by rewrite group_loop_none.
Qed.

Lemma sys_kill_pid_witness :
  get_process 2 kernel3 = Some 1%nat /\ sys_kill (fun _ _ k => Some k) 200 2 SIGKILL kernel3 = Some (0, kernel3).
Proof.
  split; [vm_compute; reflexivity|].
  apply (sys_kill_pid (fun _ _ k => Some k) 200 kernel3 2 SIGKILL); [lia|unfold SIGKILL, MAX_SIGNALS; lia|].
  intros j _. destruct (decide (j < 64)%nat) as [Hj|Hj].
  - assert (Hall : forallb (fun p => negb (p_process_group p =? 2 ^ 64 - 2)) (processes kernel3) = true)
      by (vm_compute; reflexivity).
    rewrite forallb_forall in Hall. unfold proc. destruct (processes kernel3 !! j) as [p|] eqn:E; [|discriminate].
    cbn [default]. apply list_elem_of_lookup_2, list_elem_of_In, Hall in E. apply negb_true_iff, Z.eqb_neq in E. exact E.
  - rewrite proc_out; [discriminate|]. rewrite (wf_len kernel3 kernel3_wf). unfold MAX_PROCESSES. lia.
Defined.
