(* ===== verification/Disk.v ===== *)
(** * The disk the file system runs on

    filesystem.c declares [ata_read_sectors] and [ata_write_sectors] and no
    source file defines them: they are an interface.  A call returns 0 when it
    succeeds.  The laws say what a driver promises for the sectors its disk
    serves, one sector at a time, as the file system uses it; [ram_disk] is an
    implementation that keeps them. *)
From S2P Require Import Prelude RawMemory.

Definition SECTOR : nat := 512.

(** A sector's worth of bytes. *)
Definition is_sector (bs : list Z) : Prop := length bs = SECTOR /\ Forall (in_u 8) bs.

Class Disk (D : Type) := {
  ata_read_sectors : Z -> Z -> D -> Z * list Z;
  ata_write_sectors : Z -> Z -> list Z -> D -> Z * D;
  (** The sectors of a working disk. *)
  served : D -> Z -> Prop;
  disk_read : forall d lba, served d lba ->
    exists bs, ata_read_sectors lba 1 d = (0, bs) /\ is_sector bs;
  disk_write : forall d lba bs, served d lba -> is_sector bs ->
    exists d', ata_write_sectors lba 1 bs d = (0, d') /\
      ata_read_sectors lba 1 d' = (0, bs) /\
      (forall l, l <> lba -> ata_read_sectors l 1 d' = ata_read_sectors l 1 d) /\
      forall l, served d' l <-> served d l;
}.
#[global] Hint Mode Disk ! : typeclass_instances.

(** ** A disk in memory *)

Record ram_disk := RamDisk { rd_size : Z; rd_sectors : gmap Z (list Z) }.

Definition as_sector (bs : list Z) : list Z := u8 <$> (take SECTOR bs ++ replicate (SECTOR - length bs) 0).

Definition rd_read (lba : Z) (d : ram_disk) : list Z := as_sector (default [] (rd_sectors d !! lba)).

Lemma as_sector_ok bs : is_sector (as_sector bs).
Proof.
  unfold as_sector. split.
  - rewrite length_fmap, length_app, length_take, length_replicate. lia.
  - apply Forall_fmap, Forall_true. intros x. apply wrap_range. lia.
Qed.

Lemma as_sector_id bs : is_sector bs -> as_sector bs = bs.
Proof.
  intros [Hl Hb]. unfold as_sector. rewrite Hl, Nat.sub_diag, app_nil_r, take_ge by lia.
  clear Hl. induction Hb as [|x l Hx Hl IH]; [done|]. cbn [fmap list_fmap]. by rewrite wrap_small, IH by done.
Qed.

#[export, refine] Instance disk_in_ram : Disk ram_disk := {|
  ata_read_sectors lba count d :=
    if (0 <=? lba) && (lba <? rd_size d) && (count =? 1) then (0, rd_read lba d) else (1, []);
  ata_write_sectors lba count bs d :=
    if (0 <=? lba) && (lba <? rd_size d) && (count =? 1)
    then (0, RamDisk (rd_size d) (<[lba := bs]> (rd_sectors d))) else (1, d);
  served d lba := 0 <= lba < rd_size d;
|}.
Proof.
  - intros d lba Hs. rewrite (proj2 (Z.leb_le _ _)), (proj2 (Z.ltb_lt _ _)) by lia.
    eexists. split; [reflexivity|]. apply as_sector_ok.
  - intros d lba bs Hs Hb. rewrite (proj2 (Z.leb_le _ _)), (proj2 (Z.ltb_lt _ _)) by lia.
    eexists. split; [reflexivity|]. split; [|split; [|done]].
    + cbn [rd_size]. rewrite (proj2 (Z.ltb_lt _ _)) by lia. unfold rd_read. cbn [rd_sectors].
      rewrite lookup_insert_eq. cbn [default]. by rewrite as_sector_id.
    + intros l Hl. unfold rd_read. cbn [rd_size rd_sectors]. by rewrite lookup_insert_ne by done.
Defined.
