(* ===== verification/Filesystem.v ===== *)
(** * The FAT32 file system: filesystem.c

    The static [fs_info] and the disk are passed along; a sector buffer of 512
    bytes is a list of bytes.  [None] is an access outside such a buffer or a
    division by zero (a boot sector may announce any sector size), or a loop
    that runs out of turns.  [fs_mkdir], [fs_unlink] and [fs_stat] are declared
    in filesystem.h but no source file defines them. *)
From S2P Require Import Prelude CString RawMemory Disk.

Definition FS_FILE : Z := 0x01.
Definition FS_DIRECTORY : Z := 0x02.
Definition FAT32_SIGNATURE : Z := 0x28.
Definition FAT32_EOC : Z := 0x0FFFFFF8.
Definition FS_SUCCESS : Z := 0.
Definition FS_ERROR : Z := -1.
Definition FS_NOT_FOUND : Z := -2.
Definition FS_NOT_MOUNTED : Z := -3.

Record fs_info := FsInfo {
  fi_device : Z; partition_start : Z; fat_start : Z; data_start : Z; root_cluster : Z;
  sectors_per_cluster : Z; bytes_per_sector : Z; bytes_per_cluster : Z; mounted : Z;
}.

Definition fs_info0 : fs_info := FsInfo 0 0 0 0 0 0 0 0 0.

Definition set_fi_device (v : Z) (fi : fs_info) : fs_info :=
  FsInfo v (partition_start fi) (fat_start fi) (data_start fi) (root_cluster fi)
    (sectors_per_cluster fi) (bytes_per_sector fi) (bytes_per_cluster fi) (mounted fi).
Definition set_partition_start (v : Z) (fi : fs_info) : fs_info :=
  FsInfo (fi_device fi) v (fat_start fi) (data_start fi) (root_cluster fi)
    (sectors_per_cluster fi) (bytes_per_sector fi) (bytes_per_cluster fi) (mounted fi).
Definition set_mounted (v : Z) (fi : fs_info) : fs_info :=
  FsInfo (fi_device fi) (partition_start fi) (fat_start fi) (data_start fi) (root_cluster fi)
    (sectors_per_cluster fi) (bytes_per_sector fi) (bytes_per_cluster fi) v.

Record fs_dirent := FsDirent {
  de_name : list Z; de_size : Z; de_flags : Z; de_cluster : Z; modified_time : Z; created_time : Z;
}.

Record fs_file := FsFile {
  f_dirent : fs_dirent; f_position : Z; current_cluster : Z; f_device : Z;
}.

(** After [memset(file, 0, sizeof(fs_file_t))]. *)
Definition fs_dirent0 : fs_dirent := FsDirent (replicate 128 0) 0 0 0 0 0.

Definition set_f_position (v : Z) (f : fs_file) : fs_file :=
  FsFile (f_dirent f) v (current_cluster f) (f_device f).
Definition set_current_cluster (v : Z) (f : fs_file) : fs_file :=
  FsFile (f_dirent f) (f_position f) v (f_device f).
Definition set_de_cluster (v : Z) (e : fs_dirent) : fs_dirent :=
  FsDirent (de_name e) (de_size e) (de_flags e) v (modified_time e) (created_time e).
Definition set_de_size (v : Z) (e : fs_dirent) : fs_dirent :=
  FsDirent (de_name e) v (de_flags e) (de_cluster e) (modified_time e) (created_time e).
Definition set_f_dirent (e : fs_dirent) (f : fs_file) : fs_file :=
  FsFile e (f_position f) (current_cluster f) (f_device f).

(** ** Buffers *)

(** [n] bytes at [off], and their replacement; outside the buffer they fail. *)
Definition slice (n off : Z) (buf : list Z) : option (list Z) :=
  if off + n <=? Z.of_nat (length buf) then Some (take (Z.to_nat n) (drop (Z.to_nat off) buf)) else None.

Definition splice (off : Z) (bs buf : list Z) : option (list Z) :=
  if off + Z.of_nat (length bs) <=? Z.of_nat (length buf)
  then Some (take (Z.to_nat off) buf ++ bs ++ drop (Z.to_nat off + length bs) buf) else None.

(** [*((uint32_t * )(sector + off))] and the like. *)
Definition get_le (n off : Z) (buf : list Z) : option Z := le_value <$> slice n off buf.

(** [strcpy] into a buffer: [None] when the string does not fit. *)
Definition strcpy (dest src : list Z) : option (list Z) :=
  let s := take (strlen src) src ++ [0] in
  if (length s <=? length dest)%nat then Some (s ++ drop (length s) dest) else None.

Section Filesystem.
Context `{!Disk D}.
Implicit Types (d : D) (fi : fs_info) (f : fs_file).

(** ** The file allocation table *)

(** Sector and offset of the entry of [cluster]. *)
Definition fat_location (cluster : Z) fi : option (Z * Z) :=
  let fat_offset := u32 (cluster * 4) in
  if bytes_per_sector fi =? 0 then None else
  Some (u32 (fat_start fi + fat_offset / bytes_per_sector fi), fat_offset mod bytes_per_sector fi).

Definition fat32_read_fat_entry (cluster : Z) fi d : option Z :=
  '(fat_sector, entry_offset) ← fat_location cluster fi;
  let '(r, sector) := ata_read_sectors fat_sector 1 d in
  if negb (r =? 0) then Some 0 else
  entry ← get_le 4 entry_offset sector;
  Some (Z.land entry 0x0FFFFFFF).

Definition fat32_write_fat_entry (cluster value : Z) fi d : option (Z * D) :=
  '(fat_sector, entry_offset) ← fat_location cluster fi;
  let '(r, sector) := ata_read_sectors fat_sector 1 d in
  if negb (r =? 0) then Some (FS_ERROR, d) else
  entry ← get_le 4 entry_offset sector;
  sector ← splice entry_offset
    (le_bytes 4 (Z.lor (Z.land entry 0xF0000000) (Z.land value 0x0FFFFFFF))) sector;
  let '(r, d) := ata_write_sectors fat_sector 1 sector d in
  Some (if negb (r =? 0) then FS_ERROR else FS_SUCCESS, d).

Definition fat32_cluster_to_lba (cluster : Z) fi : Z :=
  u32 (data_start fi + u32 (cluster - 2) * sectors_per_cluster fi).

(** ** Mounting *)

Definition fs_init fi : Z * fs_info := (FS_SUCCESS, fs_info0).

Definition fs_mount (device : Z) fi d : option (Z * fs_info) :=
  let fi := set_fi_device device fi in
  let '(r, mbr) := ata_read_sectors 0 1 d in
  if negb (r =? 0) then Some (FS_ERROR, fi) else
  start ← get_le 4 (0x1BE + 0x08) mbr;
  let fi := set_partition_start start fi in
  let '(r, bpb) := ata_read_sectors start 1 d in
  if negb (r =? 0) then Some (FS_ERROR, fi) else
  boot_signature ← get_le 1 66 bpb;
  if negb (boot_signature =? FAT32_SIGNATURE) then Some (FS_ERROR, fi) else
  bps ← get_le 2 11 bpb;
  spc ← get_le 1 13 bpb;
  reserved_sectors ← get_le 2 14 bpb;
  num_fats ← get_le 1 16 bpb;
  fat_size_32 ← get_le 4 36 bpb;
  root ← get_le 4 44 bpb;
  let fat := u32 (start + reserved_sectors) in
  Some (FS_SUCCESS, FsInfo device start fat (u32 (fat + num_fats * fat_size_32)) root spc bps
                      (u32 (bps * spc)) 1).

Definition fs_unmount fi : Z * fs_info := (FS_SUCCESS, set_mounted 0 fi).

(** ** Allocation of a cluster *)

(** The inner loop of [fat32_allocate_cluster] from offset [i], [n] entries
    left: the first free cluster from 2 on in the sector. *)
Fixpoint free_in_sector (n : nat) (i fat_sector : Z) (sector : list Z) fi : option (option Z) :=
  match n with
  | O => Some None
  | S n' =>
    entry ← get_le 4 i sector;
    let cluster := u32 (fat_sector * bytes_per_sector fi + i) / 4 in
    if (Z.land entry 0x0FFFFFFF =? 0) && (2 <=? cluster) then Some (Some cluster)
    else free_in_sector n' (i + 4) fat_sector sector fi
  end.

(** The outer loop from [fat_sector], [n] sectors left. *)
Fixpoint allocate_search (n : nat) (fat_sector : Z) fi d : option (Z * D) :=
  match n with
  | O => Some (0, d)
  | S n' =>
    let '(r, sector) := ata_read_sectors (u32 (fat_start fi + fat_sector)) 1 d in
    if negb (r =? 0) then Some (0, d) else
    found ← free_in_sector (Z.to_nat ((bytes_per_sector fi + 3) / 4)) 0 fat_sector sector fi;
    match found with
    | Some cluster =>
      '(_, d) ← fat32_write_fat_entry cluster FAT32_EOC fi d; Some (cluster, d)
    | None => allocate_search n' (fat_sector + 1) fi d
    end
  end.

Definition fat32_allocate_cluster fi d : option (Z * D) :=
  if mounted fi =? 0 then Some (0, d) else
  allocate_search (Z.to_nat (u32 (data_start fi - fat_start fi))) 0 fi d.

(** ** Opening a file *)

(** The characters that are not blanks. *)
Definition no_blanks (bs : list Z) : list Z := filter (fun c => c <> 0x20) bs.

(** The name in a directory entry: eight characters and an extension of three. *)
Definition short_name (entry : list Z) : list Z :=
  no_blanks (take 8 entry) ++
  (if negb (char_at entry 8 =? 0x20) then [0x2E] ++ no_blanks (take 3 (drop 8 entry)) else []).

Definition entry_cluster (entry : list Z) : Z :=
  Z.lor (Z.shiftl (le_value (take 2 (drop 20 entry))) 16) (le_value (take 2 (drop 26 entry))).
Definition entry_size (entry : list Z) : Z := le_value (take 4 (drop 28 entry)).
Definition entry_flags (entry : list Z) : Z :=
  if negb (Z.land (char_at entry 11) 0x10 =? 0) then FS_DIRECTORY else FS_FILE.

(** Entries that are skipped: deleted ones and long names. *)
Definition skipped_entry (entry : list Z) : bool :=
  (char_at entry 0 =? 0xE5) || (char_at entry 11 =? 0x0F).

(** The inner loop of [fs_open] from offset [j], [n] entries left. *)
Fixpoint find_entry (n : nat) (j : Z) (filename sector : list Z) : option (option (list Z)) :=
  match n with
  | O => Some None
  | S n' =>
    entry ← slice 32 j sector;
    if char_at entry 0 =? 0 then Some None else
    if skipped_entry entry then find_entry n' (j + 32) filename sector else
    if strcmp (short_name entry) filename =? 0 then Some (Some entry)
    else find_entry n' (j + 32) filename sector
  end.

(** [strip_slashes]: the loop that skips the leading slashes. *)
Fixpoint strip_slashes (path : list Z) : list Z :=
  match path with
  | c :: path' => if c =? 0x2F then strip_slashes path' else path
  | [] => []
  end.

(** What [fs_open] stores for a directory entry. *)
Definition opened (entry : list Z) fi : option fs_file :=
  name ← strcpy (replicate 128 0) (short_name entry);
  Some (FsFile (FsDirent name (entry_size entry) (entry_flags entry) (entry_cluster entry) 0 0)
          0 (entry_cluster entry) (fi_device fi)).

(** The outer loop from sector [i], [n] sectors left. *)
Fixpoint open_search (n : nat) (i sector_lba : Z) (filename : list Z) fi d
  : option (Z * option fs_file) :=
  match n with
  | O => Some (FS_NOT_FOUND, None)
  | S n' =>
    let '(r, sector) := ata_read_sectors (u32 (sector_lba + i)) 1 d in
    if negb (r =? 0) then Some (FS_ERROR, None) else
    found ← find_entry (Z.to_nat ((bytes_per_sector fi + 31) / 32)) 0 filename sector;
    match found with
    | Some entry => file ← opened entry fi; Some (FS_SUCCESS, Some file)
    | None => open_search n' (i + 1) sector_lba filename fi d
    end
  end.

(** The result, and the file when the call fills it. *)
Definition fs_open (path : list Z) fi d : option (Z * option fs_file) :=
  if mounted fi =? 0 then Some (FS_NOT_MOUNTED, None) else
  if strcmp path [0x2F] =? 0 then
    name ← strcpy (replicate 128 0) [0x2F];
    Some (FS_SUCCESS, Some (FsFile (FsDirent name 0 FS_DIRECTORY (root_cluster fi) 0 0) 0
                              (root_cluster fi) (fi_device fi)))
  else
    filename ← strcpy (replicate 128 0) (strip_slashes path);
    open_search (Z.to_nat (sectors_per_cluster fi)) 0 (fat32_cluster_to_lba (root_cluster fi) fi)
      filename fi d.

Definition fs_close (f : fs_file) : Z := FS_SUCCESS.

(** ** Reading and writing *)

(** The [int] result of a count. *)
Definition is_directory f : bool := negb (Z.land (de_flags (f_dirent f)) FS_DIRECTORY =? 0).

(** The loop of [fs_read] to the cluster of the position, at most [n] turns;
    [None] inside is the end of the chain. *)
Fixpoint seek_cluster (n : nat) (cluster pos : Z) f fi d : option (option Z) :=
  if u32 (pos + bytes_per_cluster fi) <=? f_position f then
    match n with
    | O => None
    | S n' =>
      cluster ← fat32_read_fat_entry cluster fi d;
      if FAT32_EOC <=? cluster then Some None
      else seek_cluster n' cluster (u32 (pos + bytes_per_cluster fi)) f fi d
    end
  else Some (Some cluster).

(** The reading loop, at most [n] turns: the number of bytes left or [FS_ERROR],
    the bytes stored, the file. *)
Fixpoint read_loop (n : nat) (bytes_left cluster cluster_pos : Z) f fi d
  : option (option Z * list Z * fs_file) :=
  if bytes_left =? 0 then Some (Some 0, [], f) else
  match n with
  | O => None
  | S n' =>
    if bytes_per_sector fi =? 0 then None else
    let sector_lba := fat32_cluster_to_lba cluster fi in
    let sector_offset := cluster_pos / bytes_per_sector fi in
    let offset := cluster_pos mod bytes_per_sector fi in
    let '(r, sector_buffer) := ata_read_sectors (u32 (sector_lba + sector_offset)) 1 d in
    if negb (r =? 0) then Some (None, [], f) else
    let sector_bytes := if bytes_left <? bytes_per_sector fi - offset then bytes_left
                        else bytes_per_sector fi - offset in
    bs ← slice sector_bytes offset sector_buffer;
    let bytes_left := bytes_left - sector_bytes in
    let cluster_pos := u32 (cluster_pos + sector_bytes) in
    let f := set_f_position (u32 (f_position f + sector_bytes)) f in
    if bytes_per_cluster fi <=? cluster_pos then
      cluster ← fat32_read_fat_entry cluster fi d;
      if (FAT32_EOC <=? cluster) && (0 <? bytes_left) then Some (Some bytes_left, bs, f)
      else '(r, bs', f) ← read_loop n' bytes_left cluster 0 f fi d; Some (r, bs ++ bs', f)
    else '(r, bs', f) ← read_loop n' bytes_left cluster cluster_pos f fi d; Some (r, bs ++ bs', f)
  end.

(** The result, the bytes stored at [buffer], the file.  [size] is a [size_t],
    the test of the end of the file is made in 64 bits. *)
Definition fs_read (n : nat) f (size : Z) fi d : option (Z * list Z * fs_file) :=
  if mounted fi =? 0 then Some (FS_NOT_MOUNTED, [], f) else
  if is_directory f then Some (FS_ERROR, [], f) else
  if de_size (f_dirent f) <=? f_position f then Some (0, [], f) else
  let size := if de_size (f_dirent f) <? u64 (f_position f + size)
              then de_size (f_dirent f) - f_position f else size in
  if bytes_per_cluster fi =? 0 then None else
  let cluster_pos := f_position f mod bytes_per_cluster fi in
  at_cluster ← seek_cluster n (de_cluster (f_dirent f)) 0 f fi d;
  match at_cluster with
  | None => Some (0, [], f)
  | Some cluster =>
    '(rest, bs, f) ← read_loop n size cluster cluster_pos f fi d;
    Some (match rest with Some bytes_left => s32 (size - bytes_left) | None => FS_ERROR end, bs, f)
  end.

(** The loop of [fs_write] to the cluster of the position, which extends the
    chain where it ends; [None] inside is a full disk. *)
Fixpoint extend_to (n : nat) (cluster pos : Z) f fi d : option (option Z * D) :=
  if u32 (pos + bytes_per_cluster fi) <=? f_position f then
    match n with
    | O => None
    | S n' =>
      let prev_cluster := cluster in
      cluster ← fat32_read_fat_entry cluster fi d;
      if FAT32_EOC <=? cluster then
        '(cluster, d) ← fat32_allocate_cluster fi d;
        if cluster =? 0 then Some (None, d) else
        '(_, d) ← fat32_write_fat_entry prev_cluster cluster fi d;
        extend_to n' cluster (u32 (pos + bytes_per_cluster fi)) f fi d
      else extend_to n' cluster (u32 (pos + bytes_per_cluster fi)) f fi d
    end
  else Some (Some cluster, d).

(** The writing loop over the bytes [src] that are left, at most [n] turns: the
    number of bytes left or [FS_ERROR], the file, the disk. *)
Fixpoint fs_write_loop (n : nat) (src : list Z) (cluster cluster_pos : Z) f fi d
  : option (option Z * fs_file * D) :=
  if Z.of_nat (length src) =? 0 then Some (Some 0, f, d) else
  match n with
  | O => None
  | S n' =>
    let bytes_left := Z.of_nat (length src) in
    if bytes_per_sector fi =? 0 then None else
    let sector_lba := fat32_cluster_to_lba cluster fi in
    let sector_offset := cluster_pos / bytes_per_sector fi in
    let offset := cluster_pos mod bytes_per_sector fi in
    let '(r, sector_buffer) := ata_read_sectors (u32 (sector_lba + sector_offset)) 1 d in
    if negb (r =? 0) then Some (None, f, d) else
    let sector_bytes := if bytes_left <? bytes_per_sector fi - offset then bytes_left
                        else bytes_per_sector fi - offset in
    sector_buffer ← splice offset (take (Z.to_nat sector_bytes) src) sector_buffer;
    let '(r, d) := ata_write_sectors (u32 (sector_lba + sector_offset)) 1 sector_buffer d in
    if negb (r =? 0) then Some (None, f, d) else
    let src := drop (Z.to_nat sector_bytes) src in
    let bytes_left := bytes_left - sector_bytes in
    let cluster_pos := u32 (cluster_pos + sector_bytes) in
    let f := set_f_position (u32 (f_position f + sector_bytes)) f in
    if bytes_per_cluster fi <=? cluster_pos then
      let prev_cluster := cluster in
      cluster ← fat32_read_fat_entry cluster fi d;
      if (FAT32_EOC <=? cluster) && (0 <? bytes_left) then
        '(new_cluster, d) ← fat32_allocate_cluster fi d;
        if new_cluster =? 0 then Some (Some bytes_left, f, d) else
        '(_, d) ← fat32_write_fat_entry prev_cluster new_cluster fi d;
        fs_write_loop n' src new_cluster 0 f fi d
      else fs_write_loop n' src cluster 0 f fi d
    else fs_write_loop n' src cluster cluster_pos f fi d
  end.

(** The first cluster of a file that has none. *)
Definition first_cluster f fi d : option (option (Z * fs_file) * D) :=
  let cluster := de_cluster (f_dirent f) in
  if cluster =? 0 then
    '(cluster, d) ← fat32_allocate_cluster fi d;
    if cluster =? 0 then Some (None, d) else
    Some (Some (cluster, set_current_cluster cluster (set_f_dirent (set_de_cluster cluster (f_dirent f)) f)), d)
  else Some (Some (cluster, f), d).

(** [buffer] is the list of its [size] bytes. *)
Definition fs_write (n : nat) f (buffer : list Z) fi d : option (Z * fs_file * D) :=
  let size := Z.of_nat (length buffer) in
  if mounted fi =? 0 then Some (FS_NOT_MOUNTED, f, d) else
  if is_directory f then Some (FS_ERROR, f, d) else
  if bytes_per_cluster fi =? 0 then None else
  let cluster_pos := f_position f mod bytes_per_cluster fi in
  '(first, d) ← first_cluster f fi d;
  match first with
  | None => Some (FS_ERROR, f, d)
  | Some (cluster, f) =>
    '(at_cluster, d) ← extend_to n cluster 0 f fi d;
    match at_cluster with
    | None => Some (FS_ERROR, f, d)
    | Some cluster =>
      '(rest, f, d) ← fs_write_loop n buffer cluster cluster_pos f fi d;
      match rest with
      | None => Some (FS_ERROR, f, d)
      | Some bytes_left =>
        let f := if de_size (f_dirent f) <? f_position f
                 then set_f_dirent (set_de_size (f_position f) (f_dirent f)) f else f in
        Some (s32 (size - bytes_left), f, d)
      end
    end
  end.

Definition fs_seek f (position : Z) fi : Z * fs_file :=
  if mounted fi =? 0 then (FS_NOT_MOUNTED, f) else
  let position := if de_size (f_dirent f) <? position then de_size (f_dirent f) else position in
  (FS_SUCCESS, set_f_position position f).

Definition fs_tell f : Z := s32 (f_position f).
Definition fs_eof f : Z := if de_size (f_dirent f) <=? f_position f then 1 else 0.

(** ** Directories *)

Definition fs_opendir (path : list Z) fi d : option (Z * option fs_file) :=
  '(result, dir) ← fs_open path fi d;
  match dir with
  | Some f => Some (if (result =? FS_SUCCESS) && negb (is_directory f) then FS_ERROR else result, dir)
  | None => Some (result, dir)
  end.

(** The loop of [fs_readdir] that skips the clusters before the position. *)
Fixpoint dir_cluster (n : nat) (cluster sector_idx : Z) f fi d : option (option (Z * Z) * fs_file) :=
  if sectors_per_cluster fi <=? sector_idx then
    match n with
    | O => None
    | S n' =>
      cluster ← fat32_read_fat_entry cluster fi d;
      if FAT32_EOC <=? cluster then Some (None, f)
      else dir_cluster n' cluster (sector_idx - sectors_per_cluster fi) (set_current_cluster cluster f) fi d
    end
  else Some (Some (cluster, sector_idx), f).

(** [name] is overwritten by [strcpy], the other fields assigned. *)
Definition fill_dirent (entry : list Z) (dirent : fs_dirent) : option fs_dirent :=
  name ← strcpy (de_name dirent) (short_name entry);
  Some (FsDirent name (entry_size entry) (entry_flags entry) (entry_cluster entry)
          (modified_time dirent) (created_time dirent)).

(** The next sector when the entries of one are used up: the new cluster, sector,
    entry and buffer, [None] inside when the call fails. *)
Definition next_sector (cluster sector_idx : Z) f fi d : option (option (Z * Z * Z * list Z) * fs_file) :=
  let sector_idx := sector_idx + 1 in
  next ← (if sectors_per_cluster fi <=? sector_idx then
            cluster ← fat32_read_fat_entry cluster fi d;
            if FAT32_EOC <=? cluster then Some None else Some (Some (cluster, 0, set_current_cluster cluster f))
          else Some (Some (cluster, sector_idx, f)));
  match next with
  | None => Some (None, f)
  | Some (cluster, sector_idx, f) =>
    let '(r, sector) := ata_read_sectors (u32 (fat32_cluster_to_lba cluster fi + sector_idx)) 1 d in
    Some (if negb (r =? 0) then None else Some (cluster, sector_idx, 0, sector), f)
  end.

(** The scan, at most [n] entries.  [entry] points into the buffer that the next
    sector is read into before the entry is looked at. *)
Fixpoint readdir_loop (n : nat) (cluster sector_idx entry_idx : Z) (sector : list Z)
    f (dirent : fs_dirent) fi d : option (Z * fs_file * fs_dirent) :=
  match n with
  | O => None
  | S n' =>
    let entry_at := entry_idx * 32 in
    let entry_idx := entry_idx + 1 in
    let f := set_f_position (u32 (f_position f + 32)) f in
    '(next, f) ← (if bytes_per_sector fi <=? entry_idx * 32 then next_sector cluster sector_idx f fi d
                  else Some (Some (cluster, sector_idx, entry_idx, sector), f));
    match next with
    | None => Some (FS_ERROR, f, dirent)
    | Some (cluster, sector_idx, entry_idx, sector) =>
      entry ← slice 32 entry_at sector;
      if char_at entry 0 =? 0 then Some (FS_ERROR, f, dirent) else
      if skipped_entry entry then readdir_loop n' cluster sector_idx entry_idx sector f dirent fi d else
      dirent ← fill_dirent entry dirent; Some (FS_SUCCESS, f, dirent)
    end
  end.

Definition fs_readdir (n : nat) f (dirent : fs_dirent) fi d : option (Z * fs_file * fs_dirent) :=
  if mounted fi =? 0 then Some (FS_NOT_MOUNTED, f, dirent) else
  if negb (is_directory f) then Some (FS_ERROR, f, dirent) else
  if bytes_per_sector fi =? 0 then None else
  let sector_idx := f_position f / bytes_per_sector fi in
  let entry_idx := (f_position f mod bytes_per_sector fi) / 32 in
  '(at_cluster, f) ← dir_cluster n (current_cluster f) sector_idx f fi d;
  match at_cluster with
  | None => Some (FS_ERROR, f, dirent)
  | Some (cluster, sector_idx) =>
    let '(r, sector) := ata_read_sectors (u32 (fat32_cluster_to_lba cluster fi + sector_idx)) 1 d in
    if negb (r =? 0) then Some (FS_ERROR, f, dirent) else
    readdir_loop n cluster sector_idx entry_idx sector f dirent fi d
  end.

Definition fs_closedir (dir : fs_file) : Z := fs_close dir.
End Filesystem.
