(* ===== verification/FilesystemSpec.v ===== *)
(** * What the file system promises

    The file allocation table as a function from clusters to entries, a file as
    the bytes of its chain of clusters, and what reading, writing and allocating
    do to them on a volume of 512-byte sectors. *)
From S2P Require Import Prelude CString RawMemory Disk Filesystem.

(** ** Buffers *)

Section Buffers.
Implicit Types (bs buf : list Z).

Lemma slice_eq n off buf : 0 <= off -> 0 <= n -> off + n <= Z.of_nat (length buf) ->
  slice n off buf = Some (take (Z.to_nat n) (drop (Z.to_nat off) buf)).
Proof. intros. unfold slice. by rewrite (proj2 (Z.leb_le _ _)) by lia. Qed.

Lemma splice_eq off bs buf : off + Z.of_nat (length bs) <= Z.of_nat (length buf) ->
  splice off bs buf = Some (take (Z.to_nat off) buf ++ bs ++ drop (Z.to_nat off + length bs) buf).
Proof. intros. unfold splice. by rewrite (proj2 (Z.leb_le _ _)) by lia. Qed.

(** A buffer with [bs] at [o]. *)
Definition patch (o : nat) bs buf : list Z := take o buf ++ bs ++ drop (o + length bs) buf.

Lemma length_patch o bs buf : (o + length bs <= length buf)%nat -> length (patch o bs buf) = length buf.
Proof. intros. unfold patch. rewrite !length_app, length_take, length_drop. lia. Qed.

Lemma lookup_patch o bs buf i :
  (o + length bs <= length buf)%nat ->
  patch o bs buf !! i = if decide (o <= i < o + length bs)%nat then bs !! (i - o)%nat else buf !! i.
Proof.
  intros Hl. unfold patch. assert (Ht : length (take o buf) = o) by (rewrite length_take; lia).
  case_decide as Hi.
  - rewrite lookup_app_r, lookup_app_l, Ht by lia. done.
  - destruct (decide (i < o)%nat).
    + rewrite lookup_app_l, lookup_take_lt by lia. done.
    + rewrite !lookup_app_r, lookup_drop, Ht by lia. f_equal. lia.
Qed.

Lemma take_drop_patch_eq o bs buf :
  (o + length bs <= length buf)%nat -> take (length bs) (drop o (patch o bs buf)) = bs.
Proof.
  intros Hl. unfold patch. rewrite drop_app_length' by (rewrite length_take; lia).
  apply take_app_length.
Qed.

Lemma take_drop_patch_ne o bs buf n i :
  (o + length bs <= length buf)%nat -> (i + n <= o \/ o + length bs <= i)%nat ->
  take n (drop i (patch o bs buf)) = take n (drop i buf).
Proof.
  intros Hl Hd. apply list_eq; intros j. destruct (decide (j < n)%nat).
  - rewrite !lookup_take_lt, !lookup_drop, lookup_patch by lia. by rewrite decide_False by lia.
  - by rewrite !lookup_take_ge by lia.
Qed.

Lemma Forall_patch P o bs buf : Forall P bs -> Forall P buf -> Forall P (patch o bs buf).
Proof. intros. unfold patch. by repeat apply Forall_app_2; [apply Forall_take| |apply Forall_drop]. Qed.

Lemma patch_patch o bs1 bs2 buf :
  (o + length (bs1 ++ bs2) <= length buf)%nat ->
  patch (o + length bs1) bs2 (patch o bs1 buf) = patch o (bs1 ++ bs2) buf.
Proof.
  rewrite length_app. intros Hl. apply list_eq; intros i.
  rewrite !lookup_patch by (rewrite ?length_patch, ?length_app; lia). rewrite length_app.
  repeat case_decide; try lia; try done.
  - rewrite lookup_app_r by lia. f_equal. lia.
  - by rewrite lookup_app_l by lia.
Qed.

Lemma patch_app_l o bs l1 l2 :
  (o + length bs <= length l1)%nat -> patch o bs (l1 ++ l2) = patch o bs l1 ++ l2.
Proof.
  intros Hl. unfold patch. by rewrite take_app_le, drop_app_le, <- !app_assoc by lia.
Qed.

Lemma patch_app_r o bs l1 l2 : patch (length l1 + o) bs (l1 ++ l2) = l1 ++ patch o bs l2.
Proof.
  unfold patch. rewrite take_app_add, <- app_assoc. do 3 f_equal.
  rewrite <- Nat.add_assoc. by rewrite drop_app_add.
Qed.

(** Sectors in a row. *)
Lemma take_drop_concat m o s (ls : list (list Z)) l :
  Forall (fun l => length l = SECTOR) ls -> ls !! s = Some l -> (o + m <= SECTOR)%nat ->
  take m (drop (SECTOR * s + o) (concat ls)) = take m (drop o l).
Proof.
  intros Hls. revert s; induction Hls as [|l' ls Hl' Hls IH]; intros [|s] Hs Hm; try done; cbn [concat].
  - injection Hs as ->. rewrite Nat.mul_0_r, Nat.add_0_l, drop_app_le, take_app_le by (rewrite ?length_drop; lia). done.
  - cbn in Hs. rewrite drop_app_ge by lia. replace (SECTOR * S s + o - length l')%nat with (SECTOR * s + o)%nat by lia.
    by apply IH.
Qed.

Lemma patch_concat o s bs (ls : list (list Z)) l :
  Forall (fun l => length l = SECTOR) ls -> ls !! s = Some l -> (o + length bs <= SECTOR)%nat ->
  concat (<[s := patch o bs l]> ls) = patch (SECTOR * s + o) bs (concat ls).
Proof.
  intros Hls. revert s; induction Hls as [|l' ls Hl' Hls IH]; intros [|s] Hs Hm; try done.
  - injection Hs as ->. change (concat (<[0%nat := patch o bs l]> (l :: ls))) with (patch o bs l ++ concat ls).
    cbn [concat]. rewrite Nat.mul_0_r, Nat.add_0_l, patch_app_l by lia. done.
  - cbn in Hs. change (concat (<[S s := patch o bs l]> (l' :: ls))) with (l' ++ concat (<[s := patch o bs l]> ls)).
    cbn [concat]. rewrite IH by done. rewrite <- patch_app_r. f_equal. lia.
Qed.

Lemma length_concat_sectors (ls : list (list Z)) :
  Forall (fun l => length l = SECTOR) ls -> length (concat ls) = (SECTOR * length ls)%nat.
Proof. induction 1 as [|l ls Hl Hls IH]; [done|]. cbn [concat length]. rewrite length_app, IH. lia. Qed.
End Buffers.

Lemma SECTOR_Z : Z.of_nat SECTOR = 512.
Proof. reflexivity. Qed.
#[local] Opaque SECTOR.

(** ** A mounted volume *)

Section Volume.
Context `{!Disk D}.
Implicit Types (d : D) (fi : fs_info) (c l : Z).

(** The number of entries of the table, all its copies taken together. *)
Definition entries fi : Z := 128 * (data_start fi - fat_start fi).

(** The table lies on served sectors and no offset in it wraps around. *)
Record fat_table fi d : Prop := {
  tab_mounted : mounted fi = 1;
  tab_bps : bytes_per_sector fi = 512;
  tab_range : 0 <= fat_start fi < data_start fi;
  tab_end : data_start fi <= 2 ^ 32;
  tab_small : entries fi <= 2 ^ 30;
  tab_served : forall l, fat_start fi <= l < data_start fi -> served d l;
}.

(** [n] bounds the cluster numbers; the data of the clusters [2 .. n-1] lie on
    served sectors behind the table. *)
Record volume (n : Z) fi d : Prop := {
  vol_table :> fat_table fi d;
  vol_spc : 0 < sectors_per_cluster fi < 256;
  vol_bpc : bytes_per_cluster fi = 512 * sectors_per_cluster fi;
  vol_n : 2 <= n <= FAT32_EOC;
  vol_entries : n <= entries fi;
  vol_data : data_start fi + (n - 2) * sectors_per_cluster fi <= 2 ^ 32;
  vol_served : forall l, data_start fi <= l < data_start fi + (n - 2) * sectors_per_cluster fi -> served d l;
}.

Definition sector_at d l : list Z := (ata_read_sectors l 1 d).2.

Lemma sector_read d l : served d l -> ata_read_sectors l 1 d = (0, sector_at d l) /\ is_sector (sector_at d l).
Proof. intros Hs. unfold sector_at. destruct (disk_read d l Hs) as (bs & -> & Hb). done. Qed.

(** The disk [d'] is [d] with [bs] in sector [l]. *)
Definition sector_set d l bs d' : Prop :=
  sector_at d' l = bs /\ (forall l', l' <> l -> sector_at d' l' = sector_at d l') /\
  forall l', served d' l' <-> served d l'.

Lemma sector_write d l bs :
  served d l -> is_sector bs -> exists d', ata_write_sectors l 1 bs d = (0, d') /\ sector_set d l bs d'.
Proof.
  intros Hs Hb. destruct (disk_write d l bs Hs Hb) as (d' & Hw & Hr & Hne & Hsv).
  exists d'. split; [done|]. split_and!; [|intros l' Hl|done]; unfold sector_at; [by rewrite Hr|by rewrite Hne].
Qed.

Lemma table_same fi d d' :
  fat_table fi d -> (forall l, served d' l <-> served d l) -> fat_table fi d'.
Proof. intros [] Hs. split; try done. intros l Hl. apply Hs. auto. Qed.

Lemma volume_same n fi d d' :
  volume n fi d -> (forall l, served d' l <-> served d l) -> volume n fi d'.
Proof.
  intros [] Hs. split; try done; [by eapply table_same|]. intros l Hl. apply Hs. auto.
Qed.

(** ** The file allocation table *)

Definition entry_sector fi c : Z := fat_start fi + c / 128.
Definition entry_offset (c : Z) : nat := Z.to_nat (c mod 128 * 4).

(** The four bytes of the entry of [c]. *)
Definition raw_entry d fi c : Z := le_value (take 4 (drop (entry_offset c) (sector_at d (entry_sector fi c)))).

(** The next cluster of [c]. *)
Definition fat d fi c : Z := Z.land (raw_entry d fi c) 0x0FFFFFFF.

Lemma entry_in_table fi d c :
  fat_table fi d -> 0 <= c < entries fi -> fat_start fi <= entry_sector fi c < data_start fi.
Proof. intros Hv Hc. unfold entries, entry_sector in *. Z.div_mod_to_equations. lia. Qed.

Lemma entry_served fi d c : fat_table fi d -> 0 <= c < entries fi -> served d (entry_sector fi c).
Proof. intros Hv Hc. apply (tab_served _ _ Hv). by eapply entry_in_table. Qed.

Lemma fat_location_eq fi d c :
  fat_table fi d -> 0 <= c < entries fi -> fat_location c fi = Some (entry_sector fi c, c mod 128 * 4).
Proof.
  intros Hv Hc. pose proof (entry_in_table fi d c Hv Hc) as Ht. destruct Hv as [_ Hbps Hr He Hs _].
  unfold fat_location. rewrite Hbps. cbn [Z.eqb].
  rewrite (wrap_small 32 (c * 4)) by (unfold in_u; lia).
  replace (c * 4 / 512) with (c / 128) by (Z.div_mod_to_equations; lia).
  replace (c * 4 mod 512) with (c mod 128 * 4) by (Z.div_mod_to_equations; lia).
  fold (entry_sector fi c). by rewrite wrap_small by (unfold in_u; lia).
Qed.

Lemma entry_offset_bound c : (entry_offset c + 4 <= SECTOR)%nat /\ Z.of_nat (entry_offset c) = c mod 128 * 4.
Proof. pose proof SECTOR_Z. pose proof (Z.mod_pos_bound c 128 ltac:(lia)). unfold entry_offset. lia. Qed.

Lemma read_entry fi d c :
  fat_table fi d -> 0 <= c < entries fi ->
  get_le 4 (c mod 128 * 4) (sector_at d (entry_sector fi c)) = Some (raw_entry d fi c).
Proof.
  intros Hv Hc. destruct (sector_read d _ (entry_served fi d c Hv Hc)) as [_ [Hl _]].
  destruct (entry_offset_bound c) as [Hb Ho]. unfold get_le. rewrite <- Ho, slice_eq by lia.
  by rewrite Nat2Z.id.
Qed.

Lemma fat32_read_eq fi d c :
  fat_table fi d -> 0 <= c < entries fi -> fat32_read_fat_entry c fi d = Some (fat d fi c).
Proof.
  intros Hv Hc. unfold fat32_read_fat_entry. rewrite (fat_location_eq fi d) by done. cbn [mbind option_bind].
  destruct (sector_read d _ (entry_served fi d c Hv Hc)) as [-> _]. cbn [Z.eqb negb].
  by rewrite (read_entry fi).
Qed.

Lemma le_value_range bs : Forall (in_u 8) bs -> 0 <= le_value bs < 2 ^ (8 * Z.of_nat (length bs)).
Proof.
  induction 1 as [|b bs Hb Hbs IH]; [cbn; lia|]. cbn [le_value length].
  replace (8 * Z.of_nat (S (length bs))) with (8 + 8 * Z.of_nat (length bs)) by lia.
  rewrite Z.pow_add_r by lia. unfold in_u in Hb. lia.
Qed.

Lemma Forall_le_bytes k v : Forall (in_u 8) (le_bytes k v).
Proof. revert v; induction k as [|k IH]; intros v; constructor; [apply wrap_range; lia|apply IH]. Qed.

Lemma raw_entry_range fi d c : fat_table fi d -> 0 <= c < entries fi -> in_u 32 (raw_entry d fi c).
Proof.
  intros Hv Hc. destruct (sector_read d _ (entry_served fi d c Hv Hc)) as [_ [Hl Hb]].
  destruct (entry_offset_bound c) as [Ho _]. unfold raw_entry, in_u.
  pose proof (le_value_range (take 4 (drop (entry_offset c) (sector_at d (entry_sector fi c))))) as H.
  rewrite length_take, length_drop, Nat.min_l in H by lia. apply H. by apply Forall_take, Forall_drop.
Qed.

(** The two parts of an entry. *)
Lemma mask_bits x i : 0 <= i ->
  Z.testbit (Z.land x 0x0FFFFFFF) i = (i <? 28) && Z.testbit x i /\
  Z.testbit (Z.land x 0xF0000000) i = (28 <=? i) && (i <? 32) && Z.testbit x i.
Proof.
  intros Hi. rewrite !Z.land_spec. change 0x0FFFFFFF with (Z.ones 28).
  change 0xF0000000 with (Z.shiftl (Z.ones 4) 28). rewrite Z.shiftl_spec, !Z.testbit_ones by lia.
  rewrite (proj2 (Z.leb_le 0 i)) by lia. split; [apply andb_comm|].
  rewrite (andb_comm (Z.testbit x i)). f_equal. f_equal; [destruct (Z.leb_spec 28 i)|destruct (Z.ltb_spec i 32)];
    [apply Z.leb_le|apply Z.leb_gt|apply Z.ltb_lt|apply Z.ltb_ge]; lia.
Qed.

Lemma lor_low x v :
  Z.land (Z.lor (Z.land x 0xF0000000) (Z.land v 0x0FFFFFFF)) 0x0FFFFFFF = Z.land v 0x0FFFFFFF.
Proof.
  apply Z.bits_inj'. intros i Hi. rewrite (proj1 (mask_bits _ i Hi)), Z.lor_spec.
  destruct (mask_bits x i Hi) as [_ ->]. destruct (mask_bits v i Hi) as [-> _].
  destruct (Z.ltb_spec i 28); [|done]. by rewrite (proj2 (Z.leb_gt _ _)) by lia.
Qed.

Lemma lor_high x v :
  Z.land (Z.lor (Z.land x 0xF0000000) (Z.land v 0x0FFFFFFF)) 0xF0000000 = Z.land x 0xF0000000.
Proof.
  apply Z.bits_inj'. intros i Hi. rewrite (proj2 (mask_bits _ i Hi)), Z.lor_spec.
  destruct (mask_bits x i Hi) as [_ ->]. destruct (mask_bits v i Hi) as [-> _].
  destruct (Z.leb_spec 28 i); [|done]. rewrite (proj2 (Z.ltb_ge i 28)) by lia.
  by destruct (i <? 32), (Z.testbit x i).
Qed.

(** What writing an entry does to the table. *)
Definition fat_set d fi c v d' : Prop :=
  fat d' fi c = Z.land v 0x0FFFFFFF /\
  Z.land (raw_entry d' fi c) 0xF0000000 = Z.land (raw_entry d fi c) 0xF0000000 /\
  (forall c', 0 <= c' -> c' <> c -> raw_entry d' fi c' = raw_entry d fi c') /\
  (forall l, l <> entry_sector fi c -> sector_at d' l = sector_at d l) /\
  forall l, served d' l <-> served d l.

Lemma fat32_write_eq fi d c v :
  fat_table fi d -> 0 <= c < entries fi -> in_u 32 v ->
  exists d', fat32_write_fat_entry c v fi d = Some (FS_SUCCESS, d') /\ fat_set d fi c v d'.
Proof.
  intros Hv Hc Hvr. unfold fat32_write_fat_entry. rewrite (fat_location_eq fi d) by done. cbn [mbind option_bind].
  pose proof (entry_served fi d c Hv Hc) as Hs.
  destruct (sector_read d _ Hs) as [-> [Hl Hb]]. cbn [Z.eqb negb].
  rewrite (read_entry fi) by done. cbn [mbind option_bind].
  set (v' := Z.lor _ _). destruct (entry_offset_bound c) as [Hob Ho].
  rewrite splice_eq by (rewrite length_le_bytes, <- Ho; lia). cbn [mbind option_bind].
  rewrite <- Ho, Nat2Z.id. fold (patch (entry_offset c) (le_bytes 4 v') (sector_at d (entry_sector fi c))).
  destruct (sector_write d (entry_sector fi c) (patch (entry_offset c) (le_bytes 4 v') (sector_at d (entry_sector fi c))) Hs)
    as (d' & -> & Hat & Hne & Hsv).
  { split; [by rewrite length_patch by (rewrite length_le_bytes; lia)|].
    apply Forall_patch; [apply Forall_le_bytes|done]. }
  cbn [negb Z.eqb]. exists d'. split; [done|].
  assert (Hr : in_u 32 (raw_entry d fi c)) by by eapply raw_entry_range.
  assert (Hraw : raw_entry d' fi c = v').
  { unfold raw_entry. rewrite Hat. rewrite <- (length_le_bytes 4 v') at 1.
    rewrite take_drop_patch_eq by (rewrite length_le_bytes; lia). rewrite le_value_le_bytes.
    apply wrap_small. apply in_u_lor; [lia|apply in_u_land; done|apply in_u_land; done]. }
  split_and!; [| |intros c' Hc' Hcc|done|done].
  - unfold fat. rewrite Hraw. apply lor_low.
  - rewrite Hraw. apply lor_high.
  - unfold raw_entry. destruct (decide (entry_sector fi c' = entry_sector fi c)) as [Heq|Hnes].
    + rewrite Heq, Hat. f_equal. apply take_drop_patch_ne; rewrite length_le_bytes; [lia|].
      unfold entry_sector in Heq. destruct (entry_offset_bound c') as [_ Ho'].
      assert (c' mod 128 <> c mod 128) by (Z.div_mod_to_equations; lia). lia.
    + by rewrite Hne.
Qed.

(** ** Allocation *)

(** The first free entry from [a] on, among those below [b]. *)
Definition first_free d fi (a b : Z) (r : option Z) : Prop :=
  match r with
  | Some c => a <= c < b /\ 2 <= c /\ fat d fi c = 0 /\
              forall c', a <= c' < c -> 2 <= c' -> fat d fi c' <> 0
  | None => forall c', a <= c' < b -> 2 <= c' -> fat d fi c' <> 0
  end.

Lemma first_free_weaken d fi a a' b r :
  a <= a' -> (forall c, a <= c < a' -> 2 <= c -> fat d fi c <> 0) ->
  first_free d fi a' b r -> first_free d fi a b r.
Proof.
  intros Ha Hn. destruct r as [c|]; cbn.
  - intros (Hc & H2 & Hf & Hl). split_and!; [lia|lia|done|done|].
    intros c' Hc' H2'. destruct (decide (c' < a')); [apply Hn|apply Hl]; lia.
  - intros Hl c' Hc' H2'. destruct (decide (c' < a')); [apply Hn|apply Hl]; lia.
Qed.

Lemma free_in_sector_spec fi d k n : forall j,
  fat_table fi d -> 0 <= k < data_start fi - fat_start fi -> 0 <= j -> j + Z.of_nat n = 128 ->
  exists r, free_in_sector n (j * 4) k (sector_at d (fat_start fi + k)) fi = Some r /\
    first_free d fi (128 * k + j) (128 * k + 128) r.
Proof.
  induction n as [|n IH]; intros j Ht Hk Hj Hn; cbn [free_in_sector].
  { exists None. split; [done|]. intros c' Hc'. lia. }
  set (c := 128 * k + j).
  assert (Hc : 0 <= c < entries fi) by (unfold c, entries; lia).
  assert (Hsec : entry_sector fi c = fat_start fi + k).
  { unfold entry_sector, c. f_equal. symmetry. apply Z.div_unique with j; lia. }
  assert (Hmod : c mod 128 = j) by (unfold c; symmetry; apply Z.mod_unique with k; lia).
  pose proof (read_entry fi d c Ht Hc) as Hr. rewrite Hsec, Hmod in Hr. rewrite Hr. cbn [mbind option_bind].
  fold (fat d fi c). rewrite (tab_bps _ _ Ht). pose proof (tab_small _ _ Ht).
  replace (u32 (k * 512 + j * 4) / 4) with c.
  2:{ rewrite wrap_small by (unfold in_u, entries in *; lia). unfold c.
      apply Z.div_unique with 0; lia. }
  destruct (Z.eqb_spec (fat d fi c) 0) as [Hf|Hf]; cbn [andb].
  - destruct (Z.leb_spec 2 c) as [H2|H2].
    + exists (Some c). split; [done|]. split_and!; [lia|unfold c; lia|done|done|]. intros; lia.
    + destruct (IH (j + 1) Ht Hk) as (r & Hrr & Hff); [lia|lia|].
      exists r. split; [by replace (j * 4 + 4) with ((j + 1) * 4) by lia|].
      apply (first_free_weaken d fi c (c + 1)); [lia| |by replace (c + 1) with (128 * k + (j + 1)) by (unfold c; lia)].
      intros; lia.
  - destruct (IH (j + 1) Ht Hk) as (r & Hrr & Hff); [lia|lia|].
    exists r. split; [by replace (j * 4 + 4) with ((j + 1) * 4) by lia|].
    apply (first_free_weaken d fi c (c + 1)); [lia| |by replace (c + 1) with (128 * k + (j + 1)) by (unfold c; lia)].
    intros c' Hc' _. by replace c' with c by lia.
Qed.

(** A free cluster marked as the end of a chain, or none left. *)
Definition allocated d fi (a : Z) (x : option (Z * D)) : Prop :=
  (exists c d', x = Some (c, d') /\ first_free d fi a (entries fi) (Some c) /\ fat_set d fi c FAT32_EOC d') \/
  (x = Some (0, d) /\ first_free d fi a (entries fi) None).

Lemma allocate_search_spec fi d n : forall k,
  fat_table fi d -> 0 <= k -> k + Z.of_nat n = data_start fi - fat_start fi ->
  allocated d fi (128 * k) (allocate_search n k fi d).
Proof.
  induction n as [|n IH]; intros k Ht Hk Hn; cbn [allocate_search].
  { right. split; [done|]. intros c' Hc'. unfold entries in Hc'. lia. }
  pose proof (tab_range _ _ Ht). pose proof (tab_end _ _ Ht).
  rewrite wrap_small by (unfold in_u; lia).
  destruct (sector_read d (fat_start fi + k)) as [-> _]; [apply (tab_served _ _ Ht); lia|]. cbn [Z.eqb negb].
  rewrite (tab_bps _ _ Ht). change (Z.to_nat ((512 + 3) / 4)) with 128%nat.
  destruct (free_in_sector_spec fi d k 128 0 Ht) as (r & Hr & Hf); [lia|lia|done|].
  rewrite Z.mul_0_l in Hr. rewrite Hr. cbn [mbind option_bind]. rewrite Z.add_0_r in Hf.
  destruct r as [c|].
  - destruct Hf as (Hc & H2 & Hfree & Hl).
    assert (Hce : 0 <= c < entries fi) by (unfold entries; lia).
    destruct (fat32_write_eq fi d c FAT32_EOC Ht Hce) as (d' & -> & Hset); [done|].
    cbn [mbind option_bind]. left. exists c, d'. split; [done|]. split; [|done].
    split; [lia|]. split; [lia|]. by split.
  - specialize (IH (k + 1) Ht ltac:(lia) ltac:(lia)).
    assert (Hw : forall r, first_free d fi (128 * (k + 1)) (entries fi) r -> first_free d fi (128 * k) (entries fi) r).
    { intros r. apply first_free_weaken; [lia|]. intros c' Hc' H2'. apply Hf; [lia|done]. }
    destruct IH as [(c & d' & Hx & Hff & Hset)|[Hx Hff]].
    + left. exists c, d'. split; [exact Hx|]. split; [by apply Hw|done].
    + right. split; [exact Hx|by apply Hw].
Qed.

(** ** Files as chains of clusters *)

Definition cluster_lba fi c : Z := data_start fi + (c - 2) * sectors_per_cluster fi.

Definition cluster_sectors d fi c : list (list Z) :=
  (fun s => sector_at d (cluster_lba fi c + Z.of_nat s)) <$> seq 0 (Z.to_nat (sectors_per_cluster fi)).

Definition cluster_bytes d fi c : list Z := concat (cluster_sectors d fi c).

(** The chain that starts at [c] has the clusters [cs]. *)
Fixpoint chain (n : Z) d fi c (cs : list Z) : Prop :=
  match cs with
  | [] => FAT32_EOC <= c
  | c' :: cs' => c = c' /\ 2 <= c < n /\ chain n d fi (fat d fi c) cs'
  end.

(** The bytes of a chain. *)
Definition content d fi (cs : list Z) : list Z := concat (cluster_bytes d fi <$> cs).

Lemma data_sector n fi d c s :
  volume n fi d -> 2 <= c < n -> 0 <= s < sectors_per_cluster fi ->
  data_start fi <= cluster_lba fi c + s < data_start fi + (n - 2) * sectors_per_cluster fi.
Proof. intros Hv Hc Hs. unfold cluster_lba. nia. Qed.

Lemma data_served n fi d c s :
  volume n fi d -> 2 <= c < n -> 0 <= s < sectors_per_cluster fi -> served d (cluster_lba fi c + s).
Proof. intros Hv Hc Hs. by apply (vol_served _ _ _ Hv), data_sector with d. Qed.

Lemma lba_eq n fi d c s :
  volume n fi d -> 2 <= c < n -> 0 <= s < sectors_per_cluster fi ->
  u32 (fat32_cluster_to_lba c fi + s) = cluster_lba fi c + s.
Proof.
  intros Hv Hc Hs. pose proof (data_sector n fi d c s Hv Hc Hs) as Hd. pose proof (data_sector n fi d c 0 Hv Hc) as H0.
  pose proof (vol_data _ _ _ Hv). pose proof (vol_n _ _ _ Hv). pose proof (vol_spc _ _ _ Hv).
  pose proof (tab_range _ _ (vol_table _ _ _ Hv)). unfold FAT32_EOC in *.
  unfold fat32_cluster_to_lba. rewrite (wrap_small 32 (c - 2)) by (unfold in_u; lia).
  fold (cluster_lba fi c). by rewrite (wrap_small 32 (cluster_lba fi c)), wrap_small by (unfold in_u; lia).
Qed.

Lemma cluster_sectors_len n fi d c :
  volume n fi d -> 2 <= c < n -> Forall (fun s : list Z => length s = SECTOR) (cluster_sectors d fi c).
Proof.
  intros Hv Hc. apply Forall_fmap, Forall_forall. intros s Hs. apply elem_of_seq in Hs.
  pose proof (vol_spc _ _ _ Hv). cbn. apply sector_read. apply (data_served n fi d); [done..|lia].
Qed.

Lemma cluster_sectors_lookup d fi c s :
  0 <= s < sectors_per_cluster fi ->
  cluster_sectors d fi c !! Z.to_nat s = Some (sector_at d (cluster_lba fi c + s)).
Proof.
  intros Hs. unfold cluster_sectors. rewrite list_lookup_fmap, lookup_seq_lt by lia. cbn.
  by rewrite Z2Nat.id by lia.
Qed.

Lemma length_cluster_bytes n fi d c :
  volume n fi d -> 2 <= c < n -> Z.of_nat (length (cluster_bytes d fi c)) = bytes_per_cluster fi.
Proof.
  intros Hv Hc. unfold cluster_bytes. rewrite length_concat_sectors by by eapply cluster_sectors_len.
  unfold cluster_sectors. rewrite length_fmap, length_seq, (vol_bpc _ _ _ Hv).
  pose proof (vol_spc _ _ _ Hv). pose proof SECTOR_Z. lia.
Qed.

Lemma content_cons d fi c cs : content d fi (c :: cs) = cluster_bytes d fi c ++ content d fi cs.
Proof. done. Qed.

(** The place of a position in a cluster. *)
Lemma position_split n fi d cp m :
  volume n fi d -> 0 <= cp < bytes_per_cluster fi -> 0 <= m <= 512 - cp mod 512 ->
  0 <= cp / 512 < sectors_per_cluster fi /\ 0 <= cp mod 512 < 512 /\ cp + m <= bytes_per_cluster fi /\
  Z.to_nat cp = (SECTOR * Z.to_nat (cp / 512) + Z.to_nat (cp mod 512))%nat /\
  (Z.to_nat (cp mod 512) + Z.to_nat m <= SECTOR)%nat.
Proof.
  intros Hv Hcp Hm. rewrite (vol_bpc _ _ _ Hv) in *. pose proof SECTOR_Z.
  pose proof (Z.mod_pos_bound cp 512 ltac:(lia)). pose proof (Z.div_mod cp 512 ltac:(lia)) as Hd.
  assert (0 <= cp / 512) by (apply Z.div_pos; lia).
  assert (cp / 512 < sectors_per_cluster fi) by (apply Z.div_lt_upper_bound; lia).
  split_and!; try lia.
Qed.

(** The run of bytes that one turn of a loop reads. *)
Lemma slice_cluster n fi d c cp m :
  volume n fi d -> 2 <= c < n -> 0 <= cp < bytes_per_cluster fi -> 0 <= m <= 512 - cp mod 512 ->
  slice m (cp mod 512) (sector_at d (cluster_lba fi c + cp / 512)) =
    Some (take (Z.to_nat m) (drop (Z.to_nat cp) (cluster_bytes d fi c))).
Proof.
  intros Hv Hc Hcp Hm. destruct (position_split n fi d cp m Hv Hcp Hm) as (Hs & Ho & _ & Hn & Hle).
  destruct (sector_read d _ (data_served n fi d c _ Hv Hc Hs)) as [_ [Hl _]]. pose proof SECTOR_Z.
  rewrite slice_eq by lia. f_equal. rewrite Hn. symmetry.
  apply take_drop_concat; [by eapply cluster_sectors_len|by apply cluster_sectors_lookup|done].
Qed.

Lemma read_loop_spec n fi d fuel : forall bytes_left c cs cp f,
  volume n fi d -> chain n d fi c cs -> 0 <= cp < bytes_per_cluster fi -> 0 <= bytes_left ->
  bytes_left <= Z.of_nat fuel -> cp + bytes_left <= Z.of_nat (length (content d fi cs)) ->
  0 <= f_position f -> f_position f + bytes_left < 2 ^ 32 ->
  read_loop fuel bytes_left c cp f fi d =
    Some (Some 0, take (Z.to_nat bytes_left) (drop (Z.to_nat cp) (content d fi cs)),
          set_f_position (f_position f + bytes_left) f).
Proof.
  induction fuel as [|fuel IH]; intros left c cs cp f Hv Hch Hcp Hl0 Hlf Hlc Hp0 Hp.
  all: cbn [read_loop]; destruct (Z.eqb_spec left 0) as [Hz|Hz].
  1,3: subst left; rewrite Z.add_0_r; by destruct f.
  { lia. }
  destruct cs as [|c' cs]; [cbn in Hlc; lia|]. destruct Hch as (<- & Hc & Hch).
  rewrite (tab_bps _ _ (vol_table _ _ _ Hv)). cbn [Z.eqb].
  set (m := if left <? 512 - cp mod 512 then left else 512 - cp mod 512).
  pose proof (Z.mod_pos_bound cp 512 ltac:(lia)) as Hmb.
  assert (Hm : 0 < m <= 512 - cp mod 512 /\ m <= left) by (unfold m; destruct (Z.ltb_spec left (512 - cp mod 512)); lia).
  destruct (position_split n fi d cp m Hv Hcp) as (Hs & Ho & Hcm & Hn & Hle); [lia|].
  rewrite (lba_eq n fi d) by done.
  destruct (sector_read d _ (data_served n fi d c _ Hv Hc Hs)) as [-> _]. cbn [Z.eqb negb].
  rewrite (slice_cluster n fi d) by (done || lia). cbn [mbind option_bind].
  pose proof (length_cluster_bytes n fi d c Hv Hc) as Hlen. rewrite content_cons in Hlc |- *.
  rewrite length_app in Hlc. pose proof (vol_spc _ _ _ Hv). pose proof (vol_bpc _ _ _ Hv) as Hbpc.
  rewrite (wrap_small 32 (cp + m)), (wrap_small 32 (f_position f + m)) by (unfold in_u; lia).
  assert (Hfin : forall rest, rest = take (Z.to_nat (left - m)) (drop (Z.to_nat (cp + m)) (cluster_bytes d fi c ++ content d fi cs)) ->
    Some (Some 0, take (Z.to_nat m) (drop (Z.to_nat cp) (cluster_bytes d fi c)) ++ rest,
      set_f_position (f_position f + m + (left - m)) (set_f_position (f_position f + m) f)) =
    Some (Some 0, take (Z.to_nat left) (drop (Z.to_nat cp) (cluster_bytes d fi c ++ content d fi cs)),
      set_f_position (f_position f + left) f)).
  { intros rest ->. f_equal. f_equal; [f_equal|].
    - replace (Z.to_nat left) with (Z.to_nat m + Z.to_nat (left - m))%nat by lia.
      rewrite <- take_take_drop, drop_drop. replace (Z.to_nat cp + Z.to_nat m)%nat with (Z.to_nat (cp + m)) by lia.
      f_equal. rewrite (drop_app_le (cluster_bytes d fi c)), take_app_le by (rewrite ?length_drop; lia). done.
    - destruct f. unfold set_f_position. cbn. f_equal. lia. }
  destruct (Z.leb_spec (bytes_per_cluster fi) (cp + m)) as [Hend|Hend].
  - assert (Hce : 0 <= c < entries fi) by (pose proof (vol_entries _ _ _ Hv); lia).
    rewrite (fat32_read_eq fi d c (vol_table _ _ _ Hv) Hce). cbn [mbind option_bind].
    assert (Hne : (FAT32_EOC <=? fat d fi c) && (0 <? left - m) = false).
    { destruct (Z.ltb_spec 0 (left - m)); [|apply andb_false_r]. rewrite andb_true_r. apply Z.leb_gt.
      pose proof (vol_n _ _ _ Hv). destruct cs as [|c2 cs]; [cbn in Hlc; lia|]. destruct Hch as (-> & ? & _). lia. }
    rewrite Hne. rewrite (IH (left - m) _ cs 0) by (done || (cbn; lia)). cbn [mbind option_bind].
    apply Hfin. f_equal. rewrite drop_app_ge by lia. f_equal. lia.
  - rewrite (IH (left - m) c (c :: cs) (cp + m)); try done; try lia.
    + cbn [mbind option_bind]. by apply Hfin.
    + rewrite content_cons, length_app. lia.
    + cbn. lia.
    + cbn. lia.
Qed.

(** The loop to the cluster of the position passes one cluster a turn. *)
Lemma seek_cluster_spec n fi d f fuel : forall c cs pos,
  volume n fi d -> chain n d fi c cs -> 0 <= pos <= f_position f ->
  f_position f + bytes_per_cluster fi < 2 ^ 32 ->
  (f_position f - pos) / bytes_per_cluster fi < Z.of_nat (length cs) ->
  (f_position f - pos) / bytes_per_cluster fi <= Z.of_nat fuel ->
  exists c', seek_cluster fuel c pos f fi d = Some (Some c') /\
    chain n d fi c' (drop (Z.to_nat ((f_position f - pos) / bytes_per_cluster fi)) cs).
Proof.
  set (b := bytes_per_cluster fi).
  induction fuel as [|fuel IH]; intros c cs pos Hv Hch Hpos Hp Hlen Hf;
    assert (Hb : 0 < b) by (pose proof (vol_bpc _ _ _ Hv); pose proof (vol_spc _ _ _ Hv); lia);
    cbn [seek_cluster]; fold b; rewrite wrap_small by (unfold in_u; lia);
    destruct (Z.leb_spec (pos + b) (f_position f)) as [Hle|Hgt].
  1: { exfalso. assert (1 <= (f_position f - pos) / b) by (apply Z.div_le_lower_bound; lia). lia. }
  1,3: rewrite Z.div_small by lia; by exists c.
  assert (Hq : (f_position f - pos) / b = (f_position f - (pos + b)) / b + 1).
  { replace (f_position f - pos) with ((f_position f - (pos + b)) + 1 * b) by lia. by rewrite Z.div_add by lia. }
  assert (Hq0 : 0 <= (f_position f - (pos + b)) / b) by (apply Z.div_pos; lia).
  destruct cs as [|c1 cs]; [cbn in Hlen; lia|]. destruct Hch as (<- & Hc & Hch). cbn [length] in Hlen.
  rewrite (fat32_read_eq fi d c (vol_table _ _ _ Hv)) by (pose proof (vol_entries _ _ _ Hv); lia).
  cbn [mbind option_bind]. rewrite (proj2 (Z.leb_gt _ _)).
  2:{ pose proof (vol_n _ _ _ Hv). destruct cs as [|c2 cs]; [cbn in Hlen; lia|]. destruct Hch as (-> & ? & _). lia. }
  destruct (IH (fat d fi c) cs (pos + b) Hv Hch) as (c' & Hs & Hc'); [lia|done|lia|lia|].
  exists c'. split; [done|]. rewrite Hq.
  replace (Z.to_nat ((f_position f - (pos + b)) / b + 1)) with (S (Z.to_nat ((f_position f - (pos + b)) / b))) by lia.
  exact Hc'.
Qed.

Lemma length_content n fi d c cs :
  volume n fi d -> chain n d fi c cs ->
  Z.of_nat (length (content d fi cs)) = bytes_per_cluster fi * Z.of_nat (length cs).
Proof.
  intros Hv. revert c; induction cs as [|c' cs IH]; intros c Hch; [cbn; lia|].
  destruct Hch as (<- & Hc & Hch). rewrite content_cons, length_app. cbn [length].
  pose proof (length_cluster_bytes n fi d c Hv Hc). specialize (IH _ Hch). lia.
Qed.

Lemma content_app d fi cs cs' : content d fi (cs ++ cs') = content d fi cs ++ content d fi cs'.
Proof. unfold content. by rewrite fmap_app, concat_app. Qed.

Lemma chain_clusters n d fi c cs : chain n d fi c cs -> Forall (fun c => 2 <= c < n) cs.
Proof.
  revert c; induction cs as [|c' cs IH]; intros c Hch; [constructor|].
  destruct Hch as (<- & Hc & Hch). constructor; [done|]. by eapply IH.
Qed.

Lemma length_content_clusters n fi d cs :
  volume n fi d -> Forall (fun c => 2 <= c < n) cs ->
  Z.of_nat (length (content d fi cs)) = bytes_per_cluster fi * Z.of_nat (length cs).
Proof.
  intros Hv. induction 1 as [|c cs Hc Hcs IH]; [cbn; lia|].
  rewrite content_cons, length_app. cbn [length]. pose proof (length_cluster_bytes n fi d c Hv Hc). lia.
Qed.

(** A position seen from the cluster it lies in. *)
Lemma drop_content n fi d cs p :
  volume n fi d -> Forall (fun c => 2 <= c < n) cs -> 0 <= p < Z.of_nat (length (content d fi cs)) ->
  let q := p / bytes_per_cluster fi in
  0 <= q < Z.of_nat (length cs) /\ 0 <= p mod bytes_per_cluster fi < bytes_per_cluster fi /\
  content d fi cs = content d fi (take (Z.to_nat q) cs) ++ content d fi (drop (Z.to_nat q) cs) /\
  (Z.to_nat p = length (content d fi (take (Z.to_nat q) cs)) + Z.to_nat (p mod bytes_per_cluster fi))%nat.
Proof.
  intros Hv Hcs Hp q. rewrite (length_content_clusters n) in Hp by done.
  assert (Hb : 0 < bytes_per_cluster fi) by (pose proof (vol_bpc _ _ _ Hv); pose proof (vol_spc _ _ _ Hv); lia).
  assert (Hq0 : 0 <= q) by (apply Z.div_pos; lia).
  assert (Hq : q < Z.of_nat (length cs)) by (apply Z.div_lt_upper_bound; lia).
  pose proof (Z.mod_pos_bound p (bytes_per_cluster fi) Hb) as Hm. split; [lia|]. split; [done|]. split.
  - by rewrite <- content_app, take_drop.
  - pose proof (length_content_clusters n fi d (take (Z.to_nat q) cs) Hv) as Hl.
    rewrite length_take, Nat.min_l in Hl by lia. specialize (Hl (Forall_take _ _ _ Hcs)).
    pose proof (Z.div_mod p (bytes_per_cluster fi) ltac:(lia)) as Hd. fold q in Hd. nia.
Qed.

(** A file: its chain covers its size, and no position in it wraps around. *)
Record file_ok (n : Z) fi d f (cs : list Z) : Prop := {
  file_plain : is_directory f = false;
  file_chain : chain n d fi (de_cluster (f_dirent f)) cs;
  file_size : 0 <= de_size (f_dirent f) <= Z.of_nat (length (content d fi cs));
  file_position : 0 <= f_position f;
  file_small : Z.of_nat (length (content d fi cs)) + bytes_per_cluster fi < 2 ^ 31;
}.

Lemma fs_read_eq n fi d f cs fuel size :
  volume n fi d -> file_ok n fi d f cs -> 0 <= size < 2 ^ 31 -> f_position f <= de_size (f_dirent f) ->
  de_size (f_dirent f) <= Z.of_nat fuel ->
  let m := Z.min size (de_size (f_dirent f) - f_position f) in
  fs_read fuel f size fi d =
    Some (m, take (Z.to_nat m) (drop (Z.to_nat (f_position f)) (content d fi cs)),
          set_f_position (f_position f + m) f).
Proof.
  intros Hv [Hd Hch Hsz Hp0 Hsm] Hsize Hle Hfu m. unfold fs_read.
  rewrite (tab_mounted _ _ (vol_table _ _ _ Hv)), Hd. cbn [Z.eqb].
  assert (Hb : 0 < bytes_per_cluster fi) by (pose proof (vol_bpc _ _ _ Hv); pose proof (vol_spc _ _ _ Hv); lia).
  destruct (Z.leb_spec (de_size (f_dirent f)) (f_position f)) as [He|He].
  { assert (m = 0) as -> by (unfold m; lia). rewrite Z.add_0_r. by destruct f. }
  rewrite wrap_small by (unfold in_u; lia).
  replace (if de_size (f_dirent f) <? f_position f + size then de_size (f_dirent f) - f_position f else size) with m
    by (unfold m; destruct (Z.ltb_spec (de_size (f_dirent f)) (f_position f + size)); lia).
  rewrite (proj2 (Z.eqb_neq _ 0)) by lia. pose proof (chain_clusters _ _ _ _ _ Hch) as Hcs.
  destruct (drop_content n fi d cs (f_position f) Hv Hcs) as (Hq & Hm & Hsplit & Hpos); [lia|].
  set (q := f_position f / bytes_per_cluster fi) in *. set (cp := f_position f mod bytes_per_cluster fi) in *.
  destruct (seek_cluster_spec n fi d f fuel (de_cluster (f_dirent f)) cs 0 Hv Hch) as (c' & -> & Hch');
    rewrite ?Z.sub_0_r in *; fold q; try lia.
  { pose proof (Z.div_le_upper_bound (f_position f) (bytes_per_cluster fi) (f_position f) Hb). nia. }
  cbn [mbind option_bind]. fold q in Hch'.
  assert (Hcl : Z.of_nat (length (content d fi cs))
    = f_position f - cp + Z.of_nat (length (content d fi (drop (Z.to_nat q) cs)))) by (rewrite Hsplit, length_app; lia).
  rewrite (read_loop_spec n fi d fuel m c' (drop (Z.to_nat q) cs) cp f) by (done || (unfold m; lia)).
  cbn [mbind option_bind]. rewrite Z.sub_0_r, s32_small by (unfold in_s32, m; lia). do 2 f_equal. f_equal.
  rewrite Hsplit, Hpos, drop_app_add. done.
Qed.

(** ** Writing inside a chain *)

Lemma chain_fun n fi d c cs cs' : n <= FAT32_EOC -> chain n d fi c cs -> chain n d fi c cs' -> cs = cs'.
Proof.
  intros Hn. revert c cs'; induction cs as [|c1 cs IH]; intros c [|c2 cs'] H1 H2; [done|..].
  - destruct H2 as (_ & ? & _). cbn in H1. lia.
  - destruct H1 as (_ & ? & _). cbn in H2. lia.
  - destruct H1 as (<- & _ & H1), H2 as (<- & _ & H2). f_equal. by eapply IH.
Qed.

Lemma chain_suffix n fi d c (cs1 cs2 : list Z) c' : chain n d fi c (cs1 ++ c' :: cs2) -> chain n d fi c' (c' :: cs2).
Proof.
  revert c; induction cs1 as [|c1 cs1 IH]; intros c; cbn [app]; intros Hc.
  - by destruct Hc as (<- & ? & ?).
  - destruct Hc as (_ & _ & Hc). by eapply IH.
Qed.

(** A chain that ends has no cluster twice. *)
Lemma chain_nodup n fi d c cs : n <= FAT32_EOC -> chain n d fi c cs -> NoDup cs.
Proof.
  intros Hn. revert c; induction cs as [|c1 cs IH]; intros c Hc; [constructor|].
  pose proof Hc as (Heq & Hr & Hch). constructor; [|by eapply IH]. subst c1.
  intros (cs1 & cs2 & ->)%list_elem_of_split.
  pose proof (chain_suffix n fi d _ cs1 cs2 c Hch) as Hs. pose proof (chain_fun n fi d c _ _ Hn Hc Hs) as He.
  apply (f_equal length) in He. cbn in He. rewrite length_app in He. cbn in He. lia.
Qed.

(** The sectors of the clusters [cs]. *)
Definition data_of fi (cs : list Z) l : Prop :=
  exists c s, c ∈ cs /\ 0 <= s < sectors_per_cluster fi /\ l = cluster_lba fi c + s.

Lemma cluster_lba_inj n fi d c c' s s' :
  volume n fi d -> 0 <= s < sectors_per_cluster fi -> 0 <= s' < sectors_per_cluster fi ->
  cluster_lba fi c + s = cluster_lba fi c' + s' -> c = c' /\ s = s'.
Proof. intros Hv Hs Hs'. unfold cluster_lba. intros He. assert (c = c') by nia. subst. lia. Qed.

Lemma cluster_bytes_ext d d' fi c :
  (forall s, 0 <= s < sectors_per_cluster fi -> sector_at d' (cluster_lba fi c + s) = sector_at d (cluster_lba fi c + s)) ->
  cluster_bytes d' fi c = cluster_bytes d fi c.
Proof.
  intros Hs. unfold cluster_bytes, cluster_sectors. f_equal. apply list_fmap_ext. intros i s Hi.
  apply lookup_seq in Hi as [-> Hi]. apply Hs. lia.
Qed.

Lemma content_ext d d' fi cs :
  (forall c, c ∈ cs -> cluster_bytes d' fi c = cluster_bytes d fi c) -> content d' fi cs = content d fi cs.
Proof.
  intros Hc. unfold content. f_equal. apply list_fmap_ext. intros i c Hi. apply Hc. by eapply list_elem_of_lookup_2.
Qed.

(** Clusters none of whose sectors was written. *)
Lemma content_frame n fi d d' cs cs' :
  volume n fi d -> (forall l, ~ data_of fi cs l -> sector_at d' l = sector_at d l) ->
  (forall c, c ∈ cs' -> c ∉ cs) -> content d' fi cs' = content d fi cs'.
Proof.
  intros Hv Hf Hd. apply content_ext. intros c Hc. apply cluster_bytes_ext. intros s Hs. apply Hf.
  intros (c2 & s2 & Hc2 & Hs2 & He). destruct (cluster_lba_inj n fi d c c2 s s2 Hv Hs Hs2 He) as [-> _].
  by apply (Hd c2).
Qed.

(** Writing data leaves the table alone. *)
Lemma fat_frame n fi d d' cs :
  volume n fi d -> Forall (fun c => 2 <= c < n) cs ->
  (forall l, ~ data_of fi cs l -> sector_at d' l = sector_at d l) ->
  forall c, 0 <= c < entries fi -> raw_entry d' fi c = raw_entry d fi c.
Proof.
  intros Hv Hcs Hf c Hc. unfold raw_entry. rewrite Hf; [done|]. intros (c2 & s2 & Hc2 & Hs2 & He).
  rewrite Forall_forall in Hcs. pose proof (data_sector n fi d c2 s2 Hv (Hcs _ Hc2) Hs2).
  pose proof (entry_in_table fi d c (vol_table _ _ _ Hv) Hc). lia.
Qed.

Lemma chain_frame n fi d d' cs c0 cs0 :
  volume n fi d -> Forall (fun c => 2 <= c < n) cs ->
  (forall l, ~ data_of fi cs l -> sector_at d' l = sector_at d l) ->
  chain n d fi c0 cs0 -> chain n d' fi c0 cs0.
Proof.
  intros Hv Hcs Hf. revert c0; induction cs0 as [|c cs0 IH]; intros c0; cbn [chain]; [done|].
  intros (-> & Hc & Hch). split_and!; [done|lia|lia|]. unfold fat in *.
  rewrite (fat_frame n fi d d' cs Hv Hcs Hf) by (pose proof (vol_entries _ _ _ Hv); lia). by apply IH.
Qed.

(** One turn of the loop: [bs] at [cp] in the cluster [c]. *)
Lemma write_sector_spec n fi d c cs cp bs :
  volume n fi d -> chain n d fi c (c :: cs) -> 0 <= cp < bytes_per_cluster fi ->
  Z.of_nat (length bs) <= 512 - cp mod 512 -> Forall (in_u 8) bs ->
  exists buf d1,
    splice (cp mod 512) bs (sector_at d (cluster_lba fi c + cp / 512)) = Some buf /\
    ata_write_sectors (cluster_lba fi c + cp / 512) 1 buf d = (0, d1) /\
    (forall l, served d1 l <-> served d l) /\
    (forall l, ~ data_of fi [c] l -> sector_at d1 l = sector_at d l) /\
    cluster_bytes d1 fi c = patch (Z.to_nat cp) bs (cluster_bytes d fi c).
Proof.
  intros Hv (_ & Hc & _) Hcp Hbs Hb8.
  destruct (position_split n fi d cp (Z.of_nat (length bs)) Hv Hcp) as (Hs & Ho & _ & Hn & Hle); [lia|].
  rewrite Nat2Z.id in Hle. pose proof (data_served n fi d c _ Hv Hc Hs) as Hsv. pose proof SECTOR_Z.
  destruct (sector_read d _ Hsv) as [_ [Hl H8]]. rewrite splice_eq by lia. eexists.
  fold (patch (Z.to_nat (cp mod 512)) bs (sector_at d (cluster_lba fi c + cp / 512))).
  destruct (sector_write d (cluster_lba fi c + cp / 512)
    (patch (Z.to_nat (cp mod 512)) bs (sector_at d (cluster_lba fi c + cp / 512))) Hsv) as (d1 & Hw & Hat & Hne & Hsv').
  { split; [rewrite length_patch; lia|by apply Forall_patch]. }
  exists d1. split; [reflexivity|]. split; [exact Hw|]. split; [done|]. split.
  - intros l Hld. apply Hne. intros ->. apply Hld. exists c, (cp / 512). split; [by apply list_elem_of_singleton|done].
  - rewrite Hn. unfold cluster_bytes. rewrite <- (patch_concat _ _ _ _ (sector_at d (cluster_lba fi c + cp / 512)));
      [|by eapply cluster_sectors_len|by apply cluster_sectors_lookup|done].
    f_equal. apply list_eq; intros i. unfold cluster_sectors.
    destruct (decide (i = Z.to_nat (cp / 512))) as [->|Hi].
    + rewrite list_lookup_insert_eq by (rewrite length_fmap, length_seq; lia).
      rewrite list_lookup_fmap, lookup_seq_lt by lia. cbn. rewrite Z2Nat.id by lia. by rewrite Hat.
    + rewrite list_lookup_insert_ne, !list_lookup_fmap by done.
      destruct (seq 0 _ !! i) as [s|] eqn:Es; [|done]. cbn. apply lookup_seq in Es as [-> Es].
      f_equal. apply Hne. intros He. apply (cluster_lba_inj n fi d) in He as [_ He]; try done; lia.
Qed.

(** What a write of [bs] at [p] does to a chain and the rest of the disk. *)
Definition written fi d (cs : list Z) (p : Z) (bs : list Z) d' : Prop :=
  (forall l, served d' l <-> served d l) /\
  (forall l, ~ data_of fi cs l -> sector_at d' l = sector_at d l) /\
  content d' fi cs = patch (Z.to_nat p) bs (content d fi cs).

Lemma patch_nil o buf : patch o [] buf = buf.
Proof. unfold patch. cbn. by rewrite Nat.add_0_r, take_drop. Qed.

Lemma written_nil fi d cs p : written fi d cs p [] d.
Proof. split_and!; [done|done|]. by rewrite patch_nil. Qed.

(** The first turn, then the rest in the same cluster. *)
Lemma written_step fi d d1 d' c cs cp bs bs' :
  (forall l, served d1 l <-> served d l) -> (forall l, ~ data_of fi [c] l -> sector_at d1 l = sector_at d l) ->
  content d1 fi (c :: cs) = patch (Z.to_nat cp) bs (content d fi (c :: cs)) ->
  0 <= cp -> (Z.to_nat cp + length (bs ++ bs') <= length (content d fi (c :: cs)))%nat ->
  written fi d1 (c :: cs) (cp + Z.of_nat (length bs)) bs' d' -> written fi d (c :: cs) cp (bs ++ bs') d'.
Proof.
  intros Hs1 Hf1 Hc1 Hcp Hl (Hs & Hf & Hc). split_and!.
  - intros l. by rewrite Hs.
  - intros l Hd. rewrite Hf by done. apply Hf1. intros (c2 & s & Hc2%list_elem_of_singleton & ? & ?). subst.
    apply Hd. exists c, s. split; [left|done].
  - rewrite Hc, Hc1. replace (Z.to_nat (cp + Z.of_nat (length bs))) with (Z.to_nat cp + length bs)%nat by lia.
    by apply patch_patch.
Qed.

(** The first turn fills the cluster, the rest goes to the following ones. *)
Lemma written_next n fi d d1 d' c cs bs' :
  volume n fi d1 -> c ∉ cs -> Forall (fun c => 2 <= c < n) (c :: cs) ->
  written fi d1 cs 0 bs' d' -> written fi d1 (c :: cs) (bytes_per_cluster fi) bs' d'.
Proof.
  intros Hv Hn Hcs (Hs & Hf & Hc). apply Forall_cons in Hcs as [Hcr _]. split_and!; [done| |].
  - intros l Hd. apply Hf. intros (c2 & s & Hc2 & ? & ?). apply Hd. exists c2, s. split; [by right|done].
  - rewrite !content_cons, Hc.
    pose proof (content_frame n fi d1 d' cs [c] Hv Hf) as Hb. unfold content in Hb. cbn in Hb. rewrite !app_nil_r in Hb.
    rewrite Hb by (intros c2 ->%list_elem_of_singleton; done).
    rewrite <- patch_app_r. f_equal. pose proof (length_cluster_bytes n fi d1 c Hv Hcr).
    change (Z.to_nat 0) with 0%nat. lia.
Qed.

(** What a turn leaves for the next one. *)
Lemma write_turn n fi d d1 c cs cp bs src' :
  volume n fi d -> chain n d fi c (c :: cs) -> 0 <= cp -> 2 <= c < n ->
  cp + Z.of_nat (length bs) <= bytes_per_cluster fi ->
  cp + Z.of_nat (length (bs ++ src')) <= Z.of_nat (length (content d fi (c :: cs))) ->
  (forall l, served d1 l <-> served d l) -> (forall l, ~ data_of fi [c] l -> sector_at d1 l = sector_at d l) ->
  cluster_bytes d1 fi c = patch (Z.to_nat cp) bs (cluster_bytes d fi c) ->
  volume n fi d1 /\ chain n d1 fi c (c :: cs) /\ (c ∉ cs) /\ content d1 fi cs = content d fi cs /\
  length (content d1 fi (c :: cs)) = length (content d fi (c :: cs)) /\
  forall d', written fi d1 (c :: cs) (cp + Z.of_nat (length bs)) src' d' -> written fi d (c :: cs) cp (bs ++ src') d'.
Proof.
  intros Hv Hch Hcp Hc Hbs Hlc Hs1 Hf1 Hb1. pose proof (length_cluster_bytes n fi d c Hv Hc) as Hlen.
  assert (Hnc : c ∉ cs).
  { pose proof (chain_nodup n fi d c (c :: cs) (proj2 (vol_n _ _ _ Hv)) Hch) as Hnd. by apply NoDup_cons in Hnd as [? _]. }
  assert (Hrest : content d1 fi cs = content d fi cs).
  { apply (content_frame n fi d d1 [c]); [done|done|]. intros c2 Hc2 ->%list_elem_of_singleton. done. }
  assert (Hc1 : content d1 fi (c :: cs) = patch (Z.to_nat cp) bs (content d fi (c :: cs))).
  { rewrite !content_cons, Hb1, Hrest. symmetry. apply patch_app_l. lia. }
  rewrite length_app in Hlc. split; [by eapply volume_same|].
  split; [apply (chain_frame n fi d d1 [c]); [done|by constructor|done|exact Hch]|].
  split; [exact Hnc|]. split; [exact Hrest|]. split; [rewrite Hc1; apply length_patch; lia|].
  intros d' Hd'. apply (written_step fi d d1); try done. rewrite length_app. lia.
Qed.

Lemma write_loop_spec n fi fuel : forall d src c cs cp f,
  volume n fi d -> chain n d fi c cs -> 0 <= cp < bytes_per_cluster fi -> Forall (in_u 8) src ->
  Z.of_nat (length src) <= Z.of_nat fuel -> cp + Z.of_nat (length src) <= Z.of_nat (length (content d fi cs)) ->
  0 <= f_position f -> f_position f + Z.of_nat (length src) < 2 ^ 32 ->
  exists d', fs_write_loop fuel src c cp f fi d =
      Some (Some 0, set_f_position (f_position f + Z.of_nat (length src)) f, d') /\
    written fi d cs cp src d'.
Proof.
  induction fuel as [|fuel IH]; intros d src c cs cp f Hv Hch Hcp H8 Hfu Hlc Hp0 Hp.
  all: cbn [fs_write_loop]; destruct (Z.eqb_spec (Z.of_nat (length src)) 0) as [Hz|Hz].
  1,3: assert (src = []) as -> by (by apply nil_length_inv; lia); exists d; rewrite Z.add_0_r;
       (split; [by destruct f|apply written_nil]).
  { lia. }
  destruct cs as [|c' cs]; [cbn in Hlc; lia|]. pose proof Hch as (<- & Hc & Hnext).
  rewrite (tab_bps _ _ (vol_table _ _ _ Hv)). cbn [Z.eqb].
  set (left := Z.of_nat (length src)) in *.
  set (m := if left <? 512 - cp mod 512 then left else 512 - cp mod 512).
  pose proof (Z.mod_pos_bound cp 512 ltac:(lia)) as Hmb.
  assert (Hm : 0 < m <= 512 - cp mod 512 /\ m <= left) by (unfold m; destruct (Z.ltb_spec left (512 - cp mod 512)); lia).
  destruct (position_split n fi d cp m Hv Hcp) as (Hs & Ho & Hcm & _ & _); [lia|].
  rewrite (lba_eq n fi d) by done.
  destruct (sector_read d _ (data_served n fi d c _ Hv Hc Hs)) as [-> _]. cbn [Z.eqb negb].
  set (bs := take (Z.to_nat m) src). set (src' := drop (Z.to_nat m) src).
  assert (Hbs : Z.of_nat (length bs) = m) by (unfold bs; rewrite length_take; lia).
  assert (Hsrc' : Z.of_nat (length src') = left - m) by (unfold src'; rewrite length_drop; lia).
  assert (Hsrc : src = bs ++ src') by (symmetry; apply take_drop).
  destruct (write_sector_spec n fi d c cs cp bs Hv Hch Hcp) as (buf & d1 & -> & Hw & Hs1 & Hf1 & Hb1);
    [lia|by apply Forall_take|]. cbn [mbind option_bind]. rewrite Hw. cbn [negb Z.eqb].
  pose proof (length_cluster_bytes n fi d c Hv Hc) as Hlen. pose proof (vol_bpc _ _ _ Hv) as Hbpc.
  pose proof (vol_spc _ _ _ Hv). pose proof (chain_clusters _ _ _ _ _ Hch) as Hcs.
  destruct (write_turn n fi d d1 c cs cp bs src' Hv Hch) as (Hv1 & Hch1 & Hnc & Hrest & Hl1 & Hstep);
    [lia|done|lia|rewrite <- Hsrc; lia|done..|]. rewrite <- Hsrc, Hbs in Hstep.
  rewrite content_cons, length_app in Hlc.
  rewrite (wrap_small 32 (cp + m)), (wrap_small 32 (f_position f + m)) by (unfold in_u; lia).
  assert (Hpos : forall g, g = f_position f + m + (left - m) ->
    set_f_position g (set_f_position (f_position f + m) f) = set_f_position (f_position f + left) f).
  { intros g ->. unfold set_f_position. cbn. f_equal. lia. }
  destruct (Z.leb_spec (bytes_per_cluster fi) (cp + m)) as [Hend|Hend].
  - rewrite (fat32_read_eq fi d1 c (vol_table _ _ _ Hv1)) by (pose proof (vol_entries _ _ _ Hv); lia).
    cbn [mbind option_bind]. destruct Hch1 as (_ & _ & Hn1).
    assert (Hne : (FAT32_EOC <=? fat d1 fi c) && (0 <? left - m) = false).
    { destruct (Z.ltb_spec 0 (left - m)); [|apply andb_false_r]. rewrite andb_true_r. apply Z.leb_gt.
      pose proof (vol_n _ _ _ Hv). destruct cs as [|c2 cs]; [cbn in Hlc; lia|]. destruct Hn1 as (-> & ? & _). lia. }
    rewrite Hne.
    destruct (IH d1 src' (fat d1 fi c) cs 0 (set_f_position (f_position f + m) f) Hv1 Hn1)
      as (d' & -> & Hd'); [lia|by apply Forall_drop|lia|rewrite Hrest; lia|cbn; lia|cbn; lia|].
    exists d'. split; [do 2 f_equal; f_equal; apply Hpos; cbn; lia|]. apply Hstep.
    replace (cp + m) with (bytes_per_cluster fi) by lia. by apply (written_next n).
  - destruct (IH d1 src' c (c :: cs) (cp + m) (set_f_position (f_position f + m) f) Hv1 Hch1)
      as (d' & -> & Hd'); [lia|by apply Forall_drop|lia|rewrite Hl1, content_cons, length_app; lia|cbn; lia|cbn; lia|].
    exists d'. split; [do 2 f_equal; f_equal; apply Hpos; cbn; lia|]. by apply Hstep.
Qed.

(** Where the chain is long enough, the writer's loop is the reader's. *)
Lemma extend_to_seek f fi d fuel : forall c pos c',
  seek_cluster fuel c pos f fi d = Some (Some c') -> extend_to fuel c pos f fi d = Some (Some c', d).
Proof.
  induction fuel as [|fuel IH]; intros c pos c'; cbn [seek_cluster extend_to];
    destruct (u32 (pos + bytes_per_cluster fi) <=? f_position f); try done; try by intros [= ->].
  destruct (fat32_read_fat_entry c fi d) as [c1|]; [|done]. cbn [mbind option_bind].
  destruct (FAT32_EOC <=? c1); [done|]. apply IH.
Qed.

Definition grown f (p : Z) : fs_file :=
  let f := set_f_position p f in
  if de_size (f_dirent f) <? p then set_f_dirent (set_de_size p (f_dirent f)) f else f.

Lemma fs_write_eq n fi d f cs fuel src :
  volume n fi d -> file_ok n fi d f cs -> Forall (in_u 8) src -> src <> [] ->
  f_position f + Z.of_nat (length src) <= Z.of_nat (length (content d fi cs)) ->
  Z.of_nat (length (content d fi cs)) <= Z.of_nat fuel ->
  exists d', fs_write fuel f src fi d =
      Some (Z.of_nat (length src), grown f (f_position f + Z.of_nat (length src)), d') /\
    written fi d cs (f_position f) src d'.
Proof.
  intros Hv [Hd Hch Hsz Hp0 Hsm] H8 Hne Hlen Hfu.
  assert (Hl : 0 < Z.of_nat (length src)) by (destruct src; [done|cbn; lia]).
  assert (Hb : 0 < bytes_per_cluster fi) by (pose proof (vol_bpc _ _ _ Hv); pose proof (vol_spc _ _ _ Hv); lia).
  unfold fs_write. rewrite (tab_mounted _ _ (vol_table _ _ _ Hv)), Hd. cbn [Z.eqb].
  rewrite (proj2 (Z.eqb_neq (bytes_per_cluster fi) 0)) by lia.
  pose proof (chain_clusters _ _ _ _ _ Hch) as Hcs.
  destruct (drop_content n fi d cs (f_position f) Hv Hcs) as (Hq & Hm & Hsplit & Hpos); [lia|].
  set (q := f_position f / bytes_per_cluster fi) in *. set (cp := f_position f mod bytes_per_cluster fi) in *.
  assert (Hc0 : de_cluster (f_dirent f) <> 0).
  { destruct cs as [|c2 cs]; [cbn in Hlen; lia|]. destruct Hch as (_ & ? & _). lia. }
  unfold first_cluster. rewrite (proj2 (Z.eqb_neq _ 0) Hc0). cbn [mbind option_bind].
  destruct (seek_cluster_spec n fi d f fuel (de_cluster (f_dirent f)) cs 0 Hv Hch) as (c' & Hseek & Hch');
    rewrite ?Z.sub_0_r in *; fold q; try lia.
  { pose proof (Z.div_le_upper_bound (f_position f) (bytes_per_cluster fi) (f_position f) Hb). nia. }
  apply extend_to_seek in Hseek. rewrite Hseek. cbn [mbind option_bind]. fold q in Hch'.
  assert (Hcl : Z.of_nat (length (content d fi cs))
    = f_position f - cp + Z.of_nat (length (content d fi (drop (Z.to_nat q) cs)))) by (rewrite Hsplit, length_app; lia).
  destruct (write_loop_spec n fi fuel d src c' (drop (Z.to_nat q) cs) cp f Hv Hch' Hm H8)
    as (d' & -> & Hs & Hf & Hc); [lia|lia|lia|lia|].
  exists d'. cbn [mbind option_bind]. rewrite Z.sub_0_r, s32_small by (unfold in_s32; lia). split; [done|].
  split_and!; [done| |].
  - intros l Hdl. apply Hf. intros (c2 & s & Hc2 & Hs2). apply Hdl. exists c2, s. split; [|done].
    rewrite <- (take_drop (Z.to_nat q) cs). apply elem_of_app. by right.
  - rewrite <- (take_drop (Z.to_nat q) cs) at 1. rewrite content_app, Hc.
    rewrite (content_frame n fi d d' (drop (Z.to_nat q) cs) (take (Z.to_nat q) cs) Hv Hf).
    + rewrite Hsplit, Hpos. symmetry. apply patch_app_r.
    + intros c2 Hc2 Hc3. pose proof (chain_nodup n fi d _ cs (proj2 (vol_n _ _ _ Hv)) Hch) as Hnd.
      rewrite <- (take_drop (Z.to_nat q) cs), NoDup_app in Hnd. destruct Hnd as (_ & Hnd & _). by apply (Hnd c2).
Qed.
End Volume.

(** ** Properties *)

(** C26. Writing an entry of the file allocation table and reading it back gives the
    low 28 bits of the value; the four reserved bits and every other entry stay. *)
Theorem fat_entry_roundtrip `{!Disk D} fi (d : D) c v :
  fat_table fi d -> 0 <= c < entries fi -> in_u 32 v ->
  exists d', fat32_write_fat_entry c v fi d = Some (FS_SUCCESS, d') /\ fat_table fi d' /\
    fat32_read_fat_entry c fi d' = Some (Z.land v 0x0FFFFFFF) /\
    Z.land (raw_entry d' fi c) 0xF0000000 = Z.land (raw_entry d fi c) 0xF0000000 /\
    forall c', 0 <= c' < entries fi -> c' <> c -> fat32_read_fat_entry c' fi d' = fat32_read_fat_entry c' fi d.
Proof.
  intros Ht Hc Hv. destruct (fat32_write_eq fi d c v Ht Hc Hv) as (d' & Hw & Hf & Hr & Ho & _ & Hs).
  assert (Ht' : fat_table fi d') by by eapply table_same.
  exists d'. split_and!; [done|done| |done|].
  - by rewrite fat32_read_eq, Hf.
  - intros c' Hc' Hne. rewrite !fat32_read_eq by done. unfold fat. by rewrite Ho by lia.
Qed.

(** C25. [fat32_allocate_cluster] takes the first free entry from 2 on, marks it as the
    end of a chain and changes no other entry; it fails only when there is none.
    All copies of the table count: an entry of a second copy is taken too. *)
Theorem fat32_allocate_spec `{!Disk D} fi (d : D) :
  fat_table fi d ->
  (exists c d', fat32_allocate_cluster fi d = Some (c, d') /\ fat_table fi d' /\
     2 <= c < entries fi /\ fat d fi c = 0 /\ (forall c', 2 <= c' < c -> fat d fi c' <> 0) /\
     fat d' fi c = FAT32_EOC /\ forall c', 0 <= c' -> c' <> c -> fat d' fi c' = fat d fi c') \/
  (fat32_allocate_cluster fi d = Some (0, d) /\ forall c', 2 <= c' < entries fi -> fat d fi c' <> 0).
Proof.
  intros Ht. unfold fat32_allocate_cluster. rewrite (tab_mounted _ _ Ht). cbn [Z.eqb].
  pose proof (tab_range _ _ Ht). pose proof (tab_end _ _ Ht). pose proof (tab_small _ _ Ht).
  rewrite wrap_small by (unfold in_u, entries in *; lia).
  destruct (allocate_search_spec fi d (Z.to_nat (data_start fi - fat_start fi)) 0 Ht)
    as [(c & d' & -> & (Hc & H2 & Hf & Hl) & Hset)|[-> Hl]]; [lia|lia|left|right].
  - destruct Hset as (He & _ & Ho & _ & Hs). exists c, d'. split_and!; [done|by eapply table_same|lia|lia|done| |by rewrite He|].
    + intros c' Hc'. apply Hl; lia.
    + intros c' Hc' Hne. unfold fat. by rewrite Ho.
  - split; [done|]. intros c' Hc'. apply Hl; lia.
Qed.

(** C9. [fs_read] returns the bytes of the file from its position on, as many as asked
    for up to the end of the file, across the sectors and clusters of its chain,
    and advances the position by that many; it always returns. *)
Theorem fs_read_spec `{!Disk D} n fi (d : D) f cs fuel size :
  volume n fi d -> file_ok n fi d f cs -> 0 <= size < 2 ^ 31 -> f_position f <= de_size (f_dirent f) ->
  de_size (f_dirent f) <= Z.of_nat fuel ->
  let bytes := take (Z.to_nat (de_size (f_dirent f))) (content d fi cs) in
  let m := Z.min size (de_size (f_dirent f) - f_position f) in
  fs_read fuel f size fi d =
    Some (m, take (Z.to_nat size) (drop (Z.to_nat (f_position f)) bytes), set_f_position (f_position f + m) f).
Proof.
  intros Hv Hf Hs Hp Hfu bytes m. pose proof (file_position _ _ _ _ _ Hf) as Hp0.
  pose proof (file_size _ _ _ _ _ Hf) as Hsz.
  rewrite (fs_read_eq n fi d f cs fuel size) by done. fold m. do 3 f_equal. unfold bytes.
  rewrite skipn_firstn_comm, take_take. f_equal. unfold m. lia.
Qed.

(** C10. [fs_write] inside the chain of a file stores the bytes at its position, grows
    the file to their end and returns their number; seeking back and reading gives
    them back.  The table and every file with no cluster in common stay as they
    were. *)
Theorem fs_write_spec `{!Disk D} n fi (d : D) f cs fuel src :
  volume n fi d -> file_ok n fi d f cs -> Forall (in_u 8) src -> src <> [] ->
  f_position f + Z.of_nat (length src) <= Z.of_nat (length (content d fi cs)) ->
  Z.of_nat (length (content d fi cs)) <= Z.of_nat fuel ->
  let len := Z.of_nat (length src) in
  exists f' d', fs_write fuel f src fi d = Some (len, f', d') /\ volume n fi d' /\ file_ok n fi d' f' cs /\
    content d' fi cs = patch (Z.to_nat (f_position f)) src (content d fi cs) /\
    de_size (f_dirent f') = Z.max (de_size (f_dirent f)) (f_position f + len) /\
    f_position f' = f_position f + len /\
    (let '(r, f2) := fs_seek f' (f_position f) fi in
     r = FS_SUCCESS /\ fs_read fuel f2 len fi d' = Some (len, src, f')) /\
    (forall c, 0 <= c < entries fi -> fat d' fi c = fat d fi c) /\
    forall cs', (forall c, c ∈ cs' -> c ∉ cs) -> content d' fi cs' = content d fi cs'.
Proof.
  intros Hv Hf H8 Hne Hlen Hfu len.
  destruct (fs_write_eq n fi d f cs fuel src Hv Hf H8 Hne Hlen Hfu) as (d' & Hw & Hs & Hfr & Hc). fold len in Hw.
  destruct Hf as [Hd Hch Hsz Hp0 Hsm]. pose proof (chain_clusters _ _ _ _ _ Hch) as Hcs.
  assert (Hl : 0 < len) by (unfold len; destruct src; [done|cbn; lia]).
  assert (Hlc : length (content d' fi cs) = length (content d fi cs)) by (rewrite Hc; apply length_patch; lia).
  assert (Hv' : volume n fi d') by by eapply volume_same. set (f' := grown f (f_position f + len)) in *.
  assert (Hf' : de_size (f_dirent f') = Z.max (de_size (f_dirent f)) (f_position f + len) /\
    f_position f' = f_position f + len /\ de_flags (f_dirent f') = de_flags (f_dirent f) /\
    de_cluster (f_dirent f') = de_cluster (f_dirent f)).
  { unfold f', grown. cbn. destruct (Z.ltb_spec (de_size (f_dirent f)) (f_position f + len)); cbn; split_and!; lia || done. }
  destruct Hf' as (Hfs & Hfp & Hff & Hfc).
  assert (Hok : forall p, 0 <= p -> file_ok n fi d' (set_f_position p f') cs).
  { intros p Hp. split; unfold is_directory in *; cbn [f_dirent f_position set_f_position]; rewrite ?Hfs, ?Hff, ?Hfc, ?Hlc; try done; try lia.
    by apply (chain_frame n fi d d' cs). }
  exists f', d'. split_and!; try done.
  - specialize (Hok (f_position f')). destruct f'. apply Hok. cbn in Hfp |- *. lia.
  - unfold fs_seek. rewrite (tab_mounted _ _ (vol_table _ _ _ Hv)). cbn [Z.eqb].
    rewrite Hfs, (proj2 (Z.ltb_ge _ _)) by lia. split; [done|].
    assert (Hb : len < 2 ^ 31).
    { pose proof (vol_bpc _ _ _ Hv). pose proof (vol_spc _ _ _ Hv). unfold len. lia. }
    rewrite (fs_read_eq n fi d' (set_f_position (f_position f) f') cs fuel len Hv');
      [|by apply Hok|lia|cbn [f_dirent f_position set_f_position]; lia..].
    cbn [f_dirent f_position set_f_position]. rewrite Hfs, Z.min_l by lia. do 2 f_equal.
    + f_equal. rewrite Hc. unfold len. rewrite Nat2Z.id. apply take_drop_patch_eq. lia.
    + unfold set_f_position. cbn. rewrite <- Hfp. by destruct f'.
  - intros c Hc'. unfold fat. by rewrite (fat_frame n fi d d' cs Hv Hcs Hfr).
  - intros cs' Hdis. by apply (content_frame n fi d d' cs).
Qed.

Lemma length_short_name entry : length entry = 32%nat -> (length (short_name entry) <= 12)%nat.
Proof.
  intros He. unfold short_name, no_blanks. rewrite length_app.
  pose proof (length_filter (fun c : Z => c <> 0x20) (take 8 entry)) as H1.
  pose proof (length_filter (fun c : Z => c <> 0x20) (take 3 (drop 8 entry))) as H2.
  rewrite length_take in H1, H2. destruct (negb _); cbn [app length]; lia.
Qed.

Lemma fill_dirent_some entry dirent :
  (13 <= length (de_name dirent))%nat -> length entry = 32%nat -> exists e, fill_dirent entry dirent = Some e.
Proof.
  intros Hn He. unfold fill_dirent, strcpy.
  pose proof (length_short_name entry He).
  rewrite (proj2 (Nat.leb_le _ _)); [by eexists|]. rewrite length_app, length_take. cbn [length]. lia.
Qed.

(** C35. [fs_readdir] reads the next sector into the buffer before it looks at the last
    entry of a sector: at the last entry of a sector other than the last of its
    cluster it answers from the last entry of the next sector, whatever the
    directory holds at its own place: the end of the directory when that entry is
    unused, and the entry itself when it is one in use. *)
Theorem readdir_misses_entry `{!Disk D} n fi (d : D) f dirent fuel s next :
  volume n fi d -> is_directory f = true -> 2 <= current_cluster f < n ->
  0 <= s -> s + 1 < sectors_per_cluster fi -> f_position f = 512 * s + 480 ->
  (13 <= length (de_name dirent))%nat ->
  next = take 32 (drop 480 (sector_at d (cluster_lba fi (current_cluster f) + (s + 1)))) ->
  let f' := set_f_position (512 * (s + 1)) f in
  (char_at next 0 = 0 -> fs_readdir (S fuel) f dirent fi d = Some (FS_ERROR, f', dirent)) /\
  (char_at next 0 <> 0 -> skipped_entry next = false ->
   exists e, fill_dirent next dirent = Some e /\ fs_readdir (S fuel) f dirent fi d = Some (FS_SUCCESS, f', e)).
Proof.
  intros Hv Hd Hc Hs0 Hs Hp Hn Hnext f'. unfold fs_readdir.
  rewrite (tab_mounted _ _ (vol_table _ _ _ Hv)), Hd, (tab_bps _ _ (vol_table _ _ _ Hv)), Hp. cbn [Z.eqb negb].
  replace ((512 * s + 480) / 512) with s by (Z.div_mod_to_equations; lia).
  replace ((512 * s + 480) mod 512) with 480 by (Z.div_mod_to_equations; lia). change (480 / 32) with 15.
  cbn [dir_cluster]. rewrite (proj2 (Z.leb_gt _ _)) by lia. cbn [mbind option_bind].
  rewrite (lba_eq n fi d) by (done || lia).
  destruct (sector_read d _ (data_served n fi d _ s Hv Hc ltac:(lia))) as [-> _]. cbn [negb Z.eqb readdir_loop].
  rewrite (tab_bps _ _ (vol_table _ _ _ Hv)). change (512 <=? (15 + 1) * 32) with true. unfold next_sector.
  rewrite (proj2 (Z.leb_gt (sectors_per_cluster fi) _)) by lia. cbn [mbind option_bind].
  rewrite (lba_eq n fi d) by (done || lia).
  destruct (sector_read d _ (data_served n fi d _ (s + 1) Hv Hc ltac:(lia))) as [-> [Hl _]]. cbn [negb Z.eqb mbind option_bind].
  pose proof SECTOR_Z. change (15 * 32) with 480. rewrite slice_eq by lia. cbn [mbind option_bind].
  change (Z.to_nat 32) with 32%nat. change (Z.to_nat 480) with 480%nat. rewrite <- Hnext.
  assert (Hf : set_f_position (u32 (f_position f + 32)) f = f').
  { unfold f'. f_equal. rewrite Hp. pose proof (vol_spc _ _ _ Hv). rewrite wrap_small by (unfold in_u; lia). lia. }
  rewrite Hf. split.
  - intros Hz. by rewrite (proj2 (Z.eqb_eq _ _) Hz).
  - intros Hz Hsk. rewrite (proj2 (Z.eqb_neq _ _) Hz), Hsk.
    destruct (fill_dirent_some next dirent Hn) as [e He]; [rewrite Hnext, length_take, length_drop; lia|].
    exists e. split; [done|]. by rewrite He.
Qed.

(** ** A small volume

    A disk of 64 sectors: the partition table, the boot sector, a table of one
    sector, and clusters of two sectors; the root directory in cluster 2, a file
    of 1500 bytes in the clusters 3 and 4. *)

Definition zeros : list Z := replicate SECTOR 0.

Definition demo_fat : list Z :=
  concat (le_bytes 4 <$> [0x0FFFFFF8; 0x0FFFFFFF; 0x0FFFFFFF; 4; 0x0FFFFFFF]).

(** HELLO.TXT, an archive file at cluster 3. *)
Definition demo_entry : list Z :=
  bytes_of "HELLO   TXT" ++ [0x20] ++ replicate 8 0 ++ le_bytes 2 0 ++ replicate 4 0 ++ le_bytes 2 3 ++ le_bytes 4 1500.

Definition demo_disk : ram_disk :=
  RamDisk 64 {[
    0 := patch 454 (le_bytes 4 1) zeros;
    1 := patch 11 (le_bytes 2 512 ++ [2] ++ le_bytes 2 1 ++ [1])
           (patch 36 (le_bytes 4 1) (patch 44 (le_bytes 4 2) (patch 66 [FAT32_SIGNATURE] zeros)));
    2 := patch 0 demo_fat zeros;
    3 := patch 480 demo_entry (patch 0 (concat (replicate 15 ([0xE5] ++ replicate 31 0))) zeros) ]}.

Definition demo_fi : fs_info := FsInfo 0 1 2 3 2 2 512 1024 1.

Lemma demo_mount : fs_mount 0 fs_info0 demo_disk = Some (FS_SUCCESS, demo_fi).
Proof. vm_compute. reflexivity. Qed.

Lemma demo_volume : volume 32 demo_fi demo_disk.
Proof.
  assert (He : entries demo_fi = 128) by reflexivity.
  split; rewrite ?He; cbn; try lia; try (unfold FAT32_EOC; lia).
  split; rewrite ?He; cbn; lia.
Qed.

(** The file as [fs_open] fills it. *)
Definition demo_file : fs_file :=
  FsFile (FsDirent (bytes_of "HELLO.TXT" ++ replicate 119 0) 1500 FS_FILE 3 0 0) 0 3 0.

Lemma demo_open : fs_open (bytes_of "/HELLO.TXT") demo_fi demo_disk = Some (FS_SUCCESS, Some demo_file).
Proof. vm_compute. reflexivity. Qed.

Lemma demo_chain : chain 32 demo_disk demo_fi 3 [3; 4].
Proof.
  assert (H3 : fat demo_disk demo_fi 3 = 4) by (vm_compute; reflexivity).
  assert (H4 : fat demo_disk demo_fi 4 = 0x0FFFFFFF) by (vm_compute; reflexivity).
  cbn [chain]. rewrite H3, H4. unfold FAT32_EOC. lia.
Qed.

Lemma demo_length : Z.of_nat (length (content demo_disk demo_fi [3; 4])) = 2048.
Proof. rewrite (length_content 32 demo_fi demo_disk 3 [3; 4] demo_volume demo_chain). reflexivity. Qed.

Lemma demo_file_ok p : 0 <= p -> file_ok 32 demo_fi demo_disk (set_f_position p demo_file) [3; 4].
Proof.
  intros Hp. split; try rewrite demo_length; cbn; try lia; [reflexivity|exact demo_chain].
Qed.

Lemma fat_entry_roundtrip_witness :
  exists d', fat32_write_fat_entry 100 0xFFFFFFFF demo_fi demo_disk = Some (FS_SUCCESS, d') /\
    fat32_read_fat_entry 100 demo_fi d' = Some 0x0FFFFFFF.
Proof.
  destruct (fat_entry_roundtrip demo_fi demo_disk 100 0xFFFFFFFF) as (d' & Hw & _ & Hr & _).
  - exact (vol_table _ _ _ demo_volume).
  - unfold entries. cbn. lia.
  - unfold in_u. lia.
  - exists d'. exact (conj Hw Hr).
Defined.

Lemma fat32_allocate_spec_witness :
  exists c d', fat32_allocate_cluster demo_fi demo_disk = Some (c, d') /\ fat d' demo_fi c = FAT32_EOC.
Proof.
  destruct (fat32_allocate_spec demo_fi demo_disk (vol_table _ _ _ demo_volume))
    as [(c & d' & E & _ & _ & _ & _ & He & _)|[E _]].
  - exists c, d'. exact (conj E He).
  - assert (Hf : (fst <$> fat32_allocate_cluster demo_fi demo_disk) = Some 5) by (vm_compute; reflexivity).
    rewrite E in Hf. discriminate Hf.
Defined.

Lemma fs_read_spec_witness :
  exists bs f', fs_read 2048 (set_f_position 1400 demo_file) 512 demo_fi demo_disk = Some (100, bs, f') /\
    f_position f' = 1500.
Proof.
  pose proof (fs_read_spec 32 demo_fi demo_disk (set_f_position 1400 demo_file) [3; 4] 2048 512
    demo_volume (demo_file_ok 1400 ltac:(lia)) ltac:(lia) ltac:(cbn; lia) ltac:(cbn; lia)) as H.
  cbv zeta in H. eexists _, _. split; [exact H|reflexivity].
Defined.

Lemma fs_write_spec_witness :
  exists f' d', fs_write 2048 (set_f_position 1000 demo_file) [1; 2; 3] demo_fi demo_disk = Some (3, f', d') /\
    fs_read 2048 (fs_seek f' 1000 demo_fi).2 3 demo_fi d' = Some (3, [1; 2; 3], f').
Proof.
  destruct (fs_write_spec 32 demo_fi demo_disk (set_f_position 1000 demo_file) [3; 4] 2048 [1; 2; 3])
    as (f' & d' & Hw & _ & _ & _ & _ & _ & Hr & _).
  - exact demo_volume.
  - apply demo_file_ok. lia.
  - repeat constructor; discriminate.
  - discriminate.
  - rewrite demo_length. cbn. lia.
  - rewrite demo_length. lia.
  - exists f', d'. split; [exact Hw|]. change (f_position (set_f_position 1000 demo_file)) with 1000 in Hr.
    destruct (fs_seek f' 1000 demo_fi) as [r f2]. exact (proj2 Hr).
Defined.

(** The root directory, opened and read up to its sixteenth entry, a file. *)
Definition demo_root : fs_file :=
  FsFile (FsDirent (0x2F :: replicate 127 0) 0 FS_DIRECTORY 2 0 0) 480 2 0.

Lemma readdir_misses_entry_witness :
  take 11 (drop 480 (sector_at demo_disk 3)) = bytes_of "HELLO   TXT" /\
  exists f', fs_readdir 1 demo_root fs_dirent0 demo_fi demo_disk = Some (FS_ERROR, f', fs_dirent0).
Proof.
  split; [vm_compute; reflexivity|].
  destruct (readdir_misses_entry 32 demo_fi demo_disk demo_root fs_dirent0 0 0 (replicate 32 0) demo_volume)
    as [H _]; [reflexivity|cbn; lia|lia|cbn; lia|reflexivity|cbn; lia|vm_compute; reflexivity|].
  eexists. apply H. reflexivity.
Defined.
