(* ===== verification/DirectorySpec.v ===== *)
(** * Opening files: the root directory as a list of entries

    [fs_open] against a lookup in the list of the entries of the root directory,
    and a file that is opened, written, opened again and read. *)
From S2P Require Import Prelude CString RawMemory Disk Filesystem FilesystemSpec.

Section Directory.
Context `{!Disk D}.
Implicit Types (d : D) (fi : fs_info) (f : fs_file) (bs : list Z).

(** The sixteen entries of a sector. *)
Definition sector_entries (sector : list Z) : list (list Z) :=
  (fun j => take 32 (drop (32 * j) sector)) <$> seq 0 16.

(** The entries in use, up to the end mark. *)
Fixpoint live (es : list (list Z)) : list (list Z) :=
  match es with
  | [] => []
  | e :: es' =>
    if char_at e 0 =? 0 then [] else if skipped_entry e then live es' else e :: live es'
  end.

(** The directory in the cluster [c]. *)
Definition dir_entries d fi (c : Z) : list (list Z) :=
  concat ((fun sector => live (sector_entries sector)) <$> cluster_sectors d fi c).

Definition has_name (name : list Z) (e : list Z) : bool := bool_decide (cstr (short_name e) = name).

Definition lookup_name (name : list Z) (es : list (list Z)) : option (list Z) := List.find (has_name name) es.

(** The file an entry describes. *)
Definition file_of (e : list Z) fi : fs_file :=
  let name := cstr (short_name e) in
  FsFile (FsDirent (name ++ replicate (128 - length name) 0) (entry_size e) (entry_flags e) (entry_cluster e) 0 0)
    0 (entry_cluster e) (fi_device fi).

Lemma strcpy_zeros n s :
  (length (cstr s) < n)%nat -> strcpy (replicate n 0) s = Some (cstr s ++ replicate (n - length (cstr s)) 0).
Proof.
  intros Hn. unfold strcpy. fold (cstr s). rewrite length_app, length_replicate. cbn [length].
  rewrite (proj2 (Nat.leb_le _ _)) by lia. f_equal. rewrite <- app_assoc. f_equal.
  rewrite drop_replicate. replace (n - length (cstr s))%nat with (S (n - (length (cstr s) + 1))) by lia. done.
Qed.

Lemma cstr_strcpy n s : (length (cstr s) < n)%nat -> cstr (cstr s ++ replicate (n - length (cstr s)) 0) = cstr s.
Proof.
  intros Hn. apply cstr_app; [apply cstr_nonzero|].
  replace (n - length (cstr s))%nat with (S (n - length (cstr s) - 1)) by lia. by right.
Qed.

Lemma length_cstr s : (length (cstr s) <= length s)%nat.
Proof. unfold cstr. rewrite length_take. lia. Qed.

Lemma opened_eq e fi : length e = 32%nat -> opened e fi = Some (file_of e fi).
Proof.
  intros He. unfold opened. pose proof (length_short_name e He). pose proof (length_cstr (short_name e)).
  rewrite strcpy_zeros by lia. reflexivity.
Qed.

(** ** The search of [fs_open] *)

Lemma entry_at sector k :
  length sector = SECTOR -> (k < 16)%nat ->
  slice 32 (32 * Z.of_nat k) sector = Some (take 32 (drop (32 * k) sector)) /\
  length (take 32 (drop (32 * k) sector)) = 32%nat.
Proof.
  intros Hl Hk. pose proof SECTOR_Z. split.
  - rewrite slice_eq by lia. by replace (Z.to_nat (32 * Z.of_nat k)) with (32 * k)%nat by lia.
  - rewrite length_take, length_drop. lia.
Qed.

Lemma find_entry_spec sector filename n : forall k,
  length sector = SECTOR -> (k + n = 16)%nat ->
  find_entry n (32 * Z.of_nat k) filename sector =
    Some (lookup_name (cstr filename) (live (drop k (sector_entries sector)))).
Proof.
  induction n as [|n IH]; intros k Hl Hk.
  - replace k with 16%nat by lia. done.
  - cbn [find_entry]. destruct (entry_at sector k Hl ltac:(lia)) as [-> _]. cbn [mbind option_bind].
    assert (Hd : drop k (sector_entries sector) =
      take 32 (drop (32 * k) sector) :: drop (S k) (sector_entries sector)).
    { apply drop_S. unfold sector_entries. rewrite list_lookup_fmap, lookup_seq_lt by lia. done. }
    rewrite Hd. cbn [live]. set (e := take 32 (drop (32 * k) sector)).
    replace (32 * Z.of_nat k + 32) with (32 * Z.of_nat (S k)) by lia.
    destruct (char_at e 0 =? 0); [done|]. destruct (skipped_entry e); [apply IH; [done|lia]|].
    unfold lookup_name. cbn [List.find]. unfold has_name at 1.
    destruct (Z.eqb_spec (strcmp (short_name e) filename) 0) as [E|E]; rewrite strcmp_eq in E.
    + by rewrite bool_decide_true.
    + rewrite bool_decide_false by done. apply IH; [done|lia].
Qed.

Lemma lookup_name_app name es es' :
  lookup_name name (es ++ es') =
    match lookup_name name es with Some e => Some e | None => lookup_name name es' end.
Proof. induction es as [|e es IH]; [done|]. cbn. destruct (has_name name e); [done|exact IH]. Qed.

Lemma live_incl es e : e ∈ live es -> e ∈ es.
Proof.
  induction es as [|e' es IH]; [done|]. cbn [live]. rewrite elem_of_cons.
  destruct (char_at e' 0 =? 0); [by intros ?%not_elem_of_nil|]. destruct (skipped_entry e'); [auto|].
  rewrite elem_of_cons. intros [->|He]; auto.
Qed.

Lemma lookup_name_length name sector e :
  length sector = SECTOR -> lookup_name name (live (sector_entries sector)) = Some e -> length e = 32%nat.
Proof.
  intros Hl [Hin _]%List.find_some. apply list_elem_of_In, live_incl, list_elem_of_fmap in Hin as (k & -> & Hk).
  apply elem_of_seq in Hk. apply (entry_at sector k Hl). lia.
Qed.

Lemma open_search_spec n fi d c filename m : forall i,
  volume n fi d -> 2 <= c < n -> (i + m = Z.to_nat (sectors_per_cluster fi))%nat ->
  open_search m (Z.of_nat i) (fat32_cluster_to_lba c fi) filename fi d =
    Some (match lookup_name (cstr filename)
                  (concat ((fun s => live (sector_entries s)) <$> drop i (cluster_sectors d fi c))) with
          | Some e => (FS_SUCCESS, Some (file_of e fi))
          | None => (FS_NOT_FOUND, None)
          end).
Proof.
  intros i Hv Hc. revert i. induction m as [|m IH]; intros i Hi; cbn [open_search].
  - rewrite drop_ge; [done|]. unfold cluster_sectors. rewrite length_fmap, length_seq. lia.
  - pose proof (cluster_sectors_lookup d fi c (Z.of_nat i) ltac:(lia)) as Hlk. rewrite Nat2Z.id in Hlk.
    rewrite (lba_eq n fi d) by (done || lia).
    destruct (sector_read d _ (data_served n fi d c (Z.of_nat i) Hv Hc ltac:(lia))) as [-> [Hl _]].
    cbn [Z.eqb negb]. rewrite (tab_bps _ _ (vol_table _ _ _ Hv)).
    change (Z.to_nat ((512 + 31) / 32)) with 16%nat.
    pose proof (find_entry_spec (sector_at d (cluster_lba fi c + Z.of_nat i)) filename 16 0 Hl eq_refl) as Hf.
    change (32 * Z.of_nat 0) with 0 in Hf. rewrite Hf. cbn [mbind option_bind]. rewrite drop_0.
    rewrite (drop_S _ _ _ Hlk). rewrite fmap_cons. cbn [concat]. rewrite lookup_name_app.
    destruct (lookup_name _ (live _)) as [e|] eqn:E.
    + by rewrite (opened_eq e fi (lookup_name_length _ _ _ Hl E)).
    + replace (Z.of_nat i + 1) with (Z.of_nat (S i)) by lia. apply IH. lia.
Qed.

(** The name [fs_open] looks up. *)
Definition path_name (path : list Z) : list Z := cstr (strip_slashes path).

Lemma fs_open_eq n fi d path :
  volume n fi d -> 2 <= root_cluster fi < n -> cstr path <> [0x2F] -> (length (path_name path) < 128)%nat ->
  fs_open path fi d =
    Some (match lookup_name (path_name path) (dir_entries d fi (root_cluster fi)) with
          | Some e => (FS_SUCCESS, Some (file_of e fi))
          | None => (FS_NOT_FOUND, None)
          end).
Proof.
  intros Hv Hr Hp Hn. unfold fs_open. rewrite (tab_mounted _ _ (vol_table _ _ _ Hv)). cbn [Z.eqb].
  destruct (Z.eqb_spec (strcmp path [0x2F]) 0) as [E|_]; [by apply strcmp_eq in E|].
  unfold path_name in *. rewrite strcpy_zeros by done. cbn [mbind option_bind].
  pose proof (open_search_spec n fi d (root_cluster fi) (cstr (strip_slashes path) ++
    replicate (128 - length (cstr (strip_slashes path))) 0) (Z.to_nat (sectors_per_cluster fi)) 0 Hv Hr eq_refl) as Hs.
  rewrite cstr_strcpy in Hs by done. exact Hs.
Qed.

(** Writing to the data of a chain leaves a directory outside it as it was. *)
Lemma dir_entries_frame n fi d d' cs c :
  volume n fi d -> (forall l, ~ data_of fi cs l -> sector_at d' l = sector_at d l) -> c ∉ cs ->
  dir_entries d' fi c = dir_entries d fi c.
Proof.
  intros Hv Hf Hc. unfold dir_entries. do 2 f_equal. apply list_fmap_ext. intros i s Hi.
  apply lookup_seq in Hi as [-> Hi]. apply Hf. intros (c2 & s2 & Hc2 & Hs2 & He).
  destruct (cluster_lba_inj n fi d c c2 (Z.of_nat (0 + i)) s2 Hv ltac:(lia) Hs2 He) as [-> _]. done.
Qed.
End Directory.

(** ** Properties *)

(** C11. [fs_open] of a name looks it up in the root directory: the first entry in use
    whose 8.3 name is the name asked for is opened at position 0, with the size,
    kind and first cluster of the entry; without one the file is not found.  Each
    sector of the first cluster counts up to its own end mark. *)
Theorem fs_open_spec `{!Disk D} n fi (d : D) path :
  volume n fi d -> 2 <= root_cluster fi < n -> cstr path <> [0x2F] -> (length (path_name path) < 128)%nat ->
  fs_open path fi d =
    Some (match lookup_name (path_name path) (dir_entries d fi (root_cluster fi)) with
          | Some e => (FS_SUCCESS, Some (file_of e fi))
          | None => (FS_NOT_FOUND, None)
          end).
Proof. apply fs_open_eq. Qed.

(** C12. A file that is opened, written and opened again reads back with the bytes
    written in place, as far as the size recorded in the directory goes: what a write
    adds behind it is on the disk but not in the file. *)
Theorem fs_reopen `{!Disk D} n fi (d : D) path e cs p src fuel :
  volume n fi d -> 2 <= root_cluster fi < n -> cstr path <> [0x2F] -> (length (path_name path) < 128)%nat ->
  lookup_name (path_name path) (dir_entries d fi (root_cluster fi)) = Some e ->
  root_cluster fi ∉ cs -> file_ok n fi d (set_f_position p (file_of e fi)) cs ->
  Forall (in_u 8) src -> src <> [] -> p + Z.of_nat (length src) <= Z.of_nat (length (content d fi cs)) ->
  Z.of_nat (length (content d fi cs)) <= Z.of_nat fuel ->
  exists f' d', fs_open path fi d = Some (FS_SUCCESS, Some (file_of e fi)) /\
    fs_write fuel (set_f_position p (file_of e fi)) src fi d = Some (Z.of_nat (length src), f', d') /\
    fs_open path fi d' = Some (FS_SUCCESS, Some (file_of e fi)) /\
    fs_read fuel (file_of e fi) (entry_size e) fi d' =
      Some (entry_size e, take (Z.to_nat (entry_size e)) (patch (Z.to_nat p) src (content d fi cs)),
            set_f_position (entry_size e) (file_of e fi)).
Proof.
  intros Hv Hr Hp Hn He Hroot Hf H8 Hne Hlen Hfu.
  destruct (fs_write_eq n fi d _ cs fuel src Hv Hf H8 Hne Hlen Hfu) as (d' & Hw & Hs & Hfr & Hc).
  cbn [f_position set_f_position] in Hc. destruct Hf as [Hd Hch Hsz Hp0 Hsm].
  cbn [f_position f_dirent set_f_position] in Hp0, Hsz, Hch, Hd.
  change (de_size (f_dirent (file_of e fi))) with (entry_size e) in Hsz.
  assert (Hv' : volume n fi d') by by eapply volume_same.
  assert (Hlc : length (content d' fi cs) = length (content d fi cs)) by (rewrite Hc; apply length_patch; lia).
  assert (Hf' : file_ok n fi d' (file_of e fi) cs).
  { split; rewrite ?Hlc; [exact Hd| |exact Hsz|cbn; lia|exact Hsm].
    apply (chain_frame n fi d d' cs); [done|by eapply chain_clusters|done|exact Hch]. }
  eexists _, d'. split; [rewrite (fs_open_eq n) by done; by rewrite He|]. split; [exact Hw|].
  split; [rewrite (fs_open_eq n) by done; by rewrite (dir_entries_frame n fi d d' cs), He|].
  rewrite (fs_read_eq n fi d' (file_of e fi) cs fuel (entry_size e) Hv' Hf');
    change (de_size (f_dirent (file_of e fi))) with (entry_size e); change (f_position (file_of e fi)) with 0.
  - rewrite Z.sub_0_r, Z.min_id, Hc. done.
  - pose proof (vol_bpc _ _ _ Hv). pose proof (vol_spc _ _ _ Hv). lia.
  - lia.
  - lia.
Qed.

(** ** The small volume *)

Definition hello : list Z := bytes_of "/HELLO.TXT".

Lemma demo_lookup : lookup_name (path_name hello) (dir_entries demo_disk demo_fi 2) = Some demo_entry.
Proof. vm_compute. reflexivity. Qed.

Lemma fs_open_spec_witness :
  fs_open hello demo_fi demo_disk = Some (FS_SUCCESS, Some (file_of demo_entry demo_fi)).
Proof.
  rewrite (fs_open_spec 32 demo_fi demo_disk hello demo_volume).
  - change (root_cluster demo_fi) with 2. rewrite demo_lookup. reflexivity.
  - cbn. lia.
  - vm_compute. discriminate.
  - vm_compute. lia.
Defined.

Lemma fs_reopen_witness :
  exists f' d', fs_write 2048 (set_f_position 1400 (file_of demo_entry demo_fi)) (replicate 200 65) demo_fi demo_disk
      = Some (200, f', d') /\
    fs_open hello demo_fi d' = Some (FS_SUCCESS, Some (file_of demo_entry demo_fi)).
Proof.
  destruct (fs_reopen 32 demo_fi demo_disk hello demo_entry [3; 4] 1400 (replicate 200 65) 2048) as (f' & d' & _ & Hw & Ho & _).
  - exact demo_volume.
  - cbn. lia.
  - vm_compute. discriminate.
  - vm_compute. lia.
  - exact demo_lookup.
  - rewrite !not_elem_of_cons. split_and!; [discriminate|discriminate|apply not_elem_of_nil].
  - exact (demo_file_ok 1400 ltac:(lia)).
  - apply Forall_replicate. unfold in_u. lia.
  - discriminate.
  - rewrite demo_length, length_replicate. lia.
  - rewrite demo_length. lia.
  - exists f', d'. exact (conj Hw Ho).
Defined.
