(* ===== verification/Loader.v ===== *)
(** * Loading a program: [usermode_load_program] of usermode.c

    The loader reads an ELF file through the file system, maps pages of a new
    address space and stores the segments through their virtual addresses, that
    is into the memory as the running address space sees it ([um]), not the new
    one.  The terminal is the one of the page tables' state.  [None] is an
    access outside a buffer, an overflow of [int], or a loop of the file system
    out of turns. *)
From S2P Require Import Prelude CString Terminal RawMemory Allocator Heap.
From S2P Require Import Kernel Process Paging PagingSpec Usermode Disk Filesystem.

Definition STACK_SIZE : Z := 64 * 1024.

(** The fields the loader takes from the file header and a program header. *)
Record elf_header := ElfHeader { e_entry : Z; e_phoff : Z; e_phentsize : Z; e_phnum : Z }.
Record program_header := ProgramHeader {
  p_type : Z; ph_flags : Z; p_offset : Z; p_vaddr : Z; p_filesz : Z; p_memsz : Z;
}.

Definition elf_header_of (b : list Z) : option elf_header :=
  phoff ← get_le 8 32 b; phentsize ← get_le 2 54 b; phnum ← get_le 2 56 b; entry ← get_le 8 24 b;
  Some (ElfHeader entry phoff phentsize phnum).

Definition program_header_of (b : list Z) : option program_header :=
  type ← get_le 4 0 b; vaddr ← get_le 8 16 b; filesz ← get_le 8 32 b; memsz ← get_le 8 40 b;
  offset ← get_le 8 8 b; flags ← get_le 4 4 b;
  Some (ProgramHeader type flags offset vaddr filesz memsz).

(** The checks of the header in their order: the message of the first that
    fails. *)
Definition elf_error (b : list Z) : option string :=
  if negb (char_at b 0 =? 0x7F) || negb (char_at b 1 =? 0x45) || negb (char_at b 2 =? 0x4C)
     || negb (char_at b 3 =? 0x46)
  then Some ("Hata: Gecerli bir ELF dosyasi degil!" +:+ nl)
  else if negb (char_at b 4 =? 2) then Some ("Hata: 64-bit ELF dosyasi degil!" +:+ nl)
  else if negb (char_at b 16 =? 2) then Some ("Hata: Yurutulebilir dosya degil!" +:+ nl)
  else None.

Definition page_count (h : program_header) : Z := u64 (p_memsz h + PAGE_SIZE - 1) / PAGE_SIZE.
Definition segment_flags (h : program_header) : Z :=
  if negb (Z.land (ph_flags h) 0x2 =? 0) then Z.lor PAGE_PRESENT PAGE_WRITABLE else PAGE_PRESENT.

(** The number of bytes read into page [j] of a segment, if any. *)
Definition bytes_to_read (h : program_header) (j : Z) : option Z :=
  let page_offset := if j =? 0 then Z.land (p_vaddr h) 0xFFF else 0 in
  if u64 (j * PAGE_SIZE) <? p_filesz h then
    let n := PAGE_SIZE - page_offset in
    Some (if p_filesz h <? u64 (j * PAGE_SIZE + n) then u64 (p_filesz h - j * PAGE_SIZE) else n)
  else None.

(** The addresses of the stack pages the loader asks for. *)
Definition stack_bottom : Z := USER_STACK_TOP - STACK_SIZE.
Definition stack_addrs : list Z :=
  (fun i => stack_bottom + Z.of_nat i * PAGE_SIZE) <$> seq 0 (Z.to_nat ((USER_STACK_TOP - stack_bottom + PAGE_SIZE - 1) / PAGE_SIZE)).

Section Loader.
Context `{!Disk D}.
(** The bound of the loops of [fs_read]. *)
Variable turns : nat.
Implicit Types (d : D) (fi : fs_info) (f : fs_file) (s : paging) (um : mem).

(** A failing step: the message; the caller returns 0. *)
Definition load_failed {A} (msg : string) s um f : option (option A * paging * mem * fs_file) :=
  Some (None, pg_print msg s, um, f).

(** The loop over the pages of a segment from [j], [n] turns left. *)
Fixpoint load_pages (n : nat) (j : Z) (h : program_header) (user_pml4 : Z) fi d s um f
  : option (option unit * paging * mem * fs_file) :=
  match n with
  | O => Some (Some tt, s, um, f)
  | S n' =>
    let vaddr := u64 (page_of (p_vaddr h) + j * PAGE_SIZE) in
    let '(page, s) := paging_alloc_user_page user_pml4 vaddr (segment_flags h) s in
    if page =? 0 then load_failed ("Hata: Kullanici sayfasi tahsis edilemedi!" +:+ nl) s um f else
    let page_offset := if j =? 0 then Z.land (p_vaddr h) 0xFFF else 0 in
    match bytes_to_read h j with
    | Some count =>
      let '(_, f) := fs_seek f (u32 (p_offset h + j * PAGE_SIZE)) fi in
      '(_, bs, f) ← fs_read turns f count fi d;
      load_pages n' (j + 1) h user_pml4 fi d s (write_bytes bs um (u64 (vaddr + page_offset))) f
    | None => load_pages n' (j + 1) h user_pml4 fi d s um f
    end
  end.

(** The loop over the program headers from [i], [n] left. *)
Fixpoint load_segments (n : nat) (i : Z) (e : elf_header) (user_pml4 : Z) fi d s um f
  : option (option unit * paging * mem * fs_file) :=
  match n with
  | O => Some (Some tt, s, um, f)
  | S n' =>
    if 2 ^ 31 <=? i * e_phentsize e then None else
    let '(_, f) := fs_seek f (u32 (e_phoff e + i * e_phentsize e)) fi in
    '(r, ph_data, f) ← fs_read turns f 56 fi d;
    if negb (r =? 56) then load_failed ("Hata: Program basligi okunamadi!" +:+ nl) s um f else
    h ← program_header_of ph_data;
    if negb (p_type h =? 1) then load_segments n' (i + 1) e user_pml4 fi d s um f else
    '(ok, s, um, f) ← load_pages (Z.to_nat (page_count h)) 0 h user_pml4 fi d s um f;
    match ok with
    | Some _ => load_segments n' (i + 1) e user_pml4 fi d s um f
    | None => Some (None, s, um, f)
    end
  end.

(** The loop over the pages of the stack. *)
Fixpoint load_stack (addrs : list Z) (user_pml4 : Z) s : bool * paging :=
  match addrs with
  | [] => (true, s)
  | addr :: addrs' =>
    let '(page, s) := paging_alloc_user_page user_pml4 addr
                        (Z.lor (Z.lor PAGE_PRESENT PAGE_WRITABLE) PAGE_USER) s in
    if page =? 0 then (false, pg_print ("Hata: Kullanici yigini tahsis edilemedi!" +:+ nl) s)
    else load_stack addrs' user_pml4 s
  end.

(** The result, the process, the page tables and the memory. *)
Definition usermode_load_program (filename : list Z) fi d (p : process) s um
  : option (Z * process * paging * mem) :=
  '(r, file) ← fs_open filename fi d;
  match file with
  | None => Some (0, p, pg_print ("Hata: Program dosyasi acilamadi!" +:+ nl) s, um)
  | Some f =>
    if negb (r =? FS_SUCCESS) then Some (0, p, pg_print ("Hata: Program dosyasi acilamadi!" +:+ nl) s, um) else
    '(r, header, f) ← fs_read turns f 64 fi d;
    if negb (r =? 64) then Some (0, p, pg_print ("Hata: ELF baslik okunamadi!" +:+ nl) s, um) else
    match elf_error header with
    | Some msg => Some (0, p, pg_print msg s, um)
    | None =>
      e ← elf_header_of header;
      let '(user_pml4, s) := paging_create_user_address_space s in
      if user_pml4 =? 0 then
        Some (0, p, pg_print ("Hata: Kullanici adres alani olusturulamadi!" +:+ nl) s, um)
      else
        let p := set_p_page_directory user_pml4 p in
        '(ok, s, um, f) ← load_segments (Z.to_nat (e_phnum e)) 0 e user_pml4 fi d s um f;
        match ok with
        | None => Some (0, p, s, um)
        | Some _ =>
          let '(ok, s) := load_stack stack_addrs user_pml4 s in
          if negb ok then Some (0, p, s, um) else
          Some (1, set_p_registers (set_rsp USER_STACK_TOP (set_rip (e_entry e) (p_registers p))) p, s, um)
        end
    end
  end.
End Loader.
