(* ===== verification/LoaderSpec.v ===== *)
(** * What the loader builds

    A new address space shares the upper half of the kernel's; a loaded program
    has exactly the pages its loadable segments ask for and the pages of its
    stack. *)
From S2P Require Import Prelude CString Terminal RawMemory Allocator Heap.
From S2P Require Import Kernel Process Invariant Scheduler Lifecycle Paging PagingSpec Usermode Disk Filesystem FilesystemSpec Loader.

(** ** A new address space *)

Section Address_space.
Implicit Types (m : mem) (ts : gmap Z nat) (s : paging).

(** The loop that copies the entries of the root [r] to the table [u]. *)
Lemma copy_entries_spec n : forall lo m u r,
  u mod PAGE_SIZE = 0 -> r mod PAGE_SIZE = 0 -> u <> r -> 0 <= lo -> lo + Z.of_nat n <= 512 ->
  let m' := for_loop n lo (fun i m => set_entry m u i (entry m r i)) m in
  (forall t i, t mod PAGE_SIZE = 0 -> 0 <= i < 512 ->
     entry m' t i = if decide (t = u /\ lo <= i < lo + Z.of_nat n) then entry m r i else entry m t i) /\
  (forall a, ~ (u <= a < u + PAGE_SIZE) -> load8 m' a = load8 m a).
Proof.
  induction n as [|n IH]; intros lo m u r Hu Hr Hne Hlo Hn; cbv zeta; cbn [for_loop].
  { split; [|done]. intros t i Ht Hi. by rewrite decide_False by lia. }
  destruct (IH (lo + 1) (set_entry m u lo (entry m r lo)) u r) as [He Hb]; try done; try lia. cbv zeta in He, Hb.
  pose proof (entry_range m r lo) as Hv. split.
  - intros t i Ht Hi. rewrite He by done. rewrite !entry_set_entry by (done || lia).
    rewrite (decide_False (P := r = u /\ i = lo)) by (intros [? _]; congruence).
    destruct (decide (t = u /\ lo + 1 <= i < lo + 1 + Z.of_nat n)) as [[-> ?]|Hout].
    + by rewrite decide_True by lia.
    + destruct (decide (t = u /\ i = lo)) as [[-> ->]|Hno]; [by rewrite decide_True by lia|].
      rewrite decide_False; [done|]. intros [-> ?]. destruct (decide (i = lo)); [by destruct Hno|]. destruct Hout. split; [done|lia].
  - intros a Ha. rewrite Hb by done. unfold set_entry, entry_addr, PAGE_SIZE in *.
    apply load8_store_le_ne. unfold disjoint_ranges. lia.
Qed.

Lemma root_aligned s ts : paging_wf s ts -> pml4 s mod PAGE_SIZE = 0.
Proof. intros Hwf. by destruct (pwf_table _ _ Hwf _ _ (pwf_root _ _ Hwf)) as (_ & _ & ? & _). Qed.

(** The table of an address space below a new root [u] that shares entries of
    the old root. *)
Definition user_tables (s : paging) (u : Z) ts : gmap Z nat := <[u := 4%nat]> (delete (pml4 s) ts).

Lemma share_wf s ts u m' :
  paging_wf s ts -> ts !! u = None -> 0 <= u < 2 ^ 52 -> u mod PAGE_SIZE = 0 ->
  disjoint_ranges u PAGE_SIZE (bitmap s) (bitmap_size s) ->
  (u / PAGE_SIZE < nbits s -> frame_used s (u / PAGE_SIZE) = true) ->
  (forall t i, t mod PAGE_SIZE = 0 -> 0 <= i < 512 ->
     entry m' t i = if decide (t = u) then (if 256 <=? i then entry (pg_mem s) (pml4 s) i else 0)
                    else entry (pg_mem s) t i) ->
  (forall a, ~ (u <= a < u + PAGE_SIZE) -> load8 m' a = load8 (pg_mem s) a) ->
  paging_wf (set_pml4 u (set_pg_mem m' s)) (user_tables s u ts).
Proof.
  intros Hwf Hn Hu Hum Hd Hused He Hb. pose proof (pwf_root _ _ Hwf) as Hroot.
  assert (Hur : u <> pml4 s) by congruence.
  assert (Hfu : forall i, 0 <= i < nbits s -> frame_used (set_pml4 u (set_pg_mem m' s)) i = frame_used s i).
  { intros i Hi. unfold frame_used. apply page_used_ext. cbn. apply Hb.
    pose proof (bitmap_byte s i Hi). unfold disjoint_ranges in Hd. lia. }
  (* entries of the new tables come from entries of the old ones *)
  assert (Hold : forall t l i, user_tables s u ts !! t = Some (S (S l)) -> 0 <= i < 512 ->
    is_present (entry m' t i) = true ->
    exists t0, ts !! t0 = Some (S (S l)) /\ entry m' t i = entry (pg_mem s) t0 i /\
      (t0 = if decide (t = u) then pml4 s else t)).
  { intros t l i Ht Hi Hp. unfold user_tables in Ht. apply lookup_insert_Some in Ht as [[<- [= <-]]|[Hne Ht]].
    - exists (pml4 s). rewrite He in Hp |- * by done. rewrite decide_True in Hp |- * by done.
      destruct (256 <=? i); [by rewrite decide_True|done].
    - apply lookup_delete_Some in Ht as [Hnr Ht]. exists t. rewrite He by (done || by destruct (pwf_table _ _ Hwf _ _ Ht) as (_ & _ & ? & _)).
      by rewrite !decide_False by done. }
  assert (Hlow : forall t l, ts !! t = Some l -> l <> 4%nat -> user_tables s u ts !! t = Some l).
  { intros t l Ht Hl. unfold user_tables. rewrite lookup_insert_ne by congruence.
    rewrite lookup_delete_ne; [done|]. intros <-. congruence. }
  split; cbn [pml4 bitmap bitmap_size pg_mem set_pml4 set_pg_mem];
    change (nbits (set_pml4 u (set_pg_mem m' s))) with (nbits s).
  - apply Hwf.
  - apply Hwf.
  - pose proof (nbits_bound s ts Hwf) as [? _]. rewrite Hfu by lia. apply (pwf_zero _ _ Hwf).
  - intros i Hi. rewrite Hfu by done. by apply (pwf_bitmap_used _ _ Hwf).
  - apply lookup_insert_eq.
  - intros t l Ht. unfold user_tables in Ht. apply lookup_insert_Some in Ht as [[<- <-]|[_ [_ Ht]%lookup_delete_Some]].
    + split_and!; try done; try lia. intros Hlt. rewrite Hfu; [by apply Hused|].
      split; [apply Z.div_pos; unfold PAGE_SIZE; lia|done].
    + destruct (pwf_table _ _ Hwf _ _ Ht) as (?&?&?&?&Htu). split_and!; try done; try lia.
      intros Hlt. rewrite Hfu; [by apply Htu|]. split; [apply Z.div_pos; unfold PAGE_SIZE; lia|done].
  - intros t l i Ht Hi Hp. destruct (Hold t l i Ht Hi Hp) as (t0 & Ht0 & E & _). rewrite E in Hp |- *.
    apply Hlow; [by apply (pwf_entry _ _ Hwf t0)|].
    destruct (pwf_table _ _ Hwf _ _ Ht0) as (? & _). lia.
  - intros t l i t' l' i' Ht Ht' Hi Hi' Hp Hp'.
    destruct (Hold t l i Ht Hi Hp) as (t0 & Ht0 & E & Hm).
    destruct (Hold t' l' i' Ht' Hi' Hp') as (t0' & Ht0' & E' & Hm'). rewrite E in Hp |- *. rewrite E' in Hp' |- *.
    intros Hf. destruct (pwf_inj _ _ Hwf t0 l i t0' l' i') as [Heq ->]; try done. split; [|done].
    unfold user_tables in Ht, Ht'.
    destruct (decide (t = u)) as [->|], (decide (t' = u)) as [->|]; try done; subst t0 t0'.
    + apply lookup_insert_Some in Ht' as [[? _]|[_ [? _]%lookup_delete_Some]]; congruence.
    + apply lookup_insert_Some in Ht as [[? _]|[_ [? _]%lookup_delete_Some]]; congruence.
    + congruence.
Qed.

Lemma entry_at_cons m t j path i :
  entry_at m t (j :: path) i =
    if is_present (entry m t j) then entry_at m (frame_of (entry m t j)) path i else None.
Proof. unfold entry_at. cbn [table_at]. by destruct (is_present (entry m t j)). Qed.

Lemma share_translate s ts u m' va :
  paging_wf s ts -> ts !! u = None -> u mod PAGE_SIZE = 0 -> 0 <= va ->
  (forall t i, t mod PAGE_SIZE = 0 -> 0 <= i < 512 ->
     entry m' t i = if decide (t = u) then (if 256 <=? i then entry (pg_mem s) (pml4 s) i else 0)
                    else entry (pg_mem s) t i) ->
  translate (set_pml4 u (set_pg_mem m' s)) va = if 256 <=? pml4_index va then translate s va else None.
Proof.
  intros Hwf Hn Hum Hva He. destruct (indices_ok_upper va Hva) as [Hok Hi].
  unfold translate, upper_indices in *. cbn [pg_mem pml4 set_pml4 set_pg_mem].
  apply Forall_cons in Hok as [H4 Hok]. rewrite (entry_at_cons m' u), (entry_at_cons (pg_mem s) (pml4 s)).
  rewrite He, decide_True by done. destruct (256 <=? pml4_index va); [|done].
  destruct (is_present (entry (pg_mem s) (pml4 s) (pml4_index va))) eqn:Ep; [|done].
  apply (entry_at_ext (pg_mem s) m' ts) with (l := 3%nat); [| | |done|done|done].
  - intros t l i Ht Hi'. rewrite He by (done || by destruct (pwf_table _ _ Hwf _ _ Ht) as (_ & _ & ? & _)).
    by rewrite decide_False by congruence.
  - apply Hwf.
  - apply (pwf_entry _ _ Hwf (pml4 s)); [apply Hwf|done|done].
Qed.

#[local] Opaque memset.

Lemma pmm_alloc_set_pml4 u s :
  pmm_alloc_page (set_pml4 u s) = (fst (pmm_alloc_page s), set_pml4 u (snd (pmm_alloc_page s))).
Proof.
  unfold pmm_alloc_page. cbn [bitmap bitmap_size pg_mem set_pml4].
  destruct (pmm_search _ _ _ _) as [i|]; [|reflexivity].
  reflexivity.
Qed.

#[local] Transparent memset.

Lemma create_space_spec s ts u s' :
  paging_wf s ts -> paging_create_user_address_space s = (u, s') -> u <> 0 ->
  pml4 s' = pml4 s /\ paging_wf (set_pml4 u s') (user_tables s u ts) /\
  forall va, 0 <= va ->
    translate (set_pml4 u s') va = if 256 <=? pml4_index va then translate s va else None.
Proof.
  intros Hwf Hc Hu. unfold paging_create_user_address_space in Hc.
  destruct (pmm_alloc_cases s ts Hwf) as [[_ E]|(k & Hk & E)]; rewrite E in Hc; [by injection Hc as <- _|].
  destruct (take_frame_phys s ts k Hwf Hk) as [Hph Hne]. rewrite (proj2 (Z.eqb_neq _ _) Hne) in Hc.
  cbv zeta in Hc. apply pair_equal_spec in Hc as [<- <-].
  destruct (take_frame_wf s ts k Hwf Hk) as [Hwf1 _].
  destruct (take_frame_fresh s ts k Hwf Hk) as (Hn & _ & Hm & Hd & Hfu & Hz).
  pose proof (grows_take_frame s ts k) as Htr.
  assert (Hp : pml4 (take_frame k s) = pml4 s) by reflexivity.
  assert (Hut : user_tables s (k * PAGE_SIZE) ts = user_tables (take_frame k s) (k * PAGE_SIZE) ts) by reflexivity.
  rewrite Hut, <- Hp.
  assert (Htr1 : forall va, 0 <= va -> translate s va = translate (take_frame k s) va) by (intros; by rewrite Htr).
  clear Htr E Hut. revert Hwf1 Hn Hd Hfu Hz Htr1. generalize (take_frame k s) as s1. clear Hp.
  intros s1 Hwf1 Hn Hd Hfu Hz Htr1. set (u := k * PAGE_SIZE) in *.
  set (m0 := memset (Z.to_nat PAGE_SIZE) (pg_mem s1) u 0).
  destruct (copy_entries_spec 256 256 m0 u (pml4 s1) Hm (root_aligned s1 ts Hwf1)) as [He Hb]; [|lia|lia|].
  { intros E. pose proof (pwf_root _ _ Hwf1). congruence. }
  cbv zeta in He, Hb. fold m0. revert He Hb. generalize (for_loop 256 256 (fun i m => set_entry m u i (entry m (pml4 s1) i)) m0) as m1.
  intros m1 He Hb.
  assert (H0 : forall t i, t mod PAGE_SIZE = 0 -> 0 <= i < 512 ->
            entry m0 t i = if decide (t = u) then 0 else entry (pg_mem s1) t i).
  { intros t i Ht Hi. destruct (decide (t = u)) as [->|Htu].
    - unfold entry, entry_addr. apply load_le_zero. intros b Hb0. unfold m0. rewrite load8_memset.
      unfold PAGE_SIZE in *. by rewrite decide_True by lia.
    - apply entry_ext; [|done]. intros a Ha. unfold m0. rewrite load8_memset, decide_False; [done|].
      pose proof (frames_disjoint _ _ Ht Hm Htu) as Hdis. unfold disjoint_ranges, PAGE_SIZE in *. lia. }
  assert (Hent : forall t i, t mod PAGE_SIZE = 0 -> 0 <= i < 512 ->
     entry m1 t i = if decide (t = u) then (if 256 <=? i then entry (pg_mem s1) (pml4 s1) i else 0)
                    else entry (pg_mem s1) t i).
  { intros t i Ht Hi. rewrite He by done. rewrite !H0 by (done || by apply (root_aligned s1 ts)).
    destruct (decide (t = u)) as [->|Htu]; [|by rewrite decide_False by tauto].
    rewrite (decide_False (P := pml4 s1 = u)) by (intros E; pose proof (pwf_root _ _ Hwf1); congruence).
    destruct (Z.leb_spec 256 i); [by rewrite decide_True by lia|by rewrite decide_False by lia]. }
  split; [done|]. split.
  - apply share_wf; try done. intros a Ha. rewrite Hb by done. unfold m0. rewrite load8_memset, decide_False; [done|].
    unfold PAGE_SIZE in *. lia.
  - intros va Hva. rewrite Htr1 by done. by apply (share_translate s1 ts).
Qed.
End Address_space.

(** ** Pages of the new space *)

Section User_pages.
Implicit Types (ts : gmap Z nat) (s : paging).

Definition mapped (u : Z) s (va : Z) : Prop := translate (set_pml4 u s) va <> None.

(** From [s] to [s'] the space [u] has grown by the pages of [P], each with the
    right to write or not as [P] says; all of them can be read by the program,
    and what was mapped is mapped as before. *)
Record adds (u : Z) s s' (P : Z -> bool -> Prop) : Prop := {
  ad_wf : exists ts, paging_wf (set_pml4 u s') ts;
  ad_root : pml4 s' = pml4 s;
  ad_mapped va : 0 <= va -> mapped u s' va <-> mapped u s va \/ exists w, P va w;
  ad_kept va : 0 <= va -> mapped u s va -> translate (set_pml4 u s') va = translate (set_pml4 u s) va;
  ad_new va w : 0 <= va -> P va w -> user_accessible (set_pml4 u s') 0 va = true /\
    user_accessible (set_pml4 u s') PAGE_WRITABLE va = w;
}.

Lemma adds_refl u s P :
  (exists ts, paging_wf (set_pml4 u s) ts) -> (forall va w, 0 <= va -> ~ P va w) -> adds u s s P.
Proof.
  intros Hwf HP. split; [done|done| |done|].
  - intros va Hva. split; [by left|]. intros [Hm|[w Hm]]; [done|by destruct (HP va w)].
  - intros va w Hva Hm. by destruct (HP va w).
Qed.

Lemma adds_trans u s1 s2 s3 P Q R :
  adds u s1 s2 P -> adds u s2 s3 Q -> (forall va w, 0 <= va -> R va w <-> P va w \/ Q va w) -> adds u s1 s3 R.
Proof.
  intros [W1 R1 M1 K1 N1] [W2 R2 M2 K2 N2] HR. split; [done|congruence|..].
  - intros va Hva. rewrite M2, M1 by done. split.
    + intros [[Hm|[w Hp]]|[w Hq]]; [by left| |]; right; exists w; apply HR; auto.
    + intros [Hm|[w Hr]]; [by left; left|]. apply HR in Hr as [Hp|Hq]; [left; right|right|done]; by exists w.
  - intros va Hva Hm. rewrite K2 by (try done; apply M1; auto). by apply K1.
  - intros va w Hva Hr. apply HR in Hr as [Hp|Hq]; [|by apply N2|done]. unfold user_accessible.
    rewrite K2 by first [done|apply M1; [done|right; by exists w]]. by apply N1.
Qed.

(** The entry of a user page. *)
Lemma user_entry_accessible phys flags :
  0 < phys < 2 ^ 52 -> phys mod PAGE_SIZE = 0 -> flags_ok flags ->
  let e := paging_make_entry phys (Z.lor PAGE_PRESENT (Z.lor flags PAGE_USER)) in
  entry_accessible e 0 = true /\ entry_accessible e PAGE_WRITABLE = negb (Z.land flags PAGE_WRITABLE =? 0).
Proof.
  intros Hp Hm Hf e.
  assert (Hfu : flags_ok (Z.lor flags PAGE_USER)) by (apply flags_ok_lor; [done|split; vm_compute; done]).
  destruct (make_entry_spec phys _ ltac:(lia) Hm Hfu) as (_ & _ & Hfr). unfold entry_accessible. fold e in Hfr.
  rewrite Hfr, (proj2 (Z.eqb_neq phys 0)) by lia. cbn [negb andb].
  assert (Hb : forall i, 0 <= i < 12 -> Z.testbit e i = Z.testbit (Z.lor PAGE_PRESENT (Z.lor flags PAGE_USER)) i).
  { intros i Hi. unfold e, paging_make_entry. rewrite Z.lor_spec. fold (frame_of phys).
    rewrite frame_of_page by (done || lia). unfold PAGE_SIZE in Hm. rewrite (Z.div_mod phys 4096), Hm, Z.add_0_r by lia.
    change 4096 with (2 ^ 12). rewrite Z.mul_comm, Z.mul_pow2_bits_low by lia. done. }
  change PAGE_USER with (Z.shiftl 1 2). rewrite land_pow2_testbit, Hb by lia.
  rewrite !Z.lor_spec. change (Z.testbit PAGE_USER 2) with true. rewrite !orb_true_r. cbn [andb].
  split; [by rewrite Z.land_0_l|].
  change (negb (Z.land PAGE_WRITABLE PAGE_WRITABLE =? 0)) with true. cbn [andb].
  change PAGE_WRITABLE with (Z.shiftl 1 1). rewrite !land_pow2_testbit, Hb by lia.
  rewrite !Z.lor_spec. change (Z.testbit PAGE_PRESENT 1) with false. change (Z.testbit PAGE_USER 1) with false.
  by rewrite orb_false_r.
Qed.

(** The page of [va], writable or not. *)
Definition page_at (va : Z) (writable : bool) (va' : Z) (w : bool) : Prop := same_page va va' /\ w = writable.

Lemma alloc_user_page_adds u va flags s s' r ts :
  paging_wf (set_pml4 u s) ts -> in_u 64 va -> flags_ok flags ->
  paging_alloc_user_page u va flags s = (r, s') -> r <> 0 ->
  adds u s s' (page_at va (negb (Z.land flags PAGE_WRITABLE =? 0))).
Proof.
  intros Hwf Hva Hf Ha Hr. unfold paging_alloc_user_page in Ha.
  destruct (KERNEL_BASE <=? va); [by injection Ha as <- _|].
  pose proof (pmm_alloc_set_pml4 u s) as Hset.
  destruct (pmm_alloc_page s) as [phys s1] eqn:E. cbn [fst snd] in Hset.
  destruct (pmm_alloc_cases (set_pml4 u s) ts Hwf) as [[_ E']|(k & Hk & E')]; rewrite E' in Hset;
    apply pair_equal_spec in Hset as [Hphys Hs1]; subst phys; [by injection Ha as <- _|].
  destruct (take_frame_phys _ ts k Hwf Hk) as [Hph Hne]. rewrite (proj2 (Z.eqb_neq _ _) Hne) in Ha.
  destruct (take_frame_wf _ ts k Hwf Hk) as [Hwf1 _].
  assert (Htr : forall va', 0 <= va' -> translate (set_pml4 u s1) va' = translate (set_pml4 u s) va').
  { intros va' Hva'. rewrite <- Hs1. exact (grows_take_frame _ ts k va' Hwf Hk Hva'). }
  assert (Hroot : pml4 s1 = pml4 s).
  { clear - E. unfold pmm_alloc_page in E. destruct (pmm_search _ _ _ _); apply pair_equal_spec in E as [_ <-]; reflexivity. }
  rewrite Hs1 in Hwf1. clear E E' Hk Hs1. set (p := k * PAGE_SIZE) in *.
  assert (Hpm : p mod PAGE_SIZE = 0) by apply Z_mod_mult. clearbody p.
  assert (Hfu : flags_ok (Z.lor flags PAGE_USER)) by (apply flags_ok_lor; [done|split; vm_compute; done]).
  pose proof (map_page_cases (set_pml4 u s1) ts p va _ Hwf1 Hva Hph Hpm Hfu) as Hmap. cbv zeta in Hmap.
  destruct (translate (set_pml4 u s1) va) as [e0|] eqn:Etr.
  { rewrite Hmap in Ha. by injection Ha as <- _. }
  destruct Hmap as (s2 & ts2 & Hwf2 & _ & _ & Hp2 & _ & _ & _ & _ & [[Em _]|[Em Ht]]); rewrite Em in Ha.
  { by injection Ha as <- _. }
  destruct (page_of va =? 0) eqn:Epo; [by injection Ha as <- _|]. injection Ha as <- <-.
  assert (Hback : set_pml4 u (set_pml4 (pml4 s1) s2) = s2).
  { destruct s2. cbn in *. by rewrite Hp2. }
  assert (Htr2 : forall va', 0 <= va' -> translate (set_pml4 u (set_pml4 (pml4 s1) s2)) va' =
            if decide (same_page va va') then Some (paging_make_entry p (Z.lor PAGE_PRESENT (Z.lor flags PAGE_USER)))
            else translate (set_pml4 u s) va').
  { intros va' Hva'. rewrite Hback, Ht by done. by rewrite Htr. }
  assert (Hnone : forall va', 0 <= va' -> same_page va va' -> translate (set_pml4 u s) va' = None).
  { intros va' Hva' Hsp. rewrite <- Etr, Htr by apply Hva. symmetry. apply same_page_translate; [apply Hva|done..]. }
  split.
  - exists ts2. by rewrite Hback.
  - exact Hroot.
  - intros va' Hva'. unfold mapped, page_at. rewrite Htr2 by done. destruct (decide (same_page va va')).
    + split; [intros _; right; by eexists|done].
    + split; [by left|intros [?|(w & ? & _)]; done].
  - intros va' Hva' Hm. rewrite Htr2 by done. rewrite decide_False; [done|]. intros Hsp. by apply Hm, Hnone.
  - intros va' w Hva' [Hsp ->]. unfold user_accessible. rewrite Htr2, decide_True by done.
    apply user_entry_accessible; try done. lia.
Qed.

(** ** The stack *)

Definition on_pages (addrs : list Z) (va : Z) : Prop := exists a, a ∈ addrs /\ same_page a va.

Lemma load_stack_adds addrs u : forall s s' ts,
  paging_wf (set_pml4 u s) ts -> Forall (in_u 64) addrs -> load_stack addrs u s = (true, s') ->
  adds u s s' (fun va w => on_pages addrs va /\ w = true).
Proof.
  induction addrs as [|a addrs IH]; intros s s' ts Hwf Ha Hl; cbn [load_stack] in Hl.
  { injection Hl as <-. apply adds_refl; [by exists ts|]. intros va w _ [(x & Hx & _) _]. by apply elem_of_nil in Hx. }
  apply Forall_cons in Ha as [Ha Has].
  destruct (paging_alloc_user_page u a _ s) as [r s1] eqn:E. destruct (Z.eqb_spec r 0) as [->|Hr]; [discriminate Hl|].
  assert (Hf : flags_ok (Z.lor (Z.lor PAGE_PRESENT PAGE_WRITABLE) PAGE_USER)) by (split; vm_compute; done).
  pose proof (alloc_user_page_adds u a _ s s1 r ts Hwf Ha Hf E Hr) as Hadd.
  change (negb (Z.land (Z.lor (Z.lor PAGE_PRESENT PAGE_WRITABLE) PAGE_USER) PAGE_WRITABLE =? 0)) with true in Hadd.
  destruct (ad_wf _ _ _ _ Hadd) as [ts1 Hwf1].
  eapply adds_trans; [exact Hadd|exact (IH s1 s' ts1 Hwf1 Has Hl)|].
  intros va w Hva. unfold on_pages, page_at. split.
  - intros [(x & Hx & Hs) ->]. apply elem_of_cons in Hx as [->|Hx]; [by left|right; split; [by exists x|done]].
  - intros [[Hs ->]|[(x & Hx & Hs) ->]]; (split; [|done]); [exists a|exists x]; (split; [by rewrite elem_of_cons; auto|done]).
Qed.
End User_pages.

(** ** The file *)

(** The little-endian number of [n] bytes at [off]. *)
Definition field (n off : nat) (bytes : list Z) : Z := le_value (take n (drop off bytes)).

(** What the ELF format has at fixed places: the mark of a 64-bit file and the type
    of a program, the fields of the file's header, and those of a program header
    at [pos]. *)
Definition is_program (bytes : list Z) : Prop :=
  take 5 bytes = [0x7F; 0x45; 0x4C; 0x46; 2] /\ bytes !! 16%nat = Some 2.

Definition file_header (bytes : list Z) : elf_header :=
  {| e_entry := field 8 24 bytes; e_phoff := field 8 32 bytes;
     e_phentsize := field 2 54 bytes; e_phnum := field 2 56 bytes |}.

Definition segment_header (pos : nat) (bytes : list Z) : program_header :=
  {| p_type := field 4 pos bytes; ph_flags := field 4 (pos + 4) bytes; p_offset := field 8 (pos + 8) bytes;
     p_vaddr := field 8 (pos + 16) bytes; p_filesz := field 8 (pos + 32) bytes; p_memsz := field 8 (pos + 40) bytes |}.

(** The program header at the [i]-th place of the table, if the file has its 56
    bytes; the position is one of 32 bits. *)
Definition header_at (e : elf_header) (bytes : list Z) (i : nat) : option program_header :=
  let pos := Z.to_nat (u32 (e_phoff e + Z.of_nat i * e_phentsize e)) in
  if (pos + 56 <=? length bytes)%nat then Some (segment_header pos bytes) else None.

(** The headers of the [n] places from [i] that name a loadable segment. *)
Definition loadable (e : elf_header) (bytes : list Z) (i n : nat) : list program_header :=
  filter (fun h => p_type h = 1) (omap (header_at e bytes) (seq i n)).

Definition segment_page (h : program_header) (j : Z) : Z := u64 (page_of (p_vaddr h) + j * PAGE_SIZE).
Definition writable (h : program_header) : bool := negb (Z.land (ph_flags h) 0x2 =? 0).

(** The pages a loadable header asks for: as many as [p_memsz] bytes fill, from the
    page of [p_vaddr] (a size within a page of [2 ^ 64] wraps around to none). *)
Definition in_segment (h : program_header) (va : Z) : Prop :=
  exists j, 0 <= j /\ (j + 1) * PAGE_SIZE <= u64 (p_memsz h + PAGE_SIZE - 1) /\ same_page (segment_page h j) va.

(** Page [j] of a segment with the bytes of the file in it: they start at the offset
    of [p_vaddr] in the first page and at the start of the others, and end with
    the page or with [p_filesz]. *)
Definition start_in_page (h : program_header) (j : Z) : Z := if j =? 0 then p_vaddr h mod PAGE_SIZE else 0.
Definition file_part (h : program_header) (j : Z) : Z :=
  Z.min (PAGE_SIZE - start_in_page h j) (p_filesz h - j * PAGE_SIZE).

Definition fill_page (h : program_header) (bytes : list Z) (um : mem) (j : Z) : mem :=
  write_bytes (take (Z.to_nat (file_part h j)) (drop (Z.to_nat (u32 (p_offset h + j * PAGE_SIZE))) bytes)) um
    (u64 (segment_page h j + start_in_page h j)).

(** All pages of all segments, in order. *)
Definition fill_segment (bytes : list Z) (um : mem) (h : program_header) : mem :=
  foldl (fill_page h bytes) um
    (Z.of_nat <$> seq 0 (Z.to_nat (u64 (p_memsz h + PAGE_SIZE - 1) / PAGE_SIZE))).

(** The offsets the loader reads are those of the format. *)
Lemma get_le_field (n off : nat) (bytes : list Z) :
  (off + n <= length bytes)%nat -> get_le (Z.of_nat n) (Z.of_nat off) bytes = Some (field n off bytes).
Proof. intros H. unfold get_le, field. rewrite slice_eq by lia. by rewrite !Nat2Z.id. Qed.

Lemma field_take (n off m : nat) (bytes : list Z) :
  (off + n <= m)%nat -> field n off (take m bytes) = field n off bytes.
Proof. intros H. unfold field. rewrite skipn_firstn_comm, take_take. by rewrite Nat.min_l by lia. Qed.

Lemma field_drop (n off pos : nat) (bytes : list Z) : field n off (drop pos bytes) = field n (pos + off) bytes.
Proof. unfold field. by rewrite drop_drop. Qed.

Lemma elf_header_of_file (bytes : list Z) :
  (64 <= length bytes)%nat -> elf_header_of (take 64 bytes) = Some (file_header bytes).
Proof.
  intros H. assert (length (take 64 bytes) = 64%nat) by (rewrite length_take; lia). unfold elf_header_of.
  rewrite (get_le_field 8 32), (get_le_field 2 54), (get_le_field 2 56), (get_le_field 8 24) by lia.
  cbn [mbind option_bind]. by rewrite !field_take by lia.
Qed.

Lemma program_header_of_file (pos : nat) (bytes : list Z) :
  (pos + 56 <= length bytes)%nat ->
  program_header_of (take 56 (drop pos bytes)) = Some (segment_header pos bytes).
Proof.
  intros H. assert (length (take 56 (drop pos bytes)) = 56%nat) by (rewrite length_take, length_drop; lia).
  unfold program_header_of.
  rewrite (get_le_field 4 0), (get_le_field 8 16), (get_le_field 8 32), (get_le_field 8 40),
    (get_le_field 8 8), (get_le_field 4 4) by lia.
  cbn [mbind option_bind]. rewrite !field_take by lia. rewrite !field_drop. by rewrite Nat.add_0_r.
Qed.

Lemma elf_error_program (bytes : list Z) :
  (64 <= length bytes)%nat -> elf_error (take 64 bytes) = None -> is_program bytes.
Proof.
  intros Hl. do 17 (destruct bytes as [|? bytes]; [cbn in Hl; lia|]). unfold elf_error, is_program. cbn.
  repeat match goal with |- context [negb ?c] => destruct c eqn:?; cbn [negb orb]; try discriminate end.
  intros _. repeat match goal with H : (_ =? _) = true |- _ => apply Z.eqb_eq in H; subst end. split; reflexivity.
Qed.

(** The pages and the bytes of a page that the loader takes. *)
Lemma page_count_pages (h : program_header) (j : Z) :
  j < page_count h <-> (j + 1) * PAGE_SIZE <= u64 (p_memsz h + PAGE_SIZE - 1).
Proof.
  unfold page_count. generalize (u64 (p_memsz h + PAGE_SIZE - 1)). intros n. unfold PAGE_SIZE.
  Z.div_mod_to_equations; lia.
Qed.

Lemma in_segment_pages (h : program_header) (va : Z) :
  in_segment h va <-> exists j, 0 <= j < page_count h /\ same_page (segment_page h j) va.
Proof.
  unfold in_segment. split; intros (j & Hj); exists j.
  - destruct Hj as (? & ? & ?). split; [|done]. split; [done|]. by apply page_count_pages.
  - destruct Hj as ((? & Hj) & ?). apply page_count_pages in Hj. done.
Qed.

Lemma start_in_page_eq (h : program_header) (j : Z) :
  (if j =? 0 then Z.land (p_vaddr h) 0xFFF else 0) = start_in_page h j /\ 0 <= start_in_page h j < PAGE_SIZE.
Proof.
  unfold start_in_page, PAGE_SIZE. destruct (j =? 0); [|lia]. split; [exact (Z.land_ones (p_vaddr h) 12 ltac:(lia))|].
  apply Z.mod_pos_bound. lia.
Qed.

Lemma bytes_to_read_eq (h : program_header) (j : Z) : 0 <= j < page_count h ->
  bytes_to_read h j = if j * PAGE_SIZE <? p_filesz h then Some (file_part h j) else None.
Proof.
  intros Hj. unfold bytes_to_read, file_part. destruct (start_in_page_eq h j) as [-> Hs].
  generalize dependent (start_in_page h j). intros s Hs.
  assert (Hw : (j + 1) * PAGE_SIZE < 2 ^ 64).
  { pose proof (proj1 (page_count_pages h j) ltac:(lia)) as Hp.
    pose proof (wrap_range 64 (p_memsz h + PAGE_SIZE - 1) ltac:(lia)) as Hr. unfold in_u in Hr. lia. }
  unfold PAGE_SIZE in *. rewrite !(wrap_small 64 (_ * _)), (wrap_small 64 (_ + _)) by (unfold in_u; lia).
  destruct (Z.ltb_spec (j * 4096) (p_filesz h)); [|done]. f_equal.
  destruct (Z.ltb_spec (p_filesz h) (j * 4096 + (4096 - s))); [|lia].
  rewrite wrap_small; [lia|unfold in_u; lia].
Qed.

Section Segments.
Context `{!Disk D}.
Variable turns : nat.
Implicit Types (d : D) (f : fs_file) (s : paging) (um : mem).
Variable (volume_size : Z) (fi : fs_info) (d : D) (f0 : fs_file) (cs : list Z).
Hypothesis vol : volume volume_size fi d.
Hypothesis file : file_ok volume_size fi d f0 cs.
Hypothesis enough_turns : de_size (f_dirent f0) <= Z.of_nat turns.

#[local] Abbreviation bytes := (take (Z.to_nat (de_size (f_dirent f0))) (content d fi cs)).

(** Reading at a position that the file has been moved to. *)
Lemma read_at q off size :
  0 <= off -> 0 <= size < 2 ^ 31 ->
  exists q', fs_read turns (snd (fs_seek (set_f_position q f0) off fi)) size fi d
    = Some (Z.of_nat (length (take (Z.to_nat size) (drop (Z.to_nat off) bytes))),
            take (Z.to_nat size) (drop (Z.to_nat off) bytes), set_f_position q' f0).
Proof using vol file enough_turns.
  intros Hoff Hs. pose proof file as [Hd Hch Hsz Hp Hsm]. unfold fs_seek.
  rewrite (tab_mounted _ _ (vol_table _ _ _ vol)). cbn [Z.eqb snd f_dirent set_f_position].
  set (pos := if de_size (f_dirent f0) <? off then de_size (f_dirent f0) else off).
  assert (Hpos : pos = Z.min off (de_size (f_dirent f0)))
    by (unfold pos; destruct (Z.ltb_spec (de_size (f_dirent f0)) off); lia).
  assert (Hok : file_ok volume_size fi d (set_f_position pos (set_f_position q f0)) cs) by (split; try done; cbn; lia).
  rewrite (fs_read_eq volume_size fi d _ cs turns size vol Hok Hs) by (cbn; lia). cbn [f_position f_dirent set_f_position].
  set (m := Z.min size (de_size (f_dirent f0) - pos)). exists (pos + m).
  assert (E : take (Z.to_nat m) (drop (Z.to_nat pos) (content d fi cs)) = take (Z.to_nat size) (drop (Z.to_nat off) bytes)).
  { rewrite skipn_firstn_comm, take_take. destruct (decide (off <= de_size (f_dirent f0))).
    - replace pos with off by lia. f_equal. unfold m. lia.
    - replace (Z.to_nat m) with 0%nat by (unfold m; lia).
      replace (Nat.min _ _) with 0%nat by lia. done. }
  rewrite E. do 3 f_equal. rewrite <- E, length_take, length_drop. unfold m in *. lia.
Qed.

Lemma segment_flags_ok h : flags_ok (segment_flags h).
Proof using Type. unfold segment_flags. destruct (negb _); split; vm_compute; done. Qed.

Lemma segment_flags_writable h : negb (Z.land (segment_flags h) PAGE_WRITABLE =? 0) = writable h.
Proof using Type. unfold segment_flags, writable. by destruct (Z.land (ph_flags h) 0x2 =? 0). Qed.

Lemma bytes_to_read_bound h j c :
  0 <= j < page_count h -> bytes_to_read h j = Some c -> 0 <= c < 2 ^ 31.
Proof using Type.
  clear. intros Hj. rewrite bytes_to_read_eq by done. destruct (start_in_page_eq h j) as [_ Hs].
  destruct (Z.ltb_spec (j * PAGE_SIZE) (p_filesz h)); [|done]. intros [= <-]. unfold file_part, PAGE_SIZE in *. lia.
Qed.

Lemma page_count_range h : 0 <= page_count h.
Proof using Type. clear. unfold page_count. apply Z.div_pos; [apply wrap_range; lia|done]. Qed.

Lemma load_pages_spec n : forall j h u s um q s' um' f' ts,
  paging_wf (set_pml4 u s) ts -> 0 <= j -> j + Z.of_nat n <= page_count h ->
  load_pages turns n j h u fi d s um (set_f_position q f0) = Some (Some tt, s', um', f') ->
  adds u s s' (fun va w => (exists i, j <= i < j + Z.of_nat n /\ same_page (segment_page h i) va) /\ w = writable h) /\
  um' = foldl (fill_page h bytes) um (Z.of_nat <$> seq (Z.to_nat j) n) /\ exists q', f' = set_f_position q' f0.
Proof using vol file enough_turns.
  induction n as [|n IH]; intros j h u s um q s' um' f' ts Hwf Hj Hn Hl; cbn [load_pages] in Hl.
  { injection Hl as <- <- <-. split; [|by split; [|exists q]].
    apply adds_refl; [by exists ts|]. intros va w _ [(i & Hi & _) _]. lia. }
  destruct (paging_alloc_user_page u _ _ s) as [r s1] eqn:E.
  destruct (Z.eqb_spec r 0) as [->|Hr]; [discriminate Hl|]. fold (segment_page h j) in E, Hl.
  pose proof (alloc_user_page_adds u (segment_page h j) (segment_flags h) s s1 r ts Hwf
    (wrap_range 64 _ ltac:(lia)) (segment_flags_ok h) E Hr) as Hadd. rewrite segment_flags_writable in Hadd.
  destruct (ad_wf _ _ _ _ Hadd) as [ts1 Hwf1].
  assert (Hrest : exists q1, load_pages turns n (j + 1) h u fi d s1 (fill_page h bytes um j) (set_f_position q1 f0)
                    = Some (Some tt, s', um', f')).
  { destruct (start_in_page_eq h j) as [Es _]. unfold fill_page. rewrite <- Es.
    pose proof (bytes_to_read_eq h j ltac:(lia)) as Eb.
    destruct (Z.ltb_spec (j * PAGE_SIZE) (p_filesz h)) as [Hj2|Hj2]; rewrite Eb in Hl.
    2: { exists q. replace (Z.to_nat (file_part h j)) with 0%nat by (unfold file_part; lia).
         rewrite take_0. exact Hl. }
    pose proof (bytes_to_read_bound h j _ ltac:(lia) Eb) as Hc. set (c := file_part h j) in *.
    destruct (read_at q (u32 (p_offset h + j * PAGE_SIZE)) c) as (q1 & Hrd); [apply wrap_range; lia|done|].
    destruct (fs_seek (set_f_position q f0) (u32 (p_offset h + j * PAGE_SIZE)) fi) as [? f1]. cbn [snd] in Hrd.
    rewrite Hrd in Hl. exists q1. exact Hl. }
  destruct Hrest as (q1 & Hrest).
  destruct (IH (j + 1) h u s1 _ q1 s' um' f' ts1 Hwf1 ltac:(lia) ltac:(lia) Hrest) as (Hadd2 & Hum & Hf).
  split; [|split; [|exact Hf]].
  - eapply adds_trans; [exact Hadd|exact Hadd2|]. intros va w Hva. unfold page_at. split.
    + intros [(i & Hi & Hs) ->]. destruct (decide (i = j)) as [->|]; [by left|].
      right. split; [|done]. exists i. split; [lia|done].
    + intros [[Hs ->]|[(i & Hi & Hs) ->]]; (split; [|done]); [exists j|exists i]; (split; [lia|done]).
  - rewrite Hum. cbn [seq fmap list_fmap foldl]. rewrite Z2Nat.id by done.
    by replace (Z.to_nat (j + 1)) with (S (Z.to_nat j)) by lia.
Qed.

Lemma loadable_step e b i n h :
  header_at e b i = Some h ->
  loadable e b i (S n) = if p_type h =? 1 then h :: loadable e b (S i) n else loadable e b (S i) n.
Proof using Type.
  intros Hh. unfold loadable. cbn [seq omap list_omap]. rewrite Hh, filter_cons.
  destruct (Z.eqb_spec (p_type h) 1); [by rewrite decide_True|by rewrite decide_False].
Qed.

Lemma load_segments_spec n : forall i e u s um q s' um' f' ts,
  paging_wf (set_pml4 u s) ts -> 0 <= i ->
  load_segments turns n i e u fi d s um (set_f_position q f0) = Some (Some tt, s', um', f') ->
  let hs := loadable e bytes (Z.to_nat i) n in
  adds u s s' (fun va w => exists h, h ∈ hs /\ in_segment h va /\ w = writable h) /\
  um' = foldl (fill_segment bytes) um hs /\
  forall k, (Z.to_nat i <= k < Z.to_nat i + n)%nat -> header_at e bytes k <> None.
Proof using vol file enough_turns.
  induction n as [|n IH]; intros i e u s um q s' um' f' ts Hwf Hi Hl; cbv zeta; cbn [load_segments] in Hl.
  { injection Hl as <- <- _. split; [|split; [done|lia]].
    apply adds_refl; [by exists ts|]. intros va w _ (h & Hh & _). by apply elem_of_nil in Hh. }
  destruct (2 ^ 31 <=? _); [discriminate Hl|].
  destruct (read_at q (u32 (e_phoff e + i * e_phentsize e)) 56) as (q1 & Hrd); [apply wrap_range; lia|lia|].
  destruct (fs_seek (set_f_position q f0) _ fi) as [? f1]. cbn [snd] in Hrd. rewrite Hrd in Hl. clear Hrd.
  cbn [mbind option_bind] in Hl. change (Z.to_nat 56) with 56%nat in Hl.
  set (ph := take 56 (drop (Z.to_nat (u32 (e_phoff e + i * e_phentsize e))) bytes)) in *.
  destruct (Z.eqb_spec (Z.of_nat (length ph)) 56) as [Hlen|]; cbn [negb] in Hl; [|discriminate Hl].
  apply bind_Some in Hl as (h & Hh & Hl).
  assert (Hat : header_at e bytes (Z.to_nat i) = Some h).
  { unfold header_at. rewrite Z2Nat.id by done. set (pos := Z.to_nat (u32 (e_phoff e + i * e_phentsize e))) in *.
    assert (pos + 56 <= length bytes)%nat by (unfold ph in Hlen; rewrite length_take, length_drop in Hlen; lia).
    unfold ph in Hh. rewrite program_header_of_file in Hh by done. by rewrite (proj2 (Nat.leb_le _ _)). }
  assert (Hall : (forall k, (Z.to_nat (i + 1) <= k < Z.to_nat (i + 1) + n)%nat -> header_at e bytes k <> None) ->
                 forall k, (Z.to_nat i <= k < Z.to_nat i + S n)%nat -> header_at e bytes k <> None).
  { intros Hr k Hk. destruct (decide (k = Z.to_nat i)) as [->|]; [by rewrite Hat|]. apply Hr. lia. }
  rewrite (loadable_step _ _ _ _ h Hat). replace (S (Z.to_nat i)) with (Z.to_nat (i + 1)) by lia.
  destruct (Z.eqb_spec (p_type h) 1) as [Ht|Ht]; cbn [negb] in Hl.
  - apply bind_Some in Hl as ([[[ok s1] um1] f3] & Hp & Hl). destruct ok as [[]|]; [|discriminate Hl].
    pose proof (page_count_range h) as Hpc.
    destruct (load_pages_spec (Z.to_nat (page_count h)) 0 h u s um q1 s1 um1 f3 ts Hwf ltac:(lia) ltac:(lia) Hp) as (Hadd & Hum & q2 & ->).
    destruct (ad_wf _ _ _ _ Hadd) as [ts1 Hwf1].
    destruct (IH (i + 1) e u s1 um1 q2 s' um' f' ts1 Hwf1 ltac:(lia) Hl) as (Hadd2 & Hum2 & Hk).
    split; [|split; [|by apply Hall]].
    + eapply adds_trans; [exact Hadd|exact Hadd2|]. intros va w Hva. rewrite Z.add_0_l, Z2Nat.id, <- in_segment_pages by done. split.
      * intros (x & Hx & Hs & ->). apply elem_of_cons in Hx as [->|Hx]; [by left|right; by exists x].
      * intros [[Hs ->]|(x & Hx & Hs & ->)]; [exists h|exists x]; (split; [by rewrite elem_of_cons; auto|done]).
    + cbn [foldl]. rewrite Hum2, Hum. done.
  - destruct (IH (i + 1) e u s um q1 s' um' f' ts Hwf ltac:(lia) Hl) as (Hadd & Hum & Hk).
    split; [exact Hadd|]. split; [exact Hum|by apply Hall].
Qed.
End Segments.

Lemma stack_addrs_in_u : Forall (in_u 64) stack_addrs.
Proof. apply (bool_decide_unpack _). vm_compute. exact I. Qed.

(** The page below the initial stack pointer is none of the stack's. *)
Lemma top_not_on_stack : ~ on_pages stack_addrs (USER_STACK_TOP - 8).
Proof.
  assert (H : Forall (fun a => ~ same_page a (USER_STACK_TOP - 8)) stack_addrs)
    by (apply (bool_decide_unpack _); vm_compute; exact I).
  intros (a & Ha & Hs). by apply (proj1 (Forall_forall _ _) H a Ha).
Qed.

(** An ELF file on a small disk: one loadable segment of eight bytes at
    [0x400000]. *)
Definition demo_elf : list Z :=
  [0x7F; 0x45; 0x4C; 0x46; 2] ++ replicate 11 0 ++ le_bytes 2 2 ++ replicate 6 0 ++ le_bytes 8 0x400000 ++
  le_bytes 8 64 ++ replicate 14 0 ++ le_bytes 2 56 ++ le_bytes 2 1 ++ replicate 6 0 ++
  le_bytes 4 1 ++ le_bytes 4 5 ++ le_bytes 8 120 ++ le_bytes 8 0x400000 ++ le_bytes 8 0 ++ le_bytes 8 8 ++
  le_bytes 8 8 ++ le_bytes 8 0 ++ [1; 2; 3; 4; 5; 6; 7; 8].

Definition elf_disk : ram_disk := RamDisk 64 (<[5 := patch 0 demo_elf zeros]> (rd_sectors demo_disk)).

Abbreviation demo_load :=
  (usermode_load_program 2048 (bytes_of "/HELLO.TXT") demo_fi elf_disk process0 paging_boot ∅).

(** ** Properties *)

(** [fs_open] puts the position at the start of the file. *)
Lemma fs_open_position `{!Disk D} path fi (d : D) r f : fs_open path fi d = Some (r, Some f) -> f_position f = 0.
Proof.
  assert (Hop : forall entry g, opened entry fi = Some g -> f_position g = 0).
  { intros entry g Hg. unfold opened in Hg. apply bind_Some in Hg as (nm & _ & [= <-]). done. }
  assert (Hs : forall n i lba name, open_search n i lba name fi d = Some (r, Some f) -> f_position f = 0).
  { induction n as [|n IH]; intros i lba name Hs; cbn [open_search] in Hs; [done|].
    destruct (ata_read_sectors _ _ _) as [r' sector]. destruct (negb (r' =? 0)); [done|].
    apply bind_Some in Hs as ([entry|] & _ & Hs); [|by apply IH in Hs].
    apply bind_Some in Hs as (g & Hg & [= _ <-]). by apply (Hop entry). }
  unfold fs_open. destruct (mounted fi =? 0); [done|]. destruct (_ =? 0).
  - intros Ho. apply bind_Some in Ho as (nm & _ & [= _ <-]). done.
  - intros Ho. apply bind_Some in Ho as (nm & _ & Ho). by apply Hs in Ho.
Qed.

(** C21. A program that is loaded from a file of the volume starts at the entry
    point in its header in a new address space.  The file begins with the mark of
    a 64-bit program and has all the program headers its header counts.  The upper
    half of the new space maps what the kernel's maps; the lower half exactly the
    pages of the loadable segments, readable by the program and writable just
    where the flags of the segment say so, and the sixteen pages of the stack,
    writable.  The memory gets the bytes of the file page by page, through the
    virtual addresses of the segments.  The stack pointer lies above the stack: the
    page of the first push is mapped only if a segment covers it. *)
Theorem load_program_spec `{!Disk D} (turns : nat) (filename : list Z) (n : Z) (fi : fs_info) (d : D)
    (f : fs_file) (cs : list Z) (p p' : process) (s s' : paging) (um um' : mem) (ts : gmap Z nat) :
  paging_wf s ts -> volume n fi d -> fs_open filename fi d = Some (FS_SUCCESS, Some f) -> file_ok n fi d f cs ->
  de_size (f_dirent f) <= Z.of_nat turns ->
  usermode_load_program turns filename fi d p s um = Some (1, p', s', um') ->
  let bytes := take (Z.to_nat (de_size (f_dirent f))) (content d fi cs) in
  let e := file_header bytes in
  let hs := loadable e bytes 0 (Z.to_nat (e_phnum e)) in
  is_program bytes /\ (forall i, (i < Z.to_nat (e_phnum e))%nat -> header_at e bytes i <> None) /\
  exists u,
    p' = set_p_registers (set_rsp USER_STACK_TOP (set_rip (field 8 24 bytes) (p_registers p))) (set_p_page_directory u p) /\
    um' = foldl (fill_segment bytes) um hs /\
    pml4 s' = pml4 s /\ (exists ts', paging_wf (set_pml4 u s') ts') /\
    (forall va, 0 <= va -> mapped u s' va <->
       (256 <= pml4_index va /\ translate s va <> None) \/ (exists h, h ∈ hs /\ in_segment h va) \/
       on_pages stack_addrs va) /\
    (forall va, 0 <= va -> 256 <= pml4_index va -> translate s va <> None ->
       translate (set_pml4 u s') va = translate s va) /\
    (forall va h, 0 <= va -> h ∈ hs -> in_segment h va ->
       user_accessible (set_pml4 u s') 0 va = true /\
       user_accessible (set_pml4 u s') PAGE_WRITABLE va = writable h) /\
    (forall va, 0 <= va -> on_pages stack_addrs va -> user_accessible (set_pml4 u s') PAGE_WRITABLE va = true) /\
    ((forall h, h ∈ hs -> ~ in_segment h (USER_STACK_TOP - 8)) ->
     translate (set_pml4 u s') (USER_STACK_TOP - 8) = None).
Proof.
  intros Hwf Hv Hopen Hf Ht Hl bytes e hs. unfold usermode_load_program in Hl. rewrite Hopen in Hl.
  cbn [mbind option_bind] in Hl. change (negb (FS_SUCCESS =? FS_SUCCESS)) with false in Hl. cbn iota in Hl.
  pose proof (fs_open_position _ _ _ _ _ Hopen) as Hpos.
  pose proof (file_size _ _ _ _ _ Hf) as Hsz. pose proof (file_small _ _ _ _ _ Hf) as Hsm.
  pose proof (fs_read_eq n fi d f cs turns 64 Hv Hf ltac:(lia) ltac:(lia) Ht) as Hrd. cbv zeta in Hrd.
  rewrite Hpos, Z.sub_0_r, Z.add_0_l in Hrd. change (Z.to_nat 0) with 0%nat in Hrd. rewrite drop_0 in Hrd.
  rewrite Hrd in Hl. cbn [mbind option_bind] in Hl. clear Hrd.
  destruct (Z.eqb_spec (Z.min 64 (de_size (f_dirent f))) 64) as [H64|]; cbn [negb] in Hl; [|discriminate Hl].
  rewrite H64 in Hl. assert (E64 : take (Z.to_nat 64) (content d fi cs) = take 64 bytes).
  { unfold bytes. rewrite take_take. f_equal. lia. }
  assert (Hlb : (64 <= length bytes)%nat) by (unfold bytes; rewrite length_take; lia).
  rewrite E64 in Hl. destruct (elf_error (take 64 bytes)) eqn:Eelf; [discriminate Hl|].
  rewrite (elf_header_of_file bytes Hlb) in Hl. fold e in Hl. cbn [mbind option_bind] in Hl.
  destruct (paging_create_user_address_space s) as [u s1] eqn:Ec.
  destruct (Z.eqb_spec u 0) as [|Hu]; [discriminate Hl|].
  destruct (create_space_spec s ts u s1 Hwf Ec Hu) as (Hr1 & Hwf1 & Ht1).
  apply bind_Some in Hl as ([[[ok s2] um2] f2] & Hseg & Hl). destruct ok as [[]|]; [|discriminate Hl].
  destruct (load_segments_spec turns n fi d f cs Hv Hf Ht _ 0 _ _ _ _ _ _ _ _ _ Hwf1 ltac:(lia) Hseg)
    as ([[ts2 Hwf2] Hr2 M2 K2 N2] & Hum & Hhdr).
  destruct (load_stack stack_addrs u s2) as [ok s3] eqn:Est. destruct ok; [|discriminate Hl].
  destruct (load_stack_adds _ _ _ _ _ Hwf2 stack_addrs_in_u Est) as [Hwf3 Hr3 M3 K3 N3].
  injection Hl as <- <- <-. change (Z.to_nat 0) with 0%nat in *. fold bytes in M2, N2, Hum, Hhdr. fold hs in M2, N2, Hum.
  split; [by apply elf_error_program|]. split; [intros i Hi; apply Hhdr; lia|]. exists u.
  assert (M1 : forall va, 0 <= va -> mapped u s1 va <-> 256 <= pml4_index va /\ translate s va <> None).
  { intros va Hva. unfold mapped. rewrite Ht1 by done. destruct (Z.leb_spec 256 (pml4_index va)); [tauto|].
    split; [done|lia]. }
  assert (Hm2 : forall va h, 0 <= va -> h ∈ hs -> in_segment h va -> mapped u s2 va).
  { intros va h Hva Hh Hin. apply M2; [done|right]. by exists (writable h), h. }
  assert (M : forall va, 0 <= va -> mapped u s3 va <->
       (256 <= pml4_index va /\ translate s va <> None) \/ (exists h, h ∈ hs /\ in_segment h va) \/
       on_pages stack_addrs va).
  { intros va Hva. rewrite M3, M2, M1 by done. clear. split.
    - intros [[?|(w & h & ? & ? & _)]|(w & ? & _)]; eauto.
    - intros [?|[(h & ? & ?)|?]]; eauto 10. }
  split; [reflexivity|]. split; [exact Hum|]. split; [congruence|].
  split; [exact Hwf3|]. split; [exact M|]. split; [|split; [|split]].
  - intros va Hva Hup Hm. pose proof (proj2 (M1 va Hva) (conj Hup Hm)) as Hm1.
    rewrite K3, K2 by (try done; apply M2; auto). rewrite Ht1 by done. by rewrite (proj2 (Z.leb_le _ _)).
  - intros va h Hva Hh Hin. pose proof (Hm2 va h Hva Hh Hin) as Hm. unfold user_accessible.
    rewrite K3 by done. apply N2; [done|]. by exists h.
  - intros va Hva Hst. by apply (N3 va true).
  - intros Hno. destruct (translate (set_pml4 u s3) (USER_STACK_TOP - 8)) eqn:E; [|done].
    assert (Hm : mapped u s3 (USER_STACK_TOP - 8)) by (unfold mapped; by rewrite E).
    apply M in Hm as [[Hup _]|[(h & Hh & Hin)|Hst]]; [by vm_compute in Hup|by destruct (Hno h)|by destruct top_not_on_stack|done].
Qed.

(** The volume of the demonstration disk with the program in the file. *)
Lemma elf_volume : volume 32 demo_fi elf_disk.
Proof.
  assert (He : entries demo_fi = 128) by reflexivity.
  split; rewrite ?He; cbn; try lia; try (unfold FAT32_EOC; lia).
  split; rewrite ?He; cbn; lia.
Qed.

Lemma elf_open : fs_open (bytes_of "/HELLO.TXT") demo_fi elf_disk = Some (FS_SUCCESS, Some demo_file).
Proof. vm_compute. reflexivity. Qed.

Lemma elf_file_ok : file_ok 32 demo_fi elf_disk demo_file [3; 4].
Proof.
  assert (Hc : chain 32 elf_disk demo_fi 3 [3; 4]).
  { assert (H3 : fat elf_disk demo_fi 3 = 4) by (vm_compute; reflexivity).
    assert (H4 : fat elf_disk demo_fi 4 = 0x0FFFFFFF) by (vm_compute; reflexivity).
    cbn [chain]. rewrite H3, H4. unfold FAT32_EOC. lia. }
  assert (Hl : Z.of_nat (length (content elf_disk demo_fi [3; 4])) = 2048)
    by (rewrite (length_content 32 demo_fi elf_disk 3 [3; 4] elf_volume Hc); reflexivity).
  split; rewrite ?Hl; cbn; try lia; [reflexivity|exact Hc].
Qed.

(** The file of the demonstration starts at [0x400000] and has one segment. *)
Lemma load_program_spec_witness :
  exists p' s' um' u,
    demo_load = Some (1, p', s', um') /\
    p' = set_p_registers (set_rsp USER_STACK_TOP (set_rip 0x400000 (p_registers process0))) (set_p_page_directory u process0) /\
    user_accessible (set_pml4 u s') 0 0x400000 = true /\
    user_accessible (set_pml4 u s') PAGE_WRITABLE 0x400000 = false /\
    read_bytes 8 um' 0x400000 = [1; 2; 3; 4; 5; 6; 7; 8].
Proof.
  assert (E : match demo_load with Some (r, _, _, _) => r =? 1 | None => false end = true) by (vm_compute; reflexivity).
  destruct demo_load as [[[[r p'] s'] um']|] eqn:Ex; [|discriminate E]. apply Z.eqb_eq in E. subst r.
  destruct (load_program_spec 2048 (bytes_of "/HELLO.TXT") 32 demo_fi elf_disk demo_file [3; 4] process0 p'
              paging_boot s' ∅ um' _ paging_boot_wf elf_volume elf_open elf_file_ok ltac:(cbn; lia) Ex)
    as (_ & _ & u & Hrest).
  set (bytes := take (Z.to_nat (de_size (f_dirent demo_file))) (content elf_disk demo_fi [3; 4])) in *.
  set (h := ProgramHeader 1 5 120 0x400000 8 8).
  assert (Ee : file_header bytes = ElfHeader 0x400000 64 56 1) by (vm_compute; reflexivity).
  change (field 8 24 bytes) with (e_entry (file_header bytes)) in Hrest. rewrite Ee in Hrest.
  change (Z.to_nat (e_phnum (ElfHeader 0x400000 64 56 1))) with 1%nat in Hrest.
  assert (Eh : loadable (ElfHeader 0x400000 64 56 1) bytes 0 1 = [h]) by (vm_compute; reflexivity).
  cbn [e_entry] in Hrest. rewrite Eh in Hrest.
  destruct Hrest as (Hp & Hum & _ & _ & _ & _ & Hseg & _).
  destruct (Hseg 0x400000 h) as [Hr Hw]; [lia|by left|exists 0; split; [lia|]; split; vm_compute; [discriminate|reflexivity]|].
  exists p', s', um', u. split; [reflexivity|]. split; [exact Hp|]. split; [exact Hr|]. split; [exact Hw|].
  rewrite Hum. vm_compute. reflexivity.
Defined.
