(* ===== verification/Coreutils.v ===== *)
(** * Commands: coreutils.c

    The commands of the shell over the kernel and a file system.  coreutils.c
    uses the file system through functions that filesystem.h declares with other
    types ([fs_open], [fs_opendir], [fs_readdir]) or not at all ([fs_getcwd],
    [fs_chdir], [fs_rename], [fs_rmdir]), so what it calls is a parameter, the
    record [file_api].  [None] is an access outside a buffer or an overflow of
    [int]. *)
From S2P Require Import Prelude CString Terminal RawMemory Allocator.
From S2P Require Import Kernel Process Invariant Scheduler Timer Paging Usermode Syscall.

(** The functions as coreutils.c calls them, on a state [F]; a handle is a
    pointer, [None] the null pointer. *)
Record file_api (F : Type) := FileApi {
  api_opendir : list Z -> F -> option Z * F;
  (** The result, the name and whether [type] is [FS_TYPE_DIR]. *)
  api_readdir : Z -> F -> Z * list Z * bool * F;
  api_closedir : Z -> F -> F;
  api_open : list Z -> list Z -> F -> option Z * F;
  (** The result as [size_t] and the bytes stored. *)
  api_read : Z -> Z -> F -> Z * list Z * F;
  api_write : Z -> list Z -> F -> F;
  api_close : Z -> F -> F;
  api_chdir : list Z -> F -> Z * F;
  api_mkdir : list Z -> F -> Z * F;
  api_rmdir : list Z -> F -> Z * F;
  api_unlink : list Z -> F -> Z * F;
  api_rename : list Z -> list Z -> F -> Z * F;
  (** The bytes stored in the buffer, [None] when the result is not the buffer. *)
  api_getcwd : Z -> F -> option (list Z);
}.
Arguments api_opendir {F}. Arguments api_readdir {F}. Arguments api_closedir {F}. Arguments api_open {F}.
Arguments api_read {F}. Arguments api_write {F}. Arguments api_close {F}. Arguments api_chdir {F}.
Arguments api_mkdir {F}. Arguments api_rmdir {F}. Arguments api_unlink {F}. Arguments api_rename {F}.
Arguments api_getcwd {F}.

(** The escape [\t]. *)
Definition tab : string := String (Ascii.ascii_of_nat 9) EmptyString.

(** ** The command line *)

Definition is_blank (c : Z) : bool := (c =? 0x20) || (c =? 0x09).

(** The loop of [parse_command_line] from index [i], [n] bounds the scan by the
    size of the buffer: the indices stored in [argv] and the buffer, whose
    arguments are terminated in place. *)
Fixpoint parse_loop (n : nat) (line : list Z) (i : nat) (argv : list nat) (in_word : bool) (max_args : nat)
  : list nat * list Z :=
  match n with
  | O => (argv, line)
  | S n' =>
    if negb (char_at line i =? 0) && (length argv <? max_args - 1)%nat then
      if is_blank (char_at line i) then
        parse_loop n' (if in_word then <[i := 0]> line else line) (S i) argv false max_args
      else
        parse_loop n' line (S i) (if in_word then argv else argv ++ [i]) true max_args
    else (argv, line)
  end.

(** [argv] and the buffer after; [argc] is the length of [argv]. *)
Definition parse_command_line (command_line : list Z) (max_args : nat) : list nat * list Z :=
  parse_loop (length command_line) command_line 0 [] false max_args.

(** The string at index [i] of a buffer. *)
Definition string_at (line : list Z) (i : nat) : list Z := cstr (drop i line).

(** ** The table of commands *)

Inductive command_func :=
  | cmd_ls | cmd_cd | cmd_pwd | cmd_mkdir | cmd_rmdir | cmd_rm | cmd_cp | cmd_mv | cmd_cat | cmd_echo
  | cmd_ps | cmd_kill | cmd_sleep | cmd_touch | cmd_clear | cmd_help | cmd_exit.

Record command := Command {
  c_name : string; c_func : command_func; c_description : string; c_usage : string;
}.

Definition commands : list command := [
  Command "ls" cmd_ls "Dizin içeriğini listele" "ls [dizin]";
  Command "cd" cmd_cd "Çalışma dizinini değiştir" "cd [dizin]";
  Command "pwd" cmd_pwd "Mevcut çalışma dizinini göster" "pwd";
  Command "mkdir" cmd_mkdir "Yeni dizin oluştur" "mkdir <dizin>";
  Command "rmdir" cmd_rmdir "Dizini sil" "rmdir <dizin>";
  Command "rm" cmd_rm "Dosya sil" "rm <dosya>";
  Command "cp" cmd_cp "Dosya kopyala" "cp <kaynak> <hedef>";
  Command "mv" cmd_mv "Dosya taşı veya yeniden adlandır" "mv <kaynak> <hedef>";
  Command "cat" cmd_cat "Dosya içeriğini görüntüle" "cat <dosya>";
  Command "echo" cmd_echo "Metni ekrana yazdır" "echo [metin...]";
  Command "ps" cmd_ps "Çalışan süreçleri göster" "ps";
  Command "kill" cmd_kill "Sürece sinyal gönder" "kill [-s sinyal] <pid>";
  Command "sleep" cmd_sleep "Belirtilen süre kadar bekle" "sleep <saniye>";
  Command "touch" cmd_touch "Boş dosya oluştur veya zaman damgasını güncelle" "touch <dosya>";
  Command "clear" cmd_clear "Ekranı temizle" "clear";
  Command "help" cmd_help "Komut yardımını göster" "help [komut]";
  Command "exit" cmd_exit "Kabuktan çık" "exit [durum]"].

(** The first command of a name. *)
Definition find_command (name : list Z) : option command :=
  i ← find_idx (fun c => strcmp name (bytes_of (c_name c)) =? 0) commands; commands !! i.

(** The name of a state in the listing of [ps]. *)
Definition state_str (s : process_state) : string :=
  match s with
  | PROCESS_STATE_READY => "READY" | PROCESS_STATE_RUNNING => "RUNNING"
  | PROCESS_STATE_BLOCKED => "BLOCKED" | PROCESS_STATE_SLEEPING => "SLEEPING"
  | PROCESS_STATE_ZOMBIE => "ZOMBIE" | PROCESS_STATE_STOPPED => "STOPPED"
  end.

(** The signal a name or a number given to [kill -s] stands for; an inner
    [None] is the error of a number out of range. *)
Definition signal_of (name : list Z) : option (option Z) :=
  let named s := strcmp name (bytes_of s) =? 0 in
  if named "SIGTERM" || named "15" then Some (Some SIGTERM) else
  if named "SIGKILL" || named "9" then Some (Some SIGKILL) else
  if named "SIGINT" || named "2" then Some (Some SIGINT) else
  if named "SIGHUP" || named "1" then Some (Some SIGHUP) else
  if named "SIGCONT" || named "18" then Some (Some SIGCONT) else
  if named "SIGSTOP" || named "19" then Some (Some SIGSTOP) else
  signum ← atoi name;
  Some (if (signum <=? 0) || (MAX_SIGNALS <=? signum) then None else Some signum).

(** [argv[i]] *)
Definition arg (argv : list (list Z)) (i : nat) : list Z := default [] (argv !! i).

(** The state of the commands: the kernel and the file system. *)
Section Commands.
Context `{!Allocator H} {F : Type} (api : file_api F).
Variable call_handler : Z -> Z -> kernel H -> option (kernel H).
Variable wait_timer : kernel H -> option (kernel H).
(** The bounds of the scheduler and of the loops over a directory or a file. *)
Variable fuel turns : nat.
(** The contents of an uninitialised [char buffer[512]]. *)
Variable stack_buffer : list Z.
Implicit Types (k : kernel H) (f : F) (argv : list (list Z)).

(** [terminal_writestring(msg); terminal_writestring(s);
    terminal_writestring("\n"); return -1;] *)
Definition fail_with (msg : string) (s : list Z) k : kernel H := kprint nl (kprint_bytes s (kprint msg k)).
Definition fail (msg : string) k f : option (Z * (kernel H * F)) := Some (-1, (kprint (msg +:+ nl) k, f)).

(** A run of [n] blanks. *)
Definition pad (n : nat) k : kernel H := Nat.iter n (kprint " ") k.

Definition setcolor (fg : vga_color) k : kernel H :=
  set_k_term (terminal_setcolor (vga_entry_color fg VGA_COLOR_BLACK) (k_term k)) k.

(** ** Directories *)

Definition dot_entry (name : list Z) : bool :=
  ((char_at name 0 =? 0x2e) && (char_at name 1 =? 0))
  || ((char_at name 0 =? 0x2e) && (char_at name 1 =? 0x2e) && (char_at name 2 =? 0)).

(** The output for one entry. *)
Definition ls_entry (name : list Z) (is_dir : bool) k : kernel H :=
  let k := if is_dir then kprint "/" (kprint_bytes name (setcolor VGA_COLOR_LIGHT_BLUE k))
           else kprint_bytes name (setcolor VGA_COLOR_LIGHT_GREY k) in
  pad (20 - strlen name) k.

Fixpoint ls_loop (n : nat) (dir count : Z) k f : option (Z * (kernel H * F)) :=
  match n with
  | O => None
  | S n' =>
    let '(r, name, is_dir, f) := api_readdir api dir f in
    if negb (r =? 0) then Some (count, (k, f)) else
    if dot_entry name then ls_loop n' dir count k f else
    let k := ls_entry name is_dir k in
    if 2 ^ 31 <=? count + 1 then None else
    ls_loop n' dir (count + 1) (if (count + 1) mod 4 =? 0 then kprint nl k else k) f
  end.

Definition do_ls argv k f : option (Z * (kernel H * F)) :=
  let path := if (1 <? length argv)%nat then arg argv 1 else bytes_of "." in
  let '(dir, f) := api_opendir api path f in
  match dir with
  | None => Some (-1, (fail_with "Hata: Dizin acilamadi: " path k, f))
  | Some dir =>
    let k := kprint ("----------------------------------" +:+ nl) (fail_with "Dizin listesi: " path k) in
    '(count, (k, f)) ← ls_loop turns dir 0 k f;
    let k := if negb (count mod 4 =? 0) then kprint nl k else k in
    Some (0, (setcolor VGA_COLOR_LIGHT_GREY k, api_closedir api dir f))
  end.

Definition do_cd argv k f : option (Z * (kernel H * F)) :=
  if (length argv <? 2)%nat then fail "Hata: Dizin belirtilmedi" k f else
  let '(r, f) := api_chdir api (arg argv 1) f in
  if negb (r =? 0) then Some (-1, (fail_with "Hata: Dizin değiştirilemedi: " (arg argv 1) k, f))
  else Some (0, (k, f)).

Definition do_pwd k f : option (Z * (kernel H * F)) :=
  match api_getcwd api 256 f with
  | None => fail "Hata: Çalışma dizini alınamadı" k f
  | Some path => Some (0, (kprint nl (kprint_bytes path k), f))
  end.

Definition do_mkdir argv k f : option (Z * (kernel H * F)) :=
  if (length argv <? 2)%nat then fail "Hata: Dizin adı belirtilmedi" k f else
  let '(r, f) := api_mkdir api (arg argv 1) f in
  if negb (r =? 0) then Some (-1, (fail_with "Hata: Dizin oluşturulamadı: " (arg argv 1) k, f))
  else Some (0, (k, f)).

Definition do_rmdir argv k f : option (Z * (kernel H * F)) :=
  if (length argv <? 2)%nat then fail "Hata: Dizin adı belirtilmedi" k f else
  let '(r, f) := api_rmdir api (arg argv 1) f in
  if negb (r =? 0) then Some (-1, (fail_with "Hata: Dizin silinemedi: " (arg argv 1) k, f))
  else Some (0, (k, f)).

(** ** Files *)

Definition do_rm argv k f : option (Z * (kernel H * F)) :=
  if (length argv <? 2)%nat then fail "Hata: Dosya adı belirtilmedi" k f else
  let '(r, f) := api_unlink api (arg argv 1) f in
  if negb (r =? 0) then Some (-1, (fail_with "Hata: Dosya silinemedi: " (arg argv 1) k, f))
  else Some (0, (k, f)).

(** [fs_read(file, buffer, size)] into a buffer of 512 bytes. *)
Definition read_into (file size : Z) (buffer : list Z) f : option (Z * list Z * F) :=
  let '(nread, bs, f) := api_read api file size f in
  if (512 <? length bs)%nat then None else Some (nread, bs ++ drop (length bs) buffer, f).

Fixpoint cp_loop (n : nat) (src dst : Z) (buffer : list Z) f : option F :=
  match n with
  | O => None
  | S n' =>
    '(nread, buffer, f) ← read_into src 512 buffer f;
    if negb (0 <? nread) then Some f else
    if 512 <? nread then None else
    cp_loop n' src dst buffer (api_write api dst (take (Z.to_nat nread) buffer) f)
  end.

Definition do_cp argv k f : option (Z * (kernel H * F)) :=
  if (length argv <? 3)%nat then
    fail "Kullanım: cp <kaynak> <hedef>" (kprint ("Hata: Eksik argüman" +:+ nl) k) f else
  let '(src, f) := api_open api (arg argv 1) (bytes_of "r") f in
  match src with
  | None => Some (-1, (fail_with "Hata: Kaynak dosya açılamadı: " (arg argv 1) k, f))
  | Some src =>
    let '(dst, f) := api_open api (arg argv 2) (bytes_of "w") f in
    match dst with
    | None => Some (-1, (fail_with "Hata: Hedef dosya açılamadı: " (arg argv 2) k, api_close api src f))
    | Some dst =>
      f ← cp_loop turns src dst stack_buffer f;
      Some (0, (k, api_close api dst (api_close api src f)))
    end
  end.

Definition do_mv argv k f : option (Z * (kernel H * F)) :=
  if (length argv <? 3)%nat then
    fail "Kullanım: mv <kaynak> <hedef>" (kprint ("Hata: Eksik argüman" +:+ nl) k) f else
  let '(r, f) := api_rename api (arg argv 1) (arg argv 2) f in
  if negb (r =? 0) then
    Some (-1, (kprint nl (kprint_bytes (arg argv 2) (kprint " -> "
                 (kprint_bytes (arg argv 1) (kprint "Hata: Dosya taşınamadı: " k)))), f))
  else Some (0, (k, f)).

Fixpoint cat_loop (n : nat) (file : Z) (buffer : list Z) k f : option (kernel H * F) :=
  match n with
  | O => None
  | S n' =>
    '(nread, buffer, f) ← read_into file 511 buffer f;
    if negb (0 <? nread) then Some (k, f) else
    if 512 <=? nread then None else
    let buffer := <[Z.to_nat nread := 0]> buffer in
    cat_loop n' file buffer (kprint_bytes buffer k) f
  end.

Definition do_cat argv k f : option (Z * (kernel H * F)) :=
  if (length argv <? 2)%nat then fail "Hata: Dosya adı belirtilmedi" k f else
  let '(file, f) := api_open api (arg argv 1) (bytes_of "r") f in
  match file with
  | None => Some (-1, (fail_with "Hata: Dosya açılamadı: " (arg argv 1) k, f))
  | Some file =>
    '(k, f) ← cat_loop turns file stack_buffer k f;
    Some (0, (kprint nl k, api_close api file f))
  end.

Definition do_touch argv k f : option (Z * (kernel H * F)) :=
  if (length argv <? 2)%nat then fail "Hata: Dosya adı belirtilmedi" k f else
  let '(file, f) := api_open api (arg argv 1) (bytes_of "a") f in
  match file with
  | None => Some (-1, (fail_with "Hata: Dosya oluşturulamadı: " (arg argv 1) k, f))
  | Some file => Some (0, (k, api_close api file f))
  end.

(** ** Text *)

Fixpoint echo_loop (words : list (list Z)) k : kernel H :=
  match words with
  | [] => k
  | [w] => kprint_bytes w k
  | w :: words' => echo_loop words' (kprint " " (kprint_bytes w k))
  end.

Definition do_echo argv k f : option (Z * (kernel H * F)) :=
  Some (0, (kprint nl (echo_loop (drop 1 argv) k), f)).

Definition do_clear k f : option (Z * (kernel H * F)) :=
  Some (0, (set_k_term (terminal_initialize (k_term k)) k, f)).

Definition print_command_help (cmd : command) k : kernel H :=
  let k := kprint (nl +:+ nl) (kprint (c_name cmd) (kprint "Komut: " k)) in
  let k := kprint (nl +:+ nl) (kprint (c_description cmd) (kprint "Açıklama: " k)) in
  kprint nl (kprint (c_usage cmd) (kprint "Kullanım: " k)).

Definition help_line k (cmd : command) : kernel H :=
  let k := pad (10 - strlen (bytes_of (c_name cmd))) (kprint (c_name cmd) k) in
  kprint nl (kprint (c_description cmd) (kprint " - " k)).

Definition do_help argv k f : option (Z * (kernel H * F)) :=
  if (1 <? length argv)%nat then
    match find_command (arg argv 1) with
    | Some cmd => Some (0, (print_command_help cmd k, f))
    | None => Some (-1, (fail_with "Hata: Bilinmeyen komut: " (arg argv 1) k, f))
    end
  else
    let k := kprint ("---------------------" +:+ nl) (kprint ("Kullanılabilir komutlar:" +:+ nl) k) in
    let k := foldl help_line k commands in
    Some (0, (kprint (nl +:+ "Daha fazla bilgi için: help <komut>" +:+ nl) k, f)).

(** ** Processes *)

(** The line of [ps] for entry [j] of the table. *)
Definition ps_line (j : nat) k : option (kernel H) :=
  k ← kprint_int 10 (p_pid (proc k j)) k;
  let k := kprint tab (kprint (state_str (p_state (proc k j))) (kprint tab k)) in
  k ← kprint_int 10 (p_cpu_time (proc k j)) k;
  Some (kprint nl (kprint_bytes (p_name (proc k j)) (kprint tab k))).

(** The loop of [ps] from [i], [n] turns left; [i] is taken as a pid. *)
Fixpoint ps_loop (n : nat) (i : Z) k : option (kernel H) :=
  match n with
  | O => Some k
  | S n' =>
    match get_process i k with
    | Some j =>
      if negb (p_pid (proc k j) =? 0) then k ← ps_line j k; ps_loop n' (i + 1) k
      else ps_loop n' (i + 1) k
    | None => ps_loop n' (i + 1) k
    end
  end.

Definition do_ps k f : option (Z * (kernel H * F)) :=
  k ← ps_loop MAX_PROCESSES 0
        (kprint ("-----------------------------------" +:+ nl)
          (kprint ("PID" +:+ tab +:+ "DURUM" +:+ tab +:+ "CPU" +:+ tab +:+ "AD" +:+ nl) k));
  Some (0, (k, f)).

Definition do_kill argv k f : option (Z * (kernel H * F)) :=
  let dash_s := (3 <=? length argv)%nat && (strcmp (arg argv 1) (bytes_of "-s") =? 0) in
  signum ← (if dash_s then signal_of (arg argv 2) else Some (Some SIGTERM));
  match signum with
  | None => fail "Hata: Geçersiz sinyal numarası" k f
  | Some signum =>
    let pid_arg_index := if dash_s then 3%nat else 1%nat in
    if (length argv <=? pid_arg_index)%nat then fail "Hata: PID belirtilmedi" k f else
    pid ← atoi (arg argv pid_arg_index);
    '(r, k) ← sys_kill call_handler fuel (u64 pid) signum k;
    if negb (r =? 0) then fail "Hata: Sinyal gönderilemedi" k f else Some (0, (k, f))
  end.

Definition do_sleep argv k f : option (Z * (kernel H * F)) :=
  if (length argv <? 2)%nat then fail "Hata: Süre belirtilmedi" k f else
  seconds ← atoi (arg argv 1);
  if seconds <=? 0 then fail "Hata: Geçersiz süre" k f else
  if 2 ^ 31 <=? seconds * 1000 then None else
  '(_, k) ← sys_sleep call_handler wait_timer fuel turns (seconds * 1000) k;
  Some (0, (k, f)).

Definition do_exit argv k f : option (Z * (kernel H * F)) :=
  status ← (if (1 <? length argv)%nat then atoi (arg argv 1) else Some 0);
  k ← exit_process call_handler fuel (sys_getpid k) (u64 status) k;
  Some (0, (k, f)).

(** ** Execution *)

(** [commands[i].func(argc, argv)] *)
Definition run_command (c : command_func) argv k f : option (Z * (kernel H * F)) :=
  match c with
  | cmd_ls => do_ls argv k f | cmd_cd => do_cd argv k f | cmd_pwd => do_pwd k f
  | cmd_mkdir => do_mkdir argv k f | cmd_rmdir => do_rmdir argv k f | cmd_rm => do_rm argv k f
  | cmd_cp => do_cp argv k f | cmd_mv => do_mv argv k f | cmd_cat => do_cat argv k f
  | cmd_echo => do_echo argv k f | cmd_ps => do_ps k f | cmd_kill => do_kill argv k f
  | cmd_sleep => do_sleep argv k f | cmd_touch => do_touch argv k f | cmd_clear => do_clear k f
  | cmd_help => do_help argv k f | cmd_exit => do_exit argv k f
  end.

(** The result, the line after the arguments are terminated in it, the state. *)
Definition execute_command (command_line : list Z) k f : option (Z * list Z * (kernel H * F)) :=
  let '(indices, line) := parse_command_line command_line 64 in
  let argv := string_at line <$> indices in
  match argv with
  | [] => Some (0, line, (k, f))
  | name :: _ =>
    match find_command name with
    | Some cmd => '(r, st) ← run_command (c_func cmd) argv k f; Some (r, line, st)
    | None => Some (-1, line, (fail_with "Komut bulunamadi: " name k, f))
    end
  end.
End Commands.
