(* ===== verification/CoreutilsSpec.v ===== *)
(** * What the commands of coreutils.c do

    The command line against a reference tokenizer, and the commands that move
    text: [echo] from the typed line to the screen, [cat] and [cp] over a file
    system that reads and writes streams of bytes. *)
From S2P Require Import Prelude CString Terminal RawMemory Allocator Heap.
From S2P Require Import Kernel Process Invariant Scheduler Lifecycle Timer Paging Usermode Syscall Coreutils.

(** ** The reference tokenizer *)

(** The bytes before the first blank. *)
Fixpoint word (s : list Z) : list Z :=
  match s with
  | [] => []
  | c :: s' => if is_blank c then [] else c :: word s'
  end.

(** At most [m] words of [s], the [m]-th with all that follows it; [skip] when
    [s] starts inside a word already counted. *)
Fixpoint tokens (m : nat) (skip : bool) (s : list Z) : list (list Z) :=
  match s with
  | [] => []
  | c :: s' =>
    if is_blank c then tokens m false s'
    else if skip then tokens m true s'
    else match m with
         | O => []
         | S O => [s]
         | S m' => word s :: tokens m' true s'
         end
  end.

(** The words of [ws] with one blank between two of them. *)
Fixpoint join (ws : list (list Z)) : list Z :=
  match ws with
  | [] => []
  | [w] => w
  | w :: ws' => w ++ [0x20] ++ join ws'
  end.

Definition plain (w : list Z) : Prop :=
  w <> [] /\ Forall (fun c => c <> 0) w /\ Forall (fun c => is_blank c = false) w.

Section Tokens.
Lemma tokens_0 skip s : tokens 0 skip s = [].
Proof.
  revert skip. induction s as [|c s IH]; intros skip; [done|]. simpl.
  destruct (is_blank c); [apply IH|]. destruct skip; [apply IH|done].
Qed.

Lemma word_app w s : Forall (fun c => is_blank c = false) w -> (s = [] \/ hd 0 s = 0x20) -> word (w ++ s) = w.
Proof.
  intros Hw Hs. induction Hw as [|c w Hc Hw IH]; simpl.
  - destruct Hs as [->|Hs]; [done|]. destruct s as [|c s]; [done|]. simpl in *. by subst.
  - by rewrite Hc, IH.
Qed.

Lemma tokens_skip m w s :
  Forall (fun c => is_blank c = false) w -> tokens m true (w ++ s) = tokens m true s.
Proof. induction 1 as [|c w Hc Hw IH]; simpl; [done|]. by rewrite Hc. Qed.

Lemma tokens_blank m skip s : tokens m skip (0x20 :: s) = tokens m false s.
Proof. done. Qed.

Lemma tokens_word m c s :
  is_blank c = false -> tokens (S (S m)) false (c :: s) = word (c :: s) :: tokens (S m) true s.
Proof. intros Hc. simpl. by rewrite Hc. Qed.

Lemma tokens_join ws m : Forall plain ws -> (length ws <= m)%nat -> tokens m false (join ws) = ws.
Proof.
  intros Hws. revert m. induction Hws as [|w ws (Hne & Hnz & Hnb) Hws IH]; intros m Hm; [done|].
  destruct w as [|c w]; [done|]. pose proof (Forall_inv Hnb) as Hc.
  pose proof (Forall_inv_tail Hnb) as Hw. destruct m as [|[|m]]; [simpl in Hm; lia| |].
  - destruct ws; [|simpl in Hm; lia]. simpl. by rewrite Hc.
  - destruct ws as [|w2 ws].
    + simpl. rewrite Hc. rewrite <- (app_nil_r w) at 2. rewrite tokens_skip by done.
      rewrite <- (app_nil_r w) at 1. rewrite word_app by auto. done.
    + change (join ((c :: w) :: w2 :: ws)) with (c :: (w ++ 0x20 :: join (w2 :: ws))).
      rewrite tokens_word, tokens_skip, tokens_blank, IH by (done || (simpl in *; lia)).
      simpl word. rewrite Hc. by rewrite word_app by auto.
Qed.

Lemma join_nonzero ws : Forall plain ws -> Forall (fun c => c <> 0) (join ws).
Proof.
  induction 1 as [|w ws (Hne & Hnz & Hnb) Hws IH]; [constructor|].
  destruct ws; [done|]. change (Forall (fun c => c <> 0) (w ++ 0x20 :: join (l :: ws))).
  apply Forall_app. split; [done|]. by constructor.
Qed.
End Tokens.

(** ** The loop of [parse_command_line] *)

Section Parse.
Lemma string_at_app pre s : string_at (pre ++ s) (length pre) = cstr s.
Proof. unfold string_at. by rewrite drop_app_length. Qed.

Lemma shift_char (pre s rest : list Z) c : pre ++ (c :: s) ++ rest = (pre ++ [c]) ++ s ++ rest.
Proof. by rewrite <- app_assoc. Qed.

(** At the end of the string the loop stops. *)
Lemma parse_loop_end n pre rest argv in_word max :
  ended rest -> parse_loop n (pre ++ rest) (length pre) argv in_word max = (argv, pre ++ rest).
Proof.
  intros Hrest. destruct n as [|n]; [done|]. simpl.
  assert (char_at (pre ++ rest) (length pre) = 0) as ->; [|done].
  unfold char_at. rewrite lookup_app_r, Nat.sub_diag by lia.
  destruct Hrest as [->|Hr]; [done|]. destruct rest; [done|]. simpl in *. by subst.
Qed.

Lemma parse_loop_spec s rest : Forall (fun c => c <> 0) s -> ended rest ->
  forall n pre argv in_word max m,
  (length s <= n)%nat -> m = (max - 1 - length argv)%nat ->
  exists s' new, parse_loop n (pre ++ s ++ rest) (length pre) argv in_word max
                   = (argv ++ new, pre ++ s' ++ rest) /\
    length s' = length s /\
    string_at (pre ++ s' ++ rest) <$> new = tokens m in_word s /\
    (in_word = true -> cstr (s' ++ rest) = if (m =? 0)%nat then s else word s).
Proof.
  induction 1 as [|c s Hc Hs IH]; intros Hrest n pre argv in_word max m Hn Hm.
  { exists [], []. rewrite app_nil_r. simpl app. split_and!; [by apply parse_loop_end|done|done|].
    intros _. rewrite cstr_ended by done. by destruct (m =? 0)%nat. }
  destruct n as [|n]; [simpl in Hn; lia|]. simpl parse_loop.
  assert (char_at (pre ++ c :: s ++ rest) (length pre) = c) as ->
    by (unfold char_at; by rewrite list_lookup_middle).
  rewrite (proj2 (Z.eqb_neq _ _)) by done. cbn [negb andb].
  destruct (Nat.ltb_spec (length argv) (max - 1)) as [Hlt|Hge].
  2: { exists (c :: s), []. rewrite app_nil_r. assert (m = O) as -> by lia.
       split_and!; [done|done|by rewrite tokens_0|].
       intros _. rewrite cstr_app; [done|by constructor|done]. }
  assert ((m =? 0)%nat = false) as Hm0 by (apply Nat.eqb_neq; lia).
  destruct (is_blank c) eqn:Eb.
  - set (c' := if in_word then 0 else c).
    assert ((if in_word then <[length pre := 0]> (pre ++ c :: s ++ rest) else pre ++ c :: s ++ rest)
            = (pre ++ [c']) ++ s ++ rest) as ->.
    { subst c'. destruct in_word; rewrite <- app_assoc; [|done].
      by rewrite insert_app_r_alt, Nat.sub_diag by lia. }
    replace (S (length pre)) with (length (pre ++ [c'])) by (rewrite length_app; simpl; lia).
    destruct (IH Hrest n (pre ++ [c']) argv false max m ltac:(simpl in Hn; lia) Hm)
      as (s' & new & -> & Hl & Hnew & _).
    exists (c' :: s'), new. rewrite shift_char. split_and!; [done|simpl; lia| |].
    + rewrite Hnew. simpl. by rewrite Eb.
    + intros Hin. subst c'. rewrite Hin, Hm0. simpl. by rewrite Eb.
  - replace (pre ++ c :: s ++ rest) with ((pre ++ [c]) ++ s ++ rest) by by rewrite <- app_assoc.
    replace (S (length pre)) with (length (pre ++ [c])) by (rewrite length_app; simpl; lia).
    destruct in_word.
    + destruct (IH Hrest n (pre ++ [c]) argv true max m ltac:(simpl in Hn; lia) Hm)
        as (s' & new & -> & Hl & Hnew & Hcur).
      exists (c :: s'), new. rewrite shift_char. split_and!; [done|simpl; lia| |].
      * rewrite Hnew. simpl. by rewrite Eb.
      * intros _. rewrite Hm0 in *. simpl. rewrite cstr_cons, (proj2 (Z.eqb_neq _ _)) by done.
        by rewrite Eb, Hcur.
    + destruct m as [|m]; [done|].
      destruct (IH Hrest n (pre ++ [c]) (argv ++ [length pre]) true max m ltac:(simpl in Hn; lia)
                  ltac:(rewrite length_app; simpl; lia)) as (s' & new & -> & Hl & Hnew & Hcur).
      exists (c :: s'), (length pre :: new). rewrite shift_char.
      split_and!; [by rewrite <- app_assoc|simpl; lia| |done].
      rewrite fmap_cons, Hnew, <- shift_char, string_at_app. simpl.
      rewrite cstr_cons, (proj2 (Z.eqb_neq _ _)), Hcur, Eb by done.
      destruct m; simpl; [by rewrite tokens_0|done].
Qed.

(** The arguments of a line, and what the line then starts with. *)
Lemma parse_command_line_tokens line max_args :
  exists argv line', parse_command_line line max_args = (argv, line') /\
    length line' = length line /\ string_at line' <$> argv = tokens (max_args - 1) false (cstr line).
Proof.
  destruct (cstr_split line) as (rest & Hline & Hrest). pose proof (cstr_nonzero line) as Hs.
  remember (cstr line) as s eqn:Es. clear Es. subst line. unfold parse_command_line.
  destruct (parse_loop_spec s rest Hs Hrest
              (length (s ++ rest)) [] [] false max_args (max_args - 1)) as (s' & new & Hp & Hl & Hnew & _).
  { rewrite length_app. lia. }
  { simpl. lia. }
  simpl in Hp, Hnew. rewrite Hp. exists new, (s' ++ rest). split_and!; [done|rewrite !length_app; lia|done].
Qed.
End Parse.

(** ** Output *)

Section Output.
Context {H : Type}.
Implicit Types (k : kernel H).

(** The screen after the bytes [s]. *)
Definition write_k (s : list Z) k : kernel H := set_k_term (terminal_write s (k_term k)) k.

Lemma write_k_app s1 s2 k : write_k s2 (write_k s1 k) = write_k (s1 ++ s2) k.
Proof. unfold write_k, terminal_write. by rewrite foldl_app. Qed.

Lemma kprint_bytes_write s k : kprint_bytes s k = write_k (cstr s) k.
Proof. done. Qed.

Lemma kprint_write s k : kprint s k = write_k (cstr (bytes_of s)) k.
Proof. done. Qed.

Lemma echo_loop_write ws k :
  Forall (Forall (fun c => c <> 0)) ws -> echo_loop ws k = write_k (join ws) k.
Proof.
  intros Hws. revert k. induction Hws as [|w ws Hw Hws IH]; intros k; [by destruct k as [? []]|].
  destruct ws as [|w2 ws]; simpl echo_loop.
  - by rewrite kprint_bytes_write, cstr_string.
  - change (echo_loop (w2 :: ws) (kprint " " (kprint_bytes w k)) = write_k (w ++ [0x20] ++ join (w2 :: ws)) k).
    rewrite IH, kprint_write, kprint_bytes_write, (cstr_string w), !write_k_app by done.
    done.
Qed.
End Output.

Lemma plain_nonzero ws : Forall plain ws -> Forall (Forall (fun c => c <> 0)) ws.
Proof. intros Hws. apply (Forall_impl _ _ _ Hws). by intros w (_ & Hw & _). Qed.

(** The line of the words, with its NUL and what the buffer holds after it. *)
Definition typed (ws : list (list Z)) (rest : list Z) : list Z := join ws ++ 0 :: rest.

Lemma cstr_typed ws rest : Forall plain ws -> cstr (typed ws rest) = join ws.
Proof. intros Hws. apply cstr_app; [by apply join_nonzero|by right]. Qed.

(** ** Streams

    What [cp] and [cat] need of the file system: [fs_read] hands out the bytes
    left of a handle, at most as many as asked, [fs_write] appends. *)
Class Streams {F} (api : file_api F) := {
  remaining : F -> Z -> list Z;
  written : F -> Z -> list Z;
  read_spec : forall file size f, 0 < size -> exists f',
    api_read api file size f
      = (Z.of_nat (Nat.min (Z.to_nat size) (length (remaining f file))),
         take (Z.to_nat size) (remaining f file), f') /\
    remaining f' file = drop (Z.to_nat size) (remaining f file) /\
    (forall h, written f' h = written f h);
  write_spec : forall file bs f,
    written (api_write api file bs f) file = written f file ++ bs /\
    (forall h, h <> file -> remaining (api_write api file bs f) h = remaining f h);
}.

Section Stream_loops.
Context `{!Allocator H} {F : Type} (api : file_api F) `{!Streams api}.

Lemma read_into_spec file size buffer f :
  0 < size <= 512 -> exists f',
  read_into api file size buffer f
    = Some (Z.of_nat (Nat.min (Z.to_nat size) (length (remaining f file))),
            take (Z.to_nat size) (remaining f file)
              ++ drop (Nat.min (Z.to_nat size) (length (remaining f file))) buffer, f') /\
  remaining f' file = drop (Z.to_nat size) (remaining f file) /\
  (forall h, written f' h = written f h).
Proof.
  intros Hsize. destruct (read_spec file size f) as (f' & Hr & Hrest); [lia|]. exists f'.
  unfold read_into. rewrite Hr, length_take.
  rewrite (proj2 (Nat.ltb_ge _ _)) by lia. done.
Qed.

Lemma cp_loop_spec n src dst buffer f :
  src <> dst -> (length (remaining f src) + 512 <= 512 * n)%nat ->
  exists f', cp_loop api n src dst buffer f = Some f' /\
    remaining f' src = [] /\ written f' dst = written f dst ++ remaining f src.
Proof.
  intros Hne. revert buffer f. induction n as [|n IH]; intros buffer f Hn; [lia|]. simpl.
  destruct (read_into_spec src 512 buffer f) as (f1 & -> & Hrem & Hw); [lia|]. cbn [mbind option_bind].
  set (data := remaining f src) in *. change (Z.to_nat 512) with 512%nat in *.
  destruct (Z.ltb_spec 0 (Z.of_nat (Nat.min 512 (length data)))) as [Hpos|Hzero]; cbn [negb].
  - rewrite (proj2 (Z.ltb_ge _ _)) by lia.
    rewrite Nat2Z.id. rewrite <- length_take, take_app_length.
    destruct (write_spec dst (take 512 data) f1) as (Hw2 & Hr2).
    destruct (IH (take 512 data ++ drop (length (take 512 data)) buffer) (api_write api dst (take 512 data) f1))
      as (f' & -> & Hend & Hout).
    { rewrite Hr2, Hrem, length_drop by done. lia. }
    exists f'. split_and!; [done|done|].
    by rewrite Hout, Hw2, Hw, Hr2, Hrem, <- app_assoc, take_drop by done.
  - exists f1. assert (length data = 0%nat) as Hd by lia. apply length_zero_iff_nil in Hd.
    rewrite Hrem, Hw, Hd, app_nil_r. done.
Qed.

Lemma cat_loop_spec n file buffer (k : kernel H) f :
  length buffer = 512%nat -> Forall (fun c => c <> 0) (remaining f file) ->
  (length (remaining f file) + 511 <= 511 * n)%nat ->
  exists f', cat_loop api n file buffer k f = Some (write_k (remaining f file) k, f') /\
    remaining f' file = [].
Proof.
  intros Hlen. revert buffer k f Hlen. induction n as [|n IH]; intros buffer k f Hlen Hnz Hn; [lia|]. simpl.
  destruct (read_into_spec file 511 buffer f) as (f1 & -> & Hrem & Hw); [lia|]. cbn [mbind option_bind].
  set (data := remaining f file) in *. change (Z.to_nat 511) with 511%nat in *.
  destruct (Z.ltb_spec 0 (Z.of_nat (Nat.min 511 (length data)))) as [Hpos|Hzero]; cbn [negb].
  - rewrite (proj2 (Z.leb_gt _ _)) by lia. rewrite Nat2Z.id, <- length_take.
    rewrite kprint_bytes_write.
    assert (Forall (fun c => c <> 0) (take 511 data)) as Hnz1 by by apply Forall_take.
    assert (exists c tail, drop (length (take 511 data)) buffer = c :: tail) as (c & tail & Htail).
    { destruct (drop (length (take 511 data)) buffer) as [|c tail] eqn:E; [|exists c, tail; reflexivity].
      apply (f_equal length) in E. rewrite length_drop, length_take in E. cbn [length] in E. lia. }
    rewrite Htail, insert_app_r_alt, Nat.sub_diag by done. simpl insert.
    rewrite cstr_app; [|done|by right].
    destruct (IH (take 511 data ++ 0 :: tail) (write_k (take 511 data) k) f1) as (f' & -> & Hend).
    { apply (f_equal length) in Htail. rewrite length_drop in Htail. cbn [length] in Htail.
      rewrite length_app, length_take in *. cbn [length]. lia. }
    { rewrite Hrem. by apply Forall_drop. }
    { rewrite Hrem, length_drop. lia. }
    exists f'. split; [|done]. by rewrite Hrem, write_k_app, take_drop.
  - exists f1. assert (length data = 0%nat) as Hd by lia. apply length_zero_iff_nil in Hd.
    rewrite Hd in *. split; [by destruct k as [? []]|by rewrite Hrem].
Qed.
End Stream_loops.

Section Execution.
Context `{!Allocator H} {F : Type} (api : file_api F).
Variable call_handler : Z -> Z -> kernel H -> option (kernel H).
Variable wait_timer : kernel H -> option (kernel H).
Variable fuel turns : nat.
Variable stack_buffer : list Z.

(** A line runs the command its first word names, on its words. *)
Lemma execute_words line name words cmd (k : kernel H) f :
  tokens 63 false (cstr line) = name :: words -> find_command name = Some cmd ->
  exists line', length line' = length line /\
    execute_command api call_handler wait_timer fuel turns stack_buffer line k f
    = ('(r, st) ← run_command api call_handler wait_timer fuel turns stack_buffer (c_func cmd) (name :: words) k f;
       Some (r, line', st)).
Proof.
  intros Hws Hcmd. destruct (parse_command_line_tokens line 64) as (argv & line' & Hp & Hl & Htok).
  exists line'. split; [done|]. unfold execute_command. rewrite Hp, Htok. change (64 - 1)%nat with 63%nat.
  by rewrite Hws, Hcmd.
Qed.
End Execution.

Lemma plain_name s : forallb (fun c => negb (c =? 0) && negb (is_blank c)) s = true -> s <> [] -> plain s.
Proof.
  intros Hs Hne. rewrite forallb_forall in Hs. split; [done|].
  split; apply Forall_forall; intros c Hc; apply list_elem_of_In, Hs, andb_true_iff in Hc as [H0 Hb].
  - apply negb_true_iff, Z.eqb_neq in H0. done.
  - by apply negb_true_iff in Hb.
Qed.

(** A file system of streams: what is left to read and what was written, per
    handle; the path is the one byte of the handle. *)
Section Demo_streams.
Abbreviation streams := (gmap Z (list Z * list Z)).
Definition stream (f : streams) (h : Z) : list Z * list Z := default ([], []) (f !! h).

Definition stream_open (path mode : list Z) (f : streams) : option Z * streams := (head path, f).
Definition stream_read (h size : Z) (f : streams) : Z * list Z * streams :=
  let '(r, w) := stream f h in
  (Z.of_nat (Nat.min (Z.to_nat size) (length r)), take (Z.to_nat size) r, <[h := (drop (Z.to_nat size) r, w)]> f).
Definition stream_write (h : Z) (bs : list Z) (f : streams) : streams :=
  let '(r, w) := stream f h in <[h := (r, w ++ bs)]> f.

Definition demo_api : file_api streams :=
  FileApi streams (fun _ f => (None, f)) (fun _ f => (1, [], false, f)) (fun _ f => f) stream_open stream_read
    stream_write (fun _ f => f) (fun _ f => (0, f)) (fun _ f => (0, f)) (fun _ f => (0, f)) (fun _ f => (0, f))
    (fun _ _ f => (0, f)) (fun _ _ => Some (bytes_of "/")).

Lemma stream_insert (f : streams) h x : stream (<[h := x]> f) h = x.
Proof. unfold stream. by rewrite lookup_insert_eq. Qed.

Lemma stream_insert_ne (f : streams) h h' x : h' <> h -> stream (<[h := x]> f) h' = stream f h'.
Proof. intros Hh. unfold stream. by rewrite lookup_insert_ne. Qed.

#[export] Instance demo_streams : Streams demo_api.
Proof.
  refine {| remaining := fun (f : streams) h => fst (stream f h); written := fun (f : streams) h => snd (stream f h) |}.
  - intros file size f _. cbn [api_read demo_api]. unfold stream_read. destruct (stream f file) as [r w] eqn:E.
    eexists. split; [reflexivity|]. rewrite stream_insert. split; [done|].
    intros h. destruct (decide (h = file)) as [->|Hh]; [by rewrite stream_insert, E|by rewrite stream_insert_ne].
  - intros file bs f. cbn [api_write demo_api]. unfold stream_write. destruct (stream f file) as [r w] eqn:E.
    split; [by rewrite stream_insert|]. intros h Hh. by rewrite stream_insert_ne.
Defined.

Definition demo_files : streams := {[1 := (replicate 600 65, []); 2 := ([], [])]}.
End Demo_streams.

(** ** Properties *)

(** C27. For every buffer and every [max_args], the arguments [parse_command_line]
    stores are the words of the line as the reference tokenizer cuts them: at
    most [max_args - 1], the last of them with everything that follows it. *)
Theorem parse_command_line_equiv (line : list Z) (max_args : nat) :
  let '(argv, line') := parse_command_line line max_args in
  length line' = length line /\
  string_at line' <$> argv = tokens (max_args - 1) false (cstr line).
Proof.
  destruct (parse_command_line_tokens line max_args) as (argv & line' & -> & Hl & Htok). done.
Qed.

(** Up to [max_args - 1] words joined by single blanks are parsed back to
    the same words. *)
Theorem parse_join_roundtrip (ws : list (list Z)) (rest : list Z) (max_args : nat) :
  Forall plain ws -> (length ws <= max_args - 1)%nat ->
  let '(argv, line') := parse_command_line (typed ws rest) max_args in string_at line' <$> argv = ws.
Proof.
  intros Hws Hlen. destruct (parse_command_line_tokens (typed ws rest) max_args) as (argv & line' & -> & _ & Htok).
  rewrite Htok, cstr_typed by done. by apply tokens_join.
Qed.

Definition demo_words : list (list Z) := bytes_of <$> ["kill"; "-s"; "SIGHUP"; "12"].

Lemma demo_words_plain : Forall plain demo_words.
Proof. repeat constructor; done. Qed.

Lemma parse_join_roundtrip_witness :
  let '(argv, line') := parse_command_line (typed demo_words [7; 7]) 64 in string_at line' <$> argv = demo_words.
Proof. exact (parse_join_roundtrip demo_words [7; 7] 64 demo_words_plain ltac:(cbn; lia)). Defined.

(** C32. Typing [echo] and at most 62 words prints the words with one blank
    between two of them and a newline, and changes nothing else. *)
Theorem echo_prints `{!Allocator H} {F : Type} (api : file_api F) call_handler wait_timer
    (fuel turns : nat) (stack_buffer : list Z) (ws : list (list Z)) (rest : list Z) (k : kernel H) (f : F) :
  Forall plain ws -> (length ws <= 62)%nat ->
  exists line,
    execute_command api call_handler wait_timer fuel turns stack_buffer (typed (bytes_of "echo" :: ws) rest) k f
    = Some (0, line, (set_k_term (terminal_write (join ws ++ [10]) (k_term k)) k, f)).
Proof.
  intros Hws Hlen.
  assert (Forall plain (bytes_of "echo" :: ws)) as Hall by (constructor; [by apply plain_name|done]).
  destruct (execute_words api call_handler wait_timer fuel turns stack_buffer
              (typed (bytes_of "echo" :: ws) rest) (bytes_of "echo") ws
              (Command "echo" cmd_echo "Metni ekrana yazdır" "echo [metin...]") k f) as (line & _ & ->).
  - rewrite cstr_typed by done. apply tokens_join; [done|simpl; lia].
  - vm_compute. done.
  - exists line. cbn [c_func run_command]. unfold do_echo. simpl mbind. simpl drop.
    rewrite echo_loop_write by by apply plain_nonzero. by rewrite kprint_write, write_k_app.
Qed.

Lemma echo_prints_witness :
  exists line,
    execute_command demo_api (fun _ _ k => Some k) Some 0 0 []
      (typed (bytes_of "echo" :: demo_words) [1]) boot_kernel demo_files
    = Some (0, line, (set_k_term (terminal_write (join demo_words ++ [10]) (k_term boot_kernel)) boot_kernel, demo_files)).
Proof.
  exact (echo_prints demo_api (fun _ _ k => Some k) Some 0 0 [] demo_words [1] boot_kernel demo_files
           demo_words_plain ltac:(cbn; lia)).
Defined.

(** C29. [cp] over a file system of byte streams ends and appends to the
    destination exactly the bytes left of the source, whatever the length of
    the file and the contents of the uninitialised buffer. *)
Theorem cp_copies `{!Allocator H} {F : Type} (api : file_api F) `{!Streams api} (turns : nat)
    (stack_buffer : list Z) (name from to : list Z) (k : kernel H) (f f1 f2 : F) (src dst : Z) :
  api_open api from (bytes_of "r") f = (Some src, f1) ->
  api_open api to (bytes_of "w") f1 = (Some dst, f2) ->
  src <> dst -> (length (remaining f2 src) + 512 <= 512 * turns)%nat ->
  exists f3,
    do_cp api turns stack_buffer [name; from; to] k f = Some (0, (k, api_close api dst (api_close api src f3))) /\
    written f3 dst = written f2 dst ++ remaining f2 src /\ remaining f3 src = [].
Proof.
  intros Hsrc Hdst Hne Hturns. unfold do_cp. cbn [length Nat.ltb Nat.leb].
  change (arg [name; from; to] 1) with from. change (arg [name; from; to] 2) with to. rewrite Hsrc, Hdst.
  destruct (cp_loop_spec api turns src dst stack_buffer f2 Hne Hturns) as (f3 & -> & Hend & Hout).
  by exists f3.
Qed.

Lemma cp_copies_witness :
  exists f3,
    do_cp demo_api 3 [] [bytes_of "cp"; [1]; [2]] boot_kernel demo_files = Some (0, (boot_kernel, f3)) /\
    written f3 2 = replicate 600 65 /\ remaining f3 1 = [].
Proof.
  exact (cp_copies demo_api 3 [] (bytes_of "cp") [1] [2] boot_kernel demo_files demo_files demo_files 1 2
           eq_refl eq_refl ltac:(done) ltac:(apply Nat.leb_le; vm_compute; reflexivity)).
Defined.

(** [cat] of a file without NUL bytes prints exactly the bytes of the file
    and a newline, whatever the length of the file. *)
Theorem cat_prints `{!Allocator H} {F : Type} (api : file_api F) `{!Streams api} (turns : nat)
    (stack_buffer : list Z) (name path : list Z) (k : kernel H) (f f1 : F) (file : Z) :
  api_open api path (bytes_of "r") f = (Some file, f1) ->
  length stack_buffer = 512%nat -> Forall (fun c => c <> 0) (remaining f1 file) ->
  (length (remaining f1 file) + 511 <= 511 * turns)%nat ->
  exists f2,
    do_cat api turns stack_buffer [name; path] k f
    = Some (0, (set_k_term (terminal_write (remaining f1 file ++ [10]) (k_term k)) k, api_close api file f2)) /\
    remaining f2 file = [].
Proof.
  intros Hopen Hlen Hnz Hturns. unfold do_cat. cbn [length Nat.ltb Nat.leb].
  change (arg [name; path] 1) with path. rewrite Hopen.
  destruct (cat_loop_spec api turns file stack_buffer k f1 Hlen Hnz Hturns) as (f2 & -> & Hend).
  exists f2. split; [|done]. cbn [mbind option_bind]. by rewrite kprint_write, write_k_app.
Qed.

Lemma cat_prints_witness :
  exists f2,
    do_cat demo_api 3 (replicate 512 7) [bytes_of "cat"; [1]] boot_kernel demo_files
    = Some (0, (set_k_term (terminal_write (remaining demo_files 1 ++ [10]) (k_term boot_kernel)) boot_kernel, f2)) /\
    remaining f2 1 = [].
Proof.
  refine (cat_prints demo_api 3 (replicate 512 7) (bytes_of "cat") [1] boot_kernel demo_files demo_files 1
           eq_refl eq_refl _ ltac:(apply Nat.leb_le; vm_compute; reflexivity)).
  change (remaining demo_files 1) with (replicate 600 65). by apply Forall_replicate.
Defined.
