(* ===== verification/Shell.v ===== *)
(** * The shell: shell.c

    The line buffer, the history and the keys of the shell.  The kernel is
    changed through the terminal, the allocator and the commands; the file
    system is the one of the commands.  shell.c relies on names no file of the
    repository declares: [free], the keyboard functions
    [keyboard_read_scancode] and [keyboard_handle_scancode] with their
    [keyboard_event_t], and the codes of the keys the keyboard driver has no
    name for.  They are parameters.  [None] is an access outside an array or
    through a null pointer. *)
From S2P Require Import Prelude CString Terminal RawMemory Allocator.
From S2P Require Import Kernel Process Invariant Scheduler Timer Paging Usermode Syscall Coreutils.

Definition SHELL_BUFFER_SIZE : nat := 256.
Definition SHELL_HISTORY_SIZE : nat := 10.

Inductive shell_state := SHELL_STATE_READY | SHELL_STATE_RUNNING | SHELL_STATE_EXIT.

#[export] Instance shell_state_eq_dec : EqDecision shell_state.
Proof. solve_decision. Defined.

(** A slot of the history is a pointer, with the string stored behind it. *)
Record shell := Shell {
  sh_buffer : list Z;
  buffer_pos : nat;
  history : list (Z * list Z);
  history_count : nat;
  history_index : Z;
  cwd : list Z;
  sh_state : shell_state;
  exit_code : Z;
}.

Definition set_buffer (v : list Z) (s : shell) : shell :=
  Shell v (buffer_pos s) (history s) (history_count s) (history_index s) (cwd s) (sh_state s) (exit_code s).
Definition set_buffer_pos (v : nat) (s : shell) : shell :=
  Shell (sh_buffer s) v (history s) (history_count s) (history_index s) (cwd s) (sh_state s) (exit_code s).
Definition set_history (v : list (Z * list Z)) (n : nat) (s : shell) : shell :=
  Shell (sh_buffer s) (buffer_pos s) v n (history_index s) (cwd s) (sh_state s) (exit_code s).
Definition set_history_index (v : Z) (s : shell) : shell :=
  Shell (sh_buffer s) (buffer_pos s) (history s) (history_count s) v (cwd s) (sh_state s) (exit_code s).
Definition set_cwd (v : list Z) (s : shell) : shell :=
  Shell (sh_buffer s) (buffer_pos s) (history s) (history_count s) (history_index s) v (sh_state s) (exit_code s).
Definition set_sh_state (v : shell_state) (s : shell) : shell :=
  Shell (sh_buffer s) (buffer_pos s) (history s) (history_count s) (history_index s) (cwd s) v (exit_code s).

(** [memset(shell, 0, sizeof(shell_t))] *)
Definition shell0 : shell :=
  Shell (replicate SHELL_BUFFER_SIZE 0) 0 (replicate SHELL_HISTORY_SIZE (0, [])) 0 0 (replicate 256 0)
    SHELL_STATE_READY 0.

(** What [keyboard_handle_scancode] stores. *)
Record keyboard_event := KeyboardEvent { key : Z; ascii : Z; pressed : bool }.

Definition KEY_BACKSPACE : Z := 0x0E.
Definition KEY_TAB : Z := 0x0F.
Definition KEY_ENTER : Z := 0x1C.

(** The codes of keys that no file defines. *)
Record shell_keys := ShellKeys {
  KEY_ARROW_UP : Z; KEY_ARROW_DOWN : Z; KEY_ARROW_LEFT : Z; KEY_ARROW_RIGHT : Z;
  KEY_ESCAPE : Z; KEY_CTRL_C : Z; KEY_CTRL_D : Z;
}.

Section Shell.
Context `{!Allocator H} {F : Type} (api : file_api F) (keys : shell_keys).
Variable call_handler : Z -> Z -> kernel H -> option (kernel H).
Variable wait_timer : kernel H -> option (kernel H).
Variable fuel turns : nat.
Variable stack_buffer : list Z.
(** The function [free]. *)
Variable free_string : Z -> kernel H -> option (kernel H).
Implicit Types (sh : shell) (k : kernel H) (f : F).

Definition kputchar (c : Z) k : kernel H := set_k_term (terminal_putchar c (k_term k)) k.

(** The escapes [\b] and [\r] of the source. *)
Definition backspace : string := String (Ascii.ascii_of_nat 8) EmptyString.
Definition cr : string := String (Ascii.ascii_of_nat 13) EmptyString.

(** [for (int i = from; i < strlen(buffer); i++) terminal_putchar(buffer[i]);] *)
Definition put_tail (from : nat) (buffer : list Z) k : kernel H :=
  foldl (fun k c => kputchar c k) k (drop from (cstr buffer)).

(** ** The line *)

Definition shell_clear_buffer sh : shell :=
  set_history_index (-1) (set_buffer_pos 0 (set_buffer (replicate SHELL_BUFFER_SIZE 0) sh)).

Definition shell_process_input (c : Z) sh k : shell * kernel H :=
  if (buffer_pos sh <? SHELL_BUFFER_SIZE - 1)%nat then
    let k := put_tail (buffer_pos sh) (sh_buffer sh) k in
    let pos := S (buffer_pos sh) in
    let buffer := <[pos := 0]> (<[buffer_pos sh := c]> (sh_buffer sh)) in
    let k := kputchar c k in
    let k := Nat.iter (strlen buffer - pos) (kprint backspace) k in
    (set_buffer_pos pos (set_buffer buffer sh), k)
  else (sh, k).

Definition shell_handle_left_arrow sh k : shell * kernel H :=
  if (0 <? buffer_pos sh)%nat then (set_buffer_pos (buffer_pos sh - 1) sh, kprint backspace k) else (sh, k).

Definition shell_handle_right_arrow sh k : shell * kernel H :=
  if (buffer_pos sh <? strlen (sh_buffer sh))%nat
  then (set_buffer_pos (S (buffer_pos sh)) sh, kputchar (char_at (sh_buffer sh) (buffer_pos sh)) k)
  else (sh, k).

(** The shift to the left from [i], [n] bounds the scan by the size of the
    buffer. *)
Fixpoint shift_loop (n i : nat) (buffer : list Z) k : list Z * kernel H :=
  match n with
  | O => (buffer, k)
  | S n' =>
    if (i <? strlen buffer - 1)%nat then
      let buffer := <[i := char_at buffer (S i)]> buffer in
      shift_loop n' (S i) buffer (kputchar (char_at buffer i) k)
    else (buffer, k)
  end.

(** [strlen(buffer) - 1] on an empty string is the largest [size_t]. *)
Definition shell_handle_backspace sh k : option (shell * kernel H) :=
  if (0 <? buffer_pos sh)%nat then
    if (strlen (sh_buffer sh) =? 0)%nat then None else
    let k := kprint backspace k in
    let '(buffer, k) := shift_loop SHELL_BUFFER_SIZE (buffer_pos sh - 1) (sh_buffer sh) k in
    let k := kprint " " k in
    let k := Nat.iter (strlen buffer - buffer_pos sh) (kprint backspace) k in
    let k := kprint backspace k in
    let buffer := <[(strlen buffer - 1)%nat := 0]> buffer in
    Some (set_buffer_pos (buffer_pos sh - 1) (set_buffer buffer sh), k)
  else Some (sh, k).

(** ** The prompt *)

(** A [fs_getcwd] that fails leaves the directory. *)
Definition shell_print_prompt sh k f : shell * kernel H :=
  let sh := set_cwd (default (cwd sh) (api_getcwd api 256 f)) sh in
  let k := kprint_bytes (cwd sh) (setcolor VGA_COLOR_LIGHT_CYAN k) in
  let k := kprint " $ " (setcolor VGA_COLOR_LIGHT_GREEN k) in
  (sh, setcolor VGA_COLOR_LIGHT_GREY k).

Definition shell_init k f : shell * kernel H :=
  let sh := set_sh_state SHELL_STATE_READY (set_cwd (default (cwd shell0) (api_getcwd api 256 f)) shell0) in
  let k := set_k_term (terminal_initialize (k_term k)) k in
  let k := kprint ("SimpleOS Shell v0.1" +:+ nl) (setcolor VGA_COLOR_LIGHT_GREEN k) in
  let k := kprint ("Yardim icin 'help' yazin" +:+ nl +:+ nl) k in
  shell_print_prompt sh (setcolor VGA_COLOR_LIGHT_GREY k) f.

(** ** The history *)

(** [memcpy(new_str, s, len)] stores the string and its NUL in the new block. *)
Definition strdup (s : list Z) k : option (Z * list Z * kernel H) :=
  let len := u64 (Z.of_nat (strlen s) + 1) in
  '(p, h) ← alloc len (k_heap k);
  if p =? 0 then Some (p, [], set_k_heap h k)
  else Some (p, cstr s, set_k_heap (poke (cstr s ++ [0]) p h) k).

(** The string of slot [i]. *)
Definition slot_string (i : nat) sh : option (list Z) :=
  '(p, s) ← history sh !! i; if p =? 0 then None else Some s.

(** A full history: the oldest string is freed, the others move down. *)
Definition make_room sh k : option (shell * kernel H) :=
  if (history_count sh =? SHELL_HISTORY_SIZE)%nat then
    '(p, _) ← history sh !! 0%nat;
    k ← free_string p k;
    let n := (history_count sh - 1)%nat in
    Some (set_history (take n (drop 1 (history sh)) ++ drop n (history sh)) n sh, k)
  else Some (sh, k).

Definition shell_add_to_history (command : list Z) sh k : option (shell * kernel H) :=
  if (strlen command =? 0)%nat then Some (sh, k) else
  same ← (if (0 <? history_count sh)%nat then
            last ← slot_string (history_count sh - 1) sh; Some (strcmp last command =? 0)
          else Some false);
  if (same : bool) then Some (sh, k) else
  '(sh, k) ← make_room sh k;
  '(p, s, k) ← strdup command k;
  Some (set_history (<[history_count sh := (p, s)]> (history sh)) (S (history_count sh)) sh, k).

(** The line is blanked out, the prompt printed again. *)
Definition redraw sh k f : shell * kernel H :=
  let k := kprint cr k in
  let k := pad (buffer_pos sh + strlen (cwd sh) + 4) k in
  shell_print_prompt sh (kprint cr k) f.

(** [strcpy] of slot [i] into the buffer, [buffer_pos] at its end, the text
    printed. *)
Definition load_history (i : nat) sh k : option (shell * kernel H) :=
  s ← slot_string i sh;
  if (SHELL_BUFFER_SIZE <=? strlen s)%nat then None else
  let buffer := cstr s ++ [0] ++ drop (S (strlen s)) (sh_buffer sh) in
  Some (set_buffer_pos (strlen buffer) (set_buffer buffer sh), kprint_bytes buffer k).

Definition shell_handle_up_arrow sh k f : option (shell * kernel H) :=
  if (history_count sh =? 0)%nat then Some (sh, k) else
  match (if history_index sh =? -1 then Some (Z.of_nat (history_count sh) - 1)
         else if 0 <? history_index sh then Some (history_index sh - 1) else None) with
  | None => Some (sh, k)
  | Some i =>
    let sh := set_history_index i sh in
    let '(sh, k) := redraw sh k f in
    load_history (Z.to_nat i) sh k
  end.

Definition shell_handle_down_arrow sh k f : option (shell * kernel H) :=
  if (history_count sh =? 0)%nat || (history_index sh =? -1) then Some (sh, k) else
  if history_index sh <? Z.of_nat (history_count sh) - 1 then
    let i := history_index sh + 1 in
    let sh := set_history_index i sh in
    let '(sh, k) := redraw sh k f in
    load_history (Z.to_nat i) sh k
  else
    let sh := set_history_index (-1) sh in
    let '(sh, k) := redraw sh k f in
    Some (shell_clear_buffer sh, k).

(** The loop of [shell_cleanup] over the slots below the count. *)
Fixpoint cleanup_loop (slots : list (Z * list Z)) (n : nat) k : option (list (Z * list Z) * kernel H) :=
  match n, slots with
  | S n', (p, s) :: slots' =>
    if negb (p =? 0) then
      h ← free p (k_heap k);
      '(rest, k) ← cleanup_loop slots' n' (set_k_heap h k); Some ((0, []) :: rest, k)
    else '(rest, k) ← cleanup_loop slots' n' k; Some ((p, s) :: rest, k)
  | _, _ => Some (slots, k)
  end.

Definition shell_cleanup sh k : option (shell * kernel H) :=
  '(slots, k) ← cleanup_loop (history sh) (history_count sh) k;
  Some (shell_clear_buffer (set_history slots (history_count sh) sh), k).

(** ** Commands and keys *)

Definition shell_execute_command sh k f : option (shell * (kernel H * F)) :=
  let sh := set_buffer (<[buffer_pos sh := 0]> (sh_buffer sh)) sh in
  if (buffer_pos sh =? 0)%nat then Some (sh, (k, f)) else
  '(sh, k) ← shell_add_to_history (sh_buffer sh) sh k;
  '(result, line, (k, f)) ← execute_command api call_handler wait_timer fuel turns stack_buffer (sh_buffer sh) k f;
  let sh := set_buffer line sh in
  let k := if result =? -1 then fail_with "Komut hatasi: " (sh_buffer sh) k else k in
  let sh := if strcmp (sh_buffer sh) (bytes_of "exit") =? 0 then set_sh_state SHELL_STATE_EXIT sh else sh in
  Some (sh, (k, f)).

(** The body of the loop of [shell_run] for one event. *)
Definition shell_key (e : keyboard_event) sh k f : option (shell * (kernel H * F)) :=
  let keep (r : shell * kernel H) : option (shell * (kernel H * F)) := Some (fst r, (snd r, f)) in
  if negb (pressed e) then keep (sh, k) else
  if key e =? KEY_ENTER then
    '(sh, (k, f)) ← shell_execute_command sh (kprint nl k) f;
    let sh := shell_clear_buffer sh in
    if bool_decide (sh_state sh = SHELL_STATE_RUNNING)
    then let '(sh, k) := shell_print_prompt sh k f in Some (sh, (k, f))
    else Some (sh, (k, f))
  else if key e =? KEY_BACKSPACE then r ← shell_handle_backspace sh k; keep r
  else if key e =? KEY_ARROW_UP keys then r ← shell_handle_up_arrow sh k f; keep r
  else if key e =? KEY_ARROW_DOWN keys then r ← shell_handle_down_arrow sh k f; keep r
  else if key e =? KEY_ARROW_LEFT keys then keep (shell_handle_left_arrow sh k)
  else if key e =? KEY_ARROW_RIGHT keys then keep (shell_handle_right_arrow sh k)
  else if key e =? KEY_TAB then keep (shell_process_input 0x20 sh k)
  else if key e =? KEY_ESCAPE keys then keep (shell_print_prompt (shell_clear_buffer sh) (kprint cr k) f)
  else if key e =? KEY_CTRL_C keys then
    keep (shell_print_prompt (shell_clear_buffer sh) (kprint ("^C" +:+ nl) k) f)
  else if key e =? KEY_CTRL_D keys then
    if (buffer_pos sh =? 0)%nat
    then keep (set_sh_state SHELL_STATE_EXIT sh, kprint ("exit" +:+ nl) k) else keep (sh, k)
  else if negb (ascii e =? 0) then keep (shell_process_input (ascii e) sh k)
  else keep (sh, k).

(** The loop while the shell runs, on what each turn reads from the keyboard:
    [None] for no scancode or one that is no event.  The rest of the input is
    what an exit leaves unread. *)
Fixpoint shell_loop (input : list (option keyboard_event)) sh k f
  : option (list (option keyboard_event) * shell * (kernel H * F)) :=
  if negb (bool_decide (sh_state sh = SHELL_STATE_RUNNING)) then Some (input, sh, (k, f)) else
  match input with
  | [] => Some ([], sh, (k, f))
  | None :: input' => shell_loop input' sh k f
  | Some e :: input' => '(sh, (k, f)) ← shell_key e sh k f; shell_loop input' sh k f
  end.

Definition shell_run (input : list (option keyboard_event)) sh k f
  : option (list (option keyboard_event) * shell * (kernel H * F)) :=
  shell_loop input (set_sh_state SHELL_STATE_RUNNING sh) k f.
End Shell.
