(* ===== verification/ShellSpec.v ===== *)
(** * What the shell of shell.c does

    The line as a text before and a text after the cursor, the history as a
    list of strings, and the keys as operations on them. *)
From S2P Require Import Prelude CString Terminal RawMemory Allocator Heap.
From S2P Require Import Kernel Process Invariant Scheduler Lifecycle Timer Paging Usermode Syscall.
From S2P Require Import Coreutils CoreutilsSpec Shell.

(** ** The line editor *)

(** The buffer holds the text [l] before the cursor and [r] after it. *)
Definition holds (sh : shell) (l r : list Z) : Prop :=
  Forall (fun c => c <> 0) (l ++ r) /\ buffer_pos sh = length l /\
  length (sh_buffer sh) = SHELL_BUFFER_SIZE /\ exists rest, sh_buffer sh = (l ++ r) ++ 0 :: rest.

Inductive edit := Insert (c : Z) | Backspace | Left | Right.

(** The editor the shell implements: an insertion drops the text after the
    cursor. *)
Definition edit_line (e : edit) (line : list Z * list Z) : list Z * list Z :=
  let '(l, r) := line in
  match e with
  | Insert c => if (length l <? 255)%nat then (l ++ [c], []) else (l, r)
  | Backspace => (removelast l, r)
  | Left => (removelast l, option_list (last l) ++ r)
  | Right => (l ++ take 1 r, drop 1 r)
  end.

Section Editor.
Context {H : Type}.
Implicit Types (k : kernel H) (sh : shell).

(** The keys of the editor as the shell handles them. *)
Definition do_edit (e : edit) sh k : option (shell * kernel H) :=
  match e with
  | Insert c => Some (shell_process_input c sh k)
  | Backspace => shell_handle_backspace sh k
  | Left => Some (shell_handle_left_arrow sh k)
  | Right => Some (shell_handle_right_arrow sh k)
  end.

(** What the line editor leaves alone. *)
Definition same_rest sh sh' : Prop :=
  history sh' = history sh /\ history_count sh' = history_count sh /\
  history_index sh' = history_index sh /\ cwd sh' = cwd sh /\ sh_state sh' = sh_state sh.

(** Only the screen changed. *)
Definition screen_only k k' : Prop := exists t, k' = set_k_term t k.

Lemma screen_only_refl k : screen_only k k.
Proof. exists (k_term k). by destruct k. Qed.

Lemma screen_only_trans k1 k2 k3 : screen_only k1 k2 -> screen_only k2 k3 -> screen_only k1 k3.
Proof. intros (t1 & ->) (t2 & ->). by exists t2. Qed.

Lemma screen_only_kprint s k k' : screen_only k k' -> screen_only k (kprint s k').
Proof. intros (t & ->). by eexists. Qed.

Lemma screen_only_kprint_bytes s k k' : screen_only k k' -> screen_only k (kprint_bytes s k').
Proof. intros (t & ->). by eexists. Qed.

Lemma screen_only_kputchar c k k' : screen_only k k' -> screen_only k (kputchar c k').
Proof. intros (t & ->). by eexists. Qed.

Lemma screen_only_setcolor c k k' : screen_only k k' -> screen_only k (setcolor c k').
Proof. intros (t & ->). by eexists. Qed.

Lemma screen_only_iter n s k k' : screen_only k k' -> screen_only k (Nat.iter n (kprint s) k').
Proof. intros Hk. induction n; simpl; [done|]. by apply screen_only_kprint. Qed.

Lemma screen_only_put_tail n b k k' : screen_only k k' -> screen_only k (put_tail n b k').
Proof.
  unfold put_tail. revert k'. induction (drop n (cstr b)) as [|c s IH]; intros k' Hk; simpl; [done|].
  by apply IH, screen_only_kputchar.
Qed.

#[local] Hint Resolve screen_only_refl screen_only_kprint screen_only_kprint_bytes screen_only_kputchar
  screen_only_setcolor screen_only_iter screen_only_put_tail : curnel.

Lemma holds_cstr sh l r : holds sh l r -> cstr (sh_buffer sh) = l ++ r.
Proof. intros (Hnz & _ & _ & rest & ->). apply cstr_app; [done|by right]. Qed.

Lemma holds_strlen sh l r : holds sh l r -> strlen (sh_buffer sh) = (length l + length r)%nat.
Proof. intros Hl. by rewrite <- strlen_cstr, (holds_cstr _ _ _ Hl), length_app. Qed.

Lemma holds_bound sh l r : holds sh l r -> (length l + length r < SHELL_BUFFER_SIZE)%nat.
Proof.
  intros (_ & _ & Hlen & rest & Hb). rewrite <- Hlen, Hb, !length_app. simpl. lia.
Qed.

Lemma insert_two (l tail : list Z) c d a b :
  <[S (length l) := d]> (<[length l := c]> (l ++ a :: b :: tail)) = (l ++ [c]) ++ d :: tail.
Proof.
  rewrite !insert_app_r_alt, Nat.sub_diag by lia. replace (S (length l) - length l)%nat with 1%nat by lia.
  by rewrite <- app_assoc.
Qed.

Lemma process_input_holds c sh k l r :
  c <> 0 -> holds sh l r ->
  exists sh' k', shell_process_input c sh k = (sh', k') /\
    holds sh' (fst (edit_line (Insert c) (l, r))) (snd (edit_line (Insert c) (l, r))) /\
    same_rest sh sh' /\ screen_only k k'.
Proof.
  intros Hc Hl. pose proof (holds_bound _ _ _ Hl) as Hbound.
  destruct Hl as (Hnz & Hpos & Hlen & rest & Hb). unfold shell_process_input. rewrite Hpos.
  change (SHELL_BUFFER_SIZE - 1)%nat with 255%nat. simpl edit_line.
  destruct (Nat.ltb_spec (length l) 255) as [Hlt|Hge].
  - do 2 eexists. split; [reflexivity|]. split; [|split; [done|eauto with curnel]].
    assert (exists a b tail, r ++ 0 :: rest = a :: b :: tail) as (a & b & tail & Htail).
    { rewrite Hb in Hlen. rewrite <- app_assoc, length_app in Hlen. change SHELL_BUFFER_SIZE with 256%nat in Hlen.
      destruct (r ++ 0 :: rest) as [|a [|b tail]]; [simpl in Hlen; lia..|]. by exists a, b, tail. }
    rewrite Hb, <- app_assoc, Htail, insert_two. simpl. split_and!.
    + rewrite app_nil_r. apply Forall_app. split; [by apply Forall_app in Hnz as [? _]|by constructor].
    + cbn [buffer_pos set_buffer_pos]. rewrite length_app. simpl. lia.
    + cbn [sh_buffer set_buffer set_buffer_pos]. rewrite Hb, <- app_assoc, Htail in Hlen.
      rewrite <- Hlen, !length_app. simpl. lia.
    + exists tail. cbn [sh_buffer set_buffer set_buffer_pos]. by rewrite app_nil_r.
  - do 2 eexists. split; [reflexivity|]. split; [|split; [done|eauto with curnel]].
    split_and!; [done..|by exists rest].
Qed.

Lemma left_holds sh k l r :
  holds sh l r -> exists sh' k', shell_handle_left_arrow sh k = (sh', k') /\
    holds sh' (removelast l) (option_list (last l) ++ r) /\ same_rest sh sh' /\ screen_only k k'.
Proof.
  intros (Hnz & Hpos & Hlen & rest & Hb). unfold shell_handle_left_arrow. rewrite Hpos.
  destruct l as [|c l _] using rev_ind.
  - do 2 eexists. split; [reflexivity|]. split; [|split; [done|eauto with curnel]].
    split_and!; [done..|by exists rest].
  - rewrite removelast_last, last_snoc, length_app. simpl. rewrite (proj2 (Nat.ltb_lt _ _)) by lia.
    do 2 eexists. split; [reflexivity|]. split; [|split; [done|eauto with curnel]].
    rewrite <- (assoc_L (++) l [c] r) in Hnz, Hb. split_and!; [done| |done|by exists rest].
    cbn [buffer_pos set_buffer_pos]. lia.
Qed.

Lemma right_holds sh k l r :
  holds sh l r -> exists sh' k', shell_handle_right_arrow sh k = (sh', k') /\
    holds sh' (l ++ take 1 r) (drop 1 r) /\ same_rest sh sh' /\ screen_only k k'.
Proof.
  intros Hl. pose proof (holds_strlen _ _ _ Hl) as Hs. destruct Hl as (Hnz & Hpos & Hlen & rest & Hb).
  unfold shell_handle_right_arrow. rewrite Hpos, Hs. destruct r as [|c r].
  - rewrite (proj2 (Nat.ltb_ge _ _)) by (simpl; lia). do 2 eexists. split; [reflexivity|].
    split; [|split; [done|eauto with curnel]]. simpl. rewrite !app_nil_r in *.
    split_and!; [by rewrite app_nil_r|done|done|exists rest; by rewrite app_nil_r].
  - rewrite (proj2 (Nat.ltb_lt _ _)) by (simpl; lia). do 2 eexists. split; [reflexivity|].
    split; [|split; [done|eauto with curnel]]. simpl.
    change (c :: r) with ([c] ++ r) in Hnz, Hb. rewrite (assoc_L (++) l [c] r) in Hnz, Hb.
    split_and!; [done| |done|by exists rest].
    cbn [buffer_pos set_buffer_pos]. rewrite length_app. simpl. lia.
Qed.

(** The shift drops the character at [i] and repeats the last one. *)
Lemma shift_loop_spec n l c r rest k :
  (length r < n)%nat -> Forall (fun c => c <> 0) (l ++ c :: r) ->
  exists k', shift_loop n (length l) ((l ++ c :: r) ++ 0 :: rest) k
    = ((l ++ r ++ [default c (last r)]) ++ 0 :: rest, k') /\ screen_only k k'.
Proof.
  revert l c r k. induction n as [|n IH]; intros l c r k Hn Hnz; [lia|]. simpl.
  rewrite <- strlen_cstr, cstr_app by (done || by right).
  rewrite length_app. simpl length. destruct r as [|d r].
  - rewrite (proj2 (Nat.ltb_ge _ _)) by (simpl; lia). exists k. split; [done|eauto with curnel].
  - rewrite (proj2 (Nat.ltb_lt _ _)) by (simpl; lia).
    assert (char_at ((l ++ c :: d :: r) ++ 0 :: rest) (S (length l)) = d) as ->.
    { unfold char_at. rewrite <- app_assoc, lookup_app_r by lia.
      by replace (S (length l) - length l)%nat with 1%nat by lia. }
    assert (<[length l := d]> ((l ++ c :: d :: r) ++ 0 :: rest) = ((l ++ [d]) ++ d :: r) ++ 0 :: rest) as ->.
    { rewrite <- !app_assoc. simpl. by rewrite insert_app_r_alt, Nat.sub_diag by lia. }
    replace (S (length l)) with (length (l ++ [d])) by (rewrite length_app; simpl; lia).
    destruct (IH (l ++ [d]) d r (kputchar (char_at (((l ++ [d]) ++ d :: r) ++ 0 :: rest) (length l)) k))
      as (k' & -> & Hk'); [simpl in Hn; lia| |].
    { apply Forall_app in Hnz as [H1 H2]. apply Forall_cons in H2 as [H2 H3].
      pose proof (Forall_inv H3) as H4. rewrite <- app_assoc. apply Forall_app. split; [done|by constructor]. }
    exists k'. split; [|eapply screen_only_trans; [|exact Hk']; eauto with curnel].
    rewrite last_cons, <- !app_assoc. simpl. by destruct (last r).
Qed.

Lemma backspace_holds sh k l r :
  holds sh l r -> exists sh' k', shell_handle_backspace sh k = Some (sh', k') /\
    holds sh' (removelast l) r /\ same_rest sh sh' /\ screen_only k k'.
Proof.
  intros Hl. pose proof (holds_strlen _ _ _ Hl) as Hs. pose proof (holds_bound _ _ _ Hl) as Hbound.
  destruct Hl as (Hnz & Hpos & Hlen & rest & Hb). unfold shell_handle_backspace. rewrite Hpos, Hs.
  destruct l as [|c l _] using rev_ind.
  - do 2 eexists. split; [reflexivity|]. split; [|split; [done|eauto with curnel]].
    split_and!; [done..|by exists rest].
  - rewrite removelast_last in *. rewrite length_app in *. simpl length in *.
    rewrite (proj2 (Nat.ltb_lt _ _)) by lia. rewrite (proj2 (Nat.eqb_neq _ _)) by lia.
    rewrite <- app_assoc in Hnz. simpl in Hnz.
    replace (length l + 1 - 1)%nat with (length l) by lia. rewrite Hb.
    replace ((l ++ [c]) ++ r) with (l ++ c :: r) in * by by rewrite <- app_assoc.
    destruct (shift_loop_spec SHELL_BUFFER_SIZE l c r rest (kprint backspace k) ltac:(lia) Hnz)
      as (k1 & -> & Hk1).
    assert (Forall (fun c => c <> 0) (l ++ r ++ [default c (last r)])) as Hnz'.
    { apply Forall_app in Hnz as [H1 H2]. pose proof (Forall_inv H2) as Hc. apply Forall_cons in H2 as [_ H3].
      apply Forall_app; split; [done|]. apply Forall_app; split; [done|]. constructor; [|done].
      destruct (last r) as [d|] eqn:E; [|done]. apply last_Some_elem_of in E.
      simpl. by apply (proj1 (Forall_forall _ _) H3). }
    do 2 eexists. split; [reflexivity|]. split; [|split; [done|]].
    2: { eapply screen_only_trans; [|eapply screen_only_trans; [exact Hk1|]]; eauto 6 with curnel. }
    assert (Hsb : strlen ((l ++ r ++ [default c (last r)]) ++ 0 :: rest) = S (length (l ++ r))).
    { rewrite <- strlen_cstr, cstr_app by (done || by right). rewrite !length_app. simpl. lia. }
    rewrite Hsb. replace (S (length (l ++ r)) - 1)%nat with (length (l ++ r)) by lia.
    assert (forall d, <[length (l ++ r) := 0]> ((l ++ r ++ [d]) ++ 0 :: rest) = (l ++ r) ++ 0 :: 0 :: rest)
      as -> by (intros d; rewrite (app_assoc l), <- (app_assoc (l ++ r)), insert_app_r_alt, Nat.sub_diag by lia; done).
    split_and!.
    + apply Forall_app in Hnz as [H1 H2]. apply Forall_cons in H2 as [_ H3]. by apply Forall_app.
    + done.
    + cbn [sh_buffer set_buffer set_buffer_pos]. rewrite <- Hlen, Hb, !length_app. simpl. lia.
    + by exists (0 :: rest).
Qed.

(** Every key of the editor, on every line. *)
Lemma do_edit_holds e sh k l r :
  (forall c, e = Insert c -> c <> 0) -> holds sh l r ->
  exists sh' k', do_edit e sh k = Some (sh', k') /\
    holds sh' (fst (edit_line e (l, r))) (snd (edit_line e (l, r))) /\ same_rest sh sh' /\ screen_only k k'.
Proof.
  intros Hc Hl. destruct e as [c| | |]; unfold do_edit.
  - destruct (process_input_holds c sh k l r (Hc c eq_refl) Hl) as (sh' & k' & -> & Hr). by exists sh', k'.
  - by apply backspace_holds.
  - destruct (left_holds sh k l r Hl) as (sh' & k' & -> & Hr). by exists sh', k'.
  - destruct (right_holds sh k l r Hl) as (sh' & k' & -> & Hr). by exists sh', k'.
Qed.

Lemma same_rest_trans sh1 sh2 sh3 : same_rest sh1 sh2 -> same_rest sh2 sh3 -> same_rest sh1 sh3.
Proof. intros (?&?&?&?&?) (?&?&?&?&?). split_and!; congruence. Qed.

(** A sequence of keys. *)
Fixpoint do_edits (es : list edit) sh k : option (shell * kernel H) :=
  match es with
  | [] => Some (sh, k)
  | e :: es' => '(sh, k) ← do_edit e sh k; do_edits es' sh k
  end.

Lemma do_edits_holds es sh k l r :
  Forall (fun e => e <> Insert 0) es -> holds sh l r ->
  exists sh' k', do_edits es sh k = Some (sh', k') /\
    holds sh' (fst (foldl (fun line e => edit_line e line) (l, r) es))
      (snd (foldl (fun line e => edit_line e line) (l, r) es)) /\
    same_rest sh sh' /\ screen_only k k'.
Proof.
  intros Hes. revert sh k l r. induction Hes as [|e es He Hes IH]; intros sh k l r Hl; cbn [do_edits foldl].
  { exists sh, k. do 3 (split; [done|]). apply screen_only_refl. }
  destruct (do_edit_holds e sh k l r) as (sh1 & k1 & -> & Hl1 & Hr1 & Hk1); [|done|].
  { intros c -> ->. done. }
  cbn [mbind option_bind]. destruct (edit_line e (l, r)) as [l1 r1]. cbn [fst snd] in Hl1.
  destruct (IH sh1 k1 l1 r1 Hl1) as (sh2 & k2 & -> & Hl2 & Hr2 & Hk2).
  exists sh2, k2. split; [done|]. split; [done|].
  split; [by eapply same_rest_trans|by eapply screen_only_trans].
Qed.
End Editor.

(** ** The history *)

Definition history_strings (sh : shell) : list (list Z) := snd <$> take (history_count sh) (history sh).

Definition text (s : list Z) : Prop :=
  s <> [] /\ Forall (fun c => c <> 0) s /\ (length s < SHELL_BUFFER_SIZE)%nat.

Definition history_wf (sh : shell) : Prop :=
  length (history sh) = SHELL_HISTORY_SIZE /\ (history_count sh <= SHELL_HISTORY_SIZE)%nat /\
  Forall (fun slot => fst slot <> 0 /\ text (snd slot)) (take (history_count sh) (history sh)).

(** A command enters the history: not twice in a row, the oldest of ten drops
    out. *)
Definition push_history (s : list Z) (h : list (list Z)) : list (list Z) :=
  if bool_decide (last h = Some s) then h
  else (if (length h =? SHELL_HISTORY_SIZE)%nat then drop 1 h else h) ++ [s].

(** The last slot is the null pointer of a failed [strdup]. *)
Definition history_lost (sh : shell) : Prop :=
  (0 < history_count sh)%nat /\ history sh !! (history_count sh - 1)%nat = Some (0, []).

(** The heap holds the strings: each slot has a block of its own with room for the
    string and its NUL, and they are the bytes in it. *)
Definition slot_in_heap `{!Allocator H} (h : H) (slot : Z * list Z) : Prop :=
  alloc_live h (fst slot) /\ Z.of_nat (length (snd slot)) + 1 <= alloc_room h (fst slot) /\
  read_block (S (length (snd slot))) (fst slot) h = snd slot ++ [0].

Definition history_in_heap `{!Allocator H} (sh : shell) (h : H) : Prop :=
  NoDup (fst <$> take (history_count sh) (history sh)) /\
  Forall (slot_in_heap h) (take (history_count sh) (history sh)).

(** What [free] does with a block that is in use: it releases it and touches
    no other. *)
Definition frees `{!Allocator H} (free_string : Z -> kernel H -> option (kernel H)) : Prop :=
  forall p k, alloc_wf (k_heap k) -> alloc_live (k_heap k) p ->
  exists h, free_string p k = Some (set_k_heap h k) /\ alloc_wf h /\
    (forall q, alloc_live h q <-> alloc_live (k_heap k) q /\ q <> p) /\
    forall q, alloc_live (k_heap k) q -> q <> p -> same_block (k_heap k) h q.

(** What the history does not touch. *)
Definition same_line (sh sh' : shell) : Prop :=
  sh_buffer sh' = sh_buffer sh /\ buffer_pos sh' = buffer_pos sh /\
  history_index sh' = history_index sh /\ cwd sh' = cwd sh /\ sh_state sh' = sh_state sh.

Section History.
Context `{!Allocator H} {F : Type} (api : file_api F).
Variable free_string : Z -> kernel H -> option (kernel H).
Hypothesis free_returns : frees free_string.
Implicit Types (k : kernel H) (sh : shell) (f : F).

Lemma history_strings_length sh : history_wf sh -> length (history_strings sh) = history_count sh.
Proof using Type. intros (Hl & Hc & _). unfold history_strings. rewrite length_fmap, length_take. lia. Qed.

Lemma history_slot sh i :
  history_wf sh -> (i < history_count sh)%nat ->
  exists p s, history sh !! i = Some (p, s) /\ p <> 0 /\ text s /\ history_strings sh !! i = Some s.
Proof using Type.
  intros (Hl & Hc & Hall) Hi. destruct (history sh !! i) as [[p s]|] eqn:E.
  2: { apply lookup_ge_None in E. lia. }
  assert (take (history_count sh) (history sh) !! i = Some (p, s)) as Ht by (by rewrite lookup_take_lt).
  pose proof (proj1 (Forall_lookup _ _) Hall i _ Ht) as [Hp Hs]. exists p, s. split_and!; try done.
  unfold history_strings. by rewrite list_lookup_fmap, Ht.
Qed.

Lemma slot_string_spec sh i s :
  history_wf sh -> history_strings sh !! i = Some s -> slot_string i sh = Some s /\ text s.
Proof using Type.
  intros Hwf Hs. assert (i < history_count sh)%nat as Hi.
  { rewrite <- (history_strings_length sh Hwf). by apply lookup_lt_Some in Hs. }
  destruct (history_slot sh i Hwf Hi) as (p & s' & E & Hp & Ht & Hs'). rewrite Hs in Hs'. injection Hs' as <-.
  unfold slot_string. rewrite E. simpl. rewrite (proj2 (Z.eqb_neq _ _)) by done. done.
Qed.

Lemma slot_kept (h h' : H) slot : same_block h h' (fst slot) -> alloc_live h' (fst slot) ->
  slot_in_heap h slot -> slot_in_heap h' slot.
Proof using Type.
  intros Hs Hl (_ & Hr & Hb). split_and!; [done|by rewrite (proj1 Hs)|].
  rewrite (same_block_read h h' (fst slot)); [done..|lia].
Qed.

(** A copy of [s]: the block is new, holds the string, and no other changed. *)
Lemma strdup_spec s k :
  alloc_wf (k_heap k) -> (length s <= SHELL_BUFFER_SIZE)%nat ->
  exists p ha, alloc (Z.of_nat (length (cstr s)) + 1) (k_heap k) = Some (p, ha) /\
    (p = 0 /\ ha = k_heap k /\ strdup s k = Some (0, [], set_k_heap ha k) \/
     p <> 0 /\ exists h, strdup s k = Some (p, cstr s, set_k_heap h k) /\ alloc_wf h /\
       ~ alloc_live (k_heap k) p /\ (forall q, alloc_live h q <-> alloc_live (k_heap k) q \/ q = p) /\
       (forall q, alloc_live (k_heap k) q -> same_block (k_heap k) h q) /\
       (Forall (in_u 8) (cstr s) -> slot_in_heap h (p, cstr s))).
Proof using Type.
  intros Hwf Hs. unfold strdup. rewrite <- strlen_cstr.
  assert (Hle : (length (cstr s) <= length s)%nat) by (unfold cstr; rewrite length_take; lia).
  assert (Hu : in_u 64 (Z.of_nat (length (cstr s)) + 1)) by (unfold in_u, SHELL_BUFFER_SIZE in *; lia).
  rewrite wrap_small by done. set (n := Z.of_nat (length (cstr s)) + 1) in *.
  destruct (alloc_spec n (k_heap k) Hwf Hu) as (p & ha & Ha & Hw & Hc). exists p, ha. split; [done|]. rewrite Ha.
  cbn [mbind option_bind]. destruct Hc as [[-> ->]|(Hp & _ & Hnew & Hl)]; [by left|right]. split; [done|].
  rewrite (proj2 (Z.eqb_neq _ _) Hp). eexists. split; [reflexivity|].
  destruct (alloc_room_spec n (k_heap k) p ha Hwf Hu Ha Hp) as [Hroom Hsame].
  assert (Hfit : n <= alloc_room ha p) by (apply Hroom; unfold n, SHELL_BUFFER_SIZE in *; lia).
  assert (Hlp : alloc_live ha p) by (apply Hl; by right).
  assert (Hb : Z.of_nat (length (cstr s ++ [0])) = n) by (rewrite length_app; unfold n; simpl; lia).
  destruct (poke_spec (cstr s ++ [0]) p p ha Hw Hlp) as (Hw' & Hl' & Hr'); [lia..|].
  split_and!; [done|done| | |].
  - intros q. by rewrite Hl', Hl.
  - intros q Hq. apply (same_block_trans _ ha); [split; apply Hsame, Hq|].
    apply poke_same_block with p; try done; try lia; [apply Hl; by left|]. intros ->. done.
  - intros Hu8. split_and!; [by apply Hl'| |].
    + cbn [fst snd]. rewrite Hr' by done. unfold n in *. lia.
    + cbn [fst snd]. replace (S (length (cstr s))) with (length (cstr s ++ [0])) by (rewrite length_app; simpl; lia).
      apply read_block_poke. apply Forall_app. split; [done|by repeat constructor].
Qed.

(** The slots that stay when a new one is needed, and the heap then: of ten
    slots the first is freed. *)
Definition kept_slots sh : list (Z * list Z) :=
  let slots := take (history_count sh) (history sh) in
  if (length slots =? SHELL_HISTORY_SIZE)%nat then drop 1 slots else slots.

Definition room_made sh k (h : H) : Prop :=
  if (history_count sh =? SHELL_HISTORY_SIZE)%nat
  then exists p s, history sh !! 0%nat = Some (p, s) /\ free_string p k = Some (set_k_heap h k)
  else h = k_heap k.

Lemma kept_strings sh : snd <$> kept_slots sh =
  (if (length (history_strings sh) =? SHELL_HISTORY_SIZE)%nat then drop 1 (history_strings sh) else history_strings sh).
Proof using Type. unfold kept_slots, history_strings. rewrite length_fmap. split_if; [by rewrite fmap_drop|done]. Qed.

Lemma make_room_spec sh k :
  history_wf sh -> history_in_heap sh (k_heap k) -> alloc_wf (k_heap k) -> exists sh' h,
    make_room free_string sh k = Some (sh', set_k_heap h k) /\ room_made sh k h /\
    length (history sh') = SHELL_HISTORY_SIZE /\ (history_count sh' < SHELL_HISTORY_SIZE)%nat /\ same_line sh sh' /\
    alloc_wf h /\ take (history_count sh') (history sh') = kept_slots sh /\
    history_count sh' = length (kept_slots sh) /\
    NoDup (fst <$> kept_slots sh) /\ Forall (slot_in_heap h) (kept_slots sh) /\
    Forall (fun slot => fst slot <> 0 /\ text (snd slot)) (kept_slots sh).
Proof.
  intros (Hl & Hc & Hall) [Hnd Hin] Hk. unfold make_room, kept_slots, room_made. cbv zeta.
  rewrite length_take, Nat.min_l by lia.
  destruct (Nat.eqb_spec (history_count sh) SHELL_HISTORY_SIZE) as [Hfull|Hroom].
  - rewrite Hfull in *. change (SHELL_HISTORY_SIZE - 1)%nat with 9%nat. rewrite take_ge in * by lia.
    destruct (history sh) as [|[p s] rest] eqn:E; [done|]. cbn [lookup list_lookup mbind option_bind drop].
    cbn [length] in Hl. assert (H9 : length rest = 9%nat) by (unfold SHELL_HISTORY_SIZE in Hl; lia).
    rewrite fmap_cons in Hnd. apply NoDup_cons in Hnd as [Hp Hnd]. apply Forall_cons in Hin as [Hs Hin].
    apply Forall_cons in Hall as [_ Hall]. cbn [fst] in Hp.
    destruct (free_returns p k Hk (proj1 Hs)) as (h & Hf & Hw & Hlive & Hsame). rewrite Hf. cbn [mbind option_bind].
    eexists _, h. split; [reflexivity|]. split; [by exists p, s|]. cbn [history history_count set_history].
    rewrite (take_ge ((p, s) :: rest)) by (cbn [length]; lia). cbn [drop].
    rewrite (take_ge rest) by lia. rewrite (take_app_le rest), (take_ge rest) by lia.
    split_and!; try done; try (unfold SHELL_HISTORY_SIZE; lia).
    + rewrite length_app, length_drop. unfold SHELL_HISTORY_SIZE. lia.
    + apply Forall_forall. intros slot Hslot. pose proof (proj1 (Forall_forall _ _) Hin slot Hslot) as Hsl.
      assert (fst slot <> p) as Hne by (intros <-; apply Hp, list_elem_of_fmap; by exists slot).
      apply (slot_kept (k_heap k)); [apply Hsame; [apply Hsl|done]|apply Hlive; split; [apply Hsl|done]|done].
  - exists sh, (k_heap k). split; [by destruct k|]. split_and!; try done; [lia|].
    rewrite length_take. lia.
Qed.

(** What [shell_add_to_history] does with a string that is not the last one. *)
Definition pushed s sh k sh' k' : Prop :=
  exists p h1 ha h2, room_made sh k h1 /\ alloc (Z.of_nat (length s) + 1) h1 = Some (p, ha) /\
    k' = set_k_heap h2 k /\ alloc_wf h2 /\
    history_count sh' = S (length (kept_slots sh)) /\
    take (length (kept_slots sh)) (history sh') = kept_slots sh /\
    if p =? 0 then h2 = h1 /\ history sh' !! length (kept_slots sh) = Some (0, [])
    else history sh' !! length (kept_slots sh) = Some (p, s) /\ history_wf sh' /\
      history_strings sh' = push_history s (history_strings sh) /\
      ~ alloc_live h1 p /\ (forall q, alloc_live h2 q <-> alloc_live h1 q \/ q = p) /\
      (forall q, alloc_live h1 q -> same_block h1 h2 q) /\
      (Forall (in_u 8) s -> history_in_heap sh' h2).

Lemma add_to_history_spec command s sh k :
  history_wf sh -> history_in_heap sh (k_heap k) -> alloc_wf (k_heap k) -> cstr command = s -> s <> [] ->
  (length command <= SHELL_BUFFER_SIZE)%nat -> (length s < SHELL_BUFFER_SIZE)%nat ->
  exists sh' k', shell_add_to_history free_string command sh k = Some (sh', k') /\ same_line sh sh' /\
    if bool_decide (last (history_strings sh) = Some s) then sh' = sh /\ k' = k else pushed s sh k sh' k'.
Proof.
  intros Hwf Hin Hk Hs Hne Hlen Hlen2. unfold shell_add_to_history.
  rewrite <- strlen_cstr, Hs. rewrite (proj2 (Nat.eqb_neq _ _)) by (by destruct s).
  assert (Hlast : (if (0 <? history_count sh)%nat
                   then last ← slot_string (history_count sh - 1) sh; Some (strcmp last command =? 0)
                   else Some false) = Some (bool_decide (last (history_strings sh) = Some s))).
  { rewrite last_lookup, (history_strings_length sh Hwf). destruct (Nat.ltb_spec 0 (history_count sh)).
    - destruct (history_slot sh (history_count sh - 1) Hwf ltac:(lia)) as (p & s' & E & Hp & (_ & Hnz & _) & Hs').
      rewrite (proj1 (slot_string_spec sh _ _ Hwf Hs')). simpl. f_equal.
      replace (pred (history_count sh)) with (history_count sh - 1)%nat by lia. rewrite Hs'.
      destruct (Z.eqb_spec (strcmp s' command) 0) as [E0|E0]; rewrite strcmp_eq, Hs, cstr_string in E0 by done;
        symmetry; [apply bool_decide_eq_true; congruence|apply bool_decide_eq_false; congruence].
    - replace (history_count sh) with O by lia. unfold history_strings. by replace (history_count sh) with O by lia. }
  rewrite Hlast. simpl mbind. destruct (bool_decide _) eqn:Elast; [by exists sh, k|].
  destruct (make_room_spec sh k Hwf Hin Hk) as (sh1 & h1 & -> & Hmade & Hl1 & Hc1 & Hsame & Hw1 & Htake & Hcount & Hnd & Hslots & Hall).
  cbn [mbind option_bind].
  destruct (strdup_spec command (set_k_heap h1 k) Hw1 Hlen) as (p & ha & Ha & Hcase). rewrite Hs in *.
  cbn [k_heap set_k_heap] in Ha, Hcase. set (n := length (kept_slots sh)) in *. rewrite Hcount in *.
  assert (Hput : forall slot, take n (<[n := slot]> (history sh1)) = kept_slots sh)
    by (intros; by rewrite take_insert_ge by lia).
  destruct Hcase as [(-> & -> & ->)|(Hp & h2 & -> & Hw2 & Hnew & Hlive2 & Hsame2 & Hslot)]; cbn [mbind option_bind];
    (eexists _, _; split; [reflexivity|]; split; [exact Hsame|]).
  - exists 0, h1, h1, h1. cbn [history history_count set_history Z.eqb].
    split_and!; try done. apply list_lookup_insert_eq. lia.
  - exists p, h1, ha, h2. cbn [history history_count set_history]. rewrite (proj2 (Z.eqb_neq _ _) Hp).
    split; [done|]. split; [done|]. split; [done|]. split; [done|]. split; [done|]. split; [apply Hput|].
    assert (Hall' : take (S n) (<[n := (p, s)]> (history sh1)) = kept_slots sh ++ [(p, s)]).
    { rewrite (take_S_r _ _ (p, s)) by (apply list_lookup_insert_eq; lia). by rewrite Hput. }
    split; [apply list_lookup_insert_eq; lia|]. split; [|split; [|split; [done|split; [done|split; [done|]]]]].
    + unfold history_wf. cbn [history history_count set_history]. rewrite length_insert, Hall'.
      split; [done|]. split; [lia|]. apply Forall_app. split; [done|]. constructor; [|done]. split; [done|].
      split; [done|]. split; [|done]. rewrite <- Hs. apply cstr_nonzero.
    + unfold push_history. rewrite Elast, <- kept_strings. unfold history_strings at 1.
      cbn [history history_count set_history]. by rewrite Hall', fmap_app.
    + intros Hu8. unfold history_in_heap. cbn [history history_count set_history]. rewrite Hall'.
      split; [rewrite fmap_app; apply NoDup_app|apply Forall_app].
      * split; [done|]. split; [|apply NoDup_singleton]. intros q (slot & -> & Hslot')%list_elem_of_fmap.
        pose proof (proj1 (Forall_forall _ _) Hslots slot Hslot') as (Hlq & _).
        intros Hq. apply list_elem_of_singleton in Hq. cbn in Hq. by rewrite Hq in Hlq.
      * split; [|constructor; [by apply Hslot|done]]. eapply Forall_impl; [exact Hslots|]. intros slot Hsl.
        apply (slot_kept h1); [apply Hsame2, Hsl|apply Hlive2; left; apply Hsl|done].
Qed.

(** The weaker summary that the callers use. *)
Lemma pushed_or_lost command s sh k :
  history_wf sh -> history_in_heap sh (k_heap k) -> alloc_wf (k_heap k) -> cstr command = s -> s <> [] ->
  (length command <= SHELL_BUFFER_SIZE)%nat -> (length s < SHELL_BUFFER_SIZE)%nat ->
  exists sh' k', shell_add_to_history free_string command sh k = Some (sh', k') /\ same_line sh sh' /\
    (history_wf sh' /\ history_strings sh' = push_history s (history_strings sh) \/ history_lost sh').
Proof.
  intros Hwf Hin Hk Hs Hne Hlen Hlen2.
  destruct (add_to_history_spec command s sh k Hwf Hin Hk Hs Hne Hlen Hlen2) as (sh' & k' & Hadd & Hsame & Hr).
  exists sh', k'. split; [done|]. split; [done|]. unfold push_history.
  destruct (bool_decide _) eqn:E; [destruct Hr as [-> _]; by left|].
  destruct Hr as (p & h1 & ha & h2 & _ & _ & _ & _ & Hc & _ & Hr). destruct (p =? 0).
  - right. split; [lia|]. rewrite Hc. replace (S _ - 1)%nat with (length (kept_slots sh)) by lia. apply Hr.
  - left. destruct Hr as (_ & Hwf' & Hstr & _). split; [done|]. rewrite Hstr. unfold push_history. by rewrite E.
Qed.
End History.

(** ** Moving through the history *)

(** The slot after an arrow: [None] is the empty line. *)
Definition older (count : nat) (index : option nat) : option nat :=
  match index with None => Some (count - 1)%nat | Some i => Some (i - 1)%nat end.

Definition newer (count : nat) (index : option nat) : option nat :=
  match index with
  | None => None
  | Some i => if (S i <? count)%nat then Some (S i) else None
  end.

Definition index_of (sh : shell) (index : option nat) : Prop :=
  match index with
  | None => history_index sh = -1
  | Some i => history_index sh = Z.of_nat i /\ (i < history_count sh)%nat
  end.

#[export] Hint Resolve screen_only_refl screen_only_kprint screen_only_kprint_bytes screen_only_kputchar
  screen_only_setcolor screen_only_iter screen_only_put_tail : curnel.

Section Navigation.
Context {H : Type} {F : Type} (api : file_api F).
Implicit Types (k : kernel H) (sh : shell) (f : F).

Definition same_history sh sh' : Prop :=
  history sh' = history sh /\ history_count sh' = history_count sh /\ sh_state sh' = sh_state sh.

Lemma same_history_strings sh sh' : same_history sh sh' -> history_strings sh' = history_strings sh.
Proof. intros (H1 & H2 & _). unfold history_strings. by rewrite H1, H2. Qed.

Lemma same_history_wf sh sh' : same_history sh sh' -> history_wf sh -> history_wf sh'.
Proof. intros (H1 & H2 & _). unfold history_wf. by rewrite H1, H2. Qed.

Lemma prompt_spec sh k f :
  exists sh' k', shell_print_prompt api sh k f = (sh', k') /\ same_history sh sh' /\
    sh_buffer sh' = sh_buffer sh /\ buffer_pos sh' = buffer_pos sh /\ history_index sh' = history_index sh /\
    screen_only k k'.
Proof. do 2 eexists. split; [reflexivity|]. do 4 (split; [done|]). eauto 10 with curnel. Qed.

Lemma screen_only_iter_pad n k k' : screen_only k k' -> screen_only k (pad n k').
Proof. apply screen_only_iter. Qed.

Lemma redraw_spec sh k f :
  exists sh' k', redraw api sh k f = (sh', k') /\ same_history sh sh' /\
    sh_buffer sh' = sh_buffer sh /\ buffer_pos sh' = buffer_pos sh /\ history_index sh' = history_index sh /\
    screen_only k k'.
Proof.
  unfold redraw.
  destruct (prompt_spec sh (kprint cr (pad (buffer_pos sh + strlen (cwd sh) + 4) (kprint cr k))) f)
    as (sh' & k' & -> & Hr & Hb & Hp & Hi & Hk).
  exists sh', k'. do 5 (split; [done|]). eapply screen_only_trans; [|exact Hk].
  apply screen_only_kprint, screen_only_iter_pad, screen_only_kprint, screen_only_refl.
Qed.

Lemma load_history_spec i s sh k :
  history_wf sh -> history_strings sh !! i = Some s -> length (sh_buffer sh) = SHELL_BUFFER_SIZE ->
  exists sh' k', load_history i sh k = Some (sh', k') /\ holds sh' s [] /\ same_history sh sh' /\
    history_index sh' = history_index sh /\ screen_only k k'.
Proof.
  intros Hwf Hs Hlen. destruct (slot_string_spec sh i s Hwf Hs) as [Hslot (Hne & Hnz & Hb)].
  unfold load_history. rewrite Hslot. cbn [mbind option_bind].
  rewrite <- strlen_cstr, cstr_string by done. rewrite (proj2 (Nat.leb_gt _ _)) by done.
  do 2 eexists. split; [reflexivity|]. split; [|do 2 (split; [done|]); eauto with curnel].
  unfold holds. cbn [sh_buffer buffer_pos set_buffer set_buffer_pos]. rewrite app_nil_r.
  split; [done|]. split.
  { rewrite <- strlen_cstr, cstr_app by (done || by right). done. }
  split; [|eexists; reflexivity].
  rewrite !length_app, length_drop, Hlen. cbn [length]. lia.
Qed.

Lemma up_arrow_spec sh k f l r index :
  history_wf sh -> holds sh l r -> index_of sh index -> (0 < history_count sh)%nat ->
  exists sh' k', shell_handle_up_arrow api sh k f = Some (sh', k') /\ same_history sh sh' /\
    index_of sh' (older (history_count sh) index) /\ screen_only k k' /\
    (index = Some 0%nat /\ sh' = sh \/
     exists i s, older (history_count sh) index = Some i /\ history_strings sh !! i = Some s /\ holds sh' s []).
Proof.
  intros Hwf Hl Hidx Hc. unfold shell_handle_up_arrow. rewrite (proj2 (Nat.eqb_neq _ _)) by lia.
  destruct (decide (index = Some 0%nat)) as [->|Hne].
  { destruct Hidx as [Hi0 Hi]. rewrite Hi0. exists sh, k. split; [done|]. split; [done|]. split; [split; done|].
    split; [apply screen_only_refl|by left]. }
  destruct (older (history_count sh) index) as [i|] eqn:Ei; [|by destruct index].
  assert ((if history_index sh =? -1 then Some (Z.of_nat (history_count sh) - 1)
           else if 0 <? history_index sh then Some (history_index sh - 1) else None) = Some (Z.of_nat i) /\
          (i < history_count sh)%nat) as [-> Hi].
  { destruct index as [j|]; simpl in Hidx, Ei; injection Ei as <-.
    - destruct Hidx as [-> Hj]. destruct j as [|j]; [done|]. rewrite (proj2 (Z.eqb_neq _ _)) by lia.
      rewrite (proj2 (Z.ltb_lt _ _)) by lia. split; [f_equal|]; lia.
    - rewrite Hidx. simpl. split; [f_equal|]; lia. }
  destruct (redraw_spec (set_history_index (Z.of_nat i) sh) k f) as (sh1 & k1 & -> & Hs1 & Hb1 & _ & Hi1 & Hk1).
  assert (history_wf sh1) as Hwf1 by (eapply same_history_wf; [exact Hs1|exact Hwf]).
  pose proof (same_history_strings _ _ Hs1) as Hstr1.
  destruct (history_slot sh i Hwf Hi) as (p & s & _ & _ & _ & Hs). rewrite Nat2Z.id.
  destruct (load_history_spec i s sh1 k1 Hwf1) as (sh' & k' & -> & Hh & Hs' & Hi' & Hk').
  { rewrite Hstr1. exact Hs. }
  { rewrite Hb1. apply Hl. }
  exists sh', k'. destruct Hs1 as (A1 & B1 & C1), Hs' as (A2 & B2 & C2).
  split; [done|]. split; [split; [|split]; [rewrite A2, A1|rewrite B2, B1|rewrite C2, C1]; done|].
  split; [split; [by rewrite Hi', Hi1|rewrite B2, B1; exact Hi]|]. split; [by eapply screen_only_trans|].
  right. by exists i, s.
Qed.

Lemma clear_holds sh : holds (shell_clear_buffer sh) [] [].
Proof. split; [constructor|]. do 2 (split; [done|]). by eexists (replicate 255 0). Qed.

Lemma down_arrow_spec sh k f l r index :
  history_wf sh -> holds sh l r -> index_of sh index -> (0 < history_count sh)%nat ->
  exists sh' k', shell_handle_down_arrow api sh k f = Some (sh', k') /\ same_history sh sh' /\
    index_of sh' (newer (history_count sh) index) /\ screen_only k k' /\
    match newer (history_count sh) index with
    | Some i => exists s, history_strings sh !! i = Some s /\ holds sh' s []
    | None => index = None /\ sh' = sh \/ holds sh' [] []
    end.
Proof.
  intros Hwf Hl Hidx Hc. unfold shell_handle_down_arrow. rewrite (proj2 (Nat.eqb_neq _ _)) by lia.
  destruct index as [j|]; cbn [newer index_of] in Hidx |- *.
  2: { rewrite Hidx. exists sh, k. split; [done|]. split; [done|]. split; [done|].
       split; [apply screen_only_refl|by left]. }
  destruct Hidx as [Hj Hjc]. rewrite Hj, (proj2 (Z.eqb_neq _ _)) by lia. cbn [orb].
  destruct (Nat.ltb_spec (S j) (history_count sh)) as [Hlt|Hge].
  - rewrite (proj2 (Z.ltb_lt _ _)) by lia. cbv zeta.
    destruct (redraw_spec (set_history_index (Z.of_nat j + 1) sh) k f) as (sh1 & k1 & -> & Hs1 & Hb1 & _ & Hi1 & Hk1).
    assert (history_wf sh1) as Hwf1 by (eapply same_history_wf; [exact Hs1|exact Hwf]).
    destruct (history_slot sh (S j) Hwf Hlt) as (p & s & _ & _ & _ & Hs).
    replace (Z.to_nat (Z.of_nat j + 1)) with (S j) by lia.
    destruct (load_history_spec (S j) s sh1 k1 Hwf1) as (sh' & k' & -> & Hh & Hs' & Hi' & Hk').
    { rewrite (same_history_strings _ _ Hs1). exact Hs. }
    { rewrite Hb1. apply Hl. }
    exists sh', k'. destruct Hs1 as (A1 & B1 & C1), Hs' as (A2 & B2 & C2).
    split; [done|]. split; [split; [|split]; [rewrite A2, A1|rewrite B2, B1|rewrite C2, C1]; done|].
    split; [split; [rewrite Hi', Hi1; cbn [history_index set_history_index]; lia|rewrite B2, B1; exact Hlt]|].
    split; [by eapply screen_only_trans|]. by exists s.
  - rewrite (proj2 (Z.ltb_ge _ _)) by lia.
    destruct (redraw_spec (set_history_index (-1) sh) k f) as (sh1 & k1 & -> & Hs1 & _ & _ & _ & Hk1).
    exists (shell_clear_buffer sh1), k1. split; [done|]. split; [done|]. split; [done|]. split; [done|].
    right. apply clear_holds.
Qed.

(** The up arrow pressed [n] times. *)
Fixpoint up_arrows (n : nat) sh k f : option (shell * kernel H) :=
  match n with
  | O => Some (sh, k)
  | S n' => '(sh, k) ← shell_handle_up_arrow api sh k f; up_arrows n' sh k f
  end.

Lemma up_arrows_spec n sh k f l r i :
  history_wf sh -> holds sh l r -> index_of sh (Some i) -> history_strings sh !! i = Some l -> r = [] -> (n <= i)%nat ->
  exists sh' k' s, up_arrows n sh k f = Some (sh', k') /\ same_history sh sh' /\ screen_only k k' /\
    history_strings sh !! (i - n)%nat = Some s /\ holds sh' s [].
Proof.
  revert sh k l r i. induction n as [|n IH]; intros sh k l r i Hwf Hl Hi Hs -> Hn; cbn [up_arrows].
  { exists sh, k, l. rewrite Nat.sub_0_r. split; [done|]. split; [done|]. split; [apply screen_only_refl|done]. }
  destruct (up_arrow_spec sh k f l [] (Some i) Hwf Hl Hi) as (sh1 & k1 & -> & Hh1 & Hi1 & Hk1 & Hcase).
  { destruct Hi. lia. }
  destruct Hcase as [[[= ->] _]|(j & s & [= <-] & Hs1 & Hl1)]; [lia|]. cbn [mbind option_bind].
  destruct (IH sh1 k1 s [] (i - 1)%nat) as (sh2 & k2 & s2 & -> & Hh2 & Hk2 & Hs2 & Hl2); try done; try lia.
  { by eapply same_history_wf. }
  { by rewrite (same_history_strings _ _ Hh1). }
  exists sh2, k2, s2. split; [done|]. destruct Hh1 as (A1 & B1 & C1), Hh2 as (A2 & B2 & C2).
  split; [split_and!; congruence|]. split; [by eapply screen_only_trans|]. split; [|done].
  rewrite <- Hs2. replace (i - S n)%nat with (i - 1 - n)%nat by lia. unfold history_strings. by rewrite A1, B1.
Qed.
End Navigation.

(** ** The line after a command *)

Section First_word.
Lemma parse_line_head line :
  let line' := snd (parse_command_line line 64) in
  match cstr line with
  | [] => cstr line' = []
  | c :: _ => if is_blank c then exists t, cstr line' = c :: t else cstr line' = word (cstr line)
  end.
Proof.
  destruct (cstr_split line) as (rest & Hline & Hrest). pose proof (cstr_nonzero line) as Hs.
  remember (cstr line) as s eqn:Es. clear Es. subst line. unfold parse_command_line.
  destruct s as [|c s].
  { destruct (parse_loop_spec [] rest Hs Hrest (length ([] ++ rest)) [] [] false 64 63)
      as (s' & new & Hp & Hl & _ & _); [simpl; lia|done|].
    simpl in Hp, Hl |- *. rewrite Hp. apply length_zero_iff_nil in Hl as ->. by apply cstr_ended. }
  pose proof (Forall_inv Hs) as Hc. pose proof (Forall_inv_tail Hs) as Hs'.
  simpl length. simpl parse_loop. change (char_at (c :: s ++ rest) 0) with c.
  rewrite (proj2 (Z.eqb_neq _ _)) by done. cbn [negb andb]. destruct (is_blank c) eqn:Eb.
  - destruct (parse_loop_spec s rest Hs' Hrest (length (s ++ rest)) [c] [] false 64 63)
      as (s' & new & Hp & _); [rewrite length_app; lia|done|].
    change ([c] ++ s ++ rest) with (c :: s ++ rest) in Hp. change (length [c]) with 1%nat in Hp. rewrite Hp.
    exists (cstr (s' ++ rest)). simpl. by rewrite cstr_cons, (proj2 (Z.eqb_neq _ _)) by done.
  - destruct (parse_loop_spec s rest Hs' Hrest (length (s ++ rest)) [c] [0%nat] true 64 62)
      as (s' & new & Hp & _ & _ & Hw); [rewrite length_app; lia|done|].
    change ([c] ++ s ++ rest) with (c :: s ++ rest) in Hp. change (length [c]) with 1%nat in Hp. 
    change ([] ++ [0%nat]) with [0%nat]. rewrite Hp. simpl. rewrite cstr_cons, (proj2 (Z.eqb_neq _ _)), Eb by done.
    by rewrite (Hw eq_refl).
Qed.

(** The test of the shell for [exit]. *)
Lemma exit_test line :
  (strcmp (snd (parse_command_line line 64)) (bytes_of "exit") =? 0) = bool_decide (word (cstr line) = bytes_of "exit").
Proof.
  pose proof (parse_line_head line) as Hh. cbv zeta in Hh.
  destruct (Z.eqb_spec (strcmp (snd (parse_command_line line 64)) (bytes_of "exit")) 0) as [E|E];
    rewrite strcmp_eq in E; change (cstr (bytes_of "exit")) with (bytes_of "exit") in E; symmetry.
  - apply bool_decide_eq_true. rewrite E in Hh. destruct (cstr line) as [|c s]; [done|].
    destruct (is_blank c) eqn:Eb; [|by rewrite <- Hh]. destruct Hh as (t & [= <- _]). done.
  - apply bool_decide_eq_false. intros Hw. apply E. destruct (cstr line) as [|c s]; [done|].
    destruct (is_blank c) eqn:Eb; [|by rewrite Hh]. simpl in Hw. by rewrite Eb in Hw.
Qed.
End First_word.

Section Enter.
Context `{!Allocator H} {F : Type} (api : file_api F) (keys : shell_keys).
Variable call_handler : Z -> Z -> kernel H -> option (kernel H).
Variable wait_timer : kernel H -> option (kernel H).
Variable fuel turns : nat.
Variable stack_buffer : list Z.
Variable free_string : Z -> kernel H -> option (kernel H).
Hypothesis free_returns : frees free_string.
Implicit Types (k : kernel H) (sh : shell) (f : F).

#[local] Abbreviation execute := (shell_execute_command api call_handler wait_timer fuel turns stack_buffer free_string).

Lemma execute_command_line line k f r line' st :
  execute_command api call_handler wait_timer fuel turns stack_buffer line k f = Some (r, line', st) ->
  line' = snd (parse_command_line line 64).
Proof using Type.
  unfold execute_command. destruct (parse_command_line line 64) as [argv l]. simpl.
  destruct (string_at l <$> argv) as [|name words]; [by intros [= _ <- _]|].
  destruct (find_command name) as [cmd|]; [|by intros [= _ <- _]].
  intros Hr. simp_bind. destruct x as [r' st']. by injection H1 as _ <- _.
Qed.

Lemma cut_line sh l r :
  holds sh l r -> cstr (<[buffer_pos sh := 0]> (sh_buffer sh)) = l /\
    length (<[buffer_pos sh := 0]> (sh_buffer sh)) = SHELL_BUFFER_SIZE.
Proof using Type.
  intros (Hnz & Hpos & Hlen & rest & Hb). rewrite Hpos, length_insert. split; [|done].
  rewrite Hb, <- app_assoc, insert_app_r_alt, Nat.sub_diag by lia. apply Forall_app in Hnz as [Hl _].
  apply cstr_app; [done|]. right. by destruct r.
Qed.

(** A command that returns: what it leaves in the history and of the state. *)
Lemma execute_spec sh k f l r sh' st :
  holds sh l r -> l <> [] -> history_wf sh -> history_in_heap sh (k_heap k) -> alloc_wf (k_heap k) ->
  execute sh k f = Some (sh', st) ->
  (history_wf sh' /\ history_strings sh' = push_history l (history_strings sh) \/ history_lost sh') /\
  sh_state sh' = (if bool_decide (word l = bytes_of "exit") then SHELL_STATE_EXIT else sh_state sh).
Proof.
  intros Hl Hne Hwf Hin Hk Hex. destruct (cut_line sh l r Hl) as [Hcut Hlen].
  pose proof (holds_bound _ _ _ Hl) as Hbound. pose proof Hl as (_ & Hpos & _).
  unfold shell_execute_command in Hex. cbn [buffer_pos set_buffer] in Hex.
  rewrite Hpos in Hex at 1. rewrite (proj2 (Nat.eqb_neq _ _)) in Hex by (by destruct l).
  cbn [sh_buffer set_buffer] in Hex. set (line := <[buffer_pos sh := 0]> (sh_buffer sh)) in *.
  destruct (pushed_or_lost free_string free_returns line l (set_buffer line sh) k)
    as (sh1 & k1 & Hadd & (Hb1 & _ & _ & _ & Hst1) & Hhist); try done; [lia|lia|].
  rewrite Hadd in Hex. cbn [mbind option_bind] in Hex.
  apply bind_Some in Hex as ([[result line'] [k2 f2]] & Hcmd & Hex). injection Hex as <- <-.
  apply execute_command_line in Hcmd. rewrite Hb1 in Hcmd. cbn [sh_buffer set_buffer] in Hcmd.
  cbn [sh_buffer set_buffer] . subst line'. rewrite exit_test, Hcut.
  split; [by destruct (bool_decide (word l = bytes_of "exit"))|].
  destruct (bool_decide (word l = bytes_of "exit")); [done|]. cbn [sh_state set_buffer]. by rewrite Hst1.
Qed.
End Enter.

(** ** The keys *)

(** The line is in the buffer, the history is sound, the index is in it. *)
Definition shell_wf (sh : shell) : Prop :=
  (exists l r, holds sh l r) /\ history_wf sh /\
  (history_count sh = 0%nat \/ exists index, index_of sh index).

Section Keys.
Context `{!Allocator H} {F : Type} (api : file_api F) (keys : shell_keys).
Variable call_handler : Z -> Z -> kernel H -> option (kernel H).
Variable wait_timer : kernel H -> option (kernel H).
Variable fuel turns : nat.
Variable stack_buffer : list Z.
Variable free_string : Z -> kernel H -> option (kernel H).
Implicit Types (k : kernel H) (sh : shell) (f : F).

#[local] Abbreviation press := (shell_key api keys call_handler wait_timer fuel turns stack_buffer free_string).
#[local] Abbreviation loop := (shell_loop api keys call_handler wait_timer fuel turns stack_buffer free_string).

(** What a key that is not Enter does to the rest of the kernel and shell. *)
Definition quiet sh sh' k k' : Prop :=
  shell_wf sh' /\ history_strings sh' = history_strings sh /\ screen_only k k'.

Lemma wf_same_history sh sh' l r :
  shell_wf sh -> history sh' = history sh -> history_count sh' = history_count sh ->
  history_index sh' = history_index sh -> holds sh' l r ->
  shell_wf sh' /\ history_strings sh' = history_strings sh.
Proof using Type.
  intros (_ & Hh & Hi) E1 E2 E3 Hl. unfold shell_wf, history_wf, history_strings. rewrite E1, E2.
  split; [|done]. split; [by exists l, r|]. split; [exact Hh|].
  destruct Hi as [Hi|(index & Hi)]; [by left|]. right. exists index. destruct index; simpl in *; by rewrite E3, ?E2.
Qed.

Lemma edit_quiet e sh k :
  shell_wf sh -> e <> Insert 0 ->
  exists sh' k', do_edit e sh k = Some (sh', k') /\ quiet sh sh' k k'.
Proof using Type.
  intros Hwf He. pose proof Hwf as ((l & r & Hl) & _).
  destruct (do_edit_holds e sh k l r) as (sh' & k' & -> & Hl' & (E1 & E2 & E3 & _) & Hk'); [|done|].
  { intros c -> ->. done. }
  destruct (wf_same_history sh sh' _ _ Hwf E1 E2 E3 Hl') as [Hwf' Hs']. exists sh', k'. by split.
Qed.

Lemma wf_clear sh : shell_wf sh -> shell_wf (shell_clear_buffer sh).
Proof using Type.
  intros (_ & Hh & _). split; [exists [], []; apply clear_holds|]. split; [exact Hh|]. right. by exists None.
Qed.

(** A cleared line and a new prompt. *)
Lemma clear_prompt_quiet sh k0 k f :
  shell_wf sh -> screen_only k0 k ->
  exists sh' k', shell_print_prompt api (shell_clear_buffer sh) k f = (sh', k') /\ quiet sh sh' k0 k'.
Proof using Type.
  intros Hwf Hk. destruct (prompt_spec api (shell_clear_buffer sh) k f) as (sh' & k' & -> & Hh & Hb & Hp & Hi & Hk').
  exists sh', k'. split; [done|]. destruct Hh as (E1 & E2 & E3).
  destruct (wf_same_history (shell_clear_buffer sh) sh' [] [] (wf_clear sh Hwf) E1 E2 Hi) as [Hwf' Hs'].
  { pose proof (clear_holds sh) as Hc. unfold holds in *. by rewrite Hb, Hp. }
  split; [done|]. split; [done|]. by eapply screen_only_trans.
Qed.

(** An arrow in the history. *)
Lemma arrow_quiet sh sh' k k' l r index :
  shell_wf sh -> same_history sh sh' -> index_of sh' index -> screen_only k k' ->
  (sh' = sh \/ holds sh' l r) -> quiet sh sh' k k'.
Proof using Type.
  intros Hwf Hh Hi Hk Hl. split; [|split; [by apply same_history_strings|done]].
  destruct Hl as [->|Hl]; [done|]. destruct Hwf as (_ & Hwf & _). split; [by exists l, r|].
  split; [by eapply same_history_wf|]. right. by exists index.
Qed.

Lemma up_quiet sh k f :
  shell_wf sh -> exists sh' k', shell_handle_up_arrow api sh k f = Some (sh', k') /\ quiet sh sh' k k'.
Proof using Type.
  intros Hwf. pose proof Hwf as ((l & r & Hl) & Hh & Hi).
  destruct (decide (history_count sh = 0%nat)) as [H0|Hc].
  { exists sh, k. unfold shell_handle_up_arrow. rewrite H0. split; [done|]. do 2 (split; [done|]). apply screen_only_refl. }
  destruct Hi as [Hi|(index & Hi)]; [done|].
  destruct (up_arrow_spec api sh k f l r index Hh Hl Hi ltac:(lia)) as (sh' & k' & Hup & Hs & Hi' & Hk & Hcase).
  exists sh', k'. split; [exact Hup|].
  destruct Hcase as [[_ ->]|(i & s & _ & _ & Hl')];
    [by apply (arrow_quiet sh sh k k' [] [] _ Hwf Hs Hi' Hk); left|].
  by apply (arrow_quiet sh sh' k k' s [] _ Hwf Hs Hi' Hk); right.
Qed.

Lemma down_quiet sh k f :
  shell_wf sh -> exists sh' k', shell_handle_down_arrow api sh k f = Some (sh', k') /\ quiet sh sh' k k'.
Proof using Type.
  intros Hwf. pose proof Hwf as ((l & r & Hl) & Hh & Hi).
  destruct (decide (history_count sh = 0%nat)) as [H0|Hc].
  { exists sh, k. unfold shell_handle_down_arrow. rewrite H0. split; [done|]. do 2 (split; [done|]). apply screen_only_refl. }
  destruct Hi as [Hi|(index & Hi)]; [done|].
  destruct (down_arrow_spec api sh k f l r index Hh Hl Hi ltac:(lia)) as (sh' & k' & Hup & Hs & Hi' & Hk & Hcase).
  exists sh', k'. split; [exact Hup|]. destruct (newer (history_count sh) index) as [i|].
  - destruct Hcase as (s & _ & Hl'). by apply (arrow_quiet sh sh' k k' s [] _ Hwf Hs Hi' Hk); right.
  - destruct Hcase as [[_ ->]|Hl']; [by apply (arrow_quiet sh sh k k' [] [] _ Hwf Hs Hi' Hk); left|].
    by apply (arrow_quiet sh sh' k k' [] [] _ Hwf Hs Hi' Hk); right.
Qed.

Lemma quiet_same sh k k' : shell_wf sh -> screen_only k k' -> quiet sh sh k k'.
Proof using Type. intros Hwf Hk. by split. Qed.

Lemma key_quiet e sh k f :
  shell_wf sh -> pressed e = true -> key e <> KEY_ENTER ->
  exists sh' k', press e sh k f = Some (sh', (k', f)) /\ quiet sh sh' k k'.
Proof using Type.
  intros Hwf Hp He. unfold shell_key. rewrite Hp, (proj2 (Z.eqb_neq _ _) He). cbn [negb].
  destruct (key e =? KEY_BACKSPACE).
  { destruct (edit_quiet Backspace sh k Hwf ltac:(done)) as (sh' & k' & Hop & Hq). cbn [do_edit] in Hop.
    rewrite Hop. by exists sh', k'. }
  destruct (key e =? KEY_ARROW_UP keys).
  { destruct (up_quiet sh k f Hwf) as (sh' & k' & -> & Hq). by exists sh', k'. }
  destruct (key e =? KEY_ARROW_DOWN keys).
  { destruct (down_quiet sh k f Hwf) as (sh' & k' & -> & Hq). by exists sh', k'. }
  destruct (key e =? KEY_ARROW_LEFT keys).
  { destruct (edit_quiet Left sh k Hwf ltac:(done)) as (sh' & k' & [= ->] & Hq). by exists sh', k'. }
  destruct (key e =? KEY_ARROW_RIGHT keys).
  { destruct (edit_quiet Right sh k Hwf ltac:(done)) as (sh' & k' & [= ->] & Hq). by exists sh', k'. }
  destruct (key e =? KEY_TAB).
  { destruct (edit_quiet (Insert 0x20) sh k Hwf ltac:(done)) as (sh' & k' & [= ->] & Hq). by exists sh', k'. }
  destruct (key e =? KEY_ESCAPE keys).
  { destruct (clear_prompt_quiet sh k (kprint cr k) f Hwf) as (sh' & k' & -> & Hq); [eauto with curnel|].
    by exists sh', k'. }
  destruct (key e =? KEY_CTRL_C keys).
  { destruct (clear_prompt_quiet sh k (kprint ("^C" +:+ nl) k) f Hwf) as (sh' & k' & -> & Hq); [eauto with curnel|].
    by exists sh', k'. }
  destruct (key e =? KEY_CTRL_D keys).
  { destruct (buffer_pos sh =? 0)%nat.
    - do 2 eexists. split; [reflexivity|]. by apply (quiet_same sh); [|eauto with curnel].
    - do 2 eexists. split; [reflexivity|]. apply quiet_same; eauto with curnel. }
  destruct (Z.eqb_spec (ascii e) 0) as [E|E]; cbn [negb].
  - do 2 eexists. split; [reflexivity|]. apply quiet_same; eauto with curnel.
  - destruct (edit_quiet (Insert (ascii e)) sh k Hwf ltac:(congruence)) as (sh' & k' & [= ->] & Hq). by exists sh', k'.
Qed.
End Keys.

(** An empty shell on the kernel after boot. *)
Definition demo_shell : shell := set_history_index (-1) shell0.

Lemma demo_shell_wf : shell_wf demo_shell.
Proof.
  split; [exists [], []; by apply (clear_holds shell0)|]. split; [|by left].
  split; [done|]. split; [unfold SHELL_HISTORY_SIZE; simpl; lia|constructor].
Qed.

Definition demo_keys : shell_keys := ShellKeys 0x48 0x50 0x4B 0x4D 0x01 0x103 0x104.

(** ** Properties *)

(** C14. Any sequence of characters, backspaces and left and right arrows keeps
    the buffer in bounds and does to the line exactly what the editor
    [edit_line] does: a backspace deletes before the cursor at any place, and a
    character typed before the end of the line drops the text after the cursor. *)
Theorem shell_edit_refines {H : Type} (es : list edit) (sh : shell) (k : kernel H) (l r : list Z) :
  Forall (fun e => e <> Insert 0) es -> holds sh l r ->
  exists sh' k' l' r', do_edits es sh k = Some (sh', k') /\ holds sh' l' r' /\
    (l', r') = foldl (fun line e => edit_line e line) (l, r) es /\
    same_rest sh sh' /\ screen_only k k'.
Proof.
  intros Hes Hl. destruct (do_edits_holds es sh k l r Hes Hl) as (sh' & k' & Hrun & Hl' & Hr' & Hk').
  do 4 eexists. split; [exact Hrun|]. split; [exact Hl'|]. split; [by destruct (foldl _ _ _)|done].
Qed.

(** Typing [lss], two steps left, then [c]: the tail is lost. *)
Lemma shell_edit_refines_witness :
  exists sh' k' l' r',
    do_edits (Insert <$> bytes_of "lss") demo_shell boot_kernel = Some (sh', k') /\ holds sh' l' r' /\
    (l', r') = foldl (fun line e => edit_line e line) ([], []) (Insert <$> bytes_of "lss") /\
    same_rest demo_shell sh' /\ screen_only boot_kernel k'.
Proof.
  refine (shell_edit_refines (Insert <$> bytes_of "lss") demo_shell boot_kernel [] [] _ (clear_holds shell0)).
  repeat constructor; done.
Defined.

(** C28. No key but Enter, whatever its event, takes the shell out of an array
    or through a null pointer: the loop ends with its input or with Ctrl-D, the
    line and the history stay well formed, and nothing of the kernel but the
    screen changes. *)
Theorem shell_keys_safe `{!Allocator H} {F : Type} (api : file_api F) (keys : shell_keys) call_handler wait_timer
    (fuel turns : nat) (stack_buffer : list Z) free_string (input : list (option keyboard_event))
    (sh : shell) (k : kernel H) (f : F) :
  shell_wf sh -> Forall (fun e => forall ev, e = Some ev -> pressed ev = true -> key ev <> KEY_ENTER) input ->
  exists rest sh' k',
    shell_run api keys call_handler wait_timer fuel turns stack_buffer free_string input sh k f
    = Some (rest, sh', (k', f)) /\
    shell_wf sh' /\ history_strings sh' = history_strings sh /\ screen_only k k'.
Proof.
  intros Hwf Hin. unfold shell_run.
  assert (shell_wf (set_sh_state SHELL_STATE_RUNNING sh)) as Hrun by exact Hwf.
  change (history_strings sh) with (history_strings (set_sh_state SHELL_STATE_RUNNING sh)).
  revert Hrun. generalize (set_sh_state SHELL_STATE_RUNNING sh) as s. clear Hwf sh. revert k.
  induction Hin as [|e input He Hin IH]; intros k s Hs; cbn [shell_loop];
    (destruct (negb (bool_decide (sh_state s = SHELL_STATE_RUNNING)));
     [do 3 eexists; split; [reflexivity|]; split; [done|]; split; [done|apply screen_only_refl]|]).
  { do 3 eexists; split; [reflexivity|]; split; [done|]; split; [done|apply screen_only_refl]. }
  destruct e as [ev|]; [|by apply IH].
  assert (exists s1 k1, shell_key api keys call_handler wait_timer fuel turns stack_buffer free_string ev s k f
            = Some (s1, (k1, f)) /\ quiet s s1 k k1) as (s1 & k1 & -> & Hs1 & Hh1 & Hk1).
  { destruct (pressed ev) eqn:Ep; [by apply key_quiet; [| |apply He]|].
    unfold shell_key. rewrite Ep. exists s, k. split; [done|]. apply quiet_same; [done|apply screen_only_refl]. }
  cbn [mbind option_bind]. destruct (IH k1 s1 Hs1) as (rest & s2 & k2 & -> & Hs2 & Hh2 & Hk2).
  exists rest, s2, k2. split; [done|]. split; [done|]. split; [congruence|by eapply screen_only_trans].
Qed.

Lemma shell_keys_safe_witness :
  exists rest sh' k',
    shell_run demo_api demo_keys (fun _ _ k => Some k) Some 0 0 [] (fun _ k => Some k)
      [Some (KeyboardEvent 0x26 0x6c true); None; Some (KeyboardEvent 0x48 0 true); Some (KeyboardEvent 0x0E 0 true)]
      demo_shell boot_kernel demo_files = Some (rest, sh', (k', demo_files)) /\
    shell_wf sh' /\ history_strings sh' = history_strings demo_shell /\ screen_only boot_kernel k'.
Proof.
  refine (shell_keys_safe demo_api demo_keys (fun _ _ k => Some k) Some 0 0 [] (fun _ k => Some k) _
            demo_shell boot_kernel demo_files demo_shell_wf _).
  repeat constructor; intros ev Hev; try discriminate Hev; injection Hev as <-; discriminate.
Defined.

(** C31. A command enters the history as a queue of the last ten distinct
    neighbours.  A command equal to the last one changes nothing at all.  Any
    other is copied: of ten strings the oldest is freed, a block for the string
    and its NUL is allocated, and
    - when the allocator has none (it returns 0), the new slot is a null pointer
      and the older strings stay;
    - else the strings are those of [push_history], the new block was not in use,
      every other block keeps its bytes, and the history is in the heap again:
      each slot has a block of its own that holds its string.
    [free], which no source file defines, releases a block that is in use and
    touches no other. *)
Theorem shell_history_refines `{!Allocator H} free_string (command s : list Z) (sh : shell) (k : kernel H) :
  frees free_string -> history_wf sh -> history_in_heap sh (k_heap k) -> alloc_wf (k_heap k) ->
  cstr command = s -> s <> [] -> (length s < SHELL_BUFFER_SIZE)%nat -> (length command <= SHELL_BUFFER_SIZE)%nat ->
  exists sh' k', shell_add_to_history free_string command sh k = Some (sh', k') /\ same_line sh sh' /\
    if bool_decide (last (history_strings sh) = Some s) then sh' = sh /\ k' = k
    else pushed free_string s sh k sh' k'.
Proof. intros Hfree Hwf Hin Hk Hs Hne Hl1 Hl2. by apply (add_to_history_spec free_string Hfree command s). Qed.

Lemma boot_heap_wf : alloc_wf (k_heap boot_kernel).
Proof. apply boot_wf. Qed.

(** [free] of the kernel's own heap. *)
Definition kfree_string (p : Z) (k : kernel heap) : option (kernel heap) :=
  h ← kfree p (k_heap k); Some (set_k_heap h k).

Lemma kfree_string_frees : frees kfree_string.
Proof.
  intros p k Hw Hl. destruct (free_spec p (k_heap k) Hw Hl) as (h & Hf & Hw' & Hlive). exists h.
  unfold kfree_string. change (kfree p (k_heap k)) with (free p (k_heap k)). rewrite Hf.
  split; [reflexivity|]. split; [done|]. split; [done|]. intros q Hq Hne.
  exact (free_room_spec p (k_heap k) h Hw Hl Hf q Hq Hne).
Qed.

Lemma demo_in_heap (sh : shell) (h : heap) : history_count sh = 0%nat -> history_in_heap sh h.
Proof. intros Hc. unfold history_in_heap. rewrite Hc. split; constructor. Qed.

(** The first command of a shell: the heap has memory for it. *)
Lemma shell_history_refines_witness :
  exists sh' k', shell_add_to_history kfree_string (bytes_of "ls") demo_shell boot_kernel = Some (sh', k') /\
    same_line demo_shell sh' /\ history_wf sh' /\ history_strings sh' = [bytes_of "ls"] /\
    history_in_heap sh' (k_heap k').
Proof.
  destruct (shell_history_refines kfree_string (bytes_of "ls") (bytes_of "ls") demo_shell boot_kernel
    kfree_string_frees (proj1 (proj2 demo_shell_wf)) (demo_in_heap demo_shell (k_heap boot_kernel) eq_refl) boot_heap_wf
    eq_refl ltac:(discriminate)) as (sh' & k' & E & Hsame & Hr).
  - apply Nat.ltb_lt. reflexivity.
  - apply Nat.leb_le. reflexivity.
  - exists sh', k'. split; [exact E|]. split; [exact Hsame|].
    rewrite bool_decide_eq_false_2 in Hr by discriminate.
    destruct Hr as (p & h1 & ha & h2 & Hmade & Ha & -> & _ & _ & _ & Hr).
    change (h1 = k_heap boot_kernel) in Hmade. subst h1.
    assert (Hp : p <> 0).
    { intros ->. assert (Hp : (fst <$> alloc (Z.of_nat (length (bytes_of "ls")) + 1) (k_heap boot_kernel)) = Some 0)
        by (rewrite Ha; reflexivity). vm_compute in Hp. discriminate Hp. }
    rewrite (proj2 (Z.eqb_neq _ _) Hp) in Hr. destruct Hr as (_ & Hwf & Hstr & _ & _ & _ & Hin).
    split; [exact Hwf|]. split; [exact Hstr|]. apply Hin. repeat constructor; discriminate.
Defined.

(** A command line leaves the shell exactly when its first word, typed
    without blanks before it, is [exit]. *)
Theorem shell_exit_iff `{!Allocator H} {F : Type} (api : file_api F) call_handler wait_timer (fuel turns : nat)
    (stack_buffer : list Z) free_string (sh sh' : shell) (k : kernel H) (f : F) st (l r : list Z) :
  frees free_string ->
  holds sh l r -> l <> [] -> history_wf sh -> history_in_heap sh (k_heap k) -> alloc_wf (k_heap k) -> sh_state sh <> SHELL_STATE_EXIT ->
  shell_execute_command api call_handler wait_timer fuel turns stack_buffer free_string sh k f = Some (sh', st) ->
  sh_state sh' = SHELL_STATE_EXIT <-> word l = bytes_of "exit".
Proof.
  intros Hfree Hl Hne Hwf Hin Hk Hst Hex.
  destruct (execute_spec api call_handler wait_timer fuel turns stack_buffer free_string Hfree
              sh k f l r sh' st Hl Hne Hwf Hin Hk Hex) as [_ ->].
  destruct (decide (word l = bytes_of "exit")) as [E|E].
  - by rewrite bool_decide_eq_true_2.
  - by rewrite bool_decide_eq_false_2.
Qed.

(** C30. Enter and then [S n] up arrows bring back the [n]-th last command line,
    the line just entered for [n = 0], with the cursor at its end, unless there
    was no memory for the new line ([history_lost]).  [free] releases a block that
    is in use, and the history is in the heap. *)
Theorem shell_recall `{!Allocator H} {F : Type} (api : file_api F) (keys : shell_keys) call_handler wait_timer
    (fuel turns : nat) (stack_buffer : list Z) free_string (e : keyboard_event) (n : nat)
    (sh sh1 : shell) (k k1 : kernel H) (f f1 : F) (l r : list Z) :
  frees free_string -> pressed e = true -> key e = KEY_ENTER -> holds sh l r -> l <> [] ->
  history_wf sh -> history_in_heap sh (k_heap k) -> alloc_wf (k_heap k) ->
  shell_key api keys call_handler wait_timer fuel turns stack_buffer free_string e sh k f = Some (sh1, (k1, f1)) ->
  ~ history_lost sh1 -> (n < length (push_history l (history_strings sh)))%nat ->
  exists sh2 k2 s, up_arrows api (S n) sh1 k1 f1 = Some (sh2, k2) /\ screen_only k1 k2 /\
    push_history l (history_strings sh) !! (length (push_history l (history_strings sh)) - 1 - n)%nat = Some s /\
    holds sh2 s [].
Proof.
  intros Hfree Hp He Hl Hne Hwf Hin Hk Hkey Hlost Hn. unfold shell_key in Hkey. rewrite Hp, He in Hkey. cbn [negb] in Hkey.
  rewrite Z.eqb_refl in Hkey. apply bind_Some in Hkey as ([she [ke fe]] & Hex & Hkey).
  destruct (execute_spec api call_handler wait_timer fuel turns stack_buffer free_string Hfree
              sh (kprint nl k) f l r she _ Hl Hne Hwf Hin Hk Hex) as [Hhist _].
  assert (same_history (shell_clear_buffer she) sh1 /\ history_index sh1 = -1 /\
          sh_buffer sh1 = sh_buffer (shell_clear_buffer she) /\ buffer_pos sh1 = 0%nat) as (Hsame & Hi1 & Hb1 & Hp1).
  { destruct (bool_decide _); [|by injection Hkey as <- <- <-].
    destruct (prompt_spec api (shell_clear_buffer she) ke fe) as (sh' & k' & Hpr & Hh & Hb & Hpos & Hi & _).
    rewrite Hpr in Hkey. injection Hkey as <- <- <-. by rewrite Hb, Hpos, Hi. }
  assert (holds sh1 [] []) as Hl1.
  { pose proof (clear_holds she) as Hc. unfold holds in *. by rewrite Hb1, Hp1. }
  destruct Hhist as [[Hwfe Hstr]|Hlost'].
  2: { destruct Hlost. destruct Hsame as (E1 & E2 & _). unfold history_lost in *. by rewrite E1, E2. }
  rewrite <- Hstr in Hn |- *.
  assert (history_strings sh1 = history_strings she) as Hs1 by apply (same_history_strings _ _ Hsame).
  assert (history_wf sh1) as Hwf1 by exact (same_history_wf _ _ Hsame Hwfe).
  rewrite <- Hs1 in Hn |- *. rewrite (history_strings_length sh1 Hwf1) in *.
  destruct (up_arrow_spec api sh1 k1 f1 [] [] None Hwf1 Hl1 Hi1 ltac:(lia))
    as (sh2 & k2 & Hup & Hh2 & Hi2 & Hk2 & [[? _]|(i & s & [= <-] & Hs & Hl2)]); [done|].
  destruct (up_arrows_spec api n sh2 k2 f1 s [] (history_count sh1 - 1)%nat) as (sh3 & k3 & s3 & Hups & Hh3 & Hk3 & Hs3 & Hl3);
    try done; [by eapply same_history_wf|by rewrite (same_history_strings _ _ Hh2)|lia|].
  exists sh3, k3, s3. cbn [up_arrows]. rewrite Hup. cbn [mbind option_bind]. split; [done|].
  split; [by eapply screen_only_trans|]. split; [|done]. by rewrite <- (same_history_strings _ _ Hh2).
Qed.

(** The shell with the line [echo hi] typed. *)
Definition demo_line : list Z := bytes_of "echo hi".
Definition demo_typed : shell := set_buffer_pos 7 (set_buffer (demo_line ++ replicate 249 0) demo_shell).

Lemma demo_holds : holds demo_typed demo_line [].
Proof.
  split; [repeat constructor; done|]. split; [done|]. split; [done|]. by exists (replicate 248 0).
Qed.

Lemma shell_exit_iff_witness :
  exists sh' st,
    shell_execute_command demo_api (fun _ _ k => Some k) Some 0 0 [] kfree_string demo_typed boot_kernel demo_files
    = Some (sh', st) /\ (sh_state sh' = SHELL_STATE_EXIT <-> word demo_line = bytes_of "exit").
Proof.
  assert (E : match shell_execute_command demo_api (fun _ _ k => Some k) Some 0 0 [] kfree_string demo_typed
                      boot_kernel demo_files with Some _ => true | None => false end = true) by (vm_compute; reflexivity).
  destruct (shell_execute_command demo_api (fun _ _ k => Some k) Some 0 0 [] kfree_string demo_typed
              boot_kernel demo_files) as [[sh' st]|] eqn:Ex; [|discriminate E].
  exists sh', st. split; [reflexivity|].
  exact (shell_exit_iff demo_api (fun _ _ k => Some k) Some 0 0 [] kfree_string demo_typed sh' boot_kernel
           demo_files st demo_line [] kfree_string_frees demo_holds ltac:(discriminate)
           (proj1 (proj2 demo_shell_wf)) (demo_in_heap demo_typed (k_heap boot_kernel) eq_refl) boot_heap_wf ltac:(discriminate) Ex).
Defined.

Lemma shell_recall_witness :
  exists sh1 k1 f1 sh2 k2 s,
    shell_key demo_api demo_keys (fun _ _ k => Some k) Some 0 0 [] kfree_string (KeyboardEvent KEY_ENTER 0 true)
      demo_typed boot_kernel demo_files = Some (sh1, (k1, f1)) /\
    up_arrows demo_api 1 sh1 k1 f1 = Some (sh2, k2) /\ screen_only k1 k2 /\
    [demo_line] !! 0%nat = Some s /\ holds sh2 s [].
Proof.
  assert (E : match shell_key demo_api demo_keys (fun _ _ k => Some k) Some 0 0 [] kfree_string
                      (KeyboardEvent KEY_ENTER 0 true) demo_typed boot_kernel demo_files with
              | Some (sh1, _) => match history sh1 !! 0%nat with Some (p, _) => negb (p =? 0) | None => true end
                                 && (history_count sh1 =? 1)%nat
              | None => false end = true) by (vm_compute; reflexivity).
  destruct (shell_key demo_api demo_keys (fun _ _ k => Some k) Some 0 0 [] kfree_string
              (KeyboardEvent KEY_ENTER 0 true) demo_typed boot_kernel demo_files) as [[sh1 [k1 f1]]|] eqn:Ex;
    [|discriminate E].
  exists sh1, k1, f1.
  destruct (shell_recall demo_api demo_keys (fun _ _ k => Some k) Some 0 0 [] kfree_string
              (KeyboardEvent KEY_ENTER 0 true) 0 demo_typed sh1 boot_kernel k1 demo_files f1 demo_line []
              kfree_string_frees eq_refl eq_refl demo_holds ltac:(discriminate) (proj1 (proj2 demo_shell_wf))
              (demo_in_heap demo_typed (k_heap boot_kernel) eq_refl) boot_heap_wf Ex)
    as (sh2 & k2 & s & Hr).
  - intros Hlost. destruct Hlost as [_ Hlost]. apply andb_true_iff in E as [E1 E2].
    apply Nat.eqb_eq in E2. rewrite E2 in Hlost. simpl in Hlost. rewrite Hlost in E1. discriminate E1.
  - apply Nat.ltb_lt. reflexivity.
  - exists sh2, k2, s. split; [reflexivity|]. exact Hr.
Defined.
