(* ===== verification/Boot.v ===== *)
(** * The kernel's main function: [kernel_main] and [shell_process] of kernel.c

    One state holds what the components keep: [y_kernel] the processes, pipes,
    timer and the one memory and terminal, [y_paging] the page tables, whose own
    copies of memory and terminal stand for those of [y_kernel] while a function
    of paging.c runs ([paging_view], [put_paging]).  The addresses the linker
    chooses are the record [symbols]. *)
From S2P Require Import Prelude CString Terminal RawMemory Allocator Heap Kernel Process.
From S2P Require Import Idt Timer Signals Pipe Keyboard Paging Usermode Syscall.
From S2P Require Import Disk Filesystem Coreutils Shell.

(** The addresses of the stubs, tables and functions that are installed, and
    [boot_pml4], which no file defines. *)
Record symbols := Symbols {
  isr_stub : Z -> Z; idt_addr : Z; tss_addr : Z; boot_pml4_addr : Z;
  timer_handler_addr : Z; keyboard_handler_addr : Z; syscall_handler_addr : Z;
  shell_process_addr : Z;
}.

Record system := System {
  y_kernel : kernel heap; y_paging : paging; y_idt : idt; y_gdt : list gdt_entry; y_tss : tss;
  y_keyboard : keyboard_state; y_fs : fs_info; y_ports : list (Z * Z);
}.

Definition set_heap_mem (m : mem) (h : heap) : heap := Heap (memory_start h) (memory_initialized h) m.

Definition paging_view (k : kernel heap) (s : paging) : paging :=
  set_pg_term (k_term k) (set_pg_mem (heap_mem (k_heap k)) s).
Definition put_paging (s : paging) (k : kernel heap) : kernel heap :=
  set_k_term (pg_term s) (set_k_heap (set_heap_mem (pg_mem s) (k_heap k)) k).

Definition kernel_mmap : list memory_map_entry := [MemoryMapEntry 0x100000 (128 * 1024 * 1024) 1].

(** The banner, up to the first module. *)
Definition kernel_banner (k : kernel heap) : kernel heap :=
  let k := set_k_term (terminal_initialize (k_term k)) k in
  let k := kprint ("64-bit Basit Linux-Benzeri Kernel" +:+ nl) k in
  let k := kprint ("-------------------------------" +:+ nl) k in
  let k := setcolor VGA_COLOR_GREEN k in
  let k := kprint ("Kernel basariyla 64-bit Long Mode'a gecti!" +:+ nl) k in
  let k := setcolor VGA_COLOR_LIGHT_GREY k in
  kprint (nl +:+ "Kernel modullerini baslatiyorum..." +:+ nl) k.

(** The memory modules: [memory_init], [init_idt], [paging_init], [gdt_init],
    [kmalloc_page] and [tss_init]. *)
Definition init_memory_modules (sym : symbols) (y : system) : option system :=
  let k := kernel_banner (y_kernel y) in
  let k := set_k_heap (memory_init (k_heap k)) k in
  let k := kprint ("Bellek yonetimi baslatildi." +:+ nl) k in
  let d := init_idt (isr_stub sym) (idt_addr sym) (y_idt y) in
  let k := kprint ("Kesme tanimlama tablosu (IDT) baslatildi." +:+ nl) k in
  s ← paging_init (boot_pml4_addr sym) kernel_mmap (paging_view k (y_paging y));
  let '(g, t) := gdt_init (tss_addr sym) (y_gdt y) (pg_term s) in
  let '(kernel_stack, s) := kmalloc_page (set_pg_term t s) in
  let '(ts, t) := tss_init kernel_stack (y_tss y) (pg_term s) in
  let s := set_pg_term t s in
  Some (System (put_paging s k) s d g ts (y_keyboard y) (y_fs y) (y_ports y)).

(** The devices and services: [timer_init], [keyboard_init], [init_processes],
    [fs_init] and [init_syscalls]. *)
Definition init_services (sym : symbols) (y : system) : option system :=
  '(out1, d, k) ← timer_init (timer_handler_addr sym) 100 (y_idt y) (y_kernel y);
  let '(kb, out2, d, t) := keyboard_init (keyboard_handler_addr sym) d (k_term k) in
  let k := init_processes (set_k_term t k) in
  let '(_, fi) := fs_init (y_fs y) in
  let '(d, k) := init_syscalls (syscall_handler_addr sym) d k in
  Some (System k (y_paging y) d (y_gdt y) (y_tss y) kb fi (y_ports y ++ out1 ++ out2)).

(** [create_process("shell", ...)] and the last messages. *)
Definition start_shell (sym : symbols) (y : system) : option system :=
  '(shell_pid, k) ← create_process (bytes_of "shell" ++ [0]) (shell_process_addr sym) 0 (y_kernel y);
  k ← (if negb (shell_pid =? 0) then
         k ← kprint_int 5 shell_pid (kprint "Shell sureci olusturuldu. PID: " k); Some (kprint nl k)
       else Some k);
  let k := setcolor VGA_COLOR_LIGHT_GREEN k in
  let k := kprint (nl +:+ "Tum moduller basariyla yuklendi!" +:+ nl) k in
  let k := setcolor VGA_COLOR_LIGHT_GREY k in
  Some (System k (y_paging y) (y_idt y) (y_gdt y) (y_tss y) (y_keyboard y) (y_fs y) (y_ports y)).

(** All of [kernel_main] before its loop. *)
Definition kernel_init (sym : symbols) (y : system) : option system :=
  y ← init_memory_modules sym y; y ← init_services sym y; start_shell sym y.

Section Main.
Variable call_handler : Z -> Z -> kernel heap -> option (kernel heap).
Variable fuel : nat.

(** [n] turns of the loop [while (1) { schedule(); hlt; }]. *)
Fixpoint kernel_loop (n : nat) (k : kernel heap) : option (kernel heap) :=
  match n with
  | O => Some k
  | S n' => k ← schedule call_handler fuel k; kernel_loop n' k
  end.

(** [kernel_main] until its loop has run [n] turns. *)
Definition kernel_main (sym : symbols) (n : nat) (y : system) : option (kernel heap) :=
  y ← kernel_init sym y; kernel_loop n (y_kernel y).
End Main.

(** ** The shell process *)
Section Shell_process.
Context `{!Allocator H} {F : Type} (api : file_api F) (keys : shell_keys).
Variable call_handler : Z -> Z -> kernel H -> option (kernel H).
Variable wait_timer : kernel H -> option (kernel H).
Variable fuel turns : nat.
Variable stack_buffer : list Z.
Variable free_string : Z -> kernel H -> option (kernel H).

Definition shell_process (input : list (option keyboard_event)) (k : kernel H) (f : F) : option (kernel H * F) :=
  let '(sh, k) := shell_init api k f in
  '(_, sh, (k, f)) ← shell_run api keys call_handler wait_timer fuel turns stack_buffer free_string input sh k f;
  '(sh, k) ← shell_cleanup sh k;
  '(_, k) ← sys_exit call_handler fuel (u64 (exit_code sh)) k;
  Some (k, f).
End Shell_process.
