(* ===== verification/BootSpec.v ===== *)
(** * What [kernel_main] sets up

    The frames the boot takes, the heap header that the frame bitmap has
    replaced, the first process and the loop that never dispatches it. *)
From S2P Require Import Prelude CString Terminal RawMemory Allocator Heap Kernel Process.
From S2P Require Import Invariant Scheduler Lifecycle Idt Timer Signals Pipe Keyboard.
From S2P Require Import Paging PagingSpec Usermode Syscall Disk Filesystem Coreutils Shell Boot.

(** ** Frames taken in order *)

Section Frames.
Implicit Types (ts : gmap Z nat) (s : paging).

(** Exactly the frames below [n] are used. *)
Definition used_below (n : Z) s : Prop := forall j, 0 <= j < nbits s -> frame_used s j = (j <? n).

Lemma used_below_first n s : used_below n s -> 0 < n < nbits s -> first_free n s.
Proof.
  intros H Hn. split_and!; [lia|lia| |].
  - rewrite H by lia. apply Z.ltb_irrefl.
  - intros j Hj. rewrite H by lia. apply Z.ltb_lt. lia.
Qed.

Lemma used_below_not_all n s : used_below n s -> 0 <= n < nbits s -> ~ all_used s.
Proof. intros H Hn Ha. specialize (Ha n Hn). by rewrite H, Z.ltb_irrefl in Ha. Qed.

Lemma pmm_alloc_below n s ts :
  paging_wf s ts -> used_below n s -> 0 < n < nbits s ->
  pmm_alloc_page s = (n * PAGE_SIZE, take_frame n s) /\ used_below (n + 1) (take_frame n s).
Proof.
  intros Hwf Hu Hn. pose proof (used_below_first n s Hu Hn) as Hf. split.
  - destruct (pmm_alloc_cases s ts Hwf) as [[Ha _]|(k & Hk & ->)]; [by destruct (used_below_not_all n s Hu ltac:(lia))|].
    replace k with n; [done|]. destruct Hk as (Hk & Hkf & Hkl), Hf as (_ & Hnf & Hnl).
    destruct (Z.lt_trichotomy n k) as [Hlt|[|Hlt]]; [|done|].
    + rewrite Hkl in Hnf by lia. done.
    + rewrite Hnl in Hkf by lia. done.
  - intros j Hj. rewrite (frame_used_take_frame s ts) by done. rewrite Hu by done.
    destruct (Z.eqb_spec j n), (Z.ltb_spec j n), (Z.ltb_spec j (n + 1)); lia || done.
Qed.

Lemma walk_level_below s ts t l i flags n :
  paging_wf s ts -> ts !! t = Some (S (S l)) -> 0 <= i < 512 -> flags_ok flags ->
  used_below n s -> 0 < n < nbits s ->
  exists t' s' ts' n', walk_level t i true flags s = (Some t', s') /\ paging_wf s' ts' /\
    ts' !! t' = Some (S l) /\ nbits s' = nbits s /\ used_below n' s' /\ n <= n' <= n + 1.
Proof.
  intros Hwf Ht Hi Hfl Hu Hn.
  destruct (walk_level_alloc s ts t l i flags Hwf Ht Hi Hfl) as (r & s' & ts' & Hw & Hwf' & Hg & Hr & Hsame).
  assert (Hnb : nbits s' = nbits s) by (unfold nbits; by rewrite (gr_size _ _ _ _ Hg)).
  assert (Hu' : exists n', used_below n' s' /\ n <= n' <= n + 1).
  { destruct (is_present (entry (pg_mem s) t i)) eqn:E; [exists n; rewrite Hsame by done; split; [done|lia]|].
    exists (n + 1). split; [|lia]. revert Hw. unfold walk_level. rewrite E. cbn [negb].
    destruct (pmm_alloc_below n s ts Hwf Hu Hn) as [-> Hu1].
    destruct (take_frame_wf s ts n Hwf (used_below_first n s Hu Hn)) as [Hwf1 _].
    rewrite (proj2 (Z.eqb_neq (n * PAGE_SIZE) 0)) by (unfold PAGE_SIZE; lia).
    intros [_ <-]%pair_equal_spec. intros j Hj.
    rewrite (frame_used_set_entry _ ts t (S (S l))) by done. by apply Hu1. }
  destruct Hu' as (n' & Hu' & Hn'). destruct r as [t'|].
  - exists t', s', ts', n'. split_and!; try done; apply Hr || lia.
  - exfalso. destruct Hr as [Hp Ha]. revert Ha. apply (used_below_not_all n'); [done|].
    destruct (Z.eq_dec n' (nbits s)) as [->|]; [|lia].
    (* the level below needs one frame, which is there *)
    revert Hw. unfold walk_level. rewrite Hp. cbn [negb].
    destruct (pmm_alloc_below n s ts Hwf Hu Hn) as [-> _].
    by rewrite (proj2 (Z.eqb_neq (n * PAGE_SIZE) 0)) by (unfold PAGE_SIZE; lia).
Qed.

Lemma paging_walk_below s ts va flags n :
  paging_wf s ts -> 0 <= va -> flags_ok flags -> used_below n s -> 0 < n -> n + 3 <= nbits s ->
  exists pte s' n', paging_walk va true flags s = (Some pte, s') /\ nbits s' = nbits s /\
    used_below n' s' /\ n <= n' <= n + 3.
Proof.
  intros Hwf Hva Hfl Hu Hn Hn3. destruct (indices_ok_upper va Hva) as [Hok _].
  unfold upper_indices in Hok. apply Forall_cons in Hok as [H4 Hok].
  apply Forall_cons in Hok as [H3 Hok]. apply Forall_cons in Hok as [H2 _]. unfold paging_walk.
  destruct (walk_level_below s ts (pml4 s) 2 (pml4_index va) flags n Hwf (pwf_root _ _ Hwf) H4 Hfl Hu ltac:(lia))
    as (t1 & s1 & ts1 & n1 & -> & Hwf1 & Ht1 & Hb1 & Hu1 & Hn1).
  destruct (walk_level_below s1 ts1 t1 1 (pdpt_index va) flags n1 Hwf1 Ht1 H3 Hfl Hu1 ltac:(lia))
    as (t2 & s2 & ts2 & n2 & -> & Hwf2 & Ht2 & Hb2 & Hu2 & Hn2).
  destruct (walk_level_below s2 ts2 t2 0 (pd_index va) flags n2 Hwf2 Ht2 H2 Hfl Hu2 ltac:(lia))
    as (t3 & s3 & ts3 & n3 & -> & Hwf3 & Ht3 & Hb3 & Hu3 & Hn3').
  eexists _, s3, n3. split; [reflexivity|]. split; [congruence|]. split; [done|lia].
Qed.

(** With four free frames a page can be mapped. *)
Lemma map_page_below s ts phys va flags n :
  paging_wf s ts -> in_u 64 va -> 0 <= phys < 2 ^ 52 -> phys mod PAGE_SIZE = 0 -> flags_ok flags ->
  used_below n s -> 0 < n -> n + 3 < nbits s -> translate s va = None -> page_of va <> 0 ->
  exists s' ts', paging_map_page phys va flags s = (page_of va, s') /\ paging_wf s' ts' /\
    tables_grow s ts ts' /\ pml4 s' = pml4 s /\ bitmap s' = bitmap s /\ bitmap_size s' = bitmap_size s /\
    (forall i, 0 <= i < nbits s -> frame_used s i = true -> frame_used s' i = true) /\
    (forall va', 0 <= va' -> translate s' va' =
       if decide (same_page va va') then Some (paging_make_entry phys (Z.lor PAGE_PRESENT flags))
       else translate s va').
Proof.
  intros Hwf Hva Hph Hpm Hfl Hu Hn Hn3 Htr Hpo.
  pose proof (map_page_cases s ts phys va flags Hwf Hva Hph Hpm Hfl) as H. cbv zeta in H. rewrite Htr in H.
  destruct H as (s' & ts' & Hwf' & _ & Hg & Hp & Hb & Hs & _ & Hus & [(E & Ha & _)|[E Ht]]);
    [exfalso|exists s', ts'; auto 10].
  assert (Hpv : 0 <= page_of va).
  { rewrite page_of_div by done. pose proof (Z.div_pos va PAGE_SIZE (proj1 Hva) ltac:(done)). unfold PAGE_SIZE in *. lia. }
  destruct (paging_walk_below s ts (page_of va) flags n Hwf Hpv Hfl Hu Hn ltac:(lia))
    as (pte & s1 & n' & Hw & Hb1 & Hu1 & Hn').
  unfold paging_map_page in E. rewrite Hw in E.
  destruct (is_present _); apply pair_equal_spec in E as [E <-]; [|done].
  revert Ha. apply (used_below_not_all n' s1); [done|lia].
Qed.
End Frames.

(** ** The memory modules *)

Section Memory_modules.
Implicit Types (ts : gmap Z nat) (s : paging).

Lemma kmalloc_page_below s ts n :
  paging_wf s ts -> used_below n s -> 0 < n -> n + 4 < nbits s -> n < 2 ^ 40 ->
  in_u 64 (kernel_heap s) -> page_of (kernel_heap s) = kernel_heap s -> kernel_heap s <> 0 ->
  translate s (kernel_heap s) = None ->
  exists s' ts' e, kmalloc_page s = (kernel_heap s, s') /\ paging_wf s' ts' /\
    bitmap s' = bitmap s /\ bitmap_size s' = bitmap_size s /\
    (forall i, 0 <= i < nbits s -> frame_used s i = true -> frame_used s' i = true) /\
    (forall t, 0 <= t / PAGE_SIZE < nbits s -> frame_used s (t / PAGE_SIZE) = true ->
       ts !! t = None -> ts' !! t = None) /\
    (forall va, 0 <= va ->
       translate s' va = if decide (same_page (kernel_heap s) va) then Some e else translate s va).
Proof.
  intros Hwf Hu Hn Hn4 Hn40 Hk Hal Hk0 Htr. unfold kmalloc_page.
  destruct (pmm_alloc_below n s ts Hwf Hu ltac:(lia)) as [-> Hu1].
  pose proof (used_below_first n s Hu ltac:(lia)) as Hf.
  destruct (take_frame_wf s ts n Hwf Hf) as [Hwf1 _].
  assert (Hus : forall i, 0 <= i < nbits s -> frame_used s i = true -> frame_used (take_frame n s) i = true).
  { intros i Hi H. rewrite (frame_used_take_frame s ts) by done. by rewrite H, orb_true_r. }
  pose proof (fun va Hva => grows_take_frame s ts n va Hwf Hf Hva) as Htr1.
  rewrite (proj2 (Z.eqb_neq (n * PAGE_SIZE) 0)) by (unfold PAGE_SIZE; lia).
  change (kernel_heap (take_frame n s)) with (kernel_heap s).
  destruct (map_page_below (take_frame n s) ts (n * PAGE_SIZE) (kernel_heap s) PAGE_WRITABLE (n + 1))
    as (s2 & ts2 & -> & Hwf2 & Hg & _ & Hb & Hs & Hus2 & Ht2);
    [done|done|unfold PAGE_SIZE; lia|apply Z_mod_mult|apply flags_ok_writable|done|lia|
     change (nbits (take_frame n s)) with (nbits s); lia|rewrite Htr1 by apply Hk; done|by rewrite Hal|].
  rewrite Hal, (proj2 (Z.eqb_neq _ _) Hk0).
  eexists _, ts2, _. split; [reflexivity|]. cbn [bitmap bitmap_size set_kernel_heap].
  split; [by destruct Hwf2; split|]. split; [exact Hb|]. split; [exact Hs|]. split; [|split].
  - intros i Hi H. apply Hus2; [done|]. by apply Hus.
  - intros t Ht H Hnone. destruct (ts2 !! t) eqn:E; [|done].
    destruct Hg as [_ Hg]. specialize (Hg t ltac:(by rewrite E) Hnone). by rewrite Hus in Hg.
  - intros va Hva. change (translate (set_kernel_heap ?x s2) va) with (translate s2 va).
    rewrite Ht2 by done. by rewrite Htr1.
Qed.

(** Stores outside the tables leave the address space alone. *)
Lemma translate_outside s ts m va :
  paging_wf s ts -> 0 <= va ->
  (forall t l a, ts !! t = Some l -> t <= a < t + PAGE_SIZE -> load8 m a = load8 (pg_mem s) a) ->
  translate (set_pg_mem m s) va = translate s va.
Proof.
  intros Hwf Hva Hm. destruct (indices_ok_upper va Hva) as [Hok Hi]. unfold translate.
  cbn [pg_mem pml4 set_pg_mem]. apply (entry_at_ext _ _ ts) with (l := 4%nat).
  - intros t l i Ht Hi'. apply entry_ext; [|done]. intros a Ha. by apply (Hm t l).
  - apply Hwf.
  - apply Hwf.
  - done.
  - done.
  - done.
Qed.

Lemma paging_view_put s k : paging_view (put_paging s k) s = s.
Proof. by destruct s. Qed.

Lemma kernel_mmap_init r s :
  exists s', paging_init r kernel_mmap s = Some s' /\ bitmap_size s' = 4096.
Proof.
  destruct (paging_init r kernel_mmap s) as [s'|] eqn:E.
  - exists s'. split; [done|]. destruct (paging_init_fields _ _ _ _ E) as [t ->]. by vm_compute.
  - exfalso. revert E. unfold paging_init.
    destruct (scan_memory_map kernel_mmap) as [[total free] reserved] eqn:Es.
    assert (total = 2 ^ 27) as -> by (vm_compute in Es; by injection Es as <- _ _).
    assert (Hw : forall t, terminal_writeint 32 (2 ^ 27 / 1024 / 1024) t <> None).
    { intros t. unfold terminal_writeint.
      assert (Hd : int_to_string (s32 (2 ^ 27 / 1024 / 1024)) = Some [49; 50; 56]) by by vm_compute.
      by rewrite Hd. }
    cbv zeta. destruct (terminal_writeint _ _ _) eqn:E; [done|]. intros _. by destruct (Hw _ E).
Qed.

(** The first header of the heap after [memory_init] lies within the bitmap. *)
Lemma load8_memory_init h a :
  ~ (MEMORY_START <= a < MEMORY_START + sizeof_block) ->
  load8 (heap_mem (memory_init h)) a = load8 (heap_mem h) a.
Proof.
  intros Ha. unfold memory_init. destruct (negb _); [done|]. cbn [heap_mem].
  unfold set_block_size, set_block_is_free, set_block_next, sizeof_block in *.
  rewrite load8_store_le_ne by (unfold disjoint_ranges; lia).
  rewrite load8_store8_ne by lia. by rewrite load8_store_le_ne by (unfold disjoint_ranges; lia).
Qed.

(** What the boot loader and the C start-up leave behind: zeroed statics, an
    empty root table outside the first two pages of the heap. *)
Record boot_ready (sym : symbols) (y : system) : Prop := {
  br_heap : memory_initialized (k_heap (y_kernel y)) = 0;
  br_next : next_pid (y_kernel y) = 1;
  br_cur : current_process_index (y_kernel y) = 0%nat;
  br_kheap : kernel_heap (y_paging y) = KERNEL_BASE;
  br_root : boot_root (paging_view (y_kernel y) (y_paging y)) (boot_pml4_addr sym) 8192;
}.

Definition second_page : Z := MEMORY_START + PAGE_SIZE.

(** The memory as the boot leaves it for the processes. *)
Record memory_ready (y : system) ts : Prop := {
  mr_wf : paging_wf (paging_view (y_kernel y) (y_paging y)) ts;
  mr_second : ts !! second_page = None;
  mr_bitmap : bitmap (y_paging y) = BITMAP_ADDR;
  mr_size : bitmap_size (y_paging y) = 4096;
  mr_used : forall j, 0 <= j < 1024 -> frame_used (paging_view (y_kernel y) (y_paging y)) j = true;
  mr_stack : translate (paging_view (y_kernel y) (y_paging y)) KERNEL_BASE <> None;
  mr_below : translate (paging_view (y_kernel y) (y_paging y)) (KERNEL_BASE - 8) = None;
  mr_rsp0 : rsp0 (y_tss y) = KERNEL_BASE;
  mr_start : memory_start (k_heap (y_kernel y)) = MEMORY_START;
  mr_init : memory_initialized (k_heap (y_kernel y)) = 1;
}.

Lemma boot_used_below s' :
  bitmap_size s' = 4096 -> (forall j, 0 <= j < nbits s' -> frame_used s' j = boot_used (bitmap_size s') j) ->
  used_below 1024 s'.
Proof.
  intros Hsz Hu j Hj. rewrite Hu, Hsz by done. unfold boot_used. change (pages_of 4096) with 1.
  destruct (Z.ltb_spec j 1024), (Z.leb_spec 256 j), (Z.ltb_spec j (256 + 1)); done || lia.
Qed.
End Memory_modules.

Section Modules.
Implicit Types (ts : gmap Z nat) (s : paging).

(** Before [paging_init]: the heap is initialised, only the terminal changed besides. *)
Lemma boot_root_after_memory_init r k s t :
  boot_root (paging_view k s) r 8192 ->
  boot_root (paging_view (set_k_term t (set_k_heap (memory_init (k_heap k)) k)) s) r 4096.
Proof.
  intros (Hm & Hr & Hd & He). split; [done|]. split; [done|]. split.
  - unfold disjoint_ranges in *. lia.
  - intros i Hi. rewrite <- (He i Hi). f_equal. apply entry_ext; [|done]. intros a Ha.
    apply load8_memory_init. unfold disjoint_ranges, BITMAP_ADDR, MEMORY_START, sizeof_block in *. lia.
Qed.

(** [paging_init] and [kmalloc_page], whatever the terminal. *)
Lemma paging_boot_ok sym s t :
  kernel_heap s = KERNEL_BASE -> boot_root s (boot_pml4_addr sym) 4096 ->
  ~ (boot_pml4_addr sym <= second_page < boot_pml4_addr sym + PAGE_SIZE) ->
  exists s1 s2 ts, paging_init (boot_pml4_addr sym) kernel_mmap s = Some s1 /\
    kmalloc_page (set_pg_term t s1) = (KERNEL_BASE, s2) /\
    paging_wf s2 ts /\ ts !! second_page = None /\ bitmap s2 = BITMAP_ADDR /\ bitmap_size s2 = 4096 /\
    (forall j, 0 <= j < 1024 -> frame_used s2 j = true) /\
    translate s2 KERNEL_BASE <> None /\ translate s2 (KERNEL_BASE - 8) = None.
Proof.
  intros Hk Hroot Hsecond. set (r := boot_pml4_addr sym) in *.
  destruct (kernel_mmap_init r s) as (s1 & E & Hsz).
  destruct (paging_init_frames _ _ _ _ E ltac:(lia)) as (Hb & Hp & Hkh & Hu & _).
  rewrite <- Hsz in Hroot. pose proof (paging_init_wf _ _ _ _ E ltac:(lia) Hroot) as Hwf.
  pose proof (boot_used_below s1 Hsz Hu) as Hub.
  assert (Hnb : nbits s1 = 32768) by (unfold nbits; by rewrite Hsz).
  assert (Hun : forall va, 0 <= va -> translate s1 va = None)
    by (intros; by apply (root_only_unmapped _ r)).
  rewrite Hk in Hkh.
  assert (Hk1 : kernel_heap (set_pg_term t s1) = KERNEL_BASE) by exact Hkh.
  destruct (kmalloc_page_below (set_pg_term t s1) {[r := 4%nat]} 1024) as (s2 & ts & e & Hkm & Hwf2 & Hb2 & Hs2 & Hu2 & Ht2 & Htr2).
  { by destruct Hwf; split. }
  { exact Hub. }
  { lia. }
  { change (nbits (set_pg_term t s1)) with (nbits s1). lia. }
  { lia. }
  1-4: rewrite Hk1.
  { unfold in_u, KERNEL_BASE. lia. }
  { by vm_compute. }
  { by vm_compute. }
  { apply (Hun KERNEL_BASE). unfold KERNEL_BASE. lia. }
  rewrite Hk1 in Hkm, Htr2.
  exists s1, s2, ts. split; [done|]. split; [done|]. split; [done|]. split.
  { assert (Hnb1 : nbits (set_pg_term t s1) = 32768) by exact Hnb.
    apply Ht2; rewrite ?Hnb1; [by vm_compute| |].
    - change (frame_used (set_pg_term t s1)) with (frame_used s1). rewrite Hub by (rewrite Hnb; by vm_compute). by vm_compute.
    - apply lookup_singleton_None. intros E'. apply Hsecond. unfold PAGE_SIZE. lia. }
  split; [by rewrite Hb2|]. split; [by rewrite Hs2|]. split; [|split].
  - intros j Hj. apply Hu2; change (nbits (set_pg_term t s1)) with (nbits s1); rewrite ?Hnb; [lia|].
    change (frame_used (set_pg_term t s1)) with (frame_used s1). rewrite Hub by (rewrite Hnb; lia).
    apply Z.ltb_lt. lia.
  - by rewrite Htr2, decide_True.
  - rewrite Htr2 by done. rewrite decide_False by by vm_compute. by apply Hun.
Qed.

Lemma init_memory_modules_ok sym y :
  boot_ready sym y ->
  exists y' ts t h, init_memory_modules sym y = Some y' /\ memory_ready y' ts /\
    y_kernel y' = set_k_term t (set_k_heap h (y_kernel y)) /\
    y_idt y' = init_idt (isr_stub sym) (idt_addr sym) (y_idt y).
Proof.
  intros [Hi Hn Hc Hk Hr]. unfold init_memory_modules. cbv zeta.
  match goal with |- context [paging_view ?k (y_paging y)] => set (k1 := k) end.
  assert (Hk1 : exists t, k1 = set_k_term t (set_k_heap (memory_init (k_heap (y_kernel y))) (y_kernel y)))
    by (eexists; reflexivity).
  clearbody k1. destruct Hk1 as [t1 ->].
  pose proof (boot_root_after_memory_init _ _ _ t1 Hr) as Hr1.
  set (k1 := set_k_term t1 _) in *.
  assert (Hsec : ~ (boot_pml4_addr sym <= second_page < boot_pml4_addr sym + PAGE_SIZE)).
  { destruct Hr as (_ & _ & Hd & _). unfold disjoint_ranges, second_page, BITMAP_ADDR, MEMORY_START, PAGE_SIZE in *. lia. }
  destruct (kernel_mmap_init (boot_pml4_addr sym) (paging_view k1 (y_paging y))) as (s0 & E0 & _).
  rewrite E0. cbn [mbind option_bind].
  destruct (gdt_init (tss_addr sym) (y_gdt y) (pg_term s0)) as [g t2].
  destruct (paging_boot_ok sym (paging_view k1 (y_paging y)) t2 Hk Hr1 Hsec)
    as (s1 & s2 & ts & E1 & Hkm & Hwf & Hs & Hb & Hsz & Hu & Hst & Hbe).
  rewrite E0 in E1. injection E1 as <-. rewrite Hkm.
  assert (Hmi : memory_start (k_heap k1) = MEMORY_START /\ memory_initialized (k_heap k1) = 1).
  { unfold k1. cbn [k_heap set_k_term set_k_heap]. unfold memory_init. rewrite Hi. done. }
  unfold tss_init. eexists _, ts, _, _. split; [reflexivity|]. cbn [y_kernel y_idt y_paging y_tss].
  split; [|split; reflexivity]. set (s3 := set_pg_term _ s2).
  split; cbn [y_kernel y_idt y_paging y_tss]; rewrite ?paging_view_put.
  - by destruct Hwf; split.
  - exact Hs.
  - exact Hb.
  - exact Hsz.
  - exact Hu.
  - exact Hst.
  - exact Hbe.
  - reflexivity.
  - apply Hmi.
  - apply Hmi.
Qed.
End Modules.

(** ** The first process *)

Section First_process.
Implicit Types (ts : gmap Z nat) (s : paging) (m : mem).

Definition shell_stack : Z := MEMORY_START + sizeof_block.

(** The entry of the process table [create_process] fills. *)
Definition shell_entry (sym : symbols) : process :=
  fresh_process (bytes_of "shell" ++ [0]) (shell_process_addr sym) 0 1 shell_stack 0 process0.

(** The block of the shell's stack, cut from a header of ones: its size lands in
    the first bytes of the bitmap, the rest's header behind the bitmap. *)
Lemma take_block_ones m :
  block_size m MEMORY_START = 2 ^ 64 - 1 ->
  let m' := take_block m MEMORY_START 4096 in
  block_size m' MEMORY_START = 4096 /\
  forall a, ~ (MEMORY_START <= a < MEMORY_START + sizeof_block) ->
    ~ (shell_stack + 4096 <= a < shell_stack + 4096 + sizeof_block) -> load8 m' a = load8 m a.
Proof.
  intros Hsz. unfold take_block. rewrite Hsz.
  rewrite (proj2 (Z.ltb_lt _ (2 ^ 64 - 1))) by by vm_compute.
  change (u64 (MEMORY_START + sizeof_block + 4096)) with (shell_stack + 4096).
  change (u64 (2 ^ 64 - 1 - 4096 - sizeof_block)) with (2 ^ 64 - 1 - 4096 - sizeof_block).
  unfold block_size, set_block_size, set_block_is_free, set_block_next, shell_stack, MEMORY_START, sizeof_block. cbv zeta. split.
  - rewrite load_store8_ne by (unfold disjoint_ranges; lia).
    rewrite load_store_le_ne by (unfold disjoint_ranges; lia). by rewrite load64_store64_eq.
  - intros a Ha Ha'. rewrite load8_store8_ne by lia.
    do 3 (rewrite load8_store_le_ne by (unfold disjoint_ranges; lia)).
    rewrite load8_store8_ne by lia. by rewrite load8_store_le_ne by (unfold disjoint_ranges; lia).
Qed.

(** The bits of the first bytes of a bitmap are those of its first word. *)
Lemma page_used_word m bm j : 0 <= j < 64 -> page_used m bm j = Z.testbit (load64 m bm) j.
Proof. intros Hj. rewrite page_used_testbit. by rewrite (testbit_load_le 8) by lia. Qed.

(** With frame 0 free the allocator hands out the null pointer. *)
Lemma pmm_alloc_zero s :
  frame_used s 0 = false -> 0 < bitmap_size s <= 2 ^ 37 -> fst (pmm_alloc_page s) = 0.
Proof.
  intros Hf Hs. unfold pmm_alloc_page. rewrite wrap_small by (unfold in_u; lia).
  destruct (Z.to_nat (bitmap_size s * 8)) eqn:E; [lia|]. cbn [pmm_search].
  unfold frame_used in Hf. by rewrite Hf.
Qed.

(** The terminal is written between the other updates: [set_k_term] moves inwards. *)
Lemma set_k_term_twice t t' (k : kernel heap) : set_k_term t (set_k_term t' k) = set_k_term t k.
Proof. done. Qed.
Lemma set_k_term_processes t v (k : kernel heap) :
  set_k_term t (set_processes v k) = set_processes v (set_k_term t k).
Proof. done. Qed.
Lemma set_k_term_pipes t v (k : kernel heap) : set_k_term t (set_pipes v k) = set_pipes v (set_k_term t k).
Proof. done. Qed.
Lemma set_k_term_signals t v (k : kernel heap) :
  set_k_term t (set_signal_handling_enabled v k) = set_signal_handling_enabled v (set_k_term t k).
Proof. done. Qed.
Lemma set_k_term_ticks t v (k : kernel heap) :
  set_k_term t (set_timer_ticks v k) = set_timer_ticks v (set_k_term t k).
Proof. done. Qed.
Lemma set_k_term_frequency t v (k : kernel heap) :
  set_k_term t (set_timer_frequency v k) = set_timer_frequency v (set_k_term t k).
Proof. done. Qed.
Lemma kprint_term msg (k : kernel heap) :
  exists t, kprint msg k = set_k_term t k /\ (terminal_inv (k_term k) -> terminal_inv t).
Proof. eexists. split; [reflexivity|]. apply terminal_inv_write. Qed.
Lemma kprint_bytes_term bs (k : kernel heap) :
  exists t, kprint_bytes bs k = set_k_term t k /\ (terminal_inv (k_term k) -> terminal_inv t).
Proof. eexists. split; [reflexivity|]. apply terminal_inv_write. Qed.
Lemma setcolor_term c (k : kernel heap) :
  exists t, setcolor c k = set_k_term t k /\ (terminal_inv (k_term k) -> terminal_inv t).
Proof. eexists. split; [reflexivity|]. intros H. exact H. Qed.

Create Rewrite HintDb kterm.
#[local] Hint Rewrite set_k_term_twice set_k_term_processes set_k_term_pipes set_k_term_signals
  set_k_term_ticks set_k_term_frequency : kterm.

(** Names the terminals that are written and collects their updates. *)
Ltac no_print k :=
  lazymatch k with
  | context [kprint _ _] => fail | context [kprint_bytes _ _] => fail | context [setcolor _ _] => fail
  | _ => idtac
  end.
Ltac push_terminal :=
  repeat (let t := fresh "t" in let Ht := fresh "Ht" in match goal with
  | |- context [kprint ?s ?k] => no_print k; destruct (kprint_term s k) as (t & -> & Ht)
  | |- context [kprint_bytes ?s ?k] => no_print k; destruct (kprint_bytes_term s k) as (t & -> & Ht)
  | |- context [setcolor ?c ?k] => no_print k; destruct (setcolor_term c k) as (t & -> & Ht)
  end); autorewrite with kterm.
(** Follows [terminal_inv] through the terminals named. *)
Ltac terminal_chain :=
  intros; repeat match goal with
  | H : terminal_inv _ -> terminal_inv _ |- _ =>
    specialize (H ltac:(first [assumption | apply terminal_inv_write; assumption]))
  end; assumption.

Lemma init_services_ok sym y :
  exists y' t, init_services sym y = Some y' /\
    y_kernel y' = set_signal_handling_enabled 1 (set_pipes (replicate MAX_PIPES pipe0)
      (set_processes (replicate MAX_PROCESSES process0) (set_timer_ticks 0
        (set_timer_frequency 100 (set_k_term t (y_kernel y)))))) /\
    (terminal_inv (k_term (y_kernel y)) -> terminal_inv t) /\
    y_paging y' = y_paging y /\ y_tss y' = y_tss y /\
    y_idt y' = register_interrupt_handler 0x80 (syscall_handler_addr sym)
      (register_interrupt_handler IRQ1 (keyboard_handler_addr sym)
        (register_interrupt_handler IRQ0 (timer_handler_addr sym) (y_idt y))).
Proof.
  unfold init_services, timer_init. change (clamp_frequency 100) with 100. cbv zeta.
  rewrite kprint_int_fits by by vm_compute. cbn [mbind option_bind].
  unfold keyboard_init, init_syscalls, init_processes, pipe_init, signal_init, fs_init. cbn [snd].
  push_terminal. eexists _, _. split; [reflexivity|]. cbn [y_kernel y_paging y_tss y_idt].
  split; [exact eq_refl|]. split; [terminal_chain|]. split; [reflexivity|]. split; reflexivity.
Qed.

(** [create_process] on the cleared table, given what the allocator does. *)
Lemma create_first sym (k : kernel heap) stk h :
  processes k = replicate MAX_PROCESSES process0 -> next_pid k = 1 ->
  alloc 4096 (k_heap k) = Some (stk, h) ->
  exists t, create_process (bytes_of "shell" ++ [0]) (shell_process_addr sym) 0 k =
    Some (1, set_k_term t (upd_proc 0
      (fresh_process (bytes_of "shell" ++ [0]) (shell_process_addr sym) 0 1 stk (timer_ticks k))
      (set_k_heap h (set_next_pid 2 k)))).
Proof.
  intros Hp Hn Ha. unfold create_process.
  assert (Hg : get_process 0 k = Some 0%nat) by (unfold get_process; by rewrite Hp).
  rewrite Hg, Hn. change (k_heap (set_next_pid ?x k)) with (k_heap k). rewrite Ha. cbn [mbind option_bind].
  change (fun process : Kernel.process => _) with
    (fresh_process (bytes_of "shell" ++ [0]) (shell_process_addr sym) 0 1 stk (timer_ticks k)).
  rewrite kprint_int_fits by by vm_compute. cbn [mbind option_bind]. push_terminal.
  eexists. exact eq_refl.
Qed.

Lemma start_shell_prints sym y k :
  create_process (bytes_of "shell" ++ [0]) (shell_process_addr sym) 0 (y_kernel y) = Some (1, k) ->
  exists y' t, start_shell sym y = Some y' /\ y_kernel y' = set_k_term t k /\
    (terminal_inv (k_term k) -> terminal_inv t) /\
    y_paging y' = y_paging y /\ y_tss y' = y_tss y /\ y_idt y' = y_idt y.
Proof.
  intros Hc. unfold start_shell. rewrite Hc. cbn [mbind option_bind].
  change (negb (1 =? 0)) with true. cbv iota.
  assert (Hw : forall q : kernel heap, kprint_int 5 1 q = Some (kprint_bytes [49] q)).
  { intros q. unfold kprint_int, terminal_writeint.
    assert (Hd : int_to_string (s32 1) = Some [49]) by by vm_compute. by rewrite Hd. }
  rewrite Hw. cbn [mbind option_bind]. push_terminal.
  eexists _, _. split; [exact eq_refl|]. cbn [y_kernel y_paging y_tss y_idt].
  split; [exact eq_refl|]. split; [terminal_chain|]. split; [exact eq_refl|]. split; exact eq_refl.
Qed.

Lemma start_shell_ok sym y :
  let k := y_kernel y in let h := k_heap k in
  processes k = replicate MAX_PROCESSES process0 -> next_pid k = 1 ->
  memory_start h = MEMORY_START -> memory_initialized h = 1 ->
  (forall a, MEMORY_START <= a < MEMORY_START + sizeof_block -> load8 (heap_mem h) a = 255) ->
  exists y' t, start_shell sym y = Some y' /\
    y_kernel y' = set_k_term t (upd_proc 0
      (fresh_process (bytes_of "shell" ++ [0]) (shell_process_addr sym) 0 1 shell_stack (timer_ticks k))
      (set_k_heap (set_heap_mem (take_block (heap_mem h) MEMORY_START 4096) h) (set_next_pid 2 k))) /\
    y_paging y' = y_paging y /\ y_tss y' = y_tss y /\ y_idt y' = y_idt y.
Proof.
  intros k h Hp Hn Hs Hi Hones.
  destruct (kmalloc_ones 4096 h Hs ltac:(by rewrite Hi) Hones ltac:(lia)) as [_ Hkm].
  change (align8 4096) with 4096 in Hkm.
  destruct (create_first sym k _ _ Hp Hn Hkm) as [t Hc].
  destruct (start_shell_prints sym y _ Hc) as (y' & t' & E & Hk & _ & Hrest).
  exists y', t'. split; [exact E|]. split; [exact Hk|exact Hrest].
Qed.

(** The processes, pipes and messages stand on any heap. *)
Lemma services_wf sym y :
  alloc_wf (k_heap (y_kernel y)) -> terminal_inv (k_term (y_kernel y)) -> next_pid (y_kernel y) = 1 ->
  current_process_index (y_kernel y) = 0%nat -> next_pipe_id (y_kernel y) = 1 ->
  exists y1, init_services sym y = Some y1 /\ kernel_wf (y_kernel y1) /\ next_pid (y_kernel y1) = 1 /\
    processes (y_kernel y1) = replicate MAX_PROCESSES process0.
Proof.
  intros Hh Ht Hn Hc Hpi. destruct (init_services_ok sym y) as (y1 & t & E & Hk & Hti & _).
  exists y1. split; [exact E|]. rewrite Hk. split; [|split; [exact Hn|reflexivity]].
  apply cleared_wf; [reflexivity|exact Hc|exact Hn|exact Hh|exact (Hti Ht)|reflexivity|exact Hpi].
Qed.
End First_process.

(** ** The whole boot *)

Section Whole_boot.

(** The state [kernel_init] reaches: the process table, the page tables and the
    memory of the state [y1] after the memory modules, changed by the stack of
    the shell, and the statics. *)
Record booted (sym : symbols) (y1 y' : system) : Prop := {
  bt_processes : processes (y_kernel y') = <[0%nat := shell_entry sym]> (replicate MAX_PROCESSES process0);
  bt_next : next_pid (y_kernel y') = 2;
  bt_cur : current_process_index (y_kernel y') = 0%nat;
  bt_pipes : pipes (y_kernel y') = replicate MAX_PIPES pipe0;
  bt_signals : signal_handling_enabled (y_kernel y') = 1;
  bt_ticks : timer_ticks (y_kernel y') = 0 /\ timer_frequency (y_kernel y') = 100;
  bt_heap : k_heap (y_kernel y') = set_heap_mem
    (take_block (heap_mem (k_heap (y_kernel y1))) MEMORY_START 4096) (k_heap (y_kernel y1));
  bt_paging : y_paging y' = y_paging y1;
  bt_tss : y_tss y' = y_tss y1;
  bt_idt : y_idt y' = register_interrupt_handler 0x80 (syscall_handler_addr sym)
    (register_interrupt_handler IRQ1 (keyboard_handler_addr sym)
      (register_interrupt_handler IRQ0 (timer_handler_addr sym) (y_idt y1)));
}.

(** The first header of the heap is ones: it is the start of the bitmap. *)
Lemma header_ones y ts a :
  memory_ready y ts -> MEMORY_START <= a < MEMORY_START + sizeof_block ->
  load8 (heap_mem (k_heap (y_kernel y))) a = 255.
Proof.
  intros [] Ha. apply (boot_byte (paging_view (y_kernel y) (y_paging y)) a); [exact mr_bitmap0|exact mr_used0|].
  unfold BITMAP_ADDR, MEMORY_START, sizeof_block in *. lia.
Qed.

Lemma kernel_init_ok sym y :
  boot_ready sym y ->
  exists y1 y' ts, kernel_init sym y = Some y' /\ memory_ready y1 ts /\ booted sym y1 y' /\
    y_idt y1 = init_idt (isr_stub sym) (idt_addr sym) (y_idt y).
Proof.
  intros Hb. destruct (init_memory_modules_ok sym y Hb) as (y1 & ts & t1 & h1 & E1 & Hr & Hk1 & Hd1).
  destruct (init_services_ok sym y1) as (y2 & t2 & E2 & Hk2 & _ & Hp2 & Ht2 & Hd2).
  assert (Hh2 : k_heap (y_kernel y2) = k_heap (y_kernel y1)) by (rewrite Hk2; reflexivity).
  destruct Hb as [_ Hn Hc _ _].
  assert (Hn1 : next_pid (y_kernel y1) = 1) by (rewrite Hk1; exact Hn).
  assert (Hc1 : current_process_index (y_kernel y1) = 0%nat) by (rewrite Hk1; exact Hc).
  assert (Hp2' : processes (y_kernel y2) = replicate MAX_PROCESSES process0) by (rewrite Hk2; reflexivity).
  assert (Hn2 : next_pid (y_kernel y2) = 1) by (rewrite Hk2; exact Hn1).
  assert (Hti2 : timer_ticks (y_kernel y2) = 0) by (rewrite Hk2; reflexivity).
  destruct (start_shell_ok sym y2) as (y3 & t3 & E3 & Hk3 & Hp3 & Ht3 & Hd3).
  { exact Hp2'. }
  { exact Hn2. }
  { rewrite Hh2. apply Hr. }
  { rewrite Hh2. apply Hr. }
  { intros a Ha. rewrite Hh2. by apply (header_ones _ ts). }
  exists y1, y3, ts. split; [unfold kernel_init; rewrite E1; cbn [mbind option_bind]; rewrite E2; exact E3|].
  split; [exact Hr|]. split; [|exact Hd1]. rewrite Hh2, Hti2 in Hk3. split.
  - rewrite Hk3. unfold upd_proc. cbn [processes set_k_term set_processes set_k_heap set_next_pid].
    rewrite Hp2'. reflexivity.
  - rewrite Hk3. reflexivity.
  - rewrite Hk3. cbn [current_process_index set_k_term upd_proc set_processes set_k_heap set_next_pid].
    rewrite Hk2. exact Hc1.
  - rewrite Hk3. cbn [pipes set_k_term upd_proc set_processes set_k_heap set_next_pid]. rewrite Hk2. reflexivity.
  - rewrite Hk3. cbn [signal_handling_enabled set_k_term upd_proc set_processes set_k_heap set_next_pid].
    rewrite Hk2. reflexivity.
  - rewrite Hk3. cbn [timer_ticks timer_frequency set_k_term upd_proc set_processes set_k_heap set_next_pid].
    rewrite Hk2. split; reflexivity.
  - rewrite Hk3. reflexivity.
  - congruence.
  - congruence.
  - congruence.
Qed.

(** The page tables and the bitmap after the shell's stack has been allocated. *)
Lemma booted_memory sym y1 y' ts :
  memory_ready y1 ts -> booted sym y1 y' ->
  let s := paging_view (y_kernel y') (y_paging y') in
  (forall j, 0 <= j < 64 -> frame_used s j = (j =? 12)) /\
  (forall va, 0 <= va -> translate s va = translate (paging_view (y_kernel y1) (y_paging y1)) va).
Proof.
  intros Hr [] s. pose proof (fun a => header_ones y1 ts a Hr) as Hones. destruct Hr.
  set (s1 := paging_view (y_kernel y1) (y_paging y1)) in *.
  destruct (take_block_ones (pg_mem s1)) as [Hw Hl].
  { apply (load_le_ones 8). intros a Ha. apply Hones. unfold sizeof_block. lia. }
  set (m' := take_block (pg_mem s1) MEMORY_START 4096) in *.
  assert (Hm : pg_mem s = m') by (unfold s; cbn [pg_mem paging_view set_pg_term set_pg_mem]; by rewrite bt_heap0).
  split.
  - intros j Hj. unfold frame_used. change (bitmap s) with (bitmap (y_paging y')).
    rewrite Hm, bt_paging0, mr_bitmap0, page_used_word by done.
    change (load64 m' BITMAP_ADDR) with (block_size m' MEMORY_START). rewrite Hw.
    change 4096 with (2 ^ 12). rewrite Z.pow2_bits_eqb by lia. apply Z.eqb_sym.
  - intros va Hva. rewrite <- (translate_outside s1 ts m' va mr_wf0 Hva).
    + unfold translate. rewrite Hm. change (pml4 s) with (pml4 (y_paging y')). by rewrite bt_paging0.
    + intros t l a Ht Ha. destruct (pwf_table _ _ mr_wf0 _ _ Ht) as (_ & _ & Hmod & Hd & _). apply Hl.
      * change (bitmap s1) with (bitmap (y_paging y1)) in Hd. change (bitmap_size s1) with (bitmap_size (y_paging y1)) in Hd.
        rewrite mr_bitmap0, mr_size0 in Hd.
        unfold disjoint_ranges, BITMAP_ADDR, MEMORY_START, sizeof_block in *. lia.
      * intros Ha'. assert (t = second_page) as ->; [|congruence].
        unfold second_page, shell_stack, MEMORY_START, sizeof_block, PAGE_SIZE in *.
        pose proof (Z.div_mod t 4096). lia.
Qed.
End Whole_boot.

(** ** A concrete machine *)

Definition demo_symbols : symbols :=
  Symbols (fun n => 0x110000 + 16 * u8 n) 0x120000 0x121000 0x3000 0x122000 0x123000 0x124000 0x125000.

Definition demo_system : system :=
  System (Kernel (Heap 0 0 ∅) (Terminal 0 0 0 ∅) (replicate MAX_PROCESSES process0) 0 1 0 0 0 0
            (replicate MAX_PIPES pipe0) 1)
    (Paging ∅ 0 0 0 0 0 0 0 KERNEL_BASE (Terminal 0 0 0 ∅)) (Idt [] 0 0 []) (replicate 6 gdt_entry0) tss_zero
    (Keyboard 0 0 0 0 0 0 0 (replicate 256 0) 0 0) fs_info0 [].

Lemma demo_ready : boot_ready demo_symbols demo_system.
Proof.
  split; try exact eq_refl. split; [exact eq_refl|]. split; [vm_compute; split; congruence|].
  split; [left; vm_compute; congruence|]. intros i _. unfold entry. rewrite load_le_zero; [exact eq_refl|].
  intros b _. unfold load8. cbn [pg_mem set_pg_mem set_pg_term paging_view demo_system y_kernel k_heap heap_mem].
  by rewrite lookup_empty.
Qed.

(** ** Properties *)

(** C22. From zeroed statics and an empty root table the boot runs through: it ends
    with one process, the ready shell with pid 1, 63 free entries, no pipe, signals
    enabled and the timer at 100 Hz; the handlers of the timer, the keyboard and the
    system calls are registered, but only the 32 exception vectors have a gate, each
    with the address of its stub.  (The descriptors of the GDT, the keyboard and the
    file system are not part of the statement.) *)
Theorem kernel_init_spec (sym : symbols) (y : system) :
  boot_ready sym y ->
  exists y', kernel_init sym y = Some y' /\
    (forall i, proc (y_kernel y') i = if decide (i = 0%nat) then shell_entry sym else process0) /\
    next_pid (y_kernel y') = 2 /\ pipes (y_kernel y') = replicate MAX_PIPES pipe0 /\
    signal_handling_enabled (y_kernel y') = 1 /\ timer_frequency (y_kernel y') = 100 /\
    interrupt_handlers (y_idt y') !! 32%nat = Some (timer_handler_addr sym) /\
    interrupt_handlers (y_idt y') !! 33%nat = Some (keyboard_handler_addr sym) /\
    interrupt_handlers (y_idt y') !! 128%nat = Some (syscall_handler_addr sym) /\
    forall n, 0 <= n < 256 -> gate_present (gate_at (y_idt y') n) = (n <? 32) /\
      (n < 32 -> in_u 64 (isr_stub sym n) -> gate_offset (gate_at (y_idt y') n) = isr_stub sym n).
Proof.
  intros Hb. destruct (kernel_init_ok sym y Hb) as (y1 & y' & ts & E & _ & [] & Hd).
  exists y'. split; [exact E|]. split.
  { intros i. unfold proc. rewrite bt_processes0. case_decide as Hi; [subst; reflexivity|].
    rewrite list_lookup_insert_ne by congruence.
    destruct (replicate MAX_PROCESSES process0 !! i) eqn:El; [|reflexivity].
    apply lookup_replicate in El as [-> _]. reflexivity. }
  split; [exact bt_next0|]. split; [exact bt_pipes0|]. split; [exact bt_signals0|].
  split; [apply bt_ticks0|]. rewrite bt_idt0, Hd.
  split; [exact eq_refl|]. split; [exact eq_refl|]. split; [exact eq_refl|]. intros n Hn.
  change (gate_at (register_interrupt_handler 0x80 _ _) n) with
    (gate_at (init_idt (isr_stub sym) (idt_addr sym) (y_idt y)) n).
  rewrite init_idt_gates by done. split; [destruct (n <? 32); reflexivity|].
  intros Hlt Hisr. rewrite (proj2 (Z.ltb_lt n 32)) by done. by apply gate_offset_gate.
Qed.

Lemma kernel_init_spec_witness :
  exists y', kernel_init demo_symbols demo_system = Some y' /\
    proc (y_kernel y') 0 = shell_entry demo_symbols /\ gate_present (gate_at (y_idt y') 33) = false.
Proof.
  destruct (kernel_init_spec demo_symbols demo_system demo_ready)
    as (y' & E & Hp & _ & _ & _ & _ & _ & _ & _ & Hg).
  exists y'. split; [exact E|]. split; [exact (Hp 0%nat)|exact (proj1 (Hg 33 ltac:(lia)))].
Defined.

(** C23. The frame bitmap lies over the heap of memory.c, so the shell's stack is cut
    out of the bitmap itself and the block's size overwrites its first word: the
    frames 0 to 63 but 12 count as free, and the next page allocation hands out frame
    0, the null pointer.  The stack of the task state starts at the bottom of its
    page, below which nothing is mapped. *)
Theorem kernel_init_memory (sym : symbols) (y : system) :
  boot_ready sym y ->
  exists y', kernel_init sym y = Some y' /\
    let s := paging_view (y_kernel y') (y_paging y') in
    p_stack (proc (y_kernel y') 0) = MEMORY_START + sizeof_block /\
    bitmap s <= p_stack (proc (y_kernel y') 0) < bitmap s + bitmap_size s /\
    (forall j, 0 <= j < 64 -> frame_used s j = (j =? 12)) /\
    fst (paging_alloc_page s) = 0 /\
    translate s (rsp0 (y_tss y')) <> None /\ translate s (rsp0 (y_tss y') - 8) = None.
Proof.
  intros Hb. destruct (kernel_init_ok sym y Hb) as (y1 & y' & ts & E & Hr & Hbt & _).
  exists y'. split; [exact E|]. destruct (booted_memory sym y1 y' ts Hr Hbt) as [Hf Htr]. cbv zeta.
  set (s := paging_view (y_kernel y') (y_paging y')) in *. destruct Hbt.
  assert (Hst : p_stack (proc (y_kernel y') 0) = shell_stack) by (unfold proc; by rewrite bt_processes0).
  assert (Hbm : bitmap s = BITMAP_ADDR) by (change (bitmap s) with (bitmap (y_paging y')); rewrite bt_paging0; apply Hr).
  assert (Hsz : bitmap_size s = 4096) by (change (bitmap_size s) with (bitmap_size (y_paging y')); rewrite bt_paging0; apply Hr).
  rewrite Hst, bt_tss0, (mr_rsp0 _ _ Hr), Hbm, Hsz. split; [reflexivity|].
  split; [unfold shell_stack, BITMAP_ADDR, MEMORY_START, sizeof_block; lia|]. split; [exact Hf|].
  split; [apply pmm_alloc_zero; [exact (Hf 0 ltac:(lia))|rewrite Hsz; lia]|].
  rewrite !Htr by (unfold KERNEL_BASE; lia). split; apply Hr.
Qed.

Lemma kernel_init_memory_witness :
  exists y', kernel_init demo_symbols demo_system = Some y' /\
    fst (paging_alloc_page (paging_view (y_kernel y') (y_paging y'))) = 0.
Proof.
  destruct (kernel_init_memory demo_symbols demo_system demo_ready) as (y' & E & _ & _ & _ & Ha & _).
  exists y'. exact (conj E Ha).
Defined.

(** C24. The shell never runs: it is the only process and the current one, which the
    search of [schedule] takes for none, so that any number of turns of the loop of
    [kernel_main] leaves it ready and never dispatched, whatever the handlers. *)
Theorem kernel_main_idles (call_handler : Z -> Z -> kernel heap -> option (kernel heap))
    (fuel : nat) (sym : symbols) (y : system) (n : nat) :
  (0 < fuel)%nat -> boot_ready sym y ->
  exists y', kernel_init sym y = Some y' /\ kernel_main call_handler fuel sym n y = Some (y_kernel y') /\
    p_state (proc (y_kernel y') 0) = PROCESS_STATE_READY /\ p_cpu_time (proc (y_kernel y') 0) = 0.
Proof.
  intros Hf Hb. destruct (kernel_init_ok sym y Hb) as (y1 & y' & ts & E & _ & [] & _).
  exists y'. split; [exact E|]. split; [|unfold proc; rewrite bt_processes0; split; reflexivity].
  unfold kernel_main. rewrite E. cbn [mbind option_bind]. set (k := y_kernel y') in *.
  assert (Hs : schedule call_handler fuel k = Some k).
  { destruct fuel as [|f]; [lia|]. apply schedule_none. intros d Hd. unfold proc.
    rewrite bt_processes0, bt_cur0. unfold after. rewrite Nat.add_0_l, Nat.mod_small by lia.
    rewrite list_lookup_insert_ne by lia. rewrite lookup_replicate_2 by lia. reflexivity. }
  induction n as [|n IH]; cbn [kernel_loop]; [reflexivity|]. by rewrite Hs.
Qed.

Lemma kernel_main_idles_witness :
  exists k, kernel_main (fun _ _ k => Some k) 1 demo_symbols 1000 demo_system = Some k /\
    p_state (proc k 0) = PROCESS_STATE_READY.
Proof.
  destruct (kernel_main_idles (fun _ _ k => Some k) 1 demo_symbols demo_system 1000 ltac:(lia) demo_ready)
    as (y' & _ & E & Hp & _).
  exists (y_kernel y'). exact (conj E Hp).
Defined.

(** C18. On a well-formed heap the service modules and the start of the shell
    establish the invariant of the kernel, with the shell as its only process: what
    the theorems on processes, signals, pipes and system calls start from. *)
Theorem services_establish_wf (sym : symbols) (y : system) (bs : list blk) :
  heap_wf (k_heap (y_kernel y)) bs -> terminal_inv (k_term (y_kernel y)) -> next_pid (y_kernel y) = 1 ->
  current_process_index (y_kernel y) = 0%nat -> next_pipe_id (y_kernel y) = 1 ->
  exists y1 y', init_services sym y = Some y1 /\ start_shell sym y1 = Some y' /\
    kernel_wf (y_kernel y') /\ next_pid (y_kernel y') = 2 /\
    p_name (proc (y_kernel y') 0) = bytes_of "shell" ++ replicate 27 0 /\
    rip (p_registers (proc (y_kernel y') 0)) = shell_process_addr sym /\
    forall i, runnable (proc (y_kernel y') i) = bool_decide (i = 0%nat).
Proof.
  intros Hh Ht Hn Hc Hpi.
  destruct (services_wf sym y (ex_intro _ bs Hh) Ht Hn Hc Hpi) as (y1 & E1 & Hwf & Hn1 & Hps).
  destruct (create_process_state (y_kernel y1) (bytes_of "shell" ++ [0]) (shell_process_addr sym) 0 Hwf)
    as (stk & h & t & Hcr & _); [done|lia|].
  destruct (wf_create_process (y_kernel y1) (bytes_of "shell" ++ [0]) (shell_process_addr sym) 0 Hwf ltac:(done))
    as (pid & k' & Hcr' & Hwf').
  rewrite Hcr in Hcr'. apply (inj Some), pair_equal_spec in Hcr' as [_ <-].
  rewrite Hn1 in Hcr. destruct (start_shell_prints sym y1 _ Hcr) as (y' & t' & E & Hk & Hti & _).
  exists y1, y'. split; [exact E1|]. split; [exact E|]. rewrite Hn1 in Hwf'.
  assert (Hpr : forall i, proc (y_kernel y') i =
    if decide (i = 0%nat) then fresh_process (bytes_of "shell" ++ [0]) (shell_process_addr sym) 0 1 stk
                               (timer_ticks (y_kernel y1)) process0 else process0).
  { intros i. rewrite Hk. unfold proc. cbn [processes set_k_term upd_proc set_processes set_k_heap set_next_pid].
    rewrite Hps. case_decide as Hi; [subst; reflexivity|]. change (Z.to_nat (1 - 1)) with 0%nat.
    rewrite list_lookup_alter_ne by congruence. apply default_replicate. }
  split; [rewrite Hk; apply wf_set_term; [exact Hwf'|apply Hti, Hwf']|].
  split; [rewrite Hk; reflexivity|]. split; [rewrite Hpr; reflexivity|]. split; [rewrite Hpr; reflexivity|].
  intros i. rewrite Hpr. case_decide; [by rewrite bool_decide_true|by rewrite bool_decide_false].
Qed.

Lemma services_establish_wf_witness :
  let y := System boot_kernel (y_paging demo_system) (y_idt demo_system) [] tss_zero
             (y_keyboard demo_system) fs_info0 [] in
  exists y1 y', init_services demo_symbols y = Some y1 /\ start_shell demo_symbols y1 = Some y' /\
    kernel_wf (y_kernel y').
Proof.
  intros y. destruct (services_establish_wf demo_symbols y blocks0 heap0_wf) as (y1 & y' & E1 & E & Hwf & _).
  - unfold terminal_inv, VGA_HEIGHT, VGA_WIDTH; simpl; lia.
  - reflexivity.
  - reflexivity.
  - reflexivity.
  - exists y1, y'. exact (conj E1 (conj E Hwf)).
Defined.
